(* ===== verification/_CoqProject ===== *)
-Q . S2P
Prelude.v
Status.v
PriorityQueue.v
Alloc.v
AvlTree.v
MsgQueue.v
IntLog.v
Memory.v
Paging.v
EarlyBoot.v
Mmgr.v
Heap.v
Boot.v
Space.v
Frames.v
Isolation.v
FirstSpace.v
Context.v
Entry.v
Start.v
Kernel.v
Syscalls.v
Ports.v
System.v
Terminate.v
Signals.v
Paged.v
Console.v
Stdio.v
Descriptors.v
Apic.v
Exceptions.v
Multiboot.v
Elf.v
Loader.v
Startup.v
Bootstrap.v
BootMemory.v

