(* ===== verification/Prelude.v ===== *)
(** * The Quark kernel, verified piece by piece

    Quark is a small microkernel for i386: processes with their own address
    spaces, a priority scheduler, message passing between processes and through
    ports, and a handful of system calls.  This library models the C code under
    src/ and proves what its parts do, including what they do wrong.

    ** Parts of the program and files of the library

    - Prelude (this file): outcomes of C code, state passing, 32-bit integers,
      bit fields, arrays.  Status: the numbers of types/status.h,
      types/syscallid.h, kernel.h and platform/paging.h.
    - PriorityQueue (priorityqueue.c): the scheduler's array heap, with the
      stale cells past its size that the code reads.
    - Alloc (heap.h as an interface): [KHeap] has the two calls, [KHeapOk] the
      laws, and there is a small instance for concrete runs.
    - AvlTree (avltree.c): the tables of processes, ports and handlers, with the
      recorded heights and the addresses of the nodes.
    - MsgQueue (queue.c): linked queues, nodes in a store.
    - IntLog (math.c), Memory (string.c): logarithms and byte routines.
    - Paging (x86/paging.c): the two-level tables.  Memory is physical words and
      CR3; every access goes through the processor's translation, as in the
      code, which reaches its tables through the directory's last entry.
    - Mmgr (mmgr.c): frames and mappings.  libmalloc, which is not in this
      repository, is the class [BitmapHeap] with the laws [BitmapHeapOk].
    - Heap (heap.c): kmalloc over libmalloc's ranges and the memory manager.
    - Space: the interface between the memory manager and the code that touches
      user memory, implemented by Mmgr's machine, with laws and a flat instance.
      Frames: how many pages the allocator can still serve, as a second interface
      ([FrameBudget]), with which a theorem says that memory is enough.
    - Context (x86/context.c): saved contexts and user stacks.
    - Kernel (kernel.c): processes, scheduler, messages, ports, interrupt
      handlers, system call table, over all of the above.
    - Syscalls (syscalls.c): the calls user mode can make, and the table
      [kernel_initialize] registers.  Ports: the crash of the port table.
    - Isolation: the memory manager over a set of address spaces.  [wf_world]
      keeps their tables, directories and frames apart; the manager is shown to
      serve each request as an abstract memory of private spaces would, and it
      implements the interfaces of Space ([mm_spaces_ok], [mm_spaces_map]).
      FirstSpace: how the first of them is made while the kernel still runs in the
      directory of the boot, which is no such space since the image, with its
      tables, is mapped at its physical addresses there.
    - System (x86/preempt.S, x86/isr.c, the entries of x86/entry.S): the running
      system as a step relation.  A step is what the running program writes to
      its own memory, followed by a preemption or a system call.  Paged instantiates
      it with the page tables of Isolation.
    - Entry (x86/preempt.S, x86/load_context.S): the same entries instruction by
      instruction, on a processor with registers, segments and a stack.
    - Terminate ([kernel_terminate_process] of kernel.c): how a process ends.
      Signals ([kernel_execute_interrupt_handler]): how one enters its handler.
    - Console (x86/putc.c), Stdio (stdio.c): the screen and formatted output.
    - Descriptors (x86/idt.c), Apic (x86/apic.c, x86/interrupts.c): segment and gate
      descriptors, the interrupt controllers.  Exceptions (x86/isr.c, [irq_enable],
      [irq_disable], [panic]): the handlers, with what the processor does before
      and after them.
    - EarlyBoot ([start_paging]), Start (x86/entry.S), Multiboot (x86/multiboot2.c),
      Boot (the memory part of [kernel_initialize], [initialize_page_map],
      [kminit], the loop of [x86_startup]), Elf (elf.c), Loader
      ([kernel_load_module]), Startup (the rest of [kernel_initialize]), Bootstrap
      ([x86_startup] and [kernel_initialize] as a whole), BootMemory (all of
      it together): from the boot loader to the first process.

    kernel.c calls the containers with addresses of heap objects; Kernel.v keeps
    one store per object type, so a dangling pointer is visible as a fault.  Its
    state [kst] is the kernel's variables, these stores, the heap, and a world: the
    address spaces, through the classes of Space.  The kernel's theorems are proved
    against the classes, so they hold over the page tables and over the flat
    spaces used in some of the concrete runs.

    ** What the theorems show

    - The system: in every reachable state the active and the ready processes are
      exactly the runnable ones ([no_process_lost]); a step disturbs no other
      process but for the delivery of a message ([step_isolated]); a preempted
      program gets its registers back ([preempted_program_resumes]); preemption
      always switches to a process of least priority value.  Over the page
      tables, no access below the kernel reaches a table, a directory or a free frame, and
      no frame is reached from two pages ([paged_spaces_private]).  All of this is
      for programs that make only [allowed] calls: they map user pages and receive into
      mapped buffers of their own, which the code does not check.
    - Entry and exit: the assembly saves exactly the interrupted registers and gives
      them back ([preempt_resume]); a system call keeps what [syscall_call_return]
      says; every vector of isr.c ends as [exceptions_spec] says, the double fault in its
      own task; a signal's handler is entered with its frame on the process's
      stack and no register changed but the program counter and the stack pointer
      ([kernel_execute_interrupt_handler_spec]).
    - Boot: [_start] reaches [x86_startup] with the image and the boot table mapped
      and nothing else ([start_spec]); when the kernel heap is made the address
      space is exactly [kernel_layout] ([boot_memory_spec]), which still has the identity
      map of [_start]; when the allocator can serve its frames one module is loaded
      into a new space with its segments, a stack and nothing else and is
      entered as the first process with interrupts on ([kernel_load_module_spec],
      [kernel_run_enters_module]); what happens with fewer frames is stated
      too, in [kernel_spawn_process_spec] by the results of the two calls for the stack.  [power_on_enters_first_process] is the whole
      way: from the boot loader's hand-over to a first process whose memory
      has the bytes the boot loader put down, in a state that is reachable in the
      sense of System, so that the theorems on the running system start where
      the boot ends.  libmalloc's part in it are the laws [libmalloc_ready].
      [whole_boot] evaluates all of it on a concrete machine.
    - Containers: insertion and removal on the trees implement a finite map
      ([avl_insert_spec], [avl_remove_spec]); the queue is a first-in-first-out
      list ([queue_refines_fifo]); the heap yields its values in order of
      priority ([drain_sorted]).
    - Memory: [set_pte] and [map_page] give exactly the translation asked for and
      move no other page; the manager refines a memory of private spaces
      ([memory_manager_refines]) and new spaces join it
      ([create_address_space_adds]); [kmalloc] and [mmap] leave every page of a
      block mapped.
    - Kernel: direct and queued delivery of messages with the exact state they leave
      ([kernel_send_message_delivers], [kernel_queue_message_spec]), blocking and waking,
      the choice of the scheduler with room in its queue and without
      ([kernel_advance_scheduler_spec]), ports as a map from numbers to owners, the
      dispatch of system calls, what a terminated process leaves; every status code on every path stated.
    - Devices and output: what [printf] prints, where the cursor goes, which
      gates user mode can raise, what the controllers are told.
    - Faults: [munmap] never returns, [mmap] hangs without frames, the table of
      system calls is read past its end, eight [open_port] calls prepare a NULL
      dereference in the ninth from every state with no open port
      ([open_port_crashes_kernel]), one of four equal processes starves, a full
      ready queue loses the running process, a second boot module page-faults
      while it is loaded, a boot table below the kernel stops [_start], a user page
      fault ends in a protection fault, the bitmap's page table is not wiped, a kernel page in
      a new table is missing from the other spaces, heap and signal code lose
      frames and stack, and the return from a signal's handler restores the wrong words
      ([kernel_signal_return_loses_program]).

    ** Conventions, bounds and fuel

    A C function returns an [outcome]: a value, [Fault] for undefined behaviour
    or a page fault, [Panic], or [OutOfFuel].  Loops over machine ranges are
    structural in a count or take fuel.  Where fuel appears in a statement the
    theorem says how much is enough ([enough_rounds] for mmap, one round per
    page for [map_block] and the loops of Boot and Loader, one per header for the
    ELF loader, one per tag for the boot table, 36 instructions
    for [_start], the size of the live part for
    [heapify]), or that no amount is, which is divergence.  32-bit values are Z
    with [u32] and [s32] where the code can wrap; addresses of objects do not
    wrap.

    ** Not modelled

    The lines the kernel prints on its own paths after the boot, and the text of a
    panic inside them (a panic is the outcome [Panic]; [panic_message] is the
    function).  The linker script: its symbols are parameters, its layout
    hypotheses.  [sprintf], whose body is empty, [write_msr] and [inb]'s port.
    libmalloc is not in the repository: its ranges are classes with laws, its
    initialisation and memory maps parameters.  The processor's TLB, the accessed
    and dirty bits, and the user bit of an access are left out; the objects
    of the kernel's heap are kept apart from the page tables.  A message address
    outside the process's own memory is a fault in the model although the kernel
    could read its own memory there; the system's steps assume that a program
    passes addresses of its own and maps user pages ([allowed]).  The stack below a C function's arguments is
    not followed.

    ** Plan

    The components of the plan are modelled.  What would extend the development: the
    messages of the kernel's own paths, with the console in the kernel's state;
    and the user bit of the translation. *)

From Stdlib Require Export ZArith Lia.
From stdpp Require Export base numbers option list gmap strings sorting.

#[global] Open Scope Z_scope.

(** ** Outcomes

    A C function of the kernel either returns, runs into undefined behaviour
    (a NULL or out-of-range access), stops in [panic], or exhausts the fuel
    given to a loop.  [OutOfFuel] for every fuel is non-termination. *)
Inductive outcome (A : Type) : Type :=
  | Ret (a : A)
  | Fault
  | Panic
  | OutOfFuel.
Arguments Ret {A} a.
Arguments Fault {A}.
Arguments Panic {A}.
Arguments OutOfFuel {A}.

Definition outcome_bind {A B} (f : A -> outcome B) (o : outcome A) : outcome B :=
  match o with
  | Ret a => f a
  | Fault => Fault
  | Panic => Panic
  | OutOfFuel => OutOfFuel
  end.

#[export] Instance outcome_mret : MRet outcome := @Ret.
#[export] Instance outcome_mbind : MBind outcome := @outcome_bind.

Definition of_option {A} (o : option A) : outcome A :=
  match o with Some a => Ret a | None => Fault end.

Definition terminates {A} (o : outcome A) : Prop := exists a, o = Ret a.

Lemma outcome_bind_Ret {A B} (o : outcome A) (f : A -> outcome B) b :
  (o ≫= f) = Ret b <-> exists a, o = Ret a /\ f a = Ret b.
Proof.
  unfold mbind, outcome_mbind, outcome_bind. split.
  - destruct o; naive_solver.
  - intros (a & -> & H). exact H.
Qed.

(** Reduce a bind whose first computation is known. *)
Ltac ostep := cbn [mbind outcome_mbind outcome_bind].

Lemma of_option_Ret {A} (o : option A) a : of_option o = Ret a <-> o = Some a.
Proof. destruct o; simpl; split; congruence. Qed.

(** ** State passing over outcomes *)
Definition M (S A : Type) : Type := S -> outcome (A * S).

#[export] Instance M_mret {S} : MRet (M S) := fun A a s => Ret (a, s).
#[export] Instance M_mbind {S} : MBind (M S) :=
  fun A B f m s => m s ≫= fun '(a, s') => f a s'.

Definition fault {S A} : M S A := fun _ => Fault.
Definition panic {S A} : M S A := fun _ => Panic.
Definition gets {S A} (f : S -> A) : M S A := fun s => Ret (f s, s).
Definition modify {S} (f : S -> S) : M S unit := fun s => Ret (tt, f s).
Definition liftO {S A} (o : outcome A) : M S A :=
  fun s => o ≫= fun a => Ret (a, s).

Lemma M_bind_Ret {S A B} (m : M S A) (f : A -> M S B) s b s' :
  (m ≫= f) s = Ret (b, s') <-> exists a s1, m s = Ret (a, s1) /\ f a s1 = Ret (b, s').
Proof.
  unfold mbind, M_mbind, outcome_mbind, outcome_bind. split.
  - destruct (m s) as [[a s1]| | |]; naive_solver.
  - intros (a & s1 & -> & H). exact H.
Qed.

(** ** Machine integers: 32-bit unsigned and two's complement values *)
Definition u32 (z : Z) : Z := z mod 2 ^ 32.
Definition s32 (z : Z) : Z := (z + 2 ^ 31) mod 2 ^ 32 - 2 ^ 31.
Definition is_u32 (z : Z) : Prop := 0 <= z < 2 ^ 32.
Definition is_s32 (z : Z) : Prop := - 2 ^ 31 <= z < 2 ^ 31.

Lemma u32_range z : is_u32 (u32 z).
Proof. unfold is_u32, u32. apply Z.mod_pos_bound. lia. Qed.
Lemma u32_id z : is_u32 z -> u32 z = z.
Proof. intros H. apply Z.mod_small, H. Qed.
Lemma s32_range z : is_s32 (s32 z).
Proof.
  unfold is_s32, s32.
  pose proof (Z.mod_pos_bound (z + 2 ^ 31) (2 ^ 32) ltac:(lia)). lia.
Qed.
Lemma s32_id z : is_s32 z -> s32 z = z.
Proof. unfold is_s32, s32. intros H. rewrite Z.mod_small; lia. Qed.

(** Converting [unsigned long] keys to [int] loses nothing. *)
Lemma s32_inj a b : is_u32 a -> is_u32 b -> s32 a = s32 b -> a = b.
Proof.
  unfold is_u32, s32. intros Ha Hb H.
  assert ((a + 2 ^ 31) mod 2 ^ 32 = (b + 2 ^ 31) mod 2 ^ 32) as E by lia.
  revert E. Z.div_mod_to_equations. lia.
Qed.

(** ** Bit fields of a word *)
Definition bf_get (lo len w : Z) : Z := Z.land (Z.shiftr w lo) (Z.ones len).
Definition bf_set (lo len v w : Z) : Z :=
  Z.lor (Z.ldiff w (Z.shiftl (Z.ones len) lo)) (Z.shiftl (Z.land v (Z.ones len)) lo).

Create Rewrite HintDb bits.
Lemma testbit_shl a n i : 0 <= i -> Z.testbit (Z.shiftl a n) i = Z.testbit a (i - n).
Proof. intros. apply Z.shiftl_spec. lia. Qed.
Lemma testbit_ones' n i : 0 <= n -> Z.testbit (Z.ones n) i = (0 <=? i) && (i <? n).
Proof. intros. apply Z.testbit_ones. lia. Qed.
#[export] Hint Rewrite Z.land_spec Z.lor_spec Z.ldiff_spec Z.shiftr_spec testbit_shl
  testbit_ones' Z.bits_0 using lia : bits.

(** Equality of words bit by bit, with a case split on each range test. *)
Ltac bits_eq :=
  apply Z.bits_inj'; let i := fresh "i" in let Hi := fresh "Hi" in
  intros i Hi; autorewrite with bits;
  repeat match goal with
    | |- context [?a <=? ?b] => destruct (Z.leb_spec a b)
    | |- context [?a <? ?b] => destruct (Z.ltb_spec a b)
    end; simpl; rewrite ?andb_false_r, ?andb_true_r, ?orb_false_r, ?orb_false_l;
  try lia; try first [reflexivity | f_equal; lia].

Lemma bf_get_set_eq lo len v w : 0 <= lo -> 0 <= len ->
  bf_get lo len (bf_set lo len v w) = Z.land v (Z.ones len).
Proof.
  intros. unfold bf_get, bf_set. bits_eq.
Qed.

Lemma bf_get_set_ne lo len lo' len' v w :
  0 <= lo -> 0 <= len -> 0 <= lo' -> 0 <= len' -> lo + len <= lo' \/ lo' + len' <= lo ->
  bf_get lo' len' (bf_set lo len v w) = bf_get lo' len' w.
Proof. intros. unfold bf_get, bf_set. bits_eq. Qed.

Lemma bf_get_range lo len w : 0 <= len -> 0 <= bf_get lo len w < 2 ^ len.
Proof.
  intros. unfold bf_get. rewrite Z.land_ones by lia.
  apply Z.mod_pos_bound. lia.
Qed.

(** ** Lists used as arrays *)
Lemma insert_Permutation {A} (l : list A) i x :
  (i < length l)%nat -> <[i:=x]> l ≡ₚ x :: delete i l.
Proof.
  revert i. induction l as [|y l IH]; intros [|i] H; simpl in *; try lia; [done|].
  rewrite IH by lia. apply Permutation_swap.
Qed.

Lemma list_swap_Permutation {A} (l : list A) i j x y :
  l !! i = Some x -> l !! j = Some y -> <[i:=y]> (<[j:=x]> l) ≡ₚ l.
Proof.
  intros Hi Hj. destruct (decide (i = j)) as [->|Hne].
  { simplify_eq. rewrite list_insert_insert_eq, list_insert_id; done. }
  pose proof (lookup_lt_Some _ _ _ Hi). pose proof (lookup_lt_Some _ _ _ Hj).
  set (l1 := <[j:=x]> l).
  assert (l1 !! i = Some x) as Hi1 by (by unfold l1; rewrite list_lookup_insert_ne).
  rewrite insert_Permutation by (unfold l1; rewrite length_insert; lia).
  assert (delete i l1 ≡ₚ delete j l) as ->.
  { apply (Permutation_cons_inv (a := x)).
    rewrite <- (delete_Permutation _ _ _ Hi1). unfold l1.
    by apply insert_Permutation. }
  symmetry. by apply delete_Permutation.
Qed.

(** Array accesses of the code: outside the array they are undefined. *)
Definition array_get {A} (l : list A) (i : nat) : outcome A := of_option (l !! i).
Definition array_set {A} (l : list A) (i : nat) (x : A) : outcome (list A) :=
  if decide (i < length l)%nat then Ret (<[i:=x]> l) else Fault.

Lemma array_get_Some {A} (l : list A) i x : l !! i = Some x -> array_get l i = Ret x.
Proof. unfold array_get. by intros ->. Qed.
Lemma array_set_lt {A} (l : list A) i x :
  (i < length l)%nat -> array_set l i x = Ret (<[i:=x]> l).
Proof. intros. unfold array_set. by rewrite decide_True. Qed.
