(* ===== verification/Status.v ===== *)
(** Status codes, system call numbers and flag words shared by every
    component (include/types/status.h, include/types/syscallid.h,
    include/platform/paging.h, include/kernel.h). *)
From S2P Require Import Prelude.

(** [enum error_t] of types/status.h, in declaration order. *)
Inductive error_t :=
  | ENONE | ENULLPTR | EOUTOFBOUNDS | EINVALIDARG | ENOMEM | ENOTPRESENT
  | EDOESNTEXIST | EEXISTS | ENOSYSCALL | EPERM | EBUSY | EEXITED.

#[export] Instance error_t_eq_dec : EqDecision error_t.
Proof. solve_decision. Defined.

(** The integer a C function returns for the enumerator. *)
Definition err (e : error_t) : Z :=
  match e with
  | ENONE => 0 | ENULLPTR => 1 | EOUTOFBOUNDS => 2 | EINVALIDARG => 3
  | ENOMEM => 4 | ENOTPRESENT => 5 | EDOESNTEXIST => 6 | EEXISTS => 7
  | ENOSYSCALL => 8 | EPERM => 9 | EBUSY => 10 | EEXITED => 11
  end.

Lemma err_inj e1 e2 : err e1 = err e2 -> e1 = e2.
Proof. destruct e1, e2; simpl; congruence || lia. Qed.

(** Every status code is a small number: no page-aligned address is one,
    which is how callers tell a frame from an error. *)
Lemma err_range e : 0 <= err e < 12.
Proof. destruct e; simpl; lia. Qed.

(** The NULL pointer. *)
Definition NULL : Z := 0.

(** [enum page_flag_t] of platform/paging.h. *)
Definition PAGE_RW : Z := 1.
Definition PAGE_EXECUTABLE : Z := Z.shiftl 1 1.
Definition PAGE_USERMODE : Z := Z.shiftl 1 2.
Definition PAGE_PRESENT : Z := Z.shiftl 1 16.
Definition PAGE_ANON : Z := Z.shiftl 1 17.
Definition PAGE_COPY_ON_WRITE : Z := Z.shiftl 1 18.

(** [enum syscall_id_t] of types/syscallid.h. *)
Inductive syscall_id_t :=
  | SYSCALL_TEST | SYSCALL_MMAP | SYSCALL_MUNMAP | SYSCALL_YIELD | SYSCALL_EXIT
  | SYSCALL_SEND | SYSCALL_RECEIVE | SYSCALL_OPEN_PORT | SYSCALL_CLOSE_PORT.

Definition syscall_code (s : syscall_id_t) : Z :=
  match s with
  | SYSCALL_TEST => 1 | SYSCALL_MMAP => 2 | SYSCALL_MUNMAP => 3
  | SYSCALL_YIELD => 4 | SYSCALL_EXIT => 5 | SYSCALL_SEND => 6
  | SYSCALL_RECEIVE => 7 | SYSCALL_OPEN_PORT => 8 | SYSCALL_CLOSE_PORT => 9
  end.

(** Limits and message flags of kernel.h. *)
Definition MAX_SYSCALL_ID : Z := 256.
Definition IO_OP : Z := Z.shiftl 1 0.
Definition IO_SYNC : Z := Z.shiftl 0 0.
Definition IO_ASYNC : Z := Z.shiftl 1 0.
Definition IO_RECIPIENT_TYPE : Z := Z.shiftl 3 1.
Definition IO_PID : Z := Z.shiftl 0 1.
Definition IO_PORT : Z := Z.shiftl 1 1.
Definition IO_MAILBOX : Z := Z.shiftl 2 1.
