(* ===== verification/PriorityQueue.v ===== *)
(** The scheduler's priority queue (src/priorityqueue.c,
    include/priorityqueue.h): an array-backed binary min-heap.

    The array is the block returned by [kmalloc]; its cells past [size] hold
    whatever was there before.  [heapify] reads the cell [2 i + 2] even when
    it is one past the live part; the definitions keep that read, and the
    proofs show why the callers are nevertheless right. *)
From S2P Require Import Prelude Status.

#[local] Open Scope nat_scope.

Record priority_queue_node_t := Node { value : Z; priority : Z }.

Record priority_queue_t := Queue {
  heap : list priority_queue_node_t;
  size : nat;
  capacity : nat
}.

#[export] Instance node_eq_dec : EqDecision priority_queue_node_t.
Proof. solve_decision. Defined.

(** ** Operations *)

(** [heapify], on the array and the current size; fuel bounds the recursion. *)
Fixpoint heapify (fuel : nat) (h : list priority_queue_node_t) (size i : nat)
    : outcome (list priority_queue_node_t) :=
  match fuel with
  | O => OutOfFuel
  | S fuel =>
    if decide (size <= i * 2 + 1) then Ret h
    else
      l ← array_get h (i * 2 + 1);
      p ← array_get h i;
      r ← array_get h (i * 2 + 2);
      if (priority l <=? priority p)%Z && (priority l <=? priority r)%Z then
        h ← array_set h i l;
        h ← array_set h (i * 2 + 1) p;
        heapify fuel h size (i * 2 + 1)
      else if (priority r <=? priority p)%Z && (priority r <=? priority l)%Z then
        h ← array_set h i r;
        h ← array_set h (i * 2 + 2) p;
        heapify fuel h size (i * 2 + 2)
      else Ret h
  end.

(** [construct_priority_queue]: [block] is what [kmalloc] returned, [None]
    for NULL, otherwise the [capacity] cells with their old contents. *)
Definition construct_priority_queue (block : option (list priority_queue_node_t))
    (capacity : nat) : option priority_queue_t * error_t :=
  match block with
  | None => (None, ENOMEM)
  | Some h => (Some (Queue h 0 capacity), ENONE)
  end.

Definition priorityqueue_extract_min (q : priority_queue_t)
    : outcome (Z * priority_queue_t) :=
  if decide (size q = 0) then Ret (NULL, q)
  else
    let size' := size q - 1 in
    first ← array_get (heap q) 0;
    last ← array_get (heap q) size';
    h ← array_set (heap q) 0 last;
    h ← heapify (S size') h size' 0;
    Ret (value first, Queue h size' (capacity q)).

(** The sift-up loop of [priorityqueue_insert]: it returns the array and the
    index at which the new node is stored. *)
Fixpoint sift_up (fuel : nat) (h : list priority_queue_node_t) (i : nat) (prio : Z)
    : outcome (list priority_queue_node_t * nat) :=
  match fuel with
  | O => OutOfFuel
  | S fuel =>
    if decide (0 < i) then
      p ← array_get h ((i - 1) / 2);
      if (prio <? priority p)%Z then
        h ← array_set h i p;
        sift_up fuel h ((i - 1) / 2) prio
      else Ret (h, i)
    else Ret (h, i)
  end.

Definition priorityqueue_insert (q : priority_queue_t) (v prio : Z)
    : outcome (error_t * priority_queue_t) :=
  if decide (size q = capacity q) then Ret (ENOMEM, q)
  else
    '(h, i) ← sift_up (S (size q)) (heap q) (size q) prio;
    h ← array_set h i (Node v prio);
    Ret (ENONE, Queue h (S (size q)) (capacity q)).

(** The search loop of [priorityqueue_remove], from index [i] on. *)
Fixpoint find_value (h : list priority_queue_node_t) (n i : nat) (v : Z)
    : outcome (option nat) :=
  match n with
  | O => Ret None
  | S n =>
    x ← array_get h i;
    if decide (value x = v) then Ret (Some i) else find_value h n (S i) v
  end.

Definition priorityqueue_remove (q : priority_queue_t) (v : Z)
    : outcome (error_t * priority_queue_t) :=
  found ← find_value (heap q) (size q) 0 v;
  match found with
  | None => Ret (EOUTOFBOUNDS, q)
  | Some i =>
    let size' := size q - 1 in
    last ← array_get (heap q) size';
    h ← array_set (heap q) i last;
    h ← heapify (S size') h size' i;
    Ret (ENONE, Queue h size' (capacity q))
  end.

(** ** Invariant and abstraction *)

(** The array has [capacity] cells and at most that many are live. *)
Definition wf (q : priority_queue_t) : Prop :=
  length (heap q) = capacity q /\ size q <= capacity q.

Definition child (p c : nat) : Prop := c = p * 2 + 1 \/ c = p * 2 + 2.

Lemma child_lt p c : child p c -> p < c.
Proof. unfold child. lia. Qed.

Definition edge_ok (h : list priority_queue_node_t) (p c : nat) : Prop :=
  forall x y, h !! p = Some x -> h !! c = Some y -> (priority x <= priority y)%Z.

(** Min-heap order on the first [n] cells. *)
Definition heap_ordered (h : list priority_queue_node_t) (n : nat) : Prop :=
  forall p c, child p c -> c < n -> edge_ok h p c.

(** What the queue holds. *)
Definition elements (q : priority_queue_t) : list priority_queue_node_t :=
  take (size q) (heap q).

Definition ordered (q : priority_queue_t) : Prop := heap_ordered (heap q) (size q).

(** ** Sifting down *)

(** One exchange of [heapify]: cells [i] and [c] swapped. *)
Definition exchange (h : list priority_queue_node_t) (i c : nat)
    (x y : priority_queue_node_t) : list priority_queue_node_t :=
  <[c:=x]> (<[i:=y]> h).

Lemma exchange_lookup h i c x y k :
  i < length h -> c < length h -> i <> c ->
  exchange h i c x y !! k =
    if decide (k = c) then Some x else if decide (k = i) then Some y else h !! k.
Proof.
  intros Hi Hc Hne. unfold exchange.
  destruct (decide (k = c)) as [->|].
  { apply list_lookup_insert_eq. by rewrite length_insert. }
  rewrite list_lookup_insert_ne by done.
  destruct (decide (k = i)) as [->|]; [by apply list_lookup_insert_eq|].
  by rewrite list_lookup_insert_ne.
Qed.

(** The cell one past the end holds the node being sifted, so an exchange
    with it changes nothing. *)
Lemma exchange_stale h i n x :
  h !! i = Some x -> h !! n = Some x -> exchange h i n x x = h.
Proof.
  intros Hi Hn. unfold exchange. rewrite (list_insert_id _ i) by done.
  by rewrite list_insert_id.
Qed.

Lemma exchange_Permutation h n i c x y :
  i < n -> c < n -> h !! i = Some x -> h !! c = Some y ->
  take n (exchange h i c x y) ≡ₚ take n h.
Proof.
  intros Hi Hc Hx Hy. unfold exchange.
  rewrite !take_insert_lt by done.
  apply (list_swap_Permutation (take n h) c i y x); by rewrite lookup_take_lt.
Qed.

(** Carry out the array writes of the goal. *)
Ltac array_sets :=
  repeat (rewrite array_set_lt by (rewrite ?length_insert; lia); ostep).

(** The three outcomes of a [heapify] step on a node with a live child. *)
Inductive sift_case (fuel : nat) (h : list priority_queue_node_t) (n i : nat)
    (x : priority_queue_node_t) : outcome (list priority_queue_node_t) -> Prop :=
  | sift_down c y :
      child i c -> c <= n -> h !! c = Some y -> (priority y <= priority x)%Z ->
      (forall c', child i c' -> c' <= n -> edge_ok (exchange h i c x y) i c') ->
      sift_case fuel h n i x (heapify fuel (exchange h i c x y) n c)
  | sift_stop :
      (forall c, child i c -> c <= n -> edge_ok h i c) ->
      sift_case fuel h n i x (Ret h).

Lemma heapify_step fuel h n i x :
  n < length h -> h !! i = Some x -> i * 2 + 1 < n ->
  sift_case fuel h n i x (heapify (S fuel) h n i).
Proof.
  intros Hn Hx Hi. simpl. rewrite decide_False by lia.
  assert (is_Some (h !! (i * 2 + 1))) as [l Hl] by (apply lookup_lt_is_Some; lia).
  assert (is_Some (h !! (i * 2 + 2))) as [r Hr] by (apply lookup_lt_is_Some; lia).
  rewrite (array_get_Some _ _ _ Hl), (array_get_Some _ _ _ Hx), (array_get_Some _ _ _ Hr). simpl.
  assert (Hlk : forall c y k, child i c ->
    exchange h i c x y !! k = if decide (k = c) then Some x
      else if decide (k = i) then Some y else h !! k)
    by (intros c y k [-> | ->]; apply exchange_lookup; lia).
  destruct (Z.leb_spec (priority l) (priority x)); simpl;
    destruct (Z.leb_spec (priority l) (priority r)); simpl;
    [array_sets;
     apply (sift_down fuel h n i x (i * 2 + 1) l); try (unfold child in *; lia || done) | ..].
  { intros c' Hc' _ a b. rewrite !Hlk by (left; lia). intros Ha Hb.
    destruct Hc' as [-> | ->]; repeat case_decide; simplify_eq; try lia. }
  all: destruct (Z.leb_spec (priority r) (priority x)); simpl;
    destruct (Z.leb_spec (priority r) (priority l)); simpl; try lia.
  all: try (array_sets;
     apply (sift_down fuel h n i x (i * 2 + 2) r); try (unfold child in *; lia || done);
     intros c' Hc' _ a b; rewrite !Hlk by (right; lia); intros Ha Hb;
     destruct Hc' as [-> | ->]; repeat case_decide; simplify_eq; lia).
  all: apply sift_stop; intros c [-> | ->] _ a b Ha Hb; simplify_eq; lia.
Qed.

(** [heapify] is safe and only permutes the live cells, whenever the cell past
    the end is a copy of the node it sifts (which [extract_min] and [remove]
    establish by moving the last node without clearing it). *)
Lemma heapify_total fuel : forall h n i x,
  n < length h -> i <= n -> n - i < fuel -> h !! n = Some x -> h !! i = Some x ->
  exists h', heapify fuel h n i = Ret h' /\ length h' = length h /\
    take n h' ≡ₚ take n h.
Proof.
  induction fuel as [|fuel IH]; intros h n i x Hn Hi Hf Hnx Hix; [lia|].
  destruct (decide (n <= i * 2 + 1)) as [Hleaf|Hin].
  { exists h. simpl. by rewrite decide_True. }
  destruct (heapify_step fuel h n i x Hn Hix ltac:(lia)) as [c y Hc Hcn Hy Hyx _|_];
    [|by exists h].
  destruct (decide (c = n)) as [->|Hne].
  - simplify_eq. rewrite (exchange_stale _ _ _ _ Hix Hnx).
    apply (IH h n n x); unfold child in Hc; try done; lia.
  - pose proof (child_lt _ _ Hc).
    destruct (IH (exchange h i c x y) n c x) as (h' & E & L & P).
    + unfold exchange. rewrite !length_insert. lia.
    + lia.
    + lia.
    + rewrite exchange_lookup by lia. by rewrite !decide_False by lia.
    + rewrite exchange_lookup by lia. by rewrite decide_True.
    + exists h'. split; [done|]. split.
      * rewrite L. unfold exchange. by rewrite !length_insert.
      * rewrite P. apply exchange_Permutation; done || lia.
Qed.

(** Heap order except possibly below [i]. *)
Definition ordered_above (h : list priority_queue_node_t) (n i : nat) : Prop :=
  (forall p c, child p c -> c < n -> p <> i -> edge_ok h p c) /\
  (forall p c, child p i -> child i c -> c < n -> edge_ok h p c).

Lemma child_parent_unique p p' c : child p c -> child p' c -> p = p'.
Proof. unfold child. lia. Qed.

Lemma exchange_ordered_above h n i c x y :
  n < length h -> child i c -> c < n -> h !! i = Some x -> h !! c = Some y ->
  (priority y <= priority x)%Z ->
  (forall c', child i c' -> c' <= n -> edge_ok (exchange h i c x y) i c') ->
  ordered_above h n i -> ordered_above (exchange h i c x y) n c.
Proof.
  intros Hn Hic Hcn Hx Hy Hyx Hi [HA HB].
  pose proof (child_lt _ _ Hic).
  assert (Hlk : forall k, exchange h i c x y !! k = if decide (k = c) then Some x
      else if decide (k = i) then Some y else h !! k)
    by (intros; apply exchange_lookup; lia).
  split.
  - intros p d Hpd Hd Hpc. destruct (decide (p = i)) as [->|Hpi]; [apply Hi; [done|lia]|].
    assert (d <> c) by (intros ->; apply Hpi; by apply (child_parent_unique _ _ c)).
    intros a b. rewrite !Hlk. rewrite !(decide_False (P := p = _)) by done.
    intros Ha Hb. rewrite decide_False in Hb by done. case_decide; simplify_eq.
    + by apply (HB p c Hpd Hic Hcn).
    + by apply (HA p d Hpd Hd Hpi).
  - intros p d Hpc Hcd Hd. assert (p = i) as -> by (by apply (child_parent_unique _ _ c)).
    pose proof (child_lt _ _ Hcd). intros a b. rewrite !Hlk.
    rewrite !decide_False, decide_True by lia. intros Ha Hb.
    rewrite !decide_False in Hb by lia. simplify_eq.
    apply (HA c d Hcd Hd); [lia|done|done].
Qed.

Lemma heapify_ordered fuel : forall h n i x h',
  n < length h -> h !! n = Some x -> h !! i = Some x -> ordered_above h n i ->
  heapify fuel h n i = Ret h' -> heap_ordered h' n.
Proof.
  induction fuel as [|fuel IH]; intros h n i x h' Hn Hnx Hix Hab; [done|].
  destruct (decide (n <= i * 2 + 1)) as [Hleaf|Hin].
  { simpl. rewrite decide_True by done. intros [= <-] p c Hpc Hc.
    apply (proj1 Hab); [done..|]. intros ->. unfold child in Hpc. lia. }
  destruct (heapify_step fuel h n i x Hn Hix ltac:(lia)) as [c y Hc Hcn Hy Hyx He|He].
  - intros Hrec. destruct (decide (c = n)) as [->|Hne].
    + simplify_eq. rewrite exchange_stale in * by done.
      apply (IH h n n x h'); [done..| |done]. destruct Hab as [HA HB]. split.
      * intros p d Hpd Hd Hpn. destruct (decide (p = i)) as [->|]; [apply He; [done|lia]|].
        by apply HA.
      * intros p d _ Hnd Hd. apply child_lt in Hnd. lia.
    + pose proof (child_lt _ _ Hc).
      apply (IH (exchange h i c x y) n c x h'); [| | | |done].
      * unfold exchange. rewrite !length_insert. lia.
      * rewrite exchange_lookup by lia. by rewrite !decide_False by lia.
      * rewrite exchange_lookup by lia. by rewrite decide_True.
      * apply exchange_ordered_above; try done. lia.
  - intros [= <-] p c Hpc Hc.
    destruct (decide (p = i)) as [->|]; [apply He; [done|lia]|]. by apply (proj1 Hab).
Qed.

(** ** Root, last cell and live part *)

Lemma parent_child c : 0 < c -> child ((c - 1) / 2) c.
Proof.
  unfold child. intros. pose proof (Nat.div_mod_eq (c - 1) 2).
  pose proof (Nat.mod_upper_bound (c - 1) 2). lia.
Qed.

Lemma heap_ordered_root h n x : heap_ordered h n -> n <= length h -> h !! 0 = Some x ->
  forall j y, j < n -> h !! j = Some y -> (priority x <= priority y)%Z.
Proof.
  intros Ho Hn Hx j. induction j as [j IH] using lt_wf_ind. intros y Hj Hy.
  destruct (decide (j = 0)) as [->|]; [by simplify_eq|].
  pose proof (parent_child j ltac:(lia)) as Hc. pose proof (child_lt _ _ Hc).
  assert (is_Some (h !! ((j - 1) / 2))) as [z Hz] by (apply lookup_lt_is_Some; lia).
  transitivity (priority z); [by apply (IH ((j - 1) / 2)); lia || done|].
  by apply (Ho _ _ Hc Hj).
Qed.

Lemma take_last_Permutation (h : list priority_queue_node_t) n i x last :
  i <= n -> n < length h -> h !! i = Some x -> h !! n = Some last ->
  take (S n) h ≡ₚ x :: take n (<[i:=last]> h).
Proof.
  intros Hi Hn Hx Hl. rewrite (take_S_r _ _ last) by done.
  destruct (decide (i = n)) as [->|].
  { simplify_eq. rewrite take_insert_ge by lia. symmetry. apply Permutation_cons_append. }
  rewrite take_insert_lt by lia.
  assert (take n h !! i = Some x) by (rewrite lookup_take_lt; [done|lia]).
  rewrite insert_Permutation by (rewrite length_take; lia).
  rewrite <- Permutation_cons_append, Permutation_swap. constructor.
  by apply delete_Permutation.
Qed.

(** Moving the last live node over position [i] leaves the array in the state
    [heapify] expects: position [i] and the cell past the end agree. *)
Lemma move_last_spec h n i x last :
  i <= n -> n < length h -> h !! i = Some x -> h !! n = Some last ->
  exists h', heapify (S n) (<[i:=last]> h) n i = Ret h' /\ length h' = length h /\
    take (S n) h ≡ₚ x :: take n h'.
Proof.
  intros Hi Hn Hx Hl.
  destruct (heapify_total (S n) (<[i:=last]> h) n i last) as (h' & E & L & P).
  - by rewrite length_insert.
  - done.
  - lia.
  - destruct (decide (i = n)) as [->|]; [by apply list_lookup_insert_eq|].
    by rewrite list_lookup_insert_ne.
  - apply list_lookup_insert_eq. lia.
  - exists h'. rewrite L, length_insert, P. split_and!; try done.
    by apply take_last_Permutation.
Qed.

Lemma move_last_ordered h n i last h' :
  i <= n -> n < length h -> h !! n = Some last -> heap_ordered h (S n) ->
  (forall p y, child p i -> h !! p = Some y -> (priority y <= priority last)%Z) ->
  heapify (S n) (<[i:=last]> h) n i = Ret h' -> heap_ordered h' n.
Proof.
  intros Hi Hn Hl Ho Hup. apply (heapify_ordered _ _ _ i last).
  - by rewrite length_insert.
  - destruct (decide (i = n)) as [->|]; [by apply list_lookup_insert_eq|].
    by rewrite list_lookup_insert_ne.
  - apply list_lookup_insert_eq. lia.
  - split.
    + intros p c Hpc Hc Hpi a b. rewrite list_lookup_insert_ne by done.
      intros Ha. destruct (decide (c = i)) as [->|].
      * rewrite list_lookup_insert_eq by lia. intros [= <-]. by apply (Hup p).
      * rewrite list_lookup_insert_ne by done. intros Hb.
        apply (Ho p c Hpc ltac:(lia) a b Ha Hb).
    + intros p c Hpi Hic Hc a b. pose proof (child_lt _ _ Hpi). pose proof (child_lt _ _ Hic).
      rewrite !list_lookup_insert_ne by lia. intros Ha Hb.
      assert (is_Some (h !! i)) as [z Hz] by (apply lookup_lt_is_Some; lia).
      transitivity (priority z); [by apply (Ho p i Hpi ltac:(lia))|by apply (Ho i c Hic ltac:(lia))].
Qed.

(** ** Sifting up *)

Definition ordered_below (h : list priority_queue_node_t) (n i : nat) : Prop :=
  (forall p c, child p c -> c < n -> c <> i -> edge_ok h p c) /\
  (forall p c, child p i -> child i c -> c < n -> edge_ok h p c).

(** The loop of [insert], with the new node [x] imagined in the hole [i]. *)
Lemma sift_up_spec fuel : forall h n i x,
  i < n -> n <= length h -> i < fuel -> ordered_below (<[i:=x]> h) n i ->
  exists h' j, sift_up fuel h i (priority x) = Ret (h', j) /\ j < n /\
    length h' = length h /\ heap_ordered (<[j:=x]> h') n /\
    take n (<[j:=x]> h') ≡ₚ take n (<[i:=x]> h).
Proof.
  induction fuel as [|fuel IH]; intros h n i x Hi Hn Hf [HA HB]; [lia|].
  cbn [sift_up]. destruct (decide (0 < i)) as [Hpos|Hz].
  2:{ exists h, i. split_and!; try done. intros p c Hpc Hc. apply HA; [done..|].
      pose proof (child_lt _ _ Hpc). lia. }
  pose proof (parent_child i Hpos) as Hpi. set (par := (i - 1) / 2) in *.
  pose proof (child_lt _ _ Hpi).
  assert (is_Some (h !! par)) as [y Hy] by (apply lookup_lt_is_Some; lia).
  rewrite (array_get_Some _ _ _ Hy). ostep.
  destruct (Z.ltb_spec (priority x) (priority y)).
  - array_sets.
    assert (<[par:=x]> (<[i:=y]> h) = exchange (<[i:=x]> h) i par x y) as Hex.
    { unfold exchange. by rewrite list_insert_insert_eq. }
    assert (Hlk : forall k, <[par:=x]> (<[i:=y]> h) !! k =
      if decide (k = par) then Some x else if decide (k = i) then Some y else h !! k).
    { intros k. rewrite Hex, exchange_lookup by (rewrite ?length_insert; lia).
      repeat case_decide; try done. by rewrite list_lookup_insert_ne by congruence. }
    destruct (IH (<[i:=y]> h) n par x) as (h' & j & E & Hj & L & O & P).
    + lia.
    + rewrite length_insert. lia.
    + lia.
    + split.
      * intros p c Hpc Hc Hcp a b. rewrite !Hlk. rewrite (decide_False (P := c = par)) by done.
        pose proof (child_lt _ _ Hpc). intros Ha Hb.
        destruct (decide (c = i)) as [->|].
        { assert (p = par) as -> by (by apply (child_parent_unique _ _ i)).
          rewrite decide_True in Ha by done. simplify_eq. lia. }
        destruct (decide (p = par)) as [->|].
        { simplify_eq. transitivity (priority y); [lia|].
          apply (HA par c Hpc Hc ltac:(done)); by rewrite list_lookup_insert_ne by lia. }
        destruct (decide (p = i)) as [->|].
        { simplify_eq. apply (HB par c Hpi Hpc Hc); by rewrite list_lookup_insert_ne by lia. }
        apply (HA p c Hpc Hc ltac:(done)); by rewrite list_lookup_insert_ne by done.
      * intros p c Hpp Hpc Hc a b. rewrite !Hlk.
        pose proof (child_lt _ _ Hpp). pose proof (child_lt _ _ Hpc).
        rewrite !(decide_False (P := _ = par)) by lia.
        rewrite (decide_False (P := p = i)) by lia. intros Ha Hb.
        assert (priority a <= priority y)%Z.
        { apply (HA p par Hpp); [lia|lia|..]; by rewrite list_lookup_insert_ne by lia. }
        case_decide; simplify_eq; [done|]. transitivity (priority y); [done|].
        apply (HA par c Hpc Hc ltac:(done)); by rewrite list_lookup_insert_ne by lia.
    + exists h', j. rewrite L, length_insert. split_and!; try done.
      rewrite P, Hex. apply exchange_Permutation; try lia.
      * apply list_lookup_insert_eq. lia.
      * by rewrite list_lookup_insert_ne by lia.
  - exists h, i. split_and!; try done. intros p c Hpc Hc.
    destruct (decide (c = i)) as [->|]; [|by apply HA].
    assert (p = par) as -> by (by apply (child_parent_unique _ _ i)).
    intros a b. rewrite list_lookup_insert_ne by lia. rewrite list_lookup_insert_eq by lia.
    intros ? [= <-]. simplify_eq. lia.
Qed.

(** ** The operations' contracts *)

(** A queue as its clients may hold it. *)
Definition valid (q : priority_queue_t) : Prop := wf q /\ ordered q.

Lemma lookup_elements q i x : wf q -> i < size q -> heap q !! i = Some x -> elements q !! i = Some x.
Proof. intros _ Hi Hx. unfold elements. by rewrite lookup_take_lt. Qed.

Lemma elements_lookup q x : x ∈ elements q -> exists i, i < size q /\ heap q !! i = Some x.
Proof.
  unfold elements. intros [i Hi]%list_elem_of_lookup. exists i.
  apply lookup_take_Some in Hi. tauto.
Qed.

Lemma priorityqueue_insert_ok q v prio :
  valid q ->
  exists e q', priorityqueue_insert q v prio = Ret (e, q') /\ valid q' /\
    capacity q' = capacity q /\
    ((e = ENOMEM /\ q' = q /\ size q = capacity q) \/
     (e = ENONE /\ size q < capacity q /\ size q' = S (size q) /\
      elements q' ≡ₚ Node v prio :: elements q)).
Proof.
  intros [[Hlen Hcap] Ho]. unfold priorityqueue_insert.
  destruct (decide (size q = capacity q)) as [Hfull|Hroom].
  { exists ENOMEM, q. split_and!; [done..|]. by left. }
  destruct (sift_up_spec (S (size q)) (heap q) (S (size q)) (size q) (Node v prio))
    as (h' & j & E & Hj & L & O & P); [lia..| |].
  { split.
    - intros p c Hpc Hc Hne. pose proof (child_lt _ _ Hpc). intros a b.
      rewrite !list_lookup_insert_ne by lia. by apply Ho; [|lia].
    - intros p c _ Hc. apply child_lt in Hc. lia. }
  cbn [priority] in E. rewrite E. ostep. array_sets.
  eexists _, _. split; [done|]. split; [|split; [done|]].
  - split; [split; simpl; rewrite ?length_insert; lia|done].
  - right. split_and!; try done; [lia|]. unfold elements. simpl. rewrite P.
    rewrite (take_S_r _ _ (Node v prio)) by (apply list_lookup_insert_eq; lia).
    rewrite take_insert_ge by lia. symmetry. apply Permutation_cons_append.
Qed.

(** [priorityqueue_insert] refuses with [ENOMEM] and no change exactly when
    the queue is full; otherwise it returns [ENONE], adds the one node
    [(v, prio)] to what the queue holds, and keeps the array bounds and the
    heap order. *)
Theorem priorityqueue_insert_spec q v prio :
  valid q ->
  exists e q', priorityqueue_insert q v prio = Ret (e, q') /\ valid q' /\
    capacity q' = capacity q /\
    ((e = ENOMEM /\ q' = q /\ size q = capacity q) \/
     (e = ENONE /\ size q < capacity q /\ size q' = S (size q) /\
      elements q' ≡ₚ Node v prio :: elements q)).
Proof. apply priorityqueue_insert_ok. Qed.

Lemma priorityqueue_extract_min_ok q :
  valid q -> 0 < size q ->
  exists x q', priorityqueue_extract_min q = Ret (value x, q') /\
    elements q ≡ₚ x :: elements q' /\
    (forall y, y ∈ elements q -> (priority x <= priority y)%Z) /\
    valid q' /\ size q' = size q - 1 /\ capacity q' = capacity q.
Proof.
  intros [[Hlen Hcap] Ho] Hpos. unfold priorityqueue_extract_min.
  rewrite decide_False by lia. destruct (size q) as [|n] eqn:Hn; [lia|].
  assert (is_Some (heap q !! 0)) as [x Hx] by (apply lookup_lt_is_Some; lia).
  assert (is_Some (heap q !! n)) as [last Hl] by (apply lookup_lt_is_Some; lia).
  replace (S n - 1) with n by lia.
  rewrite (array_get_Some _ _ _ Hx), (array_get_Some _ _ _ Hl). ostep.
  array_sets.
  destruct (move_last_spec (heap q) n 0 x last) as (h' & E & L & P); try (done || lia).
  unfold ordered in Ho. rewrite Hn in Ho.
  assert (heap_ordered h' n) as Ho'.
  { apply (move_last_ordered (heap q) n 0 last); try (done || lia).
    intros p y Hp. apply child_lt in Hp. lia. }
  rewrite E. ostep. exists x, (Queue h' n (capacity q)).
  split_and!; simpl; try done; try lia.
  - unfold elements. rewrite Hn. done.
  - intros y (j & Hj & Hy)%elements_lookup.
    apply (heap_ordered_root (heap q) (S n) x Ho ltac:(lia) Hx j); [lia|done].
  - split; [split; simpl; lia|done].
Qed.

(** [priorityqueue_extract_min] on a non-empty queue returns the value of a
    node of least priority, removes exactly that node, and keeps the heap
    order, although [heapify] reads one cell past the live part. *)
Theorem priorityqueue_extract_min_spec q :
  valid q -> 0 < size q ->
  exists x q', priorityqueue_extract_min q = Ret (value x, q') /\
    elements q ≡ₚ x :: elements q' /\
    (forall y, y ∈ elements q -> (priority x <= priority y)%Z) /\
    valid q' /\ size q' = size q - 1 /\ capacity q' = capacity q.
Proof. apply priorityqueue_extract_min_ok. Qed.

Lemma find_value_spec h v n : forall i, i + n <= length h ->
  exists r, find_value h n i v = Ret r /\
    match r with
    | Some j => i <= j < i + n /\ (exists x, h !! j = Some x /\ value x = v) /\
        (forall k y, i <= k < j -> h !! k = Some y -> value y <> v)
    | None => forall k y, i <= k < i + n -> h !! k = Some y -> value y <> v
    end.
Proof.
  induction n as [|n IH]; intros i Hi; simpl.
  { exists None. split; [done|]. intros. lia. }
  assert (is_Some (h !! i)) as [x Hx] by (apply lookup_lt_is_Some; lia).
  rewrite (array_get_Some _ _ _ Hx). simpl. case_decide as Hv.
  - exists (Some i). split; [done|]. split_and!; [lia..| |]; [by exists x|]. intros. lia.
  - destruct (IH (S i) ltac:(lia)) as (r & -> & Hr). exists r. split; [done|].
    assert (forall k y, h !! k = Some y -> k = i -> value y <> v) by naive_solver.
    destruct r as [j|].
    + destruct Hr as (Hj & Hx' & Hmin). split_and!; [lia..|done|].
      intros k y Hk Hy. destruct (decide (k = i)); [by eauto|]. by apply (Hmin k); [lia|].
    + intros k y Hk Hy. destruct (decide (k = i)); [by eauto|]. by apply (Hr k); [lia|].
Qed.

Lemma priorityqueue_remove_ok q v :
  wf q ->
  exists e q', priorityqueue_remove q v = Ret (e, q') /\ wf q' /\ capacity q' = capacity q /\
    ((e = EOUTOFBOUNDS /\ q' = q /\ (forall y, y ∈ elements q -> value y <> v)) \/
     (e = ENONE /\ size q' = size q - 1 /\
      exists x, value x = v /\ elements q ≡ₚ x :: elements q')).
Proof.
  intros [Hlen Hcap]. unfold priorityqueue_remove.
  destruct (find_value_spec (heap q) v (size q) 0) as (r & -> & Hr); [lia|].
  ostep. destruct r as [i|].
  - destruct Hr as (Hi & (x & Hx & Hv) & _).
    destruct (size q) as [|n] eqn:Hn; [lia|]. replace (S n - 1) with n by lia.
    assert (is_Some (heap q !! n)) as [last Hl] by (apply lookup_lt_is_Some; lia).
    rewrite (array_get_Some _ _ _ Hl). ostep. array_sets.
    destruct (move_last_spec (heap q) n i x last) as (h' & E & L & P); try (done || lia).
    rewrite E. ostep. eexists _, _. split; [done|].
    split_and!; simpl; [split; simpl; lia|done|]. right. split_and!; try done.
    exists x. split; [done|]. unfold elements. by rewrite Hn.
  - eexists _, _. split; [done|]. split_and!; try done. left. split_and!; try done.
    intros y (j & Hj & Hy)%elements_lookup. apply (Hr j); [lia|done].
Qed.

(** [priorityqueue_remove] reports [EOUTOFBOUNDS] with no change exactly
    when no live node carries the value; otherwise it removes exactly one node
    that does.  It always stays inside the array. *)
Theorem priorityqueue_remove_spec q v :
  wf q ->
  exists e q', priorityqueue_remove q v = Ret (e, q') /\ wf q' /\ capacity q' = capacity q /\
    ((e = EOUTOFBOUNDS /\ q' = q /\ (forall y, y ∈ elements q -> value y <> v)) \/
     (e = ENONE /\ size q' = size q - 1 /\
      exists x, value x = v /\ elements q ≡ₚ x :: elements q')).
Proof. apply priorityqueue_remove_ok. Qed.

(** Removal keeps the heap order when the node moved into the gap is not
    smaller than the gap's parent, in particular when all live nodes have the
    same priority, as the kernel's processes do. *)
Theorem priorityqueue_remove_uniform q v e q' :
  valid q ->
  (forall x y, x ∈ elements q -> y ∈ elements q -> priority x = priority y) ->
  priorityqueue_remove q v = Ret (e, q') -> valid q'.
Proof.
  intros [Hwf Ho] Heq Hrem. pose proof Hwf as [Hlen Hcap].
  destruct (priorityqueue_remove_ok q v Hwf) as (e1 & q1 & E1 & Hwf1 & _).
  rewrite E1 in Hrem. simplify_eq. split; [done|].
  revert E1. unfold priorityqueue_remove.
  destruct (find_value_spec (heap q) v (size q) 0) as (r & -> & Hr); [lia|]. ostep.
  destruct r as [i|]; [|intros; by simplify_eq]. destruct Hr as (Hi & _).
  destruct (size q) as [|n] eqn:Hn; [lia|]. replace (S n - 1) with n by lia.
  assert (is_Some (heap q !! n)) as [last Hl] by (apply lookup_lt_is_Some; lia).
  rewrite (array_get_Some _ _ _ Hl). ostep. array_sets.
  intros (h' & E & [= <- <-])%outcome_bind_Ret. unfold ordered in Ho. rewrite Hn in Ho.
  apply (move_last_ordered (heap q) n i last); try (done || lia).
  intros p y Hp Hy. apply child_lt in Hp.
  rewrite (Heq y last); [done|..]; unfold elements; rewrite list_elem_of_lookup.
  - exists p. rewrite lookup_take_lt; [done|lia].
  - exists n. rewrite lookup_take_lt; [done|lia].
Qed.

(** ** Emptying the queue *)
Fixpoint drain (n : nat) (q : priority_queue_t) : outcome (list Z) :=
  match n with
  | O => Ret []
  | S n =>
    '(v, q) ← priorityqueue_extract_min q;
    vs ← drain n q;
    Ret (v :: vs)
  end.

(** C26: Extracting until the queue is empty never fails and yields every stored
    value, in ascending order of priority. *)
Theorem drain_sorted q :
  valid q ->
  exists nodes, drain (size q) q = Ret (map value nodes) /\ nodes ≡ₚ elements q /\
    StronglySorted (fun x y => (priority x <= priority y)%Z) nodes.
Proof.
  remember (size q) as n eqn:Hn. revert q Hn.
  induction n as [|n IH]; intros q Hn Hv; cbn [drain].
  { exists []. split_and!; [done| |constructor]. unfold elements. by rewrite <- Hn. }
  destruct (priorityqueue_extract_min_ok q Hv) as (x & q' & -> & P & Hmin & Hv' & Hs & _); [lia|].
  destruct (IH q') as (nodes & E & P' & Hs'); [lia|done|]. ostep. rewrite E. ostep.
  exists (x :: nodes). split; [done|]. split; [by rewrite P, P'|].
  constructor; [done|]. apply Forall_forall. intros y Hy. apply Hmin.
  rewrite P, <- P'. by apply list_elem_of_further.
Qed.

(** ** Concrete runs *)

(** Insert a list of [(value, priority)] pairs into an empty queue. *)
Fixpoint insert_all (l : list (Z * Z)) (q : priority_queue_t) : outcome priority_queue_t :=
  match l with
  | [] => Ret q
  | (v, p) :: l => '(_, q) ← priorityqueue_insert q v p; insert_all l q
  end.

Definition empty_queue (cap : nat) : priority_queue_t := Queue (replicate cap (Node 0 0)) 0 cap.

Lemma empty_queue_valid cap : valid (empty_queue cap).
Proof.
  split; [split; simpl; [apply length_replicate|lia]|].
  intros p c _ Hc. simpl in Hc. lia.
Qed.

Lemma insert_all_valid l : forall q q', valid q -> insert_all l q = Ret q' -> valid q'.
Proof.
  induction l as [|[v p] l IH]; intros q q' Hq; simpl; [naive_solver|].
  destruct (priorityqueue_insert_ok q v p Hq) as (e & q1 & -> & Hq1 & _). ostep. by apply IH.
Qed.

(** Removing from the middle can break the heap order, because the moved
    node is only ever sifted down.  In a queue built by insertions alone,
    removing value 4 leaves value 7 (priority 4) below value 2 (priority 10),
    and emptying the queue then yields value 2 before value 7. *)
Theorem priorityqueue_remove_breaks_order :
  exists q q1,
    insert_all [(1, 1); (2, 10); (3, 2); (4, 11); (5, 12); (6, 20); (7, 4)]%Z
      (empty_queue 8) = Ret q /\ valid q /\
    priorityqueue_remove q 4%Z = Ret (ENONE, q1) /\ ~ ordered q1 /\
    drain (size q1) q1 = Ret [1; 3; 2; 7; 5; 6]%Z /\
    Node 2 10 ∈ elements q1 /\ Node 7 4 ∈ elements q1.
Proof.
  eexists _, _. split; [vm_compute; reflexivity|]. split.
  { eapply (insert_all_valid [(1, 1); (2, 10); (3, 2); (4, 11); (5, 12); (6, 20); (7, 4)]%Z);
      [apply (empty_queue_valid 8)|vm_compute; reflexivity]. }
  split; [vm_compute; reflexivity|]. split.
  { intros Ho. specialize (Ho 1 3 ltac:(left; reflexivity) ltac:(simpl; lia) _ _ eq_refl eq_refl).
    simpl in Ho. lia. }
  split; [vm_compute; reflexivity|]. unfold elements. simpl. split; set_solver.
Qed.

(** Nodes of equal priority do not leave in insertion order: of four equal
    nodes inserted as 1, 2, 3, 4, the fourth leaves before the third. *)
Theorem priorityqueue_not_fifo :
  exists q, insert_all [(1, 1); (2, 1); (3, 1); (4, 1)]%Z (empty_queue 4) = Ret q /\
    drain 4 q = Ret [1; 2; 4; 3]%Z.
Proof. eexists. split; vm_compute; reflexivity. Qed.

(** ** Witnesses *)

(** Three nodes, built by insertions. *)
Definition three_queue : priority_queue_t := Queue [Node 2 1; Node 1 3; Node 3 2; Node 0 0] 3 4.

Lemma three_queue_valid : valid three_queue.
Proof.
  apply (insert_all_valid [(1, 3); (2, 1); (3, 2)]%Z (empty_queue 4)); [apply empty_queue_valid|reflexivity].
Qed.

Lemma priorityqueue_insert_spec_witness : exists e q',
  priorityqueue_insert three_queue 9%Z 0%Z = Ret (e, q') /\ valid q'.
Proof.
  destruct (priorityqueue_insert_spec three_queue 9%Z 0%Z three_queue_valid) as (e & q' & H1 & H2 & _).
  exists e, q'. split; [exact H1|exact H2].
Defined.

Lemma priorityqueue_extract_min_spec_witness : exists x q',
  priorityqueue_extract_min three_queue = Ret (value x, q') /\ valid q' /\ size q' = 2.
Proof.
  destruct (priorityqueue_extract_min_spec three_queue three_queue_valid) as (x & q' & H1 & _ & _ & H2 & H3 & _);
    [simpl; lia|]. exists x, q'. split; [exact H1|split; [exact H2|exact H3]].
Defined.

Lemma priorityqueue_remove_spec_witness : exists e q',
  priorityqueue_remove three_queue 1%Z = Ret (e, q') /\ wf q'.
Proof.
  destruct (priorityqueue_remove_spec three_queue 1%Z) as (e & q' & H1 & H2 & _); [apply three_queue_valid|].
  exists e, q'. split; [exact H1|exact H2].
Defined.

Lemma priorityqueue_remove_uniform_witness : valid (Queue [Node 2 1; Node 2 1] 1 2).
Proof.
  apply (priorityqueue_remove_uniform (Queue [Node 1 1; Node 2 1] 2 2) 1%Z ENONE).
  - apply (insert_all_valid [(1, 1); (2, 1)]%Z (empty_queue 2)); [apply empty_queue_valid|reflexivity].
  - intros x y Hx Hy. unfold elements in *. simpl in *. set_solver.
  - reflexivity.
Defined.

Lemma drain_sorted_witness : exists nodes, drain 3 three_queue = Ret (map value nodes) /\
  nodes ≡ₚ elements three_queue /\ StronglySorted (fun x y => (priority x <= priority y)%Z) nodes.
Proof. apply (drain_sorted three_queue three_queue_valid). Defined.
