(* ===== verification/Alloc.v ===== *)
(** The kernel heap as the other components see it (include/heap.h):
    [kmalloc] and [kfree] as operations on an abstract heap state, the laws
    clients rely on, and a small concrete heap used in the witnesses. *)
From S2P Require Import Prelude Status.

(** The two calls.  A heap may also fault (its page tables are memory too). *)
Class KHeap (H : Type) := {
  kmalloc : Z -> M H Z;
  kfree : Z -> M H unit
}.

(** What a client may rely on: an allocation either fails with NULL and leaves
    the set of live blocks alone, or returns a block that was not live; freeing
    a live block makes it available again. *)
Class KHeapOk (H : Type) `{KHeap H} := {
  live : H -> gset Z;
  kmalloc_spec : forall h n, exists p h', kmalloc n h = Ret (p, h') /\
    ((p = NULL /\ live h' = live h) \/
     (p <> NULL /\ (p ∉ live h) /\ live h' = {[p]} ∪ live h));
  kfree_spec : forall h p, p ∈ live h -> exists h', kfree p h = Ret (tt, h') /\
    live h' = live h ∖ {[p]}
}.

(** A heap for concrete runs: blocks are handed out at increasing multiples of
    64 until [limit]; freed blocks are forgotten. *)
Record demo_heap := DemoHeap { next_block : positive; limit : positive; blocks : gset Z }.

Definition demo_addr (p : positive) : Z := Zpos p * 64.

#[export] Instance demo_kheap : KHeap demo_heap := {
  kmalloc := fun _ h =>
    let p := demo_addr (next_block h) in
    if (next_block h <? limit h)%positive && bool_decide (p ∉ blocks h)
    then Ret (p, DemoHeap (next_block h + 1) (limit h) ({[p]} ∪ blocks h))
    else Ret (NULL, h);
  kfree := fun p h => Ret (tt, DemoHeap (next_block h) (limit h) (blocks h ∖ {[p]}))
}.

#[export] Program Instance demo_kheap_ok : KHeapOk demo_heap := {
  live := blocks
}.
Next Obligation.
  intros h n. simpl. destruct (_ <? _)%positive; simpl; [|by exists NULL, h; auto].
  case_bool_decide; eexists _, _; (split; [done|]); [right|by left].
  split_and!; [|done|done]. unfold demo_addr, NULL. lia.
Qed.
Next Obligation. intros h p _. simpl. eexists. split; done. Qed.

Definition demo0 : demo_heap := DemoHeap 1 1000 ∅.
