(* ===== verification/AvlTree.v ===== *)
(** The kernel's lookup tables (src/avltree.c, include/avltree.h): trees keyed
    by [int] holding pointers, used for the process table, the port table and
    the interrupt handlers.

    A tree is the C structure with the address of each node kept in it, so
    that allocation and release are visible: [Nd a height key value l r] is
    the node at address [a].  The recorded [height] is a field the code
    maintains, not a function of the shape; one of the two rotations gets it
    wrong, which the last part of this file studies. *)
From S2P Require Import Prelude Status Alloc.

Inductive avltree_t :=
  | Leaf
  | Nd (addr height key value : Z) (left right : avltree_t).

Definition sizeof_avltree : Z := 20.

(** ** Operations *)
Section Operations.
Context {H : Type} `{KHeap H}.

(** [avl_new] does not test the result of [kmalloc]: NULL is dereferenced. *)
Definition avl_new (key value : Z) : M H avltree_t :=
  p ← kmalloc sizeof_avltree;
  if decide (p = NULL) then fault else mret (Nd p 1 key value Leaf Leaf).

Definition avl_height (t : avltree_t) : Z :=
  match t with Leaf => 0 | Nd _ h _ _ _ _ => h end.

Definition avl_balance (t : avltree_t) : Z :=
  match t with Leaf => 0 | Nd _ _ _ _ l r => avl_height l - avl_height r end.

Definition avl_update_height (t : avltree_t) : avltree_t :=
  match t with
  | Leaf => Leaf
  | Nd a _ k v l r =>
    Nd a (1 + (if avl_height r <? avl_height l then avl_height l else avl_height r)) k v l r
  end.

(** [x] is updated before [y], while [y] still has its old height. *)
Definition avl_right_rotate (y : avltree_t) : outcome avltree_t :=
  match y with
  | Nd ya yh yk yv (Nd xa xh xk xv xl z) yr =>
    let y := Nd ya yh yk yv z yr in
    match avl_update_height (Nd xa xh xk xv xl y) with
    | Nd xa xh xk xv xl y => Ret (Nd xa xh xk xv xl (avl_update_height y))
    | Leaf => Fault
    end
  | _ => Fault
  end.

Definition avl_left_rotate (x : avltree_t) : outcome avltree_t :=
  match x with
  | Nd xa xh xk xv xl (Nd ya yh yk yv z yr) =>
    let x := avl_update_height (Nd xa xh xk xv xl z) in
    Ret (avl_update_height (Nd ya yh yk yv x yr))
  | _ => Fault
  end.

(** Field reads and writes through a pointer that may be NULL. *)
Definition left_of (t : avltree_t) : outcome avltree_t :=
  match t with Leaf => Fault | Nd _ _ _ _ l _ => Ret l end.
Definition right_of (t : avltree_t) : outcome avltree_t :=
  match t with Leaf => Fault | Nd _ _ _ _ _ r => Ret r end.
Definition key_of (t : avltree_t) : outcome Z :=
  match t with Leaf => Fault | Nd _ _ k _ _ _ => Ret k end.
Definition set_left (t l : avltree_t) : outcome avltree_t :=
  match t with Leaf => Fault | Nd a h k v _ r => Ret (Nd a h k v l r) end.
Definition set_right (t r : avltree_t) : outcome avltree_t :=
  match t with Leaf => Fault | Nd a h k v l _ => Ret (Nd a h k v l r) end.

Definition rotate_left_then_right (t : avltree_t) : outcome avltree_t :=
  l ← left_of t; l ← avl_left_rotate l; t ← set_left t l; avl_right_rotate t.
Definition rotate_right_then_left (t : avltree_t) : outcome avltree_t :=
  r ← right_of t; r ← avl_right_rotate r; t ← set_right t r; avl_left_rotate t.

(** [a && b] where evaluating [b] reads through pointers. *)
Definition and_then (a : bool) (b : outcome bool) : outcome bool :=
  if a then b else Ret false.

(** The second half of [avl_insert]: the tree on the way back up. *)
Definition insert_fixup (key : Z) (t : avltree_t) : outcome avltree_t :=
  let t := avl_update_height t in
  let balance := avl_balance t in
  ll ← and_then (1 <? balance) (l ← left_of t; k ← key_of l; Ret (key <? k));
  if (ll : bool) then avl_right_rotate t else
  rr ← and_then (balance <? -1) (r ← right_of t; k ← key_of r; Ret (k <? key));
  if (rr : bool) then avl_left_rotate t else
  lr ← and_then (1 <? balance) (l ← left_of t; k ← key_of l; Ret (k <? key));
  if (lr : bool) then rotate_left_then_right t else
  rl ← and_then (balance <? -1) (r ← right_of t; k ← key_of r; Ret (key <? k));
  if (rl : bool) then rotate_right_then_left t else Ret t.

Fixpoint avl_insert (t : avltree_t) (key value : Z) : M H avltree_t :=
  match t with
  | Leaf => avl_new key value
  | Nd a h k v l r =>
    if key <? k then
      l ← avl_insert l key value; liftO (insert_fixup key (Nd a h k v l r))
    else if k <? key then
      r ← avl_insert r key value; liftO (insert_fixup key (Nd a h k v l r))
    else mret t
  end.

(** The second half of [avl_remove]. *)
Definition remove_fixup (t : avltree_t) : outcome avltree_t :=
  match t with
  | Leaf => Ret Leaf
  | Nd _ _ _ _ _ _ =>
    let t := avl_update_height t in
    let balance := avl_balance t in
    l ← left_of t; r ← right_of t;
    if (1 <? balance) && (0 <=? avl_balance l) then avl_right_rotate t
    else if (1 <? balance) && (avl_balance l <? 0) then rotate_left_then_right t
    else if (balance <? -1) && (avl_balance r <=? 0) then avl_left_rotate t
    else if (balance <? -1) && (0 <? avl_balance r) then rotate_right_then_left t
    else Ret t
  end.

(** The loop that walks to the leftmost node below [t]. *)
Fixpoint leftmost (t : avltree_t) : outcome (Z * Z) :=
  match t with
  | Leaf => Fault
  | Nd _ _ k v Leaf _ => Ret (k, v)
  | Nd _ _ _ _ l _ => leftmost l
  end.

Fixpoint avl_remove (t : avltree_t) (key : Z) : M H avltree_t :=
  match t with
  | Leaf => mret Leaf
  | Nd a h k v l r =>
    if key <? k then
      l ← avl_remove l key; liftO (remove_fixup (Nd a h k v l r))
    else if k <? key then
      r ← avl_remove r key; liftO (remove_fixup (Nd a h k v l r))
    else
      match l, r with
      | Leaf, Leaf => _ ← kfree a; liftO (remove_fixup Leaf)
      | Leaf, Nd ca ch ck cv cl cr | Nd ca ch ck cv cl cr, Leaf =>
        _ ← kfree ca; liftO (remove_fixup (Nd a ch ck cv cl cr))
      | Nd _ _ _ _ _ _, Nd _ _ _ _ _ _ =>
        '(mk, mv) ← liftO (leftmost r);
        r ← avl_remove r mk;
        liftO (remove_fixup (Nd a h mk mv l r))
      end
  end.

Fixpoint avl_get (t : avltree_t) (key : Z) : Z :=
  match t with
  | Leaf => NULL
  | Nd _ _ k v l r =>
    if key <? k then avl_get l key
    else if k <? key then avl_get r key
    else v
  end.
End Operations.

(** ** Abstraction: the key/value pairs in order *)
Fixpoint inorder (t : avltree_t) : list (Z * Z) :=
  match t with
  | Leaf => []
  | Nd _ _ k v l r => inorder l ++ (k, v) :: inorder r
  end.

Definition keys (t : avltree_t) : list Z := (inorder t).*1.

(** The addresses of the nodes. *)
Fixpoint addrs (t : avltree_t) : list Z :=
  match t with
  | Leaf => []
  | Nd a _ _ _ l r => a :: addrs l ++ addrs r
  end.

(** Search order, and the map a search tree stands for. *)
Definition bst (t : avltree_t) : Prop := StronglySorted Z.lt (keys t).

Definition avl_map (t : avltree_t) : gmap Z Z := list_to_map (inorder t).

(** Recorded heights of nodes are at least 1, so a zero height means NULL. *)
Fixpoint heights_pos (t : avltree_t) : Prop :=
  match t with
  | Leaf => True
  | Nd _ h _ _ l r => 1 <= h /\ heights_pos l /\ heights_pos r
  end.

(** The AVL invariant: recorded heights are exact and siblings differ by at
    most one. *)
Fixpoint avl (t : avltree_t) : Prop :=
  match t with
  | Leaf => True
  | Nd _ h _ _ l r => h = 1 + Z.max (avl_height l) (avl_height r) /\
      -1 <= avl_height l - avl_height r <= 1 /\ avl l /\ avl r
  end.

(** The true height. *)
Fixpoint depth (t : avltree_t) : Z :=
  match t with Leaf => 0 | Nd _ _ _ _ l r => 1 + Z.max (depth l) (depth r) end.

Lemma keys_Nd a h k v l r : keys (Nd a h k v l r) = keys l ++ k :: keys r.
Proof. unfold keys. simpl. by rewrite fmap_app. Qed.

Lemma update_height_Nd a h k v l r :
  avl_update_height (Nd a h k v l r) = Nd a (1 + Z.max (avl_height l) (avl_height r)) k v l r.
Proof. simpl. f_equal. destruct (Z.ltb_spec (avl_height r) (avl_height l)); lia. Qed.

Lemma heights_pos_height t : heights_pos t -> 0 <= avl_height t.
Proof. destruct t; simpl; lia. Qed.
Lemma heights_pos_NonLeaf t : 1 <= avl_height t ->
  exists a h k v l r, t = Nd a h k v l r.
Proof. destruct t; simpl; [lia|eauto 10]. Qed.

Lemma avl_heights_pos t : avl t -> heights_pos t.
Proof.
  induction t as [|a h k v l IHl r IHr]; simpl; [done|]. intros (-> & _ & Hl & Hr).
  pose proof (heights_pos_height l (IHl Hl)). split_and!; auto. lia.
Qed.

Lemma avl_height_depth t : avl t -> avl_height t = depth t.
Proof.
  induction t as [|a h k v l IHl r IHr]; simpl; [done|]. intros (-> & _ & Hl & Hr).
  by rewrite IHl, IHr.
Qed.

(** ** Rotations keep the pairs, the addresses and positive heights *)

(** What a restructuring of a tree must preserve. *)
Definition same_tree (t t' : avltree_t) : Prop :=
  inorder t' = inorder t /\ addrs t' ≡ₚ addrs t /\ (heights_pos t -> heights_pos t').

#[export] Instance same_tree_preorder : PreOrder same_tree.
Proof.
  split; [by intros t|]. intros t1 t2 t3 (I1 & A1 & P1) (I2 & A2 & P2).
  split_and!; [congruence|by rewrite A2|auto].
Qed.

Lemma same_tree_Nd a h k v l l' r r' :
  same_tree l l' -> same_tree r r' -> same_tree (Nd a h k v l r) (Nd a h k v l' r').
Proof.
  intros (Il & Al & Pl) (Ir & Ar & Pr). split_and!; simpl.
  - by rewrite Il, Ir.
  - by rewrite Al, Ar.
  - intros (? & ? & ?). auto.
Qed.

Lemma update_height_same t : same_tree t (avl_update_height t).
Proof.
  destruct t as [|a h k v l r]; [done|]. rewrite update_height_Nd. split_and!; [done..|].
  intros (? & Hl & ?). pose proof (heights_pos_height l Hl). split_and!; auto. lia.
Qed.

Lemma right_rotate_Nd ya yh yk yv xa xh xk xv xl z yr :
  avl_right_rotate (Nd ya yh yk yv (Nd xa xh xk xv xl z) yr) =
  Ret (Nd xa (1 + Z.max (avl_height xl) yh) xk xv xl
        (Nd ya (1 + Z.max (avl_height z) (avl_height yr)) yk yv z yr)).
Proof. unfold avl_right_rotate. rewrite update_height_Nd. by rewrite update_height_Nd. Qed.

Lemma left_rotate_Nd xa xh xk xv xl ya yh yk yv z yr :
  avl_left_rotate (Nd xa xh xk xv xl (Nd ya yh yk yv z yr)) =
  Ret (Nd ya (1 + Z.max (1 + Z.max (avl_height xl) (avl_height z)) (avl_height yr)) yk yv
        (Nd xa (1 + Z.max (avl_height xl) (avl_height z)) xk xv xl z) yr).
Proof. unfold avl_left_rotate. rewrite update_height_Nd. by rewrite update_height_Nd. Qed.

Lemma right_rotate_same t t' : avl_right_rotate t = Ret t' -> same_tree t t'.
Proof.
  destruct t as [|ya yh yk yv [|xa xh xk xv xl z] yr]; [done..|].
  rewrite right_rotate_Nd. intros [= <-]. split_and!.
  - simpl. by rewrite <- app_assoc.
  - simpl. solve_Permutation.
  - simpl. intros (? & (? & Hl & Hz) & Hr). apply heights_pos_height in Hl as ?.
    apply heights_pos_height in Hz as ?. split_and!; auto; lia.
Qed.

Lemma left_rotate_same t t' : avl_left_rotate t = Ret t' -> same_tree t t'.
Proof.
  destruct t as [|xa xh xk xv xl [|ya yh yk yv z yr]]; [done..|].
  rewrite left_rotate_Nd. intros [= <-]. split_and!.
  - simpl. by rewrite <- app_assoc.
  - simpl. solve_Permutation.
  - simpl. intros (? & Hl & (? & Hz & Hr)). apply heights_pos_height in Hl as ?.
    apply heights_pos_height in Hz as ?. split_and!; auto; lia.
Qed.

(** ** Search order *)
Lemma StronglySorted_mid (l r : list Z) k :
  StronglySorted Z.lt (l ++ k :: r) <->
  Forall (fun x => x < k) l /\ Forall (fun x => k < x) r /\
  StronglySorted Z.lt l /\ StronglySorted Z.lt r.
Proof.
  induction l as [|x l IH]; simpl.
  - split; [intros [? ?]%StronglySorted_inv; auto using SSorted_nil|].
    intros (_ & Hr & _ & Hs). by constructor.
  - split.
    + intros [Hs Hx]%StronglySorted_inv. apply IH in Hs as (Hl & Hr & Hsl & Hsr).
      apply Forall_app in Hx as [Hxl Hxr]. apply Forall_cons in Hxr as [Hxk _].
      split_and!; auto. by constructor.
    + intros (Hl & Hr & Hs & Hsr). apply Forall_cons in Hl as [Hxk Hl].
      apply StronglySorted_inv in Hs as [Hs Hx]. constructor; [by apply IH|].
      apply Forall_app; split; [done|]. constructor; [done|].
      eapply Forall_impl; [exact Hr|]. simpl. lia.
Qed.

Lemma bst_Nd a h k v l r :
  bst (Nd a h k v l r) <-> Forall (fun x => x < k) (keys l) /\
    Forall (fun x => k < x) (keys r) /\ bst l /\ bst r.
Proof. unfold bst. rewrite keys_Nd. apply StronglySorted_mid. Qed.

Lemma bst_same t t' : same_tree t t' -> bst t -> bst t'.
Proof. intros (E & _). unfold bst, keys. by rewrite E. Qed.

(** ** Reference operations on association lists *)

(** Insertion by key; a present key keeps its value. *)
Fixpoint assoc_insert (k v : Z) (l : list (Z * Z)) : list (Z * Z) :=
  match l with
  | [] => [(k, v)]
  | (k0, v0) :: l' =>
    if k <? k0 then (k, v) :: l
    else if k0 <? k then (k0, v0) :: assoc_insert k v l' else l
  end.

Definition assoc_remove (k : Z) (l : list (Z * Z)) : list (Z * Z) :=
  filter (fun p => p.1 <> k) l.

Lemma assoc_insert_left k v l k0 v0 r : k < k0 ->
  assoc_insert k v (l ++ (k0, v0) :: r) = assoc_insert k v l ++ (k0, v0) :: r.
Proof.
  intros Hk. induction l as [|[k1 v1] l IH]; simpl.
  - by rewrite (proj2 (Z.ltb_lt _ _)) by done.
  - repeat case_match; simpl; congruence.
Qed.

Lemma assoc_insert_right k v l k0 v0 r :
  Forall (fun x => x < k0) l.*1 -> k0 < k ->
  assoc_insert k v (l ++ (k0, v0) :: r) = l ++ (k0, v0) :: assoc_insert k v r.
Proof.
  intros Hl Hk. induction l as [|[k1 v1] l IH]; simpl in *.
  - rewrite (proj2 (Z.ltb_ge _ _)) by lia. by rewrite (proj2 (Z.ltb_lt _ _)) by done.
  - apply Forall_cons in Hl as [? Hl]. rewrite (proj2 (Z.ltb_ge _ _)) by lia.
    rewrite (proj2 (Z.ltb_lt _ _)) by lia. f_equal. auto.
Qed.

Lemma assoc_insert_here k v l v0 r : Forall (fun x => x < k) l.*1 ->
  assoc_insert k v (l ++ (k, v0) :: r) = l ++ (k, v0) :: r.
Proof.
  intros Hl. induction l as [|[k1 v1] l IH]; simpl in *.
  - by rewrite Z.ltb_irrefl.
  - apply Forall_cons in Hl as [? Hl]. rewrite (proj2 (Z.ltb_ge _ _)) by lia.
    rewrite (proj2 (Z.ltb_lt _ _)) by lia. f_equal. auto.
Qed.

Lemma sorted_lt_notin (l : list Z) k : Forall (fun x => k < x) l -> k ∉ l.
Proof. rewrite Forall_forall. intros Hf Hk. specialize (Hf k Hk). lia. Qed.

Lemma assoc_insert_elem k v l p : StronglySorted Z.lt l.*1 ->
  p ∈ assoc_insert k v l <-> p ∈ l \/ (k ∉ l.*1) /\ p = (k, v).
Proof.
  induction l as [|[k0 v0] l IH]; simpl.
  { intros _. rewrite list_elem_of_singleton. split; [|intros [[]%elem_of_nil|[_ ?]]; done].
    intros ->. right. split; [apply not_elem_of_nil|done]. }
  intros [Hs Hf]%StronglySorted_inv. pose proof (sorted_lt_notin _ _ Hf) as Hk0.
  rewrite not_elem_of_cons.
  destruct (Z.ltb_spec k k0) as [Hlt|]; [|destruct (Z.ltb_spec k0 k) as [Hgt|]].
  - assert (k ∉ l.*1).
    { apply sorted_lt_notin. eapply Forall_impl; [exact Hf|]. simpl. lia. }
    rewrite (elem_of_cons (_ :: _)), elem_of_cons. intuition lia.
  - rewrite !elem_of_cons, IH by done. intuition lia.
  - assert (k = k0) as -> by lia. intuition.
Qed.

Lemma assoc_insert_keys k v l x : x ∈ (assoc_insert k v l).*1 <-> x = k \/ x ∈ l.*1.
Proof.
  induction l as [|[k0 v0] l IH]; simpl; [by rewrite list_elem_of_singleton, elem_of_nil; tauto|].
  destruct (Z.ltb_spec k k0); [|destruct (Z.ltb_spec k0 k)]; simpl;
    rewrite ?elem_of_cons, ?IH; [tauto..|].
  assert (k = k0) as -> by lia. tauto.
Qed.

Lemma assoc_insert_sorted k v l :
  StronglySorted Z.lt l.*1 -> StronglySorted Z.lt (assoc_insert k v l).*1.
Proof.
  induction l as [|[k0 v0] l IH]; simpl.
  { intros _. constructor; constructor. }
  intros [Hs Hf]%StronglySorted_inv.
  destruct (Z.ltb_spec k k0); [|destruct (Z.ltb_spec k0 k)]; simpl.
  - constructor; [by constructor|]. constructor; [done|].
    eapply Forall_impl; [exact Hf|]. simpl. lia.
  - constructor; [by apply IH|]. apply Forall_forall. intros x Hx.
    apply assoc_insert_keys in Hx as [->|Hx]; [done|].
    rewrite Forall_forall in Hf. by apply Hf.
  - by constructor.
Qed.

Lemma sorted_NoDup (l : list Z) : StronglySorted Z.lt l -> NoDup l.
Proof.
  induction 1 as [|x l _ IH Hf]; constructor; [|done]. by apply sorted_lt_notin.
Qed.

Lemma assoc_insert_map k v l : StronglySorted Z.lt l.*1 ->
  list_to_map (assoc_insert k v l) =
    match (list_to_map l : gmap Z Z) !! k with
    | Some _ => list_to_map l : gmap Z Z
    | None => <[k:=v]> (list_to_map l)
    end.
Proof.
  intros Hs. pose proof (sorted_NoDup _ Hs) as Hnd.
  pose proof (sorted_NoDup _ (assoc_insert_sorted k v l Hs)) as Hnd'.
  apply map_eq. intros j. apply option_eq. intros w.
  rewrite <- elem_of_list_to_map, assoc_insert_elem by done.
  destruct ((list_to_map l : gmap Z Z) !! k) as [v0|] eqn:Hk.
  - rewrite <- elem_of_list_to_map by done.
    apply elem_of_list_to_map, (list_elem_of_fmap_2 fst) in Hk; [|done]. simpl in Hk. tauto.
  - apply not_elem_of_list_to_map in Hk. rewrite lookup_insert_Some, <- elem_of_list_to_map by done.
    split.
    + intros [Hin|[_ [= -> ->]]]; [|by left]. right. split; [|done].
      intros <-. apply Hk. by apply (list_elem_of_fmap_2 fst _ (k, w)).
    + intros [[-> ->]|[_ Hin]]; [by right|by left].
Qed.

Lemma assoc_remove_map k l :
  list_to_map (assoc_remove k l) = delete k (list_to_map l : gmap Z Z).
Proof.
  unfold assoc_remove. induction l as [|[k0 v0] l IH]; simpl; [by rewrite delete_empty|].
  rewrite filter_cons. simpl. case_decide as Hk; simpl.
  - by rewrite IH, delete_insert_ne by done.
  - assert (k0 = k) as -> by (destruct (decide (k0 = k)); tauto).
    by rewrite IH, delete_insert_eq.
Qed.

Lemma assoc_remove_sorted k l :
  StronglySorted Z.lt l.*1 -> StronglySorted Z.lt (assoc_remove k l).*1.
Proof.
  unfold assoc_remove. induction l as [|[k0 v0] l IH]; simpl; [done|].
  intros [Hs Hf]%StronglySorted_inv. rewrite filter_cons. case_decide; simpl; [|auto].
  constructor; [auto|]. apply Forall_forall. rewrite Forall_forall in Hf.
  intros x Hx. apply Hf. apply list_elem_of_fmap in Hx as (p & -> & [_ Hp]%list_elem_of_filter).
  by apply list_elem_of_fmap_2.
Qed.

Lemma assoc_remove_notin k l : k ∉ l.*1 -> assoc_remove k l = l.
Proof.
  unfold assoc_remove. induction l as [|[k0 v0] l IH]; simpl; [done|].
  intros [? ?]%not_elem_of_cons. rewrite filter_cons, decide_True by (simpl; congruence).
  by rewrite IH.
Qed.

Lemma assoc_remove_app k l1 l2 : assoc_remove k (l1 ++ l2) = assoc_remove k l1 ++ assoc_remove k l2.
Proof. apply filter_app. Qed.

Lemma sorted_gt_notin (l : list Z) k : Forall (fun x => x < k) l -> k ∉ l.
Proof. rewrite Forall_forall. intros Hf Hk. specialize (Hf k Hk). lia. Qed.

(** Removal around the middle element of a sorted list. *)
Lemma assoc_remove_mid k l k0 v0 r :
  Forall (fun x => x < k0) l.*1 -> Forall (fun x => k0 < x) r.*1 ->
  assoc_remove k (l ++ (k0, v0) :: r) =
    if decide (k < k0) then assoc_remove k l ++ (k0, v0) :: r
    else if decide (k0 < k) then l ++ (k0, v0) :: assoc_remove k r
    else l ++ r.
Proof.
  intros Hl Hr. rewrite assoc_remove_app. unfold assoc_remove at 2. rewrite filter_cons. simpl.
  fold (assoc_remove k r).
  assert (k <= k0 -> assoc_remove k r = r) as Er.
  { intros. apply assoc_remove_notin, sorted_lt_notin. eapply Forall_impl; [exact Hr|]. simpl. lia. }
  assert (k0 <= k -> assoc_remove k l = l) as El.
  { intros. apply assoc_remove_notin, sorted_gt_notin. eapply Forall_impl; [exact Hl|]. simpl. lia. }
  repeat case_decide; try lia; rewrite ?El, ?Er by lia; done.
Qed.

(** ** The rebalancing steps only restructure *)

Lemma rotate_left_then_right_same t t' : rotate_left_then_right t = Ret t' -> same_tree t t'.
Proof.
  unfold rotate_left_then_right.
  intros (l & El & (l' & Hl & (t1 & Et & Hr)%outcome_bind_Ret)%outcome_bind_Ret)%outcome_bind_Ret.
  destruct t as [|a h k v l0 r]; [done|].
  injection El as <-. injection Et as <-.
  etransitivity; [|by apply right_rotate_same]. apply same_tree_Nd; [|done].
  by apply left_rotate_same.
Qed.

Lemma rotate_right_then_left_same t t' : rotate_right_then_left t = Ret t' -> same_tree t t'.
Proof.
  unfold rotate_right_then_left.
  intros (r & Er & (r' & Hr & (t1 & Et & Hl)%outcome_bind_Ret)%outcome_bind_Ret)%outcome_bind_Ret.
  destruct t as [|a h k v l r0]; [done|].
  injection Er as <-. injection Et as <-.
  etransitivity; [|by apply left_rotate_same]. apply same_tree_Nd; [done|].
  by apply right_rotate_same.
Qed.

Create HintDb avl.
#[export] Hint Resolve update_height_same right_rotate_same left_rotate_same
  rotate_left_then_right_same rotate_right_then_left_same : avl.

Lemma insert_fixup_same k t t' : insert_fixup k t = Ret t' -> same_tree t t'.
Proof.
  unfold insert_fixup. intros Hf. transitivity (avl_update_height t); [auto with avl|].
  repeat first
    [ apply outcome_bind_Ret in Hf as (b & _ & Hf); destruct b; [eauto with avl|] ].
  by simplify_eq.
Qed.

Lemma remove_fixup_same t t' : remove_fixup t = Ret t' -> same_tree t t'.
Proof.
  destruct t as [|a h k v l r]; [by intros [= <-]|]. unfold remove_fixup. intros Hf.
  transitivity (avl_update_height (Nd a h k v l r)); [auto with avl|].
  apply outcome_bind_Ret in Hf as (l' & _ & Hf). apply outcome_bind_Ret in Hf as (r' & _ & Hf).
  repeat case_match; eauto with avl. by simplify_eq.
Qed.

(** Where the recorded heights say "too deep" there is a child to rotate. *)
Lemma nonleaf t : 1 <= avl_height t -> exists a h k v l r, t = Nd a h k v l r.
Proof. destruct t; simpl; [lia|eauto 10]. Qed.

Lemma right_rotate_total a h k v l r : 1 <= avl_height l ->
  terminates (avl_right_rotate (Nd a h k v l r)).
Proof. intros (?&?&?&?&?&?&->)%nonleaf. eexists. apply right_rotate_Nd. Qed.

Lemma left_rotate_total a h k v l r : 1 <= avl_height r ->
  terminates (avl_left_rotate (Nd a h k v l r)).
Proof. intros (?&?&?&?&?&?&->)%nonleaf. eexists. apply left_rotate_Nd. Qed.

Lemma left_then_right_total a h k v la lh lk lv ll lr r : 1 <= avl_height lr ->
  terminates (rotate_left_then_right (Nd a h k v (Nd la lh lk lv ll lr) r)).
Proof.
  intros (?&?&?&?&?&?&->)%nonleaf. unfold rotate_left_then_right. cbn [left_of]. ostep.
  rewrite left_rotate_Nd. cbn [set_left]. ostep. cbn [set_left]. ostep.
  rewrite right_rotate_Nd. by eexists.
Qed.

Lemma right_then_left_total a h k v l ra rh rk rv rl rr : 1 <= avl_height rl ->
  terminates (rotate_right_then_left (Nd a h k v l (Nd ra rh rk rv rl rr))).
Proof.
  intros (?&?&?&?&?&?&->)%nonleaf. unfold rotate_right_then_left. cbn [right_of]. ostep.
  rewrite right_rotate_Nd. ostep. cbn [set_right]. ostep. rewrite left_rotate_Nd. by eexists.
Qed.

Lemma remove_fixup_total t : heights_pos t -> terminates (remove_fixup t).
Proof.
  destruct t as [|a h k v l r]; [intros _; by eexists|]. intros (Hh & Hl & Hr).
  unfold remove_fixup. rewrite update_height_Nd. cbn [left_of right_of]. ostep.
  cbn [avl_balance]. pose proof (heights_pos_height l Hl). pose proof (heights_pos_height r Hr).
  destruct (Z.ltb_spec 1 (avl_height l - avl_height r)); cbn [andb].
  - destruct (Z.leb_spec 0 (avl_balance l)); [apply right_rotate_total; lia|].
    rewrite (proj2 (Z.ltb_lt _ _)) by lia.
    destruct (nonleaf l ltac:(lia)) as (?&?&?&?&ll&lr&->). simpl in *.
    destruct Hl as (_ & Hll%heights_pos_height & _). apply left_then_right_total. lia.
  - destruct (Z.ltb_spec (avl_height l - avl_height r) (-1)); cbn [andb]; [|by eexists].
    destruct (Z.leb_spec (avl_balance r) 0); [apply left_rotate_total; lia|].
    rewrite (proj2 (Z.ltb_lt _ _)) by lia.
    destruct (nonleaf r ltac:(lia)) as (?&?&?&?&rl&rr&->). simpl in *.
    destruct Hr as (_ & _ & Hrr%heights_pos_height). apply right_then_left_total. lia.
Qed.

(** ** Lookup *)
Lemma keys_elem t k v : (k, v) ∈ inorder t -> k ∈ keys t.
Proof. intros Hk. by apply (list_elem_of_fmap_2 fst) in Hk. Qed.

Lemma avl_map_lookup t k v : bst t -> avl_map t !! k = Some v <-> (k, v) ∈ inorder t.
Proof. intros Hb. unfold avl_map. by rewrite <- elem_of_list_to_map by by apply sorted_NoDup. Qed.

Lemma avl_map_None t k : avl_map t !! k = None <-> k ∉ keys t.
Proof. unfold avl_map. by rewrite <- not_elem_of_list_to_map. Qed.

Lemma avl_get_ok t key :
  bst t -> avl_get t key = default NULL (avl_map t !! key).
Proof.
  induction t as [|a h k v l IHl r IHr]; intros Hb; [done|].
  pose proof Hb as (Hl & Hr & Hbl & Hbr)%bst_Nd. cbn [avl_get].
  assert (forall t', bst t' -> (forall w', (key, w') ∈ inorder t' <-> (key, w') ∈ inorder (Nd a h k v l r)) ->
    default NULL (avl_map t' !! key) = default NULL (avl_map (Nd a h k v l r) !! key)) as Hsame.
  { intros t' Hb' Heq. f_equal. apply option_eq. intros w.
    rewrite !avl_map_lookup by done. apply Heq. }
  rewrite Forall_forall in Hl, Hr. cbn [inorder] in Hsame.
  destruct (Z.ltb_spec key k); [|destruct (Z.ltb_spec k key)].
  - rewrite IHl by done. apply (Hsame l Hbl). intros w.
    rewrite elem_of_app, elem_of_cons. split; [by left|].
    intros [?|[?|?%keys_elem%Hr]]; [done|simplify_eq; lia|lia].
  - rewrite IHr by done. apply (Hsame r Hbr). intros w.
    rewrite elem_of_app, elem_of_cons. split; [by right; right|].
    intros [?%keys_elem%Hl|[?|?]]; [lia|simplify_eq; lia|done].
  - assert (k = key) as -> by lia. rewrite (proj2 (avl_map_lookup _ _ v Hb)); [done|].
    simpl. rewrite elem_of_app, elem_of_cons. auto.
Qed.

(** On a search tree [avl_get] returns the pointer stored under the key, and
    NULL when the key is absent, whatever the recorded heights are. *)
Theorem avl_get_spec t key :
  bst t -> avl_get t key = default NULL (avl_map t !! key).
Proof. apply avl_get_ok. Qed.

(** ** Insertion *)

(** A key on the far side of the root is below the corresponding child. *)
Lemma key_right_nonleaf a h k v l r key : bst (Nd a h k v l r) -> heights_pos r ->
  key ∈ keys (Nd a h k v l r) -> k < key -> 1 <= avl_height r.
Proof.
  intros (Hl & _)%bst_Nd Hp Hin Hk. rewrite keys_Nd, elem_of_app, elem_of_cons in Hin.
  rewrite Forall_forall in Hl. destruct Hin as [Hin%Hl|[?|Hin]]; [lia..|].
  destruct r; simpl in *; [by apply elem_of_nil in Hin|lia].
Qed.

Lemma key_left_nonleaf a h k v l r key : bst (Nd a h k v l r) -> heights_pos l ->
  key ∈ keys (Nd a h k v l r) -> key < k -> 1 <= avl_height l.
Proof.
  intros (_ & Hr & _)%bst_Nd Hp Hin Hk. rewrite keys_Nd, elem_of_app, elem_of_cons in Hin.
  rewrite Forall_forall in Hr. destruct Hin as [Hin|[?|Hin%Hr]]; [|lia..].
  destruct l; simpl in *; [by apply elem_of_nil in Hin|lia].
Qed.

(** The way back up after an insertion on the left, when the right side is not
    recorded as deeper: no NULL is read and the recorded height does not sink. *)
Lemma insert_fixup_left key a h k v l r :
  heights_pos l -> heights_pos r -> bst l -> key ∈ keys l -> avl_height r - 1 <= avl_height l ->
  exists t', insert_fixup key (Nd a h k v l r) = Ret t' /\
    1 + Z.max (avl_height l) (avl_height r) <= avl_height t'.
Proof.
  intros Hpl Hpr Hb Hin Hh. unfold insert_fixup. rewrite update_height_Nd.
  cbn [avl_balance left_of right_of]. ostep.
  rewrite (proj2 (Z.ltb_ge (avl_height l - avl_height r) (-1))) by lia.
  pose proof (heights_pos_height r Hpr).
  destruct (Z.ltb_spec 1 (avl_height l - avl_height r)); cbn [and_then]; ostep;
    [|eexists; split; [done|simpl; lia]].
  destruct (nonleaf l ltac:(lia)) as (la & lh & lk & lv & ll & lr & ->). cbn [key_of]. ostep.
  destruct (Z.ltb_spec key lk).
  { eexists. split; [apply right_rotate_Nd|]. simpl. lia. }
  destruct (Z.ltb_spec lk key); [|eexists; split; [done|simpl; lia]].
  destruct Hpl as (_ & _ & Hplr). pose proof (key_right_nonleaf _ _ _ _ _ _ _ Hb Hplr Hin ltac:(done)).
  destruct (nonleaf lr ltac:(lia)) as (?&?&?&?&?&?&->).
  unfold rotate_left_then_right. cbn [left_of]. ostep. rewrite left_rotate_Nd. ostep.
  cbn [set_left]. ostep. eexists. split; [apply right_rotate_Nd|]. simpl. lia.
Qed.

Lemma insert_fixup_right key a h k v l r :
  heights_pos l -> heights_pos r -> bst r -> key ∈ keys r -> avl_height l - 1 <= avl_height r ->
  exists t', insert_fixup key (Nd a h k v l r) = Ret t' /\
    (1 + Z.max (avl_height l) (avl_height r) <= avl_height t' \/
     avl_height l + 2 <= avl_height t').
Proof.
  intros Hpl Hpr Hb Hin Hh. unfold insert_fixup. rewrite update_height_Nd.
  cbn [avl_balance left_of right_of]. ostep.
  rewrite (proj2 (Z.ltb_ge 1 (avl_height l - avl_height r))) by lia. cbn [and_then]. ostep.
  pose proof (heights_pos_height l Hpl).
  destruct (Z.ltb_spec (avl_height l - avl_height r) (-1)); cbn [and_then]; ostep;
    [|eexists; split; [done|simpl; lia]].
  destruct (nonleaf r ltac:(lia)) as (ra & rh & rk & rv & rl & rr & ->). cbn [key_of]. ostep.
  destruct (Z.ltb_spec rk key).
  { eexists. split; [apply left_rotate_Nd|]. simpl. lia. }
  destruct (Z.ltb_spec key rk); [|eexists; split; [done|simpl; lia]].
  destruct Hpr as (_ & Hprl & _). pose proof (key_left_nonleaf _ _ _ _ _ _ _ Hb Hprl Hin ltac:(done)).
  destruct (nonleaf rl ltac:(lia)) as (?&?&?&?&?&?&->).
  unfold rotate_right_then_left. cbn [right_of]. ostep. rewrite right_rotate_Nd. ostep.
  cbn [set_right]. ostep. eexists. split; [apply left_rotate_Nd|]. simpl. lia.
Qed.

Section Insert.
Context {H : Type} `{KHeap H}.

(** Whatever the recorded heights, an insertion that returns has inserted. *)
Lemma avl_insert_result t key value : forall (h h' : H) t',
  avl_insert t key value h = Ret (t', h') -> bst t ->
  inorder t' = assoc_insert key value (inorder t) /\ (heights_pos t -> heights_pos t') /\
  ((key ∈ keys t /\ h' = h /\ addrs t' ≡ₚ addrs t) \/
   (key ∉ keys t) /\ exists p, kmalloc sizeof_avltree h = Ret (p, h') /\ p <> NULL /\
     addrs t' ≡ₚ p :: addrs t).
Proof.
  induction t as [|a ht k v l IHl r IHr]; intros h h' t' Hins Hb; cbn [avl_insert] in Hins.
  - apply M_bind_Ret in Hins as (p & h1 & Hp & Hret). case_decide; [done|].
    injection Hret as <- <-. split_and!; [done|simpl; lia|]. right.
    split; [apply not_elem_of_nil|]. by exists p.
  - pose proof Hb as (Hfl & Hfr & Hbl & Hbr)%bst_Nd. rewrite keys_Nd, elem_of_app, elem_of_cons.
    assert (key < k -> key ∉ keys r) as Hnr.
    { intros. apply sorted_lt_notin. eapply Forall_impl; [exact Hfr|]. simpl. lia. }
    assert (k < key -> key ∉ keys l) as Hnl.
    { intros. apply sorted_gt_notin. eapply Forall_impl; [exact Hfl|]. simpl. lia. }
    destruct (Z.ltb_spec key k); [|destruct (Z.ltb_spec k key)].
    + apply M_bind_Ret in Hins as (l' & h1 & Hl & (t1 & Hf & [= <- <-])%outcome_bind_Ret).
      apply insert_fixup_same in Hf as (Ei & Ea & Ep).
      destruct (IHl _ _ _ Hl Hbl) as (Il & Pl & Al). cbn [inorder addrs heights_pos] in *.
      split; [by rewrite Ei, Il, assoc_insert_left by done|]. split; [intros (?&?&?); auto|].
      destruct Al as [(? & -> & Al)|(? & p & ? & ? & Al)]; [left|right].
      * split_and!; auto. by rewrite Ea, Al.
      * split; [intros [?|[?|?]]; [tauto|lia|tauto]|]. exists p. split_and!; auto.
        rewrite Ea, Al. solve_Permutation.
    + apply M_bind_Ret in Hins as (r' & h1 & Hr & (t1 & Hf & [= <- <-])%outcome_bind_Ret).
      apply insert_fixup_same in Hf as (Ei & Ea & Ep).
      destruct (IHr _ _ _ Hr Hbr) as (Ir & Pr & Ar). cbn [inorder addrs heights_pos] in *.
      split; [by rewrite Ei, Ir, assoc_insert_right by done|]. split; [intros (?&?&?); auto|].
      destruct Ar as [(? & -> & Ar)|(? & p & ? & ? & Ar)]; [left|right].
      * split_and!; auto. by rewrite Ea, Ar.
      * split; [intros [?|[?|?]]; [tauto|lia|tauto]|]. exists p. split_and!; auto.
        rewrite Ea, Ar. solve_Permutation.
    + assert (k = key) as -> by lia. injection Hins as <- <-. cbn [inorder].
      rewrite assoc_insert_here by done. split_and!; auto.
Qed.

(** On a tree that satisfies the AVL invariant an insertion returns. *)
Lemma avl_insert_returns t key value (h h1 : H) p :
  avl t -> bst t -> kmalloc sizeof_avltree h = Ret (p, h1) -> p <> NULL ->
  exists t' h', avl_insert t key value h = Ret (t', h') /\
    avl_height t <= avl_height t' /\ key ∈ keys t'.
Proof.
  intros Ha Hb Hm Hp.
  enough (exists t' h', avl_insert t key value h = Ret (t', h') /\
    avl_height t <= avl_height t') as (t' & h' & E & Hh).
  { exists t', h'. split_and!; [done..|]. destruct (avl_insert_result _ _ _ _ _ _ E Hb) as (Ei & _).
    unfold keys. rewrite Ei, assoc_insert_keys. by left. }
  induction t as [|a ht k v l IHl r IHr]; cbn [avl_insert].
  { eexists _, _. split; [unfold avl_new; apply M_bind_Ret; exists p, h1; rewrite decide_False by done; done|].
    simpl. lia. }
  destruct Ha as (Eh & Hbal & Hal & Har). pose proof Hb as (_ & _ & Hbl & Hbr)%bst_Nd.
  pose proof (avl_heights_pos _ Hal) as Hpl. pose proof (avl_heights_pos _ Har) as Hpr.
  destruct (Z.ltb_spec key k); [|destruct (Z.ltb_spec k key)].
  - destruct (IHl Hal Hbl) as (l' & h' & E & Hh).
    destruct (avl_insert_result _ _ _ _ _ _ E Hbl) as (Ei & Hpl' & _).
    destruct (insert_fixup_left key a ht k v l' r) as (t' & Ef & Ht'); auto; [| |lia|].
    + unfold bst, keys. rewrite Ei. by apply assoc_insert_sorted.
    + unfold keys. rewrite Ei, assoc_insert_keys. by left.
    + exists t', h'. split; [|simpl; lia]. apply M_bind_Ret. exists l', h'. split; [done|].
      unfold liftO. by rewrite Ef.
  - destruct (IHr Har Hbr) as (r' & h' & E & Hh).
    destruct (avl_insert_result _ _ _ _ _ _ E Hbr) as (Ei & Hpr' & _).
    destruct (insert_fixup_right key a ht k v l r') as (t' & Ef & Ht'); auto; [| |lia|].
    + unfold bst, keys. rewrite Ei. by apply assoc_insert_sorted.
    + unfold keys. rewrite Ei, assoc_insert_keys. by left.
    + exists t', h'. split; [|simpl; lia]. apply M_bind_Ret. exists r', h'. split; [done|].
      unfold liftO. by rewrite Ef.
  - eexists _, h. split; [done|]. simpl. lia.
Qed.

Lemma avl_insert_ok t key value (h h1 : H) p :
  avl t -> bst t -> kmalloc sizeof_avltree h = Ret (p, h1) -> p <> NULL ->
  exists t', avl_insert t key value h = Ret (t', if decide (key ∈ keys t) then h else h1) /\
    bst t' /\ heights_pos t' /\ inorder t' = assoc_insert key value (inorder t) /\
    avl_map t' = (if decide (key ∈ keys t) then avl_map t else <[key:=value]> (avl_map t)) /\
    addrs t' ≡ₚ (if decide (key ∈ keys t) then [] else [p]) ++ addrs t.
Proof.
  intros Ha Hb Hm Hp. destruct (avl_insert_returns t key value h h1 p) as (t' & h' & E & _); [done..|].
  destruct (avl_insert_result _ _ _ _ _ _ E Hb) as (Ei & Hpos & Hcase).
  exists t'. assert (avl_map t' = list_to_map (assoc_insert key value (inorder t))) as Em
    by (unfold avl_map; by rewrite Ei).
  rewrite Em, assoc_insert_map by done. fold (avl_map t).
  assert (bst t' /\ heights_pos t' /\ inorder t' = assoc_insert key value (inorder t)) as (?&?&?).
  { split_and!; [|by apply Hpos, avl_heights_pos|done].
    unfold bst, keys. rewrite Ei. by apply assoc_insert_sorted. }
  case_decide as Hin; destruct Hcase as [(? & -> & Hadr)|(? & p' & Hm' & _ & Hadr)]; try done.
  - split_and!; try done. destruct (avl_map t !! key) eqn:El; [done|].
    by apply avl_map_None in El.
  - rewrite Hm in Hm'. simplify_eq. split_and!; try done.
    by apply avl_map_None in Hin as ->.
Qed.

(** C10: On an AVL tree in search order, when the node can be allocated,
    [avl_insert] returns without reading through NULL.  A new key is added to
    the map with one fresh node; a present key changes neither the tree's
    pairs nor the heap. *)
Theorem avl_insert_spec t key value (h h1 : H) p :
  avl t -> bst t -> kmalloc sizeof_avltree h = Ret (p, h1) -> p <> NULL ->
  exists t', avl_insert t key value h = Ret (t', if decide (key ∈ keys t) then h else h1) /\
    bst t' /\ heights_pos t' /\ inorder t' = assoc_insert key value (inorder t) /\
    avl_map t' = (if decide (key ∈ keys t) then avl_map t else <[key:=value]> (avl_map t)) /\
    addrs t' ≡ₚ (if decide (key ∈ keys t) then [] else [p]) ++ addrs t.
Proof. apply avl_insert_ok. Qed.
End Insert.

(** ** Removal *)
Lemma leftmost_spec t : t <> Leaf ->
  exists k v rest, leftmost t = Ret (k, v) /\ inorder t = (k, v) :: rest.
Proof.
  induction t as [|a h k v l IHl r _]; [done|]. intros _.
  destruct l as [|la lh lk lv ll lr]; [by eexists _, _, _|].
  destruct IHl as (k' & v' & rest & E & I); [done|].
  eexists k', v', _. split; [exact E|]. cbn [inorder] in *. rewrite I. done.
Qed.

(** Removing the first pair of a sorted list leaves the rest. *)
Lemma assoc_remove_head k v rest : StronglySorted Z.lt ((k, v) :: rest).*1 ->
  assoc_remove k ((k, v) :: rest) = rest.
Proof.
  intros [_ Hf]%StronglySorted_inv.
  pose proof (assoc_remove_mid k [] k v rest ltac:(constructor) Hf) as E.
  rewrite !decide_False in E by lia. exact E.
Qed.

Section Remove.
Context {H : Type} `{KHeapOk H}.

(** Finish a removal: the way back up always returns and only restructures. *)
Lemma remove_finish t (h : H) : heights_pos t ->
  exists t', liftO (remove_fixup t) h = Ret (t', h) /\ same_tree t t'.
Proof.
  intros Hp. destruct (remove_fixup_total t Hp) as [t' E]. exists t'.
  split; [unfold liftO; by rewrite E|by apply remove_fixup_same].
Qed.

(** The outcome of a removal: absent key, or one node released. *)
Definition removed (t t' : avltree_t) (key : Z) (h h' : H) : Prop :=
  inorder t' = assoc_remove key (inorder t) /\ heights_pos t' /\
  ((key ∉ keys t) /\ h' = h /\ addrs t' ≡ₚ addrs t \/
   key ∈ keys t /\ exists p, addrs t ≡ₚ p :: addrs t' /\ live h' = live h ∖ {[p]}).

(** A node with at most one child: the child's contents move into the node and
    the child's block, or the node's own, is released. *)
Lemma remove_splice (t t1 : avltree_t) key (h : H) p :
  (p ∈ live h) -> heights_pos t1 -> inorder t1 = assoc_remove key (inorder t) ->
  key ∈ keys t -> addrs t ≡ₚ p :: addrs t1 ->
  exists t' h', (_ ← kfree p; liftO (remove_fixup t1)) h = Ret (t', h') /\ removed t t' key h h'.
Proof.
  intros Hp Hpos Hi Hk Ha. destruct (kfree_spec h p Hp) as (h' & E & Hl).
  destruct (remove_finish t1 h' Hpos) as (t' & Ef & Ei & Ea & Ep).
  exists t', h'. split; [apply M_bind_Ret; eauto|].
  split; [by rewrite Ei, Hi|]. split; [by apply Ep|]. right. split; [done|].
  exists p. split; [by rewrite Ha, Ea|done].
Qed.

Lemma removed_left a ht k v l r l' t' key (h h' : H) :
  bst (Nd a ht k v l r) -> 1 <= ht -> heights_pos r -> key < k ->
  removed l l' key h h' -> same_tree (Nd a ht k v l' r) t' ->
  removed (Nd a ht k v l r) t' key h h'.
Proof.
  intros (Hfl & Hfr & _)%bst_Nd Hh Hpr Hlt (Il & Hpl & Hc) (Ei & Ea & Ep).
  assert (key ∉ keys r).
  { apply sorted_lt_notin. eapply Forall_impl; [exact Hfr|]. simpl. lia. }
  unfold removed. rewrite keys_Nd, elem_of_app, elem_of_cons. cbn [inorder addrs heights_pos] in *.
  rewrite assoc_remove_mid, decide_True by done.
  split; [by rewrite Ei, Il|]. split; [by apply Ep|].
  destruct Hc as [(? & -> & Hc)|(? & p & Hc & ?)]; [left|right].
  - split_and!; [intros [?|[?|?]]; [tauto|lia|tauto]|done|]. by rewrite Ea, Hc.
  - split; [by left|]. exists p. split; [|done]. rewrite Hc, Ea. solve_Permutation.
Qed.

Lemma removed_right a ht k v l r r' t' key (h h' : H) :
  bst (Nd a ht k v l r) -> 1 <= ht -> heights_pos l -> k < key ->
  removed r r' key h h' -> same_tree (Nd a ht k v l r') t' ->
  removed (Nd a ht k v l r) t' key h h'.
Proof.
  intros (Hfl & Hfr & _)%bst_Nd Hh Hpl Hlt (Ir & Hpr & Hc) (Ei & Ea & Ep).
  assert (key ∉ keys l).
  { apply sorted_gt_notin. eapply Forall_impl; [exact Hfl|]. simpl. lia. }
  unfold removed. rewrite keys_Nd, elem_of_app, elem_of_cons. cbn [inorder addrs heights_pos] in *.
  rewrite assoc_remove_mid, decide_False, decide_True by (done || lia).
  split; [by rewrite Ei, Ir|]. split; [by apply Ep|].
  destruct Hc as [(? & -> & Hc)|(? & p & Hc & ?)]; [left|right].
  - split_and!; [intros [?|[?|?]]; [tauto|lia|tauto]|done|]. by rewrite Ea, Hc.
  - split; [by right; right|]. exists p. split; [|done]. rewrite Hc, Ea. solve_Permutation.
Qed.

(** Removing the root's own pair. *)
Lemma inorder_remove_root a ht k v l r : bst (Nd a ht k v l r) ->
  assoc_remove k (inorder (Nd a ht k v l r)) = inorder l ++ inorder r.
Proof.
  intros (Hfl & Hfr & _)%bst_Nd. cbn [inorder]. rewrite assoc_remove_mid by done.
  by rewrite !decide_False by lia.
Qed.

Lemma root_key a ht k v l r : k ∈ keys (Nd a ht k v l r).
Proof. rewrite keys_Nd, elem_of_app, elem_of_cons. auto. Qed.

Lemma removed_root a ht k v l r mk mv rest r' t' (h h' : H) :
  bst (Nd a ht k v l r) -> 1 <= ht -> heights_pos l -> inorder r = (mk, mv) :: rest ->
  removed r r' mk h h' -> same_tree (Nd a ht mk mv l r') t' ->
  removed (Nd a ht k v l r) t' k h h'.
Proof.
  intros Hb Hh Hpl Im (Ir & Hpr & Hc) (Ei & Ea & Ep).
  pose proof Hb as (_ & _ & _ & Hbr)%bst_Nd.
  assert (inorder r' = rest) as Ir'.
  { rewrite Ir, Im. apply assoc_remove_head. rewrite <- Im. exact Hbr. }
  split; [|split].
  - rewrite inorder_remove_root by done. rewrite Ei, Im. cbn [inorder]. by rewrite Ir'.
  - by apply Ep.
  - right. split; [apply root_key|]. destruct Hc as [(Hn & _)|(_ & p & Hc & ?)].
    + exfalso. apply Hn. unfold keys. rewrite Im. apply elem_of_cons. by left.
    + exists p. split; [|done]. cbn [addrs] in *. rewrite Hc, Ea. solve_Permutation.
Qed.

Lemma avl_remove_result t : forall key (h : H),
  bst t -> heights_pos t -> (forall a, a ∈ addrs t -> a ∈ live h) ->
  exists t' h', avl_remove t key h = Ret (t', h') /\ removed t t' key h h'.
Proof.
  induction t as [|a ht k v l IHl r IHr]; intros key h Hb Hp Hlive.
  { eexists Leaf, h. split; [done|]. split_and!; try done. left. split; [apply not_elem_of_nil|done]. }
  pose proof Hb as (_ & _ & Hbl & Hbr)%bst_Nd. destruct Hp as (Hh & Hpl & Hpr).
  assert (forall b, b ∈ addrs l \/ b ∈ addrs r -> b ∈ live h) as Hlr.
  { intros b ?. apply Hlive. simpl. rewrite elem_of_cons, elem_of_app. auto. }
  cbn [avl_remove]. destruct (Z.ltb_spec key k); [|destruct (Z.ltb_spec k key)].
  - destruct (IHl key h Hbl Hpl) as (l' & h' & E & Hr); [auto|].
    destruct (remove_finish (Nd a ht k v l' r) h') as (t' & Ef & Hs); [by destruct Hr as (_ & ? & _)|].
    exists t', h'. split; [apply M_bind_Ret; eauto|]. by apply (removed_left _ _ _ _ _ _ l').
  - destruct (IHr key h Hbr Hpr) as (r' & h' & E & Hr); [auto|].
    destruct (remove_finish (Nd a ht k v l r') h') as (t' & Ef & Hs); [by destruct Hr as (_ & ? & _)|].
    exists t', h'. split; [apply M_bind_Ret; eauto|]. by apply (removed_right _ _ _ _ _ _ r').
  - assert (k = key) as -> by lia.
    pose proof (inorder_remove_root _ _ _ _ _ _ Hb) as Hi. pose proof (root_key a ht key v l r).
    destruct l as [|la lh lk lv ll lr]; destruct r as [|ra rh rk rv rl rr].
    + apply (remove_splice _ Leaf); try done. apply Hlive. apply elem_of_cons. by left.
    + apply (remove_splice _ (Nd a rh rk rv rl rr)); try done;
        [apply Hlr; right; apply elem_of_cons; by left|simpl; solve_Permutation].
    + apply (remove_splice _ (Nd a lh lk lv ll lr)); try done;
        [apply Hlr; left; apply elem_of_cons; by left| |].
      * rewrite Hi. by rewrite app_nil_r.
      * simpl. rewrite app_nil_r. solve_Permutation.
    + destruct (leftmost_spec (Nd ra rh rk rv rl rr)) as (mk & mv & rest & Em & Im); [done|].
      destruct (IHr mk h Hbr Hpr) as (r' & h' & E & Hr); [auto|].
      destruct (remove_finish (Nd a ht mk mv (Nd la lh lk lv ll lr) r') h') as (t' & Ef & Hs);
        [by destruct Hr as (_ & ? & _)|].
      exists t', h'. split; [|by apply (removed_root _ _ _ _ _ _ mk mv rest r')].
      apply M_bind_Ret. exists (mk, mv), h. split; [unfold liftO; by rewrite Em|].
      apply M_bind_Ret. eauto.
Qed.

Lemma avl_remove_ok t key (h : H) :
  bst t -> heights_pos t -> NoDup (addrs t) -> (forall a, a ∈ addrs t -> a ∈ live h) ->
  exists t' h', avl_remove t key h = Ret (t', h') /\
    bst t' /\ heights_pos t' /\ avl_map t' = delete key (avl_map t) /\
    NoDup (addrs t') /\ (forall a, a ∈ addrs t' -> a ∈ live h') /\
    (key ∉ keys t -> h' = h) /\
    (key ∈ keys t -> exists p, addrs t ≡ₚ p :: addrs t' /\ live h' = live h ∖ {[p]}).
Proof.
  intros Hb Hp Hnd Hlive. destruct (avl_remove_result t key h Hb Hp Hlive) as (t' & h' & E & Ei & Hp' & Hc).
  exists t', h'. split_and!; try done.
  - unfold bst, keys. rewrite Ei. by apply assoc_remove_sorted.
  - unfold avl_map. by rewrite Ei, assoc_remove_map.
  - destruct Hc as [(_ & _ & Ha)|(_ & p & Ha & _)]; [by rewrite Ha|].
    rewrite Ha in Hnd. by apply NoDup_cons in Hnd as [_ ?].
  - destruct Hc as [(_ & -> & Ha)|(_ & p & Ha & El)]; intros b Hin.
    + apply Hlive. by rewrite <- Ha.
    + rewrite Ha in Hnd. apply NoDup_cons in Hnd as [Hnin _]. rewrite El.
      assert (b ∈ addrs t) by (rewrite Ha; by apply elem_of_cons; right).
      apply elem_of_difference. split; [by apply Hlive|]. rewrite elem_of_singleton.
      by intros ->.
  - destruct Hc as [(_ & -> & _)|(? & _)]; [done|tauto].
  - destruct Hc as [(? & _)|(_ & ?)]; [tauto|done].
Qed.

(** C12: On any search tree whose nodes are live blocks, [avl_remove] returns: it
    removes exactly the pair with the key, releases exactly one node when the
    key is present and none when it is absent, and no node is used after its
    release. *)
Theorem avl_remove_spec t key (h : H) :
  bst t -> heights_pos t -> NoDup (addrs t) -> (forall a, a ∈ addrs t -> a ∈ live h) ->
  exists t' h', avl_remove t key h = Ret (t', h') /\
    bst t' /\ heights_pos t' /\ avl_map t' = delete key (avl_map t) /\
    NoDup (addrs t') /\ (forall a, a ∈ addrs t' -> a ∈ live h') /\
    (key ∉ keys t -> h' = h) /\
    (key ∈ keys t -> exists p, addrs t ≡ₚ p :: addrs t' /\ live h' = live h ∖ {[p]}).
Proof. apply avl_remove_ok. Qed.
End Remove.

(** ** Ascending keys

    Process ids are handed out in increasing order, so insertions into the
    process table only ever use the left rotation, whose heights are right. *)
Section Ascending.
Context {H : Type} `{KHeap H}.

(** The shape of a tree that has just grown by one level. *)
Definition grown_right (t t' : avltree_t) (key : Z) : Prop :=
  t = Leaf \/ exists a h k v l r, t' = Nd a h k v l r /\ k < key /\
    (avl_height t' = avl_height t + 1 -> avl_height r = avl_height l + 1).

Lemma insert_fixup_max key a ht k v l r r' :
  avl (Nd a ht k v l r) -> k < key -> avl r' ->
  avl_height r <= avl_height r' <= avl_height r + 1 -> grown_right r r' key ->
  exists t', insert_fixup key (Nd a ht k v l r') = Ret t' /\ avl t' /\
    avl_height (Nd a ht k v l r) <= avl_height t' <= avl_height (Nd a ht k v l r) + 1 /\
    grown_right (Nd a ht k v l r) t' key.
Proof.
  intros (Eh & Hbal & Hal & Har) Hk Har' Hh Hg. unfold insert_fixup. rewrite update_height_Nd.
  cbn [avl_balance right_of]. rewrite (proj2 (Z.ltb_ge 1 (avl_height l - avl_height r'))) by lia.
  cbn [and_then]. ostep. destruct (Z.ltb_spec (avl_height l - avl_height r') (-1)); cbn [and_then]; ostep.
  - destruct Hg as [->|(ra & rh & rk & rv & rl & rr & -> & Hrk & Hgrow)].
    { pose proof (heights_pos_height l (avl_heights_pos l Hal)). simpl in *. lia. }
    cbn [key_of]. ostep. rewrite (proj2 (Z.ltb_lt _ _)) by done.
    specialize (Hgrow ltac:(lia)). destruct Har' as (Erh & Hrbal & Hrl & Hrr).
    cbn [avl_height] in *.
    eexists. split; [apply left_rotate_Nd|]. simpl. split_and!; try done; try lia.
    right. eexists _, _, _, _, _, _. split; [done|]. simpl. lia.
  - eexists. split; [done|]. simpl. split_and!; try done; try lia.
    right. eexists _, _, _, _, _, _. split; [done|]. simpl. lia.
Qed.

Lemma avl_insert_max t key value (h h1 : H) p :
  avl t -> Forall (fun x => x < key) (keys t) ->
  kmalloc sizeof_avltree h = Ret (p, h1) -> p <> NULL ->
  exists t', avl_insert t key value h = Ret (t', h1) /\ avl t' /\
    avl_height t <= avl_height t' <= avl_height t + 1 /\ grown_right t t' key.
Proof.
  intros Ha Hmax Hm Hp. induction t as [|a ht k v l _ r IHr]; cbn [avl_insert].
  { eexists. split; [unfold avl_new; apply M_bind_Ret; exists p, h1; rewrite decide_False by done; done|].
    split_and!; simpl; try lia; try done. by left. }
  rewrite keys_Nd in Hmax. apply Forall_app in Hmax as [_ [Hk Hr]%Forall_cons].
  rewrite (proj2 (Z.ltb_ge _ _)), (proj2 (Z.ltb_lt _ _)) by lia.
  destruct IHr as (r' & E & Har' & Hh & Hg); [by destruct Ha as (_ & _ & _ & ?)|done|].
  destruct (insert_fixup_max key a ht k v l r r') as (t' & Ef & ? & ? & ?); try done.
  exists t'. split; [|tauto]. apply M_bind_Ret. exists r', h1. split; [done|].
  unfold liftO. by rewrite Ef.
Qed.

(** Inserting a key above all present ones keeps the AVL invariant exactly:
    the recorded heights stay the true heights, and siblings stay within one. *)
Theorem avl_insert_ascending t key value (h h1 : H) p :
  avl t -> bst t -> Forall (fun x => x < key) (keys t) ->
  kmalloc sizeof_avltree h = Ret (p, h1) -> p <> NULL ->
  exists t', avl_insert t key value h = Ret (t', h1) /\ avl t' /\ bst t' /\
    avl_height t' = depth t' /\ avl_map t' = <[key:=value]> (avl_map t).
Proof.
  intros Ha Hb Hmax Hm Hp. assert (key ∉ keys t) as Hn by (by apply sorted_gt_notin).
  destruct (avl_insert_max t key value h h1 p) as (t' & E & Ha' & _); try done.
  destruct (avl_insert_ok t key value h h1 p) as (t2 & E2 & Hb' & _ & _ & Em & _); try done.
  rewrite E in E2. injection E2 as <- _. exists t'. rewrite decide_False in Em by done.
  split_and!; try done. by apply avl_height_depth.
Qed.
End Ascending.

(** The arithmetic step of the depth bound. *)
Lemma squares_add X Y u w : 0 < X -> Y = X \/ Y = 2 * X -> 0 <= u -> 0 <= w ->
  Y <= u ^ 2 -> X <= w ^ 2 -> 2 * Y <= (u + w) ^ 2.
Proof.
  intros HX HY Hu Hw H1 H2. rewrite Z.pow_2_r in *.
  assert (Y * X <= (u * u) * (w * w)) by (apply Z.mul_le_mono_nonneg; lia).
  assert (Y * Y <= 2 * (Y * X)) by (destruct HY as [-> | ->]; lia).
  assert (Y <= 2 * (u * w)).
  { apply Z.square_le_simpl_nonneg; [lia|].
    replace (2 * (u * w) * (2 * (u * w))) with (4 * (u * u * (w * w))) by ring.
    destruct HY as [-> | ->]; lia. }
  replace ((u + w) * (u + w)) with (u * u + w * w + 2 * (u * w)) by ring.
  destruct HY as [-> | ->]; lia.
Qed.

(** A tree that satisfies the AVL invariant has logarithmic depth: with [n]
    keys, 2^depth <= (n + 1)^2, so a lookup visits at most 2 log2 (n + 1)
    nodes. *)
Theorem avl_depth_bound t :
  avl t -> 2 ^ depth t <= (Z.of_nat (length (keys t)) + 1) ^ 2.
Proof.
  intros Ha. rewrite <- avl_height_depth by done.
  induction t as [|a h k v l IHl r IHr]; [simpl; lia|].
  pose proof (avl_heights_pos _ Ha) as (_ & Hl%heights_pos_height & Hr%heights_pos_height).
  destruct Ha as (Eh & Hbal & Hal & Har). specialize (IHl Hal). specialize (IHr Har).
  rewrite keys_Nd, length_app. simpl avl_height. cbn [length]. rewrite Eh, Z.pow_add_r by lia.
  set (x := Z.of_nat (length (keys l)) + 1) in *. set (y := Z.of_nat (length (keys r)) + 1) in *.
  replace (Z.of_nat (length (keys l) + S (length (keys r))) + 1) with (x + y) by lia.
  assert (0 <= x /\ 0 <= y) as [Hx Hy] by lia.
  assert (0 < 2 ^ avl_height l) by (apply Z.pow_pos_nonneg; lia).
  assert (0 < 2 ^ avl_height r) by (apply Z.pow_pos_nonneg; lia).
  destruct (Z.le_gt_cases (avl_height r) (avl_height l)) as [Hc|Hc].
  - rewrite Z.max_l by lia. apply (squares_add (2 ^ avl_height r)); try done.
    assert (avl_height l = avl_height r \/ avl_height l = Z.succ (avl_height r)) as [-> | ->] by lia;
      [by left|right; apply Z.pow_succ_r; lia].
  - rewrite Z.max_r by lia. rewrite (Z.add_comm x y).
    apply (squares_add (2 ^ avl_height l)); try done.
    assert (avl_height r = Z.succ (avl_height l)) as -> by lia. right. apply Z.pow_succ_r. lia.
Qed.

(** ** The stale height of the right rotation *)

(** In the case [avl_insert] uses it for, [avl_right_rotate] leaves a root
    whose recorded height is larger than its true height, because the new root
    is updated while the old root below it still has its old height. *)
Theorem avl_right_rotate_stale a h k v la lh lk lv ll lr r :
  avl (Nd la lh lk lv ll lr) -> avl r ->
  lh = avl_height r + 2 -> avl_height lr <= avl_height ll -> h = 1 + lh ->
  exists t', avl_right_rotate (Nd a h k v (Nd la lh lk lv ll lr) r) = Ret t' /\
    depth t' < avl_height t'.
Proof.
  intros (Eh & Hbal & Hll & Hlr) Hr Hlh Hc ->. eexists. split; [apply right_rotate_Nd|].
  cbn [depth avl_height]. rewrite <- (avl_height_depth ll), <- (avl_height_depth lr), <- (avl_height_depth r) by done.
  lia.
Qed.

(** Insert a list of keys, in order, with the values [key + 1000]. *)
Fixpoint insert_keys {H} `{KHeap H} (ks : list Z) (t : avltree_t) : M H avltree_t :=
  match ks with
  | [] => mret t
  | k :: ks => t ← avl_insert t k (k + 1000); insert_keys ks t
  end.

(** The table after eight insertions into an empty one. *)
Definition eight_keys : list Z := [2; 6; 9; 5; 8; 7; 1; 4].
Definition eight_tree : avltree_t :=
  Nd 512 5 4 1004 (Nd 64 2 2 1002 (Nd 448 1 1 1001 Leaf Leaf) Leaf)
    (Nd 256 4 5 1005 Leaf
      (Nd 384 3 7 1007 (Nd 128 1 6 1006 Leaf Leaf)
        (Nd 320 2 8 1008 Leaf (Nd 192 1 9 1009 Leaf Leaf)))).

(** Eight insertions into an empty table succeed, and inserting a ninth
    distinct key then dereferences NULL whatever the heap does: a stale height
    makes [avl_insert] rotate a node that has no right child. *)
Theorem avl_insert_null_dereference :
  (exists h, insert_keys eight_keys Leaf demo0 = Ret (eight_tree, h)) /\
  bst eight_tree /\ heights_pos eight_tree /\ (3 ∉ keys eight_tree) /\
  forall (H : Type) (HH : KHeap H) (h h1 : H) p value,
    kmalloc sizeof_avltree h = Ret (p, h1) -> avl_insert eight_tree 3 value h = Fault.
Proof.
  split; [eexists; vm_compute; reflexivity|]. split; [unfold bst; repeat constructor|].
  split; [vm_compute; intuition congruence|]. split; [by apply (bool_decide_unpack (3 ∉ keys eight_tree)); vm_compute|].
  intros H HH h h1 p value Hm. cbn [avl_insert eight_tree]. simpl.
  unfold avl_new, mbind, M_mbind, outcome_mbind, outcome_bind. rewrite Hm.
  ostep. case_decide; [reflexivity|vm_compute; reflexivity].
Qed.

(** ** Witnesses *)

(** A table built by the code itself, over the demo heap. *)
Definition demo_tree : avltree_t := Nd 128 2 20 1020 (Nd 64 1 10 1010 Leaf Leaf) (Nd 192 1 30 1030 Leaf Leaf).
Definition demo1 : demo_heap := DemoHeap 4 1000 {[64; 128; 192]}.

Lemma demo_tree_bst : bst demo_tree.
Proof. unfold bst. repeat constructor. Qed.
Lemma demo_tree_avl : avl demo_tree.
Proof. simpl. lia. Qed.

Lemma avl_get_spec_witness :
  bst demo_tree /\ avl_get demo_tree 30 = default NULL (avl_map demo_tree !! 30).
Proof. split; [apply demo_tree_bst|apply (avl_get_spec demo_tree 30), demo_tree_bst]. Defined.

Lemma avl_insert_spec_witness :
  exists t', avl_insert demo_tree 25 1 demo1 = Ret (t', DemoHeap 5 1000 ({[256]} ∪ blocks demo1)) /\
    bst t'.
Proof.
  destruct (avl_insert_spec demo_tree 25 1 demo1 (DemoHeap 5 1000 ({[256]} ∪ blocks demo1)) 256)
    as (t' & E & Hb & _).
  - apply demo_tree_avl.
  - apply demo_tree_bst.
  - vm_compute. reflexivity.
  - discriminate.
  - exists t'. split; [exact E|exact Hb].
Defined.

Lemma avl_insert_ascending_witness :
  exists t', avl_insert demo_tree 40 1 demo1 = Ret (t', DemoHeap 5 1000 ({[256]} ∪ blocks demo1)) /\
    avl t' /\ depth t' = avl_height t'.
Proof.
  destruct (avl_insert_ascending demo_tree 40 1 demo1 (DemoHeap 5 1000 ({[256]} ∪ blocks demo1)) 256)
    as (t' & E & Ha & _ & Hd & _).
  - apply demo_tree_avl.
  - apply demo_tree_bst.
  - repeat constructor.
  - vm_compute. reflexivity.
  - discriminate.
  - exists t'. split; [exact E|]. split; [exact Ha|symmetry; exact Hd].
Defined.

Lemma avl_remove_spec_witness :
  exists t' h', avl_remove demo_tree 20 demo1 = Ret (t', h') /\ avl_map t' = delete 20 (avl_map demo_tree).
Proof.
  destruct (avl_remove_spec demo_tree 20 demo1) as (t' & h' & E & _ & _ & Em & _).
  - apply demo_tree_bst.
  - apply avl_heights_pos, demo_tree_avl.
  - apply (bool_decide_unpack (NoDup (addrs demo_tree))). vm_compute. exact I.
  - intros a Ha. simpl in Ha. unfold demo1. simpl. set_solver.
  - exists t', h'. split; [exact E|exact Em].
Defined.

Lemma avl_depth_bound_witness : avl demo_tree /\ 2 ^ depth demo_tree <= (Z.of_nat (length (keys demo_tree)) + 1) ^ 2.
Proof. split; [apply demo_tree_avl|apply (avl_depth_bound demo_tree), demo_tree_avl]. Defined.

Lemma avl_right_rotate_stale_witness :
  exists t', avl_right_rotate (Nd 3 3 30 0 (Nd 2 2 20 0 (Nd 1 1 10 0 Leaf Leaf) Leaf) Leaf) = Ret t' /\
    depth t' < avl_height t'.
Proof.
  apply (avl_right_rotate_stale 3 3 30 0 2 2 20 0 (Nd 1 1 10 0 Leaf Leaf) Leaf Leaf); simpl; lia.
Defined.
