(* ===== verification/MsgQueue.v ===== *)
(** Linked queues of pointers (src/queue.c, include/queue.h), used for the
    messages and the senders waiting at a process.

    The nodes live in a store indexed by address, next to the state of the
    kernel heap, so that links, NULL and released nodes are visible.  The
    [queue_t] structure itself is embedded in its owner and passed by value. *)
From S2P Require Import Prelude Status Alloc.

Record queue_node_t := QNode { ptr : Z; next : Z }.
Record queue_t := MkQueue { count : Z; first : Z; last : Z }.

Definition sizeof_queue_node : Z := 8.

(** ** Operations *)
Section Operations.
Context {H : Type} `{KHeap H}.

(** The heap and the store of queue nodes. *)
Abbreviation qstate := (H * gmap Z queue_node_t)%type.

Definition q_kmalloc (n : Z) : M qstate Z :=
  fun '(h, ns) => '(p, h') ← kmalloc n h; Ret (p, (h', ns)).
Definition q_kfree (p : Z) : M qstate unit :=
  fun '(h, ns) => '(_, h') ← kfree p h; Ret (tt, (h', delete p ns)).
Definition load_node (p : Z) : M qstate queue_node_t :=
  fun '(h, ns) => nd ← of_option (ns !! p); Ret (nd, (h, ns)).
Definition store_node (p : Z) (nd : queue_node_t) : M qstate unit :=
  fun '(h, ns) => Ret (tt, (h, <[p:=nd]> ns)).

Definition queue_construct : queue_t := MkQueue 0 NULL NULL.

Definition queue_insert (q : queue_t) (v : Z) : M qstate (error_t * queue_t) :=
  node ← q_kmalloc sizeof_queue_node;
  if decide (node = NULL) then mret (ENOMEM, q)
  else
    _ ← store_node node (QNode v NULL);
    if decide (last q = NULL) then
      mret (ENONE, MkQueue (u32 (count q + 1)) node node)
    else
      l ← load_node (last q);
      _ ← store_node (last q) (QNode (ptr l) node);
      mret (ENONE, MkQueue (u32 (count q + 1)) (first q) node).

Definition queue_get_next (q : queue_t) : M qstate (Z * queue_t) :=
  if decide (first q = NULL) then mret (NULL, q)
  else
    node ← load_node (first q);
    let last' := if decide (next node = NULL) then NULL else last q in
    _ ← q_kfree (first q);
    mret (ptr node, MkQueue (u32 (count q - 1)) (next node) last').

(** [queue_peek] reads through [first] without testing it. *)
Definition queue_peek (q : queue_t) : M qstate Z :=
  if decide (first q = NULL) then fault
  else node ← load_node (first q); mret (ptr node).
End Operations.

(** ** Abstraction: the cells of a queue, front first *)

(** [chain ns p cells]: following [next] from [p] visits exactly [cells]. *)
Fixpoint chain (ns : gmap Z queue_node_t) (p : Z) (cells : list (Z * Z)) : Prop :=
  match cells with
  | [] => p = NULL
  | (a, v) :: cells => p = a /\ a <> NULL /\
      exists nx, ns !! a = Some (QNode v nx) /\ chain ns nx cells
  end.

Definition last_addr (cells : list (Z * Z)) : Z := default NULL (fst <$> list.last cells).

Record queue_rep (ns : gmap Z queue_node_t) (q : queue_t) (cells : list (Z * Z)) : Prop := {
  rep_chain : chain ns (first q) cells;
  rep_last : last q = last_addr cells;
  rep_count : count q = u32 (Z.of_nat (length cells));
  rep_nodup : NoDup cells.*1
}.

Lemma chain_frame ns ns' p cells :
  (forall a, a ∈ cells.*1 -> ns' !! a = ns !! a) -> chain ns p cells -> chain ns' p cells.
Proof.
  revert p. induction cells as [|[a v] cells IH]; intros p Hf; simpl; [done|].
  intros (-> & Hne & nx & Ha & Hc). split_and!; try done. exists nx. split.
  - rewrite Hf; [done|]. simpl. apply elem_of_cons. by left.
  - apply IH; [|done]. intros b Hb. apply Hf. simpl. apply elem_of_cons. by right.
Qed.

Lemma rep_frame ns ns' q cells :
  (forall a, a ∈ cells.*1 -> ns' !! a = ns !! a) -> queue_rep ns q cells -> queue_rep ns' q cells.
Proof. intros Hf [? ? ? ?]. split; [|done..]. by apply (chain_frame ns). Qed.

Lemma chain_stored ns p cells a : chain ns p cells -> a ∈ cells.*1 -> is_Some (ns !! a) /\ a <> NULL.
Proof.
  revert p. induction cells as [|[b v] cells IH]; intros p; simpl; [by intros _ ?%elem_of_nil|].
  intros (-> & Hne & nx & Hb & Hc) [->|Hin]%elem_of_cons; [by eauto|by eapply IH].
Qed.

Lemma last_addr_snoc cells a v : last_addr (cells ++ [(a, v)]) = a.
Proof. unfold last_addr. by rewrite last_snoc. Qed.

Lemma last_addr_elem cells : cells <> [] -> last_addr cells ∈ cells.*1.
Proof.
  intros Hne. unfold last_addr. destruct (list.last cells) as [[x y]|] eqn:E.
  - apply last_Some_elem_of, (list_elem_of_fmap_2 fst) in E. done.
  - by apply last_None in E.
Qed.

(** Appending a cell after the last one. *)
Lemma chain_snoc ns p cells a v : chain ns p cells -> NoDup (cells.*1 ++ [a]) -> a <> NULL ->
  cells <> [] -> exists w, ns !! last_addr cells = Some (QNode w NULL) /\
  chain (<[last_addr cells := QNode w a]> (<[a := QNode v NULL]> ns)) p (cells ++ [(a, v)]).
Proof.
  revert p. induction cells as [|[b w] cells IH]; intros p Hc Hnd Ha Hne; [done|].
  destruct Hc as (-> & Hb & nx & Hl & Hc). simpl in Hnd. apply NoDup_cons in Hnd as [Hnin Hnd].
  destruct cells as [|c cells].
  - simpl in Hc. subst nx. exists w. split; [done|]. unfold last_addr. simpl.
    split_and!; try done. exists a. rewrite lookup_insert_eq. split; [done|].
    split_and!; try done. exists NULL. rewrite lookup_insert_ne, lookup_insert_eq; [done|].
    intros ->. apply Hnin, elem_of_app. right. by apply list_elem_of_singleton.
  - destruct (IH nx Hc Hnd Ha) as (w' & Hl' & Hc'); [done|].
    assert (last_addr ((b, w) :: c :: cells) = last_addr (c :: cells)) as El by done.
    exists w'. rewrite El. split; [done|]. split_and!; try done. exists nx. split; [|done].
    rewrite !lookup_insert_ne; [done|..].
    + intros ->. apply Hnin, elem_of_app. right. by apply list_elem_of_singleton.
    + intros Hb'. apply Hnin, elem_of_app. left.
      rewrite <- Hb'. by apply last_addr_elem.
Qed.

(** ** Contracts *)
Section Contracts.
Context {H : Type} `{KHeapOk H}.
Abbreviation qstate := (H * gmap Z queue_node_t)%type.

Lemma load_node_Some (h : H) ns p nd : ns !! p = Some nd ->
  load_node p (h, ns) = Ret (nd, (h, ns)).
Proof. intros E. unfold load_node. by rewrite E. Qed.

(** The store holds live blocks only, so a fresh block is in no queue. *)
Definition store_ok (s : qstate) : Prop := forall a, is_Some (s.2 !! a) -> a ∈ live s.1.

Lemma rep_fresh (s : qstate) q cells p : store_ok s -> queue_rep s.2 q cells -> (p ∉ live s.1) ->
  p ∉ cells.*1.
Proof. intros Hok [Hc _ _ _] Hp Hin. apply Hp, Hok. by eapply chain_stored. Qed.

Lemma queue_insert_ok (s : qstate) q cells v :
  store_ok s -> queue_rep s.2 q cells ->
  exists e q' s', queue_insert q v s = Ret ((e, q'), s') /\ store_ok s' /\
    ((e = ENOMEM /\ q' = q /\ s'.2 = s.2) \/
     (e = ENONE /\ exists p, (p ∉ live s.1) /\ live s'.1 = {[p]} ∪ live s.1 /\
        queue_rep s'.2 q' (cells ++ [(p, v)]) /\
        forall a, a <> p -> a ∉ cells.*1 -> s'.2 !! a = s.2 !! a)).
Proof.
  destruct s as [h ns]. intros Hok Hrep. pose proof Hrep as [Hc Hl Hn Hnd]. simpl in *.
  destruct (kmalloc_spec h sizeof_queue_node) as (p & h' & E & Hcase).
  unfold queue_insert, mbind at 1, M_mbind at 1, q_kmalloc. rewrite E. ostep.
  destruct Hcase as [[-> Hlive]|(Hp & Hfresh & Hlive)].
  { rewrite decide_True by done. eexists ENOMEM, q, (h', ns). split; [done|].
    split; [|by left]. intros a Ha. simpl in *. rewrite Hlive. by apply Hok. }
  rewrite decide_False by done.
  assert (p ∉ cells.*1) as Hpc by (apply (rep_fresh (h, ns) q); done).
  assert (NoDup (cells.*1 ++ [p])) as Hnd'.
  { apply NoDup_app. split_and!; [done| |apply NoDup_singleton].
    intros a Ha ->%list_elem_of_singleton. done. }
  assert (forall ns', (forall a, is_Some (ns' !! a) -> a = p \/ is_Some (ns !! a)) -> store_ok (h', ns')) as Hok'.
  { intros ns' Hns a Ha. simpl in *. rewrite Hlive. apply elem_of_union.
    destruct (Hns a Ha) as [->|?]; [left; by apply elem_of_singleton|right; by apply Hok]. }
  assert (u32 (count q + 1) = u32 (Z.of_nat (length (cells ++ [(p, v)])))) as Hcount.
  { rewrite Hn, length_app. simpl. unfold u32. rewrite Zplus_mod_idemp_l. f_equal. lia. }
  destruct (decide (last q = NULL)) as [Hl0|Hl0].
  - assert (cells = []) as ->.
    { destruct cells as [|[a w] cells _] using rev_ind; [done|]. rewrite Hl, last_addr_snoc in Hl0.
      apply chain_stored with (a := a) in Hc as [_ ?]; [done|]. rewrite fmap_app. simpl.
      apply elem_of_app. right. by apply list_elem_of_singleton. }
    eexists _, _, _. split; [reflexivity|]. split.
    { apply Hok'. intros a. rewrite lookup_insert_is_Some. naive_solver. }
    right. split; [done|]. exists p. split_and!; try done.
    + split; simpl; [|done|done|done]. split_and!; try done. exists NULL.
      by rewrite lookup_insert_eq.
    + intros a Ha _. simpl. by rewrite lookup_insert_ne.
  - assert (cells <> []) as Hne by (intros ->; rewrite Hl in Hl0; done).
    destruct (chain_snoc ns (first q) cells p v Hc Hnd' Hp Hne) as (w & Hw & Hchain).
    assert (last q <> p) as Hlp.
    { intros Hlp. apply Hfresh, Hok. simpl. rewrite <- Hlp, Hl. by eexists. }
    eexists _, _, _. split.
    { apply M_bind_Ret. eexists _, _. split; [reflexivity|]. apply M_bind_Ret. eexists _, _. split.
      - apply load_node_Some. rewrite lookup_insert_ne by done. by rewrite Hl.
      - reflexivity. }
    split.
    { apply Hok'. intros a. rewrite !lookup_insert_is_Some.
      intros [<-|[_ [<-|[_ ?]]]]; [right; rewrite Hl; by eexists|by left|by right]. }
    right. split; [done|]. exists p. split_and!; try done.
    + split; simpl; [by rewrite Hl|by rewrite last_addr_snoc|done|by rewrite fmap_app].
    + intros a Ha Hin. simpl. rewrite !lookup_insert_ne; [done|done|].
      rewrite Hl. intros <-. by apply Hin, last_addr_elem.
Qed.

(** [queue_insert] either fails with [ENOMEM], changing nothing, or returns
    [ENONE] and appends the pointer at the back with the count one larger; only
    the new node and the previous last node are written, so other queues over
    the same store are untouched. *)
Theorem queue_insert_spec (s : qstate) q cells v :
  store_ok s -> queue_rep s.2 q cells ->
  exists e q' s', queue_insert q v s = Ret ((e, q'), s') /\ store_ok s' /\
    ((e = ENOMEM /\ q' = q /\ s'.2 = s.2) \/
     (e = ENONE /\ exists p, (p ∉ live s.1) /\ live s'.1 = {[p]} ∪ live s.1 /\
        queue_rep s'.2 q' (cells ++ [(p, v)]) /\
        forall a, a <> p -> a ∉ cells.*1 -> s'.2 !! a = s.2 !! a)).
Proof. apply queue_insert_ok. Qed.

(** A refused insertion leaves the set of live blocks alone. *)
Lemma queue_insert_nomem (s : qstate) q v q' h n :
  queue_insert q v s = Ret ((ENOMEM, q'), (h, n)) -> live h = live s.1.
Proof.
  destruct s as [h0 ns]. unfold queue_insert, mbind at 1, M_mbind at 1, q_kmalloc.
  destruct (kmalloc_spec h0 sizeof_queue_node) as (p & h' & -> & [[-> Hl]|(Hp & _)]); ostep.
  - rewrite decide_True by done. intros [= _ <- _]. done.
  - rewrite decide_False by done. intros E.
    apply M_bind_Ret in E as (? & s1 & _ & E). case_decide; [done|].
    apply M_bind_Ret in E as (? & ? & _ & E). apply M_bind_Ret in E as (? & ? & _ & E). done.
Qed.

(** The node is the insertion's one allocation, and its failure the only reason
    to refuse. *)
Lemma queue_insert_heap (s : qstate) q v e q' s' :
  queue_insert q v s = Ret ((e, q'), s') ->
  exists b, Alloc.kmalloc sizeof_queue_node s.1 = Ret (b, s'.1) /\ (e = ENOMEM <-> b = NULL).
Proof.
  destruct s as [h n]. unfold queue_insert, mbind at 1, M_mbind at 1, q_kmalloc. cbn [fst].
  destruct (Alloc.kmalloc sizeof_queue_node h) as [[b h']| | |]; ostep; [|done..]. intros K. exists b.
  case_decide as Hb; [injection K as <- _ <-; by split|].
  apply M_bind_Ret in K as ([] & s1 & E1 & K). unfold store_node in E1. injection E1 as <-.
  case_decide; [injection K as <- _ <-; by split|].
  apply M_bind_Ret in K as (l & s2 & E2 & K). unfold load_node in E2. apply outcome_bind_Ret in E2 as (y & _ & [= <- <-]).
  apply M_bind_Ret in K as ([] & s3 & E3 & K). unfold store_node in E3. injection E3 as <-. injection K as <- _ <-. by split.
Qed.

Lemma queue_get_next_ok (s : qstate) q cells :
  store_ok s -> queue_rep s.2 q cells ->
  exists v q' s', queue_get_next q s = Ret ((v, q'), s') /\ store_ok s' /\
    match cells with
    | [] => v = NULL /\ q' = q /\ s' = s
    | (a, w) :: rest => v = w /\ queue_rep s'.2 q' rest /\ s'.2 = delete a s.2 /\
        live s'.1 = live s.1 ∖ {[a]}
    end.
Proof.
  destruct s as [h ns]. intros Hok [Hc Hl Hn Hnd]. simpl in *. unfold queue_get_next.
  destruct cells as [|[a w] rest].
  { simpl in Hc. rewrite Hc, decide_True by done. by eexists _, _, _. }
  destruct Hc as (Hf & Ha & nx & Hlk & Hc). simpl in Hnd. apply NoDup_cons in Hnd as [Hnin Hnd].
  rewrite Hf, decide_False by done.
  destruct (kfree_spec h a) as (h' & E & Hlive); [apply Hok; by eexists|].
  assert (store_ok (h', delete a ns)) as Hok'.
  { intros b [x Hx]. simpl in *. apply lookup_delete_Some in Hx as [Hne Hb]. rewrite Hlive. apply elem_of_difference.
    split; [apply Hok; by eexists|]. rewrite elem_of_singleton. by intros ->. }
  eexists _, _, _. split.
  { apply M_bind_Ret. eexists _, _. split; [by apply load_node_Some|].
    apply M_bind_Ret. eexists _, _. split; [unfold q_kfree; rewrite E; reflexivity|reflexivity]. }
  split; [done|]. split_and!; try done. split; simpl.
  - eapply chain_frame; [|exact Hc]. intros b Hb. rewrite lookup_delete_ne; [done|].
    by intros ->.
  - destruct rest as [|[b x] rest]; simpl in Hc.
    + by rewrite decide_True.
    + destruct Hc as (-> & Hb & _). by rewrite decide_False.
  - rewrite Hn. simpl. unfold u32. rewrite Zminus_mod_idemp_l. f_equal. lia.
  - done.
Qed.

(** [queue_get_next] on an empty queue returns NULL and changes nothing; on a
    non-empty queue it returns the pointer at the front, the oldest one,
    unlinks and releases its node and lowers the count by one. *)
Theorem queue_get_next_spec (s : qstate) q cells :
  store_ok s -> queue_rep s.2 q cells ->
  exists v q' s', queue_get_next q s = Ret ((v, q'), s') /\ store_ok s' /\
    match cells with
    | [] => v = NULL /\ q' = q /\ s' = s
    | (a, w) :: rest => v = w /\ queue_rep s'.2 q' rest /\ s'.2 = delete a s.2 /\
        live s'.1 = live s.1 ∖ {[a]}
    end.
Proof. apply queue_get_next_ok. Qed.

(** ** Refinement to a first-in-first-out list *)
Inductive qop := Insert (v : Z) | GetNext.

(** What a client sees: the status of an insertion, the pointer of a removal. *)
Fixpoint run_queue (ops : list qop) (q : queue_t) : M qstate (list Z * queue_t) :=
  match ops with
  | [] => mret ([], q)
  | Insert v :: ops =>
    '(e, q) ← queue_insert q v; '(rs, q) ← run_queue ops q; mret (err e :: rs, q)
  | GetNext :: ops =>
    '(v, q) ← queue_get_next q; '(rs, q) ← run_queue ops q; mret (v :: rs, q)
  end.
End Contracts.

(** The specification: a list with the oldest pointer first. *)
Inductive fifo : list Z -> list qop -> list Z -> list Z -> Prop :=
  | fifo_done l : fifo l [] [] l
  | fifo_insert l v ops rs l' : fifo (l ++ [v]) ops rs l' ->
      fifo l (Insert v :: ops) (err ENONE :: rs) l'
  | fifo_nomem l v ops rs l' : fifo l ops rs l' ->
      fifo l (Insert v :: ops) (err ENOMEM :: rs) l'
  | fifo_empty ops rs l' : fifo [] ops rs l' -> fifo [] (GetNext :: ops) (NULL :: rs) l'
  | fifo_next v l ops rs l' : fifo l ops rs l' -> fifo (v :: l) (GetNext :: ops) (v :: rs) l'.

Section Refinement.
Context {H : Type} `{KHeapOk H}.

(** C27: Any sequence of insertions and removals on a queue returns, and its
    answers are those of a first-in-first-out list that may refuse an
    insertion with [ENOMEM]. *)
Theorem queue_refines_fifo ops : forall (s : H * gmap Z queue_node_t) q cells,
  store_ok s -> queue_rep s.2 q cells ->
  exists rs q' s' cells', run_queue ops q s = Ret ((rs, q'), s') /\
    queue_rep s'.2 q' cells' /\ fifo cells.*2 ops rs cells'.*2.
Proof.
  induction ops as [|op ops IH]; intros s q cells Hok Hrep.
  { exists [], q, s, cells. split_and!; [done..|constructor]. }
  destruct op as [v|]; cbn [run_queue].
  - destruct (queue_insert_ok s q cells v Hok Hrep) as (e & q1 & s1 & E & Hok1 & Hcase).
    assert (exists cells1, queue_rep s1.2 q1 cells1 /\
      (e = ENOMEM /\ cells1 = cells \/ e = ENONE /\ cells1.*2 = cells.*2 ++ [v])) as (cells1 & Hrep1 & Hv).
    { destruct Hcase as [(-> & -> & Hs)|(-> & p & _ & _ & Hr & _)].
      - exists cells. rewrite Hs. auto.
      - exists (cells ++ [(p, v)]). split; [done|]. right. by rewrite fmap_app. }
    destruct (IH s1 q1 cells1 Hok1 Hrep1) as (rs & q' & s' & cells' & E' & Hr' & Hf).
    exists (err e :: rs), q', s', cells'. split_and!; [|done|].
    + apply M_bind_Ret. eexists _, _. split; [exact E|]. apply M_bind_Ret. eexists _, _.
      split; [exact E'|done].
    + destruct Hv as [[-> ->]|[-> Hv]]; [by constructor|]. constructor. by rewrite <- Hv.
  - destruct (queue_get_next_ok s q cells Hok Hrep) as (v & q1 & s1 & E & Hok1 & Hcase).
    assert (exists cells1, queue_rep s1.2 q1 cells1 /\
      (cells = [] /\ v = NULL /\ cells1 = [] \/ cells.*2 = v :: cells1.*2)) as (cells1 & Hrep1 & Hv).
    { destruct cells as [|[a w] rest].
      - destruct Hcase as (-> & -> & ->). exists []. auto.
      - destruct Hcase as (-> & Hr & _). exists rest. auto. }
    destruct (IH s1 q1 cells1 Hok1 Hrep1) as (rs & q' & s' & cells' & E' & Hr' & Hf).
    exists (v :: rs), q', s', cells'. split_and!; [|done|].
    + apply M_bind_Ret. eexists _, _. split; [exact E|]. apply M_bind_Ret. eexists _, _.
      split; [exact E'|done].
    + destruct Hv as [(-> & -> & ->)| ->]; by constructor.
Qed.
End Refinement.

(** Two pointers inserted into a fresh queue come out in insertion order. *)
Theorem queue_is_fifo : forall v w,
  exists q s, run_queue [Insert v; Insert w; GetNext; GetNext; GetNext] queue_construct (demo0, ∅) =
    Ret (([err ENONE; err ENONE; v; w; NULL], q), s).
Proof. intros v w. eexists _, _. reflexivity. Qed.

(** ** Witnesses *)
Lemma demo_queue_ok : store_ok (demo0, ∅) /\ queue_rep ∅ queue_construct [].
Proof.
  split; [intros a [x Hx]; simpl in Hx; by apply lookup_empty_Some in Hx|]. split; try done. apply NoDup_nil_2.
Qed.

Lemma queue_insert_spec_witness :
  exists e q' s', queue_insert queue_construct 7 (demo0, ∅) = Ret ((e, q'), s') /\ store_ok s'.
Proof.
  destruct (queue_insert_spec (demo0, ∅) queue_construct [] 7) as (e & q' & s' & E & Hok & _).
  - apply demo_queue_ok.
  - apply demo_queue_ok.
  - exists e, q', s'. split; [exact E|exact Hok].
Defined.

(** A queue of one cell, at address 64. *)
Definition one_cell : demo_heap * gmap Z queue_node_t := (DemoHeap 2 1000 {[64]}, {[64 := QNode 7 NULL]}).

Lemma queue_get_next_spec_witness :
  exists q' s', queue_get_next (MkQueue 1 64 64) one_cell = Ret ((7, q'), s').
Proof.
  destruct (queue_get_next_spec one_cell (MkQueue 1 64 64) [(64, 7)]) as (v & q' & s' & E & _ & -> & _).
  - intros a [x Hx]. unfold one_cell in *. simpl in *. apply lookup_singleton_Some in Hx as [<- _].
    by apply elem_of_singleton.
  - split; try reflexivity; [|apply NoDup_singleton].
    split; [reflexivity|]. split; [discriminate|]. exists NULL. split; reflexivity.
  - exists q', s'. exact E.
Defined.

Lemma queue_refines_fifo_witness :
  exists rs q' s', run_queue [Insert 7; GetNext; GetNext] queue_construct (demo0, ∅) = Ret ((rs, q'), s').
Proof.
  destruct (queue_refines_fifo [Insert 7; GetNext; GetNext] (demo0, ∅) queue_construct [])
    as (rs & q' & s' & cells' & E & _).
  - apply demo_queue_ok.
  - apply demo_queue_ok.
  - exists rs, q', s'. exact E.
Defined.
