(* ===== verification/IntLog.v ===== *)
(** Integer logarithms (src/math.c, include/math.h).

    The file has two implementations of each function: one for GCC, with the
    count-leading-zeros builtin, which is the one the kernel is built with, and
    a portable one that looks a de Bruijn product up in a table.  Both are
    modelled; they do not compute the same function. *)
From S2P Require Import Prelude.

(** [__builtin_clz] of a [w]-bit word: leading zero bits, from bit [n - 1] down. *)
Fixpoint clz_from (n : nat) (x : Z) : Z :=
  match n with
  | O => 0
  | S n => if Z.testbit x (Z.of_nat n) then 0 else 1 + clz_from n x
  end.
Definition builtin_clz (w : nat) (x : Z) : Z := clz_from w x.

(** [ilog2], the GCC branch. *)
Definition ilog2 (x : Z) : Z := if x <=? 1 then 0 else 32 - builtin_clz 32 (u32 (x - 1)).

(** [llog2], the GCC branches for a 4-byte and an 8-byte [long]. *)
Definition llog2 (x : Z) : Z := if x <=? 1 then 0 else 32 - builtin_clz 32 (u32 (x - 1)).
Definition llog2_64 (x : Z) : Z := if x <=? 1 then 0 else 64 - builtin_clz 64 ((x - 1) mod 2 ^ 64).

(** The portable branches. *)
Definition table32 : list Z :=
  [0; 9; 1; 10; 13; 21; 2; 29; 11; 14; 16; 18; 22; 25; 3; 30;
   8; 12; 20; 28; 15; 17; 24; 7; 19; 27; 23; 6; 26; 5; 4; 31].
Definition table64 : list Z :=
  [0; 58; 1; 59; 47; 53; 2; 60; 39; 48; 27; 54; 33; 42; 3; 61;
   51; 37; 40; 49; 18; 28; 20; 55; 30; 34; 11; 43; 14; 22; 4; 62;
   57; 46; 52; 38; 26; 32; 41; 50; 36; 17; 19; 29; 10; 13; 21; 56;
   45; 25; 31; 35; 16; 9; 12; 44; 24; 15; 8; 23; 7; 6; 5; 63].

(** [x |= x >> k] for each [k] in turn. *)
Definition smear (ks : list Z) (x : Z) : Z := fold_left (fun x k => Z.lor x (Z.shiftr x k)) ks x.

Definition ilog2_portable (x : Z) : outcome Z :=
  let x := smear [1; 2; 4; 8; 16] x in
  array_get table32 (Z.to_nat (Z.shiftr (u32 (x * 0x07C4ACDD)) 27)).
Definition llog2_portable32 (x : Z) : outcome Z :=
  let x := smear [1; 2; 4; 8; 16] x in
  array_get table32 (Z.to_nat (Z.shiftr (u32 (x * 0x07C4ACDD)) 27)).
Definition llog2_portable64 (x : Z) : outcome Z :=
  let x := smear [1; 2; 4; 8; 16; 32] x in
  array_get table64 (Z.to_nat (Z.shiftr ((x * 0x03f6eaf2cd271461) mod 2 ^ 64) 58)).

(** ** The GCC branch rounds up *)
Lemma clz_from_log2 n x : 0 < x -> Z.log2 x < Z.of_nat n -> clz_from n x = Z.of_nat n - 1 - Z.log2 x.
Proof.
  intros Hx. induction n as [|n IH]; intros Hn; [pose proof (Z.log2_nonneg x); lia|].
  cbn [clz_from]. destruct (decide (Z.log2 x = Z.of_nat n)) as [E|E].
  - rewrite <- E, Z.bit_log2 by done. lia.
  - rewrite Z.bits_above_log2 by lia. rewrite IH by lia. lia.
Qed.

Lemma clz_log2_up w x : 1 < x <= 2 ^ Z.of_nat w ->
  Z.of_nat w - builtin_clz w (x - 1) = Z.log2_up x.
Proof.
  intros Hx. unfold builtin_clz. rewrite clz_from_log2.
  - rewrite Z.log2_up_eqn by lia. rewrite <- Z.sub_1_r. lia.
  - lia.
  - apply Z.log2_lt_pow2; lia.
Qed.

Lemma log2_rounds_up_ok x : is_u32 x -> ilog2 x = Z.log2_up x /\ llog2 x = Z.log2_up x.
Proof.
  unfold is_u32. intros Hx. change (llog2 x) with (ilog2 x). split; [|].
  all: unfold ilog2; destruct (Z.leb_spec x 1);
    [symmetry; apply Z.log2_up_eqn0; lia|rewrite u32_id by (unfold is_u32; lia)].
  all: apply (clz_log2_up 32); simpl Z.of_nat; lia.
Qed.

(** [ilog2] and [llog2] as built return the logarithm rounded up, the least
    [k] with [x <= 2^k], for every word. *)
Theorem log2_rounds_up x : is_u32 x -> ilog2 x = Z.log2_up x /\ llog2 x = Z.log2_up x.
Proof. apply log2_rounds_up_ok. Qed.

Lemma llog2_64_rounds_up x : 0 <= x < 2 ^ 64 -> llog2_64 x = Z.log2_up x.
Proof.
  intros Hx. unfold llog2_64. destruct (Z.leb_spec x 1).
  - symmetry. apply Z.log2_up_eqn0. lia.
  - rewrite Z.mod_small by lia. apply (clz_log2_up 64). simpl Z.of_nat. lia.
Qed.

(** ** The portable branch rounds down *)

(** [y] has the top [n] bits below and including [x]'s top bit set. *)
Definition filled (x n y : Z) : Prop :=
  forall i, 0 <= i -> (Z.log2 x < i -> Z.testbit y i = false) /\
    (Z.log2 x - n < i <= Z.log2 x -> Z.testbit y i = true).

Lemma filled_step x n y : 0 < x -> 0 < n -> filled x n y ->
  filled x (2 * n) (Z.lor y (Z.shiftr y n)).
Proof.
  intros Hx Hn Hf i Hi. rewrite Z.lor_spec, Z.shiftr_spec by done. split.
  - intros Ha. rewrite (proj1 (Hf i Hi) Ha), (proj1 (Hf (i + n) ltac:(lia))) by lia. done.
  - intros Ha. destruct (Z.lt_ge_cases (Z.log2 x - n) i).
    + by rewrite (proj2 (Hf i Hi)) by lia.
    + rewrite (proj2 (Hf (i + n) ltac:(lia))) by lia. apply orb_true_r.
Qed.

Lemma filled_all x n y : 0 < x -> Z.log2 x < n -> filled x n y -> y = Z.ones (Z.log2 x + 1).
Proof.
  intros Hx Hn Hf. apply Z.bits_inj'. intros i Hi. pose proof (Z.log2_nonneg x).
  rewrite testbit_ones' by lia. destruct (Z.lt_ge_cases (Z.log2 x) i).
  - rewrite (proj1 (Hf i Hi)) by done. symmetry. apply andb_false_intro2. apply Z.ltb_ge. lia.
  - rewrite (proj2 (Hf i Hi)) by lia. symmetry. apply andb_true_intro.
    split; [apply Z.leb_le|apply Z.ltb_lt]; lia.
Qed.

Lemma filled_1 x : 0 < x -> filled x 1 x.
Proof.
  intros Hx i Hi. split.
  - intros. by apply Z.bits_above_log2; lia.
  - intros. assert (i = Z.log2 x) as -> by lia. by apply Z.bit_log2.
Qed.

Lemma smear32 x : 0 < x < 2 ^ 32 -> smear [1; 2; 4; 8; 16] x = Z.ones (Z.log2 x + 1).
Proof.
  intros Hx. apply (filled_all x 32); [lia|apply Z.log2_lt_pow2; lia|].
  unfold smear. cbn [fold_left].
  repeat (apply (filled_step x 16) || apply (filled_step x 8) || apply (filled_step x 4) ||
          apply (filled_step x 2) || apply (filled_step x 1) || apply filled_1); lia.
Qed.

Lemma smear64 x : 0 < x < 2 ^ 64 -> smear [1; 2; 4; 8; 16; 32] x = Z.ones (Z.log2 x + 1).
Proof.
  intros Hx. apply (filled_all x 64); [lia|apply Z.log2_lt_pow2; lia|].
  unfold smear. cbn [fold_left].
  repeat (apply (filled_step x 32) || apply (filled_step x 16) || apply (filled_step x 8) ||
          apply (filled_step x 4) || apply (filled_step x 2) || apply (filled_step x 1) ||
          apply filled_1); lia.
Qed.

(** Every entry of a table, checked by evaluation. *)
Lemma forall_below (n : nat) (P : Z -> Prop) `{forall k, Decision (P k)} :
  forallb (fun k => bool_decide (P (Z.of_nat k))) (seq 0 n) = true ->
  forall k, 0 <= k < Z.of_nat n -> P k.
Proof.
  intros Hall k Hk. rewrite forallb_forall in Hall.
  specialize (Hall (Z.to_nat k) ltac:(apply in_seq; lia)).
  apply bool_decide_eq_true in Hall. by rewrite Z2Nat.id in Hall by lia.
Qed.

#[export] Instance outcome_eq_dec {A} `{EqDecision A} : EqDecision (outcome A).
Proof. solve_decision. Defined.

(** The portable branches of [ilog2] and of [llog2] for a 4-byte [long] stay
    inside their table and return the logarithm rounded down. *)
Theorem log2_portable_rounds_down x : 0 < x < 2 ^ 32 -> ilog2_portable x = Ret (Z.log2 x) /\ llog2_portable32 x = Ret (Z.log2 x).
Proof.
  intros Hx. assert (ilog2_portable x = Ret (Z.log2 x)) as E; [|by split].
  unfold ilog2_portable. rewrite smear32 by done.
  apply (forall_below 32 (fun k => array_get table32
    (Z.to_nat (Z.shiftr (u32 (Z.ones (k + 1) * 0x07C4ACDD)) 27)) = Ret k)).
  - vm_compute. reflexivity.
  - split; [apply Z.log2_nonneg|]. apply Z.log2_lt_pow2; simpl; lia.
Qed.

Lemma log2_portable64_rounds_down x : 0 < x < 2 ^ 64 -> llog2_portable64 x = Ret (Z.log2 x).
Proof.
  intros Hx. unfold llog2_portable64. rewrite smear64 by done.
  apply (forall_below 64 (fun k => array_get table64
    (Z.to_nat (Z.shiftr ((Z.ones (k + 1) * 0x03f6eaf2cd271461) mod 2 ^ 64) 58)) = Ret k)).
  - vm_compute. reflexivity.
  - split; [apply Z.log2_nonneg|]. apply Z.log2_lt_pow2; simpl; lia.
Qed.

(** The two implementations agree exactly on the powers of two. *)
Theorem log2_branches_differ x : 0 < x < 2 ^ 32 ->
  (ilog2_portable x = Ret (ilog2 x) <-> x = 2 ^ Z.log2 x).
Proof.
  intros Hx. rewrite (proj1 (log2_portable_rounds_down x Hx)).
  rewrite (proj1 (log2_rounds_up_ok x ltac:(unfold is_u32; lia))).
  pose proof (Z.log2_log2_up_exact x ltac:(lia)) as Hex. split.
  - intros [= E]. apply Hex in E as [k ->]. f_equal.
    destruct (Z.lt_ge_cases k 0); [rewrite Z.pow_neg_r in Hx by done; lia|].
    by rewrite Z.log2_pow2.
  - intros E. f_equal. apply Hex. by exists (Z.log2 x).
Qed.

(** ** Witnesses *)
Lemma log2_rounds_up_witness : is_u32 5 /\ ilog2 5 = 3.
Proof. split; [unfold is_u32; lia|exact (proj1 (log2_rounds_up 5 ltac:(unfold is_u32; lia)))]. Defined.
Lemma log2_portable_rounds_down_witness : ilog2_portable 5 = Ret 2.
Proof. exact (proj1 (log2_portable_rounds_down 5 ltac:(lia))). Defined.
Lemma log2_branches_differ_witness : ilog2_portable 4 = Ret (ilog2 4) <-> 4 = 2 ^ Z.log2 4.
Proof. exact (log2_branches_differ 4 ltac:(lia)). Defined.
