(* ===== verification/Memory.v ===== *)
(** Byte memory and the string routines (src/string.c, include/string.h).

    A memory maps the mapped addresses to their bytes; an access elsewhere is
    undefined.  [size_t] arithmetic wraps where the code relies on it (the end
    of the source in [memmove], the index that counts down); addresses of
    objects do not wrap. *)
From S2P Require Import Prelude.

Abbreviation mem := (gmap Z Z).

Definition load8 (m : mem) (a : Z) : outcome Z := of_option (m !! a).
Definition store8 (m : mem) (a b : Z) : outcome mem :=
  if decide (is_Some (m !! a)) then Ret (<[a:=b]> m) else Fault.

(** ** Operations *)

(** [for(i = ...; i < num; i++) dest[i] = src[i];] with [n] rounds left. *)
Fixpoint copy_up (n : nat) (m : mem) (d s i : Z) : outcome mem :=
  match n with
  | O => Ret m
  | S n => b ← load8 m (s + i); m ← store8 m (d + i) b; copy_up n m d s (i + 1)
  end.

Definition memcpy (m : mem) (d s num : Z) : outcome mem :=
  if 0 <? num then copy_up (Z.to_nat num) m d s 0 else Ret m.

(** [do { dest[i] = src[i]; i--; } while(i != 0);] *)
Fixpoint copy_down (fuel : nat) (m : mem) (d s i : Z) : outcome mem :=
  match fuel with
  | O => OutOfFuel
  | S fuel =>
    b ← load8 m (s + i);
    m ← store8 m (d + i) b;
    let i := u32 (i - 1) in
    if i =? 0 then Ret m else copy_down fuel m d s i
  end.

Definition memmove (m : mem) (d s num : Z) : outcome mem :=
  if 0 <? num then
    if (d <? s) || (u32 (s + num) <=? d) then memcpy m d s num
    else if d =? s then Ret m
    else copy_down (Z.to_nat num) m d s (num - 1)
  else Ret m.

Fixpoint compare_up (n : nat) (m : mem) (a b i : Z) : outcome Z :=
  match n with
  | O => Ret 0
  | S n =>
    x ← load8 m (a + i); y ← load8 m (b + i);
    if x <? y then Ret (-1) else if y <? x then Ret 1 else compare_up n m a b (i + 1)
  end.
Definition memcmp (m : mem) (a b num : Z) : outcome Z := compare_up (Z.to_nat num) m a b 0.

Fixpoint fill_up (n : nat) (m : mem) (d v i : Z) : outcome mem :=
  match n with
  | O => Ret m
  | S n => m ← store8 m (d + i) v; fill_up n m d v (i + 1)
  end.
(** The value is converted to [uint8_t] first. *)
Definition memset (m : mem) (p value num : Z) : outcome mem :=
  fill_up (Z.to_nat num) m p (value mod 256) 0.

Fixpoint strlen_from (fuel : nat) (m : mem) (str i : Z) : outcome Z :=
  match fuel with
  | O => OutOfFuel
  | S fuel => c ← load8 m (str + i); if c =? 0 then Ret i else strlen_from fuel m str (i + 1)
  end.
Definition strlen (fuel : nat) (m : mem) (str : Z) : outcome Z := strlen_from fuel m str 0.

(** The forward loop of [strcpy]: copies up to and including the terminator. *)
Fixpoint strcpy_up (fuel : nat) (m : mem) (d s : Z) : outcome mem :=
  match fuel with
  | O => OutOfFuel
  | S fuel =>
    c ← load8 m s; m ← store8 m d c;
    if c =? 0 then Ret m else strcpy_up fuel m (d + 1) (s + 1)
  end.

(** The backward loop: [do { *d = *s; d--; s--; } while(d > destination);] *)
Fixpoint strcpy_down (fuel : nat) (m : mem) (d s dst : Z) : outcome mem :=
  match fuel with
  | O => OutOfFuel
  | S fuel =>
    c ← load8 m s; m ← store8 m d c;
    if dst <? d - 1 then strcpy_down fuel m (d - 1) (s - 1) dst else Ret m
  end.

Definition strcpy (fuel : nat) (m : mem) (dst src : Z) : outcome mem :=
  len ← strlen fuel m src;
  if (dst <=? src) || (src + len <? dst) then strcpy_up fuel m dst src
  else strcpy_down fuel m (dst + len) (src + len) dst.

(** ** Specifications *)

(** The [n] bytes at [a] are mapped. *)
Definition mapped (m : mem) (a n : Z) : Prop := forall i, 0 <= i < n -> is_Some (m !! (a + i)).

(** [m'] is [m] with the bytes [d + lo .. d + hi - 1] taken from the same offsets of [s]. *)
Definition copied (m m' : mem) (d s lo hi : Z) : Prop :=
  forall x, m' !! x = if decide (d + lo <= x < d + hi) then m !! (s + (x - d)) else m !! x.

Lemma load8_ok m a b : m !! a = Some b -> load8 m a = Ret b.
Proof. unfold load8. by intros ->. Qed.
Lemma store8_ok m a b : is_Some (m !! a) -> store8 m a b = Ret (<[a:=b]> m).
Proof. intros. unfold store8. by rewrite decide_True. Qed.

Lemma mapped_insert m a n x b : mapped m a n -> mapped (<[x:=b]> m) a n.
Proof. intros Hm i Hi. rewrite lookup_insert_is_Some'. auto. Qed.

Lemma mapped_lookup m a n x : mapped m a n -> a <= x < a + n -> is_Some (m !! x).
Proof. intros Hm Hx. specialize (Hm (x - a) ltac:(lia)). by replace (a + (x - a)) with x in Hm by lia. Qed.

Lemma copied_one m d s i b : m !! (s + i) = Some b -> copied m (<[d + i := b]> m) d s i (i + 1).
Proof.
  intros Hb x. case_decide.
  - assert (x = d + i) as -> by lia. rewrite lookup_insert_eq. by replace (s + (d + i - d)) with (s + i) by lia.
  - by rewrite lookup_insert_ne by lia.
Qed.

(** Extending a copied range upwards when the source bytes are not overwritten first. *)
Lemma copied_up m m1 m2 d s lo mid hi : lo <= mid -> mid <= hi -> d <= s \/ s + hi <= d + lo ->
  copied m m1 d s lo mid -> copied m1 m2 d s mid hi -> copied m m2 d s lo hi.
Proof.
  intros Hlm Hmh Hd H1 H2 x. rewrite H2. repeat case_decide; try lia; rewrite H1;
    repeat case_decide; try lia; done.
Qed.

Lemma copied_down m m1 m2 d s lo mid hi : lo <= mid -> mid <= hi -> s <= d ->
  copied m m1 d s mid hi -> copied m1 m2 d s lo mid -> copied m m2 d s lo hi.
Proof.
  intros Hlm Hmh Hd H1 H2 x. rewrite H2. repeat case_decide; try lia; rewrite H1;
    repeat case_decide; try lia; done.
Qed.

Lemma copy_up_ok n : forall m d s i,
  mapped m s (i + Z.of_nat n) -> mapped m d (i + Z.of_nat n) -> 0 <= i ->
  d <= s \/ s + i + Z.of_nat n <= d + i ->
  exists m', copy_up n m d s i = Ret m' /\ copied m m' d s i (i + Z.of_nat n).
Proof.
  induction n as [|n IH]; intros m d s i Hs Hd Hi Hov; cbn [copy_up].
  { exists m. split; [done|]. intros x. by rewrite decide_False by lia. }
  destruct (Hs i ltac:(lia)) as [b Hb]. rewrite (load8_ok _ _ _ Hb). ostep.
  rewrite store8_ok by (apply Hd; lia). ostep.
  replace (i + Z.of_nat (S n)) with (i + 1 + Z.of_nat n) in * by lia.
  destruct (IH (<[d + i:=b]> m) d s (i + 1)) as (m' & E & Hc); [by apply mapped_insert..|lia|lia|].
  exists m'. split; [done|]. apply (copied_up m (<[d + i:=b]> m) m' d s i (i + 1)); try lia; [|done].
  by apply copied_one.
Qed.

Lemma memcpy_ok m d s num :
  mapped m s num -> mapped m d num -> d <= s \/ s + num <= d ->
  exists m', memcpy m d s num = Ret m' /\ copied m m' d s 0 num.
Proof.
  intros Hs Hd Hov. unfold memcpy. destruct (Z.ltb_spec 0 num).
  - destruct (copy_up_ok (Z.to_nat num) m d s 0) as (m' & E & Hc);
      rewrite ?Z2Nat.id by lia; [done..|lia|lia|].
    exists m'. split; [done|]. by rewrite Z2Nat.id in Hc by lia.
  - exists m. split; [done|]. intros x. by rewrite decide_False by lia.
Qed.

(** [memcpy] on mapped ranges that do not overlap (or with the destination
    below the source) writes exactly the destination range, with the source
    bytes as they were. *)
Theorem memcpy_spec m d s num :
  mapped m s num -> mapped m d num -> d <= s \/ s + num <= d ->
  exists m', memcpy m d s num = Ret m' /\ copied m m' d s 0 num.
Proof. apply memcpy_ok. Qed.

Lemma copy_down_ok n : forall m d s i, i <= Z.of_nat n ->
  0 < i < 2 ^ 32 -> mapped m s (i + 1) -> mapped m d (i + 1) -> s <= d ->
  exists m', copy_down n m d s i = Ret m' /\ copied m m' d s 1 (i + 1).
Proof.
  induction n as [|n IH]; intros m d s i Hn Hi Hs Hd Hov; [lia|]. cbn [copy_down].
  destruct (Hs i ltac:(lia)) as [b Hb]. rewrite (load8_ok _ _ _ Hb). ostep.
  rewrite store8_ok by (apply Hd; lia). ostep. rewrite u32_id by (unfold is_u32; lia).
  pose proof (copied_one m d s _ b Hb) as H1. destruct (Z.eqb_spec (i - 1) 0) as [E0|].
  - assert (i = 1) as -> by lia. by eexists.
  - destruct (IH (<[d + i:=b]> m) d s (i - 1)) as (m' & E & Hc); try lia.
    + intros j Hj. apply mapped_insert with (n := i + 1); [done|lia].
    + intros j Hj. apply mapped_insert with (n := i + 1); [done|lia].
    + exists m'. split; [done|].
      apply (copied_down m (<[d + i:=b]> m) m' d s 1 i); try lia; [done|].
      by replace i with (i - 1 + 1) at 2 by lia.
Qed.

(** [memmove] always returns on mapped ranges.  Outside the overlapping case
    it copies the whole range; when the destination starts inside the source
    it copies every byte except the first, which keeps its old value. *)
Theorem memmove_spec m d s num :
  0 <= s -> s + num < 2 ^ 32 -> mapped m s num -> mapped m d num ->
  exists m', memmove m d s num = Ret m' /\
    copied m m' d s (if decide (s < d < s + num) then 1 else 0) num.
Proof.
  intros Hs0 Hend Hs Hd. unfold memmove. destruct (Z.ltb_spec 0 num) as [Hpos|].
  2:{ exists m. split; [done|]. intros x. rewrite decide_False; [done|]. case_decide; lia. }
  rewrite u32_id by (unfold is_u32; lia).
  destruct (Z.ltb_spec d s); [|destruct (Z.leb_spec (s + num) d)]; cbn [orb].
  1,2: rewrite decide_False by lia; apply memcpy_ok; try done; lia.
  destruct (Z.eqb_spec d s) as [->|Hne].
  - exists m. split; [done|]. rewrite decide_False by lia. intros x.
    case_decide; [|done]. by replace (s + (x - s)) with x by lia.
  - rewrite decide_True by lia. assert (2 <= num) by lia.
    destruct (copy_down_ok (Z.to_nat num) m d s (num - 1)) as (m' & E & Hc);
      rewrite ?Z.sub_add by lia; try done; try lia.
    exists m'. split; [done|]. by rewrite Z.sub_add in Hc.
Qed.

(** So the C contract of [memmove] fails in the overlapping case exactly when
    the first byte of the source differs from the first byte of the
    destination: moving "abcd" up by one leaves "aabc" with the "a" missing. *)
Theorem memmove_drops_first_byte m d s num :
  0 <= s -> s + num < 2 ^ 32 -> s < d < s + num -> mapped m s num -> mapped m d num ->
  exists m', memmove m d s num = Ret m' /\ m' !! d = m !! d /\
    (copied m m' d s 0 num <-> m !! d = m !! s).
Proof.
  intros Hs0 Hend Hov Hs Hd. destruct (memmove_spec m d s num) as (m' & E & Hc); try done.
  exists m'. rewrite decide_True in Hc by done. split; [done|].
  assert (m' !! d = m !! d) as Ed by (by rewrite Hc, decide_False by lia).
  split; [done|]. split.
  - intros H0. specialize (H0 d). rewrite decide_True in H0 by lia.
    rewrite <- Ed, H0. f_equal. lia.
  - intros Heq x. destruct (decide (x = d)) as [->|].
    + rewrite decide_True by lia. rewrite Ed, Heq. f_equal. lia.
    + rewrite Hc. repeat case_decide; try lia; done.
Qed.

(** [memcmp] on mapped ranges returns 0 exactly when all bytes agree, and
    otherwise the sign of the first difference. *)
Theorem memcmp_spec m a b num :
  0 <= num -> mapped m a num -> mapped m b num ->
  exists r, memcmp m a b num = Ret r /\
    ((r = 0 /\ forall i, 0 <= i < num -> m !! (a + i) = m !! (b + i)) \/
     exists i x y, 0 <= i < num /\ (forall j, 0 <= j < i -> m !! (a + j) = m !! (b + j)) /\
       m !! (a + i) = Some x /\ m !! (b + i) = Some y /\
       ((r = -1 /\ x < y) \/ (r = 1 /\ y < x))).
Proof.
  intros Hn Ha Hb. unfold memcmp.
  assert (forall n i, 0 <= i -> i + Z.of_nat n = num ->
    (forall j, 0 <= j < i -> m !! (a + j) = m !! (b + j)) ->
    exists r, compare_up n m a b i = Ret r /\
    ((r = 0 /\ forall i, 0 <= i < num -> m !! (a + i) = m !! (b + i)) \/
     exists i x y, 0 <= i < num /\ (forall j, 0 <= j < i -> m !! (a + j) = m !! (b + j)) /\
       m !! (a + i) = Some x /\ m !! (b + i) = Some y /\
       ((r = -1 /\ x < y) \/ (r = 1 /\ y < x)))) as Hgen.
  { induction n as [|n IH]; intros i Hi Hin Heq; cbn [compare_up].
    { exists 0. split; [done|]. left. split; [done|]. intros j Hj. apply Heq. lia. }
    destruct (Ha i ltac:(lia)) as [x Hx]. destruct (Hb i ltac:(lia)) as [y Hy].
    rewrite (load8_ok _ _ _ Hx), (load8_ok _ _ _ Hy). ostep.
    destruct (Z.ltb_spec x y); [|destruct (Z.ltb_spec y x)].
    - exists (-1). split; [done|]. right. exists i, x, y. split_and!; try done; [lia|by left].
    - exists 1. split; [done|]. right. exists i, x, y. split_and!; try done; [lia|by right].
    - apply IH; [lia|lia|]. intros j Hj. destruct (decide (j = i)) as [->|]; [|apply Heq; lia].
      rewrite Hx, Hy. f_equal. lia. }
  apply Hgen; [lia|lia|]. intros. lia.
Qed.

(** [memset] fills exactly the [num] bytes with the value truncated to a byte. *)
Theorem memset_spec m p value num :
  0 <= num -> mapped m p num ->
  exists m', memset m p value num = Ret m' /\
    forall x, m' !! x = if decide (p <= x < p + num) then Some (value mod 256) else m !! x.
Proof.
  intros Hn Hp. unfold memset. set (v := value mod 256).
  assert (forall n m i, 0 <= i -> mapped m p (i + Z.of_nat n) ->
    exists m', fill_up n m p v i = Ret m' /\
    forall x, m' !! x = if decide (p + i <= x < p + i + Z.of_nat n) then Some v else m !! x) as Hgen.
  { clear m Hp. induction n as [|n IH]; intros m i Hi Hm; cbn [fill_up].
    { exists m. split; [done|]. intros x. by rewrite decide_False by lia. }
    rewrite store8_ok by (apply Hm; lia). ostep.
    destruct (IH (<[p + i:=v]> m) (i + 1)) as (m' & E & Hx); [lia| |].
    { apply mapped_insert. by replace (i + 1 + Z.of_nat n) with (i + Z.of_nat (S n)) by lia. }
    exists m'. split; [done|]. intros x. rewrite Hx.
    destruct (decide (x = p + i)) as [->|].
    - rewrite decide_False, decide_True by lia. by rewrite lookup_insert_eq.
    - rewrite lookup_insert_ne by done. repeat case_decide; try lia; done. }
  destruct (Hgen (Z.to_nat num) m 0) as (m' & E & Hx); [lia|by rewrite Z2Nat.id by lia|].
  exists m'. split; [done|]. intros x. rewrite Hx, Z2Nat.id by lia. by rewrite Z.add_0_r.
Qed.

(** ** C strings *)

(** A string of [n] characters starts at [a]. *)
Definition is_cstr (m : mem) (a n : Z) : Prop :=
  0 <= n /\ (forall i, 0 <= i < n -> exists c, m !! (a + i) = Some c /\ c <> 0) /\ m !! (a + n) = Some 0.

Lemma is_cstr_mapped m a n : is_cstr m a n -> mapped m a (n + 1).
Proof.
  intros (_ & Hc & Hz) i Hi. destruct (decide (i = n)) as [->|]; [by eexists|].
  destruct (Hc i ltac:(lia)) as (c & E & _). by eexists.
Qed.

Lemma strlen_from_ok fuel m a n : is_cstr m a n -> forall i, 0 <= i <= n -> n - i < Z.of_nat fuel ->
  strlen_from fuel m a i = Ret n.
Proof.
  intros (Hn & Hc & Hz). induction fuel as [|fuel IH]; intros i Hi Hf; [lia|].
  cbn [strlen_from]. destruct (decide (i = n)) as [->|].
  - by rewrite (load8_ok _ _ _ Hz).
  - destruct (Hc i ltac:(lia)) as (c & E & Hne). rewrite (load8_ok _ _ _ E). ostep.
    rewrite (proj2 (Z.eqb_neq _ _)) by done. apply IH; lia.
Qed.

(** [strlen] returns the number of characters before the terminator. *)
Theorem strlen_spec fuel m a n : is_cstr m a n -> n < Z.of_nat fuel -> strlen fuel m a = Ret n.
Proof. intros Hs Hf. apply strlen_from_ok; [done| |]; destruct Hs; lia. Qed.

Lemma strcpy_up_ok m0 s n d : is_cstr m0 s n -> mapped m0 d (n + 1) -> d <= s \/ s + n < d ->
  forall fuel m i, 0 <= i <= n -> n - i < Z.of_nat fuel -> copied m0 m d s 0 i ->
  exists m', strcpy_up fuel m (d + i) (s + i) = Ret m' /\ copied m0 m' d s 0 (n + 1).
Proof.
  intros Hs Hd Hov. pose proof Hs as (Hn & Hc & Hz).
  induction fuel as [|fuel IH]; intros m i Hi Hf Hcp; [lia|]. cbn [strcpy_up].
  assert (m !! (s + i) = m0 !! (s + i)) as Es by (rewrite Hcp, decide_False by lia; done).
  assert (is_Some (m !! (d + i))) as Ed by (rewrite Hcp, decide_False by lia; apply Hd; lia).
  assert (forall b, m0 !! (s + i) = Some b -> copied m0 (<[d + i:=b]> m) d s 0 (i + 1)) as Hnext.
  { intros b Hb. apply (copied_up m0 m _ d s 0 i (i + 1)); try lia; [done|].
    apply copied_one. by rewrite Es. }
  destruct (decide (i = n)) as [->|].
  - rewrite (load8_ok _ _ 0) by (by rewrite Es). ostep. rewrite store8_ok by done. ostep.
    eexists. split; [done|]. by apply Hnext.
  - destruct (Hc i ltac:(lia)) as (c & E & Hne).
    rewrite (load8_ok _ _ c) by (by rewrite Es). ostep. rewrite store8_ok by done. ostep.
    rewrite (proj2 (Z.eqb_neq _ _)) by done. rewrite <- !Z.add_assoc.
    apply IH; [lia|lia|]. by apply Hnext.
Qed.

Lemma strcpy_down_ok m0 s n d : is_cstr m0 s n -> mapped m0 d (n + 1) -> s < d <= s + n ->
  forall fuel m i, 1 <= i <= n -> i <= Z.of_nat fuel -> copied m0 m d s (i + 1) (n + 1) ->
  exists m', strcpy_down fuel m (d + i) (s + i) d = Ret m' /\ copied m0 m' d s 1 (n + 1).
Proof.
  intros Hs Hd Hov. pose proof (is_cstr_mapped _ _ _ Hs) as Hsm.
  induction fuel as [|fuel IH]; intros m i Hi Hf Hcp; [lia|]. cbn [strcpy_down].
  destruct (Hsm i ltac:(lia)) as [b Hb].
  assert (m !! (s + i) = Some b) as Es by (rewrite Hcp, decide_False by lia; done).
  assert (is_Some (m !! (d + i))) as Ed by (rewrite Hcp, decide_False by lia; apply Hd; lia).
  rewrite (load8_ok _ _ _ Es). ostep. rewrite store8_ok by done. ostep.
  assert (copied m0 (<[d + i:=b]> m) d s i (n + 1)) as Hnext.
  { apply (copied_down m0 m _ d s i (i + 1) (n + 1)); try lia; [done|]. by apply copied_one. }
  destruct (Z.ltb_spec d (d + i - 1)).
  - rewrite <- !Z.add_sub_assoc. apply IH; [lia|lia|]. by rewrite Z.sub_add.
  - assert (i = 1) as -> by lia. by eexists.
Qed.

(** [strcpy] copies the string with its terminator, except that when the
    destination starts inside the source the first character is not copied. *)
Theorem strcpy_spec fuel m d s n :
  is_cstr m s n -> mapped m d (n + 1) -> n < Z.of_nat fuel ->
  exists m', strcpy fuel m d s = Ret m' /\
    copied m m' d s (if decide (s < d <= s + n) then 1 else 0) (n + 1).
Proof.
  intros Hs Hd Hf. unfold strcpy. rewrite (strlen_spec fuel m s n) by done. ostep.
  pose proof Hs as (Hn & _).
  destruct (Z.leb_spec d s); [|destruct (Z.ltb_spec (s + n) d)]; cbn [orb].
  1,2: rewrite decide_False by lia; destruct (strcpy_up_ok m s n d Hs Hd ltac:(lia) fuel m 0)
    as (m' & E & Hc); [lia|lia|intros x; by rewrite decide_False by lia|];
    rewrite !Z.add_0_r in E; by exists m'.
  rewrite decide_True by lia.
  apply (strcpy_down_ok m s n d Hs Hd); [lia|lia|lia|]. intros x. by rewrite decide_False by lia.
Qed.

(** ** Witnesses *)

(** Eight bytes at address 100: "abcd", a terminator, and three zero bytes. *)
Definition demo_mem : mem :=
  list_to_map (zip (seqZ 100 8) [97; 98; 99; 100; 0; 0; 0; 0]).

Lemma demo_mem_mapped a n : 100 <= a -> a + n <= 108 -> mapped demo_mem a n.
Proof.
  intros Ha Hn i Hi. unfold demo_mem.
  assert (a + i = 100 \/ a + i = 101 \/ a + i = 102 \/ a + i = 103 \/ a + i = 104 \/ a + i = 105 \/
    a + i = 106 \/ a + i = 107) as Hx by lia.
  repeat destruct Hx as [->|Hx]; try (vm_compute; by eexists). rewrite Hx. vm_compute. by eexists.
Qed.

Lemma demo_mem_cstr : is_cstr demo_mem 100 4.
Proof.
  split; [lia|]. split; [|reflexivity]. intros i Hi.
  assert (i = 0 \/ i = 1 \/ i = 2 \/ i = 3) as Hx by lia.
  destruct Hx as [->|[->|[->| ->]]]; eexists; split; try reflexivity; discriminate.
Qed.

Lemma memcpy_spec_witness : exists m', memcpy demo_mem 104 100 4 = Ret m' /\ m' !! 105 = Some 98.
Proof.
  destruct (memcpy_spec demo_mem 104 100 4) as (m' & E & Hc).
  - apply demo_mem_mapped; lia.
  - apply demo_mem_mapped; lia.
  - lia.
  - exists m'. split; [exact E|]. rewrite Hc. vm_compute. reflexivity.
Defined.

Lemma memmove_spec_witness : exists m', memmove demo_mem 101 100 4 = Ret m' /\ m' !! 104 = Some 100.
Proof.
  destruct (memmove_spec demo_mem 101 100 4) as (m' & E & Hc).
  - lia.
  - lia.
  - apply demo_mem_mapped; lia.
  - apply demo_mem_mapped; lia.
  - exists m'. split; [exact E|]. rewrite Hc. vm_compute. reflexivity.
Defined.

Lemma memmove_drops_first_byte_witness :
  exists m', memmove demo_mem 101 100 4 = Ret m' /\ m' !! 101 = demo_mem !! 101.
Proof.
  destruct (memmove_drops_first_byte demo_mem 101 100 4) as (m' & E & Hd & _).
  - lia.
  - lia.
  - lia.
  - apply demo_mem_mapped; lia.
  - apply demo_mem_mapped; lia.
  - exists m'. split; [exact E|exact Hd].
Defined.

Lemma memcmp_spec_witness : exists r, memcmp demo_mem 100 101 3 = Ret r.
Proof.
  destruct (memcmp_spec demo_mem 100 101 3) as (r & E & _).
  - lia.
  - apply demo_mem_mapped; lia.
  - apply demo_mem_mapped; lia.
  - exists r. exact E.
Defined.

Lemma memset_spec_witness : exists m', memset demo_mem 102 300 2 = Ret m' /\ m' !! 103 = Some 44.
Proof.
  destruct (memset_spec demo_mem 102 300 2) as (m' & E & Hc).
  - lia.
  - apply demo_mem_mapped; lia.
  - exists m'. split; [exact E|]. rewrite Hc. vm_compute. reflexivity.
Defined.

Lemma strlen_spec_witness : strlen 8 demo_mem 100 = Ret 4.
Proof. exact (strlen_spec 8 demo_mem 100 4 demo_mem_cstr ltac:(lia)). Defined.

Lemma strcpy_spec_witness : exists m', strcpy 8 demo_mem 102 100 = Ret m' /\ m' !! 103 = Some 98.
Proof.
  destruct (strcpy_spec 8 demo_mem 102 100 4) as (m' & E & Hc).
  - apply demo_mem_cstr.
  - apply demo_mem_mapped; lia.
  - lia.
  - exists m'. split; [exact E|]. rewrite Hc. vm_compute. reflexivity.
Defined.
