(* ===== verification/Paging.v ===== *)
(** Page tables of the x86 port (src/x86/paging.c, include/platform/paging.h).

    The machine is physical memory, by word address, and the register CR3.  The
    code never touches physical memory directly: it reaches the tables through
    the virtual addresses [page_tables] and [page_directory], which work because
    the last directory entry points back at the directory.  The definitions
    below therefore go through the two-level translation of the processor
    (32-bit paging with 4 KiB pages and write protection in supervisor mode,
    which [start_paging] switches on); an access that does not translate is a
    page fault, [Fault].  TLB contents, the accessed and dirty bits and the
    user/supervisor check are not modelled: the kernel runs in supervisor mode
    and flushes what it changes. *)
From S2P Require Import Prelude Status.

Record mmu := Mmu { phys : gmap Z Z; cr3 : Z }.

Definition pget (m : gmap Z Z) (a : Z) : Z := default 0 (m !! a).

Definition page_size : Z := 4096.
Definition page_bits : Z := 12.
Definition page_table_levels : Z := 2.
Definition page_tables : Z := 0xFFC00000.
Definition page_directory : Z := 0xFFFFF000.

(** ** Page table entries: [struct page_table_entry_t] as bit fields of a word *)
Definition present (w : Z) : Z := bf_get 0 1 w.
Definition rw (w : Z) : Z := bf_get 1 1 w.
Definition usermode (w : Z) : Z := bf_get 2 1 w.
Definition physical_address (w : Z) : Z := bf_get 12 20 w.
Definition set_present (v w : Z) : Z := bf_set 0 1 v w.
Definition set_rw (v w : Z) : Z := bf_set 1 1 v w.
Definition set_usermode (v w : Z) : Z := bf_set 2 1 v w.
Definition set_physical_address (v w : Z) : Z := bf_set 12 20 v w.

(** ** The processor's translation *)
Definition dir_index (va : Z) : Z := Z.shiftr va 22.
Definition table_index (va : Z) : Z := bf_get 12 10 va.
Definition page_offset (va : Z) : Z := Z.land va 0xFFF.
Definition frame_of (w : Z) : Z := Z.shiftl (physical_address w) page_bits.

Definition allows (write : bool) (w : Z) : bool :=
  (present w =? 1) && (negb write || (rw w =? 1)).

Definition translate (s : mmu) (write : bool) (va : Z) : option Z :=
  let pde := pget (phys s) (cr3 s + 4 * dir_index va) in
  if allows write pde then
    let pte := pget (phys s) (frame_of pde + 4 * table_index va) in
    if allows write pte then Some (frame_of pte + page_offset va) else None
  else None.

Definition read32 (va : Z) : M mmu Z :=
  fun s => a ← of_option (translate s false va); Ret (pget (phys s) a, s).
Definition write32 (va w : Z) : M mmu unit :=
  fun s => a ← of_option (translate s true va); Ret (tt, Mmu (<[a:=w]> (phys s)) (cr3 s)).
(** Assignment to a bit field: read, modify, write. *)
Definition update32 (va : Z) (f : Z -> Z) : M mmu unit := w ← read32 va; write32 va (f w).

(** ** The operations of paging.c *)
Definition get_pte_pointer (page level : Z) : M mmu Z :=
  let directory_index := Z.shiftr page 22 in
  if level =? 0 then mret (page_directory + 4 * directory_index)
  else if level =? 1 then
    e ← read32 (page_directory + 4 * directory_index);
    if present e =? 1 then mret (page_tables + 4 * Z.shiftr page page_bits) else mret NULL
  else mret NULL.

Definition pte_flags (w : Z) : Z :=
  Z.lor (Z.lor (if present w =? 1 then Z.lor PAGE_PRESENT PAGE_EXECUTABLE else 0)
               (if rw w =? 1 then PAGE_RW else 0))
        (if usermode w =? 1 then PAGE_USERMODE else 0).

Definition get_pte_type (page level : Z) : M mmu Z :=
  entry ← get_pte_pointer page level;
  if entry =? NULL then mret 0 else w ← read32 entry; mret (pte_flags w).

Definition has_flag (flags f : Z) : bool := negb (Z.land flags f =? 0).
Definition bit (b : bool) : Z := if b then 1 else 0.

Definition set_pte_type (page level flags : Z) : M mmu Z :=
  entry ← get_pte_pointer page level;
  if entry =? NULL then mret (-1)
  else
    _ ← update32 entry (set_present (bit (has_flag flags PAGE_PRESENT)));
    _ ← update32 entry (set_rw (bit (has_flag flags PAGE_RW)));
    _ ← update32 entry (set_usermode (bit (has_flag flags PAGE_USERMODE)));
    mret 0.

Definition get_pte_address (page level : Z) : M mmu Z :=
  entry ← get_pte_pointer page level;
  if entry =? NULL then mret (u32 (-1))
  else w ← read32 entry; mret (Z.lor (frame_of w) (Z.land page 0xFFF)).

Definition set_pte_address (page level addr : Z) : M mmu Z :=
  entry ← get_pte_pointer page level;
  if entry =? NULL then mret (-1)
  else _ ← update32 entry (set_physical_address (Z.shiftr addr page_bits)); mret 0.

Definition set_pte (page level flags addr : Z) : M mmu Z :=
  r ← set_pte_address page level addr;
  if r =? 0 then set_pte_type page level flags else mret (-1).

(** The loop of [wipe_page_table], from index [i] with [n] rounds left. *)
Fixpoint wipe_from (n : nat) (base i : Z) : M mmu unit :=
  match n with
  | O => mret tt
  | S n =>
    _ ← update32 (page_tables + 4 * (base + i)) (set_present 0);
    _ ← update32 (page_tables + 4 * (base + i)) (set_physical_address 0);
    wipe_from n base (i + 1)
  end.

Definition wipe_page_table (page level : Z) : M mmu unit :=
  if level =? 1 then
    flags ← get_pte_type page 0;
    if has_flag flags PAGE_PRESENT then
      wipe_from 1024 (Z.land (Z.shiftr page page_bits) (Z.lnot 0x3FF)) 0
    else mret tt
  else mret tt.

Definition paging_current_address_space : M mmu Z :=
  w ← read32 (page_directory + 4 * 1023); mret (frame_of w).

Definition paging_load_address_space (table : Z) : M mmu unit :=
  modify (fun s => Mmu (phys s) table).

(** [memset(page_tables, 0, page_size)], word by word. *)
Fixpoint zero_from (n : nat) (i : Z) : M mmu unit :=
  match n with
  | O => mret tt
  | S n => _ ← write32 (page_tables + 4 * i) 0; zero_from n (i + 1)
  end.

(** [for(i = kernel_index; i < last_index; i++) page_tables[i] = page_directory[i];] *)
Fixpoint copy_entries (n : nat) (i : Z) : M mmu unit :=
  match n with
  | O => mret tt
  | S n =>
    w ← read32 (page_directory + 4 * i);
    _ ← write32 (page_tables + 4 * i) w;
    copy_entries n (i + 1)
  end.

(** [kernel_start] is the linker symbol [_kernel_start]. *)
Definition paging_init_top_table (kernel_start table : Z) : M mmu Z :=
  buffer ← read32 (page_directory + 4 * 0);
  _ ← update32 (page_directory + 4 * 0) (set_physical_address (Z.shiftr table page_bits));
  _ ← zero_from 1024 0;
  let last_index := 1023 in
  let kernel_index := Z.shiftr kernel_start 22 in
  _ ← copy_entries (Z.to_nat (last_index - kernel_index)) kernel_index;
  _ ← update32 (page_tables + 4 * last_index) (set_physical_address (Z.shiftr table page_bits));
  _ ← update32 (page_tables + 4 * last_index) (set_present 1);
  _ ← update32 (page_tables + 4 * last_index) (set_rw 1);
  _ ← write32 (page_directory + 4 * 0) buffer;
  mret 0.

(** ** [start_paging]: building the boot tables, paging still off *)

Definition pset (m : gmap Z Z) (a w : Z) : gmap Z Z := <[a:=w]> m.

Fixpoint map_range (n : nat) (m : gmap Z Z) (p start stop table identity count : Z) : gmap Z Z * Z :=
  match n with
  | O => (m, count)
  | S n =>
    if p <? stop then
      let index := p / page_size in
      let m := pset m (table + 4 * (index - start / page_size)) (u32 (p + 3)) in
      let m := pset m (identity + 4 * index) (u32 (p + 3)) in
      map_range n m (p + page_size) start stop table identity (count + 1)
    else (m, count)
  end.

(** The machine after [start_paging], and the number of pages mapped. *)
Definition start_paging (linear_addr start stop directory table identity : Z) (m : gmap Z Z) : mmu * Z :=
  let '(m, count) := map_range (Z.to_nat ((stop - start + page_size - 1) / page_size)) m start start stop table identity 0 in
  let m := pset m (directory + 4 * 0) (u32 (identity + 3)) in
  let m := pset m (directory + 4 * Z.shiftr linear_addr 22) (u32 (table + 3 + 1024)) in
  let m := pset m (directory + 4 * 1023) (u32 (directory + 3)) in
  (Mmu m directory, count).

(** * Theory of an address space

    Entries of the directory and of the tables, seen through the frames the
    directory names. *)
Definition pde (s : mmu) (i : Z) : Z := pget (phys s) (cr3 s + 4 * i).
Definition pte_addr (s : mmu) (p : Z) : Z := frame_of (pde s (p / 1024)) + 4 * (p mod 1024).
Definition pte (s : mmu) (p : Z) : Z := pget (phys s) (pte_addr s p).
Definition poke (s : mmu) (a w : Z) : mmu := Mmu (<[a:=w]> (phys s)) (cr3 s).

(** The invariant the accessors rely on: the last directory entry maps the
    directory itself, a table in use is writable, and no two entries share a
    table. *)
Record wf_space (s : mmu) : Prop := {
  wf_root : is_u32 (cr3 s) /\ cr3 s mod 4096 = 0;
  wf_self : present (pde s 1023) = 1 /\ frame_of (pde s 1023) = cr3 s;
  wf_writable : forall i, 0 <= i < 1024 -> present (pde s i) = 1 -> rw (pde s i) = 1;
  wf_distinct : forall i j, 0 <= i < 1024 -> 0 <= j < 1024 ->
    present (pde s i) = 1 -> present (pde s j) = 1 ->
    frame_of (pde s i) = frame_of (pde s j) -> i = j
}.

(** What an access to the directory alone needs. *)
Record wf_dir (s : mmu) : Prop := {
  dir_root : is_u32 (cr3 s) /\ cr3 s mod 4096 = 0;
  dir_self : frame_of (pde s 1023) = cr3 s;
  dir_allows : forall write, allows write (pde s 1023) = true
}.

(** The table of page [va] exists. *)
Definition has_table (s : mmu) (va : Z) : Prop := present (pde s (dir_index va)) = 1.

(** ** Arithmetic of virtual addresses *)
Lemma dir_index_div va : dir_index va = va / 4194304.
Proof. apply Z.shiftr_div_pow2. lia. Qed.
Lemma page_number_div va : Z.shiftr va page_bits = va / 4096.
Proof. apply Z.shiftr_div_pow2. done. Qed.
Lemma table_index_mod va : table_index va = (va / 4096) mod 1024.
Proof.
  unfold table_index, bf_get. rewrite Z.land_ones, Z.shiftr_div_pow2 by lia. done.
Qed.
Lemma page_offset_mod va : page_offset va = va mod 4096.
Proof. unfold page_offset. change 0xFFF with (Z.ones 12). by rewrite Z.land_ones by lia. Qed.
Lemma frame_of_mul w : frame_of w = 4096 * physical_address w.
Proof. unfold frame_of. rewrite Z.shiftl_mul_pow2 by done. change (2 ^ page_bits) with 4096. lia. Qed.
Lemma frame_of_range w : 0 <= frame_of w < 2 ^ 32 /\ frame_of w mod 4096 = 0.
Proof.
  rewrite frame_of_mul. pose proof (bf_get_range 12 20 w ltac:(lia)) as H.
  fold (physical_address w) in H. split; [lia|]. rewrite Z.mul_comm. apply Z_mod_mult.
Qed.

#[local] Ltac divs := rewrite ?dir_index_div, ?table_index_mod, ?page_offset_mod, ?page_number_div in *;
  unfold is_u32, page_tables, page_directory, NULL in *; Z.div_mod_to_equations; lia.

Lemma present_bit w : present w = 1 \/ present w = 0.
Proof. pose proof (bf_get_range 0 1 w ltac:(lia)). unfold present. lia. Qed.
Lemma rw_bit w : rw w = 1 \/ rw w = 0.
Proof. pose proof (bf_get_range 1 1 w ltac:(lia)). unfold rw. lia. Qed.

Lemma frame_offset_lor w va : Z.lor (frame_of w) (page_offset va) = frame_of w + page_offset va.
Proof.
  rewrite <- Z.add_lor_land.
  assert (Z.land (frame_of w) (page_offset va) = 0) as ->; [|lia].
  unfold frame_of, page_offset. change 0xFFF with (Z.ones 12). unfold page_bits. bits_eq.
  by rewrite (Z.testbit_neg_r _ (i - 12)) by lia.
Qed.

(** ** Translation, in terms of entries *)
Lemma translate_eq s write va :
  translate s write va =
    if allows write (pde s (dir_index va)) then
      if allows write (pte s (va / 4096)) then Some (frame_of (pte s (va / 4096)) + page_offset va) else None
    else None.
Proof.
  unfold translate. fold (pde s (dir_index va)). unfold pte, pte_addr.
  rewrite table_index_mod, dir_index_div.
  replace (va / 4096 / 1024) with (va / 4194304) by (rewrite Z.div_div; done || lia). done.
Qed.

Lemma translate_ext s s' write va :
  pde s' (dir_index va) = pde s (dir_index va) -> pte s' (va / 4096) = pte s (va / 4096) ->
  translate s' write va = translate s write va.
Proof. rewrite !translate_eq. by intros -> ->. Qed.

Lemma allows_writable w write : present w = 1 -> rw w = 1 -> allows write w = true.
Proof. unfold allows. intros -> ->. by destruct write. Qed.

Lemma wf_space_dir s : wf_space s -> wf_dir s.
Proof.
  intros [H1 [H2 H2'] H3 H4]. split; [done|done|].
  intros write. apply allows_writable; [done|]. apply H3; [lia|done].
Qed.

Section directory.
Context (s : mmu) (Hwf : wf_dir s).

(** The window shows the directory as the table of the last entry. *)
Lemma pte_window i : 0 <= i < 1024 -> pte s (1024 * 1023 + i) = pde s i.
Proof.
  intros Hi. unfold pte, pte_addr.
  replace ((1024 * 1023 + i) / 1024) with 1023 by (Z.div_mod_to_equations; lia).
  replace ((1024 * 1023 + i) mod 1024) with i by (Z.div_mod_to_equations; lia).
  by rewrite (dir_self s Hwf).
Qed.

Lemma translate_directory write i : 0 <= i < 1024 ->
  translate s write (page_directory + 4 * i) = Some (cr3 s + 4 * i).
Proof.
  intros Hi. rewrite translate_eq.
  replace (dir_index _) with 1023 by divs. rewrite (dir_allows s Hwf).
  replace ((page_directory + 4 * i) / 4096) with (1024 * 1023 + 1023) by divs.
  rewrite pte_window, (dir_allows s Hwf), (dir_self s Hwf) by lia.
  f_equal. divs.
Qed.

Lemma read_pde i : 0 <= i < 1024 -> read32 (page_directory + 4 * i) s = Ret (pde s i, s).
Proof. intros. unfold read32. by rewrite translate_directory. Qed.

Lemma poke_pde_pde i w j : pde (poke s (cr3 s + 4 * i) w) j = if decide (i = j) then w else pde s j.
Proof.
  unfold pde, pget, poke. simpl. case_decide.
  - subst. by rewrite lookup_insert_eq.
  - rewrite lookup_insert_ne; [done|]. lia.
Qed.

Lemma poke_pde_dir i w : i <> 1023 -> wf_dir (poke s (cr3 s + 4 * i) w).
Proof.
  intros. destruct Hwf. split; [done|rewrite poke_pde_pde, decide_False by lia..]; done.
Qed.
End directory.

Section space.
Context (s : mmu) (Hwf : wf_space s).

Lemma allows_pde write i : 0 <= i < 1024 -> present (pde s i) = 1 -> allows write (pde s i) = true.
Proof. intros Hi H. apply allows_writable; [done|]. by apply (wf_writable s Hwf). Qed.

Lemma translate_table write p : 0 <= p < 1048576 -> present (pde s (p / 1024)) = 1 ->
  translate s write (page_tables + 4 * p) = Some (pte_addr s p).
Proof.
  intros Hp H. rewrite translate_eq.
  replace (dir_index _) with 1023 by divs.
  rewrite (dir_allows s (wf_space_dir s Hwf)).
  replace ((page_tables + 4 * p) / 4096) with (1024 * 1023 + p / 1024) by divs.
  rewrite pte_window by (apply wf_space_dir || Z.div_mod_to_equations; done || lia).
  rewrite allows_pde; [|Z.div_mod_to_equations; lia|done].
  unfold pte_addr. f_equal. f_equal. divs.
Qed.

Lemma read_pte p : 0 <= p < 1048576 -> present (pde s (p / 1024)) = 1 ->
  read32 (page_tables + 4 * p) s = Ret (pte s p, s).
Proof. intros. unfold read32. by rewrite translate_table. Qed.

(** *** Effect of one store *)
Lemma pte_addr_ne_pde p i : 0 <= p < 1047552 -> 0 <= i < 1024 ->
  present (pde s (p / 1024)) = 1 -> pte_addr s p <> cr3 s + 4 * i.
Proof.
  intros Hp Hi H E.
  assert (p / 1024 = 1023); [|Z.div_mod_to_equations; lia].
  apply (wf_distinct s Hwf); [Z.div_mod_to_equations; lia|lia|done|apply (wf_self s Hwf)|].
  rewrite (proj2 (wf_self s Hwf)). unfold pte_addr in E.
  pose proof (frame_of_range (pde s (p / 1024))). destruct (wf_root s Hwf).
  Z.div_mod_to_equations. lia.
Qed.

Lemma pte_addr_inj p q : 0 <= p < 1048576 -> 0 <= q < 1048576 ->
  present (pde s (p / 1024)) = 1 -> present (pde s (q / 1024)) = 1 ->
  pte_addr s p = pte_addr s q -> p = q.
Proof.
  intros Hp Hq H1 H2 E. unfold pte_addr in E.
  pose proof (frame_of_range (pde s (p / 1024))). pose proof (frame_of_range (pde s (q / 1024))).
  assert (p / 1024 = q / 1024) as E1.
  { apply (wf_distinct s Hwf); [Z.div_mod_to_equations; lia..|done|done|].
    Z.div_mod_to_equations. lia. }
  rewrite E1 in E. Z.div_mod_to_equations. lia.
Qed.

Context (p w : Z) (Hp : 0 <= p < 1047552) (Ht : present (pde s (p / 1024)) = 1).
Let s' := poke s (pte_addr s p) w.

Lemma poke_pte_pde i : 0 <= i < 1024 -> pde s' i = pde s i.
Proof.
  intros. unfold pde, pget, s', poke. simpl.
  rewrite lookup_insert_ne; [done|]. by apply pte_addr_ne_pde.
Qed.

Lemma poke_pte_pte q : 0 <= q < 1048576 -> present (pde s (q / 1024)) = 1 ->
  pte s' q = if decide (q = p) then w else pte s q.
Proof.
  intros Hq H. unfold pte, pte_addr. rewrite poke_pte_pde by (Z.div_mod_to_equations; lia).
  fold (pte_addr s q). unfold pget, s', poke. simpl. case_decide as D.
  - subst. by rewrite lookup_insert_eq.
  - rewrite lookup_insert_ne; [done|]. intros E. apply D. symmetry.
    apply pte_addr_inj; (done || lia).
Qed.

Lemma poke_pte_wf : wf_space s'.
Proof.
  destruct Hwf as [H1 H2 H3 H4]. split.
  - done.
  - rewrite poke_pte_pde by lia. done.
  - intros i Hi. rewrite poke_pte_pde by done. auto.
  - intros i j Hi Hj. rewrite !poke_pte_pde by done. auto.
Qed.

Lemma poke_pte_translate write va : is_u32 va -> va / 4096 <> p ->
  translate s' write va = translate s write va.
Proof.
  intros Hva Hne. assert (0 <= dir_index va < 1024) by divs.
  rewrite !translate_eq, poke_pte_pde by done.
  destruct (allows write (pde s (dir_index va))) eqn:E; [|done].
  rewrite poke_pte_pte, decide_False; [done|done|divs|].
  replace (va / 4096 / 1024) with (dir_index va) by divs.
  unfold allows in E. apply andb_true_iff in E as [E _]. lia.
Qed.
End space.

(** ** Read-modify-write of one entry

    [slot s e a]: the pointer [e] reaches the word [a], also after that word
    has been overwritten. *)
Definition slot (s : mmu) (e a : Z) : Prop :=
  forall write, translate s write e = Some a /\ forall w, translate (poke s a w) write e = Some a.

Lemma poke_poke s a w w' : poke (poke s a w) a w' = poke s a w'.
Proof. unfold poke. simpl. by rewrite insert_insert_eq. Qed.
Lemma pget_poke s a w : pget (phys (poke s a w)) a = w.
Proof. unfold pget, poke. simpl. by rewrite lookup_insert_eq. Qed.

Lemma slot_poke s e a w : slot s e a -> slot (poke s a w) e a.
Proof. intros H write. split; [apply H|]. intros. rewrite poke_poke. apply H. Qed.

Lemma read_slot s e a : slot s e a -> read32 e s = Ret (pget (phys s) a, s).
Proof. intros H. unfold read32. by rewrite (proj1 (H false)). Qed.
Lemma write_slot s e a w : slot s e a -> write32 e w s = Ret (tt, poke s a w).
Proof. intros H. unfold write32. by rewrite (proj1 (H true)). Qed.
Lemma update_slot s e a f : slot s e a -> update32 e f s = Ret (tt, poke s a (f (pget (phys s) a))).
Proof.
  intros H. unfold update32, mbind, M_mbind. rewrite (read_slot s e a) by done. ostep.
  by apply write_slot.
Qed.

Lemma slot_pde s i : wf_dir s -> 0 <= i < 1023 -> slot s (page_directory + 4 * i) (cr3 s + 4 * i).
Proof.
  intros H Hi write. split; [apply translate_directory; done || lia|].
  intros w. apply (translate_directory (poke s (cr3 s + 4 * i) w)); [|lia].
  apply poke_pde_dir; [done|lia].
Qed.

Lemma poke_pte_addr s p w : wf_space s -> 0 <= p < 1047552 -> present (pde s (p / 1024)) = 1 ->
  pte_addr (poke s (pte_addr s p) w) p = pte_addr s p.
Proof.
  intros H Hp Ht. unfold pte_addr at 1. rewrite poke_pte_pde; [done..|].
  Z.div_mod_to_equations; lia.
Qed.

Lemma slot_pte s p : wf_space s -> 0 <= p < 1047552 -> present (pde s (p / 1024)) = 1 ->
  slot s (page_tables + 4 * p) (pte_addr s p).
Proof.
  intros H Hp Ht write. split; [apply translate_table; done || lia|].
  intros w. rewrite <- (poke_pte_addr s p w) at 2 by done.
  apply translate_table; [by apply poke_pte_wf|lia|].
  rewrite poke_pte_pde; [done..|]. Z.div_mod_to_equations; lia.
Qed.

(** The word [set_pte] leaves in an entry that held [w]. *)
Definition pte_word (flags addr w : Z) : Z :=
  set_usermode (bit (has_flag flags PAGE_USERMODE))
    (set_rw (bit (has_flag flags PAGE_RW))
      (set_present (bit (has_flag flags PAGE_PRESENT))
        (set_physical_address (Z.shiftr addr page_bits) w))).

Lemma bf_get_set_bit lo b w : 0 <= lo -> bf_get lo 1 (bf_set lo 1 (bit b) w) = bit b.
Proof. intros. rewrite bf_get_set_eq by lia. by destruct b. Qed.

Lemma pte_word_fields flags addr w : is_u32 addr ->
  present (pte_word flags addr w) = bit (has_flag flags PAGE_PRESENT) /\
  rw (pte_word flags addr w) = bit (has_flag flags PAGE_RW) /\
  usermode (pte_word flags addr w) = bit (has_flag flags PAGE_USERMODE) /\
  frame_of (pte_word flags addr w) = addr - addr mod 4096.
Proof.
  intros Ha. rewrite frame_of_mul.
  unfold pte_word, present, rw, usermode, physical_address, set_present, set_rw, set_usermode, set_physical_address.
  rewrite !(bf_get_set_ne 2 1 0), !(bf_get_set_ne 2 1 1), !(bf_get_set_ne 2 1 12),
    !(bf_get_set_ne 1 1 0), !(bf_get_set_ne 1 1 12), !(bf_get_set_ne 0 1 12) by lia.
  rewrite !bf_get_set_bit by lia. split_and!; [done..|].
  rewrite bf_get_set_eq, Z.land_ones, page_number_div by lia. divs.
Qed.

(** ** Finding the entry *)
Lemma dir_index_range va : is_u32 va -> 0 <= dir_index va < 1024.
Proof. intros. divs. Qed.
Lemma page_range va : is_u32 va -> 0 <= va / 4096 < 1048576.
Proof. intros. divs. Qed.
Lemma page_dir_index va : va / 4096 / 1024 = dir_index va.
Proof. rewrite dir_index_div, Z.div_div by lia. done. Qed.

Lemma get_pte_pointer_0 s va : get_pte_pointer va 0 s = Ret (page_directory + 4 * dir_index va, s).
Proof. done. Qed.

Lemma get_pte_pointer_1 s va : wf_dir s -> is_u32 va ->
  get_pte_pointer va 1 s =
    Ret (if present (pde s (dir_index va)) =? 1 then page_tables + 4 * (va / 4096) else NULL, s).
Proof.
  intros Hwf Hva. unfold get_pte_pointer. simpl. unfold mbind, M_mbind. fold (dir_index va).
  rewrite read_pde by (done || by apply dir_index_range). ostep.
  rewrite page_number_div. by destruct (present _ =? 1).
Qed.

Lemma page_directory_entry_ne i : 0 <= i -> page_directory + 4 * i <> NULL.
Proof. intros. divs. Qed.
Lemma page_tables_entry_ne p : 0 <= p -> page_tables + 4 * p <> NULL.
Proof. intros. divs. Qed.

(** *** Queries *)
Lemma get_pte_type_0 s va : wf_dir s -> is_u32 va ->
  get_pte_type va 0 s = Ret (pte_flags (pde s (dir_index va)), s).
Proof.
  intros Hwf Hva. pose proof (dir_index_range va Hva).
  unfold get_pte_type, mbind, M_mbind. rewrite get_pte_pointer_0. ostep.
  destruct (Z.eqb_spec (page_directory + 4 * dir_index va) NULL) as [E|_].
  { exfalso. revert E. apply page_directory_entry_ne; lia. }
  by rewrite read_pde.
Qed.

Lemma get_pte_type_1 s va : wf_space s -> is_u32 va ->
  get_pte_type va 1 s =
    Ret (if present (pde s (dir_index va)) =? 1 then pte_flags (pte s (va / 4096)) else 0, s).
Proof.
  intros Hwf Hva. pose proof (page_range va Hva).
  unfold get_pte_type, mbind, M_mbind. rewrite get_pte_pointer_1 by (done || by apply wf_space_dir).
  ostep. destruct (Z.eqb_spec (present (pde s (dir_index va))) 1) as [E|_]; [|done].
  destruct (Z.eqb_spec (page_tables + 4 * (va / 4096)) NULL) as [E1|_].
  { exfalso. revert E1. apply page_tables_entry_ne; lia. }
  rewrite read_pte; [done..|]. by rewrite page_dir_index.
Qed.

Lemma get_pte_address_1 s va : wf_space s -> is_u32 va ->
  get_pte_address va 1 s =
    Ret (if present (pde s (dir_index va)) =? 1
         then frame_of (pte s (va / 4096)) + page_offset va else u32 (-1), s).
Proof.
  intros Hwf Hva. pose proof (page_range va Hva).
  unfold get_pte_address, mbind, M_mbind. rewrite get_pte_pointer_1 by (done || by apply wf_space_dir).
  ostep. destruct (Z.eqb_spec (present (pde s (dir_index va))) 1) as [E|_]; [|done].
  destruct (Z.eqb_spec (page_tables + 4 * (va / 4096)) NULL) as [E1|_].
  { exfalso. revert E1. apply page_tables_entry_ne; lia. }
  rewrite read_pte by (done || by rewrite page_dir_index). ostep. f_equal. f_equal.
  fold (page_offset va). by rewrite frame_offset_lor.
Qed.

(** *** Updates *)
Lemma set_pte_slot s va level flags addr e a :
  e <> NULL -> slot s e a ->
  get_pte_pointer va level s = Ret (e, s) ->
  (forall w, get_pte_pointer va level (poke s a w) = Ret (e, poke s a w)) ->
  set_pte va level flags addr s = Ret (0, poke s a (pte_word flags addr (pget (phys s) a))).
Proof.
  intros Hne Hslot Hp Hp'. unfold set_pte, set_pte_address, set_pte_type, mbind, M_mbind.
  apply Z.eqb_neq in Hne. rewrite Hp. ostep. rewrite Hne.
  rewrite (update_slot s e a) by done. ostep. simpl.
  rewrite Hp'. ostep. rewrite Hne.
  rewrite (update_slot _ e a) by (by apply slot_poke). ostep. rewrite poke_poke, pget_poke.
  rewrite (update_slot _ e a) by (by apply slot_poke). ostep. rewrite poke_poke, pget_poke.
  rewrite (update_slot _ e a) by (by apply slot_poke). ostep. rewrite poke_poke, pget_poke.
  done.
Qed.

Lemma set_pte_1 s va flags addr : wf_space s -> is_u32 va -> dir_index va < 1023 -> has_table s va ->
  set_pte va 1 flags addr s =
    Ret (0, poke s (pte_addr s (va / 4096)) (pte_word flags addr (pte s (va / 4096)))).
Proof.
  intros Hwf Hva Hi Ht. unfold has_table in Ht. pose proof (page_range va Hva).
  assert (present (pde s (va / 4096 / 1024)) = 1) by (by rewrite page_dir_index).
  assert (va / 4096 < 1047552) by divs.
  apply (set_pte_slot _ _ _ _ _ (page_tables + 4 * (va / 4096))).
  - apply page_tables_entry_ne. lia.
  - apply slot_pte; done || lia.
  - rewrite get_pte_pointer_1 by (done || by apply wf_space_dir). by rewrite Ht.
  - intros w. rewrite get_pte_pointer_1 by (done || apply wf_space_dir, poke_pte_wf; done || lia).
    rewrite poke_pte_pde by (done || lia || by apply dir_index_range). by rewrite Ht.
Qed.

Lemma set_pte_0 s va flags addr : wf_dir s -> is_u32 va -> dir_index va < 1023 ->
  set_pte va 0 flags addr s =
    Ret (0, poke s (cr3 s + 4 * dir_index va) (pte_word flags addr (pde s (dir_index va)))).
Proof.
  intros Hwf Hva Hi. pose proof (dir_index_range va Hva).
  apply (set_pte_slot _ _ _ _ _ (page_directory + 4 * dir_index va)); [|apply slot_pde; done || lia|done|done].
  apply page_directory_entry_ne; lia.
Qed.

(** ** Wiping a table *)

(** What [wipe_page_table] makes of an entry. *)
Definition wiped (w : Z) : Z := set_physical_address 0 (set_present 0 w).

Lemma wiped_fields w : present (wiped w) = 0 /\ physical_address (wiped w) = 0 /\
  forall lo len, 1 <= lo -> 0 <= len -> lo + len <= 12 -> bf_get lo len (wiped w) = bf_get lo len w.
Proof.
  unfold wiped, present, physical_address, set_present, set_physical_address. split_and!.
  - by rewrite bf_get_set_ne, bf_get_set_eq by lia.
  - by rewrite bf_get_set_eq by lia.
  - intros. by rewrite !bf_get_set_ne by lia.
Qed.

(** [s'] differs from [s] in the table entries [P] at most, where entry [q]
    that was [w] is now [f q w]. *)
Record ptes_updated (P : Z -> Prop) (f : Z -> Z -> Z) (s s' : mmu) : Prop := {
  pu_wf : wf_space s';
  pu_cr3 : cr3 s' = cr3 s;
  pu_pde : forall i, 0 <= i < 1024 -> pde s' i = pde s i;
  pu_in : forall q, 0 <= q < 1048576 -> present (pde s (q / 1024)) = 1 -> P q -> pte s' q = f q (pte s q);
  pu_out : forall q, 0 <= q < 1048576 -> present (pde s (q / 1024)) = 1 -> ~ P q -> pte s' q = pte s q;
  pu_mem : forall a, (forall q, P q -> a <> pte_addr s q) -> pget (phys s') a = pget (phys s) a
}.

Lemma ptes_updated_none (P : Z -> Prop) f s : wf_space s -> (forall q, ~ P q) -> ptes_updated P f s s.
Proof. intros H HP. split; try done. intros q _ _ Hq. by apply HP in Hq. Qed.

Lemma ptes_updated_cons (P : Z -> Prop) f s p s' : wf_space s -> 0 <= p < 1047552 ->
  present (pde s (p / 1024)) = 1 -> ~ P p -> (forall q, P q -> 0 <= q < 1048576) ->
  ptes_updated P f (poke s (pte_addr s p) (f p (pte s p))) s' ->
  ptes_updated (fun q => q = p \/ P q) f s s'.
Proof.
  intros Hwf Hp Ht HP HPr [H1 H2 H3 H4 H5 H6].
  assert (forall q, 0 <= q < 1048576 -> 0 <= q / 1024 < 1024) as Hr.
  { intros. Z.div_mod_to_equations. lia. }
  split; [done|done| | | |].
  - intros i Hi. rewrite H3 by done. by apply poke_pte_pde.
  - intros q Hq Hqt D. specialize (H4 q Hq). specialize (H5 q Hq).
    rewrite poke_pte_pde in H4, H5 by eauto.
    destruct (decide (q = p)) as [->|Hne].
    + rewrite H5 by done. by rewrite poke_pte_pte, decide_True.
    + rewrite H4; [|done|tauto]. by rewrite poke_pte_pte, decide_False.
  - intros q Hq Hqt D. specialize (H5 q Hq). rewrite poke_pte_pde in H5 by eauto.
    rewrite H5; [|done|tauto]. rewrite poke_pte_pte, decide_False; tauto.
  - intros a Ha. rewrite H6.
    + unfold pget, poke. simpl. rewrite lookup_insert_ne; [done|].
      intros E. by apply (Ha p); [left|].
    + intros q Hq. unfold pte_addr at 1. rewrite poke_pte_pde by eauto. apply Ha. by right.
Qed.

Lemma ptes_updated_ext (P Q : Z -> Prop) f s s' : (forall q, P q <-> Q q) ->
  ptes_updated P f s s' -> ptes_updated Q f s s'.
Proof. intros HPQ [H1 H2 H3 H4 H5 H6]. split; auto; intros q; rewrite <- HPQ || setoid_rewrite <- HPQ; auto. Qed.

Lemma wipe_from_spec n base i s : wf_space s -> 0 <= base + i -> base + i + Z.of_nat n <= 1047552 ->
  (forall q, base + i <= q < base + i + Z.of_nat n -> present (pde s (q / 1024)) = 1) ->
  exists s', wipe_from n base i s = Ret (tt, s') /\
    ptes_updated (fun q => base + i <= q < base + i + Z.of_nat n) (fun _ => wiped) s s'.
Proof.
  revert i s. induction n as [|n IH]; intros i s Hwf H0 Hn Ht.
  { eexists. split; [done|]. apply ptes_updated_none; [done|]. lia. }
  cbn [wipe_from]. unfold mbind, M_mbind.
  assert (present (pde s ((base + i) / 1024)) = 1) as Hp by (apply Ht; lia).
  assert (0 <= base + i < 1047552) as Hr by lia.
  pose proof (slot_pte s (base + i) Hwf Hr Hp) as Hs.
  rewrite (update_slot s _ _ _ Hs). ostep.
  rewrite (update_slot _ _ _ _ (slot_poke _ _ _ _ Hs)). ostep. rewrite poke_poke, pget_poke.
  fold (pte s (base + i)). fold (wiped (pte s (base + i))).
  destruct (IH (i + 1) (poke s (pte_addr s (base + i)) (wiped (pte s (base + i)))))
    as (s' & E & Hu); [by apply poke_pte_wf|lia|lia| |].
  { intros q Hq. rewrite poke_pte_pde by (done || Z.div_mod_to_equations; lia). apply Ht. lia. }
  exists s'. split; [done|].
  apply (ptes_updated_cons _ (fun _ => wiped)) in Hu; [|done..|lia|lia].
  revert Hu. apply ptes_updated_ext. lia.
Qed.

#[global] Arguments wipe_from : simpl never.

Lemma pte_flags_present w : has_flag (pte_flags w) PAGE_PRESENT = (present w =? 1).
Proof.
  unfold pte_flags. by destruct (present w =? 1), (rw w =? 1), (usermode w =? 1).
Qed.

Lemma page_base va : is_u32 va ->
  Z.land (Z.shiftr va page_bits) (Z.lnot 0x3FF) = 1024 * dir_index va.
Proof.
  intros. rewrite <- Z.ldiff_land. change 0x3FF with (Z.ones 10).
  rewrite Z.ldiff_ones_r, page_number_div, Z.shiftl_mul_pow2, Z.shiftr_div_pow2 by lia.
  change (2 ^ 10) with 1024. rewrite page_dir_index. lia.
Qed.

Lemma wipe_page_table_present s va : wf_space s -> is_u32 va -> dir_index va < 1023 -> has_table s va ->
  exists s', wipe_page_table va 1 s = Ret (tt, s') /\
    ptes_updated (fun q => q / 1024 = dir_index va) (fun _ => wiped) s s'.
Proof.
  intros Hwf Hva Hi Ht. pose proof (dir_index_range va Hva).
  unfold wipe_page_table. change (1 =? 1) with true. unfold mbind, M_mbind.
  rewrite get_pte_type_0 by (done || by apply wf_space_dir). ostep.
  rewrite pte_flags_present, Ht, page_base by done. change (1 =? 1) with true. cbv iota.
  remember 1024%nat as n eqn:En.
  assert (Z.of_nat n = 1024) as Hn by (by subst n). clear En.
  destruct (wipe_from_spec n (1024 * dir_index va) 0 s) as (s' & E & Hu); [done|lia|lia| |].
  { intros q Hq. replace (q / 1024) with (dir_index va); [done|]. Z.div_mod_to_equations. lia. }
  exists s'. split; [done|]. revert Hu. apply ptes_updated_ext.
  intros q. Z.div_mod_to_equations. lia.
Qed.

(** ** A new top-level table *)
Lemma zero_from_spec n i s : wf_space s -> present (pde s 0) = 1 ->
  0 <= i -> i + Z.of_nat n <= 1024 ->
  exists s', zero_from n i s = Ret (tt, s') /\
    ptes_updated (fun q => i <= q < i + Z.of_nat n) (fun _ _ => 0) s s'.
Proof.
  revert i s. induction n as [|n IH]; intros i s Hwf Hp H0 Hn.
  { eexists. split; [done|]. apply ptes_updated_none; [done|]. lia. }
  cbn [zero_from]. unfold mbind, M_mbind.
  assert (present (pde s (i / 1024)) = 1) as Ht by (by rewrite Z.div_small by lia).
  assert (0 <= i < 1047552) as Hr by lia.
  rewrite (write_slot s _ _ _ (slot_pte s i Hwf Hr Ht)). ostep.
  destruct (IH (i + 1) (poke s (pte_addr s i) 0)) as (s' & E & Hu);
    [by apply poke_pte_wf|by rewrite poke_pte_pde by (done || lia)|lia|lia|].
  exists s'. split; [done|].
  apply (ptes_updated_cons _ (fun _ _ => 0)) in Hu; [|done..|lia|lia].
  revert Hu. apply ptes_updated_ext. lia.
Qed.

Lemma copy_entries_spec n i s g : wf_space s -> present (pde s 0) = 1 ->
  0 <= i -> i + Z.of_nat n <= 1024 -> (forall j, 0 <= j < 1024 -> pde s j = g j) ->
  exists s', copy_entries n i s = Ret (tt, s') /\
    ptes_updated (fun q => i <= q < i + Z.of_nat n) (fun q _ => g q) s s'.
Proof.
  revert i s. induction n as [|n IH]; intros i s Hwf Hp H0 Hn Hg.
  { eexists. split; [done|]. apply ptes_updated_none; [done|]. lia. }
  cbn [copy_entries]. unfold mbind, M_mbind.
  assert (present (pde s (i / 1024)) = 1) as Ht by (by rewrite Z.div_small by lia).
  assert (0 <= i < 1047552) as Hr by lia.
  rewrite read_pde by (lia || by apply wf_space_dir). ostep.
  rewrite (write_slot s _ _ _ (slot_pte s i Hwf Hr Ht)). ostep. rewrite Hg by lia.
  destruct (IH (i + 1) (poke s (pte_addr s i) (g i))) as (s' & E & Hu);
    [by apply poke_pte_wf|by rewrite poke_pte_pde by (done || lia)|lia|lia| |].
  { intros j Hj. rewrite poke_pte_pde by (done || lia). auto. }
  exists s'. split; [done|].
  apply (ptes_updated_cons _ (fun q _ => g q)) in Hu; [|done..|lia|lia].
  revert Hu. apply ptes_updated_ext. lia.
Qed.

#[global] Arguments zero_from : simpl never.
#[global] Arguments copy_entries : simpl never.

(** Installing a directory entry: its table must be writable and new. *)
Lemma poke_pde_wf s i w : wf_space s -> 0 <= i < 1023 ->
  (present w = 1 -> rw w = 1 /\
    forall j, 0 <= j < 1024 -> j <> i -> present (pde s j) = 1 -> frame_of (pde s j) <> frame_of w) ->
  wf_space (poke s (cr3 s + 4 * i) w).
Proof.
  intros [H1 H2 H3 H4] Hi Hw. split; [done| | |].
  - rewrite poke_pde_pde, decide_False by lia. done.
  - intros j Hj. rewrite poke_pde_pde. case_decide; [by intros; apply Hw|by apply H3].
  - intros j k Hj Hk. rewrite !poke_pde_pde. repeat case_decide; subst; try done; [..|by apply H4].
    + intros Hp Hp' E. exfalso. by apply (proj2 (Hw Hp) k Hk).
    + intros Hp Hp' E. exfalso. apply (proj2 (Hw Hp') j Hj); [done..].
Qed.

Lemma set_physical_address_fields addr w : is_u32 addr -> addr mod 4096 = 0 ->
  present (set_physical_address (Z.shiftr addr page_bits) w) = present w /\
  rw (set_physical_address (Z.shiftr addr page_bits) w) = rw w /\
  frame_of (set_physical_address (Z.shiftr addr page_bits) w) = addr.
Proof.
  intros Ha Hm. rewrite frame_of_mul. unfold present, rw, physical_address, set_physical_address.
  rewrite !(bf_get_set_ne 12) by lia. split_and!; [done..|].
  rewrite bf_get_set_eq, Z.land_ones, page_number_div by lia. divs.
Qed.

(** The last entry of the new directory. *)
Definition self_word (table : Z) : Z :=
  set_rw 1 (set_present 1 (set_physical_address (Z.shiftr table page_bits) 0)).

Lemma self_word_fields table : is_u32 table -> table mod 4096 = 0 ->
  present (self_word table) = 1 /\ rw (self_word table) = 1 /\ frame_of (self_word table) = table.
Proof.
  intros Ha Hm. rewrite frame_of_mul.
  unfold self_word, present, rw, physical_address, set_present, set_rw, set_physical_address.
  rewrite !(bf_get_set_ne 1 1 0), !(bf_get_set_ne 1 1 12), !(bf_get_set_ne 0 1 12) by lia.
  rewrite !bf_get_set_eq by lia. split_and!; [done..|].
  rewrite Z.land_ones, page_number_div by lia. divs.
Qed.

(** What [paging_init_top_table] may be given. *)
Record fresh_table (s : mmu) (table : Z) : Prop := {
  ft_u32 : is_u32 table;
  ft_aligned : table mod 4096 = 0;
  ft_new : forall i, 0 <= i < 1024 -> present (pde s i) = 1 -> frame_of (pde s i) <> table
}.

Section top_table.
Context (kernel_start table : Z) (s : mmu).
Context (Hwf : wf_space s) (Hfresh : fresh_table s table) (H0 : present (pde s 0) = 1).
Let k := Z.shiftr kernel_start 22.
Context (Hk : 1 <= k <= 1023).

Let s1 := poke s (cr3 s + 4 * 0) (set_physical_address (Z.shiftr table page_bits) (pde s 0)).

Lemma top_table_window :
  wf_space s1 /\ present (pde s1 0) = 1 /\ frame_of (pde s1 0) = table /\
  forall i, i <> 0 -> pde s1 i = pde s i.
Proof.
  destruct Hfresh as [Hu Hm Hn].
  destruct (set_physical_address_fields table (pde s 0) Hu Hm) as (E1 & E2 & E3).
  split_and!.
  - apply poke_pde_wf; [done|lia|]. rewrite E1, E2, E3. intros _. split; [|auto].
    apply (wf_writable s Hwf); [lia|done].
  - unfold s1. rewrite poke_pde_pde, decide_True by done. by rewrite E1.
  - unfold s1. by rewrite poke_pde_pde, decide_True by done.
  - intros i Hi. unfold s1. rewrite poke_pde_pde, decide_False by done. done.
Qed.

(** The new table's word [i] after the stores. *)
Definition top_word (i : Z) : Z :=
  if i =? 1023 then self_word table else if i <? k then 0 else pde s i.

Lemma table_0_addr t q : pde t 0 = pde s1 0 -> 0 <= q < 1024 -> pte_addr t q = table + 4 * q.
Proof.
  intros E Hq. unfold pte_addr. rewrite Z.div_small, Z.mod_small, E by lia.
  f_equal. apply top_table_window.
Qed.

(** Clearing the new table and copying the kernel's entries into it. *)
Lemma top_table_fill : exists s2 s3,
  zero_from 1024 0 s1 = Ret (tt, s2) /\
  copy_entries (Z.to_nat (1023 - k)) k s2 = Ret (tt, s3) /\
  wf_space s3 /\ cr3 s3 = cr3 s /\
  (forall i, 0 <= i < 1024 -> pde s3 i = pde s1 i) /\
  (forall i, 0 <= i < 1023 -> pte s3 i = top_word i) /\ pte s3 1023 = 0 /\
  (forall a, a < table \/ table + 4096 <= a -> pget (phys s3) a = pget (phys s1) a).
Proof.
  destruct top_table_window as (W1 & W2 & W3 & W4).
  remember 1024%nat as n eqn:En. assert (Z.of_nat n = 1024) as Hn by (by subst n). clear En.
  destruct (zero_from_spec n 0 s1 W1 W2) as (s2 & E2 & [Z1 Z2 Z3 Z4 Z5 Z6]); [lia..|].
  assert (present (pde s2 0) = 1) as P2 by (by rewrite Z3 by lia).
  destruct (copy_entries_spec (Z.to_nat (1023 - k)) k s2 (pde s1) Z1 P2)
    as (s3 & E3 & [C1 C2 C3 C4 C5 C6]); [lia|lia|done|].
  assert (forall q, 0 <= q < 1024 -> present (pde s1 (q / 1024)) = 1) as T1.
  { intros q Hq. by rewrite Z.div_small by lia. }
  assert (forall q, 0 <= q < 1024 -> present (pde s2 (q / 1024)) = 1) as T2.
  { intros q Hq. by rewrite Z.div_small by lia. }
  exists s2, s3. split_and!; try done.
  - rewrite C2, Z2. done.
  - intros i Hi. by rewrite C3, Z3.
  - intros i Hi. unfold top_word. rewrite (proj2 (Z.eqb_neq i 1023)) by lia.
    destruct (Z.ltb_spec i k).
    + rewrite C5 by (lia || auto with lia). apply Z4; auto with lia.
    + rewrite C4 by (lia || auto with lia). apply W4. lia.
  - rewrite C5 by (lia || auto with lia). apply Z4; auto with lia.
  - intros a Ha. rewrite C6, Z6; [done|..]; intros q Hq; rewrite table_0_addr by (lia || auto with lia); lia.
Qed.

(** Table 0 of the temporary directory is not the directory. *)
Lemma table_ne_directory i : 0 <= i < 1024 -> table + 4 * i <> cr3 s.
Proof.
  intros Hi E. destruct Hfresh as [Hu Hm Hn]. destruct (wf_self s Hwf) as [P F].
  apply (Hn 1023); [lia|done|]. rewrite F. destruct (wf_root s Hwf).
  Z.div_mod_to_equations. lia.
Qed.

Context (s3 : mmu) (Hw3 : wf_space s3) (Hd3 : forall i, 0 <= i < 1024 -> pde s3 i = pde s1 i).
Let s4 := poke s3 (pte_addr s3 1023) (self_word table).
Let s5 := poke s4 (cr3 s + 4 * 0) (pde s 0).

Lemma top_table_words : (forall i, 0 <= i < 1023 -> pte s3 i = top_word i) ->
  forall i, 0 <= i < 1024 -> pget (phys s5) (table + 4 * i) = top_word i.
Proof.
  intros Ht i Hi. pose proof (table_ne_directory i Hi).
  unfold s5, poke, pget. simpl. rewrite lookup_insert_ne by lia.
  rewrite (table_0_addr s3) by (lia || auto with lia).
  destruct (decide (i = 1023)) as [->|].
  - by rewrite lookup_insert_eq.
  - rewrite lookup_insert_ne by lia. rewrite <- Ht by lia. unfold pte.
    by rewrite table_0_addr by (lia || auto with lia).
Qed.

Lemma top_table_others a :
  (forall a, a < table \/ table + 4096 <= a -> pget (phys s3) a = pget (phys s1) a) ->
  a < table \/ table + 4096 <= a -> pget (phys s5) a = pget (phys s) a.
Proof.
  intros Hm Ha. unfold s5, poke, pget. simpl.
  destruct (decide (a = cr3 s + 4 * 0)) as [->|Hne].
  - by rewrite lookup_insert_eq.
  - rewrite lookup_insert_ne by done.
    rewrite (table_0_addr s3) by (lia || auto with lia). rewrite lookup_insert_ne by lia.
    etrans; [by apply Hm|]. unfold s1, poke, pget. simpl. by rewrite lookup_insert_ne.
Qed.
End top_table.

Section top_table_result.
Context (kernel_start table : Z) (s : mmu).
Context (Hwf : wf_space s) (Hfresh : fresh_table s table) (H0 : present (pde s 0) = 1).
Let k := Z.shiftr kernel_start 22.
Context (Hk : 1 <= k <= 1023).
Let s1 := poke s (cr3 s + 4 * 0) (set_physical_address (Z.shiftr table page_bits) (pde s 0)).
Let top_word := top_word kernel_start table s.

Lemma top_table_run : exists s', paging_init_top_table kernel_start table s = Ret (0, s') /\
  cr3 s' = cr3 s /\ (forall i, 0 <= i < 1024 -> pde s' i = pde s i) /\
  (forall i, 0 <= i < 1024 -> pget (phys s') (table + 4 * i) = top_word i) /\
  (forall a, a < table \/ table + 4096 <= a -> pget (phys s') a = pget (phys s) a).
Proof.
  destruct (top_table_window kernel_start table s) as (W1 & W2 & W3 & W4); [done..|].
  destruct (top_table_fill kernel_start table s) as (s2 & s3 & E2 & E3 & Hw3 & Hc3 & Hd3 & Ht3 & Hl3 & Hm3); [done..|].
  assert (present (pde s3 (1023 / 1024)) = 1) as P3 by (change (1023 / 1024) with 0; by rewrite Hd3 by lia).
  pose proof (slot_pte s3 1023 Hw3 ltac:(lia) P3) as Hs.
  unfold paging_init_top_table, mbind, M_mbind.
  rewrite read_pde by (lia || by apply wf_space_dir). ostep.
  rewrite (update_slot _ _ _ _ (slot_pde s 0 (wf_space_dir s Hwf) ltac:(lia))). ostep. fold (pde s 0). fold s1.
  fold s1 in E2. rewrite E2. ostep. rewrite E3. ostep.
  rewrite (update_slot _ _ _ _ Hs). ostep.
  rewrite (update_slot _ _ _ _ (slot_poke _ _ _ _ Hs)). ostep. rewrite poke_poke, pget_poke.
  rewrite (update_slot _ _ _ _ (slot_poke _ _ _ _ Hs)). ostep. rewrite poke_poke, pget_poke.
  fold (pte s3 1023). rewrite Hl3. fold (self_word table).
  set (s4 := poke s3 (pte_addr s3 1023) (self_word table)).
  assert (wf_space s4) as Hw4 by (by apply poke_pte_wf).
  rewrite (write_slot s4 _ _ _ (slot_pde s4 0 (wf_space_dir s4 Hw4) ltac:(lia))). ostep.
  eexists. split; [done|].
  assert (cr3 s4 = cr3 s) as Hc4 by done.
  assert (forall i, 0 <= i < 1024 -> pde s4 i = pde s1 i) as Hd4.
  { intros i Hi. rewrite <- Hd3 by done. by apply poke_pte_pde. }
  split_and!; [done| | |].
  - intros i Hi. rewrite poke_pde_pde, Hd4 by done. case_decide; subst; [done|]. by apply W4.
  - intros i Hi. rewrite Hc4. by apply (top_table_words kernel_start table s).
  - intros a Ha. rewrite Hc4. by apply (top_table_others kernel_start table s).
Qed.
End top_table_result.

(** A small address space for concrete runs: the directory at 0x1000, the
    table of the low 4 MiB at 0x2000, a kernel table at 0x3000. *)
Definition demo_mmu : mmu :=
  poke (poke (poke (Mmu ∅ 0x1000) (0x1000 + 4 * 1023) 0x1003) (0x1000 + 4 * 1021) 0x3003)
    (0x1000 + 4 * 0) 0x2003.

Lemma demo_pde i : pde demo_mmu i =
  if decide (i = 0) then 0x2003 else if decide (i = 1021) then 0x3003
  else if decide (i = 1023) then 0x1003 else 0.
Proof.
  unfold pde, demo_mmu, poke, pget. cbn [phys cr3].
  repeat case_decide; subst; try reflexivity.
  rewrite !lookup_insert_ne by lia. done.
Qed.

Lemma demo_wf : wf_space demo_mmu.
Proof.
  split; [by split|by rewrite demo_pde|..].
  - intros i _. rewrite demo_pde. by repeat case_decide.
  - intros i j _ _. rewrite !demo_pde. repeat case_decide; subst; try done.
Qed.

Lemma demo_fresh table : 0x4000 <= table < 2 ^ 32 -> table mod 4096 = 0 -> fresh_table demo_mmu table.
Proof.
  intros Ht Hm. split; [unfold is_u32; lia|done|]. intros i _. rewrite demo_pde.
  repeat case_decide; intros Hp; vm_compute in Hp; try lia; vm_compute (frame_of _); lia.
Qed.

(** ** The update lemmas the memory manager uses *)
Definition frame_base (addr : Z) : Z := addr - addr mod 4096.

Lemma pte_word_allows flags addr w write : is_u32 addr ->
  allows write (pte_word flags addr w) =
    has_flag flags PAGE_PRESENT && (negb write || has_flag flags PAGE_RW).
Proof.
  intros Ha. destruct (pte_word_fields flags addr w Ha) as (E1 & E2 & _ & _).
  unfold allows. rewrite E1, E2. by destruct (has_flag _ _), (has_flag _ _), write.
Qed.

(** A last-level entry replaced by [set_pte]. *)
Lemma poke_pte_word_translate va flags addr s :
  wf_space s -> is_u32 va -> dir_index va < 1023 -> has_table s va -> is_u32 addr ->
  let s' := poke s (pte_addr s (va / 4096)) (pte_word flags addr (pte s (va / 4096))) in
  wf_space s' /\ (forall i, 0 <= i < 1024 -> pde s' i = pde s i) /\
  (forall write, translate s' write va =
    if has_flag flags PAGE_PRESENT && (negb write || has_flag flags PAGE_RW)
    then Some (frame_base addr + page_offset va) else None) /\
  (forall va' write, is_u32 va' -> va' / 4096 <> va / 4096 ->
    translate s' write va' = translate s write va').
Proof.
  intros Hwf Hva Hi Ht Ha. pose proof (page_range va Hva). pose proof (dir_index_range va Hva).
  assert (0 <= va / 4096 < 1047552) as Hr by divs.
  assert (present (pde s (va / 4096 / 1024)) = 1) as Hp by (by rewrite page_dir_index).
  split; [by apply poke_pte_wf|]. split; [intros; by apply poke_pte_pde|]. split.
  - intros write. rewrite translate_eq, poke_pte_pde by done.
    rewrite (allows_pde s Hwf) by done. rewrite poke_pte_pte, decide_True by done.
    rewrite pte_word_allows by done.
    destruct (pte_word_fields flags addr (pte s (va / 4096)) Ha) as (_ & _ & _ & ->). done.
  - intros va' write Hva' Hne. by apply poke_pte_translate.
Qed.

(** A directory entry replaced: the other tables' pages do not move. *)
Lemma poke_pde_translate s i w va write :
  wf_space s -> 0 <= i < 1024 -> is_u32 va -> dir_index va <> i -> dir_index va < 1023 ->
  translate (poke s (cr3 s + 4 * i) w) write va = translate s write va.
Proof.
  intros Hwf Hi Hva Hne Hlt. rewrite !translate_eq, poke_pde_pde, decide_False by done.
  destruct (allows write (pde s (dir_index va))) eqn:Ea; [|done].
  apply andb_true_iff in Ea as [Ea _]. apply Z.eqb_eq in Ea.
  assert (pte (poke s (cr3 s + 4 * i) w) (va / 4096) = pte s (va / 4096)) as ->; [|done].
  unfold pte, pte_addr. rewrite page_dir_index, poke_pde_pde, decide_False by done.
  unfold pget, poke. simpl. rewrite lookup_insert_ne; [done|].
  rewrite <- (page_dir_index va). fold (pte_addr s (va / 4096)). intros E. symmetry in E. revert E.
  apply pte_addr_ne_pde; [done|divs|done|by rewrite page_dir_index].
Qed.

(** A table after [wipe_page_table]. *)
Lemma wiped_translate s s' d :
  0 <= d < 1023 -> present (pde s d) = 1 ->
  ptes_updated (fun q => q / 1024 = d) (fun _ => wiped) s s' ->
  (forall va' write, is_u32 va' -> dir_index va' = d -> translate s' write va' = None) /\
  (forall va' write, is_u32 va' -> dir_index va' <> d ->
    translate s' write va' = translate s write va') /\
  (forall q, q / 1024 = d -> pte s' q = wiped (pte s q)).
Proof.
  intros Hd Hp [U1 U2 U3 U4 U5 U6].
  assert (forall q, q / 1024 = d -> pte s' q = wiped (pte s q)) as Hq.
  { intros q Hq. apply U4; [|by rewrite Hq|done]. Z.div_mod_to_equations. lia. }
  split_and!; [..|done].
  - intros va' write Hva' E. rewrite translate_eq, Hq by (by rewrite page_dir_index).
    destruct (allows write (pde _ _)); [|done].
    unfold allows. by rewrite (proj1 (wiped_fields _)).
  - intros va' write Hva' E. pose proof (dir_index_range va' Hva').
    rewrite !translate_eq, U3 by done. destruct (allows write (pde s _)) eqn:Ea; [|done].
    rewrite U5; [done|by apply page_range|rewrite page_dir_index|by rewrite page_dir_index].
    apply andb_true_iff in Ea as [Ea _]. lia.
Qed.

(** * Properties *)

(** C11: [set_pte] on the last level makes the processor translate the page to
    the given frame with the given rights, and changes the translation of no
    other page; the address space stays well formed. *)
Theorem set_pte_maps va flags addr s :
  wf_space s -> is_u32 va -> dir_index va < 1023 -> has_table s va -> is_u32 addr ->
  exists s', set_pte va 1 flags addr s = Ret (0, s') /\ wf_space s' /\
    (forall write, translate s' write va =
      if has_flag flags PAGE_PRESENT && (negb write || has_flag flags PAGE_RW)
      then Some (frame_base addr + page_offset va) else None) /\
    (forall va' write, is_u32 va' -> va' / 4096 <> va / 4096 ->
      translate s' write va' = translate s write va').
Proof.
  intros Hwf Hva Hi Ht Ha. eexists. split; [by apply set_pte_1|].
  destruct (poke_pte_word_translate va flags addr s) as (H1 & _ & H2 & H3); done.
Qed.

Lemma set_pte_maps_witness :
  exists s', set_pte 0x5123 1 (Z.lor PAGE_PRESENT PAGE_RW) 0x7000 demo_mmu = Ret (0, s') /\ wf_space s' /\
    (forall write, translate s' write 0x5123 = Some 0x7123) /\
    (forall va' write, is_u32 va' -> va' / 4096 <> 0x5123 / 4096 ->
      translate s' write va' = translate demo_mmu write va').
Proof.
  destruct (set_pte_maps 0x5123 (Z.lor PAGE_PRESENT PAGE_RW) 0x7000 demo_mmu)
    as (s' & H1 & H2 & H3 & H4); [exact demo_wf|by split|done|reflexivity|by split|].
  exists s'. split; [exact H1|]. split; [exact H2|]. split; [|exact H4].
  intros [|]; exact (H3 _).
Defined.

(** What [set_pte] stores, [get_pte_type] and [get_pte_address] read back:
    the flags (a present page is reported executable) and the frame with the
    page's offset. *)
Theorem set_pte_get_pte va flags addr s :
  wf_space s -> is_u32 va -> dir_index va < 1023 -> has_table s va -> is_u32 addr ->
  exists s', set_pte va 1 flags addr s = Ret (0, s') /\
    get_pte_address va 1 s' = Ret (frame_base addr + page_offset va, s') /\
    get_pte_type va 1 s' = Ret (
      Z.lor (Z.lor (if has_flag flags PAGE_PRESENT then Z.lor PAGE_PRESENT PAGE_EXECUTABLE else 0)
                   (if has_flag flags PAGE_RW then PAGE_RW else 0))
            (if has_flag flags PAGE_USERMODE then PAGE_USERMODE else 0), s').
Proof.
  intros Hwf Hva Hi Ht Ha. pose proof (page_range va Hva). pose proof (dir_index_range va Hva).
  assert (0 <= va / 4096 < 1047552) as Hr by divs.
  assert (present (pde s (va / 4096 / 1024)) = 1) as Hp by (by rewrite page_dir_index).
  eexists. split; [by apply set_pte_1|].
  destruct (pte_word_fields flags addr (pte s (va / 4096)) Ha) as (E1 & E2 & E3 & E4).
  rewrite get_pte_address_1, get_pte_type_1 by (done || by apply poke_pte_wf).
  rewrite !poke_pte_pde by done. rewrite Ht. simpl.
  rewrite !poke_pte_pte, !decide_True by done. rewrite E4. split; [done|].
  unfold pte_flags. rewrite E1, E2, E3.
  by destruct (has_flag _ PAGE_PRESENT), (has_flag _ PAGE_RW), (has_flag _ PAGE_USERMODE).
Qed.

Lemma set_pte_get_pte_witness :
  exists s', set_pte 0x5123 1 (Z.lor PAGE_PRESENT PAGE_USERMODE) 0x7000 demo_mmu = Ret (0, s') /\
    get_pte_address 0x5123 1 s' = Ret (0x7123, s') /\
    get_pte_type 0x5123 1 s' = Ret (Z.lor PAGE_PRESENT (Z.lor PAGE_EXECUTABLE PAGE_USERMODE), s').
Proof.
  apply (set_pte_get_pte 0x5123 (Z.lor PAGE_PRESENT PAGE_USERMODE) 0x7000 demo_mmu);
    [exact demo_wf|by split|done|reflexivity|by split].
Defined.

(** Without a page table for the page, the last-level accessors fail
    cleanly: the setters return -1 and change nothing, the type is 0 and the
    address is all ones. *)
Theorem no_table_errors va flags addr s :
  wf_space s -> is_u32 va -> present (pde s (dir_index va)) = 0 ->
  set_pte va 1 flags addr s = Ret (-1, s) /\ set_pte_type va 1 flags s = Ret (-1, s) /\
  set_pte_address va 1 addr s = Ret (-1, s) /\
  get_pte_type va 1 s = Ret (0, s) /\ get_pte_address va 1 s = Ret (0xFFFFFFFF, s).
Proof.
  intros Hwf Hva Ht.
  rewrite get_pte_type_1, get_pte_address_1 by done. rewrite Ht.
  unfold set_pte, set_pte_type, set_pte_address, mbind, M_mbind.
  rewrite get_pte_pointer_1 by (done || by apply wf_space_dir). by rewrite Ht.
Qed.

Lemma no_table_errors_witness :
  set_pte 0x40000000 1 PAGE_PRESENT 0x7000 demo_mmu = Ret (-1, demo_mmu).
Proof. apply (no_table_errors 0x40000000 PAGE_PRESENT 0x7000 demo_mmu demo_wf); [by split|reflexivity]. Defined.

(** [wipe_page_table] unmaps every page of the table and no other page,
    and keeps the address space well formed.  Bits 1 to 11 of the entries
    survive: their rights and flags are not reset. *)
Theorem wipe_page_table_spec va s :
  wf_space s -> is_u32 va -> dir_index va < 1023 -> has_table s va ->
  exists s', wipe_page_table va 1 s = Ret (tt, s') /\ wf_space s' /\
    (forall va' write, is_u32 va' -> dir_index va' = dir_index va -> translate s' write va' = None) /\
    (forall va' write, is_u32 va' -> dir_index va' <> dir_index va ->
      translate s' write va' = translate s write va') /\
    (forall q lo len, q / 1024 = dir_index va -> 1 <= lo -> 0 <= len -> lo + len <= 12 ->
      bf_get lo len (pte s' q) = bf_get lo len (pte s q)).
Proof.
  intros Hwf Hva Hi Ht. unfold has_table in Ht. pose proof (dir_index_range va Hva).
  destruct (wipe_page_table_present s va Hwf Hva Hi Ht) as (s' & E & U).
  destruct (wiped_translate s s' (dir_index va)) as (H1 & H2 & H3); [lia|done|done|].
  exists s'. split_and!; [done|apply U|done|done|].
  intros q lo len Hd Hlo Hlen Hle. rewrite H3 by done. by apply wiped_fields.
Qed.

Lemma wipe_page_table_spec_witness :
  exists s', wipe_page_table 0x5000 1 demo_mmu = Ret (tt, s') /\ wf_space s' /\
    translate s' false 0x7123 = None.
Proof.
  destruct (wipe_page_table_spec 0x5000 demo_mmu) as (s' & H1 & H2 & H3 & _);
    [exact demo_wf|by split|done|reflexivity|].
  exists s'. split; [exact H1|]. split; [exact H2|]. apply H3; [by split|reflexivity].
Defined.

(** The address space a load of [table] switches to. *)
Definition loaded (s : mmu) (table : Z) : mmu := Mmu (phys s) table.

Section new_space.
Context (kernel_start table : Z) (s s' : mmu).
Context (Hwf : wf_space s) (Hfresh : fresh_table s table).
Let k := Z.shiftr kernel_start 22.
Context (Hk : 1 <= k <= 1023).
Context (Hw : forall i, 0 <= i < 1024 -> pget (phys s') (table + 4 * i) = top_word kernel_start table s i).
Context (Hm : forall a, a < table \/ table + 4096 <= a -> pget (phys s') a = pget (phys s) a).

Lemma new_pde i : 0 <= i < 1024 -> pde (loaded s' table) i = top_word kernel_start table s i.
Proof. apply Hw. Qed.

Lemma top_word_present i : 0 <= i < 1024 -> present (top_word kernel_start table s i) = 1 ->
  i = 1023 \/ (k <= i < 1023 /\ present (pde s i) = 1).
Proof.
  intros Hi. unfold top_word. fold k. destruct (Z.eqb_spec i 1023); [by left|].
  destruct (Z.ltb_spec i k); [done|]. intros. right. split; [lia|done].
Qed.

Lemma top_word_copied i : k <= i < 1023 -> top_word kernel_start table s i = pde s i.
Proof.
  intros Hi. unfold top_word. fold k. by rewrite (proj2 (Z.eqb_neq i 1023)), (proj2 (Z.ltb_ge i k)) by lia.
Qed.

Lemma top_word_last : top_word kernel_start table s 1023 = self_word table.
Proof. done. Qed.

Lemma new_space_wf : wf_space (loaded s' table).
Proof.
  destruct Hfresh as [Fu Fa Fn]. destruct (self_word_fields table Fu Fa) as (S1 & S2 & S3).
  split; [done|by rewrite new_pde, top_word_last|..].
  - intros i Hi. rewrite new_pde by done. intros Hp.
    apply top_word_present in Hp as Hp'; [|done].
    destruct Hp' as [->|[Hr Hp']]; [done|]. rewrite top_word_copied by done.
    by apply (wf_writable s Hwf).
  - intros i j Hi Hj. rewrite !new_pde by done. intros Hpi Hpj.
    destruct (top_word_present i Hi Hpi) as [->|[Hri Hpi']], (top_word_present j Hj Hpj) as [->|[Hrj Hpj']];
      [done|..];
      rewrite ?top_word_last, ?top_word_copied, ?S3 by done; intros E.
    + exfalso. by apply (Fn j).
    + exfalso. by apply (Fn i).
    + by apply (wf_distinct s Hwf).
Qed.

(** The kernel's tables are shared, so its translations carry over. *)
Lemma new_space_kernel va write : k <= dir_index va < 1023 ->
  translate (loaded s' table) write va = translate s write va.
Proof.
  intros Hva. rewrite !translate_eq, new_pde, top_word_copied by lia.
  destruct (allows write (pde s (dir_index va))) eqn:Ea; [|done].
  apply andb_true_iff in Ea as [Ea _]. apply Z.eqb_eq in Ea.
  assert (pte (loaded s' table) (va / 4096) = pte s (va / 4096)) as ->; [|done].
  unfold pte, pte_addr. rewrite page_dir_index, new_pde, top_word_copied by lia.
  simpl. apply Hm. destruct Hfresh as [Fu Fa Fn].
  assert (frame_of (pde s (dir_index va)) <> table) by (apply Fn; [lia|done]).
  pose proof (frame_of_range (pde s (dir_index va))).
  Z.div_mod_to_equations. lia.
Qed.

Lemma new_space_user va write : 0 <= dir_index va < k -> translate (loaded s' table) write va = None.
Proof.
  intros Hva. rewrite translate_eq, new_pde by lia. unfold top_word. fold k.
  by rewrite (proj2 (Z.eqb_neq _ 1023)), (proj2 (Z.ltb_lt _ k)) by lia.
Qed.
End new_space.

Lemma entry_0_fault kernel_start table s :
  wf_space s -> present (pde s 0) = 0 -> fresh_table s table ->
  paging_init_top_table kernel_start table s = Fault.
Proof.
  intros Hwf Hp [Fu Fa Fn]. unfold paging_init_top_table, mbind, M_mbind.
  rewrite read_pde by (lia || by apply wf_space_dir). ostep.
  rewrite (update_slot _ _ _ _ (slot_pde s 0 (wf_space_dir s Hwf) ltac:(lia))). ostep. fold (pde s 0).
  destruct (set_physical_address_fields table (pde s 0) Fu Fa) as (E1 & _ & _).
  set (s1 := poke _ _ _).
  assert (wf_dir s1) as W by (apply poke_pde_dir; [by apply wf_space_dir|done]).
  assert (translate s1 true (page_tables + 4 * 0) = None) as E.
  { rewrite translate_eq. change (dir_index (page_tables + 4 * 0)) with 1023.
    rewrite (dir_allows s1 W).
    change ((page_tables + 4 * 0) / 4096) with (1024 * 1023 + 0). rewrite pte_window by (done || lia).
    unfold s1. rewrite poke_pde_pde, decide_True by done. unfold allows. by rewrite E1, Hp. }
  assert (zero_from 1024 0 s1 = Fault) as ->; [|done].
  change (zero_from 1024 0 s1) with
    ((write32 (page_tables + 4 * 0) 0 ≫= fun _ => zero_from 1023 (0 + 1)) s1).
  unfold mbind, M_mbind, write32. by rewrite E.
Qed.

(** [paging_init_top_table] turns a fresh frame into an address space
    that shares the kernel's mappings, maps nothing below them and maps
    itself in its last entry.  The current address space keeps its directory
    and no memory outside the frame changes. *)
Theorem paging_init_top_table_spec kernel_start table s :
  wf_space s -> fresh_table s table -> has_table s 0 ->
  1 <= Z.shiftr kernel_start 22 <= 1023 ->
  exists s', paging_init_top_table kernel_start table s = Ret (0, s') /\
    cr3 s' = cr3 s /\
    (forall a, a < table \/ table + 4096 <= a -> pget (phys s') a = pget (phys s) a) /\
    wf_space (loaded s' table) /\
    (forall va write, Z.shiftr kernel_start 22 <= dir_index va < 1023 ->
      translate (loaded s' table) write va = translate s write va) /\
    (forall va write, 0 <= dir_index va < Z.shiftr kernel_start 22 ->
      translate (loaded s' table) write va = None).
Proof.
  intros Hwf Hf H0 Hk.
  destruct (top_table_run kernel_start table s Hwf Hf H0 Hk) as (s' & E & Hc & Hd & Hw & Hm).
  exists s'. split_and!; [done..| | |].
  - by apply (new_space_wf kernel_start table s).
  - intros. by apply (new_space_kernel kernel_start).
  - intros. by apply (new_space_user kernel_start table s).
Qed.

Lemma paging_init_top_table_spec_witness :
  exists s', paging_init_top_table 0xFF400000 0x9000 demo_mmu = Ret (0, s') /\
    wf_space (loaded s' 0x9000) /\
    translate (loaded s' 0x9000) false 0xFF400123 = translate demo_mmu false 0xFF400123.
Proof.
  destruct (paging_init_top_table_spec 0xFF400000 0x9000 demo_mmu) as (s' & H1 & _ & _ & H2 & H3 & _);
    [exact demo_wf|by apply demo_fresh|reflexivity|by split|].
  exists s'. split; [exact H1|]. split; [exact H2|]. apply H3. by split.
Defined.

(** The routine borrows directory entry 0 for the new table and sets only
    its frame, not its present bit: in an address space whose first 4 MiB
    have no page table, it page-faults in the kernel. *)
Theorem paging_init_top_table_needs_entry_0 kernel_start table s :
  wf_space s -> present (pde s 0) = 0 -> fresh_table s table ->
  paging_init_top_table kernel_start table s = Fault.
Proof. apply entry_0_fault. Qed.

Lemma paging_init_top_table_needs_entry_0_witness :
  let s := poke demo_mmu (0x1000 + 4 * 0) 0 in
  wf_space s /\ paging_init_top_table 0xFF400000 0x9000 s = Fault.
Proof.
  assert (wf_space (poke demo_mmu (0x1000 + 4 * 0) 0)) as W.
  { apply (poke_pde_wf demo_mmu 0 0 demo_wf); [lia|done]. }
  split; [exact W|].
  apply paging_init_top_table_needs_entry_0; [exact W|reflexivity|].
  destruct (demo_fresh 0x9000) as [F1 F2 F3]; [lia|done|].
  split; [exact F1|exact F2|]. intros i Hi.
  change 0x1000 with (cr3 demo_mmu). rewrite poke_pde_pde.
  case_decide; [intros H1; by vm_compute in H1|by apply F3].
Defined.

(** Clients compute with the operations through the lemmas above. *)
#[global] Arguments set_pte : simpl never.
#[global] Arguments get_pte_type : simpl never.
#[global] Arguments get_pte_address : simpl never.
#[global] Arguments wipe_page_table : simpl never.
#[global] Arguments paging_init_top_table : simpl never.
#[global] Arguments translate : simpl never.
