(* ===== verification/EarlyBoot.v ===== *)
(** The tables the kernel boots with: [start_paging] of src/x86/paging.c, which
    x86/entry.S calls before anything else.

    Paging.v has the function; here is what the processor does with the tables
    it builds.  The kernel's image and the boot loader's table are seen twice,
    at their physical addresses and at the kernel's linear ones, and nothing
    else is mapped but the window on the tables themselves. *)
From S2P Require Import Prelude Status Paging.

(** ** Words made of a page-aligned frame and small flags *)
Section flagged.
Context (f low : Z) (Hf : is_u32 f) (Hm : f mod 4096 = 0) (Hl : 0 <= low < 4096).

Lemma flagged_frame : frame_of (f + low) = f.
Proof.
  rewrite frame_of_mul. unfold physical_address, bf_get, is_u32 in *. rewrite Z.land_ones, Z.shiftr_div_pow2 by lia.
  change (2 ^ 12) with 4096. rewrite Z.mod_small; Z.div_mod_to_equations; lia.
Qed.

Lemma flagged_bit lo : 0 <= lo < 12 -> bf_get lo 1 (f + low) = bf_get lo 1 low.
Proof.
  intros Hlo. unfold bf_get. rewrite !Z.land_ones, !Z.shiftr_div_pow2 by lia.
  assert (f = 2 ^ lo * (2 * (2 ^ (11 - lo) * (f / 4096)))) as ->.
  { transitivity (4096 * (f / 4096)); [Z.div_mod_to_equations; lia|].
    replace 4096 with (2 ^ lo * (2 * 2 ^ (11 - lo))) at 1; [lia|].
    rewrite <- Z.pow_succ_r, <- Z.pow_add_r by lia. by replace (lo + Z.succ (11 - lo)) with 12 by lia. }
  rewrite Z.mul_comm, Z.div_add_l by (apply Z.pow_nonzero; lia). change (2 ^ 1) with 2.
  rewrite Z.add_comm, (Z.mul_comm 2), Z.mod_add by lia. done.
Qed.
End flagged.

(** [f + 3] and [f + 3 + 1024], the entries [start_paging] writes: present, writable. *)
Lemma boot_entry f low : is_u32 f -> f mod 4096 = 0 -> low = 3 \/ low = 1027 ->
  u32 (f + low) = f + low /\ present (f + low) = 1 /\ frame_of (f + low) = f /\ forall write, allows write (f + low) = true.
Proof.
  intros Hf Hm Hl. assert (0 <= low < 4096) as Hl' by lia.
  assert (present (f + low) = 1 /\ rw (f + low) = 1) as [Hp Hr].
  { unfold present, rw. rewrite !flagged_bit by (done || lia). by destruct Hl as [-> | ->]. }
  split; [apply u32_id; unfold is_u32 in *; Z.div_mod_to_equations; lia|]. split; [done|].
  split; [by apply flagged_frame|]. intros write. by apply allows_writable.
Qed.

(** ** The loop over the pages *)
Section tables.
Context (table identity start stop : Z).

(** Where the loop, from page [p] on, has written after [n] rounds. *)
Definition in_pages (n : nat) (p i : Z) : Prop := p / 4096 <= i < p / 4096 + Z.of_nat n.
#[export] Instance in_pages_dec n p i : Decision (in_pages n p i).
Proof. unfold in_pages. apply _. Defined.

Record filled (n : nat) (p : Z) (m m' : gmap Z Z) : Prop := {
  fl_identity : forall i, 0 <= i < 1024 -> pget m' (identity + 4 * i) =
    if decide (in_pages n p i) then 4096 * i + 3 else pget m (identity + 4 * i);
  fl_table : forall i, 0 <= i < 1024 -> pget m' (table + 4 * i) =
    if decide (in_pages n p (i + start / 4096)) then 4096 * (i + start / 4096) + 3 else pget m (table + 4 * i);
  fl_other : forall a, (forall i, 0 <= i < 1024 -> a <> table + 4 * i /\ a <> identity + 4 * i) -> pget m' a = pget m a
}.

Lemma pget_pset m a w b : pget (pset m a w) b = if decide (a = b) then w else pget m b.
Proof. unfold pget, pset. case_decide as E; [subst; by rewrite lookup_insert_eq|by rewrite lookup_insert_ne]. Qed.

Lemma map_range_filled n : forall m p count,
  table mod 4096 = 0 -> identity mod 4096 = 0 -> table <> identity ->
  0 <= start <= p -> p mod 4096 = 0 -> p + 4096 * Z.of_nat n <= 4194304 ->
  p + 4096 * Z.of_nat n - 4096 < stop \/ n = O ->
  exists m', map_range n m p start stop table identity count = (m', count + Z.of_nat n) /\ filled n p m m'.
Proof.
  induction n as [|n IH]; intros m p count Ht Hi Hd Hs Hp Hb Hst; cbn [map_range].
  { exists m. split; [f_equal; lia|]. split; intros; rewrite ?decide_False; try done; unfold in_pages; lia. }
  rewrite Nat2Z.inj_succ in *. rewrite (proj2 (Z.ltb_lt p stop)) by lia. unfold page_size.
  destruct (boot_entry p 3) as (-> & _); [unfold is_u32; lia|done|by left|].
  set (m1 := pset (pset m _ _) _ _).
  destruct (IH m1 (p + 4096) (count + 1)) as (m' & -> & [I T O]); try done; try lia; [Z.div_mod_to_equations; lia|].
  exists m'. split; [f_equal; lia|]. unfold m1 in *.
  assert ((p + 4096) / 4096 = p / 4096 + 1) as Ep by (apply (Z.div_add p 1 4096); lia).
  assert (0 <= start / 4096 <= p / 4096 /\ p = 4096 * (p / 4096)) as [Hq Eq] by (clear - Hs Hp; Z.div_mod_to_equations; lia).
  assert (exists t d, table = 4096 * t /\ identity = 4096 * d) as (t & d & Et & Ed).
  { exists (table / 4096), (identity / 4096). clear - Ht Hi. Z.div_mod_to_equations. lia. }
  split.
  - intros i Hr. rewrite I by done. rewrite !pget_pset. by repeat case_decide; unfold in_pages in *; try lia.
  - intros i Hr. rewrite T by done. rewrite !pget_pset. by repeat case_decide; unfold in_pages in *; try lia.
  - intros a Ha. rewrite O by done. rewrite !pget_pset. assert (0 <= p / 4096 < 1024 /\ 0 <= p / 4096 - start / 4096 < 1024) as [R1 R2] by lia.
    destruct (Ha _ R1), (Ha _ R2). repeat case_decide; done || congruence.
Qed.
End tables.

(** ** The tables *)

(** Three different frames, empty as the boot loader leaves the .bss section. *)
Record empty_tables (m : gmap Z Z) (directory table identity : Z) : Prop := {
  et_frames : Forall (fun f => is_u32 f /\ f mod 4096 = 0) [directory; table; identity];
  et_distinct : directory <> table /\ directory <> identity /\ table <> identity;
  et_zero : forall f i, f ∈ [directory; table; identity] -> 0 <= i < 1024 -> pget m (f + 4 * i) = 0
}.

(** The pages from [start] to [stop]. *)
Definition boot_pages (start stop : Z) : Z := (stop - start + page_size - 1) / page_size.

(** The linear address the image starts at, rounded to a table. *)
Definition image_base (linear_addr : Z) : Z := 4194304 * dir_index linear_addr.

Lemma apart f g i j : f <> g -> f mod 4096 = 0 -> g mod 4096 = 0 -> 0 <= i < 1024 -> 0 <= j < 1024 -> f + 4 * i <> g + 4 * j.
Proof. intros. Z.div_mod_to_equations. lia. Qed.

Section machine.
Context (linear_addr start stop directory table identity : Z) (m : gmap Z Z).
Context (He : empty_tables m directory table identity) (Hs : 0 <= start <= stop) (Ha : start mod 4096 = 0).
Context (Hb : stop <= 4194304) (Hd : 1 <= dir_index linear_addr < 1023).
#[local] Abbreviation n := (boot_pages start stop).
#[local] Abbreviation started := (start_paging linear_addr start stop directory table identity m).

(** The entries of the directory and of the two tables. *)
Record boot_tables (s : mmu) : Prop := {
  bs_root : cr3 s = directory;
  bs_pde : forall i, 0 <= i < 1024 -> pde s i =
    if decide (i = 1023) then directory + 3
    else if decide (i = dir_index linear_addr) then table + 1027
    else if decide (i = 0) then identity + 3 else 0;
  bs_identity : forall i, 0 <= i < 1024 -> pget (phys s) (identity + 4 * i) =
    if decide (start / 4096 <= i < start / 4096 + n) then 4096 * i + 3 else 0;
  bs_table : forall i, 0 <= i < 1024 -> pget (phys s) (table + 4 * i) =
    if decide (0 <= i < n) then 4096 * (i + start / 4096) + 3 else 0;
  bs_other : forall a, (forall i, 0 <= i < 1024 -> a <> table + 4 * i /\ a <> identity + 4 * i /\ a <> directory + 4 * i) ->
    pget (phys s) a = pget m a
}.

Lemma boot_pages_bound : 0 <= n /\ start + 4096 * n <= 4194304 /\ (stop <= start + 4096 * n < stop + 4096).
Proof. unfold boot_pages, page_size. Z.div_mod_to_equations. lia. Qed.

Lemma start_paging_tables : snd started = n /\ boot_tables (fst started).
Proof.
  destruct boot_pages_bound as (N1 & N2 & N3). destruct He as [F (D1 & D2 & D3) Z0].
  rewrite !Forall_cons in F. destruct F as ((U1 & A1) & (U2 & A2) & (U3 & A3) & _).
  unfold start_paging. fold (boot_pages start stop).
  destruct (map_range_filled table identity start stop (Z.to_nat n) m start 0) as (m' & -> & [I T O]); try done; try lia.
  cbn [fst snd].
  unfold in_pages in I, T. rewrite Z2Nat.id in * by done. split; [lia|]. fold (dir_index linear_addr).
  destruct (boot_entry directory 3) as (-> & _); [done|done|by left|].
  replace (table + 3 + 1024) with (table + 1027) by lia.
  destruct (boot_entry table 1027) as (-> & _); [done|done|by right|].
  destruct (boot_entry identity 3) as (-> & _); [done|done|by left|].
  assert (forall f i, f = table \/ f = identity -> 0 <= i < 1024 ->
    pget (pset (pset (pset m' (directory + 4 * 0) (identity + 3)) (directory + 4 * dir_index linear_addr) (table + 1027))
      (directory + 4 * 1023) (directory + 3)) (f + 4 * i) = pget m' (f + 4 * i)) as Hout.
  { intros f i Hf Hi. assert (f mod 4096 = 0 /\ f <> directory) as [Af Df] by (by destruct Hf as [-> | ->]).
    rewrite !pget_pset. by rewrite !decide_False by (apply apart; done || lia || congruence). }
  split; cbn [phys cr3].
  - done.
  - intros i Hi. unfold pde. cbn [phys cr3]. rewrite !pget_pset.
    repeat case_decide; try lia; try done. rewrite O; [apply Z0; [set_solver|done]|].
    intros j Hj. split; by apply apart.
  - intros i Hi. rewrite Hout, I by (auto || lia). rewrite Z0 by (set_solver || done).
    by repeat case_decide; unfold in_pages in *; try lia.
  - intros i Hi. rewrite Hout, T by (auto || lia). rewrite Z0 by (set_solver || done).
    by repeat case_decide; unfold in_pages in *; try lia.
  - intros a Hout'. rewrite !pget_pset, O by (intros i Hi; specialize (Hout' i Hi); tauto).
    repeat case_decide; try done; exfalso; subst; (eapply Hout'; [|reflexivity]); lia.
Qed.

Section seen.
Context (s : mmu) (B : boot_tables s).

Lemma boot_pde_frame i : 0 <= i < 1024 -> present (pde s i) = 1 -> rw (pde s i) = 1 /\
  ((i = 0 /\ frame_of (pde s i) = identity) \/ (i = dir_index linear_addr /\ frame_of (pde s i) = table) \/
   (i = 1023 /\ frame_of (pde s i) = directory)).
Proof.
  destruct He as [F _ _]. rewrite !Forall_cons in F. destruct F as ((U1 & A1) & (U2 & A2) & (U3 & A3) & _).
  intros Hi. rewrite (bs_pde s B) by done.
  destruct (boot_entry directory 3) as (_ & P1 & F1 & W1); [done|done|by left|].
  destruct (boot_entry table 1027) as (_ & P2 & F2 & W2); [done|done|by right|].
  destruct (boot_entry identity 3) as (_ & P3 & F3 & W3); [done|done|by left|].
  specialize (W1 true); specialize (W2 true); specialize (W3 true). unfold allows in *. cbn [negb orb] in *.
  rewrite andb_true_iff, !Z.eqb_eq in *. repeat case_decide; intros Hp; try done; split; try tauto; auto.
Qed.

Lemma boot_wf : wf_space s.
Proof.
  destruct He as [F (D1 & D2 & D3) _]. rewrite !Forall_cons in F. destruct F as ((U1 & A1) & _).
  pose proof (bs_root s B) as Hr. split.
  - by rewrite Hr.
  - rewrite (bs_pde s B), decide_True by (done || lia). destruct (boot_entry directory 3) as (_ & ? & ? & _); [done|done|by left|].
    split; [done|congruence].
  - intros i Hi Hp. by apply boot_pde_frame.
  - intros i j Hi Hj Hpi Hpj E.
    destruct (boot_pde_frame i Hi Hpi) as [_ Ci], (boot_pde_frame j Hj Hpj) as [_ Cj].
    destruct Ci as [[-> Ei]|[[-> Ei]|[-> Ei]]], Cj as [[-> Ej]|[[-> Ej]|[-> Ej]]]; congruence.
Qed.

(** What is seen of the kernel: its image at [image_base], and the same frames at
    their own addresses. *)
Definition boot_translation (va : Z) : option Z :=
  if decide (start <= va < start + 4096 * n) then Some va
  else if decide (image_base linear_addr <= va < image_base linear_addr + 4096 * n) then Some (start + (va - image_base linear_addr))
  else None.

Lemma boot_translate va write : is_u32 va -> dir_index va < 1023 -> translate s write va = boot_translation va.
Proof.
  intros Hva Hd1. destruct boot_pages_bound as (N1 & N2 & _). destruct He as [F (D1 & D2 & D3) _].
  rewrite !Forall_cons in F. destruct F as (_ & (U2 & A2) & (U3 & A3) & _).
  destruct (boot_entry table 1027) as (_ & P2 & F2 & W2); [done|done|by right|].
  destruct (boot_entry identity 3) as (_ & P3 & F3 & W3); [done|done|by left|].
  pose proof (dir_index_range va Hva) as Hr. rewrite translate_eq, page_offset_mod. unfold pte, pte_addr.
  rewrite page_dir_index, (bs_pde s B) by done. rewrite decide_False by lia.
  assert (va = 4194304 * dir_index va + 4096 * ((va / 4096) mod 1024) + va mod 4096 /\ 0 <= (va / 4096) mod 1024 < 1024 /\
    0 <= va mod 4096 < 4096) as (Ev & Hp & Ho) by (rewrite dir_index_div; Z.div_mod_to_equations; lia).
  assert (start = 4096 * (start / 4096) /\ 0 <= start / 4096) as [Es Hs0] by (Z.div_mod_to_equations; lia).
  set (q := (va / 4096) mod 1024) in *. set (o := va mod 4096) in *. set (d := dir_index va) in *. remember (start / 4096) as p0 eqn:E0.
  clearbody q o d. unfold boot_translation, image_base.
  destruct (decide (d = dir_index linear_addr)) as [->|Hdi]; [|destruct (decide (d = 0)) as [->|Hd0]].
  - rewrite W2, F2, (bs_table s B), <- E0 by done. destruct (decide (0 <= q < n)) as [Hq|Hq].
    + destruct (boot_entry (4096 * (q + p0)) 3) as (_ & _ & F4 & W4);
        [unfold is_u32; lia|rewrite Z.mul_comm; apply Z_mod_mult|by left|]. rewrite W4, F4.
      rewrite decide_False, decide_True by lia. f_equal. lia.
    + rewrite !decide_False by lia. done.
  - rewrite W3, F3, (bs_identity s B), <- E0 by done. destruct (decide (p0 <= q < p0 + n)) as [Hq|Hq].
    + destruct (boot_entry (4096 * q) 3) as (_ & _ & F4 & W4);
        [unfold is_u32; lia|rewrite Z.mul_comm; apply Z_mod_mult|by left|]. rewrite W4, F4.
      rewrite decide_True by lia. f_equal. lia.
    + rewrite !decide_False by lia. done.
  - rewrite !decide_False by lia. done.
Qed.
End seen.
End machine.

(** * Properties *)

(** [start_paging] leaves a well-formed address space in which every address
    outside the window is mapped exactly when it is one of the boot image's,
    physical or linear, with the image's frames in order, whether it is read or
    written; the result is the number of pages, and the rest of the memory is
    what it was. *)
Theorem start_paging_spec linear_addr start stop directory table identity m :
  empty_tables m directory table identity -> 0 <= start <= stop -> start mod 4096 = 0 -> stop <= 4194304 ->
  1 <= dir_index linear_addr < 1023 ->
  exists s, start_paging linear_addr start stop directory table identity m = (s, boot_pages start stop) /\
    wf_space s /\ cr3 s = directory /\
    (forall va write, is_u32 va -> dir_index va < 1023 ->
      translate s write va = boot_translation linear_addr start stop va) /\
    (forall a, (forall i, 0 <= i < 1024 -> a <> table + 4 * i /\ a <> identity + 4 * i /\ a <> directory + 4 * i) ->
      pget (phys s) a = pget m a).
Proof.
  intros He Hs Ha Hb Hd.
  destruct (start_paging_tables linear_addr start stop directory table identity m He Hs Ha Hb Hd) as [En B].
  exists (start_paging linear_addr start stop directory table identity m).1. split; [|split; [|split; [|split]]].
  - rewrite <- En. by destruct (start_paging _ _ _ _ _ _ _).
  - by eapply boot_wf.
  - apply B.
  - intros va write. by eapply boot_translate.
  - apply B.
Qed.

(** The kernel at 1 MiB and 3 GiB, 20 pages with the boot table. *)
Lemma start_paging_spec_witness : exists s, start_paging 0xC0000000 0x100000 0x113800 0x10D000 0x10E000 0x10F000 ∅ = (s, 20) /\
  translate s true 0xC0001234 = Some 0x101234 /\ translate s true 0x101234 = Some 0x101234 /\ translate s false 0xC0014000 = None.
Proof.
  destruct (start_paging_spec 0xC0000000 0x100000 0x113800 0x10D000 0x10E000 0x10F000 ∅) as (s & E & _ & _ & T & _).
  - split; [by repeat constructor|done|]. intros f i _ _. done.
  - done.
  - done.
  - done.
  - by split.
  - exists s. split; [exact E|]. rewrite !T; [|by split| by split|by split|by split|by split|by split].
    split; [by vm_compute|]. split; by vm_compute.
Defined.

(** A boot table that ends above 4 MiB is more than the identity table holds: the
    entry of page 1024 is the first word after the table. *)
Example start_paging_overruns :
  let m : gmap Z Z := {[ 0x110000 := 77 ]} in
  pget (phys (start_paging 0xC0000000 0x100000 0x400800 0x10D000 0x10E000 0x10F000 m).1) 0x110000 = 0x400003.
Proof. by vm_compute. Qed.
