(* ===== verification/Mmgr.v ===== *)
(** The memory manager (src/mmgr.c, include/mmgr.h): frames and mappings.

    Frames come from libmalloc's bitmap allocator, which is not part of this
    repository: it is the class [BitmapHeap], and what the code relies on is the
    class [BitmapHeapOk].  The bitmaps themselves live in memory the allocator
    owns and are not part of [phys].  [initialize_page_map], which builds the
    allocator's bitmaps at boot, is not modelled. *)
From S2P Require Import Prelude Status Paging.

(** The calls of libmalloc/bitmap_alloc.h the kernel makes. *)
Class BitmapHeap (B : Type) := {
  NOMEM : Z;
  reserve_region : Z -> B -> Z * B;
  free_region : Z -> Z -> B -> B;
  free_block_count : B -> Z
}.

(** The allocator of page frames: [free_blocks] are the frames it may hand out.
    A reservation takes one of them, or fails and changes nothing. *)
Class BitmapHeapOk (B : Type) `{BitmapHeap B} := {
  free_blocks : B -> gset Z;
  NOMEM_not_frame : NOMEM mod page_size <> 0;
  free_blocks_frames : forall h loc, loc ∈ free_blocks h -> is_u32 loc /\ loc mod page_size = 0;
  reserve_region_ok : forall h loc h', reserve_region page_size h = (loc, h') ->
    (loc = NOMEM /\ free_blocks h' = free_blocks h) \/
    (loc ∈ free_blocks h /\ free_blocks h' = free_blocks h ∖ {[loc]});
  free_region_ok : forall h loc, is_u32 loc -> loc mod page_size = 0 ->
    free_blocks (free_region loc page_size h) = {[loc]} ∪ free_blocks h
}.

(** ** Operations *)
Section mmgr.
Context {B : Type} `{BitmapHeap B}.

Record mm := MM { mem : mmu; page_map : B }.

(** A call into paging.c, which leaves the allocator alone. *)
Definition on_mem {A} (m : M mmu A) : M mm A :=
  fun s => '(a, u) ← m (mem s); Ret (a, MM u (page_map s)).

Definition reserve_region_m (size : Z) : M mm Z :=
  fun s => let '(loc, h) := reserve_region size (page_map s) in Ret (loc, MM (mem s) h).
Definition free_region_m (loc size : Z) : M mm unit :=
  modify (fun s => MM (mem s) (free_region loc size (page_map s))).

Definition reserve_pages (size : Z) : M mm Z :=
  location ← reserve_region_m size;
  if negb (location =? NOMEM) then mret location else mret (err ENOMEM).

Definition free_pages (location size : Z) : M mm Z :=
  _ ← free_region_m location size; mret (err ENONE).

Definition reserve_page : M mm Z :=
  loc ← reserve_region_m page_size;
  if loc =? NOMEM then mret (err ENOMEM) else mret loc.

Definition free_page (location : Z) : M mm Z :=
  _ ← free_region_m location page_size; mret (err ENONE).

Definition free_page_count : M mm Z := gets (fun s => free_block_count (page_map s)).

Definition create_address_space (kernel_start : Z) : M mm Z :=
  table ← reserve_page;
  if table =? err ENOMEM then mret (err ENOMEM)
  else
    result ← on_mem (paging_init_top_table kernel_start table);
    if negb (result =? 0) then mret result else mret table.

Definition current_address_space : M mm Z := on_mem paging_current_address_space.

(** The loop of [map_page] over the upper levels, [n] of them left. *)
Fixpoint map_levels (n : nat) (page level : Z) : M mm Z :=
  match n with
  | O => mret (err ENONE)
  | S n =>
    flags ← on_mem (get_pte_type page level);
    if Z.land flags PAGE_PRESENT =? 0 then
      new_table ← reserve_page;
      if new_table =? err ENOMEM then mret (err ENOMEM)
      else
        _ ← on_mem (set_pte page level (Z.lor (Z.lor PAGE_PRESENT PAGE_USERMODE) PAGE_RW) new_table);
        _ ← on_mem (wipe_page_table page (level + 1));
        map_levels n page (level + 1)
    else map_levels n page (level + 1)
  end.

Definition map_page (page frame flags : Z) : M mm Z :=
  if negb (frame mod page_size =? 0) then mret (err EINVALIDARG)
  else
    r ← map_levels (Z.to_nat (page_table_levels - 1)) page 0;
    if negb (r =? err ENONE) then mret r
    else
      _ ← on_mem (set_pte page (page_table_levels - 1) (Z.lor PAGE_PRESENT flags) frame);
      mret (err ENONE).

(** The check of [unmap_page]: is the page present at every level? *)
Fixpoint present_levels (n : nat) (page level : Z) : M mm bool :=
  match n with
  | O => mret true
  | S n =>
    flags ← on_mem (get_pte_type page level);
    if Z.land flags PAGE_PRESENT =? 0 then mret false else present_levels n page (level + 1)
  end.

Definition unmap_page (page : Z) : M mm Z :=
  ok ← present_levels (Z.to_nat page_table_levels) page 0;
  if negb (ok : bool) then mret (err EOUTOFBOUNDS)
  else
    frame ← on_mem (get_pte_address page (page_table_levels - 1));
    _ ← on_mem (set_pte page (page_table_levels - 1) 0 0);
    mret frame.

(** The flags of the first upper level that is not present, if any. *)
Fixpoint absent_level (n : nat) (page level : Z) : M mm (option Z) :=
  match n with
  | O => mret None
  | S n =>
    flags ← on_mem (get_pte_type page level);
    if Z.land flags PAGE_PRESENT =? 0 then mret (Some flags) else absent_level n page (level + 1)
  end.

Definition page_type (page : Z) : M mm Z :=
  r ← absent_level (Z.to_nat (page_table_levels - 1)) page 0;
  match r with
  | Some flags => mret flags
  | None => on_mem (get_pte_type page (page_table_levels - 1))
  end.

Definition physical_address (linear_address : Z) : M mm Z :=
  on_mem (get_pte_address linear_address (page_table_levels - 1)).
End mmgr.
Arguments mm : clear implicits.

(** ** A frame allocator for concrete runs: an ordered list of free frames. *)
Definition frame_list : Type := list positive.
Definition frame_addr (p : positive) : Z := (Zpos p mod 0x100000) * 4096.

#[export] Instance demo_frames : BitmapHeap frame_list := {
  NOMEM := 0xFFFFFFFF;
  reserve_region := fun _ l =>
    match l with
    | [] => (0xFFFFFFFF, [])
    | p :: l => (frame_addr p, filter (fun q => frame_addr q <> frame_addr p) l)
    end;
  free_region := fun loc _ l => match loc / 4096 with Zpos p => p :: l | _ => 1048576%positive :: l end;
  free_block_count := fun l => Z.of_nat (length l)
}.

Lemma frame_addr_range p : is_u32 (frame_addr p) /\ frame_addr p mod page_size = 0.
Proof.
  unfold frame_addr, is_u32, page_size. pose proof (Z.mod_pos_bound (Zpos p) 0x100000 ltac:(lia)).
  split; [lia|]. apply Z_mod_mult.
Qed.

#[export] Program Instance demo_frames_ok : BitmapHeapOk frame_list := {
  free_blocks := fun l => list_to_set (frame_addr <$> l)
}.
Next Obligation. by vm_compute. Qed.
Next Obligation.
  intros h loc Hl. cbv beta in Hl. rewrite elem_of_list_to_set in Hl.
  apply list_elem_of_fmap in Hl as (p & -> & _). apply frame_addr_range.
Qed.
Next Obligation.
  intros [|p l] loc h'; cbn [reserve_region demo_frames]; intros E; simplify_eq; [by left|right].
  split; [set_solver|]. apply leibniz_equiv. intros a. cbv beta.
  rewrite elem_of_difference, !elem_of_list_to_set, !list_elem_of_fmap, elem_of_singleton.
  split.
  - intros (q & -> & Hq). apply list_elem_of_filter in Hq as [Hne Hq].
    split; [|done]. exists q. split; [done|]. by right.
  - intros [(q & -> & Hq) Hne]. exists q. split; [done|].
    apply list_elem_of_filter. split; [done|]. apply elem_of_cons in Hq as [->|]; done.
Qed.
Next Obligation.
  intros l loc Hu Hm. cbn [free_region demo_frames]. unfold is_u32, page_size in *.
  destruct (loc / 4096) as [|p|p] eqn:E; cbn [fmap list_fmap list_to_set].
  - replace (frame_addr 1048576) with loc by (unfold frame_addr; Z.div_mod_to_equations; lia). done.
  - replace (frame_addr p) with loc; [done|]. unfold frame_addr. rewrite <- E.
    rewrite Z.mod_small by (Z.div_mod_to_equations; lia). Z.div_mod_to_equations; lia.
  - Z.div_mod_to_equations; lia.
Qed.

(** * Theory *)
Lemma has_present_flag w : (Z.land (pte_flags w) PAGE_PRESENT =? 0) = negb (present w =? 1).
Proof. pose proof (pte_flags_present w) as E. unfold has_flag in E. by rewrite <- E, negb_involutive. Qed.

(** A page-aligned frame is no status code and not NOMEM. *)
Lemma frame_not_status a e : a mod 4096 = 0 -> a = err e -> e = ENONE.
Proof. intros Hm ->. destruct e; [done|by vm_compute in Hm..]. Qed.

Section theory.
Context {B : Type} `{BitmapHeapOk B}.
Implicit Types s : mm B.

(** The kernel's invariant: a well-formed address space whose tables, and
    whose directory, are not on offer as frames. *)
Record wf_mm s : Prop := {
  wm_space : wf_space (mem s);
  wm_tables : forall i, 0 <= i < 1024 -> present (pde (mem s) i) = 1 ->
    frame_of (pde (mem s) i) ∉ free_blocks (page_map s)
}.

Definition only_allocates s s' : Prop := free_blocks (page_map s') ⊆ free_blocks (page_map s).

Lemma on_mem_Ret {A} (m : M mmu A) s a u :
  m (mem s) = Ret (a, u) -> on_mem m s = Ret (a, MM u (page_map s)).
Proof. intros E. unfold on_mem. by rewrite E. Qed.

Lemma wf_fresh s loc : wf_mm s -> loc ∈ free_blocks (page_map s) -> fresh_table (mem s) loc.
Proof.
  intros [W T] Hl. destruct (free_blocks_frames _ _ Hl) as [Hu Hm]. split; [done|done|].
  intros i Hi Hp E. apply (T i Hi Hp). by rewrite E.
Qed.

(** Outcome of [reserve_page]: ENOMEM, or a frame that was free. *)
Lemma reserve_page_run s : exists r h', reserve_page s = Ret (r, MM (mem s) h') /\
  ((r = err ENOMEM /\ free_blocks h' = free_blocks (page_map s)) \/
   (r <> err ENOMEM /\ r ∈ free_blocks (page_map s) /\ free_blocks h' = free_blocks (page_map s) ∖ {[r]})).
Proof.
  unfold reserve_page, reserve_region_m, mbind, M_mbind.
  destruct (reserve_region page_size (page_map s)) as [loc h'] eqn:E.
  apply reserve_region_ok in E as E'. ostep. destruct (Z.eqb_spec loc NOMEM) as [->|Hne].
  - exists (err ENOMEM), h'. split; [done|]. destruct E' as [[_ E']|[E' _]]; [by left|].
    apply free_blocks_frames in E' as [_ E']. by apply NOMEM_not_frame in E'.
  - exists loc, h'. split; [done|]. right. destruct E' as [[? _]|[Hl E']]; [done|].
    split_and!; [|done..]. intros ->. apply free_blocks_frames in Hl as [_ Hl]. by vm_compute in Hl.
Qed.

Lemma get_pte_type_0_run s va : wf_mm s -> is_u32 va ->
  on_mem (get_pte_type va 0) s = Ret (pte_flags (pde (mem s) (dir_index va)), s).
Proof.
  intros Hwf Hva. destruct s as [u h]. apply on_mem_Ret.
  apply get_pte_type_0; [apply wf_space_dir, Hwf|done].
Qed.

(** A new table: installed, wiped, nothing else moves. *)
Lemma new_table_run u va loc : wf_space u -> is_u32 va -> dir_index va < 1023 ->
  fresh_table u loc -> present (pde u (dir_index va)) = 0 ->
  exists u1 u2,
    set_pte va 0 (Z.lor (Z.lor PAGE_PRESENT PAGE_USERMODE) PAGE_RW) loc u = Ret (0, u1) /\
    wipe_page_table va 1 u1 = Ret (tt, u2) /\
    wf_space u2 /\ has_table u2 va /\ frame_of (pde u2 (dir_index va)) = loc /\
    (forall i, 0 <= i < 1024 -> i <> dir_index va -> pde u2 i = pde u i) /\
    (forall va' write, is_u32 va' -> dir_index va' < 1023 ->
      translate u2 write va' = translate u write va').
Proof.
  intros Hwf Hva Hi [Fu Fa Fn] Hp. pose proof (dir_index_range va Hva).
  set (d := dir_index va) in *.
  set (w := pte_word (Z.lor (Z.lor PAGE_PRESENT PAGE_USERMODE) PAGE_RW) loc (pde u d)).
  destruct (pte_word_fields (Z.lor (Z.lor PAGE_PRESENT PAGE_USERMODE) PAGE_RW) loc (pde u d) Fu)
    as (W1 & W2 & _ & W4). fold w in W1, W2, W4.
  assert (frame_of w = loc) as W5 by lia.
  set (u1 := poke u (cr3 u + 4 * d) w).
  assert (pde u1 d = w) as Hd by (unfold u1; by rewrite poke_pde_pde, decide_True).
  assert (wf_space u1) as Hwf1.
  { apply poke_pde_wf; [done|lia|]. intros _. split; [done|].
    intros j Hj _ Hpj. rewrite W5. by apply Fn. }
  destruct (wipe_page_table_present u1 va Hwf1 Hva Hi) as (u2 & E2 & U).
  { unfold has_table. fold d. by rewrite Hd. }
  destruct (wiped_translate u1 u2 d) as (T1 & T2 & _); [lia|by rewrite Hd|done|].
  pose proof (pu_pde _ _ _ _ U) as Hpde.
  exists u1, u2. split_and!.
  - apply set_pte_0; [by apply wf_space_dir|done|done].
  - done.
  - apply U.
  - unfold has_table. fold d. by rewrite Hpde, Hd.
  - by rewrite Hpde, Hd.
  - intros i Hir Hne. rewrite Hpde by done. unfold u1. by rewrite poke_pde_pde, decide_False.
  - intros va' write Hva' Hlt. destruct (decide (dir_index va' = d)) as [Ed|Ed].
    + rewrite T1 by done. rewrite translate_eq, Ed. unfold allows. by rewrite Hp.
    + rewrite T2 by done. unfold u1. apply poke_pde_translate; done || lia.
Qed.

Lemma wf_mm_mem s u : wf_mm s -> wf_space u -> (forall i, 0 <= i < 1024 -> pde u i = pde (mem s) i) ->
  wf_mm (MM u (page_map s)).
Proof. intros [W T] Hu E. split; [done|]. simpl. intros i Hi. rewrite E by done. by apply T. Qed.

(** The upper levels of [map_page]: a table is there afterwards, unless there
    was none and no frame is left. *)
Lemma map_levels_run s va : wf_mm s -> is_u32 va -> dir_index va < 1023 ->
  exists r s', map_levels 1 va 0 s = Ret (r, s') /\ wf_mm s' /\ only_allocates s s' /\
    ((r = err ENOMEM /\ mem s' = mem s /\ present (pde (mem s) (dir_index va)) = 0) \/
     (r = err ENONE /\ has_table (mem s') va /\
      forall va' write, is_u32 va' -> dir_index va' < 1023 ->
        translate (mem s') write va' = translate (mem s) write va')).
Proof.
  intros Hwf Hva Hi. pose proof (dir_index_range va Hva). pose proof Hwf as [W T].
  cbn [map_levels]. unfold mbind, M_mbind. rewrite get_pte_type_0_run by done. ostep.
  rewrite has_present_flag.
  destruct (present_bit (pde (mem s) (dir_index va))) as [Hp|Hp]; rewrite Hp; cbn [negb Z.eqb Pos.eqb].
  { eexists _, s. split_and!; [done|done|by unfold only_allocates|]. right. done. }
  destruct (reserve_page_run s) as (r & h' & E & Hr). rewrite E. ostep.
  destruct Hr as [[-> Hh]|(Hne & Hr & Hh)].
  { rewrite Z.eqb_refl. eexists _, _. split; [done|]. split_and!.
    - split; [done|]. simpl. rewrite Hh. done.
    - unfold only_allocates. simpl. by rewrite Hh.
    - by left. }
  destruct (Z.eqb_spec r (err ENOMEM)); [done|].
  destruct (new_table_run (mem s) va r) as (u1 & u2 & E1 & E2 & Hw2 & Ht2 & Hf2 & Hd2 & Htr);
    [done|done|done|by apply (wf_fresh s)|done|].
  rewrite (on_mem_Ret _ (MM (mem s) h') _ u1) by done. ostep.
  rewrite (on_mem_Ret _ (MM u1 h') _ u2) by done. ostep.
  eexists _, _. split; [done|]. split_and!.
  - split; [done|]. simpl. intros i Hir Hpi. rewrite Hh.
    destruct (decide (i = dir_index va)) as [->|Hid].
    + rewrite Hf2. set_solver.
    + rewrite Hd2 in Hpi |- * by done. specialize (T i Hir Hpi). set_solver.
  - unfold only_allocates. simpl. set_solver.
  - right. done.
Qed.

Lemma map_page_run s va frame flags : wf_mm s -> is_u32 va -> dir_index va < 1023 ->
  is_u32 frame -> frame mod 4096 = 0 ->
  exists r s', map_page va frame flags s = Ret (r, s') /\ wf_mm s' /\ only_allocates s s' /\
    ((r = err ENOMEM /\ mem s' = mem s /\ present (pde (mem s) (dir_index va)) = 0) \/
     (r = err ENONE /\ has_table (mem s') va /\
      (forall write, translate (mem s') write va =
        if negb write || has_flag (Z.lor PAGE_PRESENT flags) PAGE_RW
        then Some (frame + page_offset va) else None) /\
      forall va' write, is_u32 va' -> dir_index va' < 1023 -> va' / 4096 <> va / 4096 ->
        translate (mem s') write va' = translate (mem s) write va')).
Proof.
  intros Hwf Hva Hi Hf Hm. unfold map_page. change page_size with 4096. rewrite Hm. cbn [negb Z.eqb].
  change (Z.to_nat (page_table_levels - 1)) with 1%nat. change (page_table_levels - 1) with 1.
  unfold mbind, M_mbind.
  destruct (map_levels_run s va Hwf Hva Hi) as (r & s1 & E & Hwf1 & Ha1 & Hr). rewrite E. ostep.
  destruct Hr as [(-> & Hmem & Hp)|(-> & Ht & Htr)]; cbn [negb Z.eqb Pos.eqb err].
  { eexists _, s1. split_and!; [done..|]. left. done. }
  destruct (poke_pte_word_translate va (Z.lor PAGE_PRESENT flags) frame (mem s1))
    as (P1 & P2 & P3 & P4); [apply Hwf1|done|done|done|done|].
  erewrite on_mem_Ret by (apply set_pte_1; [apply Hwf1|done..]). ostep.
  eexists _, _. split; [done|]. split; [by apply wf_mm_mem|]. split; [done|].
  right. split_and!; [done| |..]; cbn [mem].
  - unfold has_table. rewrite P2 by (by apply dir_index_range). done.
  - intros write. rewrite P3. unfold frame_base. rewrite Hm, Z.sub_0_r.
    assert (has_flag (Z.lor PAGE_PRESENT flags) PAGE_PRESENT = true) as ->; [|done].
    unfold has_flag. apply negb_true_iff, Z.eqb_neq. intros E0.
    assert (Z.testbit (Z.land (Z.lor PAGE_PRESENT flags) PAGE_PRESENT) 16 = true) as Hb
      by (by rewrite Z.land_spec, Z.lor_spec).
    by rewrite E0 in Hb.
  - intros va' write Hva' Hi' Hne. rewrite P4 by done. by apply Htr.
Qed.

(** Is the page present, as [unmap_page] and the processor see it? *)
Definition mapped s va : bool :=
  (present (pde (mem s) (dir_index va)) =? 1) && (present (pte (mem s) (va / 4096)) =? 1).

Lemma mapped_translate s va : wf_mm s -> is_u32 va ->
  translate (mem s) false va =
    if mapped s va then Some (frame_of (pte (mem s) (va / 4096)) + page_offset va) else None.
Proof.
  intros Hwf Hva. rewrite translate_eq. unfold allows, mapped. cbn [negb orb].
  rewrite !andb_true_r. by destruct (_ =? 1), (_ =? 1).
Qed.

Lemma get_pte_type_1_run s va : wf_mm s -> is_u32 va ->
  on_mem (get_pte_type va 1) s =
    Ret (if present (pde (mem s) (dir_index va)) =? 1 then pte_flags (pte (mem s) (va / 4096)) else 0, s).
Proof.
  intros Hwf Hva. destruct s as [u h]. apply on_mem_Ret. apply get_pte_type_1; [apply Hwf|done].
Qed.

(** The flags [page_type] reports. *)
Definition type_flags s va : Z :=
  pte_flags (if present (pde (mem s) (dir_index va)) =? 1 then pte (mem s) (va / 4096)
             else pde (mem s) (dir_index va)).

Lemma page_type_run s va : wf_mm s -> is_u32 va -> page_type va s = Ret (type_flags s va, s).
Proof.
  intros Hwf Hva. unfold page_type, type_flags.
  change (Z.to_nat (page_table_levels - 1)) with 1%nat. change (page_table_levels - 1) with 1.
  cbn [absent_level]. unfold mbind, M_mbind. rewrite get_pte_type_0_run by done. ostep.
  rewrite has_present_flag. destruct (Z.eqb_spec (present (pde (mem s) (dir_index va))) 1) as [Hp|Hp].
  - cbn [negb]. cbv [mret M_mret]. ostep. rewrite get_pte_type_1_run, Hp by done. done.
  - done.
Qed.

Lemma type_flags_present s va : has_flag (type_flags s va) PAGE_PRESENT = mapped s va.
Proof.
  unfold type_flags, mapped. rewrite pte_flags_present.
  by destruct (present (pde (mem s) (dir_index va)) =? 1) eqn:E.
Qed.

Lemma unmap_page_run s va : wf_mm s -> is_u32 va -> dir_index va < 1023 ->
  unmap_page va s =
    if mapped s va then
      Ret (frame_of (pte (mem s) (va / 4096)) + page_offset va,
           MM (poke (mem s) (pte_addr (mem s) (va / 4096)) (pte_word 0 0 (pte (mem s) (va / 4096)))) (page_map s))
    else Ret (err EOUTOFBOUNDS, s).
Proof.
  intros Hwf Hva Hi. unfold unmap_page, mapped.
  change (Z.to_nat page_table_levels) with 2%nat. change (page_table_levels - 1) with 1.
  cbn [present_levels]. unfold mbind, M_mbind. rewrite get_pte_type_0_run by done. ostep.
  rewrite has_present_flag.
  destruct (Z.eqb_spec (present (pde (mem s) (dir_index va))) 1) as [Hp|Hp]; [|done].
  cbn [negb andb]. change (0 + 1) with 1. rewrite get_pte_type_1_run by done. ostep.
  rewrite Hp. cbn [Z.eqb Pos.eqb]. rewrite has_present_flag.
  destruct (present (pte (mem s) (va / 4096)) =? 1); [|done]. cbn [negb].
  cbv [mret M_mret]. ostep. cbn [negb].
  erewrite on_mem_Ret by (apply get_pte_address_1; [apply Hwf|done]). ostep. rewrite Hp. cbn [Z.eqb Pos.eqb].
  replace (MM (mem s) (page_map s)) with s by (by destruct s).
  erewrite on_mem_Ret by (apply set_pte_1; [apply Hwf|done..]). done.
Qed.

(** [create_address_space]: no frame, or a new table in a free frame. *)
Lemma create_run s kernel_start : wf_mm s -> has_table (mem s) 0 -> 1 <= Z.shiftr kernel_start 22 <= 1023 ->
  exists r s', create_address_space kernel_start s = Ret (r, s') /\ only_allocates s s' /\
    ((r = err ENOMEM /\ mem s' = mem s) \/
     (r <> err ENOMEM /\ r ∈ free_blocks (page_map s) /\ (r ∉ free_blocks (page_map s')) /\
      (forall i, 0 <= i < 1024 ->
        pget (phys (mem s')) (r + 4 * i) = top_word kernel_start r (mem s) i) /\
      (forall a, a < r \/ r + 4096 <= a -> pget (phys (mem s')) a = pget (phys (mem s)) a) /\
      cr3 (mem s') = cr3 (mem s))).
Proof.
  intros Hwf H0' Hk. unfold create_address_space, mbind, M_mbind.
  destruct (reserve_page_run s) as (r & h' & E & Hr). rewrite E. ostep.
  destruct Hr as [[-> Hh]|(Hne & Hr & Hh)].
  { exists (err ENOMEM), (MM (mem s) h'). rewrite Z.eqb_refl. split; [done|].
    split; [unfold only_allocates; cbn [page_map]; by rewrite Hh|by left]. }
  rewrite (proj2 (Z.eqb_neq _ _) Hne).
  pose proof (wf_fresh s r Hwf Hr) as Hf.
  destruct (top_table_run kernel_start r (mem s)) as (u & E1 & Hc & Hd & Hw & Hm); [apply Hwf|done..|].
  rewrite (on_mem_Ret _ (MM (mem s) h') 0 u) by done. ostep. cbn [negb Z.eqb].
  exists r, (MM u h'). unfold only_allocates. cbn [page_map mem]. rewrite Hh.
  split; [done|]. split; [set_solver|]. right. split_and!; try done. set_solver.
Qed.

(** The machine after a switch to [table]. *)
Definition switched s (table : Z) : mm B := MM (loaded (mem s) table) (page_map s).

Lemma switched_wf s s' kernel_start r : wf_mm s -> 1 <= Z.shiftr kernel_start 22 <= 1023 ->
  only_allocates s s' -> r ∈ free_blocks (page_map s) -> r ∉ free_blocks (page_map s') ->
  (forall i, 0 <= i < 1024 -> pget (phys (mem s')) (r + 4 * i) = top_word kernel_start r (mem s) i) ->
  wf_mm (switched s' r).
Proof.
  intros Hwf Hk Ha Hr Hr' Hw. pose proof (wf_fresh s r Hwf Hr) as Hf.
  split; [apply (new_space_wf kernel_start r (mem s)); (done || apply Hwf)|].
  cbn [mem page_map switched]. intros i Hi. rewrite (new_pde kernel_start r (mem s)) by done.
  intros Hp. destruct (self_word_fields r (ft_u32 _ _ Hf) (ft_aligned _ _ Hf)) as (_ & _ & S3).
  destruct (top_word_present kernel_start r (mem s) i) as [->|[Hik Hpi]]; [done|done| |].
  - by rewrite top_word_last, S3.
  - rewrite top_word_copied by done. pose proof (wm_tables s Hwf i Hi Hpi) as Hn.
    intros Hin. by apply Hn, Ha.
Qed.
Lemma unmap_page_ok s va :
  wf_mm s -> is_u32 va -> dir_index va < 1023 ->
  exists r s', unmap_page va s = Ret (r, s') /\ wf_mm s' /\ page_map s' = page_map s /\
    translate (mem s') false va = None /\
    (translate (mem s) false va = Some r \/
     (translate (mem s) false va = None /\ r = err EOUTOFBOUNDS /\ s' = s)) /\
    (forall va' write, is_u32 va' -> va' / 4096 <> va / 4096 ->
      translate (mem s') write va' = translate (mem s) write va').
Proof.
  intros Hwf Hva Hi. rewrite unmap_page_run by done. rewrite mapped_translate by done.
  destruct (mapped s va) eqn:Em.
  - apply andb_true_iff in Em as [Ep _]. apply Z.eqb_eq in Ep.
    destruct (poke_pte_word_translate va 0 0 (mem s)) as (P1 & P2 & P3 & P4);
      [apply Hwf|done|done|done|by split|].
    eexists _, _. split; [done|]. split; [by apply wf_mm_mem|]. split; [done|].
    split; [by rewrite P3|]. split; [by left|done].
  - eexists _, _. split; [done|]. split; [done|]. split; [done|].
    split; [by rewrite mapped_translate, Em|]. split; [by right|done].
Qed.

End theory.

(** * Properties *)

(** C8: [map_page] with an aligned frame either installs exactly the mapping
    asked for, creating and clearing a page table when the page has none, or
    returns ENOMEM with the tables untouched when no frame is left for the
    table.  No other page moves, the invariant is kept, and it takes frames
    but returns none. *)
Theorem map_page_spec {B} `{BitmapHeapOk B} (s : mm B) va frame flags :
  wf_mm s -> is_u32 va -> dir_index va < 1023 -> is_u32 frame -> frame mod 4096 = 0 ->
  exists r s', map_page va frame flags s = Ret (r, s') /\ wf_mm s' /\ only_allocates s s' /\
    ((r = err ENOMEM /\ mem s' = mem s /\ present (pde (mem s) (dir_index va)) = 0) \/
     (r = err ENONE /\
      (forall write, translate (mem s') write va =
        if negb write || has_flag (Z.lor PAGE_PRESENT flags) PAGE_RW
        then Some (frame + page_offset va) else None) /\
      forall va' write, is_u32 va' -> dir_index va' < 1023 -> va' / 4096 <> va / 4096 ->
        translate (mem s') write va' = translate (mem s) write va')).
Proof.
  intros Hwf Hva Hi Hf Hm.
  destruct (map_page_run s va frame flags Hwf Hva Hi Hf Hm) as (r & s' & E & H1 & H2 & [H3|H3]);
    exists r, s'; split_and!; try done; [by left|right; tauto].
Qed.

Definition demo_mm (l : frame_list) : mm frame_list := MM demo_mmu l.

Lemma demo_mm_wf l : (forall p, p ∈ l -> 0x4000 <= frame_addr p) -> wf_mm (demo_mm l).
Proof.
  intros Hl. split; [exact demo_wf|]. intros i _ Hp Hin. simpl in Hin.
  rewrite elem_of_list_to_set in Hin. apply list_elem_of_fmap in Hin as (p & E & Hin).
  specialize (Hl p Hin). revert Hp E. simpl. rewrite demo_pde. repeat case_decide;
    intros Hp E; vm_compute in Hp; try done; vm_compute (frame_of _) in E; lia.
Qed.

Lemma demo_mm_wf_9 : wf_mm (demo_mm [9; 10]%positive).
Proof.
  apply demo_mm_wf. intros p Hp. rewrite !elem_of_cons in Hp.
  destruct Hp as [->|[->|Hp]]; [by vm_compute..|by apply elem_of_nil in Hp].
Qed.

(** A page of the untouched gigabyte: the table comes from frame 9. *)
Lemma map_page_spec_witness : exists r s',
  map_page 0x40000123 0x20000 PAGE_RW (demo_mm [9; 10]%positive) = Ret (r, s') /\ wf_mm s'.
Proof.
  destruct (map_page_spec (demo_mm [9; 10]%positive) 0x40000123 0x20000 PAGE_RW)
    as (r & s' & H1 & H2 & _); [exact demo_mm_wf_9|by split|done|by split|done|].
  exists r, s'. split; [exact H1|exact H2].
Defined.

(** [map_page] rejects a frame that is not page aligned before it touches
    anything; so a caller that passes it the failure of [reserve_page] gets
    EINVALIDARG, not ENOMEM. *)
Theorem map_page_misaligned {B} `{BitmapHeapOk B} (s : mm B) va flags frame :
  frame mod 4096 <> 0 ->
  map_page va frame flags s = Ret (err EINVALIDARG, s) /\
  map_page va (err ENOMEM) flags s = Ret (err EINVALIDARG, s).
Proof.
  intros Hm. split; [|done]. unfold map_page. change page_size with 4096. by rewrite (proj2 (Z.eqb_neq _ _) Hm).
Qed.

Lemma map_page_misaligned_witness :
  map_page 0x5000 0x7001 PAGE_RW (demo_mm []) = Ret (err EINVALIDARG, demo_mm []).
Proof. apply (map_page_misaligned (demo_mm []) 0x5000 PAGE_RW 0x7001). by vm_compute. Defined.

(** [unmap_page] returns the physical address a mapped page translates to
    and removes that mapping only; for a page that is not mapped it returns
    EOUTOFBOUNDS and changes nothing. *)
Theorem unmap_page_spec {B} `{BitmapHeapOk B} (s : mm B) va :
  wf_mm s -> is_u32 va -> dir_index va < 1023 ->
  exists r s', unmap_page va s = Ret (r, s') /\ wf_mm s' /\ page_map s' = page_map s /\
    translate (mem s') false va = None /\
    (translate (mem s) false va = Some r \/
     (translate (mem s) false va = None /\ r = err EOUTOFBOUNDS /\ s' = s)) /\
    (forall va' write, is_u32 va' -> va' / 4096 <> va / 4096 ->
      translate (mem s') write va' = translate (mem s) write va').
Proof. apply unmap_page_ok. Qed.

Lemma unmap_page_spec_witness : exists r s',
  unmap_page 0x5000 (demo_mm []) = Ret (r, s') /\ wf_mm s' /\ translate (mem s') false 0x5000 = None.
Proof.
  destruct (unmap_page_spec (demo_mm []) 0x5000) as (r & s' & H1 & H2 & _ & H3 & _);
    [apply demo_mm_wf; intros p Hp; by apply elem_of_nil in Hp|by split|done|].
  exists r, s'. split; [exact H1|]. split; [exact H2|exact H3].
Defined.

(** Mapping a page and unmapping it gives the frame back: the round trip
    of [mmap] and [munmap], or the ENOMEM the first step reported. *)
Theorem map_unmap_roundtrip {B} `{BitmapHeapOk B} (s : mm B) va frame flags :
  wf_mm s -> is_u32 va -> va mod 4096 = 0 -> dir_index va < 1023 -> is_u32 frame -> frame mod 4096 = 0 ->
  exists r s1, map_page va frame flags s = Ret (r, s1) /\
    (r = err ENOMEM \/ exists s2, unmap_page va s1 = Ret (frame, s2) /\
      translate (mem s2) false va = None).
Proof.
  intros Hwf Hva Hal Hi Hf Hm.
  destruct (map_page_run s va frame flags Hwf Hva Hi Hf Hm) as (r & s1 & E & Hw & _ & [[-> _]|H3]);
    exists r || exists (err ENOMEM); exists s1; (split; [done|]); [by left|right].
  destruct H3 as (-> & Ht & Htr & _). specialize (Htr false).
  rewrite mapped_translate in Htr by done. cbn [negb orb] in Htr.
  rewrite unmap_page_run by done. destruct (mapped s1 va); [|done]. simplify_eq.
  destruct (poke_pte_word_translate va 0 0 (mem s1)) as (P1 & P2 & P3 & P4);
    [apply Hw|done|done|done|by split|].
  rewrite Htr, page_offset_mod, Hal, Z.add_0_r.
  eexists. split; [done|]. cbn [mem]. by rewrite P3.
Qed.

Lemma map_unmap_roundtrip_witness : exists r s1,
  map_page 0x5000 0x20000 PAGE_RW (demo_mm []) = Ret (r, s1) /\
  (r = err ENOMEM \/ exists s2, unmap_page 0x5000 s1 = Ret (0x20000, s2) /\
    translate (mem s2) false 0x5000 = None).
Proof.
  apply (map_unmap_roundtrip (demo_mm []) 0x5000 0x20000 PAGE_RW);
    [apply demo_mm_wf; intros p Hp; by apply elem_of_nil in Hp|by split|done|done|by split|done].
Defined.

Lemma pte_flags_rw w : has_flag (pte_flags w) PAGE_RW = (rw w =? 1).
Proof. unfold pte_flags. by destruct (present w =? 1), (rw w =? 1), (usermode w =? 1). Qed.

Lemma pte_flags_anon w : has_flag (pte_flags w) PAGE_ANON = false.
Proof. unfold pte_flags. by destruct (present w =? 1), (rw w =? 1), (usermode w =? 1). Qed.

(** [page_type] agrees with the processor: it reports PAGE_PRESENT exactly
    for the pages that translate, PAGE_RW on those exactly for the pages a
    write translates for, and never PAGE_ANON, so the frames [munmap] unmaps
    are never freed. *)
Theorem page_type_spec {B} `{BitmapHeapOk B} (s : mm B) va :
  wf_mm s -> is_u32 va ->
  exists flags, page_type va s = Ret (flags, s) /\
    (has_flag flags PAGE_PRESENT = true <-> is_Some (translate (mem s) false va)) /\
    (has_flag flags PAGE_PRESENT = true ->
      (has_flag flags PAGE_RW = true <-> is_Some (translate (mem s) true va))) /\
    has_flag flags PAGE_ANON = false.
Proof.
  intros Hwf Hva. exists (type_flags s va). split; [by apply page_type_run|].
  rewrite type_flags_present, mapped_translate by done. split_and!.
  - destruct (mapped s va); split; try done; by intros [? ?].
  - unfold mapped. intros E. apply andb_true_iff in E as [Ed Ep].
    unfold type_flags. rewrite Ed, pte_flags_rw, translate_eq.
    rewrite (allows_pde _ (wm_space s Hwf)) by first [by apply dir_index_range | by apply Z.eqb_eq].
    unfold allows. rewrite Ep. cbn [negb orb andb].
    destruct (rw (pte (mem s) (va / 4096)) =? 1); split; try done; by intros [? ?].
  - unfold type_flags. apply pte_flags_anon.
Qed.

Lemma page_type_spec_witness : exists flags,
  page_type 0x5000 (demo_mm []) = Ret (flags, demo_mm []) /\ has_flag flags PAGE_ANON = false.
Proof.
  destruct (page_type_spec (demo_mm []) 0x5000) as (flags & H1 & _ & _ & H2);
    [apply demo_mm_wf; intros p Hp; by apply elem_of_nil in Hp|by split|].
  exists flags. split; [exact H1|exact H2].
Defined.

(** [create_address_space] either reports ENOMEM, with the tables
    untouched, or returns a frame that was free, which, once loaded, is a
    well-formed address space with the kernel's mappings and none below. *)
Theorem create_address_space_spec {B} `{BitmapHeapOk B} (s : mm B) kernel_start :
  wf_mm s -> has_table (mem s) 0 -> 1 <= Z.shiftr kernel_start 22 <= 1023 ->
  exists r s', create_address_space kernel_start s = Ret (r, s') /\ only_allocates s s' /\
    ((r = err ENOMEM /\ mem s' = mem s) \/
     (r ∈ free_blocks (page_map s) /\ wf_mm (switched s' r) /\
      (forall va write, Z.shiftr kernel_start 22 <= dir_index va < 1023 ->
        translate (mem (switched s' r)) write va = translate (mem s) write va) /\
      (forall va write, 0 <= dir_index va < Z.shiftr kernel_start 22 ->
        translate (mem (switched s' r)) write va = None))).
Proof.
  intros Hwf H0' Hk.
  destruct (create_run s kernel_start Hwf H0' Hk) as (r & s' & E & Ha & [[-> Hr]|(Hne & Hr & Hr' & Hw & Hm & _)]);
    eexists _, s'; (split; [done|]); (split; [done|]); [by left|right].
  pose proof (wf_fresh s r Hwf Hr) as Hf. split; [done|]. split_and!.
  - by apply (switched_wf s s' kernel_start).
  - intros va write Hva. apply (new_space_kernel kernel_start); done || apply Hwf.
  - intros va write Hva. by apply (new_space_user kernel_start r (mem s)).
Qed.

Lemma create_address_space_spec_witness : exists r s',
  create_address_space 0xFF400000 (demo_mm [9]%positive) = Ret (r, s') /\
  (r = err ENOMEM \/ wf_mm (switched s' r)).
Proof.
  destruct (create_address_space_spec (demo_mm [9]%positive) 0xFF400000)
    as (r & s' & H1 & _ & H2); [|reflexivity|by split|].
  { apply demo_mm_wf. intros p Hp. apply list_elem_of_singleton in Hp as ->. by vm_compute. }
  exists r, s'. split; [exact H1|]. destruct H2 as [[H2 _]|[_ [H2 _]]]; [by left|by right].
Defined.

(** In an address space [create_address_space] made, as long as nothing is
    mapped in its first 4 MiB, a second [create_address_space] page-faults
    (if a frame is left): entry 0, which it borrows, is not present.  So loading
    two modules in a row crashes unless the first maps a page below 4 MiB. *)
Theorem create_address_space_twice {B} `{BitmapHeapOk B} (s : mm B) kernel_start :
  wf_mm s -> has_table (mem s) 0 -> 1 <= Z.shiftr kernel_start 22 <= 1023 ->
  exists r s', create_address_space kernel_start s = Ret (r, s') /\
    (r = err ENOMEM \/
     create_address_space kernel_start (switched s' r) = Fault \/
     exists s2, create_address_space kernel_start (switched s' r) = Ret (err ENOMEM, s2)).
Proof.
  intros Hwf H0' Hk.
  destruct (create_run s kernel_start Hwf H0' Hk) as (r & s' & E & Ha & [[-> Hr]|(Hne & Hr & Hr' & Hw & Hm & _)]);
    eexists _, s'; (split; [done|]); [by left|right].
  pose proof (switched_wf s s' kernel_start r Hwf Hk Ha Hr Hr' Hw) as Hwf'.
  unfold create_address_space, mbind, M_mbind.
  destruct (reserve_page_run (switched s' r)) as (r2 & h2 & E2 & [[-> Hh]|(Hne2 & Hr2 & _)]);
    rewrite E2; ostep; [right; eexists; by rewrite Z.eqb_refl|left].
  rewrite (proj2 (Z.eqb_neq _ _) Hne2). unfold on_mem.
  rewrite entry_0_fault; [done|apply Hwf'| |by apply (wf_fresh (switched s' r))].
  cbn [mem switched]. rewrite (new_pde kernel_start r (mem s)) by (done || lia).
  unfold top_word. by rewrite (proj2 (Z.ltb_lt 0 _)) by lia.
Qed.

Lemma create_address_space_twice_witness : exists r s',
  create_address_space 0xFF400000 (demo_mm [9; 10]%positive) = Ret (r, s') /\
  (r = err ENOMEM \/ create_address_space 0xFF400000 (switched s' r) = Fault \/
   exists s2, create_address_space 0xFF400000 (switched s' r) = Ret (err ENOMEM, s2)).
Proof.
  apply (create_address_space_twice (demo_mm [9; 10]%positive) 0xFF400000);
    [exact demo_mm_wf_9|reflexivity|by split].
Defined.
