(* ===== verification/Heap.v ===== *)
(** The kernel heap (src/heap.c, include/heap.h) over the memory manager.

    [kmalloc] asks libmalloc for a range of heap addresses and then makes sure
    pages are mapped there.  The range allocator is a second instance of the
    class [BitmapHeap]; the descriptor [system_heap] is its state.  [kminit]
    builds that descriptor with libmalloc's own initialiser and is not
    modelled. *)
From S2P Require Import Prelude Status Paging Mmgr.

Section heap.
Context {B D : Type} `{BitmapHeap B, BitmapHeap D}.

Record heap := Heap { frames : mm B; system_heap : D }.

Definition on_frames {A} (m : M (mm B) A) : M heap A :=
  fun s => '(a, f) ← m (frames s); Ret (a, Heap f (system_heap s)).

(** The loop of [map_block]: [n] is an [int], compared as unsigned. *)
Fixpoint map_block_from (fuel : nat) (location size n : Z) : M (mm B) Z :=
  match fuel with
  | O => fun _ => OutOfFuel
  | S fuel =>
    if u32 n <? size then
      type ← page_type (u32 (location + n));
      if negb (has_flag type PAGE_PRESENT) then
        frame ← reserve_page;
        status ← map_page (u32 (location + n)) frame PAGE_RW;
        if negb (status =? 0) then mret status
        else map_block_from fuel location size (s32 (n + page_size))
      else map_block_from fuel location size (s32 (n + page_size))
    else mret (err ENONE)
  end.

(** One round per page of the block. *)
Definition pages_of (size : Z) : nat := Z.to_nat ((size + page_size - 1) / page_size).
Definition map_block (location size : Z) : M (mm B) Z :=
  map_block_from (S (pages_of size)) location size 0.

(** The loop of [mmap_callback], with its two calls of [reserve_page]. *)
Fixpoint mmap_callback_from (fuel : nat) (location size i status : Z) : M (mm B) Z :=
  match fuel with
  | O => fun _ => OutOfFuel
  | S fuel =>
    if i <? size then
      frame ← reserve_page;
      if frame =? err ENOMEM then mret (err ENOMEM)
      else
        frame' ← reserve_page;
        status ← map_page (u32 (location + i)) frame' PAGE_RW;
        if negb (status =? 0) then mret status
        else mmap_callback_from fuel location size (u32 (i + page_size)) status
    else mret status
  end.

Definition mmap_callback (location size : Z) : M (mm B) Z :=
  mmap_callback_from (S (pages_of size)) location size 0 (err ENONE).

Definition kmalloc (size : Z) : M heap Z := fun s =>
  let '(loc, d) := reserve_region size (system_heap s) in
  let s := Heap (frames s) d in
  if loc =? NOMEM (B:=D) then Ret (NULL, s)
  else
    '(status, s) ← on_frames (map_block loc size) s;
    if negb (status =? 0) then Ret (NULL, s) else Ret (loc, s).

Definition kfree (ptr : Z) : M heap unit := modify (fun s =>
  Heap (frames s) (free_region ptr 0 (system_heap s))).
End heap.
Arguments heap : clear implicits.

(** * Theory *)
Section theory.
Context {B : Type} `{BitmapHeapOk B}.
Implicit Types s : mm B.

(** Kernel addresses: nothing of the window onto the page tables. *)
Definition below_window (lo size : Z) : Prop := 0 <= lo /\ 0 <= size /\ lo + size <= page_tables.

Lemma below_window_page lo size n : below_window lo size -> 0 <= n < size ->
  u32 (lo + n) = lo + n /\ is_u32 (lo + n) /\ dir_index (lo + n) < 1023.
Proof.
  unfold below_window, page_tables. intros (H1 & H2 & H3) Hn.
  assert (is_u32 (lo + n)) by (unfold is_u32; lia).
  split_and!; [by apply u32_id|done|]. rewrite dir_index_div. Z.div_mod_to_equations. lia.
Qed.

(** One round of [map_block]: afterwards the page is mapped, or an error is
    returned; mapped pages stay mapped where they were. *)
Definition keeps s s' : Prop := forall va write pa, is_u32 va -> dir_index va < 1023 ->
  translate (mem s) write va = Some pa -> translate (mem s') write va = Some pa.

Lemma keeps_trans s1 s2 s3 : keeps s1 s2 -> keeps s2 s3 -> keeps s1 s3.
Proof. unfold keeps. eauto. Qed.

(** Mapping a page that was not mapped moves no other page. *)
Lemma map_page_keeps s s' va : wf_mm s -> is_u32 va -> mapped s va = false ->
  (forall va' write, is_u32 va' -> dir_index va' < 1023 -> va' / 4096 <> va / 4096 ->
    translate (mem s') write va' = translate (mem s) write va') ->
  keeps s s'.
Proof.
  intros Hwf Hva Hm Ho va' write pa Hva' Hi E.
  rewrite Ho; [done..|]. intros Epage.
  assert (translate (mem s) false va' = None) as E0.
  { rewrite mapped_translate by done. unfold mapped in *. rewrite Epage.
    rewrite <- (page_dir_index va'), Epage, page_dir_index. by rewrite Hm. }
  rewrite translate_eq in E, E0. unfold allows in *. cbn [negb orb] in E0.
  rewrite !andb_true_r in E0.
  destruct (present (pde (mem s) (dir_index va')) =? 1); [|done].
  destruct (present (pte (mem s) (va' / 4096)) =? 1); [done|].
  cbn [andb] in E. by destruct (_ || _).
Qed.

Lemma reserved_wf s h' : wf_mm s -> free_blocks h' ⊆ free_blocks (page_map s) -> wf_mm (MM (mem s) h').
Proof.
  intros [W T] Hs. split; [done|]. cbn [mem page_map]. intros i Hi Hp Hin.
  apply (T i Hi Hp). by apply Hs.
Qed.

(** [map_page(location + n, reserve_page(), PAGE_RW)] on an unmapped page. *)
Lemma map_new_page s va : wf_mm s -> is_u32 va -> dir_index va < 1023 -> mapped s va = false ->
  exists r s', (reserve_page ≫= fun frame => map_page va frame PAGE_RW) s = Ret (r, s') /\
    wf_mm s' /\ only_allocates s s' /\ keeps s s' /\
    (r = 0 -> is_Some (translate (mem s') true va)) /\
    (forall va' write, is_u32 va' -> dir_index va' < 1023 -> va' / 4096 <> va / 4096 ->
      translate (mem s') write va' = translate (mem s) write va').
Proof.
  intros Hwf Hva Hi Hm. unfold mbind, M_mbind.
  destruct (reserve_page_run s) as (r & h' & E & Hr). rewrite E. ostep.
  destruct Hr as [[-> Hh]|(Hne & Hr & Hh)].
  { exists (err EINVALIDARG), (MM (mem s) h'). split; [done|].
    split; [apply reserved_wf; [done|by rewrite Hh]|].
    split; [unfold only_allocates; cbn [page_map]; by rewrite Hh|]. split; [by intros ? ? ?|by split]. }
  destruct (free_blocks_frames _ _ Hr) as [Hu Ha].
  assert (wf_mm (MM (mem s) h')) as Hwf' by (apply reserved_wf; [done|set_solver]).
  destruct (map_page_run (MM (mem s) h') va r PAGE_RW Hwf' Hva Hi Hu Ha)
    as (r1 & s1 & E1 & W1 & A1 & C1). rewrite E1.
  exists r1, s1. split; [done|]. split; [done|].
  split; [unfold only_allocates in *; cbn [page_map] in A1; set_solver|].
  destruct C1 as [(-> & Hmem & _)|(-> & Ht & Htr & Ho)].
  - cbn [mem] in Hmem. unfold keeps. rewrite Hmem. done.
  - split; [by apply (map_page_keeps _ _ va)|]. split; [intros _; rewrite Htr; by eexists|done].
Qed.

Lemma keeps_mapped s s' va : keeps s s' -> is_u32 va -> dir_index va < 1023 ->
  is_Some (translate (mem s) false va) -> is_Some (translate (mem s') false va).
Proof. intros Hk Hva Hi [pa Hpa]. exists pa. by apply Hk. Qed.

Lemma translate_read s va : is_Some (translate (mem s) true va) -> is_Some (translate (mem s) false va).
Proof.
  rewrite !translate_eq. unfold allows. cbn [negb orb]. rewrite !andb_true_r.
  intros [pa Hpa]. destruct (present (pde _ _) =? 1); [|done].
  cbn [andb] in Hpa. destruct (rw _ =? 1); [|done].
  destruct (present (pte _ _) =? 1); [|done]. by eexists.
Qed.

Definition heap_size_ok (size : Z) : Prop := size <= 2 ^ 31 - 4096.

Lemma map_block_from_spec fuel location size n s :
  wf_mm s -> below_window location size -> heap_size_ok size -> 0 <= n -> n <= size + page_size ->
  size - n <= Z.of_nat fuel * 4096 ->
  exists r s', map_block_from (S fuel) location size n s = Ret (r, s') /\
    wf_mm s' /\ only_allocates s s' /\ keeps s s' /\
    (r = 0 -> forall m, n <= m < size -> (m - n) mod 4096 = 0 ->
      is_Some (translate (mem s') false (location + m))).
Proof.
  unfold heap_size_ok, page_size. revert n s.
  induction fuel as [|fuel IH]; intros n s Hwf Hb Hsz H0' H1 Hf;
    cbn [map_block_from]; rewrite (u32_id n) by (unfold is_u32, below_window in *; lia);
    (destruct (Z.ltb_spec n size) as [Hlt|Hge];
      [|exists (err ENONE), s; split_and!; [done|done|by unfold only_allocates|by intros ? ? ?|lia]]);
    [lia|].
  destruct (below_window_page location size n Hb) as (Eu & Hu & Hi); [lia|]. rewrite Eu.
  assert (s32 (n + 4096) = n + 4096) as En by (apply s32_id; unfold is_s32; lia).
  assert (forall s1, wf_mm s1 -> only_allocates s s1 -> keeps s s1 ->
    is_Some (translate (mem s1) false (location + n)) ->
    exists r s', map_block_from (S fuel) location size (n + 4096) s1 = Ret (r, s') /\
      wf_mm s' /\ only_allocates s s' /\ keeps s s' /\
      (r = 0 -> forall m, n <= m < size -> (m - n) mod 4096 = 0 ->
        is_Some (translate (mem s') false (location + m)))) as Hnext.
  { intros s1 W1 A1 K1 T1. destruct (IH (n + 4096) s1 W1 Hb Hsz) as (r & s' & E & W & A & K & T); [lia..|].
    exists r, s'. split_and!; [done|done|unfold only_allocates in *; set_solver|by eapply keeps_trans|].
    intros Hr m Hm Hmod. destruct (decide (m = n)) as [->|Hne].
    - by apply (keeps_mapped s1).
    - apply T; [done|Z.div_mod_to_equations; lia..]. }
  unfold mbind, M_mbind. rewrite page_type_run by done. ostep. rewrite type_flags_present.
  unfold page_size. rewrite En. destruct (mapped s (location + n)) eqn:Em; cbn [negb].
  - apply Hnext; [done|by unfold only_allocates|by intros ? ? ?|]. by rewrite mapped_translate, Em.
  - destruct (map_new_page s (location + n) Hwf Hu Hi Em) as (r & s1 & E & W1 & A1 & K1 & T1 & _).
    unfold mbind, M_mbind in E. apply outcome_bind_Ret in E as ([fr s0] & E1 & E2).
    rewrite E1. ostep. rewrite E2. ostep.
    destruct (Z.eqb_spec r 0) as [->|Hr]; cbn [negb].
    + apply Hnext; [done..|]. by apply translate_read, T1.
    + exists r, s1. split_and!; done.
Qed.

Lemma map_block_spec location size s :
  wf_mm s -> below_window location size -> heap_size_ok size ->
  exists r s', map_block location size s = Ret (r, s') /\
    wf_mm s' /\ only_allocates s s' /\ keeps s s' /\
    (r = 0 -> forall m, 0 <= m < size -> m mod 4096 = 0 ->
      is_Some (translate (mem s') false (location + m))).
Proof.
  intros Hwf Hb Hsz. pose proof Hb as (_ & Hs & _).
  destruct (map_block_from_spec (pages_of size) location size 0 s) as (r & s' & E & W & A & K & T);
    [done..|unfold page_size; lia|unfold pages_of, page_size; Z.div_mod_to_equations; lia|].
  exists r, s'. split_and!; [done..|]. intros Hr m Hm Hmod. apply T; [done|done|].
  by rewrite Z.sub_0_r.
Qed.

Lemma translate_same_page s va va' : va / 4096 = va' / 4096 ->
  is_Some (translate (mem s) false va) -> is_Some (translate (mem s) false va').
Proof.
  intros E. rewrite !translate_eq, <- !(page_dir_index va), <- !(page_dir_index va'), E.
  destruct (allows _ _); [|done]. destruct (allows _ _); [|done]. by eexists.
Qed.

(** Every byte of a block lies in one of the pages the loop visits, provided
    the last partial page does not spill over. *)
Lemma block_page location size m : 0 <= location -> 0 <= m < size ->
  location mod 4096 + (size - 1) mod 4096 < 4096 ->
  exists k, 0 <= k < size /\ k mod 4096 = 0 /\ (location + k) / 4096 = (location + m) / 4096.
Proof.
  intros Hl Hm Hs.
  destruct (decide (location mod 4096 + m mod 4096 < 4096)).
  - exists (4096 * (m / 4096)). Z.div_mod_to_equations. lia.
  - exists (4096 * (m / 4096 + 1)). Z.div_mod_to_equations. lia.
Qed.
End theory.

(** What [kmalloc] needs of the range allocator: blocks are non-NULL kernel
    addresses below the window onto the page tables. *)
Definition ranges_ok (D : Type) `{BitmapHeap D} : Prop := forall size (d d' : D) loc,
  reserve_region size d = (loc, d') -> loc <> NOMEM (B:=D) -> 0 < size ->
  loc <> NULL /\ below_window loc size /\ heap_size_ok size.

(** * Properties *)

(** C30: [kmalloc] returns NULL or the block the range allocator reserved; in
    the latter case, if the block does not spill over its last page, all of
    its bytes are mapped.  Mapped pages keep their translation, the paging
    invariant holds afterwards and no frame is given back.  The loop over the
    pages returns. *)
Theorem kmalloc_maps_block {B D} `{BitmapHeapOk B, BitmapHeap D} (s : heap B D) size :
  ranges_ok D -> wf_mm (frames s) -> 0 < size ->
  exists p s', kmalloc size s = Ret (p, s') /\
    wf_mm (frames s') /\ only_allocates (frames s) (frames s') /\ keeps (frames s) (frames s') /\
    (p <> NULL ->
      reserve_region size (system_heap s) = (p, system_heap s') /\
      (p mod 4096 + (size - 1) mod 4096 < 4096 ->
       forall a, p <= a < p + size -> is_Some (translate (mem (frames s')) false a))).
Proof.
  intros HD Hwf Hsize. unfold kmalloc. destruct (reserve_region size (system_heap s)) as [loc d] eqn:E.
  destruct (Z.eqb_spec loc (NOMEM (B:=D))) as [->|Hne].
  { exists NULL, (Heap (frames s) d). split; [done|]. split; [done|].
    split; [by unfold only_allocates|]. split; [by intros ? ? ?|done]. }
  destruct (HD size (system_heap s) d loc E Hne Hsize) as (Hnull & Hb & Hsz).
  destruct (map_block_spec loc size (frames s) Hwf Hb Hsz) as (r & f & Em & W & A & K & T).
  unfold on_frames. cbn [frames system_heap]. rewrite Em. ostep.
  destruct (Z.eqb_spec r 0) as [->|Hr]; cbn [negb]; eexists _, _; (split; [done|]);
    cbn [frames system_heap]; split_and!; try done.
  intros _. split; [done|]. intros Hspill a Ha.
  destruct (block_page loc size (a - loc)) as (k & Hk & Hk0 & Ek);
    [unfold below_window in Hb; lia|lia|done|].
  apply (translate_same_page f (loc + k)); [rewrite Ek; f_equal; lia|]. by apply T.
Qed.

(** A range allocator for concrete runs: blocks from 0x40000000 upwards. *)
Definition bump : Type := positive.
#[export] Instance demo_bump : BitmapHeap bump := {
  NOMEM := 0xFFFFFFFF;
  reserve_region := fun size d =>
    if Zpos d + size <=? 0x1000000 then (0x40000000 + Zpos d, Z.to_pos (Zpos d + size)) else (0xFFFFFFFF, d);
  free_region := fun _ _ d => d;
  free_block_count := fun d => 0x1000000 - Zpos d
}.

Lemma demo_bump_ok : ranges_ok bump.
Proof.
  intros size d d' loc. cbn [reserve_region demo_bump]. destruct (Z.leb_spec (Zpos d + size) 0x1000000);
    intros E; simplify_eq; [|done].
  intros _ Hs. unfold NULL, below_window, heap_size_ok, page_tables. lia.
Qed.

Lemma demo_mm_wf_nil : wf_mm (demo_mm []).
Proof. apply demo_mm_wf. intros p Hp. by apply elem_of_nil in Hp. Qed.

Lemma kmalloc_maps_block_witness : exists p s',
  kmalloc 64 (Heap (demo_mm [9; 10]%positive) (64%positive : bump)) = Ret (p, s') /\ wf_mm (frames s').
Proof.
  destruct (kmalloc_maps_block (Heap (demo_mm [9; 10]%positive) (64%positive : bump)) 64)
    as (p & s' & H1 & H2 & _); [exact demo_bump_ok|exact demo_mm_wf_9|done|].
  exists p, s'. split; [exact H1|exact H2].
Defined.

(** [map_block] steps by whole pages from the block's first byte, so a
    block of at most a page that crosses a page boundary gets its first page
    only: the second one translates as it did before, mapped or not. *)
Theorem map_block_misses_second_page {B} `{BitmapHeapOk B} (s : mm B) location size :
  wf_mm s -> below_window location (2 * 4096) -> 0 < size <= 4096 ->
  exists r s', map_block location size s = Ret (r, s') /\
    forall a write, a / 4096 = location / 4096 + 1 ->
      translate (mem s') write a = translate (mem s) write a.
Proof.
  intros Hwf Hb Hs. unfold map_block, pages_of, page_size.
  replace ((size + 4096 - 1) / 4096) with 1 by (Z.div_mod_to_equations; lia).
  change (S (Z.to_nat 1)) with 2%nat. cbn [map_block_from].
  rewrite (u32_id 0) by done. rewrite (proj2 (Z.ltb_lt 0 size)) by lia.
  destruct (below_window_page location (2 * 4096) 0 Hb) as (Eu & Hu & Hi); [lia|].
  rewrite Eu. rewrite Z.add_0_r in *. change (s32 (0 + page_size)) with 4096.
  rewrite (u32_id 4096) by done. rewrite (proj2 (Z.ltb_ge 4096 size)) by lia.
  unfold mbind, M_mbind. rewrite page_type_run by done. ostep. rewrite type_flags_present.
  destruct (mapped s location) eqn:Em; cbn [negb].
  { exists (err ENONE), s. split; [done|]. done. }
  destruct (map_new_page s location Hwf Hu Hi Em) as (r & s1 & E & W1 & A1 & K1 & T1 & Ho).
  unfold mbind, M_mbind in E. apply outcome_bind_Ret in E as ([fr s0] & E1 & E2).
  rewrite E1. ostep. rewrite E2. ostep.
  assert (forall a write, a / 4096 = location / 4096 + 1 ->
    translate (mem s1) write a = translate (mem s) write a) as Hres.
  { intros a write Ha. unfold below_window, page_tables in Hb.
    apply Ho; [unfold is_u32; Z.div_mod_to_equations; lia| |lia].
    rewrite dir_index_div. Z.div_mod_to_equations; lia. }
  destruct (r =? 0); cbn [negb]; eexists _, s1; done.
Qed.

(** 128 bytes at 0x5FC0: the bytes from 0x6000 on stay unmapped. *)
Lemma map_block_misses_second_page_witness : exists r s',
  map_block 0x5FC0 128 (demo_mm [9; 10]%positive) = Ret (r, s') /\
  translate (mem s') false 0x6010 = None.
Proof.
  destruct (map_block_misses_second_page (demo_mm [9; 10]%positive) 0x5FC0 128) as (r & s' & H1 & H2);
    [exact demo_mm_wf_9|unfold below_window, page_tables; lia|lia|].
  exists r, s'. split; [exact H1|]. rewrite H2; reflexivity.
Defined.

(** [mmap_callback], which backs the heap's own tables, reserves a frame,
    ignores it, and maps a second one: each page costs two frames and the
    first is reachable from no page it maps. *)
Theorem mmap_callback_reserves_twice {B} `{BitmapHeapOk B} (s : mm B) location s' :
  wf_mm s -> is_u32 location -> location mod 4096 = 0 -> dir_index location < 1023 ->
  has_table (mem s) location ->
  mmap_callback location 4096 s = Ret (0, s') ->
  exists lost used, lost <> used /\ lost ∈ free_blocks (page_map s) /\ used ∈ free_blocks (page_map s) /\
    free_blocks (page_map s') = free_blocks (page_map s) ∖ {[lost; used]} /\
    translate (mem s') true location = Some used.
Proof.
  intros Hwf Hu Hal Hi Ht. unfold mmap_callback, pages_of, page_size.
  change (Z.to_nat ((4096 + 4096 - 1) / 4096)) with 1%nat. cbn [mmap_callback_from].
  change (0 <? 4096) with true. cbv iota. rewrite Z.add_0_r, (u32_id location) by done.
  change (u32 (0 + page_size) <? 4096) with false. cbv iota.
  unfold mbind, M_mbind. destruct (reserve_page_run s) as (r1 & h1 & E1 & C1). rewrite E1. ostep.
  destruct C1 as [[-> _]|(N1 & F1 & H1)]; [by rewrite Z.eqb_refl|].
  rewrite (proj2 (Z.eqb_neq _ _) N1).
  destruct (reserve_page_run (MM (mem s) h1)) as (r2 & h2 & E2 & C2). rewrite E2. ostep.
  cbn [mem page_map] in *.
  destruct C2 as [[-> _]|(N2 & F2 & H2)].
  { unfold map_page. change (err ENOMEM mod page_size =? 0) with false. cbn [negb].
    cbv [mret M_mret]. ostep. by change (err EINVALIDARG =? 0) with false. }
  rewrite H1 in F2. destruct (free_blocks_frames (page_map s) r2) as [Fu Fa]; [set_solver|]. change page_size with 4096 in Fa.
  assert (wf_mm (MM (mem s) h2)) as W2 by (apply reserved_wf; [done|set_solver]).
  unfold has_table in Ht. unfold map_page. change page_size with 4096. rewrite Fa. cbn [negb Z.eqb].
  change (Z.to_nat (page_table_levels - 1)) with 1%nat. cbn [map_levels].
  unfold mbind, M_mbind. rewrite get_pte_type_0_run by done. ostep. cbn [mem].
  rewrite has_present_flag, Ht. cbn [negb Z.eqb Pos.eqb]. cbv [mret M_mret]. ostep.
  change (negb (err ENONE =? err ENONE)) with false. cbv iota.
  destruct (poke_pte_word_translate location (Z.lor PAGE_PRESENT PAGE_RW) r2 (mem s))
    as (P1 & P2 & P3 & P4); [apply Hwf|done..|].
  erewrite on_mem_Ret by (apply set_pte_1; [apply Hwf|done..]). ostep.
  intros E. injection E as <-. exists r1, r2. cbn [mem page_map].
  split_and!; [set_solver|done|set_solver|rewrite H2, H1; set_solver|].
  rewrite P3. unfold frame_base. rewrite Fa, page_offset_mod, Hal. change (_ && _) with true. cbv iota.
  f_equal. lia.
Qed.

Lemma mmap_callback_reserves_twice_witness : exists s',
  mmap_callback 0x5000 4096 (demo_mm [9; 10]%positive) = Ret (0, s') /\
  exists lost used, lost <> used /\ lost ∈ free_blocks (page_map (demo_mm [9; 10]%positive)) /\
    used ∈ free_blocks (page_map (demo_mm [9; 10]%positive)) /\
    free_blocks (page_map s') = free_blocks (page_map (demo_mm [9; 10]%positive)) ∖ {[lost; used]} /\
    translate (mem s') true 0x5000 = Some used.
Proof.
  eexists. split; [vm_compute; reflexivity|].
  apply (mmap_callback_reserves_twice (demo_mm [9; 10]%positive) 0x5000);
    [exact demo_mm_wf_9|by split|done|done|done|vm_compute; reflexivity].
Defined.
