(* ===== verification/Boot.v ===== *)
(** Memory at boot: the kernel's text made read-only and the frame allocator and the
    kernel heap set up ([kernel_initialize] of src/kernel.c up to its tables,
    [initialize_page_map] of src/mmgr.c, [kminit] of src/heap.c), and the pages
    of the boot table unmapped ([x86_startup] of src/x86/quark_x86.c).

    The memory map, the size of the bitmap and the initialisation of a bitmap
    heap belong to libmalloc, which is not in the repository: they are
    parameters.  The cache arrays are given by their capacities.  The rounded
    [memory_size] of [initialize_page_map] is never used and left out. *)
From S2P Require Import Prelude Status Paging Mmgr Heap.

(** What the code fills in of [bitmap_heap_descriptor_t]. *)
Record descriptor := Descriptor {
  bitmap : Z; cache_capacity : Z; block_bits : Z; block_size : Z; heap_offset : Z
}.

(** [memory_region_t] *)
Record region := Region { region_type : Z; region_location : Z; region_size : Z }.

Section boot.
Context {Mp B D : Type} `{BitmapHeap B}.
Context (regions : Mp -> list region) (empty_map : Z -> Mp) (memmap_insert_region : Mp -> Z -> Z -> Z -> Mp).
Context (bitmap_size : Mp -> Z -> Z -> Z) (M_AVAILABLE M_UNAVAILABLE : Z).
(** Libmalloc's [initialize_heap]: a status and the state of the heap. *)
Context (initialize_page_heap : descriptor -> Mp -> Z * B).
Context (initialize_system_heap : descriptor -> Mp -> (Z -> Z -> M (mm B) Z) -> M (mm B) (Z * D)).

(** ** [initialize_page_map] *)
Definition MAX_CACHE_SIZE : Z := 32.

(** The levels of one page of the bitmap, from [level] on: frame [location] becomes
    the first table or page that is missing.  The result is the new count of
    mapped pages, [None] for the return of ENOMEM. *)
Fixpoint map_bitmap_page (n : nat) (page level location pages_mapped : Z) : M mmu (option Z) :=
  match n with
  | O => mret (Some pages_mapped)
  | S n =>
    flags ← get_pte_type page level;
    if Z.land flags PAGE_PRESENT =? 0 then
      status ← set_pte page level (Z.lor PAGE_PRESENT PAGE_RW) location;
      mret (if negb (status =? 0) then None
            else Some (if level =? page_table_levels - 1 then pages_mapped + 1 else pages_mapped))
    else map_bitmap_page n page (level + 1) location (if level =? page_table_levels - 1 then pages_mapped + 1 else pages_mapped)
  end.

(** The frames of one region, while more pages are needed. *)
Fixpoint claim_region (fuel : nat) (base location region_end pages_needed pages_mapped : Z) (map : Mp) : M mmu (option (Z * Mp)) :=
  match fuel with
  | O => fun _ => OutOfFuel
  | S fuel =>
    if (u32 (location + page_size) <=? region_end) && (pages_mapped <? pages_needed) then
      r ← map_bitmap_page (Z.to_nat page_table_levels) (u32 (base + pages_mapped * page_size)) 0 location pages_mapped;
      match r with
      | None => mret None
      | Some pages_mapped =>
        claim_region fuel base (u32 (location + page_size)) region_end pages_needed pages_mapped
          (memmap_insert_region map location page_size M_UNAVAILABLE)
      end
    else mret (Some (pages_mapped, map))
  end.

(** The loop over the regions of the map, which the claimed frames change. *)
Fixpoint claim_frames (fuel rfuel : nat) (base pages_needed : Z) (i : nat) (pages_mapped : Z) (map : Mp) : M mmu (option Mp) :=
  match fuel with
  | O => fun _ => OutOfFuel
  | S fuel =>
    match regions map !! i with
    | Some r =>
      if pages_mapped <? pages_needed then
        if negb (region_type r =? M_AVAILABLE) then claim_frames fuel rfuel base pages_needed (S i) pages_mapped map
        else
          let location := Z.ldiff (u32 (region_location r + page_size - 1)) (page_size - 1) in
          let region_end := u32 (region_location r + region_size r) in
          c ← claim_region rfuel base location region_end pages_needed pages_mapped map;
          match c with
          | None => mret None
          | Some (pages_mapped, map) => claim_frames fuel rfuel base pages_needed (S i) pages_mapped map
          end
      else mret (Some map)
    | None => mret (Some map)
    end
  end.

(** The status, and the allocator if there is one. *)
Definition initialize_page_map (fuel rfuel : nat) (map : Mp) (base size : Z) : M mmu (Z * option B) :=
  let page_map := Descriptor base MAX_CACHE_SIZE 1 size 0 in
  let pages_needed := u32 (bitmap_size map size 1 + page_size - 1) / page_size in
  r ← claim_frames fuel rfuel base pages_needed 0 0 map;
  match r with
  | None => mret (err ENOMEM, None)
  | Some map =>
    let '(status, b) := initialize_page_heap page_map map in
    mret (if negb (status =? 0) then (err ENOMEM, None) else (err ENONE, Some b))
  end.

(** ** [kminit] *)
Definition kminit (base start heap_size size : Z) : M (mm B) (Z * D) :=
  let system_heap := Descriptor NULL 16 4 size base in
  let map := memmap_insert_region (empty_map 8) 0 heap_size M_AVAILABLE in
  let map := memmap_insert_region map 0 (u32 (start - base)) M_UNAVAILABLE in
  initialize_system_heap system_heap map mmap_callback.

(** ** [kernel_initialize], up to the kernel heap *)

(** The loop over the pages of the kernel's text and constants. *)
Fixpoint protect_text (fuel : nat) (p stop : Z) : M mmu unit :=
  match fuel with
  | O => fun _ => OutOfFuel
  | S fuel =>
    if p <? stop then
      _ ← set_pte_type p (page_table_levels - 1) PAGE_PRESENT;
      protect_text fuel (u32 (p + page_size)) stop
    else mret tt
  end.

(** The linker's symbols; [bitmap_bytes] is the allocator's field [bitmap_size]. *)
Context (kernel_start kernel_tend kernel_end kernel_pstart kernel_pend : Z) (bitmap_bytes : B -> Z).

Definition page_map_base (page_map : descriptor) : Z := bitmap page_map.
Definition page_map_end (page_map : descriptor) (b : B) : Z := u32 (bitmap page_map + bitmap_bytes b).

Definition initialize_memory (fuel rfuel : nat) (map : Mp) (s : mmu) : outcome (D * mm B) :=
  '(_, s) ← protect_text fuel kernel_start kernel_tend s;
  let map := memmap_insert_region map kernel_pstart (u32 (kernel_pend - kernel_pstart)) M_UNAVAILABLE in
  '(_, b, s) ← initialize_page_map fuel rfuel map kernel_end page_size s;
  match b with
  | None => Panic
  | Some b =>
    '(status, d, s) ← kminit kernel_start (page_map_end (Descriptor kernel_end MAX_CACHE_SIZE 1 page_size 0) b)
      (u32 (page_tables - kernel_start)) 64 (MM s b);
    if negb (status =? 0) then Panic else Ret (d, s)
  end.

(** The loop of [x86_startup] over the pages after the kernel's image. *)
Fixpoint unmap_boot_table (fuel : nat) (p stop : Z) : M (mm B) unit :=
  match fuel with
  | O => fun _ => OutOfFuel
  | S fuel => if p <? stop then _ ← unmap_page p; unmap_boot_table fuel (u32 (p + page_size)) stop else mret tt
  end.
End boot.

(** * Theory *)

(** The word [set_pte_type] leaves in an entry that held [w]. *)
Definition type_word (flags w : Z) : Z :=
  set_usermode (bit (has_flag flags PAGE_USERMODE))
    (set_rw (bit (has_flag flags PAGE_RW)) (set_present (bit (has_flag flags PAGE_PRESENT)) w)).

Lemma type_word_fields flags w : present (type_word flags w) = bit (has_flag flags PAGE_PRESENT) /\
  rw (type_word flags w) = bit (has_flag flags PAGE_RW) /\ usermode (type_word flags w) = bit (has_flag flags PAGE_USERMODE) /\
  frame_of (type_word flags w) = frame_of w.
Proof.
  unfold frame_of, type_word, present, rw, usermode, Paging.physical_address, set_present, set_rw, set_usermode.
  rewrite !(bf_get_set_ne 2 1 0), !(bf_get_set_ne 2 1 1), !(bf_get_set_ne 2 1 12), !(bf_get_set_ne 1 1 0), !(bf_get_set_ne 1 1 12),
    !(bf_get_set_ne 0 1 12) by lia.
  by rewrite !bf_get_set_bit by lia.
Qed.

Lemma set_pte_type_1 s va flags : wf_space s -> is_u32 va -> dir_index va < 1023 -> has_table s va ->
  set_pte_type va 1 flags s = Ret (0, poke s (pte_addr s (va / 4096)) (type_word flags (pte s (va / 4096)))).
Proof.
  intros Hwf Hva Hi Ht. unfold has_table in Ht. pose proof (page_range va Hva).
  assert (present (pde s (va / 4096 / 1024)) = 1) as Hp by (by rewrite page_dir_index).
  assert (va / 4096 < 1047552) as Hlt by (rewrite dir_index_div in Hi; Z.div_mod_to_equations; lia).
  pose proof (slot_pte s (va / 4096) Hwf ltac:(lia) Hp) as Hs.
  unfold set_pte_type, mbind, M_mbind. rewrite get_pte_pointer_1 by (done || by apply wf_space_dir). rewrite Ht. ostep. cbn [Z.eqb Pos.eqb].
  rewrite (proj2 (Z.eqb_neq _ _) (page_tables_entry_ne (va / 4096) ltac:(lia))).
  rewrite (update_slot s _ _ _ Hs). ostep.
  rewrite (update_slot _ _ _ _ (slot_poke _ _ _ _ Hs)). ostep. rewrite poke_poke, pget_poke.
  rewrite (update_slot _ _ _ _ (slot_poke _ _ _ _ Hs)). ostep. by rewrite poke_poke, pget_poke.
Qed.

(** ** Pages in a row *)

(** The pages of [n] addresses from [p] on have tables, below the window. *)
Definition tabled (s : mmu) (n : nat) (p : Z) : Prop :=
  0 <= p /\ p mod 4096 = 0 /\ p + 4096 * Z.of_nat n <= page_tables /\
  forall j, 0 <= j < Z.of_nat n -> has_table s (p + 4096 * j).

Definition row (n : nat) (p q : Z) : Prop := p / 4096 <= q < p / 4096 + Z.of_nat n.
#[export] Instance row_dec n p q : Decision (row n p q).
Proof. unfold row. apply _. Defined.

Lemma tabled_page s n p : tabled s (S n) p -> is_u32 p /\ dir_index p < 1023 /\ has_table s p /\ u32 (p + page_size) = p + 4096 /\
  0 <= p / 4096 < 1047552 /\ present (pde s (p / 4096 / 1024)) = 1.
Proof.
  unfold tabled, page_tables, page_size, is_u32. intros (H1 & H2 & H3 & H4). rewrite Nat2Z.inj_succ in *.
  specialize (H4 0 ltac:(lia)). rewrite Z.mul_0_r, Z.add_0_r in H4.
  rewrite u32_id by (unfold is_u32; lia). rewrite page_dir_index.
  split_and!; try done; rewrite ?dir_index_div; Z.div_mod_to_equations; lia.
Qed.

Lemma tabled_next s n p w : wf_space s -> tabled s (S n) p -> tabled (poke s (pte_addr s (p / 4096)) w) n (p + 4096).
Proof.
  intros Hwf Ht. destruct (tabled_page s n p Ht) as (_ & _ & _ & _ & Hr & Hp). destruct Ht as (H1 & H2 & H3 & H4).
  split; [lia|]. split; [Z.div_mod_to_equations; lia|]. split; [lia|]. intros j Hj. unfold has_table.
  rewrite poke_pte_pde; [|done|done|done|].
  - replace (p + 4096 + 4096 * j) with (p + 4096 * (j + 1)) by lia. apply H4. lia.
  - apply dir_index_range. unfold page_tables, is_u32 in *. lia.
Qed.

Lemma tabled_row s n p q : tabled s n p -> row n p q -> 0 <= q < 1047552 /\ present (pde s (q / 1024)) = 1.
Proof.
  unfold tabled, row, page_tables, is_u32. intros (H1 & H2 & H3 & H4) Hq. split; [Z.div_mod_to_equations; lia|].
  specialize (H4 (q - p / 4096) ltac:(lia)). unfold has_table in H4. rewrite dir_index_div in H4.
  replace (q / 1024) with ((p + 4096 * (q - p / 4096)) / 4194304); [done|]. Z.div_mod_to_equations. lia.
Qed.

Lemma row_next n p q : p mod 4096 = 0 -> q = p / 4096 \/ row n (p + 4096) q <-> row (S n) p q.
Proof. unfold row. intros Hp. Z.div_mod_to_equations. lia. Qed.

(** One more entry of a row: the step of both loops. *)
Lemma row_updated s s' n p f : wf_space s -> tabled s (S n) p ->
  ptes_updated (row n (p + 4096)) f (poke s (pte_addr s (p / 4096)) (f (p / 4096) (pte s (p / 4096)))) s' ->
  ptes_updated (row (S n) p) f s s'.
Proof.
  intros Hwf Ht Hu. destruct (tabled_page s n p Ht) as (_ & _ & _ & _ & Hr & Hp). destruct Ht as (H1 & H2 & H3 & _).
  eapply ptes_updated_ext; [intros q; by apply row_next|]. apply ptes_updated_cons; try done.
  - unfold row. Z.div_mod_to_equations. lia.
  - unfold row, page_tables in *. intros q. Z.div_mod_to_equations. lia.
Qed.

Lemma protect_text_run n : forall s p stop fuel, wf_space s -> tabled s n p ->
  p + 4096 * Z.of_nat n - 4096 < stop <= p + 4096 * Z.of_nat n -> (n < fuel)%nat ->
  exists s', protect_text fuel p stop s = Ret (tt, s') /\ ptes_updated (row n p) (fun _ => type_word PAGE_PRESENT) s s'.
Proof.
  induction n as [|n IH]; intros s p stop [|fuel] Hwf Ht Hst Hf; try lia; cbn [protect_text].
  { exists s. rewrite (proj2 (Z.ltb_ge p stop)) by lia. split; [done|]. apply ptes_updated_none; [done|]. unfold row. lia. }
  rewrite Nat2Z.inj_succ in Hst. rewrite (proj2 (Z.ltb_lt p stop)) by lia.
  destruct (tabled_page s n p Ht) as (Hu & Hd & Hta & -> & Hr & Hp). unfold mbind, M_mbind.
  change (page_table_levels - 1) with 1. rewrite set_pte_type_1 by done. ostep.
  destruct (IH (poke s (pte_addr s (p / 4096)) (type_word PAGE_PRESENT (pte s (p / 4096)))) (p + 4096) stop fuel)
    as (s' & E & U); [by apply poke_pte_wf|by apply tabled_next|lia|lia|].
  exists s'. split; [done|]. by apply row_updated.
Qed.

(** A row of entries present with the rights [writable] leaves, seen through the
    processor's translation. *)
Lemma row_translate s s' n p f : wf_space s -> tabled s n p -> ptes_updated (row n p) f s s' ->
  (forall va write, is_u32 va -> row n p (va / 4096) -> translate s' write va =
    let w := f (va / 4096) (pte s (va / 4096)) in
    if allows write (pde s (dir_index va)) && allows write w then Some (frame_of w + page_offset va) else None) /\
  (forall va write, is_u32 va -> ~ row n p (va / 4096) -> translate s' write va = translate s write va).
Proof.
  intros Hwf Ht [U1 U2 U3 U4 U5 U6].
  assert (forall va, is_u32 va -> 0 <= va / 4096 < 1048576 /\ 0 <= dir_index va < 1024 /\ va / 4096 / 1024 = dir_index va) as Hr.
  { intros va Hva. split; [by apply page_range|]. split; [by apply dir_index_range|apply page_dir_index]. }
  split; intros va write Hva Hrow; destruct (Hr va Hva) as (R1 & R2 & R3); rewrite !translate_eq, U3 by done;
    unfold allows; destruct (Z.eqb_spec (present (pde s (dir_index va))) 1) as [Hp|Hp]; cbn [andb]; try done.
  - rewrite U4 by (try done; by rewrite R3). by destruct (negb write || _).
  - rewrite U5 by (try done; by rewrite R3). done.
Qed.

Lemma ptes_updated_f P f g s s' : (forall q w, f q w = g q w) -> ptes_updated P f s s' -> ptes_updated P g s s'.
Proof. intros E [H1 H2 H3 H4 H5 H6]. split; try done. intros q Q1 Q2 Q3. rewrite <- E. by apply H4. Qed.

(** Only entries of tables there are were written to. *)
Record entries_only (s s' : mmu) : Prop := {
  eo_root : cr3 s' = cr3 s;
  eo_entries : forall i, 0 <= i < 1024 -> pde s' i = pde s i;
  eo_words : forall a, (forall i, 0 <= i < 1024 -> present (pde s i) = 1 -> 4096 * (a / 4096) <> frame_of (pde s i)) ->
    pget (phys s') a = pget (phys s) a
}.

Lemma entries_only_trans s1 s2 s3 : entries_only s1 s2 -> entries_only s2 s3 -> entries_only s1 s3.
Proof.
  intros [R1 E1 W1] [R2 E2 W2]. split; [congruence|intros i Hi; by rewrite E2, E1|].
  intros a Ha. rewrite W2, W1; [done..|]. intros i Hi. rewrite E1 by done. by apply Ha.
Qed.

Lemma row_entries_only s s' n p f : tabled s n p -> ptes_updated (row n p) f s s' -> entries_only s s'.
Proof.
  intros Ht [_ U2 U3 _ _ U6]. split; [done|done|]. intros a Ha. apply U6. intros q Hq ->.
  destruct (tabled_row s n p q Ht Hq) as [Hr Hp]. apply (Ha (q / 1024)); [Z.div_mod_to_equations; lia|done|].
  unfold pte_addr. pose proof (frame_of_range (pde s (q / 1024))). Z.div_mod_to_equations. lia.
Qed.

(** ** The allocator's bitmap *)

Lemma no_flag_present w : present w = 0 -> (Z.land (pte_flags w) PAGE_PRESENT =? 0) = true.
Proof.
  intros H. pose proof (pte_flags_present w) as K. rewrite H in K. unfold has_flag in K.
  by destruct (Z.land (pte_flags w) PAGE_PRESENT =? 0).
Qed.

Lemma flag_present w : present w = 1 -> (Z.land (pte_flags w) PAGE_PRESENT =? 0) = false.
Proof.
  intros H. pose proof (pte_flags_present w) as K. rewrite H in K. unfold has_flag in K.
  by destruct (Z.land (pte_flags w) PAGE_PRESENT =? 0).
Qed.

Lemma map_bitmap_page_run s p location k : wf_space s -> is_u32 p -> dir_index p < 1023 -> has_table s p ->
  present (pte s (p / 4096)) = 0 ->
  map_bitmap_page (Z.to_nat page_table_levels) p 0 location k s =
    Ret (Some (k + 1), poke s (pte_addr s (p / 4096)) (pte_word (Z.lor PAGE_PRESENT PAGE_RW) location (pte s (p / 4096)))).
Proof.
  intros Hwf Hp Hd Ht Hn. change (Z.to_nat page_table_levels) with 2%nat. cbn [map_bitmap_page]. unfold mbind, M_mbind.
  rewrite get_pte_type_0 by (done || by apply wf_space_dir). ostep. rewrite flag_present by done.
  change (0 =? page_table_levels - 1) with false. cbv iota. change (0 + 1) with 1.
  rewrite get_pte_type_1 by done. ostep. rewrite Ht. change (1 =? 1) with true. cbv iota.
  rewrite no_flag_present by done. by rewrite set_pte_1 by done.
Qed.

Section boot_run.
Context {Mp : Type} (regions : Mp -> list region) (memmap_insert_region : Mp -> Z -> Z -> Z -> Mp).
Context (M_AVAILABLE M_UNAVAILABLE : Z).

(** The map once the [n] frames from [location] on are claimed. *)
Fixpoint claimed (n : nat) (location : Z) (map : Mp) : Mp :=
  match n with
  | O => map
  | S n => claimed n (location + 4096) (memmap_insert_region map location page_size M_UNAVAILABLE)
  end.

(** The entry of page [q] of the bitmap, whose first page [base] is in frame [location]. *)
Definition bitmap_word (base location q w : Z) : Z :=
  pte_word (Z.lor PAGE_PRESENT PAGE_RW) (location + 4096 * (q - base / 4096)) w.

(** The pages of the row are in no frame yet. *)
Definition unmapped_row (s : mmu) (n : nat) (p : Z) : Prop := forall q, row n p q -> present (pte s q) = 0.

Lemma claim_region_run n : forall fuel base location region_end needed k map s,
  wf_space s -> tabled s n (base + 4096 * k) -> unmapped_row s n (base + 4096 * k) ->
  0 <= k -> 0 <= base -> needed = k + Z.of_nat n -> 0 <= location -> location + 4096 * Z.of_nat n <= region_end -> is_u32 region_end ->
  (n < fuel)%nat ->
  exists s', claim_region memmap_insert_region M_UNAVAILABLE fuel base location region_end needed k map s =
    Ret (Some (needed, claimed n location map), s') /\
    ptes_updated (row n (base + 4096 * k)) (bitmap_word (base + 4096 * k) location) s s'.
Proof.
  induction n as [|n IH]; intros [|fuel] base location region_end needed k map s Hwf Ht Hn Hk Hb He Hl Hr Hu Hf; try lia; cbn [claim_region].
  { exists s. rewrite (proj2 (Z.ltb_ge k needed)), andb_false_r by lia. split; [|apply ptes_updated_none; [done|unfold row; lia]].
    replace needed with k by lia. done. }
  rewrite Nat2Z.inj_succ in *. unfold is_u32, page_size in *. rewrite (u32_id (location + 4096)) by (unfold is_u32; lia).
  rewrite (proj2 (Z.leb_le _ _)), (proj2 (Z.ltb_lt k needed)) by lia. cbn [andb].
  destruct (tabled_page s n _ Ht) as (Hp & Hd & Hta & Hnext & Hrange & Hpde).
  replace (base + k * 4096) with (base + 4096 * k) by lia. rewrite u32_id by done. unfold mbind, M_mbind.
  rewrite map_bitmap_page_run; [|done..|apply Hn; unfold row; lia]. ostep.
  set (p := base + 4096 * k) in *.
  destruct (IH fuel base (location + 4096) region_end needed (k + 1)
    (memmap_insert_region map location 4096 M_UNAVAILABLE)
    (poke s (pte_addr s (p / 4096)) (pte_word (Z.lor PAGE_PRESENT PAGE_RW) location (pte s (p / 4096)))))
    as (s' & E & U); try lia; replace (base + 4096 * (k + 1)) with (p + 4096) in * by lia.
  - by apply poke_pte_wf.
  - by apply tabled_next.
  - intros q Hq. destruct Ht as (T1 & T2 & T3 & T4). unfold row in Hq.
    assert (q <> p / 4096 /\ row (S n) p q) as [Hne Hq'] by (unfold row; Z.div_mod_to_equations; lia).
    destruct (tabled_row s (S n) p q) as [Hq1 Hq2]; [by repeat split; subst p|done|].
    rewrite poke_pte_pte; [|done|done|done|lia|done]. rewrite decide_False by done. by apply Hn.
  - rewrite E. exists s'. split; [done|]. apply row_updated; [done|done|].
    replace (bitmap_word p location (p / 4096) (pte s (p / 4096)))
      with (pte_word (Z.lor PAGE_PRESENT PAGE_RW) location (pte s (p / 4096)))
      by (unfold bitmap_word; f_equal; lia).
    revert U. apply ptes_updated_f. unfold bitmap_word. intros q w. f_equal.
    destruct Ht as (T1 & T2 & _). Z.div_mod_to_equations. lia.
Qed.

(** The first frame of a region, and its end. *)
Definition region_frame (r : region) : Z := 4096 * ((region_location r + 4095) / 4096).
Definition region_stop (r : region) : Z := u32 (region_location r + region_size r).

(** The loop finds nothing to claim in [r]. *)
Definition no_frame (r : region) : Prop :=
  is_u32 (region_frame r + 4096) /\ 0 <= region_location r /\
  (region_type r <> M_AVAILABLE \/ region_stop r < region_frame r + 4096).

(** [r] is available and has room for [n] frames. *)
Definition has_frames (n : nat) (r : region) : Prop :=
  region_type r = M_AVAILABLE /\ 0 <= region_location r /\ region_frame r + 4096 * Z.of_nat n <= region_stop r.

Lemma region_frame_code r : 0 <= region_location r -> is_u32 (region_frame r + 4096) ->
  Z.ldiff (u32 (region_location r + page_size - 1)) (page_size - 1) = region_frame r /\ 0 <= region_frame r.
Proof.
  unfold page_size, region_frame, is_u32. intros H1 H2. split; [|Z.div_mod_to_equations; lia].
  rewrite u32_id by (unfold is_u32; Z.div_mod_to_equations; lia). change (4096 - 1) with (Z.ones 12).
  rewrite Z.ldiff_ones_r, Z.shiftl_mul_pow2, Z.shiftr_div_pow2 by lia. change (2 ^ 12) with 4096.
  rewrite Z.mul_comm. do 2 f_equal. lia.
Qed.

(** The regions before [j] have nothing to claim: the loop gets to [j]. *)
Lemma claim_frames_skip d : forall fuel rfuel base needed i map s,
  0 < needed -> (0 < rfuel)%nat -> (forall i', (i <= i' < i + d)%nat -> exists r, regions map !! i' = Some r /\ no_frame r) ->
  claim_frames regions memmap_insert_region M_AVAILABLE M_UNAVAILABLE (d + fuel) rfuel base needed i 0 map s =
  claim_frames regions memmap_insert_region M_AVAILABLE M_UNAVAILABLE fuel rfuel base needed (i + d) 0 map s.
Proof.
  induction d as [|d IH]; intros fuel [|rfuel] base needed i map s Hn Hf Hr; try lia; [by rewrite Nat.add_0_r|].
  destruct (Hr i ltac:(lia)) as (r & Er & Hu & Hl & Hno). cbn [Nat.add claim_frames]. rewrite Er.
  rewrite (proj2 (Z.ltb_lt 0 needed)) by lia. rewrite <- Nat.add_succ_comm.
  destruct (Z.eqb_spec (region_type r) M_AVAILABLE) as [Ha|Ha]; cbn [negb]; [|apply IH; [done|lia|intros; apply Hr; lia]].
  destruct Hno as [Hno|Hno]; [done|]. destruct (region_frame_code r) as [-> H0]; [done|done|].
  unfold mbind at 1, M_mbind at 1. cbn [claim_region]. rewrite u32_id by done. fold (region_stop r).
  rewrite (proj2 (Z.leb_gt _ _)) by done. cbn [andb]. ostep. apply IH; [done|lia|intros; apply Hr; lia].
Qed.

Lemma claim_frames_run n j r fuel rfuel base map s :
  wf_space s -> tabled s n base -> unmapped_row s n base -> (0 < n < rfuel)%nat -> (j + 1 < fuel)%nat ->
  regions map !! j = Some r -> has_frames n r -> (forall i, (i < j)%nat -> exists r', regions map !! i = Some r' /\ no_frame r') ->
  exists s', claim_frames regions memmap_insert_region M_AVAILABLE M_UNAVAILABLE fuel rfuel base (Z.of_nat n) 0 0 map s =
    Ret (Some (claimed n (region_frame r) map), s') /\ ptes_updated (row n base) (bitmap_word base (region_frame r)) s s'.
Proof.
  intros Hwf Ht Hu Hn Hf Hr (Ha & Hl & Hs) Hb. replace fuel with (j + (2 + (fuel - j - 2)))%nat by lia.
  rewrite claim_frames_skip by (lia || (intros; apply Hb; lia)). cbn [Nat.add claim_frames]. rewrite Hr, Ha, Z.eqb_refl.
  rewrite (proj2 (Z.ltb_lt 0 _)) by lia. cbn [negb]. pose proof (u32_range (region_location r + region_size r)) as Hst. fold (region_stop r) in Hst.
  destruct (region_frame_code r) as [-> H0]; [done|unfold is_u32, region_frame in *; Z.div_mod_to_equations; lia|]. unfold mbind at 1, M_mbind at 1.
  destruct (claim_region_run n rfuel base (region_frame r) (region_stop r) (Z.of_nat n) 0 map s) as (s' & E & U);
    rewrite ?Z.mul_0_r, ?Z.add_0_r in *; try done; try lia; [by destruct Ht|].
  exists s'. split; [|done]. fold (region_stop r). rewrite E. ostep.
  destruct (regions _ !! S j); [by rewrite Z.ltb_irrefl|done].
Qed.
End boot_run.

(** The bitmap's pages, seen through the translation. *)
Lemma bitmap_translate s s' n base frame : wf_space s -> tabled s n base -> 0 <= frame -> frame mod 4096 = 0 ->
  frame + 4096 * Z.of_nat n <= 2 ^ 32 -> ptes_updated (row n base) (bitmap_word base frame) s s' ->
  forall va write, is_u32 va -> row n base (va / 4096) -> translate s' write va =
    if allows write (pde s (dir_index va)) then Some (frame + (va - base)) else None.
Proof.
  intros Hwf Ht Hf Hm Hb U va write Hva Hrow. rewrite (proj1 (row_translate s s' n base _ Hwf Ht U)) by done. cbv zeta.
  unfold bitmap_word. destruct Ht as (H1 & H2 & _). unfold row in Hrow.
  destruct (pte_word_fields (Z.lor PAGE_PRESENT PAGE_RW) (frame + 4096 * (va / 4096 - base / 4096)) (pte s (va / 4096)))
    as (P & R & _ & F); [unfold is_u32; lia|].
  unfold allows at 2. rewrite P, R. change (bit _) with 1 at 1. change (bit _) with 1. rewrite F.
  destruct (allows write (pde s (dir_index va))); [|done]. cbn [andb Z.eqb Pos.eqb]. rewrite orb_true_r. f_equal.
  rewrite page_offset_mod. Z.div_mod_to_equations. lia.
Qed.

Lemma protected_word w : present (type_word PAGE_PRESENT w) = 1 /\ rw (type_word PAGE_PRESENT w) = 0 /\
  frame_of (type_word PAGE_PRESENT w) = frame_of w.
Proof. destruct (type_word_fields PAGE_PRESENT w) as (-> & -> & _ & ->). done. Qed.

(** ** Both loops *)

(** The second row of entries, untouched by an update of the first. *)
Lemma tabled_updated P f s s' n p : ptes_updated P f s s' -> tabled s n p -> tabled s' n p.
Proof.
  intros U (H1 & H2 & H3 & H4). split; [done|]. split; [done|]. split; [done|]. intros j Hj. unfold has_table.
  rewrite (pu_pde _ _ _ _ U); [by apply H4|]. apply dir_index_range. unfold is_u32, page_tables in *. lia.
Qed.

Lemma unmapped_updated P f s s' n p : ptes_updated P f s s' -> tabled s n p -> unmapped_row s n p ->
  (forall q, row n p q -> ~ P q) -> unmapped_row s' n p.
Proof.
  intros U Ht Hu HP q Hq. destruct (tabled_row s n p q Ht Hq) as [Hr Hp]. rewrite (pu_out _ _ _ _ U) by (done || lia || by apply HP).
  by apply Hu.
Qed.

(** ** The rest of the boot table *)

Lemma translate_none s write va va' : va' / 4096 = va / 4096 -> translate s write va = None -> translate s write va' = None.
Proof.
  intros E. rewrite !translate_eq, <- !page_dir_index, E.
  destruct (allows write (pde s _)); [|done]. by destruct (allows write _).
Qed.

(** ** Up to the kernel heap *)
Section memory.
Context {Mp B D : Type} `{BitmapHeap B} (regions : Mp -> list region) (empty_map : Z -> Mp).
Context (memmap_insert_region : Mp -> Z -> Z -> Z -> Mp) (bitmap_size : Mp -> Z -> Z -> Z) (M_AVAILABLE M_UNAVAILABLE : Z).
Context (initialize_page_heap : descriptor -> Mp -> Z * B).
Context (initialize_system_heap : descriptor -> Mp -> (Z -> Z -> M (mm B) Z) -> M (mm B) (Z * D)).
Context (kernel_start kernel_tend kernel_end kernel_pstart kernel_pend : Z) (bitmap_bytes : B -> Z).

(** The memory map with the kernel's image taken out of it. *)
Definition without_kernel (map : Mp) : Mp := memmap_insert_region map kernel_pstart (u32 (kernel_pend - kernel_pstart)) M_UNAVAILABLE.

(** What the code needs of the memory map: [n] pages are the bitmap's, and the first
    region that is worth anything, the [j]-th, has [n] frames. *)
Record map_ready (n j : nat) (r : region) (fuel rfuel : nat) (map : Mp) : Prop := {
  mr_fuel : (0 < n < rfuel)%nat /\ (j + 1 < fuel)%nat;
  mr_needed : u32 (bitmap_size (without_kernel map) page_size 1 + page_size - 1) / page_size = Z.of_nat n;
  mr_region : regions (without_kernel map) !! j = Some r /\ has_frames M_AVAILABLE n r;
  mr_before : forall i, (i < j)%nat -> exists r', regions (without_kernel map) !! i = Some r' /\ no_frame M_AVAILABLE r'
}.

(** And of the address space: the text's [nt] pages present, tables but no frames for
    the bitmap's pages after the image. *)
Record memory_ready (nt n : nat) (fuel : nat) (s : mmu) : Prop := {
  mr_space : wf_space s;
  mr_text : tabled s nt kernel_start /\ (forall q, row nt kernel_start q -> present (pte s q) = 1);
  mr_text_end : kernel_start + 4096 * Z.of_nat nt - 4096 < kernel_tend <= kernel_start + 4096 * Z.of_nat nt;
  mr_bitmap : tabled s n kernel_end /\ unmapped_row s n kernel_end /\ kernel_start + 4096 * Z.of_nat nt <= kernel_end;
  mr_rounds : (nt < fuel)%nat
}.

(** The allocator that libmalloc makes, and the maps it and the kernel heap get. *)
Definition page_heap (n : nat) (r : region) (map : Mp) : Z * B :=
  initialize_page_heap (Descriptor kernel_end MAX_CACHE_SIZE 1 page_size 0)
    (claimed memmap_insert_region M_UNAVAILABLE n (region_frame r) (without_kernel map)).
Definition system_map (b : B) : Mp :=
  memmap_insert_region (memmap_insert_region (empty_map 8) 0 (u32 (page_tables - kernel_start)) M_AVAILABLE)
    0 (u32 (u32 (kernel_end + bitmap_bytes b) - kernel_start)) M_UNAVAILABLE.

(** The address space with the text protected and the bitmap mapped. *)
Record memory_laid_out (nt n : nat) (r : region) (s s' : mmu) : Prop := {
  ml_space : wf_space s';
  ml_entries : entries_only s s';
  ml_text : forall va, is_u32 va -> row nt kernel_start (va / 4096) ->
    translate s' false va = translate s false va /\ translate s false va <> None /\ translate s' true va = None;
  ml_bitmap : forall va write, is_u32 va -> row n kernel_end (va / 4096) -> translate s' write va =
    if allows write (pde s (dir_index va)) then Some (region_frame r + (va - kernel_end)) else None;
  ml_other : forall va write, is_u32 va -> ~ row nt kernel_start (va / 4096) -> ~ row n kernel_end (va / 4096) ->
    translate s' write va = translate s write va
}.

Lemma protected_row s s' nt p : wf_space s -> tabled s nt p -> (forall q, row nt p q -> present (pte s q) = 1) ->
  ptes_updated (row nt p) (fun _ => type_word PAGE_PRESENT) s s' -> forall va, is_u32 va -> row nt p (va / 4096) ->
  translate s' false va = translate s false va /\ translate s false va <> None /\ translate s' true va = None.
Proof.
  intros Hwf Ht Hm U va Hva Hrow. rewrite !(proj1 (row_translate s s' nt p _ Hwf Ht U)), translate_eq by done. cbv zeta. unfold allows.
  destruct (protected_word (pte s (va / 4096))) as (-> & -> & ->). rewrite (Hm _ Hrow).
  destruct (tabled_row s nt p _ Ht Hrow) as [_ Hp]. rewrite page_dir_index in Hp. rewrite Hp.
  split_and!; try done. by rewrite andb_false_r.
Qed.

Lemma initialize_memory_run nt n j r fuel rfuel map s : memory_ready nt n fuel s ->
  map_ready n j r fuel rfuel map ->
  exists s', initialize_memory regions empty_map memmap_insert_region bitmap_size M_AVAILABLE M_UNAVAILABLE initialize_page_heap
      initialize_system_heap kernel_start kernel_tend kernel_end kernel_pstart kernel_pend bitmap_bytes fuel rfuel map s =
    (if (page_heap n r map).1 =? 0 then
       '(status, d, w) ← initialize_system_heap (Descriptor NULL 16 4 64 kernel_start) (system_map (page_heap n r map).2) mmap_callback
         (MM s' (page_heap n r map).2);
       if negb (status =? 0) then Panic else Ret (d, w)
     else Panic) /\
    memory_laid_out nt n r s s'.
Proof.
  intros [Hwf [Ht Hm] Hte (Hb & Hu & Hd) F1] [(F2 & F3) Hneed [Hr Hfr] Hbe].
  destruct (protect_text_run nt s kernel_start kernel_tend fuel Hwf Ht Hte F1) as (s1 & E1 & U1).
  assert (forall q, row n kernel_end q -> ~ row nt kernel_start q) as Hdis.
  { destruct Ht as (_ & A & _), Hb as (_ & A' & _). unfold row. intros. Z.div_mod_to_equations. lia. }
  pose proof (tabled_updated _ _ _ _ n kernel_end U1 Hb) as Hb1.
  destruct (claim_frames_run regions memmap_insert_region M_AVAILABLE M_UNAVAILABLE n j r fuel rfuel kernel_end (without_kernel map) s1)
    as (s' & E & U); try done; [apply U1|by eapply unmapped_updated|].
  exists s'. split.
  - unfold initialize_memory. rewrite E1. ostep. fold (without_kernel map). unfold initialize_page_map. rewrite Hneed.
    unfold mbind, M_mbind. rewrite E. ostep. fold (page_heap n r map). destruct (page_heap n r map) as [status b]. cbn [fst snd].
    unfold mret, M_mret. destruct (status =? 0); [|done]. reflexivity.
  - pose proof (row_translate _ _ n kernel_end _ (pu_wf _ _ _ _ U1) Hb1 U) as [_ T2].
    pose proof (row_translate _ _ nt kernel_start _ Hwf Ht U1) as [_ T1].
    pose proof (protected_row s s1 nt kernel_start Hwf Ht Hm U1) as P.
    split; [apply U| |..].
    + exact (entries_only_trans _ _ _ (row_entries_only _ _ _ _ _ Ht U1) (row_entries_only _ _ _ _ _ Hb1 U)).
    + intros va Hva Hrow. rewrite !T2 by (done || intros K; by apply (Hdis _ K)). by apply P.
    + intros va write Hva Hrow. rewrite (bitmap_translate s1 s' n kernel_end (region_frame r)); [|apply U1|done|..|exact U|done|done].
      * rewrite (pu_pde _ _ _ _ U1); [done|]. by apply dir_index_range.
      * destruct Hfr as (_ & Hl & _). unfold region_frame. Z.div_mod_to_equations. lia.
      * unfold region_frame. rewrite Z.mul_comm. apply Z_mod_mult.
      * destruct Hfr as (_ & Hl & Hs). pose proof (u32_range (region_location r + region_size r)) as Hst.
        fold (region_stop r) in Hst. unfold is_u32 in Hst. lia.
    + intros va write Hva H1 H2. rewrite T2 by done. by apply T1.
Qed.
End memory.

(** * Properties *)

(** The loop of [kernel_initialize] over the kernel's text terminates; every
    page of the text, mapped before it, still translates to its frame for
    reading and faults on writes, and no other translation changes. *)
Theorem protect_text_spec n s start stop fuel : wf_space s -> tabled s n start ->
  start + 4096 * Z.of_nat n - 4096 < stop <= start + 4096 * Z.of_nat n -> (n < fuel)%nat ->
  (forall q, row n start q -> present (pte s q) = 1) ->
  exists s', protect_text fuel start stop s = Ret (tt, s') /\ wf_space s' /\
    (forall va, is_u32 va -> row n start (va / 4096) ->
      translate s' false va = translate s false va /\ translate s false va <> None /\ translate s' true va = None) /\
    (forall va write, is_u32 va -> ~ row n start (va / 4096) -> translate s' write va = translate s write va).
Proof.
  intros Hwf Ht Hst Hf Hm. destruct (protect_text_run n s start stop fuel Hwf Ht Hst Hf) as (s' & E & U).
  exists s'. split; [done|]. split; [apply U|]. split; [by eapply protected_row|apply (row_translate s s' n start _ Hwf Ht U)].
Qed.

Lemma demo_text_wf : wf_space (poke (poke demo_mmu 0x2014 0x5003) 0x2018 0x6003).
Proof.
  assert (pte_addr demo_mmu 5 = 0x2014) as E5 by (vm_compute; reflexivity).
  assert (pte_addr (poke demo_mmu 0x2014 0x5003) 6 = 0x2018) as E6 by (vm_compute; reflexivity).
  rewrite <- E6. apply poke_pte_wf; [|lia|vm_compute; reflexivity].
  rewrite <- E5. apply poke_pte_wf; [exact demo_wf|lia|vm_compute; reflexivity].
Qed.

Lemma protect_text_spec_witness : exists s',
  protect_text 10 0x5000 0x6800 (poke (poke demo_mmu 0x2014 0x5003) 0x2018 0x6003) = Ret (tt, s') /\
  translate s' false 0x5123 = Some 0x5123 /\ translate s' true 0x5123 = None.
Proof.
  set (s := poke (poke demo_mmu 0x2014 0x5003) 0x2018 0x6003).
  destruct (protect_text_spec 2 s 0x5000 0x6800 10) as (s' & E & _ & T & _).
  - exact demo_text_wf.
  - split_and!; try done. intros j Hj. assert (j = 0 \/ j = 1) as [-> | ->] by lia; vm_compute; reflexivity.
  - done.
  - lia.
  - unfold row. intros q Hq. change (0x5000 / 4096) with 5 in Hq.
    assert (q = 5 \/ q = 6) as [-> | ->] by lia; vm_compute; reflexivity.
  - exists s'. split; [exact E|]. destruct (T 0x5123) as (T1 & _ & T2); [by split|by split|].
    rewrite T1. split; [by vm_compute|exact T2].
Defined.

(** [initialize_page_map] terminates when the first region of the map with a
    frame has enough of them and the pages of the bitmap have tables: the
    bitmap's pages are mapped to frames in a row from that region, which are
    taken out of the map given to the allocator, and nothing else is mapped; the
    status is the allocator's, as ENONE or ENOMEM. *)
Theorem initialize_page_map_spec {Mp B} (regions : Mp -> list region) (memmap_insert_region : Mp -> Z -> Z -> Z -> Mp)
    (bitmap_size : Mp -> Z -> Z -> Z) (M_AVAILABLE M_UNAVAILABLE : Z) (initialize_page_heap : descriptor -> Mp -> Z * B)
    n j r fuel rfuel map base size s :
  wf_space s -> tabled s n base -> unmapped_row s n base -> (0 < n < rfuel)%nat -> (j + 1 < fuel)%nat ->
  u32 (bitmap_size map size 1 + page_size - 1) / page_size = Z.of_nat n ->
  regions map !! j = Some r -> has_frames M_AVAILABLE n r ->
  (forall i, (i < j)%nat -> exists r', regions map !! i = Some r' /\ no_frame M_AVAILABLE r') ->
  let heap := initialize_page_heap (Descriptor base MAX_CACHE_SIZE 1 size 0)
    (claimed memmap_insert_region M_UNAVAILABLE n (region_frame r) map) in
  exists s', initialize_page_map regions memmap_insert_region bitmap_size M_AVAILABLE M_UNAVAILABLE initialize_page_heap
      fuel rfuel map base size s =
      Ret (if heap.1 =? 0 then (err ENONE, Some heap.2) else (err ENOMEM, None), s') /\ wf_space s' /\
    (forall va write, is_u32 va -> row n base (va / 4096) -> translate s' write va =
      if allows write (pde s (dir_index va)) then Some (region_frame r + (va - base)) else None) /\
    (forall va write, is_u32 va -> ~ row n base (va / 4096) -> translate s' write va = translate s write va).
Proof.
  intros Hwf Ht Hu Hn Hf Hneed Hr Hfr Hb heap.
  destruct (claim_frames_run regions memmap_insert_region M_AVAILABLE M_UNAVAILABLE n j r fuel rfuel base map s)
    as (s' & E & U); try done.
  exists s'. split; [|split; [apply U|split]].
  - unfold initialize_page_map. rewrite Hneed. unfold mbind, M_mbind. rewrite E. ostep. unfold heap.
    destruct (initialize_page_heap _ _) as [status b]. cbn [fst snd]. by destruct (status =? 0).
  - destruct Hfr as (_ & Hl & Hs). pose proof (u32_range (region_location r + region_size r)) as Hst.
    fold (region_stop r) in Hst. unfold is_u32 in Hst.
    apply (bitmap_translate s s' n); [done|done| | |lia|done]; unfold region_frame; Z.div_mod_to_equations; lia.
  - by apply (row_translate s s' n base _ Hwf Ht U).
Qed.

Lemma initialize_page_map_spec_witness :
  let insert := fun (m : list region) location size type => m ++ [Region type location size] in
  exists s', initialize_page_map (fun m => m) insert (fun _ _ _ => 5000) 1 2 (fun d m => (0, (d, m))) 10 10
    [Region 2 0 0x100000; Region 1 0x100800 0x8000] 0x10000 4096 demo_mmu =
    Ret ((0, Some (Descriptor 0x10000 32 1 4096 0,
      [Region 2 0 0x100000; Region 1 0x100800 0x8000; Region 2 0x101000 4096; Region 2 0x102000 4096])), s') /\
    translate s' true 0x11234 = Some 0x102234.
Proof.
  intros insert.
  destruct (initialize_page_map_spec (fun m : list region => m) insert (fun _ _ _ => 5000) 1 2 (fun d m => (0, (d, m)))
    2 1 (Region 1 0x100800 0x8000) 10 10 [Region 2 0 0x100000; Region 1 0x100800 0x8000] 0x10000 4096 demo_mmu)
    as (s' & E & _ & T & _).
  - exact demo_wf.
  - split_and!; try done. intros j Hj. assert (j = 0 \/ j = 1) as [-> | ->] by lia; vm_compute; reflexivity.
  - unfold unmapped_row, row. intros q Hq. change (0x10000 / 4096) with 16 in Hq.
    assert (q = 16 \/ q = 17) as [-> | ->] by lia; vm_compute; reflexivity.
  - lia.
  - lia.
  - by vm_compute.
  - done.
  - split; [done|]. by split; vm_compute.
  - intros i Hi. assert (i = 0%nat) as -> by lia. exists (Region 2 0 0x100000). split; [done|]. split; [by split|]. split; [done|by left].
  - exists s'. split; [exact E|]. rewrite T; [by vm_compute|by split|by split].
Defined.

(** [kernel_initialize] up to the kernel heap, when the tables for the bitmap exist
    and the first useful region has the frames: the text is mapped as before for
    reading and faults on writes, the bitmap is mapped to frames in a row from
    that region, no other translation changes, the frames and the kernel's image
    leave the memory map, and the two heaps are initialised with what is then
    left; it panics exactly when one of these calls fails. *)
Theorem initialize_memory_spec {Mp B D} `{BitmapHeap B} (regions : Mp -> list region) empty_map insert bitmap_size
    avail unavail initialize_page_heap (initialize_system_heap : descriptor -> Mp -> (Z -> Z -> M (mm B) Z) -> M (mm B) (Z * D))
    kernel_start kernel_tend kernel_end kernel_pstart kernel_pend bitmap_bytes nt n j r fuel rfuel map s :
  memory_ready kernel_start kernel_tend kernel_end nt n fuel s ->
  map_ready regions insert bitmap_size avail unavail kernel_pstart kernel_pend n j r fuel rfuel map ->
  let heap := page_heap insert unavail initialize_page_heap kernel_end kernel_pstart kernel_pend n r map in
  let system := system_map empty_map insert avail unavail kernel_start kernel_end bitmap_bytes heap.2 in
  exists s', initialize_memory regions empty_map insert bitmap_size avail unavail initialize_page_heap initialize_system_heap
      kernel_start kernel_tend kernel_end kernel_pstart kernel_pend bitmap_bytes fuel rfuel map s =
    (if heap.1 =? 0 then
       '(status, d, w) ← initialize_system_heap (Descriptor NULL 16 4 64 kernel_start) system mmap_callback (MM s' heap.2);
       if negb (status =? 0) then Panic else Ret (d, w)
     else Panic) /\
    memory_laid_out kernel_start kernel_end nt n r s s'.
Proof. intros Hs Hm heap system. by eapply initialize_memory_run. Qed.

(** Two pages of text at 0x5000 and a bitmap of two pages at 0x10000. *)
Definition demo_insert (m : list region) (location size type : Z) : list region := m ++ [Region type location size].
Lemma initialize_memory_spec_witness : exists s',
  initialize_memory (fun m => m) (fun _ => []) demo_insert (fun _ _ _ => 5000) 1 2 (fun _ m => (0, [] : frame_list))
    (fun _ m _ => mret (0, m)) 0x5000 0x6800 0x10000 0x5000 0x10000 (fun _ => 5000) 10 10
    [Region 2 0 0x100000; Region 1 0x100800 0x8000] (poke (poke demo_mmu 0x2014 0x5003) 0x2018 0x6003) =
    Ret ([Region 1 0 0xFFBFB000; Region 2 0 50056], MM s' []) /\
  translate s' true 0x11234 = Some 0x102234 /\ translate s' true 0x5123 = None /\ translate s' false 0x5123 = Some 0x5123.
Proof.
  set (s := poke (poke demo_mmu 0x2014 0x5003) 0x2018 0x6003).
  destruct (initialize_memory_spec (fun m : list region => m) (fun _ => []) demo_insert (fun _ _ _ => 5000) 1 2
    (fun _ m => (0, [] : frame_list)) (fun _ m _ => mret (0, m)) 0x5000 0x6800 0x10000 0x5000 0x10000 (fun _ => 5000)
    2 2 1 (Region 1 0x100800 0x8000) 10 10 [Region 2 0 0x100000; Region 1 0x100800 0x8000] s) as (s' & E & [_ _ T1 T2 _]).
  - split.
    + exact demo_text_wf.
    + split; [split_and!; try done; intros j Hj; assert (j = 0 \/ j = 1) as [-> | ->] by lia; vm_compute; reflexivity|].
      unfold row. intros q Hq. change (0x5000 / 4096) with 5 in Hq. assert (q = 5 \/ q = 6) as [-> | ->] by lia; vm_compute; reflexivity.
    + done.
    + split; [split_and!; try done; intros j Hj; assert (j = 0 \/ j = 1) as [-> | ->] by lia; vm_compute; reflexivity|].
      split; [|done]. unfold unmapped_row, row. intros q Hq. change (0x10000 / 4096) with 16 in Hq.
      assert (q = 16 \/ q = 17) as [-> | ->] by lia; vm_compute; reflexivity.
    + lia.
  - split.
    + lia.
    + by vm_compute.
    + split; [done|]. split; [done|]. by split; vm_compute.
    + intros i Hi. assert (i = 0%nat) as -> by lia. exists (Region 2 0 0x100000). split; [done|]. split; [by split|]. split; [done|by left].
  - exists s'. split; [rewrite E; vm_compute; reflexivity|]. rewrite T2 by by split.
    destruct (T1 0x5123) as (T3 & _ & T4); [by split|by split|]. rewrite T3. split; [by vm_compute|]. split; [exact T4|by vm_compute].
Defined.

(** The page table [initialize_page_map] adds is not wiped: what its frame held
    is read as entries.  With 1 in the frame, the first page of the bitmap
    counts as mapped while it is frame 0 that it is mapped to. *)
Example new_table_not_wiped :
  let insert := fun (m : list region) location size type => m ++ [Region type location size] in
  let s := poke demo_mmu 0x10000 1 in
  exists m s', initialize_page_map (fun m => m) insert (fun _ _ _ => 4096) 1 2 (fun d m => (0, m)) 10 10
    [Region 1 0x10000 0x8000] 0x400000 4096 s = Ret ((0, Some m), s') /\
    translate s' false 0x400000 = Some 0.
Proof. eexists _, _. split; [vm_compute; reflexivity|vm_compute; reflexivity]. Qed.

(** The loop of [x86_startup] terminates with no page of the boot table left
    mapped from the kernel's end to the end of the boot information, and changes
    no other translation and no frame of the allocator. *)
Theorem unmap_boot_table_spec {B} `{BitmapHeapOk B} n : forall (s : mm B) p stop fuel, wf_mm s ->
  0 <= p -> p mod 4096 = 0 -> p + 4096 * Z.of_nat n <= page_tables ->
  p + 4096 * Z.of_nat n - 4096 < stop <= p + 4096 * Z.of_nat n -> (n < fuel)%nat ->
  exists s', unmap_boot_table fuel p stop s = Ret (tt, s') /\ wf_mm s' /\ page_map s' = page_map s /\
    (forall va, is_u32 va -> row n p (va / 4096) -> translate (mem s') false va = None) /\
    (forall va write, is_u32 va -> ~ row n p (va / 4096) -> translate (mem s') write va = translate (mem s) write va).
Proof.
  induction n as [|n IH]; intros s p stop [|fuel] Hwf Hp Hm Hb Hst Hf; try lia; cbn [unmap_boot_table].
  { exists s. rewrite (proj2 (Z.ltb_ge p stop)) by lia. split_and!; try done. unfold row. lia. }
  rewrite Nat2Z.inj_succ in *. rewrite (proj2 (Z.ltb_lt p stop)) by lia. unfold mbind, M_mbind.
  assert (is_u32 p /\ dir_index p < 1023 /\ u32 (p + page_size) = p + 4096) as (Hu & Hd & ->).
  { rewrite dir_index_div. unfold page_tables, page_size, is_u32 in *.
    split; [lia|]. split; [Z.div_mod_to_equations; lia|]. apply u32_id. unfold is_u32. lia. }
  destruct (unmap_page_ok s p Hwf Hu Hd) as (r & s1 & E & W & Hmap & HN & _ & HO). rewrite E. ostep.
  destruct (IH s1 (p + 4096) stop fuel) as (s' & E' & W' & Hmap' & HN' & HO');
    [done|lia|Z.div_mod_to_equations; lia|lia|lia|lia|].
  exists s'. split; [done|]. split; [done|]. split; [by rewrite Hmap'|]. split.
  - intros va Hva Hrow. destruct (decide (row n (p + 4096) (va / 4096))) as [Hr|Hr]; [by apply HN'|].
    rewrite HO' by done. apply row_next in Hrow as [Hq|Hr']; [|done|done].
    by apply (translate_none _ _ p).
  - intros va write Hva Hrow. rewrite HO', HO; [done|done| |done|]; unfold row in *; Z.div_mod_to_equations; lia.
Qed.

Lemma unmap_boot_table_spec_witness :
  let s := MM (poke (poke demo_mmu 0x2014 0x5003) 0x2018 0x6003) ([] : frame_list) in
  exists s', unmap_boot_table 10 0x5000 0x6800 s = Ret (tt, s') /\
    translate (mem s) false 0x6123 = Some 0x6123 /\ translate (mem s') false 0x6123 = None.
Proof.
  intros s. destruct (unmap_boot_table_spec 2 s 0x5000 0x6800 10) as (s' & E & _ & _ & T & _); try lia.
  - split; [exact demo_text_wf|]. intros i _ _ K. by apply elem_of_list_to_set, elem_of_nil in K.
  - done.
  - done.
  - exists s'. split; [exact E|]. split; [by vm_compute|]. apply T; by split.
Defined.
