(* ===== verification/Space.v ===== *)
(** Address spaces as the kernel uses them: the interface between the memory
    manager and the components that touch user memory (kernel.c, context.c,
    syscalls.c).

    [AddressSpaces] lists the calls; the memory manager of Mmgr.v implements
    them over the real page tables, a byte access being a translation and an
    access to the physical word.  [AddressSpacesOk] states what the clients'
    theorems rely on, and a flat instance satisfies it. *)
From S2P Require Import Prelude Status Paging Mmgr.

Class AddressSpaces (W : Type) := {
  as_load : Z -> M W unit;
  as_read8 : Z -> M W Z;
  as_write8 : Z -> Z -> M W unit;
  as_reserve_page : M W Z;
  as_free_page : Z -> M W Z;
  as_map_page : Z -> Z -> Z -> M W Z;
  as_unmap_page : Z -> M W Z;
  as_page_type : Z -> M W Z
}.

(** ** The memory manager as an implementation *)
Definition word_byte (w i : Z) : Z := bf_get (8 * i) 8 w.
Definition set_word_byte (w i b : Z) : Z := bf_set (8 * i) 8 b w.

Definition mmu_read8 (va : Z) : M mmu Z := fun s =>
  pa ← of_option (translate s false va);
  Ret (word_byte (pget (phys s) (4 * (pa / 4))) (pa mod 4), s).

Definition mmu_write8 (va b : Z) : M mmu unit := fun s =>
  pa ← of_option (translate s true va);
  Ret (tt, poke s (4 * (pa / 4)) (set_word_byte (pget (phys s) (4 * (pa / 4))) (pa mod 4) b)).

#[export] Instance mm_spaces {B} `{BitmapHeap B} : AddressSpaces (mm B) := {
  as_load := fun table => on_mem (paging_load_address_space table);
  as_read8 := fun va => on_mem (mmu_read8 va);
  as_write8 := fun va b => on_mem (mmu_write8 va b);
  as_reserve_page := reserve_page;
  as_free_page := free_page;
  as_map_page := map_page;
  as_unmap_page := unmap_page;
  as_page_type := page_type
}.

(** ** Words in memory, little endian *)
Section words.
Context {W : Type} `{AddressSpaces W}.

Definition read_word (a : Z) : M W Z :=
  b0 ← as_read8 a; b1 ← as_read8 (a + 1); b2 ← as_read8 (a + 2); b3 ← as_read8 (a + 3);
  mret (b0 + 2 ^ 8 * b1 + 2 ^ 16 * b2 + 2 ^ 24 * b3).

Definition write_word (a w : Z) : M W unit :=
  _ ← as_write8 a (word_byte w 0); _ ← as_write8 (a + 1) (word_byte w 1);
  _ ← as_write8 (a + 2) (word_byte w 2); as_write8 (a + 3) (word_byte w 3).

(** A structure of words: what [memcpy] moves between it and memory. *)
Fixpoint read_words (n : nat) (a : Z) : M W (list Z) :=
  match n with
  | O => mret []
  | S n => w ← read_word a; ws ← read_words n (a + 4); mret (w :: ws)
  end.

Fixpoint write_words (a : Z) (ws : list Z) : M W unit :=
  match ws with
  | [] => mret tt
  | w :: ws => _ ← write_word a w; write_words (a + 4) ws
  end.
End words.

(** ** What clients rely on

    [as_wf] is the invariant of the implementation, [as_space] says which
    addresses of directories are spaces, [as_current] is the space the processor
    uses, [as_byte] the byte a space has at an address of user memory, if it is
    mapped there.  User memory is private: a store shows in the current space at
    its own address only. *)
Class AddressSpacesOk (W : Type) `{AddressSpaces W} := {
  as_wf : W -> Prop;
  as_space : Z -> Prop;
  as_current : W -> Z;
  as_byte : W -> Z -> Z -> option Z;
  as_byte_range : forall w t a b, as_byte w t a = Some b -> 0 <= b < 256;
  as_load_ok : forall t w, as_wf w -> as_space t ->
    exists w', as_load t w = Ret (tt, w') /\ as_wf w' /\ as_current w' = t /\
      forall t' a, as_byte w' t' a = as_byte w t' a;
  as_read8_ok : forall w a b, as_wf w -> as_byte w (as_current w) a = Some b -> as_read8 a w = Ret (b, w);
  as_write8_ok : forall w a b, as_wf w -> is_Some (as_byte w (as_current w) a) -> 0 <= b < 256 ->
    exists w', as_write8 a b w = Ret (tt, w') /\ as_wf w' /\ as_current w' = as_current w /\
      forall t' a', as_byte w' t' a' = if decide (t' = as_current w /\ a' = a) then Some b else as_byte w t' a'
}.

(** Taking a frame and mapping it: what the loops of mmap and of the program
    loader do.  A frame just reserved is nobody's, so mapping it moves only the
    page it is mapped at, in the current space. *)
Definition same_memory {W} `{AddressSpacesOk W} (w w' : W) : Prop :=
  as_wf w' /\ as_current w' = as_current w /\ forall t a, as_byte w' t a = as_byte w t a.

Class AddressSpacesMap (W : Type) `{AddressSpacesOk W} := {
  as_user_page : Z -> Prop;
  as_reserve_map_ok : forall w, as_wf w ->
    exists f w1, as_reserve_page w = Ret (f, w1) /\ same_memory w w1 /\
    (f = err ENOMEM \/
     (f <> err ENOMEM /\ f mod 4096 = 0 /\ forall page flags, as_user_page page -> has_flag flags PAGE_RW = true ->
       exists st w2, as_map_page page f flags w1 = Ret (st, w2) /\
         ((st = err ENOMEM /\ same_memory w1 w2) \/
          (st = err ENONE /\ as_wf w2 /\ as_current w2 = as_current w1 /\
           (forall t a, ~ (t = as_current w1 /\ a / 4096 = page / 4096) -> as_byte w2 t a = as_byte w1 t a) /\
           (forall a, a / 4096 = page / 4096 -> is_Some (as_byte w2 (as_current w1) a))))))
}.

Section laws.
Context {W : Type} `{AddressSpacesOk W}.

(** The bytes of a word, and the word of four bytes. *)
Lemma word_byte_range w i : 0 <= word_byte w i < 256.
Proof. unfold word_byte. change 256 with (2 ^ 8). apply bf_get_range. lia. Qed.

Lemma word_bytes w : is_u32 w ->
  word_byte w 0 + 2 ^ 8 * word_byte w 1 + 2 ^ 16 * word_byte w 2 + 2 ^ 24 * word_byte w 3 = w.
Proof.
  unfold is_u32, word_byte, bf_get. intros Hw.
  rewrite !Z.land_ones, !Z.shiftr_div_pow2 by lia.
  change (2 ^ (8 * 0)) with 1. change (2 ^ (8 * 1)) with 256. change (2 ^ (8 * 2)) with 65536.
  change (2 ^ (8 * 3)) with 16777216. change (2 ^ 8) with 256. Z.div_mod_to_equations. lia.
Qed.

(** Space [t] holds the word [w], the words [ws], at [a]. *)
Definition holds_word (m : W) (t a w : Z) : Prop :=
  as_wf m /\ as_byte m t a = Some (word_byte w 0) /\ as_byte m t (a + 1) = Some (word_byte w 1) /\
  as_byte m t (a + 2) = Some (word_byte w 2) /\ as_byte m t (a + 3) = Some (word_byte w 3).

Fixpoint holds (m : W) (t a : Z) (ws : list Z) : Prop :=
  match ws with
  | [] => True
  | w :: ws => is_u32 w /\ holds_word m t a w /\ holds m t (a + 4) ws
  end.

(** [n] bytes of user memory are mapped at [a] in space [t]. *)
Definition user_range (m : W) (t a n : Z) : Prop :=
  as_wf m /\ forall i, 0 <= i < n -> is_Some (as_byte m t (a + i)).

Lemma read_word_ok m a w : is_u32 w -> holds_word m (as_current m) a w -> read_word a m = Ret (w, m).
Proof.
  intros Hw (Wf & H1 & H2 & H3 & H4). unfold read_word, mbind, M_mbind.
  rewrite (as_read8_ok _ _ _ Wf H1). ostep. rewrite (as_read8_ok _ _ _ Wf H2). ostep.
  rewrite (as_read8_ok _ _ _ Wf H3). ostep. rewrite (as_read8_ok _ _ _ Wf H4). ostep.
  unfold mret, M_mret. by rewrite word_bytes.
Qed.

Lemma read_words_ok m a ws : holds m (as_current m) a ws -> read_words (length ws) a m = Ret (ws, m).
Proof.
  revert a. induction ws as [|w ws IH]; intros a; cbn [holds read_words length]; [done|].
  intros (Hu & Hw & Hr). unfold mbind, M_mbind. rewrite (read_word_ok m a w) by done. ostep.
  by rewrite IH.
Qed.

(** [m'] is [m] with other contents in [n] bytes of space [t] at [a]. *)
Definition only_writes (m m' : W) (t a n : Z) : Prop :=
  as_wf m' /\ as_current m' = as_current m /\
  (forall t' a', is_Some (as_byte m t' a') -> is_Some (as_byte m' t' a')) /\
  forall t' a', ~ (t' = t /\ a <= a' < a + n) -> as_byte m' t' a' = as_byte m t' a'.

Lemma only_writes_trans m1 m2 m3 t a n a2 n2 a3 n3 :
  only_writes m1 m2 t a2 n2 -> only_writes m2 m3 t a3 n3 ->
  a <= a2 -> a2 + n2 <= a + n -> a <= a3 -> a3 + n3 <= a + n -> only_writes m1 m3 t a n.
Proof.
  intros (_ & A1 & A2 & A3) (BW & B1 & B2 & B3) **. split; [exact BW|]. split; [congruence|]. split; [auto|].
  intros t' a' Hn. rewrite B3, A3; [done|..]; intros [-> ?]; apply Hn; (split; [done|lia]).
Qed.

Lemma write8_run m a b : as_wf m -> is_Some (as_byte m (as_current m) a) -> 0 <= b < 256 ->
  exists m', as_write8 a b m = Ret (tt, m') /\ only_writes m m' (as_current m) a 1 /\
    as_byte m' (as_current m) a = Some b.
Proof.
  intros Hwf Ha Hb. destruct (as_write8_ok m a b Hwf Ha Hb) as (m' & E & Hwf' & Hc & Hv).
  exists m'. split; [done|]. split; [|by rewrite Hv, decide_True].
  split; [done|]. split; [done|]. split.
  - intros t' a' Hs. rewrite Hv. by case_decide.
  - intros t' a' Hn. rewrite Hv, decide_False; [done|]. intros [-> ->]. apply Hn. lia.
Qed.

Lemma write_word_ok m a w : user_range m (as_current m) a 4 ->
  exists m', write_word a w m = Ret (tt, m') /\ only_writes m m' (as_current m) a 4 /\
    holds_word m' (as_current m) a w.
Proof.
  intros [Hwf Hr]. set (t := as_current m).
  pose proof (Hr 0 ltac:(lia)) as R0. rewrite Z.add_0_r in R0.
  destruct (write8_run m a (word_byte w 0) Hwf R0 (word_byte_range _ _)) as (m0 & E0 & W0 & V0).
  pose proof W0 as (F0 & C0 & S0 & O0). fold t in C0, V0, O0.
  destruct (write8_run m0 (a + 1) (word_byte w 1)) as (m1 & E1 & W1 & V1);
    [done|rewrite C0; apply S0, Hr; lia|apply word_byte_range|].
  rewrite C0 in W1, V1. pose proof W1 as (F1 & C1 & S1 & O1).
  destruct (write8_run m1 (a + 2) (word_byte w 2)) as (m2 & E2 & W2 & V2);
    [done|rewrite C1, C0; apply S1, S0, Hr; lia|apply word_byte_range|].
  rewrite C1, C0 in W2, V2. pose proof W2 as (F2 & C2 & S2 & O2).
  destruct (write8_run m2 (a + 3) (word_byte w 3)) as (m3 & E3 & W3 & V3);
    [done|rewrite C2, C1, C0; apply S2, S1, S0, Hr; lia|apply word_byte_range|].
  rewrite C2, C1, C0 in W3, V3. pose proof W3 as (F3 & C3 & S3 & O3).
  exists m3. split_and!.
  - unfold write_word, mbind, M_mbind. rewrite E0. ostep. rewrite E1. ostep. rewrite E2. ostep. done.
  - apply (only_writes_trans m m2 m3 t a 4 a 3 (a + 3) 1); [|done|lia..].
    apply (only_writes_trans m m1 m2 t a 3 a 2 (a + 2) 1); [|done|lia..].
    apply (only_writes_trans m m0 m1 t a 2 a 1 (a + 1) 1); (done || lia).
  - unfold holds_word. split; [done|]. rewrite O3, O2, O1, V0, (O3 t (a + 1)), (O2 t (a + 1)), V1, (O3 t (a + 2)), V2, V3 by lia.
    done.
Qed.

Lemma holds_word_frame m m' t t0 a w a0 n : only_writes m m' t0 a0 n ->
  t <> t0 \/ a + 4 <= a0 \/ a0 + n <= a -> holds_word m t a w -> holds_word m' t a w.
Proof. intros (F & _ & _ & O) Hd (_&?&?&?&?). unfold holds_word. rewrite !O by lia. done. Qed.

Lemma holds_frame m m' t t0 a ws a0 n : only_writes m m' t0 a0 n ->
  t <> t0 \/ a + 4 * Z.of_nat (length ws) <= a0 \/ a0 + n <= a -> holds m t a ws -> holds m' t a ws.
Proof.
  intros Ho. revert a. induction ws as [|w ws IH]; intros a Hd; cbn [holds length] in *; [done|].
  intros (Hu & Hw & Hr). split; [done|]. split.
  - eapply holds_word_frame; [done| |done]. lia.
  - apply IH; [lia|done].
Qed.

Lemma holds_u32 m t a ws : holds m t a ws -> Forall is_u32 ws.
Proof.
  revert a. induction ws as [|w ws IH]; intros a; cbn [holds]; [constructor|].
  intros (Hu & _ & Hr). constructor; [done|by eapply IH].
Qed.

Lemma holds_app m t a ws ws' :
  holds m t a (ws ++ ws') <-> holds m t a ws /\ holds m t (a + 4 * Z.of_nat (length ws)) ws'.
Proof.
  revert a. induction ws as [|w ws IH]; intros a; cbn [app holds length].
  - rewrite Z.mul_0_r, Z.add_0_r. tauto.
  - rewrite IH. replace (a + 4 + 4 * Z.of_nat (length ws)) with (a + 4 * Z.of_nat (S (length ws))) by lia.
    tauto.
Qed.

Lemma write_words_ok m a ws : Forall is_u32 ws ->
  user_range m (as_current m) a (4 * Z.of_nat (length ws)) ->
  exists m', write_words a ws m = Ret (tt, m') /\
    only_writes m m' (as_current m) a (4 * Z.of_nat (length ws)) /\ holds m' (as_current m) a ws.
Proof.
  revert m a. induction ws as [|w ws IH]; intros m a Hu Hr; cbn [write_words length] in *.
  { exists m. destruct Hr as [Hwf _]. split_and!; done. }
  apply Forall_cons in Hu as [Hw Hu].
  destruct (write_word_ok m a w) as (m1 & E1 & O1 & V1); [split; [apply Hr|intros i Hi; apply Hr; lia]|].
  pose proof O1 as (F1 & C1 & S1 & _).
  destruct (IH m1 (a + 4) Hu) as (m2 & E2 & O2 & V2).
  { split; [done|]. intros i Hi. rewrite C1. rewrite <- Z.add_assoc. apply S1, Hr. lia. }
  rewrite C1 in O2, V2. exists m2. split_and!.
  - unfold mbind, M_mbind. rewrite E1. ostep. done.
  - eapply only_writes_trans; [exact O1|exact O2|lia..].
  - split; [done|]. split; [|done]. eapply holds_word_frame; [exact O2| |done]. lia.
Qed.

(** Storing any words changes the words' bytes only. *)
Lemma write_words_run m a ws : user_range m (as_current m) a (4 * Z.of_nat (length ws)) ->
  exists m', write_words a ws m = Ret (tt, m') /\
    only_writes m m' (as_current m) a (4 * Z.of_nat (length ws)).
Proof.
  revert m a. induction ws as [|w ws IH]; intros m a Hr; cbn [write_words length] in *.
  { exists m. destruct Hr as [Hwf _]. split_and!; done. }
  destruct (write_word_ok m a w) as (m1 & E1 & O1 & _); [split; [apply Hr|intros i Hi; apply Hr; lia]|].
  pose proof O1 as (F1 & C1 & S1 & _).
  destruct (IH m1 (a + 4)) as (m2 & E2 & O2).
  { split; [done|]. intros i Hi. rewrite C1, <- Z.add_assoc. apply S1, Hr. lia. }
  rewrite C1 in O2. exists m2. split.
  - unfold mbind, M_mbind. rewrite E1. ostep. done.
  - eapply only_writes_trans; [exact O1|exact O2|lia..].
Qed.

(** The same memory seen from another space. *)
Lemma load_holds m m' t a ws : as_wf m' -> (forall t' a, as_byte m' t' a = as_byte m t' a) ->
  holds m t a ws -> holds m' t a ws.
Proof.
  intros F E. revert a. induction ws as [|w ws IH]; intros a; cbn [holds]; [done|].
  unfold holds_word. rewrite !E. intros (H1 & (_ & H2) & H3).
  split; [done|]. split; [by split|by apply IH].
Qed.
End laws.

(** ** Queries

    Reading memory and asking for a page's flags change nothing, and no page is
    ever reported as anonymous. *)
Class AddressSpacesQueries (W : Type) `{AddressSpaces W} := {
  as_read8_same : forall a w b w', as_read8 a w = Ret (b, w') -> w' = w;
  as_page_type_same : forall a w t w', as_page_type a w = Ret (t, w') ->
    w' = w /\ has_flag t PAGE_ANON = false
}.

Section queries.
Context {W : Type} `{AddressSpacesQueries W}.

Lemma read_word_same a w x w' : read_word a w = Ret (x, w') -> w' = w.
Proof.
  unfold read_word. intros (b0 & w0 & E0 & (b1 & w1 & E1 & (b2 & w2 & E2 & (b3 & w3 & E3 & [= _ <-])
    %M_bind_Ret)%M_bind_Ret)%M_bind_Ret)%M_bind_Ret.
  by rewrite (as_read8_same _ _ _ _ E3), (as_read8_same _ _ _ _ E2), (as_read8_same _ _ _ _ E1), (as_read8_same _ _ _ _ E0).
Qed.

Lemma read_words_same n : forall a w x w', read_words n a w = Ret (x, w') -> w' = w.
Proof.
  induction n as [|n IH]; intros a w x w'; cbn [read_words]; [by intros [= _ <-]|].
  intros (y & w1 & E1 & (ys & w2 & E2 & [= _ <-])%M_bind_Ret)%M_bind_Ret.
  by rewrite (IH _ _ _ _ E2), (read_word_same _ _ _ _ E1).
Qed.
End queries.

Section mm_queries.
Context {B : Type} `{BitmapHeap B}.

Lemma read32_same a s w s' : read32 a s = Ret (w, s') -> s' = s.
Proof. unfold read32. destruct (translate s false a); [|done]. by intros [= _ <-]. Qed.

Lemma get_pte_pointer_same page level s e s' : get_pte_pointer page level s = Ret (e, s') -> s' = s.
Proof.
  unfold get_pte_pointer. destruct (level =? 0); [by intros [= _ <-]|]. destruct (level =? 1); [|by intros [= _ <-]].
  intros (w & s1 & R & K)%M_bind_Ret. apply read32_same in R as ->.
  destruct (present w =? 1); by injection K.
Qed.

Lemma get_pte_type_same page level s t s' : get_pte_type page level s = Ret (t, s') ->
  s' = s /\ has_flag t PAGE_ANON = false.
Proof.
  unfold get_pte_type. intros (e & s1 & ->%get_pte_pointer_same & K)%M_bind_Ret.
  destruct (e =? NULL); [by injection K as <- <-|].
  apply M_bind_Ret in K as (w & s2 & ->%read32_same & [= <- <-]). split; [done|apply pte_flags_anon].
Qed.

Lemma on_mem_same {A} (m : M mmu A) (P : A -> Prop) (s : mm B) a s' :
  (forall x a x', m x = Ret (a, x') -> x' = x /\ P a) -> on_mem m s = Ret (a, s') -> s' = s /\ P a.
Proof.
  intros Hm. unfold on_mem. intros ([b x] & E & [= <- <-])%outcome_bind_Ret.
  destruct (Hm _ _ _ E) as [-> HP]. split; [by destruct s|done].
Qed.

Lemma absent_level_same n : forall page level (s : mm B) r s', absent_level n page level s = Ret (r, s') ->
  s' = s /\ forall t, r = Some t -> has_flag t PAGE_ANON = false.
Proof.
  induction n as [|n IH]; intros page level s r s'; cbn [absent_level]; [by intros [= <- <-]|].
  intros (f & s1 & E & K)%M_bind_Ret.
  apply (on_mem_same _ (fun t => has_flag t PAGE_ANON = false)) in E as [-> Hf]; [|by intros; apply (get_pte_type_same page level)].
  destruct (Z.land f PAGE_PRESENT =? 0); [|by apply (IH page (level + 1))].
  injection K as <- <-. split; [done|]. by intros ? [= <-].
Qed.
End mm_queries.

#[export] Program Instance mm_queries {B} `{BitmapHeap B} : AddressSpacesQueries (mm B).
Next Obligation.
  intros B HB a w b w' E. cbn [as_read8 mm_spaces] in E.
  apply (on_mem_same _ (fun _ => True)) in E as [-> _]; [done|].
  intros x c x'. unfold mmu_read8. destruct (translate x false a); [|done]. by intros [= _ <-].
Qed.
Next Obligation.
  intros B HB a w t w'. cbn [as_page_type mm_spaces]. unfold page_type.
  intros (r & s1 & E & K)%M_bind_Ret. apply absent_level_same in E as [-> Hr].
  destruct r as [f|]; [injection K as <- <-; by split; [|apply Hr]|].
  apply (on_mem_same _ (fun t => has_flag t PAGE_ANON = false)) in K; [done|].
  intros x c x'. apply get_pte_type_same.
Qed.

(** ** Flat spaces, for concrete runs *)
Record flat := Flat { flat_cur : Z; flat_bytes : gmap (Z * Z) Z; flat_next : Z }.

Fixpoint flat_fill (n : nat) (t a : Z) (m : gmap (Z * Z) Z) : gmap (Z * Z) Z :=
  match n with O => m | S n => flat_fill n t (a + 1) (<[(t, a) := 0]> m) end.

#[export] Instance flat_spaces : AddressSpaces flat := {
  as_load := fun t => modify (fun s => Flat t (flat_bytes s) (flat_next s));
  as_read8 := fun a s => b ← of_option (flat_bytes s !! (flat_cur s, a)); Ret (b mod 256, s);
  as_write8 := fun a b s =>
    _ ← of_option (flat_bytes s !! (flat_cur s, a));
    Ret (tt, Flat (flat_cur s) (<[(flat_cur s, a) := b]> (flat_bytes s)) (flat_next s));
  as_reserve_page := fun s => Ret (flat_next s - flat_next s mod 4096, Flat (flat_cur s) (flat_bytes s) (flat_next s + 4096));
  as_free_page := fun _ => mret 0;
  as_map_page := fun page _ _ s =>
    Ret (0, Flat (flat_cur s) (flat_fill (Z.to_nat 4096) (flat_cur s) (page - page mod 4096) (flat_bytes s)) (flat_next s));
  as_unmap_page := fun _ => mret 0;
  as_page_type := fun _ => mret 0
}.

#[export] Program Instance flat_spaces_ok : AddressSpacesOk flat := {
  as_wf := fun _ => True;
  as_space := fun _ => True;
  as_current := flat_cur;
  as_byte := fun s t a => (fun b => b mod 256) <$> flat_bytes s !! (t, a)
}.
Next Obligation.
  intros s t a b. cbv beta. destruct (_ !! _) as [c|]; simpl; [|done].
  intros [= <-]. apply Z.mod_pos_bound. lia.
Qed.
Next Obligation. intros t s _ _. eexists. done. Qed.
Next Obligation.
  intros s a b _. cbv beta. simpl. destruct (_ !! _) as [c|]; simpl; [|done]. by intros [= <-].
Qed.
Next Obligation.
  intros s a b _ [c Hc] Hb. cbv beta in *. simpl. destruct (_ !! _) as [d|] eqn:E; simpl in *; [|done].
  eexists. split; [done|]. split; [done|]. split; [done|]. intros t' a'. simpl. case_decide as D.
  - destruct D as [-> ->]. rewrite lookup_insert_eq. simpl. by rewrite Z.mod_small.
  - rewrite lookup_insert_ne; [done|]. intros [= <- <-]. by apply D.
Qed.

Lemma flat_fill_get n t : forall a m k, flat_fill n t a m !! k =
  if decide (k.1 = t /\ a <= k.2 < a + Z.of_nat n) then Some 0 else m !! k.
Proof.
  induction n as [|n IH]; intros a m [t' b]; cbn [flat_fill fst snd].
  - rewrite decide_False by lia. done.
  - rewrite IH. cbn [fst snd]. destruct (decide (t' = t /\ b = a)) as [[-> ->]|Hne].
    + rewrite decide_False by lia. rewrite lookup_insert_eq, decide_True by lia. done.
    + rewrite lookup_insert_ne by (intros [= -> ->]; by apply Hne).
      destruct (decide (t' = t /\ a + 1 <= b < a + 1 + Z.of_nat n)) as [D|D];
        [rewrite decide_True by lia|rewrite decide_False by lia]; done.
Qed.

#[export] Program Instance flat_spaces_map : AddressSpacesMap flat := {
  as_user_page := fun _ => True
}.
Next Obligation.
  intros w _. eexists _, _. split; [reflexivity|]. split; [done|]. right.
  set (f := flat_next w - flat_next w mod 4096).
  assert (f mod 4096 = 0) as Hf by (unfold f; Z.div_mod_to_equations; lia).
  split; [intros E; rewrite E in Hf; by vm_compute in Hf|]. split; [exact Hf|].
  intros page flags _ _. eexists _, _. split; [reflexivity|]. right. split; [done|]. split; [done|]. split; [done|].
  remember (Z.to_nat 4096) as n eqn:En. assert (Z.of_nat n = 4096) as Hn by (subst n; lia). clear En.
  cbn [as_byte flat_spaces_ok as_current flat_bytes flat_cur]. split.
  - intros t a Hne. rewrite flat_fill_get. cbn [fst snd]. rewrite decide_False; [done|].
    intros [-> Ha]. apply Hne. split; [done|]. Z.div_mod_to_equations; lia.
  - intros a Ha. apply fmap_is_Some. rewrite flat_fill_get. cbn [fst snd]. rewrite decide_True; [by eexists|].
    split; [done|]. Z.div_mod_to_equations; lia.
Qed.

#[export] Program Instance flat_queries : AddressSpacesQueries flat.
Next Obligation.
  intros a w b w'. simpl. destruct (_ !! _); [|done]. by intros [= _ <-].
Qed.
Next Obligation. intros a w t w' [= <- <-]. done. Qed.
