(* ===== verification/Frames.v ===== *)
(** Enough frames: how many pages the allocator can still serve.

    [FrameBudget] states what each operation on address spaces may take from the
    frames that are left: a reservation one, a mapping one for a table, the others
    nothing.  With a budget a client is never told ENOMEM, which is how a theorem says that
    an operation succeeds when there is memory.  The memory manager's budget is
    what the allocator serves. *)
From S2P Require Import Prelude Status Paging Mmgr Space.

(** [frames k w]: the next [k] reservations in [w] succeed. *)
Class FrameBudget {W : Type} `{AddressSpaces W} (frames : nat -> W -> Prop) : Prop := {
  fb_le : forall m n w, (m <= n)%nat -> frames n w -> frames m w;
  fb_read : forall k a w b w', frames k w -> as_read8 a w = Ret (b, w') -> frames k w';
  fb_write : forall k a b w u w', frames k w -> as_write8 a b w = Ret (u, w') -> frames k w';
  fb_unmap : forall k page w r w', frames k w -> as_unmap_page page w = Ret (r, w') -> frames k w';
  fb_reserve : forall k w f w', frames (S k) w -> as_reserve_page w = Ret (f, w') -> f <> err ENOMEM /\ frames k w';
  fb_map : forall k page f flags w st w', frames (S k) w -> as_map_page page f flags w = Ret (st, w') ->
    st <> err ENOMEM /\ frames k w'
}.

(** The empty budget, for a client that promises nothing about memory. *)
Lemma no_budget {W} `{AddressSpaces W} : FrameBudget (fun _ _ => False).
Proof. split; intros; done. Qed.

Section clients.
Context {W : Type} `{AddressSpaces W} (frames : nat -> W -> Prop) {Hb : FrameBudget frames}.

Lemma fb_read_word k a w v w' : frames k w -> read_word a w = Ret (v, w') -> frames k w'.
Proof.
  intros F0. unfold read_word. intros (b0 & w0 & E0 & (b1 & w1 & E1 & (b2 & w2 & E2 & (b3 & w3 & E3 & [= _ <-])
    %M_bind_Ret)%M_bind_Ret)%M_bind_Ret)%M_bind_Ret.
  eapply fb_read, E3. eapply fb_read, E2. eapply fb_read, E1. by eapply fb_read, E0.
Qed.
End clients.

(** ** The memory manager's budget *)
Section manager.
Context {B : Type} `{BitmapHeapOk B}.
Implicit Types s : mm B.

Fixpoint can_serve (k : nat) (h : B) : Prop :=
  match k with
  | O => True
  | S k => (reserve_region page_size h).1 <> NOMEM /\ can_serve k (reserve_region page_size h).2
  end.

Definition mm_frames (k : nat) s : Prop := can_serve k (page_map s).

Lemma can_serve_le m n : forall h, (m <= n)%nat -> can_serve n h -> can_serve m h.
Proof.
  revert n. induction m as [|m IH]; intros n h Hle; [done|]. destruct n as [|n]; [lia|]. cbn [can_serve].
  intros [H1 H2]. split; [done|]. apply (IH n); [lia|done].
Qed.

(** Calls into the paging code leave the allocator alone. *)
Lemma on_mem_map {A} (m : M mmu A) s a s' : on_mem m s = Ret (a, s') -> page_map s' = page_map s.
Proof. unfold on_mem. by intros ([b u] & _ & [= _ <-])%outcome_bind_Ret. Qed.

Lemma reserve_frames k s f s' : mm_frames (S k) s -> reserve_page s = Ret (f, s') -> f <> err ENOMEM /\ mm_frames k s'.
Proof.
  intros [Hne Hs]. unfold mm_frames, reserve_page, reserve_region_m, mbind, M_mbind.
  destruct (reserve_region page_size (page_map s)) as [loc h] eqn:E. cbn [fst snd] in *. ostep.
  rewrite (proj2 (Z.eqb_neq _ _) Hne). intros [= <- <-]. split; [|done].
  destruct (reserve_region_ok _ _ _ E) as [[? _]|[Hin _]]; [done|].
  apply free_blocks_frames in Hin as [_ Hm]. intros ->. by vm_compute in Hm.
Qed.

Lemma map_levels_frames n : forall k page level s r s', mm_frames (n + k) s -> map_levels n page level s = Ret (r, s') ->
  r <> err ENOMEM /\ mm_frames k s'.
Proof.
  induction n as [|n IH]; intros k page level s r s' F; cbn [map_levels]; [by intros [= <- <-]|].
  intros (fl & s1 & E1%on_mem_map & K)%M_bind_Ret. assert (mm_frames (S (n + k)) s1) as F1 by (unfold mm_frames; by rewrite E1).
  destruct (_ =? 0); [|eapply IH, K; by apply (can_serve_le _ (S (n + k))); [lia|]].
  apply M_bind_Ret in K as (t & s2 & E2 & K). destruct (reserve_frames _ _ _ _ F1 E2) as [Hne F2].
  rewrite (proj2 (Z.eqb_neq _ _) Hne) in K.
  apply M_bind_Ret in K as (r3 & s3 & E3%on_mem_map & K). apply M_bind_Ret in K as (r4 & s4 & E4%on_mem_map & K).
  eapply IH, K. unfold mm_frames. by rewrite E4, E3.
Qed.

Lemma map_frames k page f flags s st s' : mm_frames (S k) s -> map_page page f flags s = Ret (st, s') ->
  st <> err ENOMEM /\ mm_frames k s'.
Proof.
  intros F. unfold map_page. destruct (negb (f mod page_size =? 0)).
  { intros [= <- <-]. split; [done|]. by apply (can_serve_le _ (S k)); [lia|]. }
  intros (r & s1 & E & K)%M_bind_Ret. apply (map_levels_frames _ k) in E as [Hr F1]; [|done].
  destruct (negb (r =? err ENONE)); [by injection K as <- <-|].
  apply M_bind_Ret in K as (u & s2 & E2%on_mem_map & [= <- <-]). split; [done|]. unfold mm_frames. by rewrite E2.
Qed.

Lemma present_levels_map n : forall page level s b s', present_levels n page level s = Ret (b, s') -> page_map s' = page_map s.
Proof.
  induction n as [|n IH]; intros page level s b s'; cbn [present_levels]; [by intros [= _ <-]|].
  intros (fl & s1 & E1%on_mem_map & K)%M_bind_Ret. destruct (_ =? 0); [by injection K as _ <-|]. rewrite <- E1. by eapply IH.
Qed.

Lemma unmap_map page s r s' : unmap_page page s = Ret (r, s') -> page_map s' = page_map s.
Proof.
  unfold unmap_page. intros (ok & s1 & E1%present_levels_map & K)%M_bind_Ret. destruct (negb ok); [by injection K as _ <-|].
  apply M_bind_Ret in K as (f & s2 & E2%on_mem_map & K). apply M_bind_Ret in K as (u & s3 & E3%on_mem_map & [= _ <-]). congruence.
Qed.

#[export] Instance mm_budget : FrameBudget mm_frames.
Proof.
  split.
  - intros m n s Hle. by apply can_serve_le.
  - intros k a s b s' F E%on_mem_map. unfold mm_frames. by rewrite E.
  - intros k a b s u s' F E%on_mem_map. unfold mm_frames. by rewrite E.
  - intros k page s r s' F E%unmap_map. unfold mm_frames. by rewrite E.
  - exact reserve_frames.
  - exact map_frames.
Qed.

(** A new address space takes one frame. *)
Lemma create_frames k kernel_start s t s' : mm_frames (S k) s -> create_address_space kernel_start s = Ret (t, s') ->
  t <> err ENOMEM /\ mm_frames k s'.
Proof.
  intros F. unfold create_address_space. intros (f & s1 & E1 & K)%M_bind_Ret. destruct (reserve_frames _ _ _ _ F E1) as [Hne F1].
  rewrite (proj2 (Z.eqb_neq _ _) Hne) in K. apply M_bind_Ret in K as (r & s2 & E2 & K).
  assert (r = 0) as ->.
  { unfold on_mem in E2. apply outcome_bind_Ret in E2 as ([r' u] & E2 & [= -> _]). unfold paging_init_top_table in E2.
    repeat (apply M_bind_Ret in E2 as (? & ? & _ & E2)). by injection E2. }
  apply on_mem_map in E2. injection K as <- <-. split; [done|]. unfold mm_frames. by rewrite E2.
Qed.
End manager.
