(* ===== verification/Isolation.v ===== *)
(** The memory manager implements the address spaces of Space.v.

    [spaces] is the set of directories in use.  The invariant of a single
    space (Paging.v, Mmgr.v) is extended to all of them: no frame is a table of two
    spaces below the kernel, every user page has a frame of its own, and neither the
    tables nor those frames are on offer in the allocator.  The instances at
    the end discharge the laws the kernel's theorems assume, so those theorems
    hold over the real page tables. *)
From S2P Require Import Prelude Status Paging Mmgr Space.

(** The 4 KiB frame of a physical address. *)
Definition frame_at (a : Z) : Z := 4096 * (a / 4096).

Lemma frame_at_self f : f mod 4096 = 0 -> frame_at f = f.
Proof. unfold frame_at. Z.div_mod_to_equations. lia. Qed.

Lemma frame_at_offset f o : f mod 4096 = 0 -> 0 <= o < 4096 -> frame_at (f + o) = f.
Proof. unfold frame_at. Z.div_mod_to_equations. lia. Qed.

Lemma frame_at_word a : frame_at (4 * (a / 4)) = frame_at a.
Proof. unfold frame_at. Z.div_mod_to_equations. lia. Qed.

Section isolation.
Context {B : Type} `{BitmapHeapOk B} (spaces : gset Z) (k : Z) (Hk : 1 <= k <= 1023).
Implicit Types s : mm B.

(** The machine as it would be with directory [t] loaded. *)
Definition view s (t : Z) : mmu := loaded (mem s) t.
Definition entry s (t i : Z) : Z := pde (view s t) i.
Definition leaf s (t q : Z) : Z := pte (view s t) q.

(** User addresses: those below the kernel. *)
Definition user (va : Z) : Prop := is_u32 va /\ dir_index va < k.

(** A frame that holds a directory or a table of some space. *)
Definition is_meta s (f : Z) : Prop := f ∈ spaces \/
  exists t i, t ∈ spaces /\ 0 <= i < 1023 /\ present (entry s t i) = 1 /\ f = frame_of (entry s t i).

Record wf_world s : Prop := {
  ww_current : cr3 (mem s) ∈ spaces;
  ww_space : forall t, t ∈ spaces -> wf_space (view s t);
  ww_free : forall f, is_meta s f -> f ∉ free_blocks (page_map s);
  ww_dirs : forall t t' i, t ∈ spaces -> t' ∈ spaces -> 0 <= i < 1023 -> present (entry s t' i) = 1 ->
    frame_of (entry s t' i) <> t;
  ww_tables : forall t t' i j, t ∈ spaces -> t' ∈ spaces -> 0 <= i < k -> 0 <= j < 1023 ->
    present (entry s t i) = 1 -> present (entry s t' j) = 1 -> frame_of (entry s t i) = frame_of (entry s t' j) ->
    t = t' /\ i = j;
  ww_leaf : forall t va pa, t ∈ spaces -> user va -> translate (view s t) false va = Some pa ->
    ~ is_meta s (frame_at pa) /\ (frame_at pa ∉ free_blocks (page_map s));
  ww_private : forall t t' va va' pa pa', t ∈ spaces -> t' ∈ spaces -> user va -> user va' ->
    translate (view s t) false va = Some pa -> translate (view s t') false va' = Some pa' ->
    frame_at pa = frame_at pa' -> t = t' /\ va / 4096 = va' / 4096
}.

Lemma view_current s : view s (cr3 (mem s)) = mem s.
Proof. unfold view, loaded. by destruct (mem s). Qed.

Lemma user_dir va : user va -> 0 <= dir_index va < 1023 /\ 0 <= va / 4096 < 1048576.
Proof.
  intros [Hu Hi]. pose proof (dir_index_range va Hu). split; [lia|by apply page_range].
Qed.

Lemma space_aligned s t : wf_world s -> t ∈ spaces -> is_u32 t /\ t mod 4096 = 0.
Proof. intros Hs Ht. apply (wf_root _ (ww_space s Hs t Ht)). Qed.

Lemma entry_frame s t i : 0 <= i < 1024 -> wf_world s -> t ∈ spaces -> frame_at (t + 4 * i) = t.
Proof. intros Hi Hs Ht. destruct (space_aligned s t Hs Ht). apply frame_at_offset; [done|lia]. Qed.

Lemma leaf_frame s t q : frame_at (pte_addr (view s t) q) = frame_of (entry s t (q / 1024)).
Proof.
  unfold pte_addr. apply frame_at_offset; [apply frame_of_range|]. pose proof (Z.mod_pos_bound q 1024 ltac:(lia)). lia.
Qed.

Lemma translate_readable u va pa write : translate u write va = Some pa -> translate u false va = Some pa.
Proof.
  rewrite !translate_eq. destruct (allows write (pde u _)) eqn:E1; [|done]. destruct (allows write (pte u _)) eqn:E2; [|done].
  unfold allows in *. apply andb_prop in E1 as [-> _], E2 as [-> _]. done.
Qed.

Lemma translate_frame u write va pa : translate u write va = Some pa ->
  pa = frame_of (pte u (va / 4096)) + va mod 4096 /\ frame_at pa = frame_of (pte u (va / 4096)).
Proof.
  rewrite translate_eq. destruct (allows _ _); [|done]. destruct (allows _ _); [|done]. intros [= <-].
  rewrite page_offset_mod. split; [done|]. apply frame_at_offset; [apply frame_of_range|]. Z.div_mod_to_equations. lia.
Qed.

(** A frame that is nobody's: no table, no user page and not on offer. *)
Definition ownerless s (f : Z) : Prop := ~ is_meta s f /\ (f ∉ free_blocks (page_map s)) /\
  forall t va pa, t ∈ spaces -> user va -> translate (view s t) false va = Some pa -> frame_at pa <> f.

(** Words outside the tables and directories move: every space is the same. *)
Section same_tables.
Context (s s' : mm B) (Hs : wf_world s).
Context (Hm : forall a, is_meta s (frame_at a) -> pget (phys (mem s')) a = pget (phys (mem s)) a).

Lemma same_entry t i : t ∈ spaces -> 0 <= i < 1024 -> entry s' t i = entry s t i.
Proof. intros Ht Hi. unfold entry, pde. cbn [view loaded cr3 phys]. apply Hm. left. by erewrite entry_frame. Qed.

Lemma same_leaf t q : t ∈ spaces -> 0 <= q / 1024 < 1023 -> present (entry s t (q / 1024)) = 1 -> leaf s' t q = leaf s t q.
Proof.
  intros Ht Hq Hp. unfold leaf, pte.
  assert (pte_addr (view s' t) q = pte_addr (view s t) q) as ->.
  { unfold pte_addr. fold (entry s' t (q / 1024)) (entry s t (q / 1024)). by rewrite same_entry by (done || lia). }
  cbn [view loaded phys]. apply Hm. fold (view s t). rewrite leaf_frame. right. by exists t, (q / 1024).
Qed.

Lemma same_translate t va write : t ∈ spaces -> is_u32 va -> dir_index va < 1023 ->
  translate (view s' t) write va = translate (view s t) write va.
Proof.
  intros Ht Hva Hlt. pose proof (dir_index_range va Hva). rewrite !translate_eq.
  fold (entry s' t (dir_index va)) (entry s t (dir_index va)) (leaf s' t (va / 4096)) (leaf s t (va / 4096)).
  rewrite same_entry by (done || lia). destruct (allows write (entry s t (dir_index va))) eqn:Ea; [|done].
  apply andb_prop in Ea as [Ea%Z.eqb_eq _]. by rewrite same_leaf by (rewrite ?page_dir_index; done || lia).
Qed.

Lemma same_meta f : is_meta s' f <-> is_meta s f.
Proof.
  unfold is_meta. split; intros [?|(t & i & Ht & Hi & Hp & ->)]; [by left|right|by left|right]; exists t, i.
  - rewrite same_entry in Hp |- * by (done || lia). done.
  - rewrite same_entry by (done || lia). done.
Qed.

Lemma same_wf_world : cr3 (mem s') ∈ spaces -> free_blocks (page_map s') ⊆ free_blocks (page_map s) -> wf_world s'.
Proof.
  intros Hc Hf. destruct Hs as [W1 W2 W3 W4 W5 W6 W7]. split.
  - done.
  - intros t Ht. destruct (W2 t Ht) as [R1 R2 R3 R4].
    assert (forall i, 0 <= i < 1024 -> pde (view s' t) i = pde (view s t) i) as E by (intros; by apply same_entry).
    split; [done|by rewrite E|..].
    + intros i Hi. rewrite E by done. by apply R3.
    + intros i j Hi Hj. rewrite !E by done. by apply R4.
  - intros f Hm'%same_meta Hin. by apply (W3 f Hm'), Hf.
  - intros t t' i Ht Ht' Hi. rewrite same_entry by (done || lia). by apply W4.
  - intros t t' i j Ht Ht' Hi Hj. rewrite !same_entry by (done || lia). by apply W5.
  - intros t va pa Ht Hu. pose proof (user_dir va Hu). rewrite same_translate, same_meta by (apply Hu || done || lia).
    intros E. destruct (W6 t va pa Ht Hu E) as [? Hn]. split; [done|]. intros Hin. by apply Hn, Hf.
  - intros t t' va va' pa pa' Ht Ht' Hu Hu'. pose proof (user_dir va Hu). pose proof (user_dir va' Hu').
    rewrite !same_translate by (apply Hu || apply Hu' || done || lia). by apply W7.
Qed.
End same_tables.

(** ** Bytes *)
Definition user_dec va : bool := (0 <=? va) && (va <? 2 ^ 32) && (dir_index va <? k).
Lemma user_decP va : user_dec va = true <-> user va.
Proof.
  clear Hk. unfold user_dec, user, is_u32. rewrite !andb_true_iff, Z.leb_le, !Z.ltb_lt. tauto.
Qed.

Definition phys_byte s (pa : Z) : Z := word_byte (pget (phys (mem s)) (4 * (pa / 4))) (pa mod 4).

(** The byte a space has at a user address it may write. *)
Definition byte_at s (t va : Z) : option Z :=
  if bool_decide (t ∈ spaces) && user_dec va then phys_byte s <$> translate (view s t) true va else None.

Lemma byte_at_inv s t va b : byte_at s t va = Some b -> t ∈ spaces /\ user va /\
  exists pa, translate (view s t) true va = Some pa /\ b = phys_byte s pa.
Proof.
  unfold byte_at. destruct (bool_decide_reflect (t ∈ spaces)); [|done]. destruct (user_dec va) eqn:E; [|done].
  cbn [andb]. destruct (translate _ _ _) as [pa|]; [|done]. intros [= <-]. apply user_decP in E. eauto.
Qed.

Lemma byte_at_user s t va : t ∈ spaces -> user va -> byte_at s t va = phys_byte s <$> translate (view s t) true va.
Proof. intros Ht Hu%user_decP. unfold byte_at. by rewrite bool_decide_true, Hu. Qed.

Lemma byte_at_other s t va : ~ (t ∈ spaces /\ user va) -> byte_at s t va = None.
Proof.
  intros Hn. unfold byte_at. destruct (bool_decide_reflect (t ∈ spaces)); [|done].
  destruct (user_dec va) eqn:E; [|done]. apply user_decP in E. tauto.
Qed.

(** Equality of the bytes of two states, address by address. *)
Lemma byte_at_ext s s' t va :
  (t ∈ spaces -> user va -> translate (view s' t) true va = translate (view s t) true va) ->
  (forall pa, t ∈ spaces -> user va -> translate (view s t) true va = Some pa -> phys_byte s' pa = phys_byte s pa) ->
  byte_at s' t va = byte_at s t va.
Proof.
  intros Ht Hb. destruct (decide (t ∈ spaces)) as [Hin|]; [|by rewrite !byte_at_other by tauto].
  destruct (user_dec va) eqn:E; [|rewrite !byte_at_other; [done|..]; rewrite <- user_decP; intros []; congruence].
  apply user_decP in E. rewrite !byte_at_user, Ht by done.
  destruct (translate (view s t) true va) as [pa|] eqn:Ep; [|done]. cbn. by rewrite Hb.
Qed.

Lemma phys_byte_range s pa : 0 <= phys_byte s pa < 256.
Proof. unfold phys_byte, word_byte. change 256 with (2 ^ 8). apply bf_get_range. lia. Qed.

(** *** Reading and writing in the current space *)
Lemma read_byte_run s va b : byte_at s (cr3 (mem s)) va = Some b -> as_read8 va s = Ret (b, s).
Proof.
  intros (Ht & Hu & pa & E & ->)%byte_at_inv. rewrite view_current in E. apply translate_readable in E.
  cbn [as_read8 mm_spaces]. unfold on_mem, mmu_read8. rewrite E. cbn. by destruct s.
Qed.

Lemma set_word_byte_get w i j b : 0 <= i -> 0 <= j -> 0 <= b < 256 ->
  word_byte (set_word_byte w i b) j = if decide (i = j) then b else word_byte w j.
Proof.
  intros Hi Hj Hb. unfold word_byte, set_word_byte. case_decide as D.
  - subst. rewrite bf_get_set_eq by lia. rewrite Z.land_ones by lia. by apply Z.mod_small.
  - apply bf_get_set_ne; lia.
Qed.

Definition store_byte s pa b : mm B :=
  MM (poke (mem s) (4 * (pa / 4)) (set_word_byte (pget (phys (mem s)) (4 * (pa / 4))) (pa mod 4) b)) (page_map s).

Lemma store_byte_get s pa b pa' : 0 <= b < 256 ->
  phys_byte (store_byte s pa b) pa' = if decide (pa' = pa) then b else phys_byte s pa'.
Proof.
  intros Hb. unfold phys_byte, store_byte, pget, poke. cbn [mem phys].
  destruct (decide (4 * (pa / 4) = 4 * (pa' / 4))) as [E|Hne].
  - rewrite <- E, lookup_insert_eq. cbn [from_option id]. rewrite set_word_byte_get by (done || Z.div_mod_to_equations; lia).
    repeat case_decide; try done; exfalso; Z.div_mod_to_equations; lia.
  - rewrite lookup_insert_ne by done. rewrite decide_False; [done|]. by intros ->.
Qed.

Lemma write_byte_run s va b : wf_world s -> is_Some (byte_at s (cr3 (mem s)) va) -> 0 <= b < 256 ->
  exists s', as_write8 va b s = Ret (tt, s') /\ wf_world s' /\ cr3 (mem s') = cr3 (mem s) /\
    forall t a, byte_at s' t a = if decide (t = cr3 (mem s) /\ a = va) then Some b else byte_at s t a.
Proof.
  intros Hs [b0 (Ht & Hu & pa & E & _)%byte_at_inv] Hb. exists (store_byte s pa b).
  pose proof (translate_readable _ _ _ _ E) as Er. destruct (ww_leaf s Hs _ va pa Ht Hu Er) as [Hnm Hnf].
  assert (forall a, is_meta s (frame_at a) -> pget (phys (mem (store_byte s pa b))) a = pget (phys (mem s)) a) as Hm.
  { intros a Ha. unfold store_byte, pget, poke. cbn [mem phys]. rewrite lookup_insert_ne; [done|].
    intros <-. by rewrite frame_at_word in Ha. }
  split; [|split; [|split; [done|]]].
  - rewrite view_current in E. cbn [as_write8 mm_spaces]. unfold on_mem, mmu_write8. by rewrite E.
  - by apply (same_wf_world s _ Hs Hm).
  - intros t a. destruct (decide (t ∈ spaces /\ user a)) as [[Ht' Hu']|Hn].
    2: { rewrite !byte_at_other by done. rewrite decide_False; [done|]. intros [-> ->]. by apply Hn. }
    pose proof (user_dir a Hu'). rewrite !byte_at_user by done.
    rewrite (same_translate s _ Hs Hm) by (apply Hu' || done || lia).
    destruct (translate (view s t) true a) as [pa'|] eqn:E'; cbn [fmap option_fmap option_map].
    + rewrite store_byte_get by done. pose proof (translate_frame _ _ _ _ E) as [E1 E2].
      pose proof (translate_frame _ _ _ _ E') as [E1' E2']. case_decide as D.
      * rewrite decide_True; [done|]. rewrite D in E', E1', E2'.
        destruct (ww_private s Hs t _ a va pa pa Ht' Ht Hu' Hu (translate_readable _ _ _ _ E') Er eq_refl) as [-> Hp].
        split; [done|]. rewrite Hp in E1'. rewrite E1 in E1'. Z.div_mod_to_equations. lia.
      * rewrite decide_False; [done|]. intros [-> ->]. congruence.
    + rewrite decide_False; [done|]. intros [-> ->]. congruence.
Qed.

Lemma load_run s t : wf_world s -> t ∈ spaces -> exists s', as_load t s = Ret (tt, s') /\ wf_world s' /\
  cr3 (mem s') = t /\ forall t' a, byte_at s' t' a = byte_at s t' a.
Proof.
  intros Hs Ht. eexists. split; [done|]. split; [|done].
  by apply (same_wf_world s _ Hs).
Qed.

(** ** Mapping a page *)
Lemma world_mm s : wf_world s -> wf_mm s.
Proof.
  intros Hs. pose proof (ww_space s Hs _ (ww_current s Hs)) as W. rewrite view_current in W. split; [done|].
  intros i Hi Hp. apply (ww_free s Hs). destruct (decide (i = 1023)) as [->|Hne].
  - left. rewrite (proj2 (wf_self _ W)). apply Hs.
  - right. exists (cr3 (mem s)), i. unfold entry. rewrite view_current. split_and!; [apply Hs|lia|lia|done|done].
Qed.

Lemma entry_current s i : entry s (cr3 (mem s)) i = pde (mem s) i.
Proof. unfold entry. by rewrite view_current. Qed.

(** A table from the allocator, wiped, in the current directory's entry [d]. *)
Record new_table s s' (d T : Z) : Prop := {
  nt_absent : present (pde (mem s) d) = 0;
  nt_free : T ∈ free_blocks (page_map s) /\ free_blocks (page_map s') = free_blocks (page_map s) ∖ {[T]};
  nt_cr3 : cr3 (mem s') = cr3 (mem s);
  nt_wf : wf_space (mem s');
  nt_entry : present (pde (mem s') d) = 1 /\ frame_of (pde (mem s') d) = T;
  nt_entries : forall i, 0 <= i < 1024 -> i <> d -> pde (mem s') i = pde (mem s) i;
  nt_wiped : forall q, q / 1024 = d -> present (pte (mem s') q) = 0;
  nt_words : forall a, a <> cr3 (mem s) + 4 * d -> frame_at a <> T -> pget (phys (mem s')) a = pget (phys (mem s)) a
}.

Lemma map_levels_phys s va : wf_mm s -> is_u32 va -> dir_index va < 1023 ->
  exists r s', map_levels 1 va 0 s = Ret (r, s') /\
    ((r = err ENOMEM /\ mem s' = mem s /\ free_blocks (page_map s') = free_blocks (page_map s)) \/
     (r = err ENONE /\ s' = s /\ present (pde (mem s) (dir_index va)) = 1) \/
     (r = err ENONE /\ exists T, new_table s s' (dir_index va) T)).
Proof.
  intros Hwf Hva Hi. pose proof (dir_index_range va Hva).
  cbn [map_levels]. unfold mbind, M_mbind. rewrite get_pte_type_0_run by done. ostep. rewrite has_present_flag.
  destruct (present_bit (pde (mem s) (dir_index va))) as [Hp|Hp]; rewrite Hp; cbn [negb Z.eqb Pos.eqb].
  { eexists _, s. split; [done|]. right. by left. }
  destruct (reserve_page_run s) as (r & h' & E & Hr). rewrite E. ostep.
  destruct Hr as [[-> Hh]|(Hne & Hr & Hh)]; [rewrite Z.eqb_refl; eexists _, _; split; [done|]; by left|].
  destruct (Z.eqb_spec r (err ENOMEM)); [done|]. destruct (wf_fresh s r Hwf Hr) as [Fu Fa Fn].
  set (d := dir_index va) in *.
  set (w := pte_word (Z.lor (Z.lor PAGE_PRESENT PAGE_USERMODE) PAGE_RW) r (pde (mem s) d)).
  destruct (pte_word_fields (Z.lor (Z.lor PAGE_PRESENT PAGE_USERMODE) PAGE_RW) r (pde (mem s) d) Fu)
    as (W1 & W2 & _ & W4). fold w in W1, W2, W4. assert (frame_of w = r) as W5 by lia.
  set (u1 := poke (mem s) (cr3 (mem s) + 4 * d) w).
  assert (pde u1 d = w) as Hd by (unfold u1; by rewrite poke_pde_pde, decide_True).
  assert (wf_space u1) as Hwf1.
  { apply poke_pde_wf; [apply Hwf|lia|]. intros _. split; [done|]. intros j Hj _ Hpj. rewrite W5. by apply Fn. }
  destruct (wipe_page_table_present u1 va Hwf1 Hva Hi) as (u2 & E2 & U); [unfold has_table; fold d; by rewrite Hd|].
  destruct (wiped_translate u1 u2 d) as (_ & _ & T3); [lia|by rewrite Hd|done|].
  rewrite (on_mem_Ret _ (MM (mem s) h') 0 u1) by (cbn [mem]; by rewrite set_pte_0 by (apply wf_space_dir, Hwf || done)).
  ostep. rewrite (on_mem_Ret _ (MM u1 h') tt u2) by done. ostep.
  eexists _, _. split; [done|]. right. right. split; [done|]. exists r.
  pose proof (pu_pde _ _ _ _ U) as Hpde. split; cbn [mem page_map]; try done.
  - apply (pu_cr3 _ _ _ _ U).
  - apply (pu_wf _ _ _ _ U).
  - rewrite Hpde, Hd by done. done.
  - intros i Hir Hne'. rewrite Hpde by done. unfold u1. by rewrite poke_pde_pde, decide_False.
  - intros q Hq. rewrite T3 by done. apply wiped_fields.
  - intros a Ha Hfa. rewrite (pu_mem _ _ _ _ U).
    + unfold u1, poke, pget. cbn [phys]. by rewrite lookup_insert_ne.
    + intros q Hq ->. apply Hfa. unfold pte_addr. rewrite Hq. fold d. rewrite Hd, W5.
      apply frame_at_offset; [done|]. pose proof (Z.mod_pos_bound q 1024 ltac:(lia)). lia.
Qed.

(** Only the page of [va] in the current space moves, to what [target] says for a
    reading and for a writing access. *)
Record remapped s s' (va : Z) (target : bool -> option Z) : Prop := {
  rm_cr3 : cr3 (mem s') = cr3 (mem s);
  rm_wf : wf_space (mem s');
  rm_entries : forall i, 0 <= i < 1024 -> i <> dir_index va -> pde (mem s') i = pde (mem s) i;
  rm_present : present (pde (mem s') (dir_index va)) = 1;
  rm_table :
    (present (pde (mem s) (dir_index va)) = 1 /\ pde (mem s') (dir_index va) = pde (mem s) (dir_index va) /\
     free_blocks (page_map s') = free_blocks (page_map s) /\
     forall q, q / 1024 = dir_index va -> q <> va / 4096 -> pte (mem s') q = pte (mem s) q) \/
    (present (pde (mem s) (dir_index va)) = 0 /\
     frame_of (pde (mem s') (dir_index va)) ∈ free_blocks (page_map s) /\
     free_blocks (page_map s') = free_blocks (page_map s) ∖ {[frame_of (pde (mem s') (dir_index va))]} /\
     forall q, q / 1024 = dir_index va -> q <> va / 4096 -> present (pte (mem s') q) = 0);
  rm_target : forall write, translate (mem s') write va = target write;
  rm_words : forall a, a <> cr3 (mem s) + 4 * dir_index va -> frame_at a <> frame_of (pde (mem s') (dir_index va)) ->
    pget (phys (mem s')) a = pget (phys (mem s)) a
}.

Lemma page_of_dir q va : is_u32 va -> q / 1024 = dir_index va -> 0 <= q < 1048576.
Proof. intros Hva E. pose proof (dir_index_range va Hva). Z.div_mod_to_equations. lia. Qed.

Lemma present_or flags : has_flag (Z.lor PAGE_PRESENT flags) PAGE_PRESENT = true.
Proof.
  unfold has_flag. apply negb_true_iff, Z.eqb_neq. intros E.
  assert (Z.testbit (Z.land (Z.lor PAGE_PRESENT flags) PAGE_PRESENT) 16 = true) as Hb by (by rewrite Z.land_spec, Z.lor_spec).
  by rewrite E in Hb.
Qed.

Lemma rw_or flags : has_flag (Z.lor PAGE_PRESENT flags) PAGE_RW = has_flag flags PAGE_RW.
Proof. unfold has_flag. by rewrite Z.land_lor_distr_l. Qed.

(** The page mapped to [frame] with [flags]. *)
Definition mapped_to (va frame flags : Z) (write : bool) : option Z :=
  if negb write || has_flag flags PAGE_RW then Some (frame + page_offset va) else None.

Lemma map_page_phys s va frame flags : wf_mm s -> is_u32 va -> dir_index va < 1023 ->
  is_u32 frame -> frame mod 4096 = 0 ->
  exists r s', map_page va frame flags s = Ret (r, s') /\
    ((r = err ENOMEM /\ mem s' = mem s /\ free_blocks (page_map s') = free_blocks (page_map s)) \/
     (r = err ENONE /\ remapped s s' va (mapped_to va frame flags))).
Proof.
  intros Hwf Hva Hi Hf Hm. pose proof (dir_index_range va Hva) as Hd.
  unfold map_page. change page_size with 4096. rewrite Hm. cbn [negb Z.eqb].
  change (Z.to_nat (page_table_levels - 1)) with 1%nat. change (page_table_levels - 1) with 1.
  unfold mbind, M_mbind.
  destruct (map_levels_phys s va Hwf Hva Hi) as (r & s1 & E & [(-> & Hmem & Hfr)|H1]); rewrite E; ostep.
  { eexists _, s1. split; [done|]. by left. }
  assert (r = err ENONE) as -> by (destruct H1 as [(? & _)|(? & _)]; done). cbn [negb Z.eqb err].
  assert (wf_space (mem s1) /\ has_table (mem s1) va /\ cr3 (mem s1) = cr3 (mem s)) as (Hw1 & Ht & Hc).
  { destruct H1 as [(_ & -> & Hp)|(_ & T & N)]; [by split; [apply Hwf|]|].
    split; [apply N|]. split; [exact (proj1 (nt_entry _ _ _ _ N))|apply N]. }
  pose proof (page_range va Hva) as Hq.
  assert (present (pde (mem s1) (va / 4096 / 1024)) = 1) as Hp1 by (by rewrite page_dir_index).
  assert (0 <= va / 4096 < 1047552) as Hr by (rewrite dir_index_div in Hi; Z.div_mod_to_equations; lia).
  destruct (poke_pte_word_translate va (Z.lor PAGE_PRESENT flags) frame (mem s1)) as (P1 & P2 & P3 & _);
    [done|done|done|done|done|].
  erewrite on_mem_Ret by (by apply set_pte_1). ostep.
  set (w := pte_word _ _ _) in *. set (u := poke (mem s1) (pte_addr (mem s1) (va / 4096)) w) in *.
  eexists _, _. split; [done|]. right. split; [done|].
  assert (forall q, q / 1024 = dir_index va -> q <> va / 4096 -> pte u q = pte (mem s1) q) as Hpte.
  { intros q Hqd Hne. unfold u. rewrite poke_pte_pte by first [done|exact (page_of_dir q va Hva Hqd)|rewrite Hqd; exact Ht].
    by rewrite decide_False. }
  split; cbn [mem page_map].
  - done.
  - done.
  - intros i Hir Hne. rewrite P2 by done. destruct H1 as [(_ & -> & _)|(_ & T & N)]; [done|]. by apply (nt_entries _ _ _ _ N).
  - rewrite P2 by done. exact Ht.
  - rewrite P2 by done. destruct H1 as [(_ & -> & Hp)|(_ & T & N)].
    + left. done.
    + right. destruct N as [N1 [N2 N2'] N3 N4 [N5 N5'] N6 N7 N8]. rewrite N5'. split_and!; [done|done|done|].
      intros q Hqd Hne. rewrite Hpte by done. by apply N7.
  - intros write. unfold mapped_to. rewrite P3, present_or, rw_or. unfold frame_base. by rewrite Hm, Z.sub_0_r.
  - intros a Ha Hfa. rewrite P2 in Hfa by done.
    assert (pget (phys u) a = pget (phys (mem s1)) a) as ->.
    { unfold u, poke, pget. cbn [phys]. rewrite lookup_insert_ne; [done|]. intros <-. apply Hfa.
      unfold pte_addr. rewrite page_dir_index. apply frame_at_offset; [apply frame_of_range|].
      pose proof (Z.mod_pos_bound (va / 4096) 1024 ltac:(lia)). lia. }
    destruct H1 as [(_ & -> & _)|(_ & T & N)]; [done|]. apply (nt_words _ _ _ _ N); [done|].
    by rewrite <- (proj2 (nt_entry _ _ _ _ N)).
Qed.

Lemma same_page_user va a : user va -> a / 4096 = va / 4096 -> user a.
Proof.
  intros [Hu Hi] E. unfold user, is_u32 in *. rewrite dir_index_div in *. Z.div_mod_to_equations. lia.
Qed.

Lemma user_any va : user va -> is_u32 va /\ dir_index va < 1023.
Proof. intros Hu. split; [apply Hu|]. destruct (user_dir va Hu). lia. Qed.

Section remapping.
Context (s s' : mm B) (va : Z) (target : bool -> option Z) (Hs : wf_world s) (Hu : is_u32 va /\ dir_index va < 1023) (R : remapped s s' va target).
#[local] Abbreviation t := (cr3 (mem s)).
#[local] Abbreviation d := (dir_index va).
#[local] Abbreviation T := (frame_of (pde (mem s') (dir_index va))).

Lemma remap_view : view s' t = mem s'.
Proof. rewrite <- (rm_cr3 _ _ _ _ R). apply view_current. Qed.

Lemma remap_dir : 0 <= d < 1023.
Proof. pose proof (dir_index_range va (proj1 Hu)). lia. Qed.

(** The table written to is no directory, and a table of the user part belongs to
    its entry alone. *)
Lemma table_not_dir t' : t' ∈ spaces -> T <> t'.
Proof.
  intros Ht'. pose proof remap_dir. destruct (rm_table _ _ _ _ R) as [(Hp & E & _)|(_ & Hf & _)].
  - rewrite E, <- entry_current. apply (ww_dirs s Hs); [done|apply Hs|lia|].
    by rewrite entry_current.
  - intros <-. by apply (ww_free s Hs T); [left|].
Qed.

Lemma table_other t' i : t' ∈ spaces -> 0 <= i < 1023 -> present (entry s t' i) = 1 -> i < k \/ d < k -> ~ (t' = t /\ i = d) ->
  frame_of (entry s t' i) <> T.
Proof.
  intros Ht' Hi Hp Hk' Hne. pose proof remap_dir. destruct (rm_table _ _ _ _ R) as [(Hpd & E & _)|(_ & Hf & _)].
  - rewrite E. intros Ef. apply Hne. pose proof (ww_current s Hs) as Hc. rewrite <- entry_current in Hpd, Ef. destruct Hk' as [Hk'|Hk'].
    + apply (ww_tables s Hs t' t i d); done || lia.
    + destruct (ww_tables s Hs t t' d i) as [-> ->]; done || lia.
  - intros Ef. rewrite <- Ef in Hf. revert Hf. apply (ww_free s Hs). right. by exists t', i.
Qed.

Lemma remap_entry t' i : t' ∈ spaces -> 0 <= i < 1024 -> ~ (t' = t /\ i = d) -> entry s' t' i = entry s t' i.
Proof.
  intros Ht' Hi Hne. destruct (decide (t' = t)) as [->|Hnt].
  - unfold entry. rewrite remap_view, view_current. apply (rm_entries _ _ _ _ R); [done|]. intros ->. by apply Hne.
  - unfold entry, pde. cbn [view loaded cr3 phys]. pose proof (entry_frame s t' i Hi Hs Ht') as Ef. apply (rm_words _ _ _ _ R).
    + intros E. rewrite E in Ef. pose proof remap_dir. rewrite (entry_frame s) in Ef; [congruence|lia|done|apply Hs].
    + rewrite Ef. intros E. by apply (table_not_dir t' Ht').
Qed.

Lemma remap_leaf t' q : t' ∈ spaces -> 0 <= q / 1024 < 1023 -> present (entry s t' (q / 1024)) = 1 ->
  q / 1024 < k \/ d < k -> ~ (t' = t /\ q / 1024 = d) -> leaf s' t' q = leaf s t' q.
Proof.
  intros Ht' Hq Hp Hk' Hne. unfold leaf, pte.
  assert (pte_addr (view s' t') q = pte_addr (view s t') q) as ->.
  { unfold pte_addr. fold (entry s' t' (q / 1024)) (entry s t' (q / 1024)). by rewrite remap_entry by (done || lia). }
  cbn [view loaded phys]. fold (view s t'). pose proof (leaf_frame s t' q) as Ef. apply (rm_words _ _ _ _ R).
  - intros E. rewrite E in Ef. pose proof remap_dir. rewrite (entry_frame s) in Ef by (apply (ww_current s Hs) || done || lia).
    by apply (ww_dirs s Hs t t' (q / 1024) (ww_current s Hs) Ht' Hq Hp).
  - rewrite Ef. by apply table_other.
Qed.

Lemma remap_translate t' va' write : t' ∈ spaces -> user va' -> ~ (t' = t /\ va' / 4096 = va / 4096) ->
  translate (view s' t') write va' = translate (view s t') write va'.
Proof.
  intros Ht' Hu' Hne. destruct (user_dir va' Hu') as [Hd' Hq']. rewrite !translate_eq.
  fold (entry s' t' (dir_index va')) (entry s t' (dir_index va')) (leaf s' t' (va' / 4096)) (leaf s t' (va' / 4096)).
  destruct (decide (t' = t /\ dir_index va' = d)) as [[-> Ed]|Hnd].
  - assert (va' / 4096 <> va / 4096) as Hnq by (intros ?; by apply Hne). rewrite Ed.
    unfold entry, leaf. rewrite remap_view, view_current.
    assert (va' / 4096 / 1024 = dir_index va) as Eq by (by rewrite page_dir_index).
    destruct (rm_table _ _ _ _ R) as [(_ & E & _ & Hpt)|(Ha & _ & _ & Hpt)].
    + by rewrite E, Hpt.
    + unfold allows at 2 3. rewrite (Hpt (va' / 4096) Eq Hnq). unfold allows at 2. rewrite Ha. by destruct (allows _ _).
  - rewrite remap_entry by (done || lia). destruct (allows write (entry s t' (dir_index va'))) eqn:Ea; [|done].
    apply andb_prop in Ea as [Ea%Z.eqb_eq _].
    rewrite remap_leaf; rewrite ?page_dir_index; try done. left. apply Hu'.
Qed.

Lemma old_table : present (pde (mem s) d) = 1 -> is_meta s (frame_of (pde (mem s) d)).
Proof.
  intros Hp. right. exists t, d. rewrite entry_current. split; [apply (ww_current s Hs)|]. split; [apply remap_dir|done].
Qed.

(** The frames of tables: those of before and, if it is new, the table itself. *)
Lemma remap_meta f : is_meta s' f -> is_meta s f \/ (f = T /\ f ∈ free_blocks (page_map s) /\ (f ∉ free_blocks (page_map s'))).
Proof.
  pose proof remap_dir. intros [Hf|(t' & i & Ht' & Hi & Hp & ->)]; [by left; left|].
  destruct (decide (t' = t /\ i = d)) as [[-> ->]|Hne].
  - unfold entry in Hp |- *. rewrite remap_view in Hp |- *.
    destruct (rm_table _ _ _ _ R) as [(Hpd & E & _)|(_ & Hf & Hfr & _)].
    + left. rewrite E. by apply old_table.
    + right. split; [done|]. split; [done|]. rewrite Hfr. set_solver.
  - left. right. exists t', i. rewrite remap_entry in Hp |- * by (done || lia). done.
Qed.

Lemma remap_free : free_blocks (page_map s') ⊆ free_blocks (page_map s).
Proof. destruct (rm_table _ _ _ _ R) as [(_ & _ & -> & _)|(_ & _ & -> & _)]; set_solver. Qed.

(** Words outside the tables and the free frames stay. *)
Lemma remap_words a : ~ is_meta s (frame_at a) -> (frame_at a ∉ free_blocks (page_map s)) ->
  pget (phys (mem s')) a = pget (phys (mem s)) a.
Proof.
  intros Hm Hf. pose proof remap_dir. apply (rm_words _ _ _ _ R).
  - intros E. apply Hm. left. rewrite E, (entry_frame s) by (apply (ww_current s Hs) || done || lia). apply Hs.
  - intros E. destruct (rm_table _ _ _ _ R) as [(Hpd & E' & _)|(_ & Hf' & _)]; [|by rewrite E in Hf].
    apply Hm. rewrite E, E'. by apply old_table.
Qed.

Lemma remap_bytes t' a : t' ∈ spaces -> ~ (t' = t /\ a / 4096 = va / 4096) -> byte_at s' t' a = byte_at s t' a.
Proof.
  intros Ht' Hne. apply byte_at_ext.
  - intros _ Hu'. by apply remap_translate.
  - intros pa _ Hu' E%translate_readable. destruct (ww_leaf s Hs t' a pa Ht' Hu' E) as [Hm Hf].
    unfold phys_byte. by rewrite remap_words by by rewrite frame_at_word.
Qed.

(** The page itself. *)
Lemma remap_page a write : a / 4096 = va / 4096 ->
  translate (view s' t) write a = (fun pa => pa - page_offset va + page_offset a) <$> target write.
Proof.
  intros Ha. pose proof (rm_target _ _ _ _ R write) as <-. rewrite <- remap_view, !translate_eq.
  rewrite <- !page_dir_index, Ha.
  destruct (allows write (pde _ _)); [destruct (allows write (pte _ _))|]; [|done..]. cbn. f_equal. lia.
Qed.

(** A user page of [s'] is one of [s], or the one just moved. *)
Lemma remap_user t' a pa : t' ∈ spaces -> user a -> translate (view s' t') false a = Some pa ->
  (t' = t /\ a / 4096 = va / 4096 /\ exists pa0, target false = Some pa0 /\ frame_at pa = frame_at pa0) \/
  (~ (t' = t /\ a / 4096 = va / 4096) /\ translate (view s t') false a = Some pa).
Proof.
  intros Ht' Hua E. destruct (decide (t' = t /\ a / 4096 = va / 4096)) as [[-> Ha]|Hne].
  - left. split; [done|]. split; [done|]. pose proof E as [_ ->]%translate_frame.
    rewrite remap_page in E by done. destruct (target false) as [pa0|] eqn:E0; [|done]. exists pa0. split; [done|].
    pose proof (rm_target _ _ _ _ R false) as Et. rewrite E0, <- remap_view in Et. apply translate_frame in Et as [_ ->].
    by rewrite Ha.
  - right. split; [done|]. by rewrite remap_translate in E.
Qed.

(** Every space stays well formed. *)
Lemma remap_space t' : t' ∈ spaces -> wf_space (view s' t').
Proof.
  intros Ht'. destruct (decide (t' = t)) as [->|Hne]; [rewrite remap_view; apply R|].
  destruct (ww_space s Hs t' Ht') as [R1 R2 R3 R4].
  assert (forall i, 0 <= i < 1024 -> pde (view s' t') i = pde (view s t') i) as E.
  { intros i Hi. apply remap_entry; [done|done|]. by intros [? _]. }
  split; [done|by rewrite E|..].
  - intros i Hi. rewrite E by done. by apply R3.
  - intros i j Hi Hj. rewrite !E by done. by apply R4.
Qed.

(** A frame that is nobody's may be mapped. *)
Lemma remap_wf : (user va -> forall pa, target false = Some pa -> ownerless s (frame_at pa)) -> wf_world s'.
Proof.
  intros Hnew. pose proof remap_dir as Hd. pose proof remap_free as Hsub.
  assert (forall f, ~ is_meta s f -> (f ∉ free_blocks (page_map s)) -> ~ is_meta s' f /\ (f ∉ free_blocks (page_map s'))) as Hkeep.
  { intros f H1 H2. split; [|set_solver]. intros [?|(_ & ? & _)]%remap_meta; done. }
  split.
  - rewrite (rm_cr3 _ _ _ _ R). apply Hs.
  - apply remap_space.
  - intros f [Hf|(_ & _ & Hn)]%remap_meta; [|done]. intros ?%Hsub. by apply (ww_free s Hs f).
  - intros t1 t2 i H1 H2 Hi. destruct (decide (t2 = t /\ i = d)) as [[-> ->]|Hne].
    + intros _. unfold entry. rewrite remap_view. by apply table_not_dir.
    + rewrite remap_entry by (done || lia). by apply (ww_dirs s Hs).
  - intros t1 t2 i j H1 H2 Hi Hj Hp1 Hp2 E.
    assert (entry s' t d = pde (mem s') d) as Et by (unfold entry; by rewrite remap_view).
    destruct (decide (t1 = t /\ i = d)) as [[-> ->]|Hn1]; destruct (decide (t2 = t /\ j = d)) as [[-> ->]|Hn2]; [done|..].
    + rewrite Et in E. rewrite (remap_entry t2) in Hp2, E by (done || lia).
      by destruct (table_other t2 j H2 Hj Hp2 (or_intror (proj2 Hi)) Hn2).
    + rewrite Et in E. rewrite (remap_entry t1) in Hp1, E by (done || lia).
      destruct (table_other t1 i H1 ltac:(lia) Hp1 (or_introl (proj2 Hi)) Hn1). done.
    + rewrite remap_entry in Hp1, E by (done || lia). rewrite remap_entry in Hp2, E by (done || lia).
      by apply (ww_tables s Hs).
  - intros t' a pa Ht' Hua E. apply Hkeep; destruct (remap_user t' a pa Ht' Hua E) as [(_ & Ha & pa0 & E0 & ->)|[_ E']];
      (apply Hnew; [by apply (same_page_user a)|done]) || by apply (ww_leaf s Hs t' a).
  - intros t1 t2 a1 a2 p1 p2 H1 H2 Hu1 Hu2 E1 E2 Ef.
    destruct (remap_user t1 a1 p1 H1 Hu1 E1) as [(-> & A1 & q1 & E0 & F1)|[_ E1']];
      destruct (remap_user t2 a2 p2 H2 Hu2 E2) as [(-> & A2 & q2 & E0' & F2)|[_ E2']].
    + split; [done|congruence].
    + destruct (proj2 (proj2 (Hnew (same_page_user a1 va Hu1 (eq_sym A1)) _ E0)) t2 a2 p2 H2 Hu2 E2'). congruence.
    + destruct (proj2 (proj2 (Hnew (same_page_user a2 va Hu2 (eq_sym A2)) _ E0')) t1 a1 p1 H1 Hu1 E1'). congruence.
    + by apply (ww_private s Hs t1 t2 a1 a2 p1 p2).
Qed.

(** The other frames that are nobody's stay so. *)
Lemma remap_ownerless f : ownerless s f -> (user va -> forall pa, target false = Some pa -> frame_at pa <> f) -> ownerless s' f.
Proof.
  intros (Hm & Hf & Hl) Ht. split; [by intros [?|(_ & ? & _)]%remap_meta|].
  split; [intros ?%remap_free; done|]. intros t' a pa Ht' Hua E.
  destruct (remap_user t' a pa Ht' Hua E) as [(_ & Ha & pa0 & E0 & ->)|[_ E']];
    [apply Ht; [by apply (same_page_user a)|done]|by eapply Hl].
Qed.
End remapping.

(** ** Reserving a frame and mapping it *)
(** Only the allocator moves: the memory of every space is the same. *)
Lemma same_bytes s s' : mem s' = mem s -> forall t a, byte_at s' t a = byte_at s t a.
Proof. intros E t a. unfold byte_at, phys_byte, view. by rewrite E. Qed.

Lemma allocator_wf s s' : wf_world s -> mem s' = mem s ->
  free_blocks (page_map s') ⊆ free_blocks (page_map s) -> wf_world s'.
Proof. intros Hs E Hf. apply (same_wf_world s s' Hs); [by intros; rewrite E|rewrite E; apply Hs|done]. Qed.

(** A frame that was free is nobody's. *)
Lemma free_frame_fresh s f : wf_world s -> f ∈ free_blocks (page_map s) -> ~ is_meta s f /\
  forall t a pa, t ∈ spaces -> user a -> translate (view s t) false a = Some pa -> frame_at pa <> f.
Proof.
  intros Hs Hf. split; [intros Hm; by apply (ww_free s Hs f)|].
  intros t a pa Ht Hua E <-. by destruct (ww_leaf s Hs t a pa Ht Hua E).
Qed.

Lemma reserve_world s : wf_world s -> exists r s', reserve_page s = Ret (r, s') /\ wf_world s' /\ mem s' = mem s /\
  (r = err ENOMEM \/ (r <> err ENOMEM /\ is_u32 r /\ r mod 4096 = 0 /\ ownerless s' r)).
Proof.
  intros Hs. destruct (reserve_page_run s) as (r & h' & E & Hr). exists r, (MM (mem s) h').
  assert (free_blocks h' ⊆ free_blocks (page_map s)) as Hsub.
  { destruct Hr as [[_ ->]|(_ & _ & ->)]; set_solver. }
  split; [done|]. split; [by apply (allocator_wf s)|]. split; [done|].
  destruct Hr as [[-> _]|(Hne & Hin & Hh)]; [by left|right].
  destruct (free_blocks_frames _ _ Hin) as [Hu Hm]. destruct (free_frame_fresh s r Hs Hin) as [Hnm Hnl].
  split; [done|]. split; [done|]. split; [done|]. split; [done|]. split; [|done]. cbn [page_map]. rewrite Hh. set_solver.
Qed.


Lemma mapped_frame va frame : frame mod 4096 = 0 -> frame_at (frame + page_offset va) = frame.
Proof. intros Hm. rewrite page_offset_mod. apply frame_at_offset; [done|]. Z.div_mod_to_equations. lia. Qed.

(** Mapping a frame that is nobody's at a page of the current space. *)
Lemma map_world s va frame flags : wf_world s -> user va -> is_u32 frame -> frame mod 4096 = 0 ->
  ownerless s frame -> exists r s', map_page va frame flags s = Ret (r, s') /\ wf_world s' /\ cr3 (mem s') = cr3 (mem s) /\
    ((r = err ENOMEM /\ mem s' = mem s) \/
     (r = err ENONE /\
      (forall t a, ~ (t = cr3 (mem s) /\ a / 4096 = va / 4096) -> byte_at s' t a = byte_at s t a) /\
      (has_flag flags PAGE_RW = true -> forall a, a / 4096 = va / 4096 -> is_Some (byte_at s' (cr3 (mem s)) a)) /\
      remapped s s' va (mapped_to va frame flags))).
Proof.
  intros Hs Hu Hf Hm Ho. destruct (user_dir va Hu) as [Hd _]. pose proof (user_any va Hu) as Hany.
  destruct (map_page_phys s va frame flags (world_mm s Hs) ltac:(apply Hu) ltac:(lia) Hf Hm) as (r & s' & E & [(-> & Em & Efr)|[-> R]]).
  - eexists _, s'. split; [done|]. split; [apply (allocator_wf s); [done|done|by rewrite Efr]|]. split; [by rewrite Em|by left].
  - eexists _, s'. split; [done|]. split; [|split; [apply R|right; split; [done|]; split; [|split; [|exact R]]]].
    + apply (remap_wf s s' va (mapped_to va frame flags)); [done|done|done|]. intros _ pa [= <-]. by rewrite mapped_frame.
    + intros t a Hne. destruct (decide (t ∈ spaces)) as [Ht|Hn]; [|by rewrite !byte_at_other by tauto].
      by apply (remap_bytes s s' va (mapped_to va frame flags)).
    + intros Hrw a Ha. rewrite byte_at_user by (apply Hs || by apply (same_page_user va)).
      rewrite (remap_page s s' va (mapped_to va frame flags)) by done. unfold mapped_to. by rewrite Hrw, orb_true_r.
Qed.

(** ** Unmapping a page and giving a frame back *)
Lemma unmap_remapped s va : wf_world s -> user va -> mapped s va = true ->
  remapped s (MM (poke (mem s) (pte_addr (mem s) (va / 4096)) (pte_word 0 0 (pte (mem s) (va / 4096)))) (page_map s))
    va (fun _ => None).
Proof.
  intros Hs Hu [Hp%Z.eqb_eq _]%andb_prop. destruct (user_dir va Hu) as [Hd Hq]. destruct Hu as [Hva _].
  pose proof (world_mm s Hs) as [W _].
  assert (present (pde (mem s) (va / 4096 / 1024)) = 1) as Hp1 by (by rewrite page_dir_index).
  assert (0 <= va / 4096 < 1047552) as Hr by (rewrite dir_index_div in Hd; Z.div_mod_to_equations; lia).
  destruct (poke_pte_word_translate va 0 0 (mem s)) as (P1 & P2 & P3 & _); [done|done|lia|done|done|].
  split; cbn [mem page_map]; try done.
  - intros i Hi _. by apply P2.
  - by rewrite P2 by lia.
  - rewrite P2 by lia. left. split; [done|]. split; [done|]. split; [done|]. intros q Hqd Hne.
    rewrite poke_pte_pte by first [done|exact (page_of_dir q va Hva Hqd)|by rewrite Hqd]. by rewrite decide_False.
  - intros a _ Hfa. rewrite P2 in Hfa by lia. unfold poke, pget. cbn [phys]. rewrite lookup_insert_ne; [done|].
    intros <-. apply Hfa. unfold pte_addr. rewrite page_dir_index. apply frame_at_offset; [apply frame_of_range|].
    pose proof (Z.mod_pos_bound (va / 4096) 1024 ltac:(lia)). lia.
Qed.

(** The page is gone, nothing else is, and its frame is nobody's. *)
Lemma unmap_world s va : wf_world s -> user va -> va mod 4096 = 0 -> exists r s', unmap_page va s = Ret (r, s') /\
  wf_world s' /\ cr3 (mem s') = cr3 (mem s) /\
  (forall t a, ~ (t = cr3 (mem s) /\ a / 4096 = va / 4096) -> byte_at s' t a = byte_at s t a) /\
  ((r = err EOUTOFBOUNDS /\ s' = s /\ translate (mem s) false va = None) \/
   (translate (mem s) false va = Some r /\ is_u32 r /\ r mod 4096 = 0 /\ ownerless s' r /\
    forall a, a / 4096 = va / 4096 -> byte_at s' (cr3 (mem s)) a = None)).
Proof.
  intros Hs Hu Hal. destruct (user_dir va Hu) as [Hd _]. pose proof (user_any va Hu) as Hany. pose proof (world_mm s Hs) as W. pose proof Hu as [Hva _].
  rewrite unmap_page_run by (done || lia). destruct (mapped s va) eqn:Em.
  2: { eexists _, s. split; [done|]. split; [done|]. split; [done|]. split; [done|]. left. split; [done|]. split; [done|].
       rewrite mapped_translate by done. by rewrite Em. }
  pose proof (unmap_remapped s va Hs Hu Em) as R. set (s' := MM _ _) in *.
  assert (wf_world s') as Hs' by (by apply (remap_wf s s' va (fun _ => None))).
  assert (page_offset va = 0) as Ho by (by rewrite page_offset_mod). rewrite Ho, Z.add_0_r.
  set (f := frame_of (pte (mem s) (va / 4096))) in *.
  assert (translate (mem s) false va = Some f) as Ef.
  { rewrite mapped_translate by done. rewrite Em, Ho. f_equal. unfold f. lia. }
  destruct (frame_of_range (pte (mem s) (va / 4096))) as [Fu Fm]. fold f in Fu, Fm.
  eexists f, s'. split; [done|]. split; [done|]. split; [done|]. split.
  - intros t a Hne. destruct (decide (t ∈ spaces)) as [Ht|Hn]; [|by rewrite !byte_at_other by tauto].
    by apply (remap_bytes s s' va (fun _ => None)).
  - right. split; [done|]. split; [done|]. split; [done|]. rewrite <- (view_current s) in Ef.
    pose proof (ww_leaf s Hs _ va f (ww_current s Hs) Hu Ef) as Hl. rewrite frame_at_self in Hl by done. destruct Hl as [Hm Hf].
    split; [split; [|split; [done|]]|].
    + intros Hm'. apply (remap_meta s s' va (fun _ => None)) in Hm' as [?|(_ & ? & _)]; done.
    + intros t a pa Ht Hua E. destruct (remap_user s s' va (fun _ => None) Hs Hany R t a pa Ht Hua E)
        as [(_ & _ & ? & [=] & _)|[Hne E']].
      intros <-. destruct (ww_private s Hs t _ a va pa _ Ht (ww_current s Hs) Hua Hu E' Ef) as [-> ?]; [|by apply Hne].
      by rewrite (frame_at_self (frame_at pa)).
    + intros a Ha. rewrite byte_at_user by (apply Hs || by apply (same_page_user va)).
      by rewrite (remap_page s s' va (fun _ => None)).
Qed.

(** A frame that is nobody's can be given back. *)
Lemma free_world s f : wf_world s -> is_u32 f -> f mod 4096 = 0 -> ownerless s f ->
  exists s', free_page f s = Ret (err ENONE, s') /\ wf_world s' /\ mem s' = mem s.
Proof.
  intros Hs Hu Hm (Hnm & Hnf & Hnl). eexists. split; [done|]. split; [|done].
  set (s' := MM _ _). assert (free_blocks (page_map s') = {[f]} ∪ free_blocks (page_map s)) as E by (by apply free_region_ok).
  destruct Hs as [W1 W2 W3 W4 W5 W6 W7]. split; try done.
  - intros g Hg Hin. rewrite E in Hin. apply elem_of_union in Hin as [->%elem_of_singleton|Hin]; [done|]. by apply (W3 g Hg).
  - intros t va pa Ht Hua Ep. destruct (W6 t va pa Ht Hua Ep) as [H1 H2]. split; [done|]. rewrite E.
    intros [Hin%elem_of_singleton|Hin]%elem_of_union; [|done]. by apply (Hnl t va pa Ht Hua Ep).
Qed.

(** *** The laws of Space.v *)
#[local] Program Instance mm_spaces_ok : AddressSpacesOk (mm B) := {
  as_wf := wf_world;
  as_space := fun t => t ∈ spaces;
  as_current := fun s => cr3 (mem s);
  as_byte := byte_at
}.
Next Obligation. intros s t a b (_ & _ & pa & _ & ->)%byte_at_inv. apply phys_byte_range. Qed.
Next Obligation. intros t s Hs Ht. by apply load_run. Qed.
Next Obligation. intros s a b _ E. by apply read_byte_run. Qed.
Next Obligation. intros s a b Hs Ha Hb. by apply write_byte_run. Qed.

#[local] Program Instance mm_spaces_map : AddressSpacesMap (mm B) := { as_user_page := user }.
Next Obligation.
  intros s Hs. destruct (reserve_world s Hs) as (f & s1 & E & Hs1 & Em & Hf). exists f, s1. split; [done|].
  assert (same_memory s s1) as Hsame by (split; [done|]; split; [by cbn; rewrite Em|]; by apply same_bytes).
  split; [done|]. destruct Hf as [->|(Hne & Hu & Hm & Ho)]; [by left|right]. split; [done|]. split; [done|].
  intros page flags Hp Hrw.
  destruct (map_world s1 page f flags Hs1 Hp Hu Hm Ho) as (st & s2 & E2 & Hs2 & Hc & [[-> Em2]|(-> & H1 & H2 & _)]).
  - eexists _, s2. split; [done|]. left. split; [done|]. split; [done|]. split; [done|]. by apply same_bytes.
  - eexists _, s2. split; [done|]. right. split; [done|]. split; [done|]. split; [done|]. split; [done|]. by apply H2.
Qed.

(** ** The abstract memory

    What the memory manager amounts to for its clients: the space in use and the
    bytes of every space, with no tables and no frames. *)
Record memory := Memory { space_now : Z; byte : Z -> Z -> option Z }.
Definition abstract s : memory := Memory (cr3 (mem s)) (byte_at s).

Inductive request := Enter (t : Z) | Fetch (a : Z) | Store (a b : Z) | MapFresh (page : Z) | Unmap (page : Z).

(** The calls a request stands for; [MapFresh] is a round of [mmap]'s loop. *)
Definition perform (q : request) : M (mm B) Z :=
  match q with
  | Enter t => _ ← on_mem (paging_load_address_space t); mret 0
  | Fetch a => on_mem (mmu_read8 a)
  | Store a b => _ ← on_mem (mmu_write8 a b); mret 0
  | MapFresh page =>
    frame ← reserve_page;
    if frame mod 4096 =? 0 then
      status ← map_page page frame (Z.lor PAGE_USERMODE PAGE_RW);
      if status =? err ENONE then mret status else _ ← free_page frame; mret status
    else mret (err ENOMEM)
  | Unmap page => unmap_page page
  end.

(** When a request may be made. *)
Definition asks (q : request) (m : memory) : Prop :=
  match q with
  | Enter t => t ∈ spaces
  | Fetch a => is_Some (byte m (space_now m) a)
  | Store a b => is_Some (byte m (space_now m) a) /\ 0 <= b < 256
  | MapFresh page => user page
  | Unmap page => user page /\ page mod 4096 = 0
  end.

Definition same_bytes_but (P : Z -> Z -> Prop) (m m' : memory) : Prop := forall t a, ~ P t a -> byte m' t a = byte m t a.
Definition page_now (m : memory) (page t a : Z) : Prop := t = space_now m /\ a / 4096 = page / 4096.

(** What it answers, and the memory it leaves. *)
Definition serves (q : request) (m : memory) (r : Z) (m' : memory) : Prop :=
  match q with
  | Enter t => r = 0 /\ space_now m' = t /\ same_bytes_but (fun _ _ => False) m m'
  | Fetch a => byte m (space_now m) a = Some r /\ space_now m' = space_now m /\ same_bytes_but (fun _ _ => False) m m'
  | Store a b => r = 0 /\ space_now m' = space_now m /\ byte m' (space_now m) a = Some b /\
      same_bytes_but (fun t a' => t = space_now m /\ a' = a) m m'
  | MapFresh page => space_now m' = space_now m /\
      ((r = err ENOMEM /\ same_bytes_but (fun _ _ => False) m m') \/
       (r = err ENONE /\ same_bytes_but (page_now m page) m m' /\ forall a, page_now m page (space_now m) a -> is_Some (byte m' (space_now m) a)))
  | Unmap page => space_now m' = space_now m /\
      ((r = err EOUTOFBOUNDS /\ same_bytes_but (fun _ _ => False) m m') \/
       (is_u32 r /\ r mod 4096 = 0 /\ same_bytes_but (page_now m page) m m' /\
        forall a, page_now m page (space_now m) a -> byte m' (space_now m) a = None))
  end.

Lemma map_fresh_serves s page : wf_world s -> user page -> exists r s', perform (MapFresh page) s = Ret (r, s') /\
  wf_world s' /\ serves (MapFresh page) (abstract s) r (abstract s').
Proof.
  intros Hs Hu. cbn [perform]. unfold mbind, M_mbind.
  destruct (reserve_world s Hs) as (f & s1 & E & Hs1 & Em & [->|(Hne & Fu & Fm & Ho)]); rewrite E; ostep.
  { change (err ENOMEM mod 4096 =? 0) with false. eexists _, s1. split; [done|]. split; [done|]. cbn. rewrite Em.
    split; [done|]. left. split; [done|]. intros t a _. by apply same_bytes. }
  rewrite Fm. change (0 =? 0) with true. cbv iota.
  destruct (map_world s1 page f (Z.lor PAGE_USERMODE PAGE_RW) Hs1 Hu Fu Fm Ho)
    as (st & s2 & E2 & Hs2 & Hc & [[-> Em2]|(-> & H1 & H2 & _)]); rewrite E2; ostep.
  - change (err ENOMEM =? err ENONE) with false. cbv iota.
    assert (ownerless s2 f) as Ho2.
    { destruct (map_page_phys s1 page f (Z.lor PAGE_USERMODE PAGE_RW) (world_mm s1 Hs1) ltac:(apply Hu)) as (r' & s2' & E2' & Hcase);
        [pose proof (user_dir page Hu); lia|done|done|]. rewrite E2 in E2'. injection E2' as <- <-.
      destruct Hcase as [(_ & _ & Ef)|[? _]]; [|done]. destruct Ho as (O1 & O2 & O3). unfold ownerless, is_meta, entry, view in *.
      rewrite Em2, Ef. done. }
    destruct (free_world s2 f Hs2 Fu Fm Ho2) as (s3 & E3 & Hs3 & Em3). rewrite E3. ostep.
    eexists _, s3. split; [done|]. split; [done|]. cbn. rewrite Em3, Em2, Em. split; [done|]. left. split; [done|].
    intros t a _. cbn. apply same_bytes. by rewrite Em3, Em2, Em.
  - change (err ENONE =? err ENONE) with true. cbv iota. eexists _, s2. split; [done|]. split; [done|]. cbn. rewrite Hc, Em.
    split; [done|]. right. split; [done|]. rewrite Em in H1, H2. split.
    + intros t a Hn. cbn. rewrite H1 by done. by apply same_bytes.
    + intros a [_ Ha]. by apply H2.
Qed.

Lemma request_served s q : wf_world s -> asks q (abstract s) ->
  exists r s', perform q s = Ret (r, s') /\ wf_world s' /\ serves q (abstract s) r (abstract s').
Proof.
  intros Hs. destruct q as [t|a|a b|page|page]; cbn [asks abstract byte space_now].
  - intros Ht. destruct (load_run s t Hs Ht) as (s' & E & Hs' & Hc & Hb). exists 0, s'.
    cbn [perform]. unfold mbind, M_mbind. cbn [as_load mm_spaces] in E. rewrite E.
    split; [done|]. split; [done|]. split; [done|]. split; [done|]. intros t' a _. apply Hb.
  - intros [b Hb]. exists b, s. split; [by apply read_byte_run|]. split; [done|]. split; [done|]. split; [done|]. by intros t a' _.
  - intros [Ha Hb]. destruct (write_byte_run s a b Hs Ha Hb) as (s' & E & Hs' & Hc & Hv). exists 0, s'.
    cbn [perform]. unfold mbind, M_mbind. cbn [as_write8 mm_spaces] in E. rewrite E.
    split; [done|]. split; [done|]. split; [done|]. split; [done|]. split; [cbn; by rewrite Hv, decide_True|].
    intros t a' Hn. cbn. by rewrite Hv, decide_False.
  - apply map_fresh_serves, Hs.
  - intros [Hu Hal]. destruct (unmap_world s page Hs Hu Hal) as (r & s' & E & Hs' & Hc & Ho & Hcase).
    exists r, s'. split; [done|]. split; [done|]. split; [done|]. destruct Hcase as [(-> & -> & _)|(_ & Ru & Rm & _ & Hn)].
    + left. split; [done|]. by intros t a _.
    + right. split; [done|]. split; [done|]. split; [exact Ho|]. intros a [_ Ha]. by apply Hn.
Qed.
End isolation.

(** ** A new address space

    [create_address_space] adds its directory to the spaces: it has the kernel's
    tables and no user page. *)
Section creation.
Context {B : Type} `{BitmapHeapOk B} (spaces : gset Z) (kernel_start : Z) (s s' : mm B) (r : Z).
#[local] Abbreviation k := (Z.shiftr kernel_start 22).
Context (Hk : 1 <= k <= 1023) (Hs : wf_world spaces k s).
Context (Hr : r ∈ free_blocks (page_map s)) (Hr' : r ∉ free_blocks (page_map s')).
Context (Hfree : free_blocks (page_map s') ⊆ free_blocks (page_map s)) (Hc : cr3 (mem s') = cr3 (mem s)).
Context (Hw : forall i, 0 <= i < 1024 -> pget (phys (mem s')) (r + 4 * i) = top_word kernel_start r (mem s) i).
Context (Hm : forall a, a < r \/ r + 4096 <= a -> pget (phys (mem s')) a = pget (phys (mem s)) a).

Lemma new_fresh : fresh_table (mem s) r.
Proof. apply (wf_fresh s r); [by apply (world_mm spaces k)|done]. Qed.

Lemma new_not_space t : t ∈ spaces -> t <> r.
Proof. intros Ht ->. apply (ww_free spaces k s Hs r); [by left|done]. Qed.

Lemma outside_new a : frame_at a <> r -> pget (phys (mem s')) a = pget (phys (mem s)) a.
Proof.
  intros Ha. apply Hm. destruct new_fresh as [_ Fa _]. unfold frame_at in Ha. Z.div_mod_to_equations. lia.
Qed.

Lemma meta_words a : is_meta spaces s (frame_at a) -> pget (phys (mem s')) a = pget (phys (mem s)) a.
Proof. intros Ha. apply outside_new. intros E. rewrite E in Ha. by apply (ww_free spaces k s Hs r). Qed.

Lemma new_entry i : 0 <= i < 1023 -> present (entry s' r i) = 1 ->
  k <= i /\ entry s' r i = entry s (cr3 (mem s)) i /\ present (entry s (cr3 (mem s)) i) = 1.
Proof.
  intros Hi. unfold entry. rewrite view_current. intros Hp.
  assert (pde (view s' r) i = top_word kernel_start r (mem s) i) as E by (apply Hw; lia). rewrite E in Hp.
  destruct (top_word_present kernel_start r (mem s) i) as [->|[Hik Hpi]]; [lia|done|lia|].
  rewrite E, top_word_copied by done. split; [lia|done].
Qed.

Lemma old_entry t i : t ∈ spaces -> 0 <= i < 1024 -> entry s' t i = entry s t i.
Proof. apply (same_entry spaces k s s' Hs meta_words). Qed.

Lemma old_meta f : is_meta ({[r]} ∪ spaces) s' f -> f = r \/ is_meta spaces s f.
Proof.
  intros [[->%elem_of_singleton|Hf]%elem_of_union|(t & i & [->%elem_of_singleton|Ht]%elem_of_union & Hi & Hp & ->)].
  - by left.
  - right. by left.
  - destruct (new_entry i Hi Hp) as (_ & -> & Hp'). right. right. exists (cr3 (mem s)), i.
    split; [apply (ww_current _ _ _ Hs)|done].
  - right. right. exists t, i. rewrite old_entry in Hp |- * by (done || lia). done.
Qed.

Lemma new_world_user t va pa : t ∈ {[r]} ∪ spaces -> user k va -> translate (view s' t) false va = Some pa ->
  t ∈ spaces /\ translate (view s t) false va = Some pa.
Proof.
  intros [->%elem_of_singleton|Ht]%elem_of_union Hu E; pose proof (user_dir k Hk va Hu) as [Hd _].
  - exfalso. unfold view in E. rewrite (new_space_user kernel_start r (mem s)) in E by (done || (split; [lia|apply Hu])). done.
  - split; [done|]. by rewrite (same_translate spaces k s s' Hs meta_words) in E by (apply Hu || done || lia).
Qed.

Lemma new_world : wf_world ({[r]} ∪ spaces) k s'.
Proof.
  pose proof (ww_current _ _ _ Hs) as Hcur.
  assert (forall i, 0 <= i < 1023 -> present (entry s (cr3 (mem s)) i) = 1 -> frame_of (entry s (cr3 (mem s)) i) <> r) as Hnr.
  { intros i Hi Hp E. rewrite <- E in Hr. revert Hr. apply (ww_free _ _ _ Hs). right. by exists (cr3 (mem s)), i. }
  split.
  - rewrite Hc. set_solver.
  - intros t [->%elem_of_singleton|Ht]%elem_of_union.
    + apply (new_space_wf kernel_start r (mem s)); (done || exact new_fresh || exact (wm_space s (world_mm spaces k s Hs))).
    + destruct (ww_space _ _ _ Hs t Ht) as [R1 R2 R3 R4].
      assert (forall i, 0 <= i < 1024 -> pde (view s' t) i = pde (view s t) i) as E by (intros; by apply old_entry).
      split; [done|by rewrite E|..].
      * intros i Hi. rewrite E by done. by apply R3.
      * intros i j Hi Hj. rewrite !E by done. by apply R4.
  - intros f [->|Hf]%old_meta; [done|]. intros ?%Hfree. by apply (ww_free _ _ _ Hs f).
  - assert (forall t t' i, t ∈ {[r]} ∪ spaces -> t' ∈ spaces -> 0 <= i < 1023 -> present (entry s t' i) = 1 ->
      frame_of (entry s t' i) <> t) as Hdirs.
    { intros t t' i Ht Ht' Hi Hp. apply elem_of_union in Ht as [->%elem_of_singleton|Ht]; [|by apply (ww_dirs _ _ _ Hs)].
      intros E. rewrite <- E in Hr. revert Hr. apply (ww_free _ _ _ Hs). right. by exists t', i. }
    intros t t' i Ht [->%elem_of_singleton|Ht']%elem_of_union Hi Hp.
    + destruct (new_entry i Hi Hp) as (_ & -> & Hp'). by apply Hdirs.
    + rewrite old_entry in Hp |- * by (done || lia). by apply Hdirs.
  - intros t t' i j Ht Ht' Hi Hj Hp Hp' E. apply elem_of_union in Ht as [->%elem_of_singleton|Ht].
    { destruct (new_entry i ltac:(lia) Hp). lia. }
    rewrite old_entry in Hp, E by (done || lia). apply elem_of_union in Ht' as [->%elem_of_singleton|Ht'].
    + destruct (new_entry j Hj Hp') as (Hkj & E' & Hp''). rewrite E' in E.
      destruct (ww_tables _ _ _ Hs t (cr3 (mem s)) i j) as [_ ->]; try done. lia.
    + rewrite old_entry in Hp', E by (done || lia). by apply (ww_tables _ _ _ Hs).
  - intros t va pa Ht Hu E. destruct (new_world_user t va pa Ht Hu E) as [Ht' E'].
    destruct (ww_leaf _ _ _ Hs t va pa Ht' Hu E') as [Hnm Hnf]. split; [|set_solver].
    intros [E0|?]%old_meta; [|done]. by rewrite E0 in Hnf.
  - intros t t' va va' pa pa' Ht Ht' Hu Hu' E1 E2. destruct (new_world_user t va pa Ht Hu E1) as [H1 E1'].
    destruct (new_world_user t' va' pa' Ht' Hu' E2) as [H2 E2']. by apply (ww_private _ _ _ Hs).
Qed.
End creation.

Lemma create_world {B} `{BitmapHeapOk B} spaces kernel_start (s : mm B) :
  1 <= Z.shiftr kernel_start 22 <= 1023 -> wf_world spaces (Z.shiftr kernel_start 22) s -> has_table (mem s) 0 ->
  exists r s', create_address_space kernel_start s = Ret (r, s') /\ cr3 (mem s') = cr3 (mem s) /\
    ((r = err ENOMEM /\ wf_world spaces (Z.shiftr kernel_start 22) s' /\ mem s' = mem s) \/
     (r <> err ENOMEM /\ (r ∉ spaces) /\ wf_world ({[r]} ∪ spaces) (Z.shiftr kernel_start 22) s' /\
      (forall t a, t ∈ spaces -> byte_at ({[r]} ∪ spaces) (Z.shiftr kernel_start 22) s' t a =
         byte_at spaces (Z.shiftr kernel_start 22) s t a) /\
      (forall a, byte_at ({[r]} ∪ spaces) (Z.shiftr kernel_start 22) s' r a = None) /\
      forall f, ownerless spaces (Z.shiftr kernel_start 22) s f -> ownerless ({[r]} ∪ spaces) (Z.shiftr kernel_start 22) s' f /\
        forall a, frame_at a = f -> pget (phys (mem s')) a = pget (phys (mem s)) a)).
Proof.
  intros Hk Hs H0t. destruct (create_run s kernel_start) as (r & s' & E & Ha & Hcase);
    [by apply (world_mm spaces (Z.shiftr kernel_start 22))|done|done|].
  exists r, s'. split; [done|]. destruct Hcase as [[-> Em]|(Hne & Hr & Hr' & Hw & Hm & Hc)].
  { split; [by rewrite Em|]. left. split; [done|]. split; [|done]. by apply (allocator_wf spaces _ Hk s). }
  split; [done|]. right. split; [done|].
  assert (r ∉ spaces) as Hnr by (intros Hin; by apply (ww_free _ _ _ Hs r); [left|]).
  assert (forall va write, user (Z.shiftr kernel_start 22) va -> translate (view s' r) write va = None) as user_none.
  { intros va write Hu. pose proof (user_dir _ Hk va Hu) as [? _].
    apply (new_space_user kernel_start r (mem s)); (done || (split; [lia|apply Hu])). }
  split; [done|]. split; [by apply (new_world spaces kernel_start s s' r)|]. split.
  - intros t a Ht. assert (t ∈ {[r]} ∪ spaces) as Ht' by set_solver.
    unfold byte_at. rewrite !bool_decide_true by done. destruct (user_dec _ a) eqn:Hu; [|done]. apply user_decP in Hu.
    pose proof (user_dir _ Hk a Hu) as [Hd _]. cbn [andb].
    rewrite (same_translate spaces _ s s' Hs) by first [apply Hu|lia|done|by apply (meta_words spaces kernel_start s s' r)].
    destruct (translate (view s t) true a) as [pa|] eqn:Ep; [|done]. cbn. f_equal. unfold phys_byte.
    rewrite (outside_new spaces kernel_start s s' r); [done..|]. rewrite frame_at_word. intros E'.
    pose proof (translate_readable _ _ _ _ Ep) as Er. destruct (ww_leaf _ _ _ Hs t a pa Ht Hu Er) as [_ Hnf]. by rewrite E' in Hnf.
  - split.
    + intros a. unfold byte_at. destruct (bool_decide _); [|done]. destruct (user_dec _ a) eqn:Hu; [|done]. cbn.
      by rewrite user_none by by apply user_decP in Hu.
    + intros f (Om & Of & Ol). assert (f <> r) as Hfr by (by intros ->). split; [split; [|split]|].
      * intros [?|?]%(old_meta spaces kernel_start s s' r); done.
      * intros ?. by apply Of, Ha.
      * intros t va pa Ht Hu [Ht' E']%(new_world_user spaces kernel_start s s' r); [|done..]. by eapply Ol.
      * intros a Ef. apply (outside_new spaces kernel_start s s' r); [done..|]. by rewrite Ef.
Qed.

(** ** Kernel mappings and the other spaces *)

(** A page of the kernel is mapped: no user page of any space moves. *)
Lemma kernel_map_run {B} `{BitmapHeapOk B} spaces k (s : mm B) va frame flags : 1 <= k <= 1023 -> wf_world spaces k s ->
  is_u32 va -> k <= dir_index va < 1023 -> is_u32 frame -> frame mod 4096 = 0 ->
  exists r s', map_page va frame flags s = Ret (r, s') /\ wf_world spaces k s' /\ cr3 (mem s') = cr3 (mem s) /\
    (forall t a, byte_at spaces k s' t a = byte_at spaces k s t a) /\
    (r = err ENOMEM \/ (r = err ENONE /\ forall write, translate (mem s') write va = mapped_to va frame flags write)).
Proof.
  intros Hk Hs Hva Hd Hf Hm. assert (is_u32 va /\ dir_index va < 1023) as Hany by (split; [done|lia]).
  assert (~ user k va) as Hnu by (intros [_ Hu]; lia).
  destruct (map_page_phys s va frame flags (world_mm spaces k s Hs) Hva (proj2 Hany) Hf Hm) as (r & s' & E & [(-> & Em & Efr)|[-> R]]);
    eexists _, s'; (split; [exact E|]).
  - split; [by apply (allocator_wf spaces k Hk s); [done|done|rewrite Efr]|]. split; [by rewrite Em|]. split; [by apply same_bytes|by left].
  - split; [by apply (remap_wf spaces k Hk s s' va (mapped_to va frame flags))|]. split; [apply R|]. split; [|right; split; [done|apply R]].
    intros t a. destruct (decide (t ∈ spaces /\ user k a)) as [[Ht Hu]|Hn]; [|by rewrite !byte_at_other].
    apply (remap_bytes spaces k Hk s s' va (mapped_to va frame flags)); [done..|]. intros [_ Ea].
    apply Hnu. by apply (same_page_user k Hk a).
Qed.

Lemma kernel_page_run {B} `{BitmapHeapOk B} spaces k (s : mm B) t va frame flags : 1 <= k <= 1023 -> wf_world spaces k s ->
  t ∈ spaces -> t <> cr3 (mem s) -> is_u32 va -> dir_index va < 1023 -> is_u32 frame -> frame mod 4096 = 0 ->
  present (pde (mem s) (dir_index va)) = 0 -> present (entry s t (dir_index va)) = 0 ->
  exists r s', map_page va frame flags s = Ret (r, s') /\
    (r = err ENOMEM \/
     (r = err ENONE /\ translate (mem s') false va = Some (frame + page_offset va) /\ translate (view s' t) false va = None)).
Proof.
  intros Hk Hs Ht Hne Hva Hd Hf Hm Hp Hpt.
  destruct (map_page_phys s va frame flags (world_mm spaces k s Hs) Hva Hd Hf Hm) as (r & s' & E & [(-> & _)|(-> & R)]);
    (eexists _, s'; split; [exact E|]); [by left|right]. split; [done|].
  split; [by rewrite (rm_target _ _ _ _ R)|].
  pose proof (dir_index_range va Hva). rewrite translate_eq. fold (entry s' t (dir_index va)).
  assert (entry s' t (dir_index va) = entry s t (dir_index va)) as ->; [|unfold allows; by rewrite Hpt].
  unfold entry, pde. cbn [view loaded cr3 phys].
  assert (forall t', t' ∈ spaces -> frame_at (t' + 4 * dir_index va) = t') as Hfr by (intros; by eapply entry_frame).
  apply (rm_words _ _ _ _ R).
  - intros Ea. apply Hne. rewrite <- (Hfr t), <- (Hfr (cr3 (mem s))) by (done || apply Hs). by rewrite Ea.
  - rewrite Hfr by done. destruct (rm_table _ _ _ _ R) as [(Hp' & _)|(_ & Hin & _)]; [congruence|].
    intros Et. rewrite <- Et in Hin. by apply (ww_free _ _ _ Hs t); [left|].
Qed.

(** ** Two spaces, for concrete runs

    Directories at 0x1000 and 0x4000 that share the kernel's table at
    0x3000; the low 4 MiB of the first have a table at 0x2000.  Frames from 0x10000 on are free. *)
Definition demo_spaces : gset Z := {[0x1000; 0x4000]}.
Definition demo_phys : gmap Z Z :=
  <[0x1000 + 4 * 1023 := 0x1003]> (<[0x1000 + 4 * 768 := 0x3003]> (<[0x1000 := 0x2003]>
    (<[0x4000 + 4 * 1023 := 0x4003]> (<[0x4000 + 4 * 768 := 0x3003]> ∅)))).
Definition demo_world (l : frame_list) : mm frame_list := MM (Mmu demo_phys 0x1000) l.

Lemma demo_lookup a : pget demo_phys a =
  if decide (a = 0x1000 + 4 * 1023) then 0x1003 else if decide (a = 0x1000 + 4 * 768) then 0x3003
  else if decide (a = 0x1000) then 0x2003 else if decide (a = 0x4000 + 4 * 1023) then 0x4003
  else if decide (a = 0x4000 + 4 * 768) then 0x3003 else 0.
Proof.
  unfold demo_phys, pget. repeat (case_decide; [subst; by rewrite ?lookup_insert_ne, lookup_insert_eq by lia|]).
  by rewrite !lookup_insert_ne by done.
Qed.

Lemma demo_space t : t ∈ demo_spaces <-> t = 0x1000 \/ t = 0x4000.
Proof. unfold demo_spaces. by rewrite elem_of_union, !elem_of_singleton. Qed.

Lemma demo_entry l t i : t ∈ demo_spaces -> 0 <= i < 1024 -> entry (demo_world l) t i =
  if decide (i = 1023) then t + 3 else if decide (i = 768) then 0x3003
  else if decide (i = 0 /\ t = 0x1000) then 0x2003 else 0.
Proof.
  rewrite demo_space. intros Ht Hi. unfold entry, pde. cbn [view loaded demo_world mem phys cr3]. rewrite demo_lookup.
  destruct Ht as [-> | ->]; repeat case_decide; lia.
Qed.

Lemma demo_no_user l t va write : t ∈ demo_spaces -> user 768 va -> translate (view (demo_world l) t) write va = None.
Proof.
  intros Ht [Hu Hi]. pose proof (dir_index_range va Hu) as Hd. rewrite translate_eq. fold (entry (demo_world l) t (dir_index va)).
  rewrite demo_entry by done.
  rewrite (decide_False (P := dir_index va = 1023)), (decide_False (P := dir_index va = 768)) by lia.
  case_decide as D; [|done]. destruct D as [Ei ->].
  destruct (allows write 0x2003); [|done]. unfold pte, pte_addr. rewrite page_dir_index.
  fold (entry (demo_world l) 0x1000 (dir_index va)). rewrite demo_entry by done. rewrite Ei. cbn [decide].
  rewrite (decide_True (P := 0 = 0 /\ 0x1000 = 0x1000)), (decide_False (P := 0 = 1023)), (decide_False (P := 0 = 768)) by done.
  change (frame_of 0x2003) with 0x2000. cbn [view loaded phys demo_world mem]. rewrite demo_lookup.
  pose proof (Z.mod_pos_bound (va / 4096) 1024 ltac:(lia)). by repeat (rewrite decide_False by lia).
Qed.

Lemma demo_meta l f : is_meta demo_spaces (demo_world l) f -> f < 0x10000.
Proof.
  intros [Ht%demo_space|(t & i & Ht & Hi & Hp & ->)]; [lia|].
  rewrite demo_entry in Hp |- * by (done || lia). apply demo_space in Ht as [-> | ->]; repeat case_decide; done.
Qed.

Lemma demo_world_wf l : (forall p, p ∈ l -> 0x10000 <= frame_addr p) -> wf_world demo_spaces 768 (demo_world l).
Proof.
  intros Hl. split.
  - vm_compute. done.
  - intros t Ht. pose proof (demo_entry l t) as E. split.
    + apply demo_space in Ht. by destruct Ht as [-> | ->].
    + fold (entry (demo_world l) t 1023). rewrite E by (done || lia). rewrite decide_True by done.
      apply demo_space in Ht. by destruct Ht as [-> | ->].
    + intros i Hi. fold (entry (demo_world l) t i). rewrite E by done. apply demo_space in Ht. destruct Ht as [-> | ->]; by repeat case_decide.
    + intros i j Hi Hj. fold (entry (demo_world l) t i) (entry (demo_world l) t j). rewrite !E by done.
      apply demo_space in Ht.
      destruct Ht as [-> | ->]; repeat case_decide; try done; lia.
  - cbn [page_map demo_world]. intros f Hf Hin. assert (0x10000 <= f) as Hge.
    { cbn in Hin. rewrite elem_of_list_to_set in Hin. apply list_elem_of_fmap in Hin as (p & -> & Hp). by apply Hl. }
    apply demo_meta in Hf. lia.
  - intros t t' i Ht Ht' Hi. rewrite demo_entry by (done || lia). apply demo_space in Ht.
    repeat case_decide; try done; try lia; destruct Ht as [-> | ->]; done.
  - intros t t' i j Ht Ht' Hi Hj. rewrite !demo_entry by (done || lia).
    repeat case_decide; try done; try lia; intros _ _ Ef; try (by vm_compute in Ef); try naive_solver.
  - intros t va pa Ht Hu. by rewrite demo_no_user.
  - intros t t' va va' pa pa' Ht Ht' Hu Hu'. by rewrite demo_no_user.
Qed.

Lemma demo_world_16 : wf_world demo_spaces 768 (demo_world [16; 17; 18]%positive).
Proof.
  apply demo_world_wf. intros p Hp. rewrite !elem_of_cons in Hp. destruct Hp as [->|[->|[->|Hp]]]; [done..|].
  by apply elem_of_nil in Hp.
Qed.

(** * Properties *)

(** C4: The memory manager implements the abstract memory of private spaces.
    Every request that may be made - entering a space, reading or writing a byte
    of it, mapping a fresh frame at a user page (a round of [mmap]'s loop),
    unmapping a page - returns, keeps the page tables of all spaces well formed
    and apart, and changes the bytes of the spaces exactly as the abstract
    memory says: at that byte or that page of the current space, nowhere else. *)
Theorem memory_manager_refines {B} `{BitmapHeapOk B} spaces k (Hk : 1 <= k <= 1023) (s : mm B) q :
  wf_world spaces k s -> asks spaces k q (abstract spaces k s) ->
  exists r s', perform q s = Ret (r, s') /\ wf_world spaces k s' /\
    serves q (abstract spaces k s) r (abstract spaces k s').
Proof. intros Hs Hq. by apply request_served. Qed.

Lemma memory_manager_refines_witness : exists r s',
  perform (MapFresh 0x400000) (demo_world [16; 17; 18]%positive) = Ret (r, s') /\ wf_world demo_spaces 768 s' /\
  serves (MapFresh 0x400000) (abstract demo_spaces 768 (demo_world [16; 17; 18]%positive)) r (abstract demo_spaces 768 s').
Proof.
  apply (memory_manager_refines demo_spaces 768 ltac:(lia)); [exact demo_world_16|]. by split.
Defined.

(** C15: [create_address_space] adds a space to the world: its directory is none
    of the others', every space keeps its bytes, the new one has no user memory,
    and all of them together stay well formed and apart; without a frame it is ENOMEM and
    nothing moves. *)
Theorem create_address_space_adds {B} `{BitmapHeapOk B} spaces kernel_start (s : mm B) :
  1 <= Z.shiftr kernel_start 22 <= 1023 -> wf_world spaces (Z.shiftr kernel_start 22) s -> has_table (mem s) 0 ->
  exists r s', create_address_space kernel_start s = Ret (r, s') /\ cr3 (mem s') = cr3 (mem s) /\
    ((r = err ENOMEM /\ wf_world spaces (Z.shiftr kernel_start 22) s' /\ mem s' = mem s) \/
     (r <> err ENOMEM /\ (r ∉ spaces) /\ wf_world ({[r]} ∪ spaces) (Z.shiftr kernel_start 22) s' /\
      (forall t a, t ∈ spaces -> byte_at ({[r]} ∪ spaces) (Z.shiftr kernel_start 22) s' t a =
         byte_at spaces (Z.shiftr kernel_start 22) s t a) /\
      (forall a, byte_at ({[r]} ∪ spaces) (Z.shiftr kernel_start 22) s' r a = None))).
Proof.
  intros Hk Hs H0t. destruct (create_world spaces kernel_start s Hk Hs H0t) as (r & s' & E & Hc & Hcase).
  exists r, s'. split; [done|]. split; [done|]. destruct Hcase as [?|(? & ? & ? & ? & ? & _)]; [by left|by right].
Qed.

Lemma create_address_space_adds_witness : exists r s',
  create_address_space 0xC0000000 (demo_world [16; 17; 18]%positive) = Ret (r, s') /\
  (r = err ENOMEM \/ wf_world ({[r]} ∪ demo_spaces) 768 s').
Proof.
  destruct (create_address_space_adds demo_spaces 0xC0000000 (demo_world [16; 17; 18]%positive))
    as (r & s' & E & _ & Hcase); [by split|exact demo_world_16|by vm_compute|].
  exists r, s'. split; [exact E|]. destruct Hcase as [H1|H2]; [left; apply H1|right; apply H2].
Defined.

(** A kernel page that needs a new page table is mapped in the current
    space only: every other space without that table still faults there, so
    what the kernel keeps in it (its heap, past the first 4 MiB) is lost to it
    when another process's space is loaded. *)
Theorem kernel_page_not_shared {B} `{BitmapHeapOk B} spaces k (s : mm B) t va frame flags :
  1 <= k <= 1023 -> wf_world spaces k s -> t ∈ spaces -> t <> cr3 (mem s) ->
  is_u32 va -> dir_index va < 1023 -> is_u32 frame -> frame mod 4096 = 0 ->
  present (pde (mem s) (dir_index va)) = 0 -> present (entry s t (dir_index va)) = 0 ->
  exists r s', map_page va frame flags s = Ret (r, s') /\
    (r = err ENOMEM \/
     (r = err ENONE /\ translate (mem s') false va = Some (frame + page_offset va) /\ translate (view s' t) false va = None)).
Proof. intros. by apply (kernel_page_run spaces k). Qed.

Lemma kernel_page_not_shared_witness : exists r s',
  map_page 0xC0400000 0x20000 PAGE_RW (demo_world [16; 17; 18]%positive) = Ret (r, s') /\
  (r = err ENOMEM \/ (r = err ENONE /\ translate (mem s') false 0xC0400000 = Some 0x20000 /\
    translate (view s' 0x4000) false 0xC0400000 = None)).
Proof.
  apply (kernel_page_not_shared demo_spaces 768 (demo_world [16; 17; 18]%positive) 0x4000 0xC0400000 0x20000 PAGE_RW);
    [lia|exact demo_world_16|by vm_compute|done|by split|done|by split|done|by vm_compute|by vm_compute].
Defined.
