(* ===== verification/FirstSpace.v ===== *)
(** The first address space of a process (kernel.c, mmgr.c, heap.c): it is made while
    the directory of the boot is still the current one.  That directory maps the
    image at its physical addresses too, the page tables among it, so it is no
    space of Isolation.v; the new one, which has only the kernel's tables, is. *)
From S2P Require Import Prelude Status Alloc Paging Mmgr Heap Boot Space Isolation.

(** ** What the kernel does to its own address space while it boots *)
Section growth.
Context {B : Type} `{BitmapHeapOk B}.
Implicit Types s : mm B.

(** A frame that holds the directory in use or one of its tables. *)
Definition table_frame (u : mmu) (f : Z) : Prop := exists i, 0 <= i < 1024 /\ present (pde u i) = 1 /\ f = frame_of (pde u i).

(** A frame that is neither in use by the paging nor free. *)
Definition unclaimed s (f : Z) : Prop := ~ table_frame (mem s) f /\ f ∉ free_blocks (page_map s).

(** Tables may have been added, in frames that were free; nothing but tables was
    written to. *)
Record grown s s' : Prop := {
  gr_wf : wf_mm s';
  gr_root : cr3 (mem s') = cr3 (mem s);
  gr_free : only_allocates s s';
  gr_tables : forall f, table_frame (mem s') f -> table_frame (mem s) f \/ f ∈ free_blocks (page_map s);
  gr_entries : forall i, 0 <= i < 1024 -> present (pde (mem s) i) = 1 -> pde (mem s') i = pde (mem s) i;
  gr_words : forall a, ~ table_frame (mem s') (frame_at a) -> pget (phys (mem s')) a = pget (phys (mem s)) a
}.

Lemma directory_frame u : wf_space u -> table_frame u (cr3 u).
Proof. intros W. destruct (wf_self u W). exists 1023. split_and!; [lia|lia|done|done]. Qed.

Lemma grown_refl s : wf_mm s -> grown s s.
Proof. intros W. split; unfold only_allocates; auto. Qed.

Lemma grown_frame s s' f : grown s s' -> table_frame (mem s) f -> table_frame (mem s') f.
Proof. intros G (i & Hi & Hp & ->). exists i. by rewrite (gr_entries _ _ G). Qed.

Lemma grown_trans s1 s2 s3 : grown s1 s2 -> grown s2 s3 -> grown s1 s3.
Proof.
  intros G1 G2. pose proof G1 as [W1 R1 F1 T1 E1 M1]. pose proof G2 as [W2 R2 F2 T2 E2 M2].
  unfold only_allocates in *. split.
  - done.
  - congruence.
  - unfold only_allocates. set_solver.
  - intros f [Hf|Hf]%T2; [by apply T1|]. right. set_solver.
  - intros i Hi Hp. rewrite E2; [by apply E1|done|by rewrite E1].
  - intros a Ha. rewrite M2, M1; [done| |done]. intros Hf. apply Ha. by apply (grown_frame s2).
Qed.

Lemma grown_unclaimed s s' f : grown s s' -> unclaimed s f ->
  unclaimed s' f /\ forall a, frame_at a = f -> pget (phys (mem s')) a = pget (phys (mem s)) a.
Proof.
  intros G [Ht Hf]. assert (~ table_frame (mem s') f) as Ht' by (by intros [?|?]%(gr_tables _ _ G)).
  split; [split; [done|]|].
  - intros ?%(gr_free _ _ G). done.
  - intros a <-. by apply (gr_words _ _ G).
Qed.

Lemma map_page_grown s va frame flags : wf_mm s -> is_u32 va -> dir_index va < 1023 -> is_u32 frame -> frame mod 4096 = 0 ->
  exists r s', map_page va frame flags s = Ret (r, s') /\ grown s s'.
Proof.
  intros Hwf Hva Hd Hf Hm. pose proof (dir_index_range va Hva). pose proof Hwf as [W T].
  destruct (map_page_phys s va frame flags Hwf Hva Hd Hf Hm) as (r & s' & E & Hcase); eexists _, s'; (split; [exact E|]).
  destruct Hcase as [(_ & Em & Ef)|[_ [R1 R2 R3 R4 R5 _ R7]]].
  { split; [split; rewrite ?Em; [done|]|by rewrite Em|by unfold only_allocates; rewrite Ef|rewrite Em; auto|by rewrite Em|by rewrite Em].
    intros i Hi Hp. rewrite Ef. by apply T. }
  assert (only_allocates s s') as Ha.
  { unfold only_allocates. destruct R5 as [(_ & _ & -> & _)|(_ & _ & -> & _)]; set_solver. }
  split.
  - split; [done|]. intros i Hi Hp. destruct (decide (i = dir_index va)) as [->|Hne].
    + destruct R5 as [(Hp' & -> & -> & _)|(_ & _ & -> & _)]; [by apply T|set_solver].
    + rewrite R3 in Hp |- * by done. intros K%Ha. by apply (T i).
  - done.
  - done.
  - intros f (i & Hi & Hp & ->). destruct (decide (i = dir_index va)) as [->|Hne].
    + destruct R5 as [(Hp' & -> & _)|(_ & Hin & _)]; [left; by exists (dir_index va)|by right].
    + rewrite R3 in Hp |- * by done. left. by exists i.
  - intros i Hi Hp. destruct (decide (i = dir_index va)) as [->|Hne]; [|by apply R3].
    destruct R5 as [(_ & -> & _)|(Hp' & _)]; [done|congruence].
  - intros a Ha'. apply R7.
    + intros ->. apply Ha'. rewrite frame_at_offset by (by apply W || lia). rewrite <- R1. by apply directory_frame.
    + intros E'. apply Ha'. exists (dir_index va). by rewrite E'.
Qed.

(** An allocator without frames is as good as another one without frames. *)
Lemma grown_no_frames s s' b : free_blocks b = ∅ -> grown s s' -> free_blocks (page_map s) = ∅ -> grown s (MM (mem s') b).
Proof.
  intros Hb [W R F T En Wo] Hs. split; unfold only_allocates; cbn [mem page_map]; auto; [|by rewrite Hb].
  split; [apply W|]. intros i _ _. cbn [page_map]. rewrite Hb. apply not_elem_of_empty.
Qed.

(** Entries of tables that are there change. *)
Lemma entries_grown s u : wf_mm s -> wf_space u -> entries_only (mem s) u -> grown s (MM u (page_map s)).
Proof.
  intros Hwf Wu [E1 E2 E3]. split; unfold only_allocates; cbn [mem page_map]; try done.
  - by apply wf_mm_mem.
  - intros f (i & Hi & Hp & ->). rewrite E2 in Hp |- * by done. left. by exists i.
  - intros i Hi _. by apply E2.
  - intros a Ha. apply E3. intros i Hi Hp Ef. apply Ha. exists i. by rewrite E2.
Qed.

Lemma unmap_page_grown s va r s' : wf_mm s -> is_u32 va -> dir_index va < 1023 -> unmap_page va s = Ret (r, s') -> grown s s'.
Proof.
  intros Hwf Hva Hd. rewrite unmap_page_run by done. unfold mapped.
  destruct (Z.eqb_spec (present (pde (mem s) (dir_index va))) 1) as [Hp|_]; [|intros [= _ <-]; by apply grown_refl].
  destruct (present (pte (mem s) (va / 4096)) =? 1); [|intros [= _ <-]; by apply grown_refl]. intros [= _ <-].
  pose proof (page_range va Hva) as Hq. rewrite <- page_dir_index in Hp.
  assert (0 <= va / 4096 < 1047552) as Hr by (rewrite dir_index_div in Hd; Z.div_mod_to_equations; lia). pose proof (wm_space s Hwf) as W.
  apply entries_grown; [done|by apply poke_pte_wf|]. split; [done|intros; by apply poke_pte_pde|].
  intros a Ha. unfold poke, pget. cbn [phys]. rewrite lookup_insert_ne; [done|]. intros <-. apply (Ha (va / 4096 / 1024)); [Z.div_mod_to_equations; lia|done|].
  unfold pte_addr. pose proof (frame_of_range (pde (mem s) (va / 4096 / 1024))). Z.div_mod_to_equations. lia.
Qed.

Lemma unmap_boot_table_grown fuel : forall s p stop s', wf_mm s -> 0 <= p -> p mod 4096 = 0 -> stop <= page_tables ->
  unmap_boot_table fuel p stop s = Ret (tt, s') -> grown s s'.
Proof.
  induction fuel as [|fuel IH]; intros s p stop s' Hwf Hp Hm Hst E; cbn [unmap_boot_table] in E; [done|].
  destruct (Z.ltb_spec p stop) as [Hlt|]; [|injection E as <-; by apply grown_refl].
  apply M_bind_Ret in E as (r & s1 & E1 & E). unfold page_tables, page_size in *.
  assert (is_u32 p /\ dir_index p < 1023) as [Hu Hd] by (rewrite dir_index_div; unfold is_u32; Z.div_mod_to_equations; lia).
  assert (grown s s1) as G by (by eapply unmap_page_grown). rewrite u32_id in E by (unfold is_u32; Z.div_mod_to_equations; lia).
  apply (grown_trans _ s1); [done|]. eapply (IH s1 (p + 4096) stop); [apply G|lia|Z.div_mod_to_equations; lia|lia|done].
Qed.

(** Frames leave the allocator. *)
Lemma reserved_grown s h' : wf_mm s -> free_blocks h' ⊆ free_blocks (page_map s) -> grown s (MM (mem s) h').
Proof. intros W Hs. split; cbn [mem]; auto. by apply reserved_wf. Qed.

Lemma reserve_page_grown s : wf_mm s -> exists r s', reserve_page s = Ret (r, s') /\ grown s s' /\
  (r = err ENOMEM \/ (r <> err ENOMEM /\ is_u32 r /\ r mod 4096 = 0)).
Proof.
  intros W. destruct (reserve_page_run s) as (r & h' & E & Hr). exists r, (MM (mem s) h'). split; [exact E|].
  destruct Hr as [[-> Hh]|(Hne & Hin & Hh)]; (split; [apply reserved_grown; [done|rewrite Hh; set_solver]|]); [by left|].
  right. split; [done|]. by apply free_blocks_frames in Hin.
Qed.

Lemma mmap_callback_grown location size s : wf_mm s -> below_window location size ->
  exists r s', mmap_callback location size s = Ret (r, s') /\ grown s s'.
Proof.
  intros Hwf Hb. unfold mmap_callback.
  assert (forall fuel i status s, wf_mm s -> 0 <= i -> size <= i + 4096 * Z.of_nat fuel ->
    exists r s', mmap_callback_from (S fuel) location size i status s = Ret (r, s') /\ grown s s') as H1.
  { clear Hwf s. induction fuel as [|fuel IH]; intros i status s Hwf Hi Hf; cbn [mmap_callback_from];
      (destruct (Z.ltb_spec i size) as [Hlt|Hge]; [|eexists _, s; split; [done|by apply grown_refl]]); [lia|].
    destruct (below_window_page location size i Hb) as (-> & Hu & Hd); [lia|]. unfold mbind, M_mbind.
    destruct (reserve_page_grown s Hwf) as (r & s1 & -> & G1 & Hr). ostep.
    destruct (Z.eqb_spec r (err ENOMEM)) as [->|Hne]; [eexists _, s1; by split|].
    destruct (reserve_page_grown s1) as (r' & s2 & -> & G2 & Hr'); [apply G1|]. ostep.
    assert (grown s s2) as G by (by apply (grown_trans _ s1)).
    destruct Hr' as [->|(_ & Hu' & Hm')]; [eexists _, s2; by split|].
    destruct (map_page_grown s2 (location + i) r' PAGE_RW) as (st & s3 & -> & G3); [apply G2|done..|]. ostep.
    assert (grown s s3) as G' by (by apply (grown_trans _ s2)).
    destruct (negb (st =? 0)); [eexists _, s3; by split|].
    destruct Hb as (B1 & B2 & B3). unfold page_tables, page_size in *. rewrite u32_id by (unfold is_u32; lia).
    destruct (IH (i + 4096) st s3) as (rr & s4 & E4 & G4); [apply G3|lia|lia|].
    exists rr, s4. split; [exact E4|]. by apply (grown_trans _ s3). }
  apply H1; [done|lia|]. unfold pages_of, page_size. destruct Hb as (B1 & B2 & B3).
  rewrite Z2Nat.id by (Z.div_mod_to_equations; lia). Z.div_mod_to_equations. lia.
Qed.

(** Libmalloc asks for memory below the window onto the page tables. *)
Definition callback_call s s' : Prop := exists location size r,
  below_window location size /\ mmap_callback location size s = Ret (r, s').

Lemma callbacks_grown s s' : rtc callback_call s s' -> wf_mm s -> grown s s'.
Proof.
  induction 1 as [s|s1 s2 s3 (location & size & r & Hb & E) _ IH]; intros W; [by apply grown_refl|].
  destruct (mmap_callback_grown location size s1 W Hb) as (r' & s' & E' & G). rewrite E in E'. injection E' as <- <-.
  apply (grown_trans _ s2); [done|]. apply IH, G.
Qed.
End growth.

(** ** The new space *)
Section first_space.
Context {B : Type} `{BitmapHeapOk B} (kernel_start : Z) (s s' : mm B) (r : Z).
#[local] Abbreviation k := (Z.shiftr kernel_start 22).
Context (Hk : 1 <= k <= 1023) (Hwf : wf_mm s).
Context (Hr : r ∈ free_blocks (page_map s)) (Hr' : r ∉ free_blocks (page_map s')) (Hfree : only_allocates s s').
Context (Hw : forall i, 0 <= i < 1024 -> pget (phys (mem s')) (r + 4 * i) = top_word kernel_start r (mem s) i).
Context (Hm : forall a, a < r \/ r + 4096 <= a -> pget (phys (mem s')) a = pget (phys (mem s)) a).

Lemma first_entry i : 0 <= i < 1023 -> present (entry (switched s' r) r i) = 1 ->
  k <= i /\ entry (switched s' r) r i = pde (mem s) i /\ present (pde (mem s) i) = 1.
Proof.
  intros Hi. assert (entry (switched s' r) r i = top_word kernel_start r (mem s) i) as -> by (apply Hw; lia). intros Hp.
  destruct (top_word_present kernel_start r (mem s) i) as [->|[Hik Hpi]]; [lia|done|lia|].
  rewrite top_word_copied by done. split; [lia|done].
Qed.

Lemma first_table i : 0 <= i < 1023 -> present (entry (switched s' r) r i) = 1 -> table_frame (mem s) (frame_of (entry (switched s' r) r i)).
Proof. intros Hi Hp. destruct (first_entry i Hi Hp) as (_ & -> & ?). exists i. split; [lia|done]. Qed.

Lemma table_not_free f : table_frame (mem s) f -> f ∉ free_blocks (page_map s).
Proof. intros (i & Hi & Hp & ->). by apply Hwf. Qed.

Lemma first_meta f : is_meta {[r]} (switched s' r) f -> f = r \/ table_frame (mem s) f.
Proof.
  intros [->%elem_of_singleton|(t & i & ->%elem_of_singleton & Hi & Hp & ->)]; [by left|right]. by apply first_table.
Qed.

Lemma first_user t va pa : t ∈ ({[r]} : gset Z) -> user k va -> translate (view (switched s' r) t) false va = Some pa -> False.
Proof.
  intros ->%elem_of_singleton Hu E. pose proof (user_dir k Hk va Hu) as [? _]. unfold view in E.
  rewrite (new_space_user kernel_start r (mem s)) in E by (done || (split; [lia|apply Hu])). done.
Qed.

Lemma first_world : wf_world {[r]} k (switched s' r).
Proof.
  split.
  - by apply elem_of_singleton.
  - intros t ->%elem_of_singleton. apply (new_space_wf kernel_start r (mem s)); (done || exact (wm_space s Hwf) || exact (wf_fresh s r Hwf Hr)).
  - intros f [->|Hf]%first_meta; [done|]. intros ?%Hfree. by apply (table_not_free f).
  - intros t t' i ->%elem_of_singleton ->%elem_of_singleton Hi Hp E. apply first_table in Hp; [|done].
    rewrite E in Hp. by apply (table_not_free r).
  - intros t t' i j ->%elem_of_singleton _ Hi _ Hp. destruct (first_entry i ltac:(lia) Hp). lia.
  - intros t va pa Ht Hu E. by destruct (first_user t va pa Ht Hu E).
  - intros t t' va va' pa pa' Ht _ Hu _ E. by destruct (first_user t va pa Ht Hu E).
Qed.

Lemma first_byte a : byte_at {[r]} k (switched s' r) r a = None.
Proof.
  destruct (byte_at _ _ _ _ a) as [b|] eqn:E; [|done]. exfalso. apply byte_at_inv in E as (Ht & Hu & pa & E & _).
  apply translate_readable in E. by apply (first_user r a pa).
Qed.

Lemma first_ownerless f : unclaimed s f -> ownerless {[r]} k (switched s' r) f /\
  forall a, frame_at a = f -> pget (phys (mem (switched s' r))) a = pget (phys (mem s)) a.
Proof.
  intros [Ht Hf]. assert (f <> r) as Hne by (by intros ->). split; [split; [|split]|].
  - by intros [?|?]%first_meta.
  - by intros ?%Hfree.
  - intros t va pa Hin Hu E. by destruct (first_user t va pa Hin Hu E).
  - intros a <-. apply Hm. destruct (free_blocks_frames _ _ Hr) as [_ Ha]. unfold frame_at, page_size in *. Z.div_mod_to_equations. lia.
Qed.
End first_space.

(** [create_address_space], then [paging_load_address_space]. *)
Lemma create_first {B} `{BitmapHeapOk B} kernel_start (s : mm B) :
  1 <= Z.shiftr kernel_start 22 <= 1023 -> wf_mm s -> has_table (mem s) 0 ->
  exists r s', create_address_space kernel_start s = Ret (r, s') /\
    (r = err ENOMEM \/
     (r <> err ENOMEM /\ wf_world {[r]} (Z.shiftr kernel_start 22) (switched s' r) /\
      (forall a, byte_at {[r]} (Z.shiftr kernel_start 22) (switched s' r) r a = None) /\
      forall f, unclaimed s f -> ownerless {[r]} (Z.shiftr kernel_start 22) (switched s' r) f /\
        forall a, frame_at a = f -> pget (phys (mem (switched s' r))) a = pget (phys (mem s)) a)).
Proof.
  intros Hk Hs H0t. destruct (create_run s kernel_start Hs H0t Hk) as (r & s' & E & Ha & [[-> _]|(Hne & Hr & Hr' & Hw & Hm & _)]);
    eexists _, s'; (split; [exact E|]); [by left|right].
  split; [exact Hne|]. split; [by apply (first_world kernel_start s s' r)|].
  split; [intros a; by apply (first_byte kernel_start s s' r)|]. intros f Hf. by apply (first_ownerless kernel_start s s' r).
Qed.

(** In a world of spaces, what is nobody's is unclaimed. *)
Lemma ownerless_unclaimed {B} `{BitmapHeapOk B} spaces k (s : mm B) f : wf_world spaces k s -> ownerless spaces k s f -> unclaimed s f.
Proof.
  intros Hs (Hm & Hf & _). split; [|done]. intros (i & Hi & Hp & ->). apply Hm. pose proof (ww_current _ _ _ Hs) as Hc.
  destruct (decide (i = 1023)) as [->|Hne].
  - left. by rewrite (proj2 (wf_self _ (wm_space _ (world_mm spaces k s Hs)))).
  - right. exists (cr3 (mem s)), i. rewrite entry_current. split_and!; (done || lia).
Qed.
