(* ===== verification/Context.v ===== *)
(** Saved processor contexts (src/x86/context.c, include/platform/context.h;
    the i386 layout) and the user stacks they point into.

    A context is a structure in kernel memory; the push and pop operations
    also access the stack of the current address space. *)
From S2P Require Import Prelude Status Space.

(** [gp_registers[0]] is eax, [gp_registers[7]] esp. *)
Record process_context_t := Context_ {
  gp_registers : list Z;
  ss : Z;
  cs : Z;
  eip : Z;
  flags : Z
}.

Definition DEFAULT_FLAGS : Z := 0x3200.
Definition sizeof_context : Z := 48.
Definition sizeof_long : Z := 4.

(** [memset(context, 0, sizeof(struct process_context_t))] *)
Definition zero_context : process_context_t := Context_ (replicate 8 0) 0 0 0 0.

Definition get_reg (c : process_context_t) (i : nat) : Z := nth i (gp_registers c) 0.
Definition set_reg (i : nat) (v : Z) (c : process_context_t) : process_context_t :=
  Context_ (<[i:=u32 v]> (gp_registers c)) (ss c) (cs c) (eip c) (flags c).
Definition esp (c : process_context_t) : Z := get_reg c 7.

Definition get_context_pc (c : process_context_t) : Z := eip c.
Definition set_context_pc (pc : Z) (c : process_context_t) : process_context_t :=
  Context_ (gp_registers c) (ss c) 0x1B pc (flags c).
Definition get_context_stack (c : process_context_t) : Z := esp c.
Definition set_context_stack (stack : Z) (c : process_context_t) : process_context_t :=
  let c := set_reg 7 stack c in Context_ (gp_registers c) 0x23 (cs c) (eip c) (flags c).
Definition set_context_flags (f : Z) (c : process_context_t) : process_context_t :=
  Context_ (gp_registers c) (ss c) (cs c) (eip c) f.
Definition set_context_return (v : Z) (c : process_context_t) : process_context_t := set_reg 0 v c.

(** The structure as the words [memcpy] moves, and back. *)
Definition context_words (c : process_context_t) : list Z :=
  gp_registers c ++ [ss c; cs c; eip c; flags c].
Definition words_context (ws : list Z) : process_context_t :=
  Context_ (take 8 ws) (nth 8 ws 0) (nth 9 ws 0) (nth 10 ws 0) (nth 11 ws 0).

Section stack.
Context {W : Type} `{AddressSpaces W}.

Definition context_stack_push (c : process_context_t) (value : Z) : M W process_context_t :=
  let c := set_reg 7 (esp c - sizeof_long) c in
  _ ← write_word (esp c) value; mret c.

(** [data] is what the structure holds once esp has moved: the caller may
    push the context itself. *)
Definition context_stack_push_struct (c : process_context_t)
    (data : process_context_t -> list Z) (size : Z) : M W process_context_t :=
  let c := set_reg 7 (esp c - size) c in
  _ ← write_words (esp c) (data c); mret c.

Definition context_stack_pop (c : process_context_t) : M W (Z * process_context_t) :=
  let prev_stack := esp c in
  let c := set_reg 7 (esp c + sizeof_long) c in
  v ← read_word prev_stack; mret (v, c).

Definition context_stack_pop_struct (c : process_context_t) (size : Z) : M W (list Z * process_context_t) :=
  let prev_stack := esp c in
  let c := set_reg 7 (esp c + size) c in
  ws ← read_words (Z.to_nat (size / 4)) prev_stack; mret (ws, c).

Fixpoint push_args (c : process_context_t) (args : list Z) : M W process_context_t :=
  match args with
  | [] => mret c
  | a :: args => c ← context_stack_push c a; push_args c args
  end.

Definition context_call_func (c : process_context_t) (func_ptr ret_ptr : Z) (args : list Z)
    : M W process_context_t :=
  let c := Context_ (gp_registers c) (ss c) (cs c) func_ptr (flags c) in
  c ← push_args c args;
  context_stack_push c ret_ptr.
End stack.

Definition context_cleanup_func (c : process_context_t) (argc : Z) : process_context_t :=
  set_reg 7 (esp c - sizeof_long * argc) c.

(** * Theory *)
Definition wf_context (c : process_context_t) : Prop :=
  length (gp_registers c) = 8%nat /\ Forall is_u32 (context_words c).

Lemma wf_context_set_reg i v c : wf_context c -> wf_context (set_reg i v c).
Proof.
  intros [Hl Hf]. split; [simpl; by rewrite length_insert|].
  unfold context_words in *. simpl. apply Forall_app in Hf as [H1 H2].
  apply Forall_app. split; [|done]. apply Forall_insert; [done|apply u32_range].
Qed.

Lemma get_set_reg i v c : (i < 8)%nat -> wf_context c -> get_reg (set_reg i v c) i = u32 v.
Proof.
  intros Hi [Hl _]. unfold get_reg, set_reg. simpl.
  rewrite nth_lookup, list_lookup_insert_eq by lia. done.
Qed.

Lemma get_set_reg_ne i j v c : i <> j -> get_reg (set_reg i v c) j = get_reg c j.
Proof.
  intros Hne. unfold get_reg, set_reg. simpl.
  by rewrite !nth_lookup, list_lookup_insert_ne.
Qed.

Lemma set_reg_set_reg i v w c : set_reg i v (set_reg i w c) = set_reg i v c.
Proof. unfold set_reg. simpl. by rewrite list_insert_insert_eq. Qed.

Lemma set_reg_id i c : (i < 8)%nat -> wf_context c -> set_reg i (get_reg c i) c = c.
Proof.
  intros Hi [Hl Hf]. unfold set_reg, get_reg. destruct c as [r a b d e]. simpl in *.
  destruct (lookup_lt_is_Some_2 r i) as [x Hx]; [lia|].
  rewrite nth_lookup, Hx. simpl. rewrite u32_id.
  - by rewrite list_insert_id.
  - apply Forall_app in Hf as [Hf _]. by apply (Forall_lookup_1 _ _ _ _ Hf Hx).
Qed.

Lemma words_context_words c : wf_context c -> words_context (context_words c) = c.
Proof.
  intros [Hl _]. destruct c as [r a b d e]. unfold words_context, context_words. simpl in *.
  rewrite take_app_length' by done. do 8 (destruct r as [|? r]; [done|]). by destruct r.
Qed.

Lemma length_context_words c : wf_context c -> length (context_words c) = 12%nat.
Proof. intros [Hl _]. unfold context_words. rewrite length_app, Hl. done. Qed.

(** [c] with the program counter at [func] and the stack pointer at [sp], all the
    rest as it was. *)
Definition enter_at (func sp : Z) (c : process_context_t) : process_context_t :=
  set_reg 7 sp (Context_ (gp_registers c) (ss c) (cs c) func (flags c)).

Lemma enter_at_set_reg func sp v c : enter_at func sp (set_reg 7 v c) = enter_at func sp c.
Proof. unfold enter_at, set_reg. cbn [gp_registers ss cs eip flags]. by rewrite list_insert_insert_eq. Qed.

Lemma wf_context_pc func c : wf_context c -> is_u32 func -> wf_context (Context_ (gp_registers c) (ss c) (cs c) func (flags c)).
Proof.
  intros [Hl Hw] Hf. split; [done|]. unfold context_words in *. cbn [gp_registers ss cs eip flags] in *.
  apply Forall_app in Hw as [W1 W2]. apply Forall_app. split; [done|].
  by repeat (apply Forall_cons in W2 as [? W2]; constructor; [done|]).
Qed.

Lemma enter_at_wf func sp c : wf_context c -> is_u32 func -> wf_context (enter_at func sp c).
Proof. intros. by apply wf_context_set_reg, wf_context_pc. Qed.

Section stack_theory.
Context {W : Type} `{AddressSpacesOk W}.

(** [n] bytes of mapped user stack below esp, at addresses that do not wrap. *)
Definition stack_room (m : W) (c : process_context_t) (n : Z) : Prop :=
  0 <= esp c - n /\ is_u32 (esp c) /\ 0 <= n /\ user_range m (as_current m) (esp c - n) n.

Lemma esp_set n c : wf_context c -> is_u32 n -> esp (set_reg 7 n c) = n.
Proof. intros Hc Hn. unfold esp. rewrite get_set_reg by (done || lia). by apply u32_id. Qed.

Lemma esp_down m c n k : stack_room m c n -> 0 <= k <= n -> is_u32 (esp c - k).
Proof. intros (H1 & H2 & H3 & _) Hk. unfold is_u32 in *. lia. Qed.

Lemma user_range_sub m t a n b k : user_range m t a n -> a <= b -> b + k <= a + n -> user_range m t b k.
Proof.
  intros [Hwf Hr] **. split; [done|]. intros i Hi. replace (b + i) with (a + (b - a + i)) by lia. apply Hr. lia.
Qed.

Lemma push_ok m c v n : wf_context c -> is_u32 v -> stack_room m c n -> 4 <= n ->
  exists m', context_stack_push c v m = Ret (set_reg 7 (esp c - 4) c, m') /\
    only_writes m m' (as_current m) (esp c - 4) 4 /\ holds m' (as_current m) (esp c - 4) [v].
Proof.
  intros Hc Hv Hr Hn. unfold context_stack_push, sizeof_long, mbind, M_mbind.
  assert (is_u32 (esp c - 4)) by (apply (esp_down m c n); [done|lia]).
  rewrite esp_set by done. destruct Hr as (R1 & R2 & R3 & R4).
  destruct (write_word_ok m (esp c - 4) v) as (m' & E & O & V); [eapply user_range_sub; [done|lia..]|].
  rewrite E. ostep. exists m'. split_and!; done.
Qed.

Lemma push_struct_ok m c data size n : wf_context c -> stack_room m c n -> 0 <= size <= n ->
  Forall is_u32 (data (set_reg 7 (esp c - size) c)) ->
  size = 4 * Z.of_nat (length (data (set_reg 7 (esp c - size) c))) ->
  exists m', context_stack_push_struct c data size m = Ret (set_reg 7 (esp c - size) c, m') /\
    only_writes m m' (as_current m) (esp c - size) size /\
    holds m' (as_current m) (esp c - size) (data (set_reg 7 (esp c - size) c)).
Proof.
  intros Hc Hr Hn Hd Hs. unfold context_stack_push_struct, mbind, M_mbind.
  assert (is_u32 (esp c - size)) by (apply (esp_down m c n); [done|lia]).
  rewrite esp_set by done. destruct Hr as (R1 & R2 & R3 & R4).
  destruct (write_words_ok m (esp c - size) (data (set_reg 7 (esp c - size) c)) Hd)
    as (m' & E & O & V); [rewrite <- Hs; eapply user_range_sub; [done|lia..]|].
  rewrite <- Hs in O. rewrite E. ostep. exists m'. split_and!; done.
Qed.

(** After a write, the stack below is still there. *)
Lemma stack_room_after m m' c n k : wf_context c -> stack_room m c n -> 0 <= k <= n ->
  only_writes m m' (as_current m) (esp c - k) k -> stack_room m' (set_reg 7 (esp c - k) c) (n - k).
Proof.
  intros Hc Hr Hk (OW & O1 & O2 & O3). assert (is_u32 (esp c - k)) by (apply (esp_down m c n); done).
  destruct Hr as (R1 & R2 & R3 & R4). unfold stack_room. rewrite esp_set by done.
  split; [lia|]. split; [done|]. split; [lia|].
  rewrite O1. split; [done|]. intros i Hi. apply O2. replace (esp c - k - (n - k) + i) with (esp c - n + i) by lia.
  apply R4. lia.
Qed.

(** Pushing arguments: the last one ends up lowest. *)
Lemma push_args_ok args : forall m c n, wf_context c -> Forall is_u32 args -> stack_room m c n ->
  4 * Z.of_nat (length args) <= n ->
  exists m', push_args c args m = Ret (set_reg 7 (esp c - 4 * Z.of_nat (length args)) c, m') /\
    only_writes m m' (as_current m) (esp c - 4 * Z.of_nat (length args)) (4 * Z.of_nat (length args)) /\
    holds m' (as_current m) (esp c - 4 * Z.of_nat (length args)) (rev args).
Proof.
  induction args as [|a args IH]; intros m c n Hc Ha Hr Hn; cbn [push_args length rev] in *.
  { exists m. rewrite Z.mul_0_r, Z.sub_0_r. unfold esp at 1. rewrite set_reg_id by (done || lia).
    destruct Hr as (_ & _ & _ & Hwf & _). by split_and!. }
  apply Forall_cons in Ha as [Hu Ha]. pose proof Hr as (R1 & R2 & R3 & R4).
  destruct (push_ok m c a n Hc Hu Hr) as (m1 & E1 & O1 & V1); [lia|].
  pose proof (stack_room_after m m1 c n 4 Hc Hr ltac:(lia) O1) as Hr1.
  destruct (IH m1 (set_reg 7 (esp c - 4) c) (n - 4)) as (m2 & E2 & O2 & V2);
    [by apply wf_context_set_reg|done|done|lia|].
  assert (is_u32 (esp c - 4)) by (apply (esp_down m c n); [done|lia]).
  rewrite esp_set in E2, O2, V2 by done. rewrite set_reg_set_reg in E2.
  pose proof O1 as (_ & C1 & _). rewrite C1 in O2, V2.
  replace (esp c - 4 - 4 * Z.of_nat (length args)) with (esp c - 4 * Z.of_nat (S (length args))) in E2, O2, V2 by lia.
  exists m2. split_and!.
  - unfold mbind, M_mbind. rewrite E1. ostep. done.
  - eapply only_writes_trans; [exact O1|exact O2|lia..].
  - apply holds_app. split; [done|]. rewrite length_rev.
    replace (esp c - 4 * Z.of_nat (S (length args)) + 4 * Z.of_nat (length args)) with (esp c - 4) by lia.
    eapply holds_frame; [exact O2| |exact V1]. cbn [length]. lia.
Qed.

Lemma pop_ok m c v : is_u32 v -> holds_word m (as_current m) (esp c) v ->
  context_stack_pop c m = Ret ((v, set_reg 7 (esp c + 4) c), m).
Proof.
  intros Hv Hh. unfold context_stack_pop, sizeof_long, mbind, M_mbind.
  by rewrite (read_word_ok m (esp c) v) by done.
Qed.

Lemma pop_struct_ok m c ws : holds m (as_current m) (esp c) ws ->
  context_stack_pop_struct c (4 * Z.of_nat (length ws)) m =
    Ret ((ws, set_reg 7 (esp c + 4 * Z.of_nat (length ws)) c), m).
Proof.
  intros Hh. unfold context_stack_pop_struct, mbind, M_mbind.
  replace (Z.to_nat (4 * Z.of_nat (length ws) / 4)) with (length ws)
    by (rewrite Z.mul_comm, Z.div_mul by lia; by rewrite Nat2Z.id).
  by rewrite read_words_ok.
Qed.

Lemma call_func_run m c func ret args n : wf_context c -> is_u32 func -> is_u32 ret ->
  Forall is_u32 args -> stack_room m c n -> 4 * (Z.of_nat (length args) + 1) <= n ->
  exists m', context_call_func c func ret args m = Ret (enter_at func (esp c - 4 * (Z.of_nat (length args) + 1)) c, m') /\
    esp (enter_at func (esp c - 4 * (Z.of_nat (length args) + 1)) c) = esp c - 4 * (Z.of_nat (length args) + 1) /\
    only_writes m m' (as_current m) (esp c - 4 * (Z.of_nat (length args) + 1)) (4 * (Z.of_nat (length args) + 1)) /\
    holds m' (as_current m) (esp c - 4 * (Z.of_nat (length args) + 1)) (ret :: rev args).
Proof.
  intros Hc Hf Hret Ha Hr Hn. unfold context_call_func.
  set (c0 := Context_ (gp_registers c) (ss c) (cs c) func (flags c)).
  assert (wf_context c0) as Hc0 by (by apply wf_context_pc).
  destruct (push_args_ok args m c0 n Hc0 Ha Hr) as (m1 & E1 & O1 & V1); [lia|].
  unfold mbind, M_mbind. rewrite E1. ostep.
  set (k := 4 * Z.of_nat (length args)) in *. change (esp c0) with (esp c) in *.
  pose proof (stack_room_after m m1 c0 n k Hc0 Hr ltac:(lia) O1) as Hr1. change (esp c0) with (esp c) in Hr1.
  assert (is_u32 (esp c - k)) by (apply (esp_down m c n); [done|lia]).
  assert (is_u32 (esp c - (k + 4))) by (apply (esp_down m c n); [done|lia]).
  destruct (push_ok m1 (set_reg 7 (esp c - k) c0) ret (n - k)) as (m2 & E2 & O2 & V2);
    [by apply wf_context_set_reg|done|done|lia|].
  rewrite esp_set in E2, O2, V2 by done. rewrite set_reg_set_reg in E2.
  replace (esp c - k - 4) with (esp c - (k + 4)) in E2, O2, V2 by lia.
  pose proof O1 as (_ & C1 & _). rewrite C1 in O2, V2.
  exists m2. replace (4 * (Z.of_nat (length args) + 1)) with (k + 4) by lia. unfold enter_at. fold c0. rewrite E2, esp_set by done.
  split; [done|]. split; [done|]. split.
  - eapply only_writes_trans; [exact O1|exact O2|lia..].
  - change (ret :: rev args) with ([ret] ++ rev args). apply holds_app. split; [done|].
    cbn [length]. replace (esp c - (k + 4) + 4 * Z.of_nat 1) with (esp c - k) by lia.
    eapply holds_frame; [exact O2| |exact V1]. lia.
Qed.

Lemma call_func_ok m c func ret args n : wf_context c -> is_u32 func -> is_u32 ret ->
  Forall is_u32 args -> stack_room m c n -> 4 * (Z.of_nat (length args) + 1) <= n ->
  exists c' m', context_call_func c func ret args m = Ret (c', m') /\
    eip c' = func /\ esp c' = esp c - 4 * (Z.of_nat (length args) + 1) /\ wf_context c' /\
    only_writes m m' (as_current m) (esp c') (4 * (Z.of_nat (length args) + 1)) /\
    holds m' (as_current m) (esp c') (ret :: rev args).
Proof.
  intros Hc Hf Hret Ha Hr Hn. destruct (call_func_run m c func ret args n Hc Hf Hret Ha Hr Hn) as (m' & E & Es & O & V).
  exists (enter_at func (esp c - 4 * (Z.of_nat (length args) + 1)) c), m'. rewrite Es. split_and!; try done. by apply enter_at_wf.
Qed.
End stack_theory.

(** * Properties *)

(** A word pushed on a user stack is popped again, with the context as it
    was; nothing but the four bytes below the old stack pointer changes. *)
Theorem push_pop_roundtrip {W} `{AddressSpacesOk W} (m : W) c v :
  wf_context c -> is_u32 v -> stack_room m c 4 ->
  exists c1 m', context_stack_push c v m = Ret (c1, m') /\
    only_writes m m' (as_current m) (esp c - 4) 4 /\
    context_stack_pop c1 m' = Ret ((v, c), m').
Proof.
  intros Hc Hv Hr. destruct (push_ok m c v 4 Hc Hv Hr) as (m' & E & O & V); [lia|].
  assert (is_u32 (esp c - 4)) by (apply (esp_down m c 4); [done|lia]).
  exists (set_reg 7 (esp c - 4) c), m'. split; [done|]. split; [done|].
  rewrite (pop_ok m' _ v); [|done|].
  - rewrite esp_set, set_reg_set_reg by done. replace (esp c - 4 + 4) with (esp c) by lia.
    unfold esp. by rewrite set_reg_id by (done || lia).
  - rewrite esp_set by done. destruct O as (_ & -> & _). apply V.
Qed.

(** A process at 0x5000 with a page of stack, for the witnesses. *)
Definition demo_flat : flat := Flat 0x1000 (flat_fill 256 0x1000 0x4F00 ∅) 0x20000.
Definition demo_context : process_context_t := Context_ [1; 2; 3; 4; 5; 6; 7; 0x5000] 0x23 0x1B 0x8000 DEFAULT_FLAGS.

Lemma demo_context_wf : wf_context demo_context.
Proof. split; [done|]. repeat (constructor; [by split|]). constructor. Qed.

Lemma flat_fill_lookup n t : forall a m i, (0 <= i < Z.of_nat n \/ is_Some (m !! (t, a + i))) ->
  is_Some (flat_fill n t a m !! (t, a + i)).
Proof.
  induction n as [|n IH]; intros a m i Hi; cbn [flat_fill].
  { destruct Hi; [lia|done]. }
  destruct (decide (i = 0)) as [->|Hne].
  - replace (a + 0) with (a + 1 + -1) by lia. apply IH. right.
    replace (a + 1 + -1) with a by lia. rewrite lookup_insert_eq. by eexists.
  - replace (a + i) with (a + 1 + (i - 1)) by lia. apply IH.
    destruct Hi as [Hi|Hi]; [left; lia|right].
    replace (a + 1 + (i - 1)) with (a + i) by lia. rewrite lookup_insert_ne; [done|].
    intros [= ?]. lia.
Qed.

Lemma flat_fill_keeps n t k : forall a m, is_Some (m !! k) -> is_Some (flat_fill n t a m !! k).
Proof.
  induction n as [|n IH]; intros a m Hk; cbn [flat_fill]; [done|].
  apply IH, lookup_insert_is_Some'. by right.
Qed.

Lemma demo_stack_room n : 0 <= n <= 256 -> stack_room demo_flat demo_context n.
Proof.
  intros Hn. unfold stack_room. change (esp demo_context) with 0x5000.
  split; [lia|]. split; [by split|]. split; [lia|]. split; [exact I|]. intros i Hi.
  cbn [as_byte flat_spaces_ok as_current]. apply fmap_is_Some. unfold demo_flat. cbn [flat_bytes flat_cur].
  replace (0x5000 - n + i) with (0x4F00 + (256 - n + i)) by lia.
  apply flat_fill_lookup. left. lia.
Qed.

Lemma push_pop_roundtrip_witness : exists c1 m',
  context_stack_push demo_context 77 demo_flat = Ret (c1, m') /\
  context_stack_pop c1 m' = Ret ((77, demo_context), m').
Proof.
  destruct (push_pop_roundtrip demo_flat demo_context 77) as (c1 & m' & H1 & _ & H2);
    [exact demo_context_wf|by split|apply demo_stack_room; lia|].
  exists c1, m'. split; [exact H1|exact H2].
Defined.

(** Saving a context on its own stack and restoring it, as the delivery
    of a signal and the return from it do, does not give the context back: esp
    is moved before the copy is made, so the restored stack pointer is 48
    bytes, the size of the context, too low. *)
Theorem context_save_restore {W} `{AddressSpacesOk W} (m : W) c :
  wf_context c -> stack_room m c sizeof_context ->
  exists c1 m' ws, context_stack_push_struct c context_words sizeof_context m = Ret (c1, m') /\
    context_stack_pop_struct c1 sizeof_context m' = Ret ((ws, c), m') /\
    words_context ws = set_reg 7 (esp c - sizeof_context) c.
Proof.
  intros Hc Hr. assert (is_u32 (esp c - 48)) by (apply (esp_down m c 48); [done|lia]).
  assert (wf_context (set_reg 7 (esp c - 48) c)) as Hc1 by (by apply wf_context_set_reg).
  destruct (push_struct_ok m c context_words 48 48 Hc Hr) as (m' & E & O & V);
    [lia|apply Hc1|by rewrite length_context_words|].
  exists (set_reg 7 (esp c - 48) c), m', (context_words (set_reg 7 (esp c - 48) c)).
  rewrite words_context_words by done.
  split; [done|]. split; [|done]. destruct O as (_ & C & _). rewrite <- C in V.
  pose proof (pop_struct_ok m' (set_reg 7 (esp c - 48) c) (context_words (set_reg 7 (esp c - 48) c))) as P.
  rewrite length_context_words, esp_set, set_reg_set_reg in P by done.
  change (4 * Z.of_nat 12) with 48 in P. unfold sizeof_context. rewrite P by done.
  replace (esp c - 48 + 48) with (esp c) by lia. unfold esp. by rewrite set_reg_id by (done || lia).
Qed.

Lemma context_save_restore_witness : exists c1 m' ws,
  context_stack_push_struct demo_context context_words sizeof_context demo_flat = Ret (c1, m') /\
  context_stack_pop_struct c1 sizeof_context m' = Ret ((ws, demo_context), m') /\
  esp (words_context ws) = 0x4FD0.
Proof.
  destruct (context_save_restore demo_flat demo_context) as (c1 & m' & ws & H1 & H2 & H3);
    [exact demo_context_wf|apply demo_stack_room; unfold sizeof_context; lia|].
  exists c1, m', ws. split; [exact H1|]. split; [exact H2|]. rewrite H3. reflexivity.
Defined.

(** [context_call_func] makes the context enter [func] with the return
    address on top of the stack and the arguments above it, the last argument
    nearest to it: the reverse of the order in which C functions of the i386
    ABI find their arguments. *)
Theorem context_call_func_frame {W} `{AddressSpacesOk W} (m : W) c func ret args :
  wf_context c -> is_u32 func -> is_u32 ret -> Forall is_u32 args ->
  stack_room m c (4 * (Z.of_nat (length args) + 1)) ->
  exists c' m', context_call_func c func ret args m = Ret (c', m') /\
    get_context_pc c' = func /\
    get_context_stack c' = esp c - 4 * (Z.of_nat (length args) + 1) /\
    read_words (S (length args)) (get_context_stack c') m' = Ret (ret :: rev args, m').
Proof.
  intros Hc Hf Hret Ha Hr.
  destruct (call_func_ok m c func ret args _ Hc Hf Hret Ha Hr) as (c' & m' & E & Epc & Esp & _ & O & V); [lia|].
  exists c', m'. split_and!; [done..|]. destruct O as (_ & C & _). rewrite <- C in V.
  replace (S (length args)) with (length (ret :: rev args)) by (simpl; by rewrite length_rev).
  by apply read_words_ok.
Qed.

Lemma context_call_func_frame_witness : exists c' m',
  context_call_func demo_context 0x9000 0xA000 [11; 22] demo_flat = Ret (c', m') /\
  read_words 3 (get_context_stack c') m' = Ret ([0xA000; 22; 11], m').
Proof.
  destruct (context_call_func_frame demo_flat demo_context 0x9000 0xA000 [11; 22]) as (c' & m' & H1 & _ & _ & H2);
    [exact demo_context_wf|by split|by split|repeat (constructor; [by split|]); constructor|apply demo_stack_room; simpl; lia|].
  exists c', m'. split; [exact H1|exact H2].
Defined.

(** [context_cleanup_func] subtracts the arguments' size where it should
    add it: after the called function has popped its return address, the
    stack pointer ends up twice that size below where it was before the
    call, not back there. *)
Theorem context_cleanup_func_wrong_way {W} `{AddressSpacesOk W} (m : W) c func ret args :
  wf_context c -> is_u32 func -> is_u32 ret -> Forall is_u32 args ->
  stack_room m c (8 * (Z.of_nat (length args) + 1)) ->
  exists c1 m1 c2, context_call_func c func ret args m = Ret (c1, m1) /\
    context_stack_pop c1 m1 = Ret ((ret, c2), m1) /\
    esp (context_cleanup_func c2 (Z.of_nat (length args))) = esp c - 8 * Z.of_nat (length args).
Proof.
  intros Hc Hf Hret Ha Hr.
  destruct (call_func_ok m c func ret args _ Hc Hf Hret Ha Hr)
    as (c' & m' & E & Epc & Esp & Hc' & O & V); [lia|].
  exists c', m', (set_reg 7 (esp c' + 4) c'). split; [done|]. split.
  - apply pop_ok; [done|]. destruct O as (_ & -> & _). apply V.
  - assert (forall k, 0 <= k <= 8 * (Z.of_nat (length args) + 1) -> is_u32 (esp c - k)) as Hd
      by (intros; by eapply esp_down).
    unfold context_cleanup_func, sizeof_long. rewrite set_reg_set_reg.
    rewrite (esp_set (esp c' + 4)) by (done || (rewrite Esp; replace (esp c - 4 * (Z.of_nat (length args) + 1) + 4)
      with (esp c - 4 * Z.of_nat (length args)) by lia; apply Hd; lia)).
    rewrite esp_set; [lia|done|].
    replace (esp c' + 4 - 4 * Z.of_nat (length args)) with (esp c - 8 * Z.of_nat (length args)) by lia.
    apply Hd. lia.
Qed.

Lemma context_cleanup_func_wrong_way_witness : exists c1 m1 c2,
  context_call_func demo_context 0x9000 0xA000 [11; 22] demo_flat = Ret (c1, m1) /\
  context_stack_pop c1 m1 = Ret ((0xA000, c2), m1) /\ esp (context_cleanup_func c2 2) = 0x4FF0.
Proof.
  destruct (context_cleanup_func_wrong_way demo_flat demo_context 0x9000 0xA000 [11; 22])
    as (c1 & m1 & c2 & H1 & H2 & H3);
    [exact demo_context_wf|by split|by split|repeat (constructor; [by split|]); constructor|apply demo_stack_room; simpl; lia|].
  exists c1, m1, c2. split; [exact H1|]. split; [exact H2|exact H3].
Defined.
