(* ===== verification/Entry.v ===== *)
(** Entering and leaving the kernel, instruction by instruction: the frame
    [isr_preempt] builds and the call [isr_syscall] makes (src/x86/preempt.S), and
    [load_context] (src/x86/load_context.S).

    The processor has the eight general registers in the order of
    [process_context_t], the segment registers, and words of memory.  The proofs
    run the code on views, in which addresses are relative to the top of the
    kernel's stack or to a saved context, so that they evaluate. *)
From S2P Require Import Prelude Status Space Context.

(** * The processor *)
Inductive reg := EAX | EBX | ECX | EDX | EDI | ESI | EBP | ESP.
Inductive seg := CS | SS | DS | ES | FS | GS.

Definition rn (r : reg) : nat :=
  match r with EAX => 0 | EBX => 1 | ECX => 2 | EDX => 3 | EDI => 4 | ESI => 5 | EBP => 6 | ESP => 7 end%nat.
Definition sn (g : seg) : nat := match g with CS => 0 | SS => 1 | DS => 2 | ES => 3 | FS => 4 | GS => 5 end%nat.

(** The instructions the code uses; [M] is an operand [off(%base)], [16] the
    low half of a register. *)
Inductive instr :=
  | Cli
  | Push (r : reg)
  | PushM (off : Z) (base : reg)
  | Pop (r : reg)
  | Mov (src dst : reg)
  | MovM (off : Z) (base dst : reg)
  | AddI (n : Z) (r : reg)
  | MovI16 (n : Z) (r : reg)
  | MovM16 (off : Z) (base dst : reg)
  | MovSeg (r : reg) (g : seg)
  | Iret.

#[export] Instance reg_eq_dec : EqDecision reg.
Proof. solve_decision. Defined.

#[export] Instance seg_eq_dec : EqDecision seg.
Proof. solve_decision. Defined.
#[export] Instance instr_eq_dec : EqDecision instr.
Proof. solve_decision. Defined.

Record cpu := Cpu { gpr : list Z; sgr : list Z; e_ip : Z; e_flags : Z; mem : gmap Z Z }.

Definition r_get (r : reg) (s : cpu) : Z := nth (rn r) (gpr s) 0.
Definition r_set (r : reg) (w : Z) (s : cpu) : cpu := Cpu (<[rn r:=w]> (gpr s)) (sgr s) (e_ip s) (e_flags s) (mem s).
Definition s_set (g : seg) (w : Z) (s : cpu) : cpu := Cpu (gpr s) (<[sn g:=w]> (sgr s)) (e_ip s) (e_flags s) (mem s).
Definition m_get (a : Z) (s : cpu) : outcome Z := of_option (mem s !! a).
Definition m_set (a w : Z) (s : cpu) : cpu := Cpu (gpr s) (sgr s) (e_ip s) (e_flags s) (<[a:=w]> (mem s)).

Definition low16 (w : Z) : Z := w mod 2 ^ 16.
Definition set_low16 (w v : Z) : Z := w - low16 w + low16 v.
(** The interrupt flag, bit 9. *)
Definition clear_if (w : Z) : Z := bf_set 9 1 0 w.

Definition push (w : Z) (s : cpu) : cpu :=
  let a := u32 (r_get ESP s - 4) in m_set a w (r_set ESP a s).
Definition pop (s : cpu) : outcome (Z * cpu) :=
  w ← m_get (r_get ESP s) s; Ret (w, r_set ESP (u32 (r_get ESP s + 4)) s).

Definition step (i : instr) (s : cpu) : outcome cpu :=
  match i with
  | Cli => Ret (Cpu (gpr s) (sgr s) (e_ip s) (clear_if (e_flags s)) (mem s))
  | Push r => Ret (push (r_get r s) s)
  | PushM off b => w ← m_get (u32 (r_get b s + off)) s; Ret (push w s)
  | Pop r => '(w, s) ← pop s; Ret (r_set r w s)
  | Mov a b => Ret (r_set b (r_get a s) s)
  | MovM off b r => w ← m_get (u32 (r_get b s + off)) s; Ret (r_set r w s)
  | AddI n r => Ret (r_set r (u32 (r_get r s + n)) s)
  | MovI16 n r => Ret (r_set r (set_low16 (r_get r s) n) s)
  | MovM16 off b r => w ← m_get (u32 (r_get b s + off)) s; Ret (r_set r (set_low16 (r_get r s) w) s)
  | MovSeg r g => Ret (s_set g (low16 (r_get r s)) s)
  | Iret =>
    '(pc, s) ← pop s; '(c, s) ← pop s; '(fl, s) ← pop s; '(sp, s) ← pop s; '(st, s) ← pop s;
    Ret (Cpu (<[rn ESP:=sp]> (gpr s)) (<[sn CS:=low16 c]> (<[sn SS:=low16 st]> (sgr s))) pc fl (mem s))
  end.

Fixpoint run (code : list instr) (s : cpu) : outcome cpu :=
  match code with [] => Ret s | i :: code => s ← step i s; run code s end.

(** What the processor does on an interrupt from user mode, with the kernel's
    stack and code segment from the TSS and the gate. *)
Definition interrupt (top ss0 cs0 handler : Z) (s : cpu) : cpu :=
  let sg n := nth (sn n) (sgr s) 0 in
  let k := Cpu (<[rn ESP:=top]> (gpr s)) (<[sn CS:=cs0]> (<[sn SS:=ss0]> (sgr s))) handler (e_flags s) (mem s) in
  push (e_ip s) (push (sg CS) (push (e_flags s) (push (r_get ESP s) (push (sg SS) k)))).

(** * The code *)

(** [isr_preempt] up to the call of [kernel_store_active_context], whose argument
    is the last word pushed. *)
Definition isr_preempt_code : list instr :=
  [Cli; Push EBP; Mov ESP EBP; AddI 4 EBP; Push EAX;
   MovM 8 EBP EAX; Push EAX; MovM 0 EBP EAX; Push EAX; MovM 4 EBP EAX; Push EAX;
   MovM 16 EBP EAX; Push EAX; MovM 12 EBP EAX; Push EAX; MovM (-4) EBP EAX; Push EAX;
   Push ESI; Push EDI; Push EDX; Push ECX; Push EBX;
   MovM (-8) EBP EAX; Push EAX; Push ESP].

(** [load_context], entered with the context's address above the return address. *)
Definition load_context_code : list instr :=
  [MovM 4 ESP EAX;
   PushM 0x20 EAX; PushM 0x1C EAX; PushM 0x2C EAX; PushM 0x24 EAX; PushM 0x28 EAX; PushM 0x00 EAX;
   MovM 0x04 EAX EBX; MovM 0x08 EAX ECX; MovM 0x0C EAX EDX; MovM 0x10 EAX EDI; MovM 0x14 EAX ESI; MovM 0x18 EAX EBP;
   MovM16 0x20 EAX EAX; MovSeg EAX DS; MovSeg EAX ES; MovSeg EAX FS; MovSeg EAX GS;
   Pop EAX; Iret].

(** [isr_syscall] up to the call of [do_syscall], and after its return. *)
Definition isr_syscall_code : list instr :=
  [Cli; Mov ESP EBP; MovM 8 EBP ESI; Push ESI; MovM 12 EBP ESI; Push ESI; MovM 0 EBP ESI; Push ESI;
   Push EDX; Push ECX; Push EBX; Push EAX;
   MovI16 0x10 EAX; MovSeg EAX DS; MovSeg EAX ES; MovSeg EAX FS; MovSeg EAX GS].
Definition isr_syscall_return : list instr :=
  [Mov EBP ESP; MovI16 0x23 ECX; MovSeg ECX DS; MovSeg ECX ES; MovSeg ECX FS; MovSeg ECX GS; Iret].

(** The registers a context holds, and the context of a running program. *)
Definition context_of (s : cpu) : process_context_t :=
  Context_ (gpr s) (nth (sn SS) (sgr s) 0) (nth (sn CS) (sgr s) 0) (e_ip s) (e_flags s).

(** * Views

    [Stack k] is [k] bytes below the top of the kernel's stack, [Saved k] is byte
    [k] of the context at [c], whose words are [ctx]. *)
Inductive value := Word (w : Z) | Stack (k : Z) | Saved (k : Z).

Record view := View { v_gpr : list value; v_sgr : list value; v_ip : value; v_flags : value; v_stack : list value }.

Section views.
Context (top c : Z) (ctx : list Z).

Definition den (x : value) : Z := match x with Word w => w | Stack k => top - k | Saved k => c + k end.

(** The bytes on the stack. *)
Definition depth (v : view) : Z := 4 * Z.of_nat (length (v_stack v)).

Definition vr_get (r : reg) (v : view) : option value := v_gpr v !! rn r.

(** The stack pointer stays on the stack; moving it up drops what is below. *)
Definition vr_set (r : reg) (x : value) (v : view) : option view :=
  let set st := View (<[rn r:=x]> (v_gpr v)) (v_sgr v) (v_ip v) (v_flags v) st in
  match r with
  | ESP =>
    match x with
    | Stack k => if (0 <=? k) && (k <=? depth v) && (k mod 4 =? 0) then Some (set (drop (Z.to_nat ((depth v - k) / 4)) (v_stack v))) else None
    | _ => None
    end
  | _ => Some (set (v_stack v))
  end.

Definition vs_set (g : seg) (x : value) (v : view) : view :=
  View (v_gpr v) (<[sn g:=x]> (v_sgr v)) (v_ip v) (v_flags v) (v_stack v).

Definition v_push (x : value) (v : view) : option view :=
  if depth v <=? 200 then
    Some (View (<[rn ESP:=Stack (depth v + 4)]> (v_gpr v)) (v_sgr v) (v_ip v) (v_flags v) (x :: v_stack v))
  else None.

Definition v_offset (x : value) (n : Z) : option value :=
  match x with
  | Stack k => if (0 <=? k - n) && (k - n <=? 204) then Some (Stack (k - n)) else None
  | Saved k => if (0 <=? k + n) && (k + n <=? 48) then Some (Saved (k + n)) else None
  | Word _ => None
  end.

Definition v_load (x : value) (v : view) : option value :=
  match x with
  | Stack k => if (0 <? k) && (k <=? depth v) && (k mod 4 =? 0) then v_stack v !! Z.to_nat ((depth v - k) / 4) else None
  | Saved k => if (0 <=? k) && (k mod 4 =? 0) then Word <$> ctx !! Z.to_nat (k / 4) else None
  | Word _ => None
  end.

Definition v_pop (v : view) : option (value * view) :=
  match v_stack v with
  | x :: st => Some (x, View (<[rn ESP:=Stack (depth v - 4)]> (v_gpr v)) (v_sgr v) (v_ip v) (v_flags v) st)
  | [] => None
  end.

Definition v_step (i : instr) (v : view) : option view :=
  match i with
  | Cli => Some (View (v_gpr v) (v_sgr v) (v_ip v) (Word (clear_if (den (v_flags v)))) (v_stack v))
  | Push r => x ← vr_get r v; v_push x v
  | PushM off b => x ← vr_get b v; a ← v_offset x off; y ← v_load a v; v_push y v
  | Pop r => '(x, v) ← v_pop v; vr_set r x v
  | Mov a b => x ← vr_get a v; vr_set b x v
  | MovM off b r => x ← vr_get b v; a ← v_offset x off; y ← v_load a v; vr_set r y v
  | AddI n r => x ← vr_get r v; y ← v_offset x n; vr_set r y v
  | MovI16 n r => x ← vr_get r v; vr_set r (Word (set_low16 (den x) n)) v
  | MovM16 off b r => x ← vr_get b v; a ← v_offset x off; y ← v_load a v; z ← vr_get r v; vr_set r (Word (set_low16 (den z) (den y))) v
  | MovSeg r g => x ← vr_get r v; Some (vs_set g (Word (low16 (den x))) v)
  | Iret =>
    '(pc, v) ← v_pop v; '(cs, v) ← v_pop v; '(fl, v) ← v_pop v; '(sp, v) ← v_pop v; '(ss, v) ← v_pop v;
    Some (View (<[rn ESP:=sp]> (v_gpr v)) (<[sn CS:=Word (low16 (den cs))]> (<[sn SS:=Word (low16 (den ss))]> (v_sgr v))) pc fl (v_stack v))
  end.

Fixpoint v_run (code : list instr) (v : view) : option view :=
  match code with [] => Some v | i :: code => v ← v_step i v; v_run code v end.

(** ** The processor a view shows *)
Record shows (s : cpu) (v : view) : Prop := {
  sh_gpr : gpr s = den <$> v_gpr v;
  sh_sgr : sgr s = den <$> v_sgr v;
  sh_ip : e_ip s = den (v_ip v);
  sh_flags : e_flags s = den (v_flags v);
  sh_stack : forall i x, v_stack v !! i = Some x -> mem s !! (top - depth v + 4 * Z.of_nat i) = Some (den x);
  sh_ctx : forall i w, ctx !! i = Some w -> mem s !! (c + 4 * Z.of_nat i) = Some w
}.

(** ... while it runs in the kernel: the stack pointer is at the end of the
    stack. *)
Definition inside (v : view) : Prop :=
  length (v_gpr v) = 8%nat /\ v_gpr v !! rn ESP = Some (Stack (depth v)) /\ depth v <= 204.

(** The stack does not wrap and is apart from the context. *)
Definition placed : Prop := 512 <= top < 2 ^ 32 /\ 0 <= c /\ c + 48 < 2 ^ 32 /\ (length ctx <= 12)%nat /\
  (c + 48 <= top - 256 \/ top <= c).

(** ** Soundness *)
Context (Hplaced : placed).

Lemma vr_get_ok r v x s : vr_get r v = Some x -> shows s v -> r_get r s = den x.
Proof. intros Hr Hs. unfold r_get. rewrite (sh_gpr _ _ Hs), nth_lookup, list_lookup_fmap. unfold vr_get in Hr. by rewrite Hr. Qed.

Lemma inside_esp v s : inside v -> shows s v -> r_get ESP s = top - depth v.
Proof. intros (_ & Hi & _) Hs. by apply (vr_get_ok ESP v (Stack (depth v))). Qed.

Lemma v_load_ok x y v s : v_load x v = Some y -> shows s v -> mem s !! den x = Some (den y).
Proof.
  destruct x as [w|k|k]; cbn [v_load den]; [done|..]; intros E Hs.
  - destruct (_ && _) eqn:C in E; [|done]. apply andb_true_iff in C as [[C1 C2]%andb_true_iff C3].
    pose proof (sh_stack _ _ Hs _ _ E) as K. rewrite <- K. f_equal. unfold depth in *. Z.div_mod_to_equations. lia.
  - destruct (_ && _) eqn:C in E; [|done]. apply andb_true_iff in C as [C1 C2].
    destruct (ctx !! _) as [w|] eqn:Ew; [|done]. injection E as <-.
    pose proof (sh_ctx _ _ Hs _ _ Ew) as K. cbn [den]. rewrite <- K. f_equal. Z.div_mod_to_equations. lia.
Qed.

Lemma v_offset_ok x n y : v_offset x n = Some y -> u32 (den x + n) = den y.
Proof.
  destruct Hplaced as (P1 & P2 & P3 & _). destruct x as [w|k|k]; cbn [v_offset]; [done|..]; destruct (_ && _) eqn:C; intros [= <-];
    apply andb_true_iff in C as [C1 C2]; cbn [den]; rewrite u32_id; unfold is_u32; lia.
Qed.

Lemma v_push_ok x v v' s : v_push x v = Some v' -> inside v -> shows s v -> shows (push (den x) s) v' /\ inside v'.
Proof.
  unfold v_push. intros E Hi Hs. destruct (Z.leb_spec (depth v) 200) as [Hd|]; [|done]. injection E as <-.
  destruct Hplaced as (P1 & P2 & P3 & P4 & P5). pose proof (inside_esp v s Hi Hs) as Hesp. destruct Hi as (Hl & Hi & Hd').
  assert (0 <= depth v) by (unfold depth; lia). unfold push. rewrite Hesp, u32_id by (unfold is_u32; lia).
  assert (forall g a b f, depth (View g a b f (x :: v_stack v)) = depth v + 4) as Ed
    by (intros; unfold depth; cbn [v_stack length]; lia).
  split; [|unfold inside; rewrite Ed; cbn [v_gpr]; rewrite length_insert, list_lookup_insert_eq by (cbn; lia); split_and!; done || lia].
  split; rewrite ?Ed; cbn [gpr sgr e_ip e_flags mem m_set r_set v_gpr v_sgr v_ip v_flags v_stack]; [|apply Hs..| |].
  - rewrite (sh_gpr _ _ Hs), list_fmap_insert. f_equal. cbn [den]. lia.
  - intros [|i] y Hy; cbn in Hy.
    + injection Hy as <-. rewrite lookup_insert_Some. left. split; [lia|done].
    + rewrite lookup_insert_ne by lia. rewrite <- (sh_stack _ _ Hs i y Hy). f_equal. lia.
  - intros i w Hw. pose proof (lookup_lt_Some _ _ _ Hw). rewrite lookup_insert_ne by lia. by apply Hs.
Qed.

Lemma v_pop_ok v x v' s : v_pop v = Some (x, v') -> inside v -> shows s v ->
  exists s', pop s = Ret (den x, s') /\ shows s' v' /\ inside v'.
Proof.
  unfold v_pop. intros E Hi Hs. destruct (v_stack v) as [|y st] eqn:Est; [done|]. injection E as <- <-.
  destruct Hplaced as (P1 & P2 & P3 & P4 & P5). pose proof (inside_esp v s Hi Hs) as Hesp. destruct Hi as (Hl & Hi & Hd').
  assert (depth v = 4 * Z.of_nat (length st) + 4) as Dv by (unfold depth; rewrite Est; cbn [length]; lia).
  pose proof (sh_stack _ _ Hs 0%nat y) as K. rewrite Est in K. specialize (K eq_refl). rewrite Z.mul_0_r, Z.add_0_r in K.
  unfold pop, m_get. rewrite Hesp, K. ostep. eexists. split; [done|].
  rewrite u32_id by (unfold is_u32; lia).
  assert (forall g a b f, depth (View g a b f st) = depth v - 4) as Ed by (intros; unfold depth at 1; cbn [v_stack]; lia).
  split; [|unfold inside; rewrite Ed; cbn [v_gpr]; rewrite length_insert, list_lookup_insert_eq by (cbn; lia); split_and!; done || lia].
  split; rewrite ?Ed; cbn [gpr sgr e_ip e_flags mem r_set v_gpr v_sgr v_ip v_flags v_stack]; [|apply Hs..| |apply Hs].
  - rewrite (sh_gpr _ _ Hs), list_fmap_insert. f_equal. cbn [den]. lia.
  - intros i w Hw. rewrite <- (sh_stack _ _ Hs (S i) w); [f_equal; lia|]. by rewrite Est.
Qed.

Lemma vr_set_ok r x v v' s : vr_set r x v = Some v' -> inside v -> shows s v -> shows (r_set r (den x) s) v' /\ inside v'.
Proof.
  intros E Hi Hs. destruct (decide (r = ESP)) as [->|Hne].
  - cbn [vr_set] in E. destruct x as [|k|]; [done| |done]. destruct (_ && _) eqn:C; [|done]. injection E as <-.
    apply andb_true_iff in C as [[C1 C2]%andb_true_iff C3]. destruct Hi as (Hl & Hi & Hd).
    assert (forall g a b f, depth (View g a b f (drop (Z.to_nat ((depth v - k) / 4)) (v_stack v))) = k) as Ed.
    { intros. unfold depth at 1. cbn [v_stack]. rewrite length_drop. unfold depth in *. Z.div_mod_to_equations. lia. }
    split; [|unfold inside; rewrite Ed; cbn [v_gpr]; rewrite length_insert, list_lookup_insert_eq by (cbn; lia); split_and!; done || lia].
    split; rewrite ?Ed; cbn [gpr sgr e_ip e_flags mem r_set v_gpr v_sgr v_ip v_flags v_stack]; [|apply Hs..| |apply Hs].
    + by rewrite (sh_gpr _ _ Hs), list_fmap_insert.
    + intros i y Hy. rewrite lookup_drop in Hy. rewrite <- (sh_stack _ _ Hs _ _ Hy). f_equal.
      unfold depth in *. Z.div_mod_to_equations. lia.
  - assert (v' = View (<[rn r:=x]> (v_gpr v)) (v_sgr v) (v_ip v) (v_flags v) (v_stack v)) as -> by (destruct r; congruence || by injection E as <-).
    destruct Hi as (Hl & Hi & Hd). split.
    + split; cbn [gpr sgr e_ip e_flags mem r_set v_gpr v_sgr v_ip v_flags v_stack]; [|apply Hs..].
      by rewrite (sh_gpr _ _ Hs), list_fmap_insert.
    + unfold inside. cbn [v_gpr]. rewrite length_insert, list_lookup_insert_ne by (by destruct r). done.
Qed.

(** Every instruction but the last. *)
Lemma v_step_ok i v v' s : v_step i v = Some v' -> i <> Iret -> inside v -> shows s v ->
  exists s', step i s = Ret s' /\ shows s' v' /\ inside v'.
Proof.
  destruct i as [|r|off b|r|a b|off b r|n r|n r|off b r|r g|]; cbn [v_step step]; intros E Hne Hi Hs.
  - injection E as <-. eexists. split; [done|]. split; [|done]. split; cbn [gpr sgr e_ip e_flags mem v_gpr v_sgr v_ip v_flags v_stack den]; try apply Hs.
    by rewrite (sh_flags _ _ Hs).
  - apply bind_Some in E as (x & Ex & E). rewrite (vr_get_ok _ _ _ _ Ex Hs). eexists. split; [done|]. by eapply v_push_ok.
  - apply bind_Some in E as (x & Ex & E). apply bind_Some in E as (y & Ey & E). apply bind_Some in E as (z & Ez & E).
    rewrite (vr_get_ok _ _ _ _ Ex Hs), (v_offset_ok _ _ _ Ey). unfold m_get. rewrite (v_load_ok _ _ _ _ Ez Hs). ostep.
    eexists. split; [done|]. by eapply v_push_ok.
  - apply bind_Some in E as ([x v1] & Ex & E). destruct (v_pop_ok _ _ _ _ Ex Hi Hs) as (s1 & -> & Hs1 & Hi1). ostep.
    eexists. split; [done|]. by eapply vr_set_ok.
  - apply bind_Some in E as (x & Ex & E). rewrite (vr_get_ok _ _ _ _ Ex Hs). eexists. split; [done|]. by eapply vr_set_ok.
  - apply bind_Some in E as (x & Ex & E). apply bind_Some in E as (y & Ey & E). apply bind_Some in E as (z & Ez & E).
    rewrite (vr_get_ok _ _ _ _ Ex Hs), (v_offset_ok _ _ _ Ey). unfold m_get. rewrite (v_load_ok _ _ _ _ Ez Hs). ostep.
    eexists. split; [done|]. by eapply vr_set_ok.
  - apply bind_Some in E as (x & Ex & E). apply bind_Some in E as (y & Ey & E).
    rewrite (vr_get_ok _ _ _ _ Ex Hs), (v_offset_ok _ _ _ Ey). eexists. split; [done|]. by eapply vr_set_ok.
  - apply bind_Some in E as (x & Ex & E). rewrite (vr_get_ok _ _ _ _ Ex Hs). eexists. split; [done|]. by eapply (vr_set_ok _ (Word _)).
  - apply bind_Some in E as (x & Ex & E). apply bind_Some in E as (y & Ey & E). apply bind_Some in E as (z & Ez & E). apply bind_Some in E as (u & Eu & E).
    rewrite (vr_get_ok _ _ _ _ Ex Hs), (v_offset_ok _ _ _ Ey), (vr_get_ok _ _ _ _ Eu Hs). unfold m_get.
    rewrite (v_load_ok _ _ _ _ Ez Hs). ostep. eexists. split; [done|]. by eapply (vr_set_ok _ (Word _)).
  - apply bind_Some in E as (x & Ex & E). injection E as <-. rewrite (vr_get_ok _ _ _ _ Ex Hs). eexists. split; [done|].
    split; [|done]. split; cbn [gpr sgr e_ip e_flags mem s_set vs_set v_gpr v_sgr v_ip v_flags v_stack]; try apply Hs.
    by rewrite (sh_sgr _ _ Hs), list_fmap_insert.
  - done.
Qed.

Lemma v_iret_ok v v' s : v_step Iret v = Some v' -> inside v -> shows s v -> exists s', step Iret s = Ret s' /\
  gpr s' = den <$> v_gpr v' /\ sgr s' = den <$> v_sgr v' /\ e_ip s' = den (v_ip v') /\ e_flags s' = den (v_flags v').
Proof.
  cbn [v_step step]. intros E Hi Hs.
  do 5 (apply bind_Some in E as ([? ?] & Ep & E);
    destruct (v_pop_ok _ _ _ _ Ep Hi Hs) as (? & -> & Hs' & Hi'); ostep; clear Hi Hs Ep; rename Hi' into Hi; rename Hs' into Hs).
  injection E as <-. eexists. split; [done|]. cbn [gpr sgr e_ip e_flags v_gpr v_sgr v_ip v_flags].
  rewrite (sh_gpr _ _ Hs), (sh_sgr _ _ Hs), !list_fmap_insert. done.
Qed.

Lemma v_run_ok code : forall v v' s, v_run code v = Some v' -> Iret ∉ code -> inside v -> shows s v ->
  exists s', run code s = Ret s' /\ shows s' v' /\ inside v'.
Proof.
  induction code as [|i code IH]; intros v v' s E Hn Hi Hs; cbn [v_run run] in *.
  - injection E as <-. by exists s.
  - apply bind_Some in E as (v1 & E1 & E). apply not_elem_of_cons in Hn as [Hne Hn].
    destruct (v_step_ok _ _ _ _ E1 (not_eq_sym Hne) Hi Hs) as (s1 & -> & Hs1 & Hi1). ostep. by eapply IH.
Qed.

(** Code that ends with the return to user mode. *)
Lemma v_run_iret code v v' s : v_run (code ++ [Iret]) v = Some v' -> Iret ∉ code -> inside v -> shows s v ->
  exists s', run (code ++ [Iret]) s = Ret s' /\
  gpr s' = den <$> v_gpr v' /\ sgr s' = den <$> v_sgr v' /\ e_ip s' = den (v_ip v') /\ e_flags s' = den (v_flags v').
Proof.
  revert v s. induction code as [|i code IH]; intros v s E Hn Hi Hs; cbn [app v_run run] in *.
  - apply bind_Some in E as (v1 & E1 & [= <-]). destruct (v_iret_ok _ _ _ E1 Hi Hs) as (s' & -> & K). ostep. by exists s'.
  - apply bind_Some in E as (v1 & E1 & E). apply not_elem_of_cons in Hn as [Hne Hn].
    destruct (v_step_ok _ _ _ _ E1 (not_eq_sym Hne) Hi Hs) as (s1 & -> & Hs1 & Hi1). ostep. by apply (IH v1).
Qed.
End views.

(** * The entry and exit sequences *)

(** A program's registers, and the selectors [cs], [ss] and [ds .. gs]. *)
Record user_state (u : cpu) (eax ebx ecx edx edi esi ebp esp cs ss ds es fs gs pc fl : Z) : Prop := {
  us_gpr : gpr u = [eax; ebx; ecx; edx; edi; esi; ebp; esp];
  us_sgr : sgr u = [cs; ss; ds; es; fs; gs];
  us_ip : e_ip u = pc;
  us_flags : e_flags u = fl
}.

Section sequences.
Context (top ss0 cs0 handler : Z) (Htop : 512 <= top < 2 ^ 32).

Lemma placed_none : placed top 0 [].
Proof. split; [lia|]. split; [lia|]. split; [lia|]. split; [cbn; lia|]. left. lia. Qed.

Definition pushed (w : Z) (v : view) : view :=
  View (<[rn ESP:=Stack (depth v + 4)]> (v_gpr v)) (v_sgr v) (v_ip v) (v_flags v) (Word w :: v_stack v).

(** The kernel as the interrupt finds it. *)
Definition entered (eax ebx ecx edx edi esi ebp esp cs ss ds es fs gs pc fl : Z) : view :=
  View [Word eax; Word ebx; Word ecx; Word edx; Word edi; Word esi; Word ebp; Stack 20]
    [Word cs0; Word ss0; Word ds; Word es; Word fs; Word gs] (Word handler) (Word fl)
    [Word pc; Word cs; Word fl; Word esp; Word ss].

Lemma interrupt_shows u eax ebx ecx edx edi esi ebp esp cs ss ds es fs gs pc fl :
  user_state u eax ebx ecx edx edi esi ebp esp cs ss ds es fs gs pc fl ->
  shows top 0 [] (interrupt top ss0 cs0 handler u) (entered eax ebx ecx edx edi esi ebp esp cs ss ds es fs gs pc fl) /\
  inside (entered eax ebx ecx edx edi esi ebp esp cs ss ds es fs gs pc fl).
Proof.
  intros [G S I F]. unfold interrupt. rewrite I, F. unfold r_get at 1. rewrite G, S. cbn [nth rn sn insert list_insert].
  set (k := Cpu _ _ _ _ _).
  assert (shows top 0 [] k (View [Word eax; Word ebx; Word ecx; Word edx; Word edi; Word esi; Word ebp; Stack 0]
    [Word cs0; Word ss0; Word ds; Word es; Word fs; Word gs] (Word handler) (Word fl) [])) as Hk.
  { split; unfold k; cbn; try done. by rewrite Z.sub_0_r. }
  assert (forall w v s, shows top 0 [] s v -> inside v -> depth v <= 200 ->
    shows top 0 [] (push w s) (pushed w v) /\ inside (pushed w v)) as Hpush.
  { intros w v s Hs Hi Hd. apply (v_push_ok top 0 [] placed_none (Word w) v _ s); [|done|done].
    unfold v_push. by rewrite (proj2 (Z.leb_le _ _) Hd). }
  clearbody k. destruct (Hpush ss _ k Hk) as [H1 I1]; [done|by vm_compute|]. destruct (Hpush esp _ _ H1 I1) as [H2 I2]; [by vm_compute|].
  destruct (Hpush fl _ _ H2 I2) as [H3 I3]; [by vm_compute|]. destruct (Hpush cs _ _ H3 I3) as [H4 I4]; [by vm_compute|].
  destruct (Hpush pc _ _ H4 I4) as [H5 I5]; [by vm_compute|]. split; [exact H5|exact I5].
Qed.
End sequences.

Section frames.
Context (top ss0 cs0 handler : Z) (Htop : 512 <= top < 2 ^ 32).
Context (eax ebx ecx edx edi esi ebp esp cs ss ds es fs gs pc fl : Z).
Abbreviation before := (entered ss0 cs0 handler eax ebx ecx edx edi esi ebp esp cs ss ds es fs gs pc fl).

(** The registers as [isr_preempt] leaves them on the stack, above its pointer
    to them. *)
Definition preempt_view : view :=
  View [Word eax; Word ebx; Word ecx; Word edx; Word edi; Word esi; Stack 20; Stack 80]
    [Word cs0; Word ss0; Word ds; Word es; Word fs; Word gs] (Word handler) (Word (clear_if fl))
    (Stack 76 :: (Word <$> [eax; ebx; ecx; edx; edi; esi; ebp; esp; ss; cs; pc; fl]) ++
     [Word eax; Word ebp; Word pc; Word cs; Word fl; Word esp; Word ss]).

Lemma preempt_runs : v_run top 0 [] isr_preempt_code before = Some preempt_view.
Proof. reflexivity. Qed.

(** The arguments of [do_syscall] on the stack. *)
Definition syscall_view : view :=
  View [Word (set_low16 eax 0x10); Word ebx; Word ecx; Word edx; Word edi; Word pc; Stack 20; Stack 48]
    [Word cs0; Word ss0; Word (low16 (set_low16 eax 0x10)); Word (low16 (set_low16 eax 0x10)); Word (low16 (set_low16 eax 0x10)); Word (low16 (set_low16 eax 0x10))]
    (Word handler) (Word (clear_if fl))
    (Word <$> [eax; ebx; ecx; edx; pc; esp; fl; pc; cs; fl; esp; ss]).

Lemma syscall_runs : v_run top 0 [] isr_syscall_code before = Some syscall_view.
Proof. reflexivity. Qed.
End frames.

Lemma low16_set w v : low16 (set_low16 w v) = low16 v.
Proof. unfold set_low16, low16. rewrite Z.add_mod_idemp_r by lia. Z.div_mod_to_equations. lia. Qed.

Lemma low16_id w : 0 <= w < 2 ^ 16 -> low16 w = w.
Proof. apply Z.mod_small. Qed.

(** The words [ws] are in memory at [a]. *)
Definition words_at (s : cpu) (a : Z) (ws : list Z) : Prop :=
  forall i w, ws !! i = Some w -> mem s !! (a + 4 * Z.of_nat i) = Some w.

Lemma words_at_stack top c ctx s v n ws : shows top c ctx s v -> (forall i w, ws !! i = Some w -> v_stack v !! (n + i)%nat = Some (Word w)) ->
  words_at s (top - depth v + 4 * Z.of_nat n) ws.
Proof.
  intros Hs Hw i w Hi. pose proof (sh_stack _ _ _ _ _ Hs _ _ (Hw i w Hi)) as K. cbn [den] in K. rewrite <- K. f_equal. lia.
Qed.

(** The return to user mode is the last instruction only. *)
Lemma no_iret : (Iret ∉ isr_preempt_code) /\ (Iret ∉ isr_syscall_code) /\
  (Iret ∉ take 19 load_context_code) /\ (Iret ∉ take 5 (tail isr_syscall_return)).
Proof. split_and!; apply (bool_decide_unpack (_ ∉ _)); by vm_compute. Qed.

(** [load_context] at any place. *)
Lemma load_context_run k c ret r0 r1 r2 r3 r4 r5 r6 r7 ss cs pc fl :
  placed (r_get ESP k + 8) c [r0; r1; r2; r3; r4; r5; r6; r7; ss; cs; pc; fl] ->
  length (gpr k) = 8%nat -> length (sgr k) = 6%nat -> words_at k (r_get ESP k) [ret; c] ->
  words_at k c [r0; r1; r2; r3; r4; r5; r6; r7; ss; cs; pc; fl] ->
  exists u, run load_context_code k = Ret u /\
    user_state u r0 r1 r2 r3 r4 r5 r6 r7 (low16 cs) (low16 ss) (low16 ss) (low16 ss) (low16 ss) (low16 ss) pc fl.
Proof.
  intros Hp Lg Ls Ha Hc.
  set (ctx := [r0; r1; r2; r3; r4; r5; r6; r7; ss; cs; pc; fl]) in *. set (top := r_get ESP k + 8) in *.
  assert (r_get ESP k = top - 8) as Hesp by (unfold top; lia). clearbody top.
  destruct k as [g sg ip f m]. cbn [gpr sgr] in Lg, Ls. unfold r_get in Hesp. cbn [gpr rn] in Hesp.
  destruct g as [|g0 [|g1 [|g2 [|g3 [|g4 [|g5 [|g6 [|g7 [|]]]]]]]]]; try done. cbn [nth] in Hesp. subst g7.
  destruct sg as [|s0 [|s1 [|s2 [|s3 [|s4 [|s5 [|]]]]]]]; try done.
  set (v := View [Word g0; Word g1; Word g2; Word g3; Word g4; Word g5; Word g6; Stack 8]
    [Word s0; Word s1; Word s2; Word s3; Word s4; Word s5] (Word ip) (Word f) [Word ret; Saved 0]).
  destruct (v_run_iret top c ctx Hp (take 19 load_context_code) v
    (View [Word r0; Word r1; Word r2; Word r3; Word r4; Word r5; Word r6; Word r7]
      [Word (low16 cs); Word (low16 ss); Word (low16 (set_low16 (c + 0) ss)); Word (low16 (set_low16 (c + 0) ss));
       Word (low16 (set_low16 (c + 0) ss)); Word (low16 (set_low16 (c + 0) ss))] (Word pc) (Word fl) [Word ret; Saved 0])
    (Cpu [g0; g1; g2; g3; g4; g5; g6; top - 8] [s0; s1; s2; s3; s4; s5] ip f m)) as (u & E & G & S & I & F).
  - reflexivity.
  - apply no_iret.
  - split_and!; done.
  - split; try done. intros i x Hx. unfold depth. cbn [v v_stack length].
    replace (top - 4 * Z.of_nat 2 + 4 * Z.of_nat i) with (top - 8 + 4 * Z.of_nat i) by lia.
    change (r_get ESP _) with (top - 8) in Ha. apply Ha.
    destruct i as [|[|i]]; cbn in Hx |- *; [by injection Hx as <-| |done]. injection Hx as <-. cbn [den]. f_equal. lia.
  - exists u. split; [exact E|]. split; [exact G| |exact I|exact F]. rewrite S. cbn. by rewrite !low16_set.
Qed.

(** [do_syscall] as C code may leave the processor: ebx, esi, edi and ebp kept,
    the stack above its arguments kept. *)
Definition returned (k k' : cpu) (result : Z) : Prop :=
  length (sgr k') = 6%nat /\ (exists ecx edx, gpr k' =
    [result; r_get EBX k; ecx; edx; r_get EDI k; r_get ESI k; r_get EBP k; r_get ESP k]) /\
  forall a, r_get ESP k + 28 <= a -> mem k' !! a = mem k !! a.

(** The return of [isr_syscall]. *)
Lemma syscall_return_run top k result ebx ecx edx edi esi pc cs fl esp ss : 512 <= top < 2 ^ 32 ->
  gpr k = [result; ebx; ecx; edx; edi; esi; top - 20; top - 48] -> length (sgr k) = 6%nat ->
  words_at k (top - 20) [pc; cs; fl; esp; ss] ->
  exists u, run isr_syscall_return k = Ret u /\ gpr u = [result; ebx; set_low16 ecx 0x23; edx; edi; esi; top - 20; esp] /\
    sgr u = [low16 cs; low16 ss; 0x23; 0x23; 0x23; 0x23] /\ e_ip u = pc /\ e_flags u = fl.
Proof.
  intros Ht G L Hw. destruct k as [g sg ip f m]. cbn [gpr sgr] in G, L. subst g.
  destruct sg as [|s0 [|s1 [|s2 [|s3 [|s4 [|s5 [|]]]]]]]; try done.
  assert (forall z, low16 (set_low16 z 0x23) = 0x23) as H23 by (intros; by rewrite low16_set).
  set (v := View [Word result; Word ebx; Word ecx; Word edx; Word edi; Word esi; Stack 20; Stack 20]
    [Word s0; Word s1; Word s2; Word s3; Word s4; Word s5] (Word ip) (Word f) [Word pc; Word cs; Word fl; Word esp; Word ss]).
  change (run isr_syscall_return _) with (run (take 5 (tail isr_syscall_return) ++ [Iret])
    (Cpu [result; ebx; ecx; edx; edi; esi; top - 20; top - 20] [s0; s1; s2; s3; s4; s5] ip f m)).
  destruct (v_run_iret top 0 [] (placed_none top Ht) (take 5 (tail isr_syscall_return)) v
    (View [Word result; Word ebx; Word (set_low16 ecx 0x23); Word edx; Word edi; Word esi; Stack 20; Word esp]
      [Word (low16 cs); Word (low16 ss); Word (low16 (set_low16 ecx 0x23)); Word (low16 (set_low16 ecx 0x23));
       Word (low16 (set_low16 ecx 0x23)); Word (low16 (set_low16 ecx 0x23))] (Word pc) (Word fl) [])
    (Cpu [result; ebx; ecx; edx; edi; esi; top - 20; top - 20] [s0; s1; s2; s3; s4; s5] ip f m)) as (u & E & G & S & I & F).
  - reflexivity.
  - apply no_iret.
  - split_and!; done.
  - split; try done. intros i x Hx. change (depth v) with 20. apply Hw. cbn in Hx.
    do 5 (destruct i as [|i]; [by injection Hx as <-|]). done.
  - exists u. split; [exact E|]. split; [exact G|]. split; [rewrite S; cbn; by rewrite H23|]. by split.
Qed.

(** * Properties *)

(** C6: A preempted program gets its whole state back.  [isr_preempt] passes
    [kernel_store_active_context] the address of a context that holds exactly the
    interrupted registers and keeps ebp where it restores the stack from; and
    wherever [load_context] is called with such a context it leaves the kernel
    with these registers, the program counter, the flags and the stack of the
    program, its data segments set to its stack segment. *)
Theorem preempt_resume top ss0 cs0 handler u eax ebx ecx edx edi esi ebp esp cs ss ds es fs gs pc fl :
  512 <= top < 2 ^ 32 -> 0 <= cs < 2 ^ 16 -> 0 <= ss < 2 ^ 16 ->
  user_state u eax ebx ecx edx edi esi ebp esp cs ss ds es fs gs pc fl ->
  exists k, run isr_preempt_code (interrupt top ss0 cs0 handler u) = Ret k /\ r_get EBP k = top - 20 /\
    mem k !! r_get ESP k = Some (top - 76) /\ words_at k (top - 76) (context_words (context_of u)) /\
    forall k' c ret, placed (r_get ESP k' + 8) c (context_words (context_of u)) ->
      length (gpr k') = 8%nat -> length (sgr k') = 6%nat -> words_at k' (r_get ESP k') [ret; c] ->
      words_at k' c (context_words (context_of u)) ->
      exists u', run load_context_code k' = Ret u' /\
        user_state u' eax ebx ecx edx edi esi ebp esp cs ss ss ss ss ss pc fl.
Proof.
  intros Ht Hcs Hss Hu. destruct (interrupt_shows top ss0 cs0 handler Ht u _ _ _ _ _ _ _ _ _ _ _ _ _ _ _ _ Hu) as [Hs Hi].
  destruct (v_run_ok top 0 [] (placed_none top Ht) isr_preempt_code _ _ _ (preempt_runs top ss0 cs0 handler _ _ _ _ _ _ _ _ _ _ _ _ _ _ _ _)
    (proj1 no_iret) Hi Hs) as (k & E & Hk & Hik).
  assert (context_words (context_of u) = [eax; ebx; ecx; edx; edi; esi; ebp; esp; ss; cs; pc; fl]) as Hw.
  { destruct Hu as [G S P F]. unfold context_words, context_of. by rewrite G, S, P, F. }
  set (v := preempt_view ss0 cs0 handler eax ebx ecx edx edi esi ebp esp cs ss ds es fs gs pc fl) in *.
  pose proof (vr_get_ok top 0 [] EBP v (Stack 20) k eq_refl Hk) as Kbp.
  pose proof (inside_esp top 0 [] v k Hik Hk) as Ksp. change (depth _) with 80 in Ksp.
  assert (forall n ws, (forall i w, ws !! i = Some w -> v_stack v !! (n + i)%nat = Some (Word w)) ->
    words_at k (top - 80 + 4 * Z.of_nat n) ws) as Kst by (intros n ws; exact (words_at_stack top 0 [] k v n ws Hk)).
  pose proof (sh_stack _ _ _ _ v Hk 0%nat _ eq_refl) as Kp. change (depth _) with 80 in Kp.
  exists k. split; [exact E|]. split; [exact Kbp|]. split; [|split].
  - rewrite Ksp. rewrite Z.mul_0_r, Z.add_0_r in Kp. exact Kp.
  - rewrite Hw. replace (top - 76) with (top - 80 + 4 * Z.of_nat 1) by lia.
    apply Kst. intros i w Hiw. do 12 (destruct i as [|i]; [by injection Hiw as <-|]). done.
  - rewrite Hw. intros k' c ret Hp Lg Ls Ha Hc.
    destruct (load_context_run k' c ret _ _ _ _ _ _ _ _ _ _ _ _ Hp Lg Ls Ha Hc) as (u' & E' & U).
    rewrite !low16_id in U by done. by exists u'.
Qed.

(** A program and its registers, for the witnesses. *)
Definition demo_user : cpu := Cpu [1; 2; 3; 4; 5; 6; 7; 0xBFFFFF00] [0x1B; 0x23; 0x23; 0x23; 0x23; 0x23] 0x400010 0x3202 ∅.
Definition demo_user_state : user_state demo_user 1 2 3 4 5 6 7 0xBFFFFF00 0x1B 0x23 0x23 0x23 0x23 0x23 0x400010 0x3202 :=
  Build_user_state demo_user _ _ _ _ _ _ _ _ _ _ _ _ _ _ _ _ eq_refl eq_refl eq_refl eq_refl.
(** The kernel about to load that program's context from 0x2000. *)
Definition demo_leaving : cpu :=
  Cpu [0; 0; 0; 0; 0; 0; 0; 0x8000] [8; 0x10; 0x23; 0x23; 0x23; 0x23] 0xC0000000 2
    (list_to_map [(0x8000, 0xC0000005); (0x8004, 0x2000); (0x2000, 1); (0x2004, 2); (0x2008, 3); (0x200C, 4); (0x2010, 5);
      (0x2014, 6); (0x2018, 7); (0x201C, 0xBFFFFF00); (0x2020, 0x23); (0x2024, 0x1B); (0x2028, 0x400010); (0x202C, 0x3202)]).

Lemma preempt_resume_witness : exists k u',
  run isr_preempt_code (interrupt 0x10000 0x10 8 0xC0001000 demo_user) = Ret k /\
  run load_context_code demo_leaving = Ret u' /\ gpr u' = gpr demo_user /\ e_ip u' = 0x400010.
Proof.
  destruct (preempt_resume 0x10000 0x10 8 0xC0001000 demo_user 1 2 3 4 5 6 7 0xBFFFFF00 0x1B 0x23 0x23 0x23 0x23 0x23 0x400010 0x3202
    ltac:(lia) ltac:(lia) ltac:(lia) demo_user_state)
    as (k & E & _ & _ & _ & L).
  destruct (L demo_leaving 0x2000 0xC0000005) as (u' & E' & [G _ I _]).
  - change (r_get ESP demo_leaving) with 0x8000. split; [lia|]. split; [lia|]. split; [lia|]. split; [cbn; lia|]. left. lia.
  - reflexivity.
  - reflexivity.
  - intros i w Hi. do 2 (destruct i as [|i]; [by injection Hi as <-|]). done.
  - intros i w Hi. do 12 (destruct i as [|i]; [by injection Hi as <-|]). done.
  - exists k, u'. split; [exact E|]. split; [exact E'|]. split; [exact G|exact I].
Defined.

(** C33: [isr_syscall] calls [do_syscall] with the number, the three arguments,
    the program counter, the stack and the flags of the program.  When it has
    returned as C code does, the program goes on after its interrupt with the
    result in eax and with ebx, edi, its stack and its flags; but its ebp
    is an address on the kernel's stack and its esi the program counter. *)
Theorem syscall_call_return top ss0 cs0 handler u eax ebx ecx edx edi esi ebp esp cs ss ds es fs gs pc fl :
  512 <= top < 2 ^ 32 -> 0 <= cs < 2 ^ 16 -> 0 <= ss < 2 ^ 16 ->
  user_state u eax ebx ecx edx edi esi ebp esp cs ss ds es fs gs pc fl ->
  exists k, run isr_syscall_code (interrupt top ss0 cs0 handler u) = Ret k /\
    words_at k (r_get ESP k) [eax; ebx; ecx; edx; pc; esp; fl] /\
    forall k' result, returned k k' result -> exists u' ecx' edx', run isr_syscall_return k' = Ret u' /\
      user_state u' result ebx ecx' edx' edi pc (top - 20) esp cs ss 0x23 0x23 0x23 0x23 pc fl.
Proof.
  intros Ht Hcs Hss Hu. destruct (interrupt_shows top ss0 cs0 handler Ht u _ _ _ _ _ _ _ _ _ _ _ _ _ _ _ _ Hu) as [Hs Hi].
  destruct (v_run_ok top 0 [] (placed_none top Ht) isr_syscall_code _ _ _ (syscall_runs top ss0 cs0 handler _ _ _ _ _ _ _ _ _ _ _ _ _ _ _ _)
    (proj1 (proj2 no_iret)) Hi Hs) as (k & E & Hk & Hik).
  set (v := syscall_view ss0 cs0 handler eax ebx ecx edx edi esp cs ss pc fl) in *.
  pose proof (inside_esp top 0 [] v k Hik Hk) as Ksp. change (depth v) with 48 in Ksp.
  assert (forall n ws, (forall i w, ws !! i = Some w -> v_stack v !! (n + i)%nat = Some (Word w)) ->
    words_at k (top - 48 + 4 * Z.of_nat n) ws) as Kst by (intros n ws; exact (words_at_stack top 0 [] k v n ws Hk)).
  exists k. split; [exact E|]. split.
  - rewrite Ksp, <- (Z.add_0_r (top - 48)). apply (Kst 0%nat). intros i w Hiw.
    do 7 (destruct i as [|i]; [by injection Hiw as <-|]). done.
  - intros k' result (L & (ecx' & edx' & G) & M).
    assert (forall r x, vr_get r v = Some x -> r_get r k = den top 0 x) as Kr by (intros r x Hx; by apply (vr_get_ok top 0 [] r v x k)).
    rewrite (Kr EBX (Word ebx)), (Kr EDI (Word edi)), (Kr ESI (Word pc)), (Kr EBP (Stack 20)), Ksp in G by done. cbn [den] in G.
    destruct (syscall_return_run top k' result ebx ecx' edx' edi pc pc cs fl esp ss Ht G L) as (u' & E' & G' & S' & I' & F').
    + intros i w Hiw. rewrite M by lia. replace (top - 20) with (top - 48 + 4 * Z.of_nat 7) by lia.
      revert Hiw. apply (Kst 7%nat). intros j w' Hj. do 5 (destruct j as [|j]; [by injection Hj as <-|]). done.
    + exists u', (set_low16 ecx' 0x23), edx'. split; [exact E'|]. rewrite !low16_id in S' by done. by split.
Qed.

Lemma syscall_call_return_witness : exists k,
  run isr_syscall_code (interrupt 0x10000 0x10 8 0xC0001000 demo_user) = Ret k /\
  words_at k (r_get ESP k) [1; 2; 3; 4; 0x400010; 0xBFFFFF00; 0x3202].
Proof.
  destruct (syscall_call_return 0x10000 0x10 8 0xC0001000 demo_user 1 2 3 4 5 6 7 0xBFFFFF00 0x1B 0x23 0x23 0x23 0x23 0x23 0x400010 0x3202
    ltac:(lia) ltac:(lia) ltac:(lia) demo_user_state)
    as (k & E & W & _).
  exists k. split; [exact E|exact W].
Defined.
