(* ===== verification/Start.v ===== *)
(** The first instructions of the kernel (src/x86/entry.S): the header the boot
    loader looks for and [_start], which turns paging on and calls
    [x86_startup] at the kernel's linear addresses.

    [_start] runs with paging off until [start_paging] returns, at the physical
    addresses of code that is linked elsewhere; from then on every fetch and every access
    goes through the tables.  The linker's addresses are parameters, [text_at i]
    the one of instruction [i]; the bases are the numbers of linker.ld.  What
    the C function leaves on the stack below its arguments is left out. *)
From S2P Require Import Entry.
From S2P Require Import Prelude Status Paging EarlyBoot.

Definition VIRTUAL_BASE : Z := 0xFF400000.
Definition PHYSICAL_BASE : Z := 0x100000.
Definition BASE_DIFF : Z := VIRTUAL_BASE - PHYSICAL_BASE.

(** * The header *)
Section header.
Context (LOAD_START LOAD_END BSS_END entry_paddr : Z).

Definition magic : Z := 0xE85250D6.
Definition arch : Z := 0.
Definition headerLength : Z := 104.
Definition checksum : Z := u32 (- (magic + arch + headerLength)).

(** Two 16-bit fields in a word. *)
Definition shorts (a b : Z) : Z := a + 2 ^ 16 * b.

(** The section, as words; a zero fills up to an address divisible by 8. *)
Definition multiboot_header : list Z :=
  [magic; arch; headerLength; checksum;
   shorts 1 0; 32; 1; 2; 3; 4; 5; 6;
   shorts 2 0; 24; LOAD_START; LOAD_START; LOAD_END; BSS_END;
   shorts 3 0; 12; entry_paddr; 0;
   shorts 6 0; 8;
   0; 8].
End header.

(** ** What a boot loader reads in it

    A tag is a type, flags, a size and its contents; the next one is at the next
    address divisible by 8.  A tag of type 0 and size 8 is the last. *)
Fixpoint header_tags (n : nat) (l : list Z) : option (list (Z * Z * list Z)) :=
  match n, l with
  | S n, w :: size :: l =>
    if (w =? 0) && (size =? 8) then (if bool_decide (l = []) then Some [] else None)
    else
      let words := Z.to_nat (2 * ((size + 7) / 8)) in
      tags ← header_tags n (drop (words - 2) l);
      Some ((w mod 2 ^ 16, w / 2 ^ 16, take (Z.to_nat ((size - 8) / 4)) l) :: tags)
  | _, _ => None
  end.

(** The header is found and accepted: the first four words add up to nothing, the
    length is its own, and no tag is optional.  It asks for all the information
    Multiboot.v reads, loads the image where the linker put it, enters [_start]
    and has the modules aligned to pages. *)
Lemma multiboot_header_ok LOAD_START LOAD_END BSS_END entry_paddr :
  let h := multiboot_header LOAD_START LOAD_END BSS_END entry_paddr in
  u32 (magic + arch + headerLength + checksum) = 0 /\ 4 * Z.of_nat (length h) = headerLength /\
  header_tags 10 (drop 4 h) = Some [(1, 0, [1; 2; 3; 4; 5; 6]); (2, 0, [LOAD_START; LOAD_START; LOAD_END; BSS_END]);
    (3, 0, [entry_paddr]); (6, 0, [])].
Proof. by repeat split. Qed.

(** * [_start] *)
Section start.
Context (stack_top default_page_dir default_page_table identity_map start_paging_at : Z) (text_at : nat -> Z).

(** [JmpR r l] is a jump through a register, which must hold the linked address of [l]. *)
Inductive start_instr :=
  | Cli
  | CmpI (n : Z) (r : reg)
  | Jne (l : nat) | Jl (l : nat) | Jge (l : nat) | Jmp (l : nat)
  | MovI (n : Z) (r : reg)
  | SubI (n : Z) (r : reg)
  | AddI (n : Z) (r : reg)
  | Add (src dst : reg)
  | Load (base dst : reg)
  | Push (r : reg)
  | CallR (r : reg)
  | JmpR (r : reg) (l : nat)
  | ReadCr3 (r : reg) | WriteCr3 (r : reg)
  | CallStartup
  | Hlt.

(** Labels: 1, .err and 2. *)
Definition mapped : nat := 26.
Definition err : nat := 36.
Definition stop : nat := 37.

Definition start_code : list start_instr :=
  [Cli; CmpI 0x36d76289 EAX; Jne err;
   MovI stack_top ESP; SubI BASE_DIFF ESP;
   MovI identity_map EAX; SubI BASE_DIFF EAX; Push EAX;
   MovI default_page_table EAX; SubI BASE_DIFF EAX; Push EAX;
   MovI default_page_dir EAX; SubI BASE_DIFF EAX; Push EAX;
   Load EBX EAX; Add EBX EAX; Push EAX;
   MovI PHYSICAL_BASE EAX; Push EAX;
   MovI VIRTUAL_BASE EAX; Push EAX;
   MovI start_paging_at EAX; SubI BASE_DIFF EAX; CallR EAX;
   MovI (text_at mapped) EAX; JmpR EAX mapped;
   ReadCr3 EAX; WriteCr3 EAX;
   MovI stack_top ESP;
   AddI BASE_DIFF EBX; CmpI VIRTUAL_BASE EBX; Jl err; CmpI 0xFFC00000 EBX; Jge err;
   Push EBX; CallStartup;
   Cli; Hlt; Jmp stop].

(** The processor: the general registers in the order of Entry.v, the memory with
    cr3, whether paging is on, whether the code runs where it is linked, and
    the operands of the last comparison. *)
Record start_cpu := StartCpu { regs : list Z; space : mmu; paging : bool; linked : bool; compared : Z * Z }.
Definition get (r : reg) (s : start_cpu) : Z := nth (rn r) (regs s) 0.
Definition set (r : reg) (w : Z) (s : start_cpu) : start_cpu :=
  StartCpu (<[rn r:=w]> (regs s)) (space s) (paging s) (linked s) (compared s).
Definition with_space (m : mmu) (s : start_cpu) : start_cpu := StartCpu (regs s) m (paging s) (linked s) (compared s).
Definition with_compared (a b : Z) (s : start_cpu) : start_cpu := StartCpu (regs s) (space s) (paging s) (linked s) (a, b).

Definition load (a : Z) (s : start_cpu) : outcome Z :=
  if paging s then '(w, _) ← read32 a (space s); Ret w else Ret (pget (phys (space s)) a).
Definition store (a w : Z) (s : start_cpu) : outcome start_cpu :=
  if paging s then '(_, m) ← write32 a w (space s); Ret (with_space m s)
  else Ret (with_space (Mmu (pset (phys (space s)) a w) (cr3 (space s))) s).
Definition push (w : Z) (s : start_cpu) : outcome start_cpu :=
  let a := u32 (get ESP s - 4) in store a w (set ESP a s).

(** Where instruction [i] is fetched from, and whether it is found there. *)
Definition fetch_at (i : nat) (s : start_cpu) : Z := if linked s then text_at i else u32 (text_at i - BASE_DIFF).
Definition fetched (i : nat) (s : start_cpu) : bool :=
  if paging s then bool_decide (translate (space s) false (fetch_at i s) = Some (u32 (text_at i - BASE_DIFF))) else negb (linked s).

(** The call of [start_paging], with paging off; it returns to the address on the
    stack, with paging on. *)
Definition call_start_paging (i : nat) (s : start_cpu) : outcome start_cpu :=
  if paging s then Fault else
  s ← push (fetch_at (S i) s) s;
  let arg n := load (u32 (get ESP s + 4 * n)) s in
  linear_addr ← arg 1; start ← arg 2; stop ← arg 3; directory ← arg 4; table ← arg 5; identity ← arg 6;
  let '(m, count) := start_paging linear_addr start stop directory table identity (phys (space s)) in
  let s := StartCpu (<[rn EAX:=count]> (regs s)) m true (linked s) (compared s) in
  ret ← load (get ESP s) s;
  if ret =? fetch_at (S i) s then Ret (set ESP (u32 (get ESP s + 4)) s) else Fault.

(** How [_start] ends: in the call of [x86_startup], which does not return, with
    the word on top of the stack, or halted. *)
Inductive start_end := Startup (multiboot_info : Z) (s : start_cpu) | Halted (s : start_cpu).

Fixpoint run_start (fuel i : nat) (s : start_cpu) : outcome start_end :=
  match fuel with
  | O => OutOfFuel
  | S fuel =>
    if negb (fetched i s) then Fault else
    let next s := run_start fuel (S i) s in
    let jump (b : bool) l := if b then run_start fuel l s else next s in
    match start_code !! i with
    | None => Fault
    | Some Cli => next s
    | Some (CmpI n r) => next (with_compared (get r s) n s)
    | Some (Jne l) => jump (negb ((compared s).1 =? (compared s).2)) l
    | Some (Jl l) => jump (s32 (compared s).1 <? s32 (compared s).2) l
    | Some (Jge l) => jump (s32 (compared s).2 <=? s32 (compared s).1) l
    | Some (Jmp l) => jump true l
    | Some (MovI n r) => next (set r n s)
    | Some (SubI n r) => next (set r (u32 (get r s - n)) s)
    | Some (AddI n r) => next (set r (u32 (get r s + n)) s)
    | Some (Add a b) => next (set b (u32 (get b s + get a s)) s)
    | Some (Load b r) => w ← load (get b s) s; next (set r w s)
    | Some (Push r) => s ← push (get r s) s; next s
    | Some (CallR r) =>
      if get r s =? u32 (start_paging_at - BASE_DIFF) then s ← call_start_paging i s; next s else Fault
    | Some (JmpR r l) =>
      if get r s =? text_at l then run_start fuel l (StartCpu (regs s) (space s) (paging s) true (compared s)) else Fault
    | Some (ReadCr3 r) => next (set r (cr3 (space s)) s)
    | Some (WriteCr3 r) => next (with_space (Mmu (phys (space s)) (get r s)) s)
    | Some CallStartup => w ← load (get ESP s) s; Ret (Startup w s)
    | Some Hlt => Ret (Halted s)
    end
  end.
End start.

(** * Theory *)

(** Words outside the tables may change. *)
Lemma empty_tables_pset m directory table identity a w : empty_tables m directory table identity ->
  (forall i, 0 <= i < 1024 -> a <> table + 4 * i /\ a <> identity + 4 * i /\ a <> directory + 4 * i) ->
  empty_tables (pset m a w) directory table identity.
Proof.
  intros [E1 E2 E3] Ha. split; [done|done|]. intros f i Hf Hi. rewrite pget_pset, decide_False; [by apply E3|].
  specialize (Ha i Hi). rewrite !elem_of_cons, elem_of_nil in Hf. destruct Hf as [->|[->|[->|[]]]]; tauto.
Qed.

Lemma boot_tables_poke linear start stop directory table identity m s a w :
  boot_tables linear start stop directory table identity m s ->
  (forall i, 0 <= i < 1024 -> a <> table + 4 * i /\ a <> identity + 4 * i /\ a <> directory + 4 * i) ->
  boot_tables linear start stop directory table identity (pset m a w) (poke s a w).
Proof.
  intros [B1 B2 B3 B4 B5] Ha.
  assert (forall b, pget (phys (poke s a w)) b = if decide (a = b) then w else pget (phys s) b) as P by (intros b; apply (pget_pset (phys s))).
  split; [done|..].
  - intros i Hi. rewrite <- B2 by done. unfold pde. rewrite P. change (cr3 (poke s a w)) with (cr3 s). rewrite B1, decide_False; [done|].
    apply Ha, Hi.
  - intros i Hi. rewrite <- B3 by done. rewrite P, decide_False; [done|]. apply Ha, Hi.
  - intros i Hi. rewrite <- B4 by done. rewrite P, decide_False; [done|]. apply Ha, Hi.
  - intros b Hb. rewrite P, pget_pset. case_decide; [done|]. by apply B5.
Qed.

Section theory.
Context (stack_top default_page_dir default_page_table identity_map start_paging_at : Z) (text_at : nat -> Z).
Context (info total : Z).
#[local] Abbreviation start_run := (run_start stack_top default_page_dir default_page_table identity_map start_paging_at text_at).

(** Where the linker puts things: the stack below the three tables, at the end of
    an image that starts at [VIRTUAL_BASE]. *)
Record linked_image : Prop := {
  li_tables : default_page_dir mod 4096 = 0 /\ default_page_table = default_page_dir + 4096 /\ identity_map = default_page_dir + 8192;
  li_stack : VIRTUAL_BASE + 28 <= stack_top <= default_page_dir;
  li_text : forall i, (i < 39)%nat -> VIRTUAL_BASE <= text_at i < identity_map + 4096
}.

(** The boot loader's table after the image, in the first 4 MiB. *)
Definition table_above : Prop := identity_map + 4096 - BASE_DIFF <= info /\ 0 <= total /\ info + total <= 4194304.

Context (Hl : linked_image) (Ht : table_above).
#[local] Abbreviation directory := (default_page_dir - BASE_DIFF).
#[local] Abbreviation table := (default_page_table - BASE_DIFF).
#[local] Abbreviation identity := (identity_map - BASE_DIFF).
#[local] Abbreviation top := (stack_top - BASE_DIFF).
#[local] Abbreviation tables := (boot_tables VIRTUAL_BASE PHYSICAL_BASE (info + total) directory table identity).

(** The words [_start] pushes for [start_paging]. *)
Definition call_words (m : gmap Z Z) : gmap Z Z :=
  pset (pset (pset (pset (pset (pset (pset m (top - 4) identity) (top - 8) table) (top - 12) directory)
    (top - 16) (info + total)) (top - 20) PHYSICAL_BASE) (top - 24) VIRTUAL_BASE) (top - 28) (text_at 24 - BASE_DIFF).

Lemma numbers : BASE_DIFF = 0xFF300000 /\ PHYSICAL_BASE = 0x100000 /\ VIRTUAL_BASE = 0xFF400000.
Proof. done. Qed.

Lemma stack_apart a : PHYSICAL_BASE <= a < top -> forall i, 0 <= i < 1024 ->
  a <> table + 4 * i /\ a <> identity + 4 * i /\ a <> directory + 4 * i.
Proof. destruct Hl as [(_ & -> & ->) ? _]. intros. lia. Qed.

(** The code and the stack as the tables show them, at both addresses. *)
Lemma seen_at m s a write : empty_tables m directory table identity -> tables m s -> PHYSICAL_BASE <= a < info ->
  translate s write a = Some a /\ translate s write (a + BASE_DIFF) = Some a.
Proof.
  intros He B Ha. destruct numbers as (N1 & N2 & N3). destruct Hl as [(A & -> & ->) ? _], Ht as (T1 & T2 & T3). rewrite N1 in *.
  pose proof (boot_pages_bound PHYSICAL_BASE (info + total) ltac:(lia) ltac:(done) ltac:(lia)) as (P1 & P2 & P3).
  assert (forall va, is_u32 va -> dir_index va < 1023 -> translate s write va = boot_translation VIRTUAL_BASE PHYSICAL_BASE (info + total) va) as T.
  { intros va. apply (boot_translate VIRTUAL_BASE PHYSICAL_BASE (info + total) _ _ _ m He ltac:(lia) ltac:(done) ltac:(lia) ltac:(by split) s B). }
  unfold is_u32 in T. rewrite !T by (rewrite ?dir_index_div; Z.div_mod_to_equations; lia).
  unfold boot_translation, image_base. change (4194304 * dir_index VIRTUAL_BASE) with VIRTUAL_BASE.
  split; [rewrite decide_True by lia; done|]. rewrite decide_False, decide_True by lia. f_equal. lia.
Qed.

(** One instruction. *)
Lemma run_start_S fuel i s : start_run (S fuel) i s =
  if negb (fetched text_at i s) then Fault else
  let next s := start_run fuel (S i) s in
  let jump (b : bool) l := if b then start_run fuel l s else next s in
  match start_code stack_top default_page_dir default_page_table identity_map start_paging_at text_at !! i with
  | None => Fault
  | Some Cli => next s
  | Some (CmpI n r) => next (with_compared (get r s) n s)
  | Some (Jne l) => jump (negb ((compared s).1 =? (compared s).2)) l
  | Some (Jl l) => jump (s32 (compared s).1 <? s32 (compared s).2) l
  | Some (Jge l) => jump (s32 (compared s).2 <=? s32 (compared s).1) l
  | Some (Jmp l) => jump true l
  | Some (MovI n r) => next (set r n s)
  | Some (SubI n r) => next (set r (u32 (get r s - n)) s)
  | Some (AddI n r) => next (set r (u32 (get r s + n)) s)
  | Some (Add a b) => next (set b (u32 (get b s + get a s)) s)
  | Some (Load b r) => w ← load (get b s) s; next (set r w s)
  | Some (Push r) => s ← push (get r s) s; next s
  | Some (CallR r) => if get r s =? u32 (start_paging_at - BASE_DIFF) then s ← call_start_paging text_at i s; next s else Fault
  | Some (JmpR r l) =>
    if get r s =? text_at l then start_run fuel l (StartCpu (regs s) (space s) (paging s) true (compared s)) else Fault
  | Some (ReadCr3 r) => next (set r (cr3 (space s)) s)
  | Some (WriteCr3 r) => next (with_space (Mmu (phys (space s)) (get r s)) s)
  | Some CallStartup => w ← load (get ESP s) s; Ret (Startup w s)
  | Some Hlt => Ret (Halted s)
  end.
Proof. reflexivity. Qed.

(** Runs the next instruction, which is at a known place. *)
Ltac next_instr := rewrite run_start_S;
  lazy beta iota zeta delta [fetched paging linked negb start_code mapped err stop lookup list_lookup with_compared get set regs rn nth insert list_insert with_space
    space compared load store push mbind outcome_mbind outcome_bind fst snd phys cr3].

Lemma physical a : VIRTUAL_BASE <= a < identity_map + 4096 -> u32 (a - BASE_DIFF) = a - BASE_DIFF.
Proof. intros Ha. destruct numbers as (N1 & N2 & N3). destruct Ht. apply u32_id. unfold is_u32. lia. Qed.

Lemma physical_push a n : VIRTUAL_BASE + n <= a < identity_map + 4096 -> 0 <= n -> u32 (a - BASE_DIFF - n) = a - BASE_DIFF - n.
Proof. intros Ha Hn. destruct numbers as (N1 & N2 & N3). destruct Ht. apply u32_id. unfold is_u32. lia. Qed.

(** The arithmetic that does not wrap. *)
Ltac narrow :=
  repeat match goal with |- context [u32 ?e] =>
    lazymatch e with context [u32 _] => fail | context [start_paging_at] => fail | _ => rewrite (u32_id e) by (unfold is_u32; lia) end
  end.

(** From the reset of the stack to the call. *)
Lemma start_pushes fuel m c0 cmp r1 r2 r3 r4 r5 r6 : pget m info = total ->
  start_run (24 + fuel) 0 (StartCpu [0x36d76289; info; r1; r2; r3; r4; r5; r6] (Mmu m c0) false false cmp) =
  start_run (1 + fuel) 23 (StartCpu [u32 (start_paging_at - BASE_DIFF); info; r1; r2; r3; r4; r5; top - 24]
    (Mmu (pset (pset (pset (pset (pset (pset m (top - 4) identity) (top - 8) table) (top - 12) directory)
       (top - 16) (info + total)) (top - 20) PHYSICAL_BASE) (top - 24) VIRTUAL_BASE) c0) false false (0x36d76289, 0x36d76289)).
Proof.
  intros Hm. destruct numbers as (N1 & N2 & N3). destruct Hl as [(_ & T1 & T2) Hstk _]. destruct Ht as (T3 & T4 & T5).
  cbn [Nat.add].
  do 3 next_instr. change (0x36d76289 =? 0x36d76289) with true. cbv iota. do 20 next_instr.
  narrow. rewrite !pget_pset, !decide_False, Hm by lia. narrow.
  by replace (top - 4 - 4) with (top - 8) by lia; replace (top - 8 - 4) with (top - 12) by lia; replace (top - 12 - 4) with (top - 16) by lia;
    replace (top - 16 - 4) with (top - 20) by lia; replace (top - 20 - 4) with (top - 24) by lia; rewrite (Z.add_comm total info).
Qed.

Lemma call_words_tables m : empty_tables m directory table identity -> empty_tables (call_words m) directory table identity.
Proof.
  intros He. destruct numbers as (N1 & N2 & N3). pose proof (li_stack Hl). unfold call_words.
  repeat (apply empty_tables_pset; [|apply stack_apart; lia]). exact He.
Qed.

#[local] Abbreviation built m := (start_paging VIRTUAL_BASE PHYSICAL_BASE (info + total) directory table identity (call_words m)).

Lemma built_tables m : empty_tables m directory table identity -> tables (call_words m) (built m).1.
Proof.
  intros He. destruct numbers as (N1 & N2 & N3). destruct Hl as [(_ & T1 & T2) Hstk _]. destruct Ht as (T3 & T4 & T5).
  apply (start_paging_tables VIRTUAL_BASE PHYSICAL_BASE (info + total) _ _ _ (call_words m) (call_words_tables m He)); [lia|done|lia|by split].
Qed.

(** The call builds the tables and comes back. *)
Lemma start_call m c0 cmp r0 r1 r2 r3 r4 r5 : empty_tables m directory table identity ->
  call_start_paging text_at 23 (StartCpu [r0; info; r1; r2; r3; r4; r5; top - 24]
    (Mmu (pset (pset (pset (pset (pset (pset m (top - 4) identity) (top - 8) table) (top - 12) directory)
       (top - 16) (info + total)) (top - 20) PHYSICAL_BASE) (top - 24) VIRTUAL_BASE) c0) false false cmp) =
  Ret (StartCpu [(built m).2; info; r1; r2; r3; r4; r5; top - 24] (built m).1 true false cmp).
Proof.
  intros He. pose proof (built_tables m He) as B. destruct (built m) as [s n] eqn:Eb. cbn [fst snd] in *.
  destruct numbers as (N1 & N2 & N3). destruct Hl as [(_ & T1 & T2) Hstk Htx]. destruct Ht as (T3 & T4 & T5).
  assert (u32 (text_at 24 - BASE_DIFF) = text_at 24 - BASE_DIFF) as Ec by (apply physical, Htx; lia).
  unfold call_start_paging.
  lazy beta iota zeta delta [fetch_at paging linked get set regs rn nth insert list_insert with_space
    space compared load store push mbind outcome_mbind outcome_bind fst snd phys cr3].
  rewrite Ec. narrow. replace (top - 24 - 4) with (top - 28) by lia. fold (call_words m). narrow.
  assert (pget (call_words m) (top - 28) = text_at 24 - BASE_DIFF /\ pget (call_words m) (top - 24) = VIRTUAL_BASE /\
    pget (call_words m) (top - 20) = PHYSICAL_BASE /\ pget (call_words m) (top - 16) = info + total /\
    pget (call_words m) (top - 12) = directory /\ pget (call_words m) (top - 8) = table /\ pget (call_words m) (top - 4) = identity)
    as (W0 & W1 & W2 & W3 & W4 & W5 & W6).
  { unfold call_words. repeat split; rewrite !pget_pset; repeat (rewrite decide_False by lia); by rewrite decide_True by lia. }
  replace (top - 28 + 4 * 1) with (top - 24) by lia. replace (top - 28 + 4 * 2) with (top - 20) by lia.
  replace (top - 28 + 4 * 3) with (top - 16) by lia. replace (top - 28 + 4 * 4) with (top - 12) by lia.
  replace (top - 28 + 4 * 5) with (top - 8) by lia. replace (top - 28 + 4 * 6) with (top - 4) by lia.
  rewrite W1, W2, W3, W4, W5, W6, Eb. cbv iota. unfold read32.
  destruct (seen_at (call_words m) s (top - 28) false) as [-> _]; [by apply call_words_tables|done|lia|].
  cbn [of_option]. ostep. rewrite (bs_other _ _ _ _ _ _ _ _ B) by (apply stack_apart; lia). rewrite W0, Z.eqb_refl.
  by replace (top - 28 + 4) with (top - 24) by lia.
Qed.

(** In the linked code with the tables of [s]. *)
Lemma fetched_ok m s i r b c : empty_tables m directory table identity -> tables m s -> (i < 39)%nat ->
  fetched text_at i (StartCpu r s true b c) = true.
Proof.
  intros He B Hi. pose proof (li_text Hl i Hi) as Hx. destruct numbers as (N1 & N2 & N3). destruct Ht as (T3 & T4 & T5).
  destruct (seen_at m s (text_at i - BASE_DIFF) false He B) as [S1 S2]; [lia|].
  unfold fetched, fetch_at. cbn [paging linked space]. rewrite physical by lia. apply bool_decide_eq_true_2.
  destruct b; [|exact S1]. rewrite <- S2. f_equal. lia.
Qed.

(** The state of the call of [x86_startup]. *)
Definition handed m : gmap Z Z := pset (call_words m) (top - 4) (info + BASE_DIFF).
Definition space_handed m : mmu := poke (built m).1 (top - 4) (info + BASE_DIFF).

Lemma handed_tables m : empty_tables m directory table identity ->
  empty_tables (handed m) directory table identity /\ tables (handed m) (space_handed m).
Proof.
  intros He. destruct numbers as (N1 & N2 & N3). pose proof (li_stack Hl). split.
  - apply empty_tables_pset; [by apply call_words_tables|apply stack_apart; lia].
  - apply boot_tables_poke; [by apply built_tables|apply stack_apart; lia].
Qed.

(** Of the rest of memory nothing has changed. *)
Lemma handed_words m a : empty_tables m directory table identity -> ~ top - 28 <= a < top -> ~ directory <= a < identity + 4096 ->
  pget (phys (space_handed m)) a = pget m a.
Proof.
  intros He Ha Hb. destruct (handed_tables m He) as [_ B']. pose proof (li_tables Hl) as (_ & T1 & T2). pose proof (li_stack Hl).
  destruct numbers as (N1 & N2 & N3). rewrite (bs_other _ _ _ _ _ _ _ _ B') by (intros; lia).
  unfold handed, call_words. rewrite !pget_pset. by rewrite !decide_False by lia.
Qed.

(** The next instruction, fetched by [F]. *)
Ltac next_mapped F := rewrite run_start_S, F by lia;
  lazy beta iota zeta delta [negb paging linked start_code mapped err stop lookup list_lookup with_compared get set regs rn nth insert list_insert
    with_space space compared fst snd phys cr3].

(** With paging on, up to the call. *)
Lemma start_linked fuel m r0 r1 r2 r3 r4 r5 cmp : empty_tables m directory table identity ->
  exists r0', start_run (12 + fuel) 24 (StartCpu [r0; info; r1; r2; r3; r4; r5; top - 24] (built m).1 true false cmp) =
  Ret (Startup (info + BASE_DIFF) (StartCpu [r0'; info + BASE_DIFF; r1; r2; r3; r4; r5; stack_top - 4] (space_handed m) true true
    (info + BASE_DIFF, 0xFFC00000))).
Proof.
  intros He. pose proof (built_tables m He) as B. destruct (handed_tables m He) as [He' B']. unfold space_handed in *.
  destruct (built m) as [s n] eqn:Eb. cbn [fst snd] in *.
  destruct numbers as (N1 & N2 & N3). destruct Hl as [(_ & T1 & T2) Hstk Htx]. destruct Ht as (T3 & T4 & T5).
  pose proof (call_words_tables m He) as Hc. destruct s as [P c3].
  assert (forall i r b c, (i < 39)%nat -> fetched text_at i (StartCpu r (Mmu P c3) true b c) = true) as F1
    by (intros; by apply (fetched_ok (call_words m))).
  assert (forall i r b c, (i < 39)%nat -> fetched text_at i (StartCpu r (poke (Mmu P c3) (top - 4) (info + BASE_DIFF)) true b c) = true) as F2
    by (intros; by apply (fetched_ok (handed m))).
  assert (u32 (info + BASE_DIFF) = info + BASE_DIFF) as Eu by (apply u32_id; unfold is_u32; lia).
  assert (forall z, 0x80000000 <= z < 2 ^ 32 -> s32 z = z - 2 ^ 32) as Es by (unfold s32; intros; Z.div_mod_to_equations; lia).
  cbn [Nat.add]. do 2 next_mapped F1. rewrite Z.eqb_refl. do 5 next_mapped F1. rewrite Eu. next_mapped F1.
  rewrite !Es, (proj2 (Z.ltb_ge _ _)) by lia. do 2 next_mapped F1. rewrite !Es, (proj2 (Z.leb_gt _ _)) by lia. next_mapped F1.
  unfold push, store.
  lazy beta iota zeta delta [paging get set regs rn nth insert list_insert space]. rewrite u32_id by (unfold is_u32; lia). unfold write32.
  destruct (seen_at (call_words m) (Mmu P c3) (top - 4) true Hc B) as [_ S2]; [lia|].
  replace (top - 4 + BASE_DIFF) with (stack_top - 4) in S2 by lia. rewrite S2. cbn [of_option]. ostep.
  unfold with_space. cbn [phys cr3 regs space paging linked compared]. change (Mmu (<[top - 4:=info + BASE_DIFF]> P) c3) with (poke (Mmu P c3) (top - 4) (info + BASE_DIFF)).
  destruct (seen_at (handed m) _ (top - 4) false He' B') as [_ S3]; [lia|].
  replace (top - 4 + BASE_DIFF) with (stack_top - 4) in S3 by lia.
  next_mapped F2. unfold load. lazy beta iota zeta delta [paging get rn nth regs space]. unfold read32. rewrite S3. cbn [of_option]. ostep.
  rewrite pget_poke. by exists c3.
Qed.

(** Both parts together. *)
Lemma start_run_ok fuel m c0 cmp rs : length rs = 6%nat -> empty_tables m directory table identity -> pget m info = total ->
  exists s', start_run (36 + fuel) 0 (StartCpu (0x36d76289 :: info :: rs) (Mmu m c0) false false cmp) = Ret (Startup (info + BASE_DIFF) s') /\
    get ESP s' = stack_top - 4 /\ paging s' = true /\ linked s' = true /\ space s' = space_handed m.
Proof.
  intros Hr He Hm. do 6 (destruct rs as [|? rs]; [discriminate|]). destruct rs; [|discriminate].
  change (36 + fuel)%nat with (24 + (12 + fuel))%nat. rewrite start_pushes by exact Hm. change (1 + (12 + fuel))%nat with (S (12 + fuel)).
  rewrite run_start_S. unfold fetched. cbn [paging linked negb start_code lookup list_lookup].
  cbn [get regs rn nth]. rewrite Z.eqb_refl, start_call by exact He. ostep.
  destruct (start_linked fuel m (built m).2 z z0 z1 z2 z3 (0x36d76289, 0x36d76289) He) as (r0' & ->). by eexists.
Qed.

(** Any other boot loader. *)
Lemma start_refuses fuel s : paging s = false -> linked s = false -> get EAX s <> 0x36d76289 ->
  exists s', start_run (5 + fuel) 0 s = Ret (Halted s') /\ space s' = space s /\ paging s' = false.
Proof.
  intros Hp Hk Hne. destruct s as [r m p b c]. cbn [paging linked] in Hp, Hk. subst p b.
  assert (exists x, x <> 0x36d76289 /\ get EAX (StartCpu r m false false c) = x) as (x & Hx & Ex) by eauto. unfold get in Ex. cbn [rn regs] in Ex.
  destruct r as [|y r]; cbn [nth] in Ex; subst x; clear Hne; rename Hx into Hne.
  all: change (5 + fuel)%nat with (S (S (S (S (S fuel))))); do 3 next_instr; rewrite (proj2 (Z.eqb_neq _ _) Hne); cbv iota;
    do 2 next_instr; by eexists.
Qed.
End theory.

(** * A machine *)

(** The kernel at its addresses, 13 pages with the stack and the tables at the end,
    and a boot table of 96 bytes at [info]. *)
Definition demo_text (i : nat) : Z := 0xFF401000 + 4 * Z.of_nat i.
Definition demo_registers (eax info : Z) : list Z := [eax; info; 0; 0; 0; 0; 0; 0].
Definition demo_start (eax info total : Z) : outcome start_end :=
  run_start 0xFF40A000 0xFF40A000 0xFF40B000 0xFF40C000 0xFF402000 demo_text 36 0
    (StartCpu (demo_registers eax info) (Mmu {[info := total]} 0) false false (0, 0)).

Example labels : forall a b c d e, (fun l => start_code a b c d e demo_text !! l) <$> [mapped; err; stop] =
  [Some (ReadCr3 EAX); Some Cli; Some Hlt].
Proof. by vm_compute. Qed.

(** Without the boot loader's number in eax it halts; with it, [x86_startup] gets
    the table's linear address. *)
Example starts : match demo_start 0x36d76289 0x10D000 96 with
  | Ret (Startup info s) => info = 0xFF40D000 /\ get ESP s = 0xFF409FFC /\ translate (space s) true 0xFF40D000 = Some 0x10D000
  | _ => False
  end.
Proof. by vm_compute. Qed.

Example other_loader : match demo_start 0x2BADB002 0x10D000 96 with Ret (Halted s) => paging s = false | _ => False end.
Proof. by vm_compute. Qed.

(** A boot table below the kernel, which the boot loader may choose: the tables are
    built up to its end, so nothing of the kernel is mapped when paging goes on
    and the return from [start_paging] is lost. *)
Example low_boot_table : demo_start 0x36d76289 0x9000 96 = Fault.
Proof. by vm_compute. Qed.

(** * Properties *)

(** C19: [_start], from the state the boot loader leaves, with the boot table after the
    image and in the first 4 MiB: it ends in the call of [x86_startup] with the
    table's linear address on top of the kernel's stack, running at the linked
    addresses with paging on.  The tables are a well-formed space in which the
    image and the table are seen at their physical and at their linear
    addresses, and nothing else; of the memory, only the tables and the top of the
    stack have changed.  If eax does not have the boot loader's number it halts with
    the memory as it was. *)
Theorem start_spec stack_top default_page_dir default_page_table identity_map start_paging_at text_at info total m c0 cmp eax rs :
  let identity := identity_map - BASE_DIFF in
  let directory := default_page_dir - BASE_DIFF in
  let from := StartCpu (eax :: info :: rs) (Mmu m c0) false false cmp in
  linked_image stack_top default_page_dir default_page_table identity_map text_at -> table_above identity_map info total ->
  empty_tables m directory (directory + 4096) identity -> pget m info = total -> length rs = 6%nat ->
  if eax =? 0x36d76289 then
    exists s', run_start stack_top default_page_dir default_page_table identity_map start_paging_at text_at 36 0 from =
        Ret (Startup (info + BASE_DIFF) s') /\
      get ESP s' = stack_top - 4 /\ paging s' = true /\ linked s' = true /\ load (stack_top - 4) s' = Ret (info + BASE_DIFF) /\
      wf_space (space s') /\ cr3 (space s') = directory /\
      (forall va write, is_u32 va -> dir_index va < 1023 -> translate (space s') write va =
        boot_translation VIRTUAL_BASE PHYSICAL_BASE (info + total) va) /\
      (forall a, ~ stack_top - BASE_DIFF - 28 <= a < stack_top - BASE_DIFF -> ~ directory <= a < identity + 4096 ->
        pget (phys (space s')) a = pget m a)
  else
    exists s', run_start stack_top default_page_dir default_page_table identity_map start_paging_at text_at 36 0 from = Ret (Halted s') /\
      space s' = Mmu m c0 /\ paging s' = false.
Proof.
  intros identity directory from Hl Ht He Hm Hr. destruct (Z.eqb_spec eax 0x36d76289) as [->|Hne];
    [|by apply (start_refuses _ _ _ _ _ _ 31)].
  pose proof Hl as [(_ & T1 & T2) Hstk _]. pose proof Ht as (T3 & T4 & T5). destruct numbers as (N1 & N2 & N3).
  replace (directory + 4096) with (default_page_table - BASE_DIFF) in He by (unfold directory; lia).
  destruct (start_run_ok _ _ _ _ start_paging_at _ _ _ Hl Ht 0 m c0 cmp rs Hr He Hm) as (s' & E & S1 & S2 & S3 & S4).
  destruct (handed_tables _ _ _ _ _ _ _ Hl Ht m He) as [He' B'].
  exists s'. split; [exact E|]. do 3 (split; [assumption|]). rewrite S4. split; [|split; [|split; [|split]]].
  - unfold load. rewrite S2, S4. unfold read32.
    destruct (seen_at _ _ _ _ _ _ _ Hl Ht _ _ (stack_top - BASE_DIFF - 4) false He' B') as [_ S]; [lia|].
    replace (stack_top - BASE_DIFF - 4 + BASE_DIFF) with (stack_top - 4) in S by lia. rewrite S. cbn [of_option]. ostep.
    unfold space_handed. by rewrite pget_poke.
  - eapply (boot_wf VIRTUAL_BASE PHYSICAL_BASE (info + total) _ _ _ _ He'); [lia|by split|exact B'].
  - apply B'.
  - intros va write Hva Hd. eapply (boot_translate VIRTUAL_BASE PHYSICAL_BASE (info + total) _ _ _ _ He'); [lia|done|lia|by split|exact B'|done|done].
  - intros a Ha Hb. by apply handed_words.
Qed.

(** The machine of [demo_start]. *)
Lemma start_spec_witness : exists s', demo_start 0x36d76289 0x10D000 96 = Ret (Startup 0xFF40D000 s') /\
  translate (space s') true 0xFF40D000 = Some 0x10D000 /\ translate (space s') false 0xFF40E000 = None.
Proof.
  destruct (start_spec 0xFF40A000 0xFF40A000 0xFF40B000 0xFF40C000 0xFF402000 demo_text 0x10D000 96 {[0x10D000 := 96]} 0 (0, 0)
    0x36d76289 [0; 0; 0; 0; 0; 0]) as (s' & E & _ & _ & _ & _ & _ & _ & T & _).
  - split; [done|done|]. intros i Hi. unfold demo_text, VIRTUAL_BASE. lia.
  - done.
  - split; [by repeat constructor|done|]. intros f i Hf Hi. unfold pget. rewrite lookup_singleton_ne; [done|].
    rewrite !elem_of_cons, elem_of_nil in Hf. destruct Hf as [->|[->|[->|[]]]]; unfold BASE_DIFF, VIRTUAL_BASE, PHYSICAL_BASE; lia.
  - by vm_compute.
  - done.
  - exists s'. split; [|split].
    + exact E.
    + by rewrite T by by split.
    + by rewrite T by by split.
Defined.
