(* ===== verification/Kernel.v ===== *)
(** The kernel's objects and operations (src/kernel.c, include/kernel.h):
    processes, the scheduler, messages, ports, interrupt handlers and the
    system call table.

    Objects live in the kernel heap; each type has a store indexed by address,
    an object exists from its initialisation to its [kfree], and an access
    through NULL or a dangling pointer is [Fault].  The tables are the trees of
    AvlTree.v, the ready queue is the heap of PriorityQueue.v, the message
    queues are those of MsgQueue.v.  User memory and the page tables are behind
    the interface of Space.v.

    A call of [load_context] leaves the kernel for good: functions that may
    make it return an [exit].  The console output of [printf] is not modelled,
    the pointers its arguments read are.  [uninit] is the unknown contents of
    memory that is read before it is written. *)
From S2P Require Import Prelude Status Alloc AvlTree MsgQueue PriorityQueue Space Context.

(** [load_context(ctx)] does not return; other calls return a value. *)
Inductive exit (A : Type) := Returned (a : A) | LoadContext (ctx : Z).
Arguments Returned {A} a.
Arguments LoadContext {A} ctx.

(** The three names of the enumeration, and any other word a variable of the
    type is made to hold. *)
Inductive process_state_t := PROCESS_ACTIVE | PROCESS_REQUESTING | PROCESS_SENDING | PROCESS_UNNAMED (word : Z).
#[export] Instance process_state_eq_dec : EqDecision process_state_t.
Proof. solve_decision. Defined.

Definition state_code (s : process_state_t) : Z :=
  match s with PROCESS_ACTIVE => 0 | PROCESS_REQUESTING => 1 | PROCESS_SENDING => 2 | PROCESS_UNNAMED w => u32 w end.
(** An enumeration read back from memory: the word as it is. *)
Definition state_of_code (z : Z) : process_state_t :=
  if z =? 0 then PROCESS_ACTIVE else if z =? 1 then PROCESS_REQUESTING
  else if z =? 2 then PROCESS_SENDING else PROCESS_UNNAMED z.

Lemma state_code_of_code z : is_u32 z -> state_code (state_of_code z) = z.
Proof.
  intros Hz. unfold state_of_code. destruct (Z.eqb_spec z 0) as [->|]; [done|].
  destruct (Z.eqb_spec z 1) as [->|]; [done|]. destruct (Z.eqb_spec z 2) as [->|]; [done|]. by apply u32_id.
Qed.

Record process_t := Process {
  pid : Z;
  priority : Z;
  page_table : Z;
  state : process_state_t;
  sending_queue : queue_t;
  message_queue : queue_t;
  message_buffer : Z;
  ctx : Z
}.

Record message_t := Message { sender : Z; code : Z; args : list Z }.
Record port_t := Port { id : Z; owner_pid : Z }.
Record signal_action_t := Action { apid : Z; func_ptr : Z; trampoline_ptr : Z; userdata : Z }.
Record syscall_t := Syscall { defined : bool; arg_count : Z; process_id : Z; syscall_ptr : Z }.

Definition sizeof_process : Z := 48.
Definition sizeof_message : Z := 32.
Definition sizeof_port : Z := 8.
Definition sizeof_action : Z := 16.

(** A message as the eight words [memcpy] moves. *)
Definition message_words (m : message_t) : list Z := sender m :: code m :: args m.
Definition words_message (ws : list Z) : message_t :=
  match ws with s :: c :: a => Message s c a | _ => Message 0 0 [] end.

(** [struct kernel_t] *)
Record kernel_t := Kernel_ {
  syscall_table : list syscall_t;
  priority_queue : priority_queue_t;
  interrupt_handlers : avltree_t;
  port_table : avltree_t;
  process_table : avltree_t;
  active_process : Z;
  next_pid : Z
}.

Definition set_syscall_table v k := Kernel_ v (priority_queue k) (interrupt_handlers k) (port_table k) (process_table k) (active_process k) (next_pid k).
Definition set_priority_queue v k := Kernel_ (syscall_table k) v (interrupt_handlers k) (port_table k) (process_table k) (active_process k) (next_pid k).
Definition set_interrupt_handlers v k := Kernel_ (syscall_table k) (priority_queue k) v (port_table k) (process_table k) (active_process k) (next_pid k).
Definition set_port_table v k := Kernel_ (syscall_table k) (priority_queue k) (interrupt_handlers k) v (process_table k) (active_process k) (next_pid k).
Definition set_process_table v k := Kernel_ (syscall_table k) (priority_queue k) (interrupt_handlers k) (port_table k) v (active_process k) (next_pid k).
Definition set_active_process v k := Kernel_ (syscall_table k) (priority_queue k) (interrupt_handlers k) (port_table k) (process_table k) v (next_pid k).
Definition set_next_pid v k := Kernel_ (syscall_table k) (priority_queue k) (interrupt_handlers k) (port_table k) (process_table k) (active_process k) v.

(** Updates of a process. *)
Definition set_state v p := Process (pid p) (priority p) (page_table p) v (sending_queue p) (message_queue p) (message_buffer p) (ctx p).
Definition set_sending_queue v p := Process (pid p) (priority p) (page_table p) (state p) v (message_queue p) (message_buffer p) (ctx p).
Definition set_message_queue v p := Process (pid p) (priority p) (page_table p) (state p) (sending_queue p) v (message_buffer p) (ctx p).
Definition set_message_buffer v p := Process (pid p) (priority p) (page_table p) (state p) (sending_queue p) (message_queue p) v (ctx p).

(** The kernel's heap objects, by address. *)
Record objects := Objects {
  nodes : gmap Z queue_node_t;
  procs : gmap Z process_t;
  ctxs : gmap Z process_context_t;
  msgs : gmap Z message_t;
  ports : gmap Z port_t;
  actions : gmap Z signal_action_t
}.

Definition set_nodes v o := Objects v (procs o) (ctxs o) (msgs o) (ports o) (actions o).
Definition set_procs v o := Objects (nodes o) v (ctxs o) (msgs o) (ports o) (actions o).
Definition set_ctxs v o := Objects (nodes o) (procs o) v (msgs o) (ports o) (actions o).
Definition set_msgs v o := Objects (nodes o) (procs o) (ctxs o) v (ports o) (actions o).
Definition set_ports v o := Objects (nodes o) (procs o) (ctxs o) (msgs o) v (actions o).
Definition set_actions v o := Objects (nodes o) (procs o) (ctxs o) (msgs o) (ports o) v.

Section kernel.
Context {H W : Type} `{KHeap H} `{AddressSpaces W}.
Context (uninit : Z) (kernel_start : Z).

Record kst := KState { kernel : kernel_t; kheap : H; objs : objects; world : W }.

Implicit Types s : kst.

(** ** Access to the parts *)
Definition set_kernel k s := KState k (kheap s) (objs s) (world s).
Definition upd_kernel (f : kernel_t -> kernel_t) : M kst unit := modify (fun s => set_kernel (f (kernel s)) s).
Definition upd_objs (f : objects -> objects) : M kst unit :=
  modify (fun s => KState (kernel s) (kheap s) (f (objs s)) (world s)).

Definition on_heap {A} (m : M H A) : M kst A :=
  fun s => '(a, h) ← m (kheap s); Ret (a, KState (kernel s) h (objs s) (world s)).
Definition on_world {A} (m : M W A) : M kst A :=
  fun s => '(a, w) ← m (world s); Ret (a, KState (kernel s) (kheap s) (objs s) w).
Definition on_queue {A} (m : M (H * gmap Z queue_node_t) A) : M kst A :=
  fun s => '(a, (h, n)) ← m (kheap s, nodes (objs s));
    Ret (a, KState (kernel s) h (set_nodes n (objs s)) (world s)).

Definition active : M kst Z := gets (fun s => active_process (kernel s)).

Definition load_proc (p : Z) : M kst process_t := fun s => x ← of_option (procs (objs s) !! p); Ret (x, s).
Definition load_ctx (p : Z) : M kst process_context_t := fun s => x ← of_option (ctxs (objs s) !! p); Ret (x, s).
Definition load_msg (p : Z) : M kst message_t := fun s => x ← of_option (msgs (objs s) !! p); Ret (x, s).
Definition load_port (p : Z) : M kst port_t := fun s => x ← of_option (ports (objs s) !! p); Ret (x, s).
Definition load_action (p : Z) : M kst signal_action_t := fun s => x ← of_option (actions (objs s) !! p); Ret (x, s).

(** Writing all the fields of a fresh object; writing through NULL faults. *)
Definition init (p : Z) (f : objects -> objects) : M kst unit := if p =? NULL then fault else upd_objs f.
Definition put_proc p x : M kst unit := init p (fun o => set_procs (<[p:=x]> (procs o)) o).
Definition put_ctx p x : M kst unit := init p (fun o => set_ctxs (<[p:=x]> (ctxs o)) o).
Definition put_msg p x : M kst unit := init p (fun o => set_msgs (<[p:=x]> (msgs o)) o).
Definition put_port p x : M kst unit := init p (fun o => set_ports (<[p:=x]> (ports o)) o).
Definition put_action p x : M kst unit := init p (fun o => set_actions (<[p:=x]> (actions o)) o).

Definition upd_proc (p : Z) (f : process_t -> process_t) : M kst unit := x ← load_proc p; put_proc p (f x).
Definition upd_ctx (p : Z) (f : process_context_t -> process_context_t) : M kst unit := x ← load_ctx p; put_ctx p (f x).

(** [kfree] ends the object's life. *)
Definition free_proc p : M kst unit := _ ← on_heap (kfree p); upd_objs (fun o => set_procs (delete p (procs o)) o).
Definition free_ctx p : M kst unit := _ ← on_heap (kfree p); upd_objs (fun o => set_ctxs (delete p (ctxs o)) o).
Definition free_msg p : M kst unit := _ ← on_heap (kfree p); upd_objs (fun o => set_msgs (delete p (msgs o)) o).
Definition free_port p : M kst unit := _ ← on_heap (kfree p); upd_objs (fun o => set_ports (delete p (ports o)) o).
Definition free_action p : M kst unit := _ ← on_heap (kfree p); upd_objs (fun o => set_actions (delete p (actions o)) o).

(** Tables: the trees take [int] keys. *)
Definition process_of (pid : Z) : M kst Z := gets (fun s => avl_get (process_table (kernel s)) (s32 pid)).
Definition port_of (id : Z) : M kst Z := gets (fun s => avl_get (port_table (kernel s)) (s32 id)).
Definition handler_of (i : Z) : M kst Z := gets (fun s => avl_get (interrupt_handlers (kernel s)) (s32 i)).

(** The ready queue; the callers ignore the status. *)
Definition make_ready (p prio : Z) : M kst unit := fun s =>
  '(_, q) ← priorityqueue_insert (priority_queue (kernel s)) p prio;
  Ret (tt, set_kernel (set_priority_queue q (kernel s)) s).
Definition extract_ready : M kst Z := fun s =>
  '(p, q) ← priorityqueue_extract_min (priority_queue (kernel s));
  Ret (p, set_kernel (set_priority_queue q (kernel s)) s).
Definition remove_ready (p : Z) : M kst unit := fun s =>
  '(_, q) ← priorityqueue_remove (priority_queue (kernel s)) p;
  Ret (tt, set_kernel (set_priority_queue q (kernel s)) s).

(** [queue_insert(&dest->message_queue, m)] and the like. *)
Definition enqueue_message (p m : Z) : M kst unit :=
  x ← load_proc p;
  '(_, q) ← on_queue (queue_insert (message_queue x) m);
  put_proc p (set_message_queue q x).
Definition next_message (p : Z) : M kst Z :=
  x ← load_proc p;
  '(m, q) ← on_queue (queue_get_next (message_queue x));
  _ ← put_proc p (set_message_queue q x); mret m.
Definition next_sender (p : Z) : M kst Z :=
  x ← load_proc p;
  '(m, q) ← on_queue (queue_get_next (sending_queue x));
  _ ← put_proc p (set_sending_queue q x); mret m.

(** ** Processes and the scheduler *)
Definition kernel_current_pid : M kst Z :=
  a ← active; if a =? NULL then mret 0 else x ← load_proc a; mret (pid x).

Definition kernel_current_context : M kst Z :=
  a ← active; if a =? NULL then mret NULL else x ← load_proc a; mret (ctx x).

Definition kernel_spawn_process (program_entry priority address_space : Z) : M kst Z :=
  new_process ← on_heap (kmalloc sizeof_process);
  if new_process =? NULL then mret 0
  else
    initial_context ← on_heap (kmalloc sizeof_context);
    if initial_context =? NULL then mret 0
    else
      stack_page ← on_world as_reserve_page;
      if negb (stack_page mod 4096 =? 0) then mret 0
      else
        _ ← on_world (as_map_page (u32 (kernel_start - 4096)) stack_page
              (Z.lor (Z.lor PAGE_PRESENT PAGE_USERMODE) PAGE_RW));
        _ ← put_ctx initial_context
              (set_context_stack kernel_start (set_context_flags DEFAULT_FLAGS
                (set_context_pc program_entry zero_context)));
        new_pid ← gets (fun s => next_pid (kernel s));
        _ ← put_proc new_process
              (Process (u32 new_pid) priority address_space PROCESS_ACTIVE
                queue_construct queue_construct NULL initial_context);
        t ← gets (fun s => process_table (kernel s));
        t ← on_heap (avl_insert t (s32 (u32 new_pid)) new_process);
        _ ← upd_kernel (set_process_table t);
        _ ← make_ready new_process priority;
        _ ← upd_kernel (fun k => set_next_pid (s32 (next_pid k + 1)) k);
        x ← load_proc new_process; mret (pid x).

Definition kernel_advance_scheduler : M kst Z :=
  a ← active;
  _ ← (if a =? NULL then mret tt else x ← load_proc a; make_ready a (priority x));
  a ← extract_ready;
  _ ← upd_kernel (set_active_process a);
  if a =? NULL then panic
  else x ← load_proc a; _ ← on_world (as_load (page_table x)); mret (ctx x).

(** The two draining loops of [kernel_terminate_process]; the fuel is one
    more than the number of queued pointers. *)
Fixpoint free_messages (fuel : nat) (process : Z) : M kst unit :=
  match fuel with
  | O => fun _ => OutOfFuel
  | S fuel =>
    m ← next_message process;
    if m =? NULL then mret tt else _ ← free_msg m; free_messages fuel process
  end.

Fixpoint wake_senders (fuel : nat) (process : Z) : M kst unit :=
  match fuel with
  | O => fun _ => OutOfFuel
  | S fuel =>
    p ← next_sender process;
    if p =? NULL then mret tt
    else
      _ ← upd_proc p (set_state PROCESS_ACTIVE);
      x ← load_proc p;
      _ ← upd_ctx (ctx x) (set_context_return (err EEXITED));
      _ ← make_ready p (priority x);
      wake_senders fuel process
  end.

Definition queue_fuel (q : queue_t) : nat := S (Z.to_nat (count q)).

Definition kernel_terminate_process (process_id : Z) : M kst error_t :=
  process ← process_of process_id;
  if process =? NULL then mret EDOESNTEXIST
  else
    a ← active;
    _ ← (if a =? process then upd_kernel (set_active_process NULL) else mret tt);
    t ← gets (fun s => process_table (kernel s));
    t ← on_heap (avl_remove t (s32 process_id));
    _ ← upd_kernel (set_process_table t);
    _ ← remove_ready process;
    x ← load_proc process;
    _ ← free_messages (queue_fuel (message_queue x)) process;
    _ ← wake_senders (queue_fuel (sending_queue x)) process;
    x ← load_proc process;
    _ ← free_ctx (ctx x);
    _ ← free_proc process;
    mret ENONE.

(** [memcpy(kernel.active_process->ctx, context, sizeof( *context))]; the
    argument is the saved frame of an interrupt, a structure in kernel memory. *)
Definition kernel_store_active_context (context : process_context_t) : M kst error_t :=
  a ← active;
  if a =? NULL then mret EDOESNTEXIST
  else
    x ← load_proc a;
    if ctx x =? NULL then mret EDOESNTEXIST
    else _ ← put_ctx (ctx x) context; mret ENONE.

(** ** Ports *)
Definition kernel_create_port (i : Z) : M kst error_t :=
  p ← port_of i;
  if negb (p =? NULL) then mret EEXISTS
  else
    a ← active;
    x ← load_proc a;
    port ← on_heap (kmalloc sizeof_port);
    _ ← put_port port (Port i (pid x));
    t ← gets (fun s => port_table (kernel s));
    t ← on_heap (avl_insert t (s32 i) port);
    _ ← upd_kernel (set_port_table t);
    mret ENONE.

Definition kernel_remove_port (i : Z) : M kst error_t :=
  port ← port_of i;
  if port =? NULL then mret EDOESNTEXIST
  else
    y ← load_port port;
    a ← active;
    x ← load_proc a;
    if negb (owner_pid y =? pid x) then mret EPERM
    else
      t ← gets (fun s => port_table (kernel s));
      t ← on_heap (avl_remove t (s32 i));
      _ ← upd_kernel (set_port_table t);
      _ ← free_port port;
      mret ENONE.

Definition kernel_get_port_owner (i : Z) : M kst Z :=
  port ← port_of i;
  if port =? NULL then mret 0 else y ← load_port port; mret (owner_pid y).

(** ** Messages.  [message] and [buffer] are addresses in user memory. *)
Definition kernel_send_message (recipient message : Z) : M kst error_t :=
  dest ← process_of recipient;
  if dest =? NULL then mret EDOESNTEXIST
  else
    d ← load_proc dest;
    if negb (message_buffer d =? NULL) && bool_decide (state d = PROCESS_REQUESTING) then
      a ← active;
      x ← load_proc a;
      ws ← on_world (read_words 8 message);
      let kernel_buffer := Message (pid x) (code (words_message ws)) (args (words_message ws)) in
      _ ← on_world (as_load (page_table d));
      _ ← on_world (write_words (message_buffer d) (message_words kernel_buffer));
      _ ← on_world (as_load (page_table x));
      _ ← upd_proc dest (set_message_buffer NULL);
      _ ← upd_proc dest (set_state PROCESS_ACTIVE);
      _ ← upd_ctx (ctx d) (set_context_return (err ENONE));
      _ ← make_ready dest (priority d);
      mret ENONE
    else mret EBUSY.

Definition kernel_queue_message (recipient message : Z) : M kst error_t :=
  dest ← process_of recipient;
  if dest =? NULL then mret EDOESNTEXIST
  else
    a ← active;
    _ ← load_proc a;
    _ ← load_proc dest;
    queued_msg ← on_heap (kmalloc sizeof_message);
    if queued_msg =? NULL then mret ENOMEM
    else
      ws ← on_world (read_words 8 message);
      _ ← put_msg queued_msg (words_message ws);
      _ ← enqueue_message dest queued_msg;
      mret ENONE.

Definition receive_message (buffer flags : Z) : M kst (exit error_t) :=
  a ← active;
  x ← load_proc a;
  if 0 <? count (message_queue x) then
    queued_msg ← next_message a;
    m ← load_msg queued_msg;
    _ ← on_world (write_words buffer (message_words m));
    _ ← free_msg queued_msg;
    mret (Returned ENONE)
  else if Z.land flags IO_OP =? IO_ASYNC then mret (Returned EDOESNTEXIST)
  else
    _ ← upd_proc a (set_message_buffer buffer);
    _ ← upd_proc a (set_state PROCESS_REQUESTING);
    _ ← upd_kernel (set_active_process NULL);
    c ← kernel_advance_scheduler;
    mret (LoadContext c).

(** ** Interrupt handlers *)
Definition kernel_register_interrupt_handler (interrupt handler userdata : Z) : M kst error_t :=
  h ← handler_of interrupt;
  if negb (h =? NULL) then mret EEXISTS
  else
    action ← on_heap (kmalloc sizeof_action);
    a ← active;
    x ← load_proc a;
    _ ← put_action action (Action (pid x) handler uninit userdata);
    t ← gets (fun s => interrupt_handlers (kernel s));
    t ← on_heap (avl_insert t (s32 interrupt) action);
    _ ← upd_kernel (set_interrupt_handlers t);
    mret ENONE.

Definition kernel_remove_interrupt_handler (interrupt : Z) : M kst error_t :=
  action ← handler_of interrupt;
  if action =? NULL then mret EDOESNTEXIST
  else
    _ ← free_action action;
    t ← gets (fun s => interrupt_handlers (kernel s));
    t ← on_heap (avl_remove t (s32 interrupt));
    _ ← upd_kernel (set_interrupt_handlers t);
    mret ENONE.

Definition kernel_execute_interrupt_handler (interrupt : Z) : M kst error_t :=
  action ← handler_of interrupt;
  if action =? NULL then mret EDOESNTEXIST
  else
    y ← load_action action;
    process ← process_of (apid y);
    if process =? NULL then
      t ← gets (fun s => interrupt_handlers (kernel s));
      t ← on_heap (avl_remove t (s32 interrupt));
      _ ← upd_kernel (set_interrupt_handlers t);
      mret EDOESNTEXIST
    else
      x ← load_proc process;
      _ ← on_world (as_load (page_table x));
      c ← load_ctx (ctx x);
      c ← on_world (context_stack_push_struct c (fun _ => [interrupt]) 4);
      let siginfo_ptr := esp c in
      c ← on_world (context_stack_push_struct c context_words sizeof_context);
      c ← on_world (context_stack_push c (state_code (state x)));
      c ← on_world (context_call_func c (func_ptr y) (trampoline_ptr y) [userdata y; siginfo_ptr]);
      _ ← put_ctx (ctx x) c;
      _ ← (if bool_decide (state x = PROCESS_ACTIVE) then mret tt
           else
             _ ← upd_proc process (set_state PROCESS_ACTIVE);
             make_ready process (priority x));
      a ← active;
      z ← load_proc a;
      _ ← on_world (as_load (page_table z));
      mret ENONE.

Definition kernel_signal_return : M kst (exit error_t) :=
  a ← active;
  x ← load_proc a;
  c ← load_ctx (ctx x);
  let c := context_cleanup_func c 2 in
  '(st, c) ← on_world (context_stack_pop c);
  _ ← upd_proc a (set_state (state_of_code st));
  '(ws, _) ← on_world (context_stack_pop_struct c sizeof_context);
  _ ← put_ctx (ctx x) (words_context ws);
  if bool_decide (state_of_code st = PROCESS_REQUESTING) then
    r ← receive_message (message_buffer x) 0;
    match r with
    | LoadContext c => mret (LoadContext c)
    | Returned _ => a ← active; x ← load_proc a; mret (LoadContext (ctx x))
    end
  else mret (Returned ENONE).

(** ** System calls *)
Definition set_syscall (i arg_count pid func_ptr : Z) : M kst error_t :=
  if (i <? 0) || (MAX_SYSCALL_ID <? i) then mret EOUTOFBOUNDS
  else
    table ← gets (fun s => syscall_table (kernel s));
    e ← liftO (array_get table (Z.to_nat i));
    if defined e then mret EINVALIDARG
    else if (arg_count <? 0) || (3 <? arg_count) then mret EINVALIDARG
    else
      p ← (if pid =? 0 then mret 1 else gets (fun s => avl_get (process_table (kernel s)) pid));
      if p =? NULL then mret EDOESNTEXIST
      else if func_ptr =? NULL then mret ENULLPTR
      else
        table ← liftO (array_set table (Z.to_nat i) (Syscall true arg_count pid func_ptr));
        _ ← upd_kernel (set_syscall_table table);
        mret ENONE.

(** [call] runs the function at an address with the given arguments. *)
Context (call : Z -> list Z -> M kst (exit Z)).

Definition do_syscall (i arg1 arg2 arg3 pc stack flags : Z) : M kst (exit Z) :=
  if (i <? 0) || (MAX_SYSCALL_ID <? i) then mret (Returned (err ENOSYSCALL))
  else
    table ← gets (fun s => syscall_table (kernel s));
    e ← liftO (array_get table (Z.to_nat i));
    if negb (defined e) then mret (Returned (err ENOSYSCALL))
    else
      callee ← (if 0 <? process_id e then gets (fun s => avl_get (process_table (kernel s)) (process_id e))
                else mret 1);
      if callee =? NULL then
        table ← liftO (array_set table (Z.to_nat i) (Syscall false (arg_count e) (process_id e) (syscall_ptr e)));
        _ ← upd_kernel (set_syscall_table table);
        mret (Returned (err ENOSYSCALL))
      else
        _ ← (if 0 <? process_id e then x ← load_proc callee; on_world (as_load (page_table x)) else mret tt);
        a ← active;
        x ← load_proc a;
        _ ← upd_ctx (ctx x) (fun c => set_context_flags flags (set_context_stack stack (set_context_pc pc c)));
        r ← (if arg_count e =? 0 then call (syscall_ptr e) []
             else if arg_count e =? 1 then call (syscall_ptr e) [arg1]
             else if arg_count e =? 2 then call (syscall_ptr e) [arg1; arg2]
             else if arg_count e =? 3 then call (syscall_ptr e) [arg1; arg2; arg3]
             else mret (Returned uninit));
        match r with
        | LoadContext c => mret (LoadContext c)
        | Returned v =>
          _ ← (if 0 <? process_id e then a ← active; x ← load_proc a; on_world (as_load (page_table x)) else mret tt);
          mret (Returned v)
        end.
End kernel.
Arguments kst : clear implicits.

(** * Theory *)

(** Unfold the monad of a handler and run its known steps. *)
Ltac krun := unfold active, upd_kernel, upd_objs, process_of, port_of,
  handler_of, load_proc, load_ctx, load_msg, load_port, load_action, gets, modify, mbind, M_mbind;
  cbv [mret M_mret]; ostep; cbn [kernel kheap objs world set_kernel of_option mbind outcome_mbind outcome_bind].

Section running.
Context {H W : Type} `{KHeapOk H} `{AddressSpacesOk W}.
Implicit Types s : kst H W.

Lemma on_heap_Ret {A} (m : M H A) s a h :
  m (kheap s) = Ret (a, h) -> on_heap m s = Ret (a, KState (kernel s) h (objs s) (world s)).
Proof. intros E. unfold on_heap. by rewrite E. Qed.

Lemma on_world_Ret {A} (m : M W A) s a w :
  m (world s) = Ret (a, w) -> on_world m s = Ret (a, KState (kernel s) (kheap s) (objs s) w).
Proof. intros E. unfold on_world. by rewrite E. Qed.

Lemma init_Ret p f s : p <> NULL ->
  init p f s = Ret (tt, KState (kernel s) (kheap s) (f (objs s)) (world s)).
Proof. intros Hp. unfold init. by rewrite (proj2 (Z.eqb_neq _ _) Hp). Qed.

Lemma upd_proc_run p f s x : procs (objs s) !! p = Some x -> p <> NULL ->
  upd_proc p f s =
    Ret (tt, KState (kernel s) (kheap s) (set_procs (<[p:=f x]> (procs (objs s))) (objs s)) (world s)).
Proof. intros Hx Hp. unfold upd_proc. krun. rewrite Hx. krun. unfold put_proc. by rewrite init_Ret. Qed.

Lemma upd_ctx_run p f s x : ctxs (objs s) !! p = Some x -> p <> NULL ->
  upd_ctx p f s =
    Ret (tt, KState (kernel s) (kheap s) (set_ctxs (<[p:=f x]> (ctxs (objs s))) (objs s)) (world s)).
Proof. intros Hx Hp. unfold upd_ctx. krun. rewrite Hx. krun. unfold put_ctx. by rewrite init_Ret. Qed.

(** A process made ready: queued, unless the queue is full; a full queue stays
    as it is. *)
Lemma make_ready_cases s p prio : valid (priority_queue (kernel s)) -> exists q,
  make_ready p prio s = Ret (tt, set_kernel (set_priority_queue q (kernel s)) s) /\ valid q /\
  capacity q = capacity (priority_queue (kernel s)) /\
  ((size (priority_queue (kernel s)) < capacity (priority_queue (kernel s)))%nat ->
    elements q ≡ₚ Node p prio :: elements (priority_queue (kernel s))) /\
  (~ (size (priority_queue (kernel s)) < capacity (priority_queue (kernel s)))%nat -> q = priority_queue (kernel s)).
Proof.
  intros Hv. unfold make_ready.
  destruct (priorityqueue_insert_ok (priority_queue (kernel s)) p prio Hv)
    as (e & q & -> & Hvq & Hcap & [(_ & -> & Hfull)|(_ & Hroom & _ & P)]); krun; eexists; (split; [done|]);
    (split; [done|]); (split; [done|]); (split; [lia || done|]); [done|lia].
Qed.

Lemma make_ready_run s p prio : valid (priority_queue (kernel s)) -> exists q,
  make_ready p prio s = Ret (tt, set_kernel (set_priority_queue q (kernel s)) s) /\ valid q /\
  capacity q = capacity (priority_queue (kernel s)) /\
  ((size (priority_queue (kernel s)) < capacity (priority_queue (kernel s)))%nat ->
    elements q ≡ₚ Node p prio :: elements (priority_queue (kernel s))).
Proof. intros Hv. destruct (make_ready_cases s p prio Hv) as (q & E & H1' & H2' & H3' & _). by exists q. Qed.

Lemma kmalloc_fresh (h : H) n p h' : Alloc.kmalloc n h = Ret (p, h') -> p <> NULL ->
  (p ∉ live h) /\ live h' = {[p]} ∪ live h.
Proof.
  intros E Hp. destruct (kmalloc_spec h n) as (q & h2 & E2 & [[-> _]|(_ & Hf & Hl)]);
    rewrite E in E2; injection E2; intros; subst; done.
Qed.

(** *** Ports *)

(** The owner of a port, as the tables say. *)
Definition port_owner s (i : Z) : option Z :=
  p ← avl_map (port_table (kernel s)) !! s32 i; owner_pid <$> ports (objs s) !! p.

Record port_inv s : Prop := {
  po_bst : bst (port_table (kernel s));
  po_heights : heights_pos (port_table (kernel s));
  po_nodup : NoDup (addrs (port_table (kernel s)));
  po_live : forall a, a ∈ addrs (port_table (kernel s)) -> a ∈ live (kheap s);
  po_ports : forall p, is_Some (ports (objs s) !! p) ->
    p ∈ live (kheap s) /\ (p ∉ addrs (port_table (kernel s)));
  po_table : forall k p, avl_map (port_table (kernel s)) !! k = Some p ->
    p <> NULL /\ exists y, ports (objs s) !! p = Some y /\ s32 (id y) = k
}.

Lemma port_of_run s i : port_inv s ->
  port_of i s = Ret (default NULL (avl_map (port_table (kernel s)) !! s32 i), s).
Proof. intros Hi. unfold port_of, gets. by rewrite avl_get_ok by apply Hi. Qed.

Lemma port_owner_None s i : port_inv s ->
  port_owner s i = None <-> avl_map (port_table (kernel s)) !! s32 i = None.
Proof.
  intros Hi. unfold port_owner. destruct (avl_map _ !! s32 i) as [p|] eqn:E; simpl; [|done].
  destruct (po_table s Hi _ _ E) as (_ & y & -> & _). done.
Qed.

Lemma port_owner_Some s i o : port_inv s -> port_owner s i = Some o ->
  exists p y, avl_map (port_table (kernel s)) !! s32 i = Some p /\ p <> NULL /\
    ports (objs s) !! p = Some y /\ owner_pid y = o.
Proof.
  intros Hi. unfold port_owner. destruct (avl_map _ !! s32 i) as [p|] eqn:E; simpl; [|done].
  destruct (po_table s Hi _ _ E) as (Hp & y & Ey & _). rewrite Ey. simpl. intros [= <-]. eauto 6.
Qed.

Lemma get_port_owner_run s i : port_inv s ->
  kernel_get_port_owner i s = Ret (default 0 (port_owner s i), s).
Proof.
  intros Hi. unfold kernel_get_port_owner, mbind, M_mbind. rewrite port_of_run by done. ostep.
  destruct (port_owner s i) as [o|] eqn:Eo.
  - destruct (port_owner_Some s i o Hi Eo) as (p & y & E & Hp & Ey & <-). rewrite E. simpl.
    rewrite (proj2 (Z.eqb_neq _ _) Hp). unfold load_port. by rewrite Ey.
  - apply port_owner_None in Eo as ->; done.
Qed.

(** The state after a port was created. *)
Lemma create_port_run s i a x : port_inv s -> avl (port_table (kernel s)) ->
  active_process (kernel s) = a -> procs (objs s) !! a = Some x -> port_owner s i = None ->
  forall p1 h1 p2 h2, kmalloc sizeof_port (kheap s) = Ret (p1, h1) -> p1 <> NULL ->
  kmalloc sizeof_avltree h1 = Ret (p2, h2) -> p2 <> NULL ->
  exists s', kernel_create_port i s = Ret (ENONE, s') /\ port_inv s' /\
    procs (objs s') = procs (objs s) /\ active_process (kernel s') = a /\
    forall j, port_owner s' j = if decide (s32 j = s32 i) then Some (pid x) else port_owner s j.
Proof.
  intros Hi Ha Hact Hx Ho p1 h1 p2 h2 E1 N1 E2 N2.
  apply port_owner_None in Ho; [|done].
  assert (s32 i ∉ keys (port_table (kernel s))) as Hk by (by apply avl_map_None).
  destruct (kmalloc_fresh _ _ _ _ E1 N1) as [F1 L1].
  destruct (kmalloc_fresh _ _ _ _ E2 N2) as [F2 L2]. rewrite L1 in F2, L2.
  destruct (avl_insert_ok (port_table (kernel s)) (s32 i) p1 h1 h2 p2)
    as (t' & Ei & Tb & Th & _ & Tm & Ta); [done|apply Hi|done|done|].
  rewrite decide_False in Ei by done. rewrite decide_False in Tm by done.
  rewrite decide_False in Ta by done. cbn [app] in Ta.
  unfold kernel_create_port, mbind, M_mbind. rewrite port_of_run, Ho by done. ostep.
  change (negb (default NULL None =? NULL)) with false. cbv iota beta.
  krun. rewrite Hact, Hx. krun. rewrite (on_heap_Ret _ s p1 h1) by done. krun.
  unfold put_port. rewrite init_Ret by done. krun.
  erewrite on_heap_Ret by (exact Ei). krun.
  eexists. split; [done|].
  assert (forall k p, avl_map t' !! k = Some p -> p <> NULL /\
    exists y, <[p1:={| id := i; owner_pid := pid x |}]> (ports (objs s)) !! p = Some y /\ s32 (id y) = k) as Htab.
  { intros k p. rewrite Tm. intros [[<- <-]|[Hne Hp]]%lookup_insert_Some.
    - split; [done|]. rewrite lookup_insert_eq. eauto.
    - destruct (po_table s Hi k p Hp) as (Hp0 & y & Hy & Hyk). split; [done|]. exists y.
      rewrite lookup_insert_ne; [done|]. intros ->. apply F1. apply (po_ports s Hi). by eexists. }
  split; [|split; [done|split; [done|]]].
  - split; cbn [set_kernel kernel kheap objs world set_port_table port_table set_ports ports]; try done.
    + rewrite Ta. apply NoDup_cons. split; [|apply Hi]. intros Hin. apply F2, elem_of_union_r.
      by apply (po_live s Hi).
    + intros b. rewrite Ta, elem_of_cons. intros [->|Hb]; rewrite L2; [set_solver|].
      apply (po_live s Hi) in Hb. set_solver.
    + intros p [y [[<- _]|[Hne Hp]]%lookup_insert_Some]; rewrite Ta, L2, elem_of_cons.
      * split; [set_solver|]. intros [->|Hin]; [set_solver|]. apply F1. by apply (po_live s Hi).
      * destruct (po_ports s Hi p) as [P1 P2]; [by eexists|]. split; [set_solver|].
        intros [->|Hin]; [set_solver|done].
  - intros j. unfold port_owner. cbn [set_kernel kernel kheap objs world set_port_table port_table set_ports ports].
    rewrite Tm. case_decide as Hj.
    + rewrite Hj, lookup_insert_eq. simpl. by rewrite lookup_insert_eq.
    + rewrite lookup_insert_ne by done. destruct (avl_map _ !! s32 j) as [p|] eqn:Ep; simpl; [|done].
      rewrite lookup_insert_ne; [done|]. intros ->.
      destruct (po_table s Hi _ _ Ep) as (_ & y & Hy & _). apply F1, (po_ports s Hi). by eexists.
Qed.

(** Out of memory: the port's block is used without a test. *)
Lemma create_port_no_memory s i h : port_inv s -> port_owner s i = None ->
  Alloc.kmalloc sizeof_port (kheap s) = Ret (NULL, h) -> kernel_create_port i s = Fault.
Proof.
  intros Hi Ho E. apply port_owner_None in Ho; [|done].
  unfold kernel_create_port, mbind, M_mbind. rewrite port_of_run, Ho by done. ostep.
  change (negb (default NULL None =? NULL)) with false. cbv iota beta. krun.
  destruct (procs (objs s) !! active_process (kernel s)); krun; [|done].
  rewrite (on_heap_Ret _ s NULL h) by done. krun. done.
Qed.

Lemma create_port_exists s i o : port_inv s -> port_owner s i = Some o ->
  kernel_create_port i s = Ret (EEXISTS, s).
Proof.
  intros Hi Ho. destruct (port_owner_Some s i o Hi Ho) as (p & y & E & Hp & _).
  unfold kernel_create_port, mbind, M_mbind. rewrite port_of_run, E by done. ostep.
  simpl (default _ _). by rewrite (proj2 (Z.eqb_neq _ _) Hp).
Qed.

Lemma remove_port_run s i x : port_inv s ->
  procs (objs s) !! active_process (kernel s) = Some x ->
  match port_owner s i with
  | None => kernel_remove_port i s = Ret (EDOESNTEXIST, s)
  | Some o =>
    if decide (o = pid x) then
      exists s', kernel_remove_port i s = Ret (ENONE, s') /\ port_inv s' /\
        procs (objs s') = procs (objs s) /\ active_process (kernel s') = active_process (kernel s) /\
        forall j, port_owner s' j = if decide (s32 j = s32 i) then None else port_owner s j
    else kernel_remove_port i s = Ret (EPERM, s)
  end.
Proof.
  intros Hi Hx. destruct (port_owner s i) as [o|] eqn:Eo.
  2: { apply port_owner_None in Eo; [|done]. unfold kernel_remove_port, mbind, M_mbind.
       by rewrite port_of_run, Eo by done. }
  destruct (port_owner_Some s i o Hi Eo) as (p & y & E & Hp & Ey & <-).
  assert (kernel_remove_port i s =
    (if negb (owner_pid y =? pid x) then mret EPERM
     else
       t ← on_heap (avl_remove (port_table (kernel s)) (s32 i));
       _ ← upd_kernel (set_port_table t); _ ← free_port p; mret ENONE) s) as ->.
  { unfold kernel_remove_port, mbind, M_mbind. rewrite port_of_run, E by done. ostep.
    simpl (default _ _). rewrite (proj2 (Z.eqb_neq _ _) Hp). krun. rewrite Ey. krun. rewrite Hx. krun. by destruct (negb _). }
  destruct (Z.eqb_spec (owner_pid y) (pid x)) as [Eq|Hne]; cbn [negb].
  2: { by rewrite decide_False. }
  rewrite decide_True by done.
  destruct (avl_remove_ok (port_table (kernel s)) (s32 i) (kheap s))
    as (t' & h1 & Er & Tb & Th & Tm & Tn & Tl & _ & Tk); [apply Hi..|].
  assert (s32 i ∈ keys (port_table (kernel s))) as Hk.
  { apply dec_stable. intros Hn. apply avl_map_None in Hn. by rewrite E in Hn. }
  destruct (Tk Hk) as (q & Tq & Lq). destruct (po_ports s Hi p) as [P1 P2]; [by eexists|].
  assert (p <> q) as Hpq by (intros ->; apply P2; rewrite Tq; set_solver).
  destruct (kfree_spec h1 p) as (h2 & E2 & L2); [rewrite Lq; set_solver|].
  unfold mbind, M_mbind. rewrite (on_heap_Ret _ s t' h1) by done. krun.
  unfold free_port. krun. erewrite on_heap_Ret by (exact E2). krun.
  eexists. split; [done|]. split; [|split; [done|split; [done|]]].
  - split; cbn [kernel kheap objs world set_port_table port_table set_ports ports]; try done.
    + intros b Hb. rewrite L2. apply elem_of_difference. split; [by apply Tl|].
      intros ->%elem_of_singleton. apply P2. rewrite Tq. by apply elem_of_cons; right.
    + intros p' [z Hz]. apply lookup_delete_Some in Hz as [Hne Hz].
      destruct (po_ports s Hi p') as [Q1 Q2]; [by eexists|].
      rewrite L2, Lq. split.
      * assert (p' <> q) by (intros ->; apply Q2; rewrite Tq; set_solver). set_solver.
      * intros Hin. apply Q2. rewrite Tq. by apply elem_of_cons; right.
    + intros k p' Hk'. rewrite Tm in Hk'. apply lookup_delete_Some in Hk' as [Hne Hk'].
      destruct (po_table s Hi k p' Hk') as (N & z & Hz & Ez). split; [done|]. exists z.
      rewrite lookup_delete_ne; [done|]. intros <-. rewrite Ey in Hz. injection Hz as <-.
      destruct (po_table s Hi _ _ E) as (_ & z' & Hz' & Ez'). rewrite Ey in Hz'. injection Hz' as <-.
      congruence.
  - intros j. unfold port_owner. cbn [kernel kheap objs world set_port_table port_table set_ports ports].
    rewrite Tm. case_decide as Hj; [by rewrite Hj, lookup_delete_eq|].
    rewrite lookup_delete_ne by done. destruct (avl_map _ !! s32 j) as [p'|] eqn:Ep; simpl; [|done].
    rewrite lookup_delete_ne; [done|]. intros <-. apply Hj.
    destruct (po_table s Hi _ _ Ep) as (_ & z & Hz & <-). destruct (po_table s Hi _ _ E) as (_ & z' & Hz' & <-).
    congruence.
Qed.

(** *** The scheduler *)
Definition ready s : list priority_queue_node_t := elements (priority_queue (kernel s)).

(** Who wants the processor: the active process, if there is one, and the ready
    ones. *)
Definition contenders s : list priority_queue_node_t :=
  if decide (active_process (kernel s) = NULL) then ready s
  else match procs (objs s) !! active_process (kernel s) with
       | Some x => Node (active_process (kernel s)) (priority x) :: ready s
       | None => ready s
       end.

(** The active process, if there is one, still fits in the ready queue. *)
Definition has_room s : Prop := active_process (kernel s) = NULL \/
  (size (priority_queue (kernel s)) < capacity (priority_queue (kernel s)))%nat.
#[export] Instance has_room_dec s : Decision (has_room s).
Proof. unfold has_room. apply _. Defined.

(** The queue once the active process has been put back, or could not be. *)
Definition requeued s : list priority_queue_node_t := if decide (has_room s) then contenders s else ready s.

(** The scheduler's invariant: the queue is a heap, and it and the active
    pointer name processes, whose page tables are address spaces. *)
Record sched_inv s : Prop := {
  sc_valid : valid (priority_queue (kernel s));
  sc_active : active_process (kernel s) <> NULL -> is_Some (procs (objs s) !! active_process (kernel s));
  sc_ready : forall y, y ∈ ready s -> value y <> NULL /\ is_Some (procs (objs s) !! value y);
  sc_world : as_wf (world s);
  sc_spaces : forall p x, procs (objs s) !! p = Some x -> as_space (page_table x)
}.

Definition with_queue s q a w : kst H W :=
  KState (set_active_process a (set_priority_queue q (kernel s))) (kheap s) (objs s) w.

(** The first half: the active process goes back to the queue. *)
Lemma requeue_run s : sched_inv s -> exists q,
  (a ← active;
   _ ← (if a =? NULL then mret tt else x ← load_proc a; make_ready a (priority x)); mret tt) s =
    Ret (tt, set_kernel (set_priority_queue q (kernel s)) s) /\
  valid q /\ capacity q = capacity (priority_queue (kernel s)) /\ elements q ≡ₚ requeued s.
Proof.
  intros [Hv Ha Hr _ _]. krun. unfold requeued, contenders.
  destruct (Z.eqb_spec (active_process (kernel s)) NULL) as [E|Hne]; krun.
  { exists (priority_queue (kernel s)). split; [by destruct s as [[] ? ? ?]|]. split; [done|]. split; [done|].
    by rewrite decide_True, decide_True by (by left || done). }
  destruct (Ha Hne) as [x Hx]. rewrite Hx. krun.
  destruct (make_ready_cases s (active_process (kernel s)) (priority x) Hv) as (q & E & Hvq & Hcap & P1 & P2).
  rewrite E. krun. exists q. split; [done|]. split; [done|]. split; [done|]. rewrite (decide_False (P := _ = NULL)) by done.
  case_decide as D; [apply P1|rewrite P2; [done|]]; unfold has_room in D; tauto.
Qed.

(** A node the scheduler may take names a process. *)
Lemma contender_known s y : sched_inv s -> y ∈ contenders s -> value y <> NULL /\ is_Some (procs (objs s) !! value y).
Proof.
  intros Hs. unfold contenders. case_decide as D; [by apply Hs|].
  destruct (procs (objs s) !! active_process (kernel s)) eqn:Ep; [|by apply Hs].
  intros [->|Hy]%elem_of_cons; [|by apply Hs]. simpl. by rewrite Ep.
Qed.

Lemma requeued_known s y : sched_inv s -> y ∈ requeued s -> value y <> NULL /\ is_Some (procs (objs s) !! value y).
Proof. intros Hs. unfold requeued. case_decide; [by apply contender_known|by apply Hs]. Qed.

Lemma advance_run s : sched_inv s ->
  (requeued s = [] /\ kernel_advance_scheduler s = Panic) \/
  (exists y x q w, kernel_advance_scheduler s = Ret (ctx x, with_queue s q (value y) w) /\
    requeued s ≡ₚ y :: elements q /\
    (forall z, z ∈ requeued s -> (PriorityQueue.priority y <= PriorityQueue.priority z)%Z) /\
    valid q /\ value y <> NULL /\ procs (objs s) !! value y = Some x /\
    as_wf w /\ as_current w = page_table x /\ (forall t a, as_byte w t a = as_byte (world s) t a) /\
    capacity q = capacity (priority_queue (kernel s))).
Proof.
  intros Hs. destruct (requeue_run s Hs) as (q & E & Hv & Hcap & P).
  assert (kernel_advance_scheduler s =
    (a ← extract_ready; _ ← upd_kernel (set_active_process a);
     if a =? NULL then panic
     else x ← load_proc a; _ ← on_world (as_load (page_table x)); mret (ctx x))
    (set_kernel (set_priority_queue q (kernel s)) s)) as ->.
  { revert E. unfold kernel_advance_scheduler. krun.
    destruct (active_process (kernel s) =? NULL); krun; [intros [= Es]; by rewrite <- Es|].
    destruct (procs (objs s) !! active_process (kernel s)) as [x|]; krun; [|done].
    destruct (make_ready _ _ s) as [[[] s1]| | |]; krun; [|done..]. intros [= ->]. done. }
  unfold extract_ready. krun. change (priority_queue (set_priority_queue q (kernel s))) with q.
  destruct (decide (size q = 0%nat)) as [E0|Hpos].
  { left. split.
    - unfold elements in P. rewrite E0 in P. by apply Permutation_nil_l in P.
    - unfold priorityqueue_extract_min. rewrite decide_True by done. krun. done. }
  right. destruct (priorityqueue_extract_min_ok q Hv) as (y & q' & -> & Py & Hmin & Hv' & _ & Hcap'); [lia|].
  krun. rewrite P in Py.
  assert (y ∈ requeued s) as Hy by (rewrite Py; by apply list_elem_of_here).
  assert (value y <> NULL /\ is_Some (procs (objs s) !! value y)) as [Hn [x Hx]]. by (by apply requeued_known).
  rewrite (proj2 (Z.eqb_neq _ _) Hn). krun. rewrite Hx. krun.
  destruct (as_load_ok (page_table x) (world s)) as (w & Ew & Hwf & Hc & Hb);
    [apply Hs|by apply (sc_spaces s Hs (value y))|].
  erewrite on_world_Ret by (exact Ew). krun.
  exists y, x, q', w. split; [done|]. split; [done|]. split; [|split_and!; try done; congruence].
  intros z Hz. apply Hmin. by rewrite P.
Qed.

(** *** Messages *)

(** The queue nodes are live blocks. *)
Definition nodes_ok s : Prop := store_ok (kheap s, nodes (objs s)).

(** Process [p]'s queue holds the messages [ms], oldest first. *)
Record inbox s (p : Z) (d : process_t) (cells : list (Z * Z)) (ms : list message_t) : Prop := {
  in_proc : procs (objs s) !! p = Some d;
  in_null : p <> NULL;
  in_queue : queue_rep (nodes (objs s)) (message_queue d) cells;
  in_msgs : Forall2 (fun c m => c.2 <> NULL /\ c.2 ∈ live (kheap s) /\ msgs (objs s) !! c.2 = Some m /\
    nodes (objs s) !! c.2 = None) cells ms;
  in_distinct : NoDup cells.*2;
  in_small : Z.of_nat (length cells) < 2 ^ 32 - 1
}.

Lemma inbox_count s p d cells ms : inbox s p d cells ms -> count (message_queue d) = Z.of_nat (length cells).
Proof.
  intros Hi. rewrite (rep_count _ _ _ (in_queue _ _ _ _ _ Hi)). apply u32_id.
  pose proof (in_small _ _ _ _ _ Hi). unfold is_u32. lia.
Qed.

Lemma on_queue_Ret {A} (m : M (H * gmap Z queue_node_t) A) s a h n :
  m (kheap s, nodes (objs s)) = Ret (a, (h, n)) ->
  on_queue m s = Ret (a, KState (kernel s) h (set_nodes n (objs s)) (world s)).
Proof. intros E. unfold on_queue. by rewrite E. Qed.

(** Taking the oldest message's pointer. *)
Lemma next_message_run s p d a v cells m ms :
  nodes_ok s -> inbox s p d ((a, v) :: cells) (m :: ms) ->
  exists s' q, next_message p s = Ret (v, s') /\ nodes_ok s' /\
    kernel s' = kernel s /\ world s' = world s /\
    procs (objs s') = <[p:=set_message_queue q d]> (procs (objs s)) /\
    msgs (objs s') = msgs (objs s) /\ v ∈ live (kheap s') /\ nodes (objs s') !! v = None /\
    inbox s' p (set_message_queue q d) cells ms.
Proof.
  intros Hn Hi. pose proof Hi as [Hp Hp0 Hq Hm Hd Hs].
  destruct (queue_get_next_ok (kheap s, nodes (objs s)) (message_queue d) _ Hn Hq)
    as (v' & q & [h n] & E & Hok & -> & Hrep & Hdel & Hlive). simpl in Hrep, Hdel, Hlive.
  apply Forall2_cons in Hm as [(M1 & M2 & M3 & M4) Hm]. simpl in M1, M2, M3, M4.
  unfold next_message. krun. rewrite Hp. krun. rewrite (on_queue_Ret _ s _ _ _ E). krun.
  unfold put_proc. rewrite init_Ret by done. krun.
  eexists _, q. split; [done|]. cbn [kernel kheap objs world set_procs set_nodes nodes procs msgs].
  split; [done|]. split; [done|]. split; [done|]. split; [done|]. split; [done|].
  assert (forall b, b ∈ live (kheap s) -> b <> a -> b ∈ live h) as Hl by (intros; rewrite Hlive; set_solver).
  assert (is_Some (nodes (objs s) !! a)) as [nd Ha].
  { destruct Hq as [(_ & _ & nx & Hna & _) _ _ _]. by eexists. }
  split; [apply Hl; [done|]; intros ->; congruence|].
  split; [rewrite Hdel; by apply lookup_delete_None; right|].
  split; cbn [kheap objs nodes procs msgs set_procs set_nodes set_msgs]; [by rewrite lookup_insert_eq|done|done| |by apply NoDup_cons in Hd as [_ Hd]|simpl in Hs; lia].
  eapply Forall2_impl; [exact Hm|]. intros [b w] m' (N1 & N2 & N3 & N4). simpl in *.
  split_and!; [done| |done|].
  - apply Hl; [done|]. intros ->. congruence.
  - rewrite Hdel. by apply lookup_delete_None; right.
Qed.

(** [receive_message] with a message waiting. *)
Lemma receive_run s d a v cells m ms buffer fl :
  nodes_ok s -> inbox s (active_process (kernel s)) d ((a, v) :: cells) (m :: ms) ->
  Forall is_u32 (message_words m) ->
  user_range (world s) (as_current (world s)) buffer (4 * Z.of_nat (length (message_words m))) ->
  exists s' q, receive_message buffer fl s = Ret (Returned ENONE, s') /\ nodes_ok s' /\
    kernel s' = kernel s /\
    only_writes (world s) (world s') (as_current (world s)) buffer (4 * Z.of_nat (length (message_words m))) /\
    holds (world s') (as_current (world s)) buffer (message_words m) /\
    inbox s' (active_process (kernel s)) (set_message_queue q d) cells ms.
Proof.
  intros Hn Hi Hu Hr. pose proof (inbox_count _ _ _ _ _ Hi) as Hc. cbn [length] in Hc.
  pose proof Hi as [Hp Hp0 _ Hm Hd _]. apply Forall2_cons in Hm as [(_ & _ & Hmsg & _) _]. simpl in Hmsg.
  destruct (next_message_run s _ d a v cells m ms Hn Hi) as (s1 & q & E1 & Hn1 & Hk & Hw & Hpr & Hms & Hl & Hv0 & Hi1).
  destruct (write_words_ok (world s) buffer (message_words m) Hu Hr) as (w & Ew & Ho & Hh).
  destruct (kfree_spec (kheap s1) v Hl) as (h & Ef & Hlive).
  unfold receive_message. krun. rewrite Hp. krun. rewrite (proj2 (Z.ltb_lt _ _)) by lia.
  krun. rewrite E1. krun. rewrite Hms, Hmsg. krun.
  rewrite <- Hw in Ew. rewrite (on_world_Ret _ s1 _ _ Ew). krun.
  unfold free_msg. krun. erewrite on_heap_Ret by (exact Ef). krun.
  eexists _, q. split; [done|]. cbn [kernel kheap objs world set_msgs nodes procs msgs].
  destruct Hi1 as [I1 I2 I3 I4 I5 I6]. apply NoDup_cons in Hd as [Hv Hd].
  split; [|split; [done|split; [done|split; [done|]]]].
  - intros b Hb. simpl in Hb |- *. rewrite Hlive. apply elem_of_difference. split; [by apply Hn1|].
    intros ->%elem_of_singleton. destruct Hb as [nd Hb]. by rewrite Hv0 in Hb.
  - split; cbn [kheap objs nodes procs msgs set_procs set_nodes set_msgs]; try done.
    apply Forall2_same_length_lookup_2; [by eapply Forall2_length|].
    intros j [b v'] m' Hj Hj'. destruct (Forall2_lookup_lr _ _ _ _ _ _ I4 Hj Hj') as (N1 & N2 & N3 & N4).
    simpl in *. assert (v' <> v).
    { intros ->. apply Hv, list_elem_of_fmap. exists (b, v). split; [done|]. by eapply list_elem_of_lookup_2. }
    split_and!; [done|rewrite Hlive; set_solver|by rewrite lookup_delete_ne|done].
Qed.

Lemma receive_empty s d ms buffer fl :
  inbox s (active_process (kernel s)) d [] ms -> Z.land fl IO_OP = IO_ASYNC ->
  receive_message buffer fl s = Ret (Returned EDOESNTEXIST, s).
Proof.
  intros Hi Hf. pose proof (inbox_count _ _ _ _ _ Hi) as Hc. cbn [length] in Hc.
  unfold receive_message. krun. rewrite (in_proc _ _ _ _ _ Hi). krun.
  rewrite Hc. change (0 <? Z.of_nat 0) with false. cbv iota. by rewrite Hf.
Qed.

Definition names_process s (r p : Z) : Prop :=
  bst (process_table (kernel s)) /\ avl_map (process_table (kernel s)) !! s32 r = Some p.

Lemma process_of_run s r p : names_process s r p -> process_of r s = Ret (p, s).
Proof. intros [Hb Hm]. unfold process_of, gets. by rewrite avl_get_ok, Hm. Qed.

(** Appending a message block to a process's queue: done, unless the block [b]
    of the queue's node is NULL. *)
Record enqueued s s' (p : Z) (d : process_t) (cells : list (Z * Z)) (ms : list message_t) (m : message_t) (b : Z) : Prop := {
  eq_kernel : kernel s' = kernel s;
  eq_world : world s' = world s;
  eq_others : ctxs (objs s') = ctxs (objs s) /\ ports (objs s') = ports (objs s) /\ actions (objs s') = actions (objs s);
  eq_nodes : forall c, c <> b -> c ∉ cells.*1 -> nodes (objs s') !! c = nodes (objs s) !! c;
  eq_dropped : b = NULL -> procs (objs s') = procs (objs s) /\ nodes (objs s') = nodes (objs s);
  eq_queue : exists q cells', procs (objs s') = <[p := set_message_queue q d]> (procs (objs s)) /\
    inbox s' p (set_message_queue q d) cells' (if decide (b = NULL) then ms else ms ++ [m])
}.

Lemma enqueue_run s p d cells ms v m b h :
  nodes_ok s -> inbox s p d cells ms -> Z.of_nat (length cells) < 2 ^ 32 - 2 ->
  v <> NULL -> v ∈ live (kheap s) -> msgs (objs s) !! v = Some m -> nodes (objs s) !! v = None -> v ∉ cells.*2 ->
  Alloc.kmalloc sizeof_queue_node (kheap s) = Ret (b, h) ->
  exists s', enqueue_message p v s = Ret (tt, s') /\ nodes_ok s' /\ kheap s' = h /\ msgs (objs s') = msgs (objs s) /\
    enqueued s s' p d cells ms m b.
Proof.
  intros Hn Hi Hs Hv Hl Hm Hnone Hnew Eb. pose proof Hi as [Hp Hp0 Hq Hms Hd _].
  destruct (queue_insert_ok (kheap s, nodes (objs s)) (message_queue d) cells v Hn Hq)
    as (e & q & [h' n] & E & Hok & Hcase). simpl in Hcase.
  destruct (queue_insert_heap _ _ _ _ _ _ E) as (b' & Eb' & Hb'). cbn [fst] in Eb'. rewrite Eb in Eb'. injection Eb' as <- <-.
  unfold enqueue_message. krun. rewrite Hp. krun. rewrite (on_queue_Ret _ s _ _ _ E). krun.
  unfold put_proc. rewrite init_Ret by done. eexists. split; [done|]. split; [done|]. split; [done|]. split; [done|].
  destruct Hcase as [(-> & -> & ->)|(-> & c & Hc & Hlive & Hrep & Hframe)].
  - assert (b = NULL) as Hb by (by apply Hb'). assert (set_message_queue (message_queue d) d = d) as Ed by (by destruct d).
    pose proof (queue_insert_nomem _ _ _ _ _ _ E) as Hlive. cbn [fst] in Hlive.
    split; cbn [kernel world objs nodes procs ctxs ports actions set_procs set_nodes]; try done.
    + intros _. split; [|done]. by rewrite Ed, insert_id.
    + exists (message_queue d), cells. split; [done|]. rewrite decide_True, Ed by done.
      split; cbn [kheap objs nodes procs msgs set_procs set_nodes]; [by rewrite lookup_insert_eq|done..| |done|lia].
      eapply Forall2_impl; [exact Hms|]. intros k m' (?&?&?&?). by rewrite Hlive.
  - assert (b <> NULL) as Hb by (by intros ?%Hb').
    assert (c = b) as ->.
    { destruct (kmalloc_fresh _ _ _ _ Eb Hb) as [F L]. assert (c ∈ live h) as K by (rewrite Hlive; set_solver).
      rewrite L in K. set_solver. }
    assert (forall k, k ∈ live (kheap s) -> nodes (objs s) !! k = None -> n !! k = None) as Hnn.
    { intros k Hk Hkn. rewrite Hframe; [done| |].
      - by intros ->.
      - intros Hin. destruct Hq as [Hch _ _ _]. destruct (chain_stored _ _ _ _ Hch Hin) as [[? ?] _]. congruence. }
    split; cbn [kernel world objs nodes procs ctxs ports actions set_procs set_nodes]; try done.
    exists q, (cells ++ [(b, v)]). split; [done|]. rewrite decide_False by done.
    split; cbn [kheap objs nodes procs msgs set_procs set_nodes]; [by rewrite lookup_insert_eq|done|done| | |].
    + apply Forall2_app.
      * eapply Forall2_impl; [exact Hms|]. intros k m' (?&?&?&?). rewrite Hlive.
        split_and!; [done|set_solver|done|by apply Hnn].
      * constructor; [|constructor]. simpl. rewrite Hlive. split_and!; [done|set_solver|done|by apply Hnn].
    + rewrite fmap_app. apply NoDup_app. split; [done|]. split; [|apply NoDup_singleton].
      intros k Hk Hk'. simpl in Hk'. apply list_elem_of_singleton in Hk' as ->. done.
    + rewrite length_app. simpl. lia.
Qed.

(** No object sits at an address the heap may still hand out. *)
Definition objects_live s : Prop := nodes_ok s /\
  (forall p, is_Some (msgs (objs s) !! p) -> p ∈ live (kheap s)).

Lemma queue_message_run s r p d cells ms x a ws v h b h' :
  objects_live s -> names_process s r p -> inbox s p d cells ms ->
  Z.of_nat (length cells) < 2 ^ 32 - 2 ->
  procs (objs s) !! active_process (kernel s) = Some x ->
  length ws = 8%nat -> holds (world s) (as_current (world s)) a ws ->
  Alloc.kmalloc sizeof_message (kheap s) = Ret (v, h) -> Alloc.kmalloc sizeof_queue_node h = Ret (b, h') ->
  if decide (v = NULL) then kernel_queue_message r a s = Ret (ENOMEM, KState (kernel s) h (objs s) (world s))
  else exists s', kernel_queue_message r a s = Ret (ENONE, s') /\ kheap s' = h' /\
    msgs (objs s') = <[v := words_message ws]> (msgs (objs s)) /\ enqueued s s' p d cells ms (words_message ws) b.
Proof.
  intros [Hn Hml] Hr Hi Hs Hx Hw Hh E Eb.
  assert (kernel_queue_message r a s =
    (if v =? NULL then mret ENOMEM
     else ws ← on_world (read_words 8 a); _ ← put_msg v (words_message ws); _ ← enqueue_message p v; mret ENONE)
    (KState (kernel s) h (objs s) (world s))) as ->.
  { unfold kernel_queue_message. unfold mbind at 1, M_mbind at 1.
    rewrite (process_of_run s r p Hr). ostep. rewrite (proj2 (Z.eqb_neq p NULL)) by apply Hi.
    krun. rewrite Hx. krun. rewrite (in_proc _ _ _ _ _ Hi). krun. by rewrite (on_heap_Ret _ s v h E). }
  case_decide as Hv; [by rewrite Hv|]. rewrite (proj2 (Z.eqb_neq _ _) Hv). krun. rewrite <- Hw.
  erewrite on_world_Ret by (by apply read_words_ok). krun.
  unfold put_msg. rewrite init_Ret by done. krun.
  destruct (kmalloc_fresh _ _ _ _ E Hv) as [Hf Hl].
  set (s1 := KState _ h _ _).
  assert (nodes_ok s1) as Hn1 by (intros c Hc; simpl; rewrite Hl; apply elem_of_union_r; by apply Hn).
  assert (nodes (objs s) !! v = None) as Hvn.
  { apply eq_None_not_Some. intros Hc. by apply Hf, Hn. }
  assert (inbox s1 p d cells ms) as Hi1.
  { destruct Hi as [I1 I2 I3 I4 I5 I6]. split; cbn [s1 kheap objs set_msgs procs nodes msgs]; try done.
    eapply Forall2_impl; [exact I4|]. intros c m (?&Hcl&Hcm&?). rewrite Hl.
    split_and!; [done|set_solver|rewrite lookup_insert_ne; [done|]; intros Ev; by rewrite <- Ev in Hcl|done]. }
  destruct (enqueue_run s1 p d cells ms v (words_message ws) b h' Hn1 Hi1 Hs Hv) as (s' & E' & _ & Hh' & Hm' & Q).
  - simpl. rewrite Hl. set_solver.
  - simpl. by rewrite lookup_insert_eq.
  - done.
  - intros Hin. apply list_elem_of_fmap in Hin as (c & -> & Hin).
    apply list_elem_of_lookup in Hin as [j Hj].
    destruct (Forall2_lookup_l _ _ _ _ _ (in_msgs _ _ _ _ _ Hi) Hj) as (m & _ & (_ & Hcl & _)). done.
  - done.
  - rewrite E'. krun. exists s'. split; [done|]. split; [done|]. split; [by rewrite Hm'|]. by destruct Q.
Qed.

(** Direct delivery: the receiver is waiting with a buffer. *)
Definition waiting (d : process_t) : Prop := message_buffer d <> NULL /\ state d = PROCESS_REQUESTING.

Lemma send_run s r p d x c a ws :
  names_process s r p -> p <> NULL -> procs (objs s) !! p = Some d -> waiting d ->
  procs (objs s) !! active_process (kernel s) = Some x -> as_current (world s) = page_table x ->
  active_process (kernel s) <> p -> valid (priority_queue (kernel s)) ->
  ctx d <> NULL -> ctxs (objs s) !! ctx d = Some c ->
  length ws = 8%nat -> holds (world s) (page_table x) a ws -> is_u32 (pid x) ->
  user_range (world s) (page_table d) (message_buffer d) 32 -> as_space (page_table d) -> as_space (page_table x) ->
  exists q w, kernel_send_message r a s = Ret (ENONE, KState (set_priority_queue q (kernel s)) (kheap s)
      (set_ctxs (<[ctx d := set_context_return (err ENONE) c]> (ctxs (objs s)))
        (set_procs (<[p := set_state PROCESS_ACTIVE (set_message_buffer NULL d)]> (procs (objs s))) (objs s))) w) /\
    as_current w = page_table x /\ holds w (page_table d) (message_buffer d) (pid x :: tail ws) /\
    (forall t b, ~ (t = page_table d /\ message_buffer d <= b < message_buffer d + 32) -> as_byte w t b = as_byte (world s) t b) /\
    ((size (priority_queue (kernel s)) < capacity (priority_queue (kernel s)))%nat -> elements q ≡ₚ Node p (priority d) :: ready s) /\
    (~ (size (priority_queue (kernel s)) < capacity (priority_queue (kernel s)))%nat -> q = priority_queue (kernel s)).
Proof.
  intros Hr Hp Hd [Hb Hst] Hx Hcur Hne Hq Hc0 Hc Hlen Hh Hu Hrange Hsd Hsx.
  unfold kernel_send_message. unfold mbind at 1, M_mbind at 1.
  rewrite (process_of_run s r p Hr). ostep. rewrite (proj2 (Z.eqb_neq p NULL)) by done.
  krun. rewrite Hd. krun. rewrite (proj2 (Z.eqb_neq _ _) Hb), (bool_decide_eq_true_2 _ Hst). cbn [negb andb].
  krun. rewrite Hx. krun. rewrite <- Hcur in Hh.
  erewrite on_world_Ret by (rewrite <- Hlen; by apply read_words_ok). krun.
  assert (as_wf (world s)) as Hwf by (destruct Hrange; done).
  destruct (as_load_ok (page_table d) (world s) Hwf Hsd) as (w1 & E1 & F1 & C1 & B1).
  erewrite on_world_Ret by (exact E1). krun.
  destruct ws as [|w0 [|w1' ws]]; [done..|]. cbn [words_message code args].
  cbn [tail]. assert (holds (world s) (as_current (world s)) a (w0 :: w1' :: ws)) as Hh' by done.
  destruct Hh' as (_ & _ & Hrest).
  destruct (write_words_ok w1 (message_buffer d) (pid x :: w1' :: ws)) as (w2 & E2 & O2 & V2).
  { constructor; [done|]. by apply holds_u32 in Hrest. }
  { rewrite C1. cbn [length] in *. split; [done|]. intros i Hi. rewrite B1. apply Hrange. lia. }
  unfold message_words. cbn [sender code args]. erewrite on_world_Ret by (exact E2). krun.
  destruct (as_load_ok (page_table x) w2 (proj1 O2) Hsx) as (w3 & E3 & F3 & C3 & B3).
  erewrite on_world_Ret by (exact E3). krun.
  erewrite upd_proc_run by done. krun.
  erewrite upd_proc_run by (done || apply lookup_insert_eq). krun.
  erewrite upd_ctx_run by done. krun.
  match goal with |- context [make_ready p (priority d) ?s1] => set (s2 := s1) end.
  destruct (make_ready_cases s2 p (priority d) Hq) as (q & Eq & _ & _ & P1 & P2). rewrite Eq. krun.
  exists q, w3. rewrite C1 in O2, V2. split; [|split; [done|split; [|split; [|by split]]]].
  - unfold s2, set_kernel. cbn [kernel kheap objs world set_procs procs]. by rewrite insert_insert_eq.
  - eapply load_holds; [exact F3| |exact V2]. done.
  - intros t b Hn. rewrite B3. destruct O2 as (_ & _ & _ & O2). rewrite O2, B1; [done|].
    cbn [length] in *. intros [-> ?]. apply Hn. split; [done|lia].
Qed.
End running.

(** ** A small system for concrete runs

    Process 1 (space 0x1000) is active, process 2 (space 0x2000) waits for a
    message at 0x6000. *)
Definition demo_p1 : process_t :=
  Process 1 1 0x1000 PROCESS_ACTIVE queue_construct queue_construct NULL 4224.
Definition demo_p2 : process_t :=
  Process 2 1 0x2000 PROCESS_REQUESTING queue_construct queue_construct 0x6000 4352.
Definition demo_world : flat :=
  Flat 0x1000 (flat_fill 32 0x2000 0x6000 (flat_fill 256 0x1000 0x4F00 ∅)) 0x20000.
Definition demo_objects : objects :=
  Objects ∅ {[4160 := demo_p1; 4288 := demo_p2]} {[4224 := demo_context; 4352 := demo_context]} ∅ ∅ ∅.
Definition demo_kernel : kernel_t :=
  Kernel_ [] (empty_queue 2) Leaf Leaf (Nd 8 1 2 4288 Leaf Leaf) 4160 3.
Definition demo_system : kst demo_heap flat := KState demo_kernel demo0 demo_objects demo_world.

Lemma demo_names_2 : names_process demo_system 2 4288.
Proof. split; [|reflexivity]. unfold bst. simpl. repeat constructor. Qed.

Lemma demo_sched_inv : sched_inv demo_system.
Proof.
  split.
  - apply (empty_queue_valid 2).
  - intros _. eexists. reflexivity.
  - intros y Hy. by apply elem_of_nil in Hy.
  - exact I.
  - done.
Qed.

Lemma demo_port_inv : port_inv demo_system.
Proof.
  split; simpl; try constructor.
  - intros a Ha. by apply elem_of_nil in Ha.
  - by destruct H as [? ?].
  - by apply not_elem_of_nil.
  - by destruct k.
  - by destruct k.
Qed.

Lemma demo_holds : holds demo_world 0x1000 0x4F00 (replicate 8 0).
Proof. repeat (split; [by split|split; [by vm_compute|]]). done. Qed.

Lemma demo_buffer : user_range demo_world 0x2000 0x6000 32.
Proof.
  split; [exact I|]. intros i Hi. cbn [as_byte flat_spaces_ok]. apply fmap_is_Some. unfold demo_world. cbn [flat_bytes].
  apply flat_fill_lookup. left. lia.
Qed.

(** * Properties *)

(** The scheduler chooses among the processes of [l]: it panics if there are
    none; otherwise it enters one of least priority value, loads its address
    space, returns its context, and leaves the others of [l] in the ready queue
    and everything else as it was. *)
Definition schedules {H W} `{KHeapOk H, AddressSpacesOk W} (s : kst H W) (l : list priority_queue_node_t) : Prop :=
  (l = [] /\ kernel_advance_scheduler s = Panic) \/
  (exists y x q w, kernel_advance_scheduler s = Ret (ctx x, with_queue s q (value y) w) /\
    procs (objs s) !! value y = Some x /\ l ≡ₚ y :: elements q /\
    (forall z, z ∈ l -> PriorityQueue.priority y <= PriorityQueue.priority z) /\
    as_current w = page_table x /\ (forall t a, as_byte w t a = as_byte (world s) t a) /\
    sched_inv (with_queue s q (value y) w)).

(** C9: With room in the ready queue for the active process,
    [kernel_advance_scheduler] chooses among the active process and the ready ones,
    and none of them is lost.  When the queue is full it chooses among the ready
    ones only, and the active process is not put back: it is lost. *)
Theorem kernel_advance_scheduler_spec {H W} `{KHeapOk H, AddressSpacesOk W} (s : kst H W) :
  sched_inv s -> (has_room s -> schedules s (contenders s)) /\ (~ has_room s -> schedules s (ready s)).
Proof.
  intros Hs. assert (schedules s (requeued s)) as K; [|unfold requeued in K; case_decide; tauto].
  destruct (advance_run s Hs) as [Hp|(y & x & q & w & E & P & Hmin & Hv & Hn & Hx & Hw & Hc & Hb & _)]; [by left|right].
  exists y, x, q, w. split_and!; try done. split; [done|by intros _; eexists| |done|apply Hs]. intros z Hz.
  apply (requeued_known s z Hs). rewrite P. by apply list_elem_of_further.
Qed.

(** Process 1 runs and the queue, which has one place, holds process 2. *)
Definition demo_full : kst demo_heap flat :=
  KState (set_priority_queue (Queue [Node 4288 1] 1 1) demo_kernel) demo0 demo_objects demo_world.

Lemma demo_full_inv : sched_inv demo_full.
Proof.
  split.
  - split; [by split|]. intros p c Hc Hlt. apply child_lt in Hc. simpl in Hlt. lia.
  - intros _. by eexists.
  - intros y Hy. apply list_elem_of_singleton in Hy as ->. split; [done|by eexists].
  - exact I.
  - done.
Qed.

Lemma kernel_advance_scheduler_spec_witness :
  (exists c s', kernel_advance_scheduler demo_system = Ret (c, s') /\ sched_inv s' /\ active_process (kernel s') = 4160) /\
  (exists c s', kernel_advance_scheduler demo_full = Ret (c, s') /\ active_process (kernel s') = 4288 /\ ready s' = []).
Proof.
  destruct (kernel_advance_scheduler_spec demo_system demo_sched_inv) as [H1 _].
  destruct (kernel_advance_scheduler_spec demo_full demo_full_inv) as [_ H2]. split.
  - destruct H1 as [[H1 _]|(y & x & q & w & E & _ & P & _ & _ & _ & I)]; [right; cbn; lia|discriminate H1|].
    exists (ctx x), (with_queue demo_system q (value y) w). split; [exact E|]. split; [exact I|].
    change (contenders demo_system) with [Node 4160 1] in P. apply Permutation_singleton_l in P. injection P as Ey _.
    cbn [with_queue kernel set_active_process active_process]. by rewrite <- Ey.
  - destruct H2 as [[H2 _]|(y & x & q & w & E & _ & P & _)]; [intros [H2|H2]; [discriminate H2|cbn in H2; lia]|discriminate H2|].
    exists (ctx x), (with_queue demo_full q (value y) w). split; [exact E|].
    change (ready demo_full) with [Node 4288 1] in P. apply Permutation_singleton_l in P. injection P as Ey Eq.
    cbn [with_queue kernel set_active_process active_process]. split; [by rewrite <- Ey|]. exact (eq_sym Eq).
Defined.

(** When the ready queue is full, the scheduler loses the active process:
    the insertion's status is ignored, and afterwards the process is neither
    active nor ready, though it has not been terminated. *)
Theorem scheduler_drops_active_when_full {H W} `{KHeapOk H, AddressSpacesOk W} (s : kst H W) a :
  sched_inv s -> active_process (kernel s) = a -> a <> NULL ->
  size (priority_queue (kernel s)) = capacity (priority_queue (kernel s)) ->
  ready s <> [] -> (forall y, y ∈ ready s -> value y <> a) ->
  exists c s', kernel_advance_scheduler s = Ret (c, s') /\
    active_process (kernel s') <> a /\ (forall y, y ∈ ready s' -> value y <> a) /\
    is_Some (procs (objs s') !! a).
Proof.
  intros Hs Ea Hne Hfull Hready Hnot. pose proof (sc_active s Hs) as Ha. rewrite Ea in Ha.
  destruct (Ha Hne) as [xa Hxa].
  assert (requeued s = ready s) as Ec.
  { unfold requeued, has_room. rewrite decide_False; [done|]. intros [?|?]; [congruence|lia]. }
  destruct (advance_run s Hs) as [[E0 _]|(y & x & q & w & E & P & _)]; [congruence|].
  rewrite Ec in P. exists (ctx x), (with_queue s q (value y) w). split; [done|].
  split; [apply Hnot; rewrite P; by apply list_elem_of_here|]. split; [|by eexists].
  intros z Hz. apply Hnot. rewrite P. by apply list_elem_of_further.
Qed.

Lemma scheduler_drops_active_when_full_witness : exists c s',
  kernel_advance_scheduler demo_full = Ret (c, s') /\ active_process (kernel s') <> 4160.
Proof.
  destruct (scheduler_drops_active_when_full demo_full 4160) as (c & s' & H1 & H2 & _);
    [exact demo_full_inv|reflexivity|discriminate|reflexivity|discriminate| |].
  { intros y Hy. apply list_elem_of_singleton in Hy as ->. discriminate. }
  exists c, s'. split; [exact H1|exact H2].
Defined.

(** [n] time slices: the processes entered, in order. *)
Fixpoint slices {H W} `{KHeap H, AddressSpaces W} (n : nat) (s : kst H W) : outcome (list Z) :=
  match n with
  | O => Ret []
  | S n =>
    '(_, s) ← kernel_advance_scheduler s;
    l ← slices n s;
    Ret (active_process (kernel s) :: l)
  end.

(** Four processes of equal priority, 1 running and 2, 3 and 4 made ready in
    this order (their addresses are 101 to 104). *)
Definition equal_process (n : Z) : process_t :=
  Process n 1 (0x1000 * n) PROCESS_ACTIVE queue_construct queue_construct NULL (200 + n).
Definition four_kernel (cells : list Z) (a : Z) : kst demo_heap flat :=
  KState (Kernel_ [] (Queue (map (fun n => Node (100 + n) 1) cells) 3 4) Leaf Leaf Leaf (100 + a) 5) demo0
    (Objects ∅ (list_to_map (map (fun n => (100 + n, equal_process n)) [1; 2; 3; 4])) ∅ ∅ ∅ ∅)
    (Flat (0x1000 * a) ∅ 0).

Definition starving : kst demo_heap flat := four_kernel [2; 3; 4; 1] 1.

(** The scheduler starves equals: of four processes of the same priority
    that never block, the one queued third never runs, however long the
    system goes on; the other three take turns. *)
Theorem equal_priority_starvation n :
  exists l, slices n starving = Ret l /\ 104 ∉ l /\ length l = n.
Proof.
  assert (forall s1 s2 c, kernel_advance_scheduler s1 = Ret (c, s2) ->
    active_process (kernel s2) <> 104 ->
    forall m, (exists l, slices m s2 = Ret l /\ 104 ∉ l /\ length l = m) ->
    exists l, slices (S m) s1 = Ret l /\ 104 ∉ l /\ length l = S m) as Hstep.
  { intros s1 s2 c E Ha m (l & El & Hn & Hl). cbn [slices]. rewrite E. ostep. rewrite El. ostep.
    eexists. split; [done|]. split; [|simpl; by rewrite Hl].
    rewrite elem_of_cons. intros [?|?]; [by apply Ha|done]. }
  assert (forall m,
    (exists l, slices m (four_kernel [2; 3; 4; 1] 1) = Ret l /\ 104 ∉ l /\ length l = m) /\
    (exists l, slices m (four_kernel [3; 1; 4; 1] 2) = Ret l /\ 104 ∉ l /\ length l = m) /\
    (exists l, slices m (four_kernel [1; 2; 4; 2] 3) = Ret l /\ 104 ∉ l /\ length l = m) /\
    (exists l, slices m (four_kernel [2; 3; 4; 3] 1) = Ret l /\ 104 ∉ l /\ length l = m)) as Hall.
  { induction m as [|m (I1 & I2 & I3 & I4)].
    { split_and!; (eexists; split; [done|]; split; [apply not_elem_of_nil|done]). }
    split_and!; (eapply Hstep; [vm_compute; reflexivity|discriminate|]); done. }
  apply Hall.
Qed.

(** [kernel_create_port] on a free number, with memory for the port and
    its tree node and a balanced table, makes the active process its owner
    and leaves every other port alone; on a number in use it returns EEXISTS
    and changes nothing. *)
Theorem kernel_create_port_spec {H W} `{KHeapOk H, AddressSpacesOk W} (s : kst H W) i x p1 h1 p2 h2 :
  port_inv s -> avl (port_table (kernel s)) -> procs (objs s) !! active_process (kernel s) = Some x ->
  Alloc.kmalloc sizeof_port (kheap s) = Ret (p1, h1) -> p1 <> NULL ->
  Alloc.kmalloc sizeof_avltree h1 = Ret (p2, h2) -> p2 <> NULL ->
  match port_owner s i with
  | Some _ => kernel_create_port i s = Ret (EEXISTS, s)
  | None => exists s', kernel_create_port i s = Ret (ENONE, s') /\ port_inv s' /\
      forall j, port_owner s' j = if decide (s32 j = s32 i) then Some (pid x) else port_owner s j
  end.
Proof.
  intros Hi Ha Hx E1 N1 E2 N2. destruct (port_owner s i) as [o|] eqn:Eo.
  - by apply (create_port_exists s i o).
  - destruct (create_port_run s i _ x Hi Ha eq_refl Hx Eo p1 h1 p2 h2 E1 N1 E2 N2) as (s' & E & Hi' & _ & _ & Ho).
    exists s'. done.
Qed.

Lemma kernel_create_port_spec_witness : exists s',
  kernel_create_port 7 demo_system = Ret (ENONE, s') /\ port_inv s' /\
  forall j, port_owner s' j = if decide (s32 j = s32 7) then Some 1 else port_owner demo_system j.
Proof.
  apply (kernel_create_port_spec demo_system 7 demo_p1 64 (DemoHeap 2 1000 {[64]}) 128 (DemoHeap 3 1000 {[128; 64]}));
    [exact demo_port_inv|exact I|reflexivity|reflexivity|discriminate|reflexivity|discriminate].
Defined.

(** Opening a port when the kernel heap is exhausted writes the port
    through NULL: the result of [kmalloc] is not tested. *)
Theorem kernel_create_port_out_of_memory {H W} `{KHeapOk H, AddressSpacesOk W} (s : kst H W) i h :
  port_inv s -> port_owner s i = None -> Alloc.kmalloc sizeof_port (kheap s) = Ret (NULL, h) ->
  kernel_create_port i s = Fault.
Proof. apply create_port_no_memory. Qed.

Definition demo_no_memory : kst demo_heap flat := KState demo_kernel (DemoHeap 1 1 ∅) demo_objects demo_world.

Lemma kernel_create_port_out_of_memory_witness : kernel_create_port 7 demo_no_memory = Fault.
Proof.
  apply (kernel_create_port_out_of_memory demo_no_memory 7 (DemoHeap 1 1 ∅)); [|reflexivity|reflexivity].
  destruct demo_port_inv as [P1 P2 P3 P4 P5 P6]. split; [exact P1|exact P2|exact P3| |intros p [y Hy]; discriminate Hy|exact P6].
  intros a Ha. by apply elem_of_nil in Ha.
Defined.

(** C37: [kernel_remove_port] checks before it acts: EDOESNTEXIST for a number
    that is not open and EPERM for another process's port, both without
    effect; the owner's port is removed and released, no other port changes. *)
Theorem kernel_remove_port_spec {H W} `{KHeapOk H, AddressSpacesOk W} (s : kst H W) i x :
  port_inv s -> procs (objs s) !! active_process (kernel s) = Some x ->
  match port_owner s i with
  | None => kernel_remove_port i s = Ret (EDOESNTEXIST, s)
  | Some o =>
    if decide (o = pid x) then
      exists s', kernel_remove_port i s = Ret (ENONE, s') /\ port_inv s' /\
        forall j, port_owner s' j = if decide (s32 j = s32 i) then None else port_owner s j
    else kernel_remove_port i s = Ret (EPERM, s)
  end.
Proof.
  intros Hi Hx. pose proof (remove_port_run s i x Hi Hx) as R.
  destruct (port_owner s i) as [o|]; [|done]. case_decide; [|done].
  destruct R as (s' & E & Hi' & _ & _ & Ho). by exists s'.
Qed.

(** Port 7 open, owned by process 1. *)
Definition demo_port_system : kst demo_heap flat :=
  KState (set_port_table (Nd 128 1 7 64 Leaf Leaf) demo_kernel) (DemoHeap 3 1000 {[128; 64]})
    (set_ports {[64 := Port 7 1]} demo_objects) demo_world.

Lemma demo_port_system_inv : port_inv demo_port_system.
Proof.
  split; simpl.
  - unfold bst. simpl. repeat constructor.
  - done.
  - apply NoDup_singleton.
  - intros a ->%list_elem_of_singleton. set_solver.
  - intros p [y Hy]. apply lookup_singleton_Some in Hy as [<- _]. split; [set_solver|].
    by intros ?%list_elem_of_singleton.
  - intros k p Hk. unfold avl_map in Hk. simpl in Hk.
    apply lookup_insert_Some in Hk as [[<- <-]|[_ Hk]]; [|done].
    split; [done|]. eexists. split; [reflexivity|done].
Qed.

Lemma kernel_remove_port_spec_witness : exists s',
  kernel_remove_port 7 demo_port_system = Ret (ENONE, s') /\ port_inv s' /\
  forall j, port_owner s' j = if decide (s32 j = s32 7) then None else port_owner demo_port_system j.
Proof. apply (kernel_remove_port_spec demo_port_system 7 demo_p1); [exact demo_port_system_inv|reflexivity]. Defined.

(** [kernel_get_port_owner] is lookup in the table of ports, with 0 for
    none, and changes nothing. *)
Theorem kernel_get_port_owner_spec {H W} `{KHeapOk H, AddressSpacesOk W} (s : kst H W) i :
  port_inv s -> kernel_get_port_owner i s = Ret (default 0 (port_owner s i), s).
Proof. apply get_port_owner_run. Qed.

Lemma kernel_get_port_owner_spec_witness :
  kernel_get_port_owner 7 demo_port_system = Ret (1, demo_port_system).
Proof. apply (kernel_get_port_owner_spec demo_port_system 7), demo_port_system_inv. Defined.

(** C7: [kernel_send_message] to a process that waits with a buffer copies the
    message from the sender's space into the buffer in the receiver's space,
    with the sender field set to the caller's pid; the receiver becomes active with
    return value ENONE, no longer waits, and goes into the ready queue if there is
    room there; when there is none, the queue stays as it is and the receiver is
    active but in no queue.  The caller's space is the current one again.
    Nothing else changes: no other byte of memory, no other object or field of
    the kernel, and not the heap. *)
Theorem kernel_send_message_delivers {H W} `{KHeapOk H, AddressSpacesOk W} (s : kst H W) r p d x c a ws :
  names_process s r p -> p <> NULL -> procs (objs s) !! p = Some d -> waiting d ->
  procs (objs s) !! active_process (kernel s) = Some x -> as_current (world s) = page_table x ->
  active_process (kernel s) <> p -> valid (priority_queue (kernel s)) ->
  ctx d <> NULL -> ctxs (objs s) !! ctx d = Some c ->
  length ws = 8%nat -> holds (world s) (page_table x) a ws -> is_u32 (pid x) ->
  user_range (world s) (page_table d) (message_buffer d) 32 -> as_space (page_table d) -> as_space (page_table x) ->
  exists q w, kernel_send_message r a s = Ret (ENONE, KState (set_priority_queue q (kernel s)) (kheap s)
      (set_ctxs (<[ctx d := set_context_return (err ENONE) c]> (ctxs (objs s)))
        (set_procs (<[p := set_state PROCESS_ACTIVE (set_message_buffer NULL d)]> (procs (objs s))) (objs s))) w) /\
    as_current w = page_table x /\ holds w (page_table d) (message_buffer d) (pid x :: tail ws) /\
    (forall t b, ~ (t = page_table d /\ message_buffer d <= b < message_buffer d + 32) -> as_byte w t b = as_byte (world s) t b) /\
    ((size (priority_queue (kernel s)) < capacity (priority_queue (kernel s)))%nat -> elements q ≡ₚ Node p (priority d) :: ready s) /\
    (~ (size (priority_queue (kernel s)) < capacity (priority_queue (kernel s)))%nat -> q = priority_queue (kernel s)).
Proof. intros. by apply send_run. Qed.

Lemma kernel_send_message_delivers_witness : exists q w,
  kernel_send_message 2 0x4F00 demo_system = Ret (ENONE, KState (set_priority_queue q demo_kernel) demo0
    (set_ctxs (<[4352 := set_context_return 0 demo_context]> (ctxs demo_objects))
      (set_procs (<[4288 := set_state PROCESS_ACTIVE (set_message_buffer NULL demo_p2)]> (procs demo_objects)) demo_objects)) w) /\
  holds w 0x2000 0x6000 [1; 0; 0; 0; 0; 0; 0; 0] /\ elements q = [Node 4288 1].
Proof.
  destruct (kernel_send_message_delivers demo_system 2 4288 demo_p2 demo_p1 demo_context 0x4F00 (replicate 8 0))
    as (q & w & H1 & _ & H2 & _ & H3 & _);
    [exact demo_names_2|discriminate|reflexivity|split; [discriminate|reflexivity]|reflexivity|reflexivity
    |discriminate|apply (empty_queue_valid 2)|discriminate|reflexivity|reflexivity|exact demo_holds|by split|exact demo_buffer|exact I|exact I|].
  exists q, w. split; [exact H1|]. split; [exact H2|]. apply Permutation_singleton_r, H3. cbn. lia.
Defined.

(** [kernel_send_message] refuses without effect: EDOESNTEXIST for a pid no
    process has, EBUSY for a process that is not waiting for a message. *)
Theorem kernel_send_message_refuses {H W} `{KHeapOk H, AddressSpacesOk W} (s : kst H W) r a :
  bst (process_table (kernel s)) ->
  (avl_map (process_table (kernel s)) !! s32 r = None -> kernel_send_message r a s = Ret (EDOESNTEXIST, s)) /\
  (forall p d, avl_map (process_table (kernel s)) !! s32 r = Some p -> p <> NULL ->
    procs (objs s) !! p = Some d -> ~ waiting d -> kernel_send_message r a s = Ret (EBUSY, s)).
Proof.
  intros Hb. unfold kernel_send_message. split.
  - intros Hn. krun. by rewrite avl_get_ok, Hn.
  - intros p d Hp Hp0 Hd Hw. krun. rewrite avl_get_ok, Hp by done. simpl (default _ _).
    rewrite (proj2 (Z.eqb_neq _ _) Hp0). krun. rewrite Hd. krun.
    destruct (Z.eqb_spec (message_buffer d) NULL) as [|Hn]; [done|].
    case_bool_decide; [|done]. by destruct Hw.
Qed.

Lemma kernel_send_message_refuses_witness : kernel_send_message 9 0x4F00 demo_system = Ret (EDOESNTEXIST, demo_system).
Proof. apply (kernel_send_message_refuses demo_system 9 0x4F00); [apply demo_names_2|reflexivity]. Defined.

(** C28: [kernel_queue_message] allocates a block for the message and a node for
    the queue.  With both, it returns ENONE and the message is the last of the
    receiver's, after those that were waiting; without the block it returns ENOMEM
    and only the allocator has changed; without the node it returns ENONE all the
    same, and the message is dropped and its block lost.  The queued message is
    the words of the caller's memory, the sender field included: a process can send
    in another's name.  No memory, no field of the kernel and no other object
    changes. *)
Theorem kernel_queue_message_spec {H W} `{KHeapOk H, AddressSpacesOk W} (s : kst H W) r p d cells ms x a ws v h b h' :
  objects_live s -> names_process s r p -> inbox s p d cells ms ->
  Z.of_nat (length cells) < 2 ^ 32 - 2 ->
  procs (objs s) !! active_process (kernel s) = Some x ->
  length ws = 8%nat -> holds (world s) (as_current (world s)) a ws ->
  Alloc.kmalloc sizeof_message (kheap s) = Ret (v, h) -> Alloc.kmalloc sizeof_queue_node h = Ret (b, h') ->
  if decide (v = NULL) then kernel_queue_message r a s = Ret (ENOMEM, KState (kernel s) h (objs s) (world s))
  else exists s', kernel_queue_message r a s = Ret (ENONE, s') /\ kheap s' = h' /\
    msgs (objs s') = <[v := words_message ws]> (msgs (objs s)) /\ enqueued s s' p d cells ms (words_message ws) b.
Proof. apply queue_message_run. Qed.

Lemma demo_objects_live : objects_live demo_system.
Proof. split; [intros a [y Hy]; discriminate Hy|intros a [y Hy]; discriminate Hy]. Qed.

Lemma demo_inbox p d : p <> NULL -> procs demo_objects !! p = Some d -> message_queue d = queue_construct ->
  inbox demo_system p d [] [].
Proof.
  intros Hp Hd Hq. split; [done|done| |constructor|constructor|simpl; lia].
  rewrite Hq. split; [done|done|done|constructor].
Qed.

Lemma kernel_queue_message_spec_witness : exists s' q cells,
  kernel_queue_message 2 0x4F00 demo_system = Ret (ENONE, s') /\
  procs (objs s') !! 4288 = Some (set_message_queue q demo_p2) /\
  inbox s' 4288 (set_message_queue q demo_p2) cells [words_message (replicate 8 0)].
Proof.
  pose proof (kernel_queue_message_spec demo_system 2 4288 demo_p2 [] [] demo_p1 0x4F00 (replicate 8 0)
    64 (DemoHeap 2 1000 {[64]}) 128 (DemoHeap 3 1000 {[128; 64]})) as K.
  destruct K as (s' & H1 & _ & _ & [_ _ _ _ _ (q & cells & H2 & H3)]);
    [exact demo_objects_live|exact demo_names_2|apply demo_inbox; [discriminate|reflexivity|reflexivity]
    |simpl; lia|reflexivity|reflexivity|exact demo_holds|reflexivity|reflexivity|].
  exists s', q, cells. split; [exact H1|]. split; [by rewrite H2|exact H3].
Defined.

(** C23: [receive_message] with messages waiting delivers the oldest: its words
    are in the buffer, only the buffer changes in memory, and the queue holds
    the rest in order; the process keeps running. *)
Theorem receive_message_delivers {H W} `{KHeapOk H, AddressSpacesOk W} (s : kst H W) d a v cells m ms buffer fl :
  nodes_ok s -> inbox s (active_process (kernel s)) d ((a, v) :: cells) (m :: ms) ->
  Forall is_u32 (message_words m) -> length (message_words m) = 8%nat ->
  user_range (world s) (as_current (world s)) buffer 32 ->
  exists s' d', receive_message buffer fl s = Ret (Returned ENONE, s') /\
    kernel s' = kernel s /\
    only_writes (world s) (world s') (as_current (world s)) buffer 32 /\
    holds (world s') (as_current (world s)) buffer (message_words m) /\
    inbox s' (active_process (kernel s)) d' cells ms.
Proof.
  intros Hn Hi Hu Hl Hr.
  destruct (receive_run s d a v cells m ms buffer fl Hn Hi Hu) as (s' & q & E & _ & K1 & K2 & K3 & K4);
    [by rewrite Hl|]. rewrite Hl in K2. eexists _, _. split; [done|]. done.
Qed.

Definition demo_message : message_t := Message 5 6 (replicate 6 7).
(** One message, in block 128, waiting at process 1; its node is block 64. *)
Definition demo_mail : kst demo_heap flat :=
  KState demo_kernel (DemoHeap 3 1000 {[64; 128]})
    (Objects {[64 := QNode 128 NULL]}
      {[4160 := set_message_queue (MkQueue 1 64 64) demo_p1]} {[4224 := demo_context]} {[128 := demo_message]} ∅ ∅)
    demo_world.

Lemma receive_message_delivers_witness : exists s',
  receive_message 0x4F00 0 demo_mail = Ret (Returned ENONE, s') /\
  holds (world s') 0x1000 0x4F00 (message_words demo_message).
Proof.
  destruct (receive_message_delivers demo_mail (set_message_queue (MkQueue 1 64 64) demo_p1)
    64 128 [] demo_message [] 0x4F00 0) as (s' & d' & H1 & _ & _ & H2 & _).
  - intros a [y Hy]. cbn in Hy. apply lookup_singleton_Some in Hy as [<- _]. simpl. set_solver.
  - split; [reflexivity|discriminate| | |repeat constructor; by apply not_elem_of_nil|simpl; lia].
    + split; [|reflexivity|reflexivity|apply NoDup_singleton].
      split; [reflexivity|]. split; [discriminate|]. exists NULL. split; reflexivity.
    + constructor; [|constructor]. split_and!; [discriminate|simpl; set_solver|reflexivity|reflexivity].
  - repeat (constructor; [by split|]). constructor.
  - reflexivity.
  - split; [exact I|]. intros i Hi. cbn [as_byte flat_spaces_ok as_current demo_mail world demo_world flat_cur].
    apply fmap_is_Some. unfold demo_world. cbn [flat_bytes].
    apply flat_fill_keeps, flat_fill_lookup. left. lia.
  - exists s'. split; [exact H1|exact H2].
Defined.

(** [receive_message] with an empty queue returns EDOESNTEXIST when it was
    asked not to wait; otherwise the process waits with its buffer recorded
    and the scheduler enters the least ready process, or panics when no other
    process is ready. *)
Theorem receive_message_waits {H W} `{KHeapOk H, AddressSpacesOk W} (s : kst H W) d buffer fl :
  inbox s (active_process (kernel s)) d [] [] -> sched_inv s ->
  (Z.land fl IO_OP = IO_ASYNC -> receive_message buffer fl s = Ret (Returned EDOESNTEXIST, s)) /\
  (Z.land fl IO_OP <> IO_ASYNC ->
    (ready s = [] /\ receive_message buffer fl s = Panic) \/
    exists y c s', receive_message buffer fl s = Ret (LoadContext c, s') /\
      active_process (kernel s') = value y /\ ready s ≡ₚ y :: ready s' /\
      (forall z, z ∈ ready s -> PriorityQueue.priority y <= PriorityQueue.priority z) /\
      procs (objs s') = <[active_process (kernel s) :=
        set_state PROCESS_REQUESTING (set_message_buffer buffer d)]> (procs (objs s))).
Proof.
  intros Hi Hs. split; [by apply (receive_empty s d [])|]. intros Hf.
  pose proof (inbox_count _ _ _ _ _ Hi) as Hc. cbn [length] in Hc.
  pose proof (in_proc _ _ _ _ _ Hi) as Hp. pose proof (in_null _ _ _ _ _ Hi) as Hp0.
  unfold receive_message. krun. rewrite Hp. krun.
  rewrite Hc. change (0 <? Z.of_nat 0) with false. cbv iota. rewrite (proj2 (Z.eqb_neq _ _) Hf). krun.
  erewrite upd_proc_run by done. krun. erewrite upd_proc_run by (done || apply lookup_insert_eq). krun.
  match goal with |- context [kernel_advance_scheduler ?s0] => set (s1 := s0) end.
  assert (procs (objs s1) = <[active_process (kernel s) :=
    set_state PROCESS_REQUESTING (set_message_buffer buffer d)]> (procs (objs s))) as Ep.
  { cbn [s1 objs set_procs procs set_kernel]. by rewrite insert_insert_eq. }
  assert (sched_inv s1) as Hs1.
  { destruct Hs as [V A R F Sp]. split; [done|done| |done|].
    - intros y Hy. destruct (R y Hy) as [N S]. split; [done|]. rewrite Ep. apply lookup_insert_is_Some.
      destruct (decide (active_process (kernel s) = value y)); auto.
    - intros p x. rewrite Ep. intros [[<- <-]|[_ Hx]]%lookup_insert_Some; [by apply (Sp _ _ Hp)|by apply (Sp p)]. }
  assert (requeued s1 = ready s) as Ec by (unfold requeued, contenders, has_room; by rewrite !decide_True by (by left)).
  destruct (advance_run s1 Hs1) as [[E0 E]|(y & x & q & w & E & P & Hmin & _)]; rewrite Ec in *.
  - left. split; [done|]. by rewrite E.
  - right. rewrite E. krun. exists y, (ctx x), (with_queue s1 q (value y) w).
    split; [done|]. split; [done|]. split; [done|]. split; [done|]. exact Ep.
Qed.

Lemma receive_message_waits_witness :
  receive_message 0x4F00 0 demo_system = Panic /\
  receive_message 0x4F00 1 demo_system = Ret (Returned EDOESNTEXIST, demo_system).
Proof.
  assert (inbox demo_system 4160 demo_p1 [] []) as Hi by (apply demo_inbox; [discriminate|reflexivity|reflexivity]).
  destruct (receive_message_waits demo_system demo_p1 0x4F00 1 Hi demo_sched_inv) as [H1 _].
  destruct (receive_message_waits demo_system demo_p1 0x4F00 0 Hi demo_sched_inv) as [_ H2].
  split; [|apply H1; reflexivity]. destruct H2 as [[_ H2]|(y & c & s' & _ & _ & P & _)]; [discriminate|exact H2|].
  exfalso. apply Permutation_length in P. discriminate P.
Defined.

(** ** System calls *)
Definition table_ok {H W} (s : kst H W) : Prop :=
  length (syscall_table (kernel s)) = Z.to_nat MAX_SYSCALL_ID.

Lemma array_get_table {H W} (s : kst H W) i : table_ok s -> 0 <= i < MAX_SYSCALL_ID ->
  exists e, array_get (syscall_table (kernel s)) (Z.to_nat i) = Ret e /\
    syscall_table (kernel s) !! Z.to_nat i = Some e.
Proof.
  intros Ht Hi. destruct (lookup_lt_is_Some_2 (syscall_table (kernel s)) (Z.to_nat i)) as [e He];
    [rewrite Ht; lia|]. exists e. split; [by apply array_get_Some|done].
Qed.

Lemma array_get_256 {H W} (s : kst H W) : table_ok s ->
  array_get (syscall_table (kernel s)) (Z.to_nat MAX_SYSCALL_ID) = Fault.
Proof.
  intros Ht. unfold array_get. rewrite lookup_ge_None_2; [done|]. by rewrite Ht.
Qed.

Lemma syscall_guard i : 0 <= i < MAX_SYSCALL_ID -> (i <? 0) || (MAX_SYSCALL_ID <? i) = false.
Proof. intros. apply orb_false_iff. split; apply Z.ltb_ge; lia. Qed.

(** [do_syscall] with an unregistered number returns ENOSYSCALL and changes
    nothing: negative numbers, numbers above the limit, and free slots. *)
Theorem do_syscall_unregistered {H W} `{KHeap H, AddressSpaces W} uninit call (s : kst H W) i a1 a2 a3 pc sp fl :
  table_ok s ->
  i < 0 \/ MAX_SYSCALL_ID < i \/
    (0 <= i < MAX_SYSCALL_ID /\ forall e, syscall_table (kernel s) !! Z.to_nat i = Some e -> defined e = false) ->
  do_syscall uninit call i a1 a2 a3 pc sp fl s = Ret (Returned (err ENOSYSCALL), s).
Proof.
  intros Ht Hi. unfold do_syscall. destruct Hi as [Hi|[Hi|[Hi He]]].
  - by rewrite (proj2 (Z.ltb_lt i 0)).
  - rewrite (proj2 (Z.ltb_lt MAX_SYSCALL_ID i)) by done. by rewrite orb_true_r.
  - rewrite syscall_guard by done. destruct (array_get_table s i Ht Hi) as (e & E & El).
    krun. unfold liftO. rewrite E. krun. by rewrite (He e El).
Qed.

Definition demo_table (e : syscall_t) : kst demo_heap flat :=
  KState (set_syscall_table (e :: replicate 255 (Syscall false 0 0 0)) demo_kernel) demo0 demo_objects demo_world.
Definition no_call : Z -> list Z -> M (kst demo_heap flat) (exit Z) := fun _ _ => mret (Returned 42).

Lemma do_syscall_unregistered_witness :
  do_syscall 0 no_call 300 1 2 3 4 5 6 (demo_table (Syscall true 0 0 1)) =
    Ret (Returned (err ENOSYSCALL), demo_table (Syscall true 0 0 1)).
Proof.
  apply do_syscall_unregistered; [reflexivity|]. right. left. reflexivity.
Defined.

(** C40: The limit check is off by one: number 256 passes it, and both
    [do_syscall] and [set_syscall] then read past the end of the table of 256
    entries.  The number of a system call comes from user mode. *)
Theorem syscall_256_out_of_bounds {H W} `{KHeap H, AddressSpaces W} uninit call (s : kst H W) a1 a2 a3 pc sp fl n p f :
  table_ok s ->
  do_syscall uninit call MAX_SYSCALL_ID a1 a2 a3 pc sp fl s = Fault /\
  set_syscall MAX_SYSCALL_ID n p f s = Fault.
Proof.
  intros Ht. unfold do_syscall, set_syscall. change ((MAX_SYSCALL_ID <? 0) || (MAX_SYSCALL_ID <? MAX_SYSCALL_ID)) with false.
  krun. unfold liftO. rewrite array_get_256 by done. done.
Qed.

Lemma syscall_256_out_of_bounds_witness :
  do_syscall 0 no_call 256 1 2 3 4 5 6 (demo_table (Syscall true 0 0 1)) = Fault /\
  set_syscall 256 0 0 1 (demo_table (Syscall true 0 0 1)) = Fault.
Proof. apply (syscall_256_out_of_bounds 0 no_call (demo_table (Syscall true 0 0 1)) 1 2 3 4 5 6 0 0 1). reflexivity. Defined.

(** The arguments a call with [n] parameters gets. *)
Definition call_args (n a1 a2 a3 : Z) : list Z := take (Z.to_nat n) [a1; a2; a3].

(** [do_syscall] on a kernel service saves the caller's program counter,
    stack pointer and flags in its context, then calls the registered function
    with as many of the three arguments as it declared, and returns what it
    returns. *)
Theorem do_syscall_dispatch {H W} `{KHeapOk H, AddressSpacesOk W} uninit call (s : kst H W)
    i a1 a2 a3 pc sp fl e x c :
  table_ok s -> 0 <= i < MAX_SYSCALL_ID -> syscall_table (kernel s) !! Z.to_nat i = Some e ->
  defined e = true -> process_id e = 0 -> 0 <= arg_count e <= 3 ->
  procs (objs s) !! active_process (kernel s) = Some x -> ctx x <> NULL -> ctxs (objs s) !! ctx x = Some c ->
  do_syscall uninit call i a1 a2 a3 pc sp fl s =
    call (syscall_ptr e) (call_args (arg_count e) a1 a2 a3)
      (KState (kernel s) (kheap s)
        (set_ctxs (<[ctx x := set_context_flags fl (set_context_stack sp (set_context_pc pc c))]> (ctxs (objs s))) (objs s))
        (world s)).
Proof.
  intros Ht Hi He Hd Hp Hn Hx Hc0 Hc. unfold do_syscall. rewrite syscall_guard by done. krun.
  unfold liftO. rewrite (array_get_Some _ _ _ He). krun. rewrite Hd, Hp. cbn [negb].
  change (0 <? 0) with false. cbv iota. krun. change (1 =? NULL) with false. cbv iota. krun. rewrite Hx. krun.
  erewrite upd_ctx_run by done. krun.
  assert (arg_count e = 0 \/ arg_count e = 1 \/ arg_count e = 2 \/ arg_count e = 3) as Hcases by lia.
  destruct Hcases as [E|[E|[E|E]]]; rewrite E; cbn [Z.eqb Pos.eqb]; unfold call_args;
    [change (Z.to_nat 0) with 0%nat|change (Z.to_nat 1) with 1%nat|change (Z.to_nat 2) with 2%nat
    |change (Z.to_nat 3) with 3%nat]; cbn [take];
    (destruct (call _ _ _) as [[[v|k] s']| | |]; krun; reflexivity).
Qed.

Lemma do_syscall_dispatch_witness : exists s',
  do_syscall 0 no_call 0 11 22 33 0x8000 0x5000 0x202 (demo_table (Syscall true 2 0 1)) = Ret (Returned 42, s').
Proof.
  eexists. refine (eq_trans (do_syscall_dispatch 0 no_call (demo_table (Syscall true 2 0 1)) 0 11 22 33 0x8000 0x5000 0x202
    (Syscall true 2 0 1) demo_p1 demo_context _ _ _ _ _ _ _ _ _) _); try reflexivity; try discriminate; try (simpl; lia).
  unfold MAX_SYSCALL_ID. lia.
Defined.

(** [set_syscall] on a number inside the table reports why it refuses, in
    this order, without effect: EINVALIDARG for a number in use or an argument
    count outside 0 to 3, EDOESNTEXIST for a process id no process has,
    ENULLPTR for a NULL function; otherwise the entry is filled in and the
    rest of the table kept. *)
Theorem set_syscall_spec {H W} `{KHeap H, AddressSpaces W} (s : kst H W) i n p f e :
  table_ok s -> 0 <= i < MAX_SYSCALL_ID -> syscall_table (kernel s) !! Z.to_nat i = Some e ->
  set_syscall i n p f s =
    if defined e || (n <? 0) || (3 <? n) then Ret (EINVALIDARG, s)
    else if negb (p =? 0) && (avl_get (process_table (kernel s)) p =? NULL) then Ret (EDOESNTEXIST, s)
    else if f =? NULL then Ret (ENULLPTR, s)
    else Ret (ENONE, set_kernel (set_syscall_table
      (<[Z.to_nat i := Syscall true n p f]> (syscall_table (kernel s))) (kernel s)) s).
Proof.
  intros Ht Hi He. unfold set_syscall. rewrite syscall_guard by done. krun.
  unfold liftO. rewrite (array_get_Some _ _ _ He). krun.
  destruct (defined e); cbn [orb]; [done|]. destruct ((n <? 0) || (3 <? n)); [done|].
  pose proof (lookup_lt_Some _ _ _ He) as Hlt.
  destruct (p =? 0); krun; cbn [negb andb].
  - destruct (f =? NULL); [done|]. krun. by rewrite array_set_lt by done.
  - destruct (avl_get _ p =? NULL); [done|]. destruct (f =? NULL); [done|]. krun. by rewrite array_set_lt by done.
Qed.

Lemma set_syscall_spec_witness :
  set_syscall 0 2 0 7 (demo_table (Syscall false 0 0 0)) = Ret (ENONE, demo_table (Syscall true 2 0 7)).
Proof.
  refine (eq_trans (set_syscall_spec (demo_table (Syscall false 0 0 0)) 0 2 0 7 (Syscall false 0 0 0) _ _ _) _);
    try reflexivity. unfold MAX_SYSCALL_ID. lia.
Defined.
