(* ===== verification/Syscalls.v ===== *)
(** The system calls (src/syscalls.c, include/syscalls.h) over the kernel and
    the memory manager. *)
From S2P Require Import Prelude Status Alloc AvlTree MsgQueue PriorityQueue Paging Mmgr Heap Space Frames Context Kernel.

Definition page_aligned (a : Z) : bool := a mod 4096 =? 0.

(** ** mmap and munmap: address space operations only *)
Section memory_calls.
Context {W : Type} `{AddressSpaces W}.

(** Is no page of the range present?  [i] is a [size_t]. *)
Fixpoint range_free (fuel : nat) (location length i : Z) : M W bool :=
  match fuel with
  | O => fun _ => OutOfFuel
  | S fuel =>
    if i <? length then
      type ← as_page_type (u32 (location + i));
      if has_flag type PAGE_PRESENT then mret false
      else range_free fuel location length (u32 (i + 4096))
    else mret true
  end.

(** The mapping loop: the status it ends with. *)
Fixpoint map_range_from (fuel : nat) (location length n status : Z) : M W Z :=
  match fuel with
  | O => fun _ => OutOfFuel
  | S fuel =>
    if (n <? length) && (status =? err ENONE) then
      frame ← as_reserve_page;
      let status := frame mod 4096 in
      if status =? err ENONE then
        status ← as_map_page (u32 (location + n)) frame (Z.lor PAGE_USERMODE PAGE_RW);
        _ ← (if negb (status =? err ENONE) then
               f ← as_free_page frame; if negb (f =? err ENONE) then panic else mret tt
             else mret tt);
        map_range_from fuel location length (u32 (n + 4096)) status
      else mret status
    else mret status
  end.

(** The loop of [munmap]: [n] is never advanced. *)
Fixpoint unmap_range (fuel : nat) (location length n status : Z) : M W Z :=
  match fuel with
  | O => fun _ => OutOfFuel
  | S fuel =>
    if (n <? length) && (status =? err ENONE) then
      type ← as_page_type (u32 (location + n));
      if has_flag type PAGE_PRESENT then
        frame ← as_unmap_page (u32 (location + n));
        if has_flag type PAGE_ANON then
          status ← as_free_page frame; unmap_range fuel location length n status
        else unmap_range fuel location length n status
      else unmap_range fuel location length n status
    else mret status
  end.

Definition munmap (fuel : nat) (location length : Z) : M W Z :=
  if negb (page_aligned location) || negb (page_aligned length) then mret (err EINVALIDARG)
  else if location =? 0 then mret (err ENULLPTR)
  else unmap_range fuel location length 0 (err ENONE).

(** [flags] is accepted and ignored. *)
Definition mmap (fuel : nat) (location length flags : Z) : M W Z :=
  if negb (page_aligned location) || negb (page_aligned length) then mret (err EINVALIDARG)
  else if location =? NULL then mret (err ENULLPTR)
  else
    free ← range_free fuel location length 0;
    if negb (free : bool) then mret (err EEXISTS)
    else
      status ← map_range_from fuel location length 0 (err ENONE);
      if negb (status =? err ENONE) then
        r ← munmap fuel location length;
        if negb (r =? err ENONE) then panic else mret status
      else mret status.
End memory_calls.

(** ** The calls on kernel objects *)
Section calls.
Context {H W : Type} `{KHeap H} `{AddressSpaces W}.
Abbreviation kst := (kst H W).

Definition returned {A B} (f : A -> B) (m : M kst A) : M kst (exit B) := a ← m; mret (Returned (f a)).

(** The string argument is only printed. *)
Definition test_syscall (str : Z) : M kst (exit Z) := mret (Returned 17).

Definition terminate_self : M kst (exit Z) :=
  p ← kernel_current_pid; returned err (kernel_terminate_process p).

Definition send (recipient message flags : Z) : M kst (exit Z) :=
  let dest_type := Z.land flags IO_RECIPIENT_TYPE in
  if negb (Z.land flags (u32 (Z.lnot (Z.lor IO_OP IO_RECIPIENT_TYPE))) =? 0)
     || (IO_MAILBOX <=? dest_type) then mret (Returned (err EINVALIDARG))
  else
    recipient ← (if dest_type =? IO_PORT then kernel_get_port_owner recipient else mret recipient);
    if (dest_type =? IO_PORT) && (recipient =? 0) then mret (Returned (err EDOESNTEXIST))
    else
      status ← kernel_send_message recipient message;
      if bool_decide (status = EBUSY) then returned err (kernel_queue_message recipient message)
      else mret (Returned (err status)).

Definition receive (buffer flags : Z) : M kst (exit Z) :=
  r ← receive_message buffer flags;
  mret (match r with Returned e => Returned (err e) | LoadContext c => LoadContext c end).

Definition open_port (i : Z) : M kst (exit Z) := returned err (kernel_create_port i).
Definition close_port (i : Z) : M kst (exit Z) := returned err (kernel_remove_port i).

(** The functions at the addresses [kernel_initialize] registers; an address
    is represented by the number of its system call. *)
Definition kernel_call (fuel : nat) (f : Z) (a : list Z) : M kst (exit Z) :=
  match a with
  | [x] =>
    if f =? syscall_code SYSCALL_TEST then test_syscall x
    else if f =? syscall_code SYSCALL_OPEN_PORT then open_port x
    else if f =? syscall_code SYSCALL_CLOSE_PORT then close_port x
    else fault
  | [x; y] =>
    if f =? syscall_code SYSCALL_MUNMAP then returned (fun v => v) (on_world (munmap fuel x y))
    else if f =? syscall_code SYSCALL_RECEIVE then receive x y
    else fault
  | [x; y; z] =>
    if f =? syscall_code SYSCALL_MMAP then returned (fun v => v) (on_world (mmap fuel x y z))
    else if f =? syscall_code SYSCALL_SEND then send x y z
    else fault
  | _ => fault
  end.

(** The table [kernel_initialize] builds. *)
Definition register (s : syscall_id_t) (n : Z) : M kst error_t :=
  set_syscall (syscall_code s) n 0 (syscall_code s).
Definition register_syscalls : M kst unit :=
  _ ← upd_kernel (set_syscall_table (replicate (Z.to_nat MAX_SYSCALL_ID) (Syscall false 0 0 0)));
  _ ← register SYSCALL_TEST 1; _ ← register SYSCALL_MMAP 3; _ ← register SYSCALL_MUNMAP 2;
  _ ← register SYSCALL_SEND 3; _ ← register SYSCALL_RECEIVE 2; _ ← register SYSCALL_OPEN_PORT 1;
  _ ← register SYSCALL_CLOSE_PORT 1; mret tt.
End calls.

(** * Theory of mmap and munmap over the memory manager *)
Section memory_theory.
Context {B : Type} `{BitmapHeapOk B}.
Implicit Types s : mm B.

(** One round of [munmap]'s loop leaves it where it was: at the same page. *)
Lemma unmap_range_diverges fuel : forall s location length,
  wf_mm s -> is_u32 location -> dir_index location < 1023 -> 0 < length ->
  unmap_range fuel location length 0 (err ENONE) s = OutOfFuel.
Proof.
  induction fuel as [|fuel IH]; intros s location length Hwf Hu Hi Hl; [done|].
  cbn [unmap_range]. rewrite (proj2 (Z.ltb_lt 0 length)) by done. rewrite Z.eqb_refl.
  rewrite Z.add_0_r, u32_id by done. cbn [andb as_page_type as_unmap_page mm_spaces].
  unfold mbind, M_mbind. rewrite page_type_run by done. ostep.
  rewrite type_flags_present. unfold type_flags. rewrite pte_flags_anon.
  destruct (mapped s location) eqn:Em; [|by apply IH].
  rewrite unmap_page_run, Em by done. ostep. apply IH; try done.
  apply andb_true_iff in Em as [Ep _]. apply Z.eqb_eq in Ep.
  destruct (poke_pte_word_translate location 0 0 (mem s)) as (P1 & P2 & _);
    [apply Hwf|done|done|done|by split|].
  by apply wf_mm_mem.
Qed.

(** A range of pages below the window, none of which is mapped. *)
Record page_range (location length : Z) : Prop := {
  pr_aligned : location mod 4096 = 0 /\ length mod 4096 = 0;
  pr_bounds : 0 < location /\ 0 <= length /\ location + length <= page_tables
}.

Definition unmapped_from s location length n : Prop := forall m, n <= m < length -> m mod 4096 = 0 ->
  mapped s (location + m) = false.
Definition all_mapped s location length : Prop := forall m, 0 <= m < length -> m mod 4096 = 0 ->
  exists pa, translate (mem s) true (location + m) = Some pa.

Lemma page_range_page location length n : page_range location length -> 0 <= n < length ->
  is_u32 (location + n) /\ dir_index (location + n) < 1023 /\ u32 (location + n) = location + n /\
  u32 (n + 4096) = n + 4096.
Proof.
  intros [Ha (H1 & H2 & H3)] Hn. unfold page_tables in H3.
  assert (is_u32 (location + n)) by (unfold is_u32; lia).
  split; [done|]. split; [rewrite dir_index_div; Z.div_mod_to_equations; lia|].
  split; apply u32_id; [done|unfold is_u32; lia].
Qed.

(** The first loop of [mmap]. *)
Lemma range_free_spec fuel : forall s location length n,
  wf_mm s -> page_range location length -> 0 <= n <= length -> n mod 4096 = 0 ->
  length - n < Z.of_nat fuel * 4096 ->
  exists b, range_free fuel location length n s = Ret (b, s) /\
    (b = true -> unmapped_from s location length n) /\
    (b = false -> exists m, n <= m < length /\ mapped s (location + m) = true).
Proof.
  induction fuel as [|fuel IH]; intros s location length n Hwf Hr Hn Hmod Hf; [lia|].
  cbn [range_free]. destruct (Z.ltb_spec n length).
  2: { exists true. split; [done|]. split; [|done]. intros _ m Hm. lia. }
  destruct (page_range_page location length n Hr ltac:(lia)) as (Hu & Hi & -> & ->).
  cbn [as_page_type mm_spaces]. unfold mbind, M_mbind. rewrite page_type_run by done. ostep.
  rewrite type_flags_present. destruct (mapped s (location + n)) eqn:Em.
  { exists false. split; [done|]. split; [done|]. intros _. exists n. done. }
  destruct Hr as [[Ha1 Ha2] Hb].
  destruct (IH s location length (n + 4096)) as (b & E & Ht & Hfl);
    [done|by split|Z.div_mod_to_equations; lia|Z.div_mod_to_equations; lia|lia|].
  exists b. split; [done|]. split.
  - intros Hb' m Hm Hm0. destruct (decide (m = n)) as [->|]; [done|].
    apply Ht; [done|Z.div_mod_to_equations; lia|done].
  - intros Hb'. destruct (Hfl Hb') as (m & Hm & E'). exists m. split; [lia|done].
Qed.

(** Pages of the range are distinct. *)
Lemma range_pages_ne location m n : location mod 4096 = 0 -> m mod 4096 = 0 -> n mod 4096 = 0 ->
  m <> n -> (location + m) / 4096 <> (location + n) / 4096.
Proof. intros. Z.div_mod_to_equations. lia. Qed.

Lemma mapped_ext s s' va : wf_mm s -> wf_mm s' -> is_u32 va ->
  translate (mem s') false va = translate (mem s) false va -> mapped s' va = mapped s va.
Proof.
  intros W1 W2 Hu E. rewrite !mapped_translate in E by done.
  destruct (mapped s va), (mapped s' va); congruence.
Qed.

(** Frames that are enough for the pages from [n] on: two for each. *)
Definition frames_from (length n : Z) : nat := (2 * Z.to_nat ((length - n) / 4096))%nat.

Lemma frames_from_step length n : 0 <= n < length -> n mod 4096 = 0 -> length mod 4096 = 0 ->
  frames_from length n = S (S (frames_from length (n + 4096))).
Proof.
  intros Hn Hm Hl. unfold frames_from. replace ((length - n) / 4096) with (Z.succ ((length - (n + 4096)) / 4096))
    by (Z.div_mod_to_equations; lia).
  rewrite Z2Nat.inj_succ by (Z.div_mod_to_equations; lia). lia.
Qed.

(** The mapping loop, entered with the pages from [n] on unmapped: either it
    stops early with an error, for want of frames, or all pages are mapped and
    writable. *)
Lemma map_range_from_spec fuel : forall s location length n,
  wf_mm s -> page_range location length -> 0 <= n <= length -> n mod 4096 = 0 ->
  unmapped_from s location length n -> length - n < Z.of_nat fuel * 4096 ->
  exists st s', map_range_from fuel location length n (err ENONE) s = Ret (st, s') /\ wf_mm s' /\
    keeps s s' /\ (st <> err ENONE -> n < length /\ ~ mm_frames (frames_from length n) s) /\
    (st = err ENONE -> forall m, n <= m < length -> m mod 4096 = 0 ->
      exists pa, translate (mem s') true (location + m) = Some pa).
Proof.
  induction fuel as [|fuel IH]; intros s location length n Hwf Hr Hn Hmod Hun Hf; [lia|].
  cbn [map_range_from]. rewrite Z.eqb_refl, andb_true_r. destruct (Z.ltb_spec n length).
  2: { exists (err ENONE), s. split_and!; [done|done|by intros ? ? ?|done|]. intros _ m Hm. lia. }
  destruct (page_range_page location length n Hr ltac:(lia)) as (Hu & Hi & -> & ->).
  pose proof Hr as [[Ha1 Ha2] Hb]. destruct fuel as [|fuel]; [Z.div_mod_to_equations; lia|].
  cbn [as_reserve_page as_map_page as_free_page mm_spaces]. unfold mbind at 1, M_mbind at 1.
  assert (forall r s1, reserve_page s = Ret (r, s1) -> mm_frames (frames_from length n) s ->
    r <> err ENOMEM /\ mm_frames (S (frames_from length (n + 4096))) s1) as Hb1.
  { intros r s1 E F. rewrite frames_from_step in F by (done || lia). by eapply reserve_frames. }
  destruct (reserve_page_run s) as (r & h' & E & [[-> Hh]|(Hne & Hin & Hh)]); rewrite E; ostep; specialize (Hb1 _ _ E).
  { exists (err ENOMEM), (MM (mem s) h'). split; [done|].
    split; [apply reserved_wf; [done|by rewrite Hh]|]. split; [by intros ? ? ?|]. split; [|done].
    intros _. split; [lia|]. intros F. by destruct (Hb1 F). }
  destruct (free_blocks_frames _ _ Hin) as [Fu Fa]. change page_size with 4096 in Fa. rewrite Fa.
  change (0 =? err ENONE) with true. cbv iota. unfold mbind at 1, M_mbind at 1.
  assert (wf_mm (MM (mem s) h')) as W0 by (apply reserved_wf; [done|set_solver]).
  destruct (map_page_run _ (location + n) r (Z.lor PAGE_USERMODE PAGE_RW) W0 Hu Hi Fu Fa)
    as (st & s1 & E1 & W1 & A1 & [(-> & Hmem & _)|(-> & Ht & Htr & Ho)]); rewrite E1; ostep;
    pose proof (fun F => map_frames (frames_from length (n + 4096)) _ _ _ _ _ _ (proj2 (Hb1 F)) E1) as Hb2.
  - change (negb (err ENOMEM =? err ENONE)) with true. cbv iota.
    eexists (err ENOMEM), _. split.
    { unfold free_page, free_region_m, modify, mbind, M_mbind. ostep. cbv [mret M_mret]. ostep.
      change (negb (err ENONE =? err ENONE)) with false. cbv iota. ostep. cbn [map_range_from].
      change (err ENOMEM =? err ENONE) with false. rewrite andb_false_r. reflexivity. }
    split; [|split; [|split; [|done]]].
    3: { intros _. split; [lia|]. intros F. by destruct (Hb2 F). }
    + split; cbn [mem page_map]; [apply W1|]. intros i Hir Hp Hfr.
      rewrite free_region_ok in Hfr by done. apply elem_of_union in Hfr as [Hfr|Hfr].
      * apply elem_of_singleton in Hfr. cbn [mem] in Hmem. rewrite Hmem in Hp, Hfr.
        apply (wm_tables s Hwf i Hir Hp). by rewrite Hfr.
      * by apply (wm_tables s1 W1 i Hir Hp).
    + unfold keeps. cbn [mem] in *. by rewrite Hmem.
  - change (negb (err ENONE =? err ENONE)) with false. cbv iota. ostep. cbn [mem] in *.
    unfold mbind, M_mbind. cbv [mret M_mret]. ostep.
    assert (forall m, n <= m < length -> m mod 4096 = 0 -> m <> n ->
      mapped s1 (location + m) = mapped s (location + m)) as Hsame.
    { intros m Hm Hm0 Hmn. destruct (page_range_page location length m Hr ltac:(lia)) as (Hum & Him & _).
      apply mapped_ext; [done..|]. apply Ho; [done|done|by apply range_pages_ne]. }
    destruct (IH s1 location length (n + 4096)) as (st & s' & E2 & W2 & K2 & N2 & M2);
      [done|done|Z.div_mod_to_equations; lia|Z.div_mod_to_equations; lia| |lia|].
    { intros m Hm Hm0. rewrite Hsame by lia. apply Hun; [lia|done]. }
    assert (keeps s s1) as K1 by (apply (map_page_keeps s s1 (location + n)); [done|done|by apply Hun|done]).
    exists st, s'. split; [done|]. split; [done|]. split; [by eapply keeps_trans|].
    split; [intros Hst; split; [lia|]; intros F; by apply (N2 Hst), Hb2|]. intros Hst m Hm Hm0. destruct (decide (m = n)) as [->|Hmn].
    + eexists. apply K2; [done|done|]. rewrite Htr. reflexivity.
    + apply M2; [done|Z.div_mod_to_equations; lia|done].
Qed.
End memory_theory.

(** Rounds that are enough for the two loops of [mmap]. *)
Definition enough_rounds (fuel : nat) (length : Z) : Prop := length < Z.of_nat fuel * 4096.

Section mmap_run.
Context {B : Type} `{BitmapHeapOk B}.
Implicit Types s : mm B.

Lemma mmap_guards fuel s location length flags : page_range location length ->
  mmap fuel location length flags s =
    (range_free fuel location length 0 ≫= fun free =>
     if negb (free : bool) then mret (err EEXISTS)
     else
       map_range_from fuel location length 0 (err ENONE) ≫= fun status =>
       if negb (status =? err ENONE) then
         munmap fuel location length ≫= fun r =>
         if negb (r =? err ENONE) then panic else mret status
       else mret status) s.
Proof.
  intros [[Ha1 Ha2] Hb]. unfold mmap, page_aligned. rewrite Ha1, Ha2.
  change (negb (0 =? 0) || negb (0 =? 0)) with false. cbv iota.
  by rewrite (proj2 (Z.eqb_neq location NULL)) by (unfold NULL; lia).
Qed.

Lemma munmap_diverges fuel s location length : wf_mm s -> page_range location length -> 0 < length ->
  munmap fuel location length s = OutOfFuel.
Proof.
  intros Hwf Hr Hl. pose proof Hr as [[Ha1 Ha2] Hb]. unfold munmap, page_aligned. rewrite Ha1, Ha2.
  change (negb (0 =? 0) || negb (0 =? 0)) with false. cbv iota.
  rewrite (proj2 (Z.eqb_neq location 0)) by lia.
  destruct (page_range_page location length 0 Hr) as (Hu & Hi & _); [lia|]. rewrite Z.add_0_r in Hu, Hi.
  by apply unmap_range_diverges.
Qed.
End mmap_run.

(** * Properties *)

(** C38: [munmap] of a non-empty range never returns: its loop does not
    advance to the next page, so no amount of fuel is enough. *)
Theorem munmap_never_returns {B} `{BitmapHeapOk B} (s : mm B) location length :
  wf_mm s -> page_range location length -> 0 < length ->
  forall fuel, munmap fuel location length s = OutOfFuel.
Proof. intros Hwf Hr Hl fuel. by apply munmap_diverges. Qed.

Lemma munmap_never_returns_witness :
  munmap 100 0x5000 0x1000 (demo_mm []) = OutOfFuel.
Proof.
  apply (munmap_never_returns (demo_mm []) 0x5000 0x1000);
    [exact demo_mm_wf_nil|split; [done|unfold page_tables; lia]|lia].
Defined.

(** The other cases of [munmap] return at once and change nothing: an
    unaligned range is EINVALIDARG, address 0 is ENULLPTR, an empty range is
    ENONE. *)
Theorem munmap_checks {B} `{BitmapHeapOk B} (s : mm B) location length fuel :
  (location mod 4096 <> 0 \/ length mod 4096 <> 0 -> munmap fuel location length s = Ret (err EINVALIDARG, s)) /\
  (length mod 4096 = 0 -> munmap fuel 0 length s = Ret (err ENULLPTR, s)) /\
  (location mod 4096 = 0 -> location <> 0 -> munmap (S fuel) location 0 s = Ret (err ENONE, s)).
Proof.
  unfold munmap, page_aligned. split_and!.
  - intros Hm. destruct (Z.eqb_spec (location mod 4096) 0), (Z.eqb_spec (length mod 4096) 0); try done; lia.
  - intros ->. done.
  - intros -> Hne. change (negb (0 =? 0) || negb (0 mod 4096 =? 0)) with false. cbv iota.
    rewrite (proj2 (Z.eqb_neq location 0)) by done. done.
Qed.

(** C13: [mmap] of a range of pages below the page-table window, given fuel for
    its loops: if a page of the range is mapped it returns EEXISTS and
    changes nothing; otherwise it either returns ENONE with every page of
    the range mapped writable and no earlier mapping lost, or, when the
    allocator cannot serve two frames for each page and the mapping loop failed,
    does not return, because its clean-up calls [munmap]. *)
Theorem mmap_spec {B} `{BitmapHeapOk B} (s : mm B) location length flags fuel :
  wf_mm s -> page_range location length -> enough_rounds fuel length ->
  (exists m, 0 <= m < length /\ mapped s (location + m) = true) /\
    mmap fuel location length flags s = Ret (err EEXISTS, s) \/
  unmapped_from s location length 0 /\
    ((exists s', mmap fuel location length flags s = Ret (err ENONE, s') /\ wf_mm s' /\
        keeps s s' /\ all_mapped s' location length) \/
     (0 < length /\ ~ mm_frames (frames_from length 0) s /\ mmap fuel location length flags s = OutOfFuel)).
Proof.
  intros Hwf Hr Hf. unfold enough_rounds in Hf. pose proof Hr as [_ (_ & Hl0 & _)].
  rewrite mmap_guards by done. unfold mbind, M_mbind.
  destruct (range_free_spec fuel s location length 0) as (b & E & Ht & Hfl); [done|done|lia|done|lia|].
  rewrite E. ostep. destruct b; cbn [negb]; [right|left; by split; [apply Hfl|]].
  specialize (Ht eq_refl). split; [done|].
  destruct (map_range_from_spec fuel s location length 0) as (st & s' & E2 & W2 & K2 & N2 & M2);
    [done|done|lia|done|done|lia|].
  rewrite E2. ostep. destruct (Z.eqb_spec st (err ENONE)) as [->|Hst]; cbn [negb].
  - left. exists s'. split; [done|]. split; [done|]. split; [done|]. intros m Hm Hm0. by apply M2.
  - right. destruct (N2 Hst) as [Hl F]. split; [done|]. split; [done|]. by rewrite munmap_diverges.
Qed.

Lemma demo_mm_wf_12 : wf_mm (demo_mm [9; 10; 11; 12]%positive).
Proof.
  apply demo_mm_wf. intros p Hp. rewrite !elem_of_cons in Hp.
  destruct Hp as [->|[->|[->|[->|Hp]]]]; [by vm_compute..|by apply elem_of_nil in Hp].
Qed.

(** With four frames for the two pages it succeeds. *)
Lemma mmap_spec_witness : exists s', mmap 3 0x5000 0x2000 0 (demo_mm [9; 10; 11; 12]%positive) = Ret (err ENONE, s') /\
  all_mapped s' 0x5000 0x2000.
Proof.
  assert (match mmap 3 0x5000 0x2000 0 (demo_mm [9; 10; 11; 12]%positive) with Ret (r, _) => r | _ => 1 end = err ENONE) as R
    by (vm_compute; reflexivity).
  destruct (mmap_spec (demo_mm [9; 10; 11; 12]%positive) 0x5000 0x2000 0 3) as [[_ E]|[_ [(s' & E & _ & _ & A)|(_ & F & _)]]].
  - exact demo_mm_wf_12.
  - clear R. split; [done|unfold page_tables; lia].
  - clear R. unfold enough_rounds. lia.
  - exfalso. rewrite E in R. discriminate R.
  - clear R. exists s'. split; [exact E|exact A].
  - clear R. exfalso. apply F. vm_compute. repeat split; discriminate.
Defined.

(** Without a free frame, [mmap] of a fresh non-empty range hangs the
    kernel instead of returning ENOMEM, whatever fuel it is given. *)
Theorem mmap_no_frames_hangs {B} `{BitmapHeapOk B} (s : mm B) location length flags fuel :
  wf_mm s -> page_range location length -> 0 < length -> unmapped_from s location length 0 ->
  free_blocks (page_map s) = ∅ -> enough_rounds fuel length ->
  mmap fuel location length flags s = OutOfFuel.
Proof.
  intros Hwf Hr Hl Hun Hfree Hf. unfold enough_rounds in Hf. rewrite mmap_guards by done.
  unfold mbind, M_mbind.
  destruct (range_free_spec fuel s location length 0) as (b & E & Ht & Hfl); [done|done|lia|done|lia|].
  rewrite E. ostep. destruct b; cbn [negb].
  2: { destruct (Hfl eq_refl) as (m & Hm & Em). exfalso.
       destruct Hr as [[Ha1 Ha2] Hb].
       assert (mapped s (location + 4096 * (m / 4096)) = false) as E0
         by (apply Hun; Z.div_mod_to_equations; lia).
       assert ((location + 4096 * (m / 4096)) / 4096 = (location + m) / 4096) as Ep
         by (Z.div_mod_to_equations; lia).
       unfold mapped in *. rewrite <- (page_dir_index (location + m)), <- Ep, page_dir_index in Em.
       congruence. }
  destruct fuel as [|fuel]; [lia|]. cbn [map_range_from].
  rewrite (proj2 (Z.ltb_lt 0 length)) by done. change (err ENONE =? err ENONE) with true. cbn [andb].
  unfold mbind, M_mbind. cbn [as_reserve_page mm_spaces].
  destruct (reserve_page_run s) as (r & h' & E1 & [[-> Hh]|(_ & Hin & _)]); [|set_solver].
  rewrite E1. ostep. change (err ENOMEM mod 4096 =? err ENONE) with false. cbv iota.
  cbv [mret M_mret]. ostep. change (negb (err ENOMEM mod 4096 =? err ENONE)) with true. cbv iota beta.
  rewrite munmap_diverges; [done| |done|done]. apply reserved_wf; [done|by rewrite Hh].
Qed.

Lemma mmap_no_frames_hangs_witness : mmap 2 0x5000 0x1000 0 (demo_mm []) = OutOfFuel.
Proof.
  apply (mmap_no_frames_hangs (demo_mm []) 0x5000 0x1000 0 2);
    [exact demo_mm_wf_nil|split; [done|unfold page_tables; lia]|lia| |done|unfold enough_rounds; lia].
  intros m Hm Hm0. assert (m = 0) as -> by (Z.div_mod_to_equations; lia). vm_compute. reflexivity.
Defined.

(** ** The registered calls *)

(** The argument count registered for a call; YIELD and EXIT are declared but
    never registered. *)
Definition registered (s : syscall_id_t) : option Z :=
  match s with
  | SYSCALL_TEST => Some 1 | SYSCALL_MMAP => Some 3 | SYSCALL_MUNMAP => Some 2
  | SYSCALL_SEND => Some 3 | SYSCALL_RECEIVE => Some 2
  | SYSCALL_OPEN_PORT => Some 1 | SYSCALL_CLOSE_PORT => Some 1
  | SYSCALL_YIELD | SYSCALL_EXIT => None
  end.

(** The table after [register_syscalls]. *)
Definition syscalls : list syscall_t :=
  let e c n := Syscall true n 0 c in
  Syscall false 0 0 0 :: e 1 1 :: e 2 3 :: e 3 2 :: Syscall false 0 0 0 :: Syscall false 0 0 0 ::
  e 6 3 :: e 7 2 :: e 8 1 :: e 9 1 :: replicate 246 (Syscall false 0 0 0).

Lemma register_syscalls_run {H W} `{KHeap H, AddressSpaces W} (s : kst H W) :
  register_syscalls s = Ret (tt, set_kernel (set_syscall_table syscalls (kernel s)) s).
Proof. destruct s as [[] ? ? ?]. vm_compute. reflexivity. Qed.

(** After [register_syscalls] the table holds exactly the seven calls the
    kernel offers, each with its declared number of arguments and as a kernel
    service; the numbers of yield and exit stay unregistered. *)
Theorem register_syscalls_table {H W} `{KHeap H, AddressSpaces W} (s : kst H W) :
  exists s', register_syscalls s = Ret (tt, s') /\ table_ok s' /\
    (forall c, syscall_table (kernel s') !! Z.to_nat (syscall_code c) =
      Some (match registered c with Some n => Syscall true n 0 (syscall_code c) | None => Syscall false 0 0 0 end)) /\
    (forall i e, syscall_table (kernel s') !! i = Some e -> defined e = true ->
      exists c, Z.of_nat i = syscall_code c /\ registered c <> None).
Proof.
  exists (set_kernel (set_syscall_table syscalls (kernel s)) s).
  split; [apply register_syscalls_run|]. split; [reflexivity|]. split.
  - by intros [].
  - intros i e. cbn [kernel set_kernel set_syscall_table syscall_table]. unfold syscalls.
    do 10 (destruct i as [|i]; [intros [= <-]; try done; intros _;
      first [by exists SYSCALL_TEST|by exists SYSCALL_MMAP|by exists SYSCALL_MUNMAP|by exists SYSCALL_SEND
        |by exists SYSCALL_RECEIVE|by exists SYSCALL_OPEN_PORT|by exists SYSCALL_CLOSE_PORT]|]).
    intros Hr. change (replicate 246 (Syscall false 0 0 0) !! i = Some e) in Hr.
    apply lookup_replicate in Hr as [-> _]. done.
Qed.

(** [send] refuses with EINVALIDARG, without effect, every flag word of 4 or
    more: one with a bit outside the operation and recipient fields, and one
    that names a mailbox. *)
Theorem send_flag_check {H W} `{KHeap H, AddressSpaces W} (s : kst H W) r m fl :
  is_u32 fl -> 4 <= fl ->
  send r m fl s = Ret (Returned (err EINVALIDARG), s).
Proof.
  intros Hu Hf. unfold send.
  assert (Z.land fl (u32 (Z.lnot (Z.lor IO_OP IO_RECIPIENT_TYPE))) = 8 * (fl / 8)) as E1.
  { change (u32 (Z.lnot (Z.lor IO_OP IO_RECIPIENT_TYPE))) with (Z.shiftl (Z.ones 29) 3).
    assert (Z.land fl (Z.shiftl (Z.ones 29) 3) = Z.shiftl (Z.land (Z.shiftr fl 3) (Z.ones 29)) 3) as ->.
    { bits_eq. rewrite Z.shiftr_spec by lia. f_equal. lia. }
    rewrite Z.land_ones, Z.shiftl_mul_pow2, Z.shiftr_div_pow2 by lia. unfold is_u32 in Hu.
    change (2 ^ 3) with 8. rewrite Z.mod_small by (Z.div_mod_to_equations; lia). lia. }
  rewrite E1. destruct (Z.eqb_spec (8 * (fl / 8)) 0) as [E|E]; cbn [negb orb]; [|done].
  assert (fl < 8) by (Z.div_mod_to_equations; lia).
  assert (fl = 4 \/ fl = 5 \/ fl = 6 \/ fl = 7) as Hc by lia.
  by destruct Hc as [->|[->|[->| ->]]].
Qed.

Lemma send_flag_check_witness : send 2 0x4F00 4 demo_system = Ret (Returned (err EINVALIDARG), demo_system).
Proof. apply (send_flag_check demo_system 2 0x4F00 4); [by split|lia]. Defined.
