(* ===== verification/Ports.v ===== *)
(** A user process can crash the kernel with [open_port] (src/syscalls.c,
    src/kernel.c) through the stale height that [avl_insert] (src/avltree.c)
    works with.

    Insertion into the port table compares keys and does nothing else with them,
    so a run on one set of numbers is a run on every set in the same order:
    [over g t u] relates a small table [t] to the kernel's table [u] whose keys are
    the images under [g].  The crash is computed once, on the small table, and
    carried to every numbering, heap and kernel state. *)
From S2P Require Import Prelude Status Alloc AvlTree PriorityQueue MsgQueue Space Context Kernel Syscalls.

(** ** Insertion without the heap *)

(** [avl_insert] with the node it would allocate. *)
Fixpoint insert_node (t : avltree_t) (key : Z) (n : avltree_t) : outcome avltree_t :=
  match t with
  | Leaf => Ret n
  | Nd a h k v l r =>
    if key <? k then l ← insert_node l key n; insert_fixup key (Nd a h k v l r)
    else if k <? key then r ← insert_node r key n; insert_fixup key (Nd a h k v l r)
    else Ret t
  end.

Definition fresh_node (addr key value : Z) : avltree_t := Nd addr 1 key value Leaf Leaf.

Lemma avl_insert_node {H} `{KHeap H} t key value p (h h1 : H) : kmalloc sizeof_avltree h = Ret (p, h1) -> p <> NULL ->
  key ∉ keys t -> avl_insert t key value h = (t' ← insert_node t key (fresh_node p key value); Ret (t', h1)).
Proof.
  intros Em Hp. induction t as [|a ht k v l IHl r IHr]; cbn [avl_insert insert_node].
  - intros _. unfold avl_new, mbind, M_mbind. rewrite Em. ostep. by rewrite decide_False.
  - rewrite keys_Nd, not_elem_of_app, not_elem_of_cons. intros (Hl & Hk & Hr).
    destruct (Z.ltb_spec key k); [|destruct (Z.ltb_spec k key); [|lia]].
    + unfold mbind at 1, M_mbind. rewrite IHl by done. by destruct (insert_node l key _).
    + unfold mbind at 1, M_mbind. rewrite IHr by done. by destruct (insert_node r key _).
Qed.

Lemma avl_get_absent t key : key ∉ keys t -> avl_get t key = NULL.
Proof.
  induction t as [|a h k v l IHl r IHr]; [done|]. rewrite keys_Nd, not_elem_of_app, not_elem_of_cons. intros (Hl & Hk & Hr).
  cbn [avl_get]. destruct (Z.ltb_spec key k); [by apply IHl|]. destruct (Z.ltb_spec k key); [by apply IHr|lia].
Qed.

(** ** Insertion sees only the order of the keys *)
Section order.
Context (g : Z -> Z) (P : Z -> Prop).
Context (Hg : forall i j, P i -> P j -> (g i <? g j) = (i <? j)).

(** The same shape and recorded heights; the keys of [u] are those of [t] under [g]. *)
Fixpoint over (t u : avltree_t) : Prop :=
  match t, u with
  | Leaf, Leaf => True
  | Nd _ h k _ l r, Nd _ h' k' _ l' r' => h' = h /\ P k /\ k' = g k /\ over l l' /\ over r r'
  | _, _ => False
  end.

Definition outcome_over (o o' : outcome avltree_t) : Prop :=
  match o, o' with
  | Ret t, Ret u => over t u
  | Fault, Fault => True
  | _, _ => False
  end.

Lemma over_keys t : forall u, over t u -> keys u = map g (keys t).
Proof.
  induction t as [|a h k v l IHl r IHr]; intros [|a' h' k' v' l' r'] Ho; try done.
  destruct Ho as (_ & _ & -> & Hl & Hr). rewrite !keys_Nd, map_app. cbn [map]. by rewrite (IHl _ Hl), (IHr _ Hr).
Qed.

Lemma over_P t : forall u, over t u -> Forall P (keys t).
Proof.
  induction t as [|a h k v l IHl r IHr]; intros [|a' h' k' v' l' r'] Ho; try done.
  destruct Ho as (_ & Hk & _ & Hl & Hr). rewrite keys_Nd. apply Forall_app. split; [by eapply IHl|]. constructor; [done|by eapply IHr].
Qed.

(** A key of [P] outside the table keeps outside. *)
Lemma over_absent t u k : over t u -> P k -> k ∉ keys t -> g k ∉ keys u.
Proof.
  intros Ho Hk Hn. rewrite (over_keys _ _ Ho). intros (j & Ej & Hj)%list_elem_of_fmap.
  pose proof (proj1 (Forall_forall _ _) (over_P _ _ Ho) j Hj) as Pj.
  pose proof (Hg k j Hk Pj) as L1. pose proof (Hg j k Pj Hk) as L2. rewrite Ej, Z.ltb_irrefl in *.
  assert (j = k) as -> by lia. done.
Qed.

Lemma over_height t u : over t u -> avl_height u = avl_height t.
Proof. destruct t, u; try done. by intros [-> _]. Qed.

Lemma over_balance t u : over t u -> avl_balance u = avl_balance t.
Proof. destruct t, u; try done. intros (_ & _ & _ & Hl & Hr). cbn. by rewrite (over_height _ _ Hl), (over_height _ _ Hr). Qed.

Lemma over_update t u : over t u -> over (avl_update_height t) (avl_update_height u).
Proof.
  destruct t, u; try done. intros (_ & Hk & Ek & Hl & Hr). cbn [avl_update_height over].
  by rewrite (over_height _ _ Hl), (over_height _ _ Hr).
Qed.

(** Case analysis on two related trees. *)
Ltac over_cases :=
  repeat match goal with
  | Ho : over Leaf ?u |- _ => destruct u; [clear Ho|destruct Ho]
  | Ho : over (Nd _ _ _ _ _ _) ?u |- _ => destruct u; [destruct Ho|destruct Ho as (-> & ? & -> & ? & ?)]
  end.

Lemma over_right_rotate t u : over t u -> outcome_over (avl_right_rotate t) (avl_right_rotate u).
Proof.
  intros Ho. destruct t as [|a h k v l r]; over_cases; [done|]. destruct l; over_cases; [done|].
  cbn. repeat match goal with H : over _ _ |- _ => rewrite (over_height _ _ H) end. by repeat split.
Qed.

Lemma over_left_rotate t u : over t u -> outcome_over (avl_left_rotate t) (avl_left_rotate u).
Proof.
  intros Ho. destruct t as [|a h k v l r]; over_cases; [done|]. destruct r; over_cases; [done|].
  cbn. repeat match goal with H : over _ _ |- _ => rewrite (over_height _ _ H) end. by repeat split.
Qed.

Lemma outcome_over_bind o o' f f' : outcome_over o o' -> (forall t u, over t u -> outcome_over (f t) (f' u)) ->
  outcome_over (o ≫= f) (o' ≫= f').
Proof. destruct o, o'; try done. intros Ho Hf. by apply Hf. Qed.

Lemma over_left_right t u : over t u -> outcome_over (rotate_left_then_right t) (rotate_left_then_right u).
Proof.
  intros Ho. destruct t; over_cases; [done|]. unfold rotate_left_then_right, left_of, set_left. ostep.
  apply outcome_over_bind; [by apply over_left_rotate|]. intros l l' Hl. ostep. apply over_right_rotate. by repeat split.
Qed.

Lemma over_right_left t u : over t u -> outcome_over (rotate_right_then_left t) (rotate_right_then_left u).
Proof.
  intros Ho. destruct t; over_cases; [done|]. unfold rotate_right_then_left, right_of, set_right. ostep.
  apply outcome_over_bind; [by apply over_right_rotate|]. intros r r' Hr. ostep. apply over_left_rotate. by repeat split.
Qed.

(** The four comparisons of the rebalancing. *)
Lemma over_test (b : bool) (child : avltree_t -> outcome avltree_t) (c c' : Z -> bool) t u x y x' y' :
  child = left_of \/ child = right_of -> over t u -> (forall i, P i -> c' (g i) = c i) ->
  outcome_over x x' -> outcome_over y y' ->
  outcome_over (z ← and_then b (l ← child t; i ← key_of l; Ret (c i)); if (z : bool) then x else y)
    (z ← and_then b (l ← child u; i ← key_of l; Ret (c' i)); if (z : bool) then x' else y').
Proof.
  intros Hc Ho Ek Hx Hy. destruct b; cbn [and_then]; ostep; [|done].
  destruct Hc as [-> | ->]; (destruct t as [|? ? ? ? l r]; over_cases; [done|]).
  - cbn [left_of]. ostep. destruct l; over_cases; [done|]. cbn [key_of]. ostep. rewrite Ek by done. by destruct (c _).
  - cbn [right_of]. ostep. destruct r; over_cases; [done|]. cbn [key_of]. ostep. rewrite Ek by done. by destruct (c _).
Qed.

Lemma over_fixup key t u : P key -> over t u -> outcome_over (insert_fixup key t) (insert_fixup (g key) u).
Proof.
  intros Hk Ho. apply over_update in Ho. unfold insert_fixup. rewrite (over_balance _ _ Ho).
  generalize dependent (avl_update_height u). generalize (avl_update_height t). clear t u. intros t u Ho.
  apply over_test; [by left|done|intros; by apply Hg|by apply over_right_rotate|].
  apply over_test; [by right|done|intros; by apply Hg|by apply over_left_rotate|].
  apply over_test; [by left|done|intros; by apply Hg|by apply over_left_right|].
  apply over_test; [by right|done|intros; by apply Hg|by apply over_right_left|done].
Qed.

Lemma over_insert t : forall u key n n', over t u -> P key -> over n n' ->
  outcome_over (insert_node t key n) (insert_node u (g key) n').
Proof.
  induction t as [|a h k v l IHl r IHr]; intros u key n n' Ho Hk Hn; over_cases; [done|]. cbn [insert_node].
  rewrite !Hg by done. destruct (key <? k); [|destruct (k <? key)].
  - apply outcome_over_bind; [by apply IHl|]. intros. apply over_fixup; [done|by repeat split].
  - apply outcome_over_bind; [by apply IHr|]. intros. apply over_fixup; [done|by repeat split].
  - by repeat split.
Qed.
End order.

(** ** A run of [open_port] *)
Section run.
Context {H W : Type} `{KHeap H, AddressSpaces W}.

Fixpoint open_ports (l : list Z) : M (kst H W) (list Z) :=
  match l with
  | [] => mret []
  | i :: l =>
    r ← open_port i;
    match r with
    | Returned v => vs ← open_ports l; mret (v :: vs)
    | LoadContext _ => fault
    end
  end.

(** The heap serves blocks of these sizes one after the other. *)
Fixpoint serves (sizes : list Z) (h : H) : Prop :=
  match sizes with
  | [] => True
  | n :: sizes => exists p h', kmalloc n h = Ret (p, h') /\ p <> NULL /\ serves sizes h'
  end.

(** What one open port takes. *)
Definition port_blocks : list Z := [sizeof_port; sizeof_avltree].

Lemma open_port_step (s : kst H W) i x p h1 q h2 : procs (objs s) !! active_process (kernel s) = Some x ->
  s32 i ∉ keys (port_table (kernel s)) ->
  kmalloc sizeof_port (kheap s) = Ret (p, h1) -> p <> NULL -> kmalloc sizeof_avltree h1 = Ret (q, h2) -> q <> NULL ->
  open_port i s = (t ← insert_node (port_table (kernel s)) (s32 i) (fresh_node q (s32 i) p);
    Ret (Returned (err ENONE), KState (set_port_table t (kernel s)) h2
      (set_ports (<[p:=Port i (pid x)]> (ports (objs s))) (objs s)) (world s))).
Proof.
  intros Hx Hn E1 N1 E2 N2. unfold open_port, returned, kernel_create_port. unfold mbind, M_mbind, port_of, gets.
  rewrite avl_get_absent by done. ostep. cbn [Z.eqb negb NULL]. krun. rewrite Hx. krun.
  rewrite (on_heap_Ret _ s p h1) by done. krun. unfold put_port. rewrite init_Ret by done. krun.
  unfold on_heap at 1. cbn [kheap]. rewrite (avl_insert_node _ _ _ q h1 h2) by done.
  by destruct (insert_node _ _ _).
Qed.

(** The same run on the small table; a number already there is not one of it. *)
Fixpoint insert_all (ks : list Z) (t : avltree_t) : outcome avltree_t :=
  match ks with
  | [] => Ret t
  | k :: ks => if decide (k ∈ keys t) then Fault else t ← insert_node t k (fresh_node NULL k NULL); insert_all ks t
  end.

Section numbering.
Context (f : Z -> Z) (P : Z -> Prop).
Context (Hf : forall i j, P i -> P j -> (s32 (f i) <? s32 (f j)) = (i <? j)).
#[local] Abbreviation follows := (over (fun i => s32 (f i)) P).

(** The heap hands out a port and a node, and the ports' numbers are absent: the
    kernel's table after the call is over the small one after the insertion. *)
Lemma open_port_over (s : kst H W) t k x rest : procs (objs s) !! active_process (kernel s) = Some x ->
  follows t (port_table (kernel s)) -> P k -> k ∉ keys t -> serves (port_blocks ++ rest) (kheap s) ->
  match insert_node t k (fresh_node NULL k NULL) with
  | Ret t' => exists s', open_port (f k) s = Ret (Returned (err ENONE), s') /\ follows t' (port_table (kernel s')) /\
      procs (objs s') !! active_process (kernel s') = Some x /\ serves rest (kheap s')
  | Fault => open_port (f k) s = Fault
  | _ => True
  end.
Proof.
  intros Hx Ho Hk Hn (p & h1 & E1 & N1 & q & h2 & E2 & N2 & Hs).
  pose proof (over_absent _ P Hf t _ k Ho Hk Hn) as Ha. rewrite (open_port_step s (f k) x p h1 q h2) by done.
  assert (outcome_over (fun i => s32 (f i)) P (insert_node t k (fresh_node NULL k NULL))
    (insert_node (port_table (kernel s)) (s32 (f k)) (fresh_node q (s32 (f k)) p))) as R.
  { apply (over_insert (fun i => s32 (f i)) P Hf); [done|done|]. by repeat split. }
  destruct (insert_node t k _) as [t'| | |], (insert_node (port_table _) _ _) as [u| | |]; try done.
  eexists. split; [reflexivity|]. by repeat split.
Qed.

Lemma open_ports_over ks : forall (s : kst H W) t t' x rest, procs (objs s) !! active_process (kernel s) = Some x ->
  follows t (port_table (kernel s)) -> Forall P ks -> insert_all ks t = Ret t' ->
  serves (concat (replicate (length ks) port_blocks) ++ rest) (kheap s) ->
  exists s', open_ports (map f ks) s = Ret (replicate (length ks) (err ENONE), s') /\ follows t' (port_table (kernel s')) /\
    procs (objs s') !! active_process (kernel s') = Some x /\ serves rest (kheap s').
Proof.
  induction ks as [|k ks IH]; intros s t t' x rest Hx Ho Hk Ei Hs.
  - injection Ei as <-. by exists s.
  - apply Forall_cons in Hk as [Hk Hks]. cbn [insert_all] in Ei. case_decide as Hn; [done|].
    cbn [length replicate concat] in Hs. rewrite <- app_assoc in Hs.
    pose proof (open_port_over s t k x _ Hx Ho Hk Hn Hs) as R.
    destruct (insert_node t k _) as [t1| | |]; try done. destruct R as (s1 & E1 & Ho1 & Hx1 & Hs1).
    destruct (IH s1 t1 t' x rest Hx1 Ho1 Hks Ei Hs1) as (s' & E' & R). exists s'. split; [|exact R].
    cbn [map open_ports length replicate]. unfold mbind at 1, M_mbind. rewrite E1. ostep.
    unfold mbind at 1, M_mbind. by rewrite E'.
Qed.
End numbering.
End run.

(** Nine numbers, by rank: eight that are opened, and the one that crashes. *)
Definition opened : list Z := [2; 6; 9; 5; 8; 7; 1; 4].
Definition crashing : Z := 3.

Lemma opened_table : exists t, insert_all opened Leaf = Ret t /\ crashing ∉ keys t /\
  insert_node t crashing (fresh_node NULL crashing NULL) = Fault.
Proof.
  eexists. split; [vm_compute; reflexivity|]. split; [|by vm_compute].
  apply (bool_decide_unpack _). by vm_compute.
Qed.

(** C39: A user process can crash the kernel with [open_port] alone, whatever the
    state of the kernel, the heap and the address spaces.  When no port is open and the heap serves the
    nine ports and their nodes, the active process opens ports whose numbers are
    in the order of 2, 6, 9, 5, 8, 7, 1 and 4, and all eight calls succeed; a
    ninth port whose number is third in that order dereferences NULL in the
    rebalancing of the table. *)
Theorem open_port_crashes_kernel {H W} `{KHeap H, AddressSpaces W} (s : kst H W) (f : Z -> Z) x :
  (forall i j, 1 <= i < j -> j <= 9 -> s32 (f i) < s32 (f j)) ->
  port_table (kernel s) = Leaf -> procs (objs s) !! active_process (kernel s) = Some x ->
  serves (concat (replicate 9 port_blocks)) (kheap s) ->
  exists s', open_ports (map f opened) s = Ret (replicate 8 (err ENONE), s') /\ open_port (f crashing) s' = Fault.
Proof.
  intros Hf Et Hx Hs. set (P := fun i => 1 <= i <= 9).
  assert (forall i j, P i -> P j -> (s32 (f i) <? s32 (f j)) = (i <? j)) as Ho.
  { intros i j Hi Hj. unfold P in *. destruct (Z.ltb_spec i j) as [Hl|Hl]; [apply Z.ltb_lt, Hf; lia|].
    apply Z.ltb_ge. destruct (decide (j = i)) as [->|Hne]; [lia|]. apply Z.lt_le_incl, Hf; lia. }
  destruct opened_table as (t & Et' & Hn & Ec).
  destruct (open_ports_over f P Ho opened s Leaf t x port_blocks Hx) as (s' & E & Ho' & Hx' & Hs').
  - by rewrite Et.
  - apply Forall_forall. intros i Hi. unfold opened in Hi. rewrite !elem_of_cons, elem_of_nil in Hi. unfold P. lia.
  - exact Et'.
  - exact Hs.
  - exists s'. split; [exact E|].
    pose proof (open_port_over f P Ho s' t crashing x [] Hx' Ho' ltac:(unfold P, crashing; lia) Hn) as R.
    rewrite app_nil_r, Ec in R. exact (R Hs').
Qed.

(** Process 1 alone matters here: no user memory. *)
Definition demo_ports : kst demo_heap flat := KState demo_kernel demo0 demo_objects (Flat 0x1000 ∅ 0).

(** Ports 20, 60, 90, 50, 80, 70, 10 and 40, then 30. *)
Lemma open_port_crashes_kernel_witness : exists s',
  open_ports [20; 60; 90; 50; 80; 70; 10; 40] demo_ports = Ret (replicate 8 (err ENONE), s') /\ open_port 30 s' = Fault.
Proof.
  apply (open_port_crashes_kernel demo_ports (fun i => 10 * i) demo_p1).
  - intros i j Hi Hj. rewrite !s32_id by (unfold is_s32; lia). lia.
  - reflexivity.
  - reflexivity.
  - cbn [concat replicate app port_blocks serves].
    repeat (eexists _, _; split; [vm_compute; reflexivity|split; [discriminate|]]). exact I.
Defined.
