(* ===== verification/System.v ===== *)
(** The kernel while it runs: user programs, the two interrupts through which
    they enter the kernel (src/x86/preempt.S) and the processes between them.

    A step is one store of the running program, one preemption or one system
    call, each with the handlers of Kernel.v and Syscalls.v; a step whose handler
    does not return (it faults, panics or runs for ever) is no step.  The
    theorems are about every state the system can reach from a boot: processes
    are never lost or duplicated, a step disturbs no other process, and a
    preempted program comes back with its registers. *)
From S2P Require Import Prelude Status Alloc AvlTree MsgQueue PriorityQueue Paging Space Context Kernel Syscalls.

(** * The model *)
Section system.
Context {H W : Type} `{KHeap H} `{AddressSpaces W} (uninit : Z) (fuel : nat).

(** What makes a step: the running program's interrupts, with the registers it
    had, and its stores. *)
Inductive event :=
  | Preempt (frame : process_context_t)
  | SystemCall (i arg1 arg2 arg3 pc stack flags : Z)
  | UserStore (a b : Z).

(** [isr_preempt]: the registers pushed on the stack are the frame. *)
Definition isr_preempt (frame : process_context_t) : M (kst H W) (exit Z) :=
  _ ← kernel_store_active_context frame;
  c ← kernel_advance_scheduler;
  mret (LoadContext c).

(** [isr_syscall] passes the registers and the interrupt frame on. *)
Definition isr_syscall (i arg1 arg2 arg3 pc stack flags : Z) : M (kst H W) (exit Z) :=
  do_syscall uninit (kernel_call fuel) i arg1 arg2 arg3 pc stack flags.

Definition handle (e : event) : M (kst H W) (exit Z) :=
  match e with
  | Preempt frame => isr_preempt frame
  | SystemCall i a1 a2 a3 pc stack flags => isr_syscall i a1 a2 a3 pc stack flags
  | UserStore a b => _ ← on_world (as_write8 a b); mret (Returned 0)
  end.
End system.

(** * Theory *)
Section theory.
Context {H W : Type} `{KHeap H} `{AddressSpacesOk W, !AddressSpacesMap W, !AddressSpacesQueries W}.
Implicit Types s : kst H W.

(** ** What the running process may change without touching the others *)

(** Memory grows, and only in the current space do its contents change. *)
Record grows (w w' : W) : Prop := {
  gr_wf : as_wf w -> as_wf w';
  gr_current : as_current w' = as_current w;
  gr_mapped : forall t a, is_Some (as_byte w t a) -> is_Some (as_byte w' t a);
  gr_others : forall t a, t <> as_current w -> as_byte w' t a = as_byte w t a
}.

#[export] Instance grows_preorder : PreOrder grows.
Proof.
  split; [by split|]. intros x y z [A1 A2 A3 A4] [B1 B2 B3 B4]. split; [auto|congruence|auto|].
  intros t a Ht. rewrite B4, A4; congruence.
Qed.

(** A process without its queues. *)
Definition core (d : process_t) := (pid d, priority d, page_table d, state d, message_buffer d, ctx d).

(** The context of the running process. *)
Definition own_ctx s (c : Z) : Prop :=
  exists x, procs (objs s) !! active_process (kernel s) = Some x /\ ctx x = c.

(** The messages in the kernel are whole. *)
Definition msgs_ok (o : objects) : Prop := map_Forall (fun _ m => length (args m) = 6%nat) (msgs o).

Record quiet s s' : Prop := {
  qu_queue : priority_queue (kernel s') = priority_queue (kernel s);
  qu_active : active_process (kernel s') = active_process (kernel s);
  qu_table : syscall_table (kernel s') = syscall_table (kernel s);
  qu_procs : core <$> procs (objs s') = core <$> procs (objs s);
  qu_live : forall c, is_Some (ctxs (objs s) !! c) -> is_Some (ctxs (objs s') !! c);
  qu_ctxs : forall c, ~ own_ctx s c -> ctxs (objs s') !! c = ctxs (objs s) !! c;
  qu_msgs : msgs_ok (objs s) -> msgs_ok (objs s');
  qu_world : grows (world s) (world s')
}.

Lemma core_lookup (m m' : gmap Z process_t) p x' :
  core <$> m' = core <$> m -> m' !! p = Some x' -> exists x, m !! p = Some x /\ core x = core x'.
Proof.
  intros E Hx. assert ((core <$> m) !! p = Some (core x')) as L by (by rewrite <- E, lookup_fmap, Hx).
  rewrite lookup_fmap in L. destruct (m !! p) as [x|]; [|done]. apply (inj Some) in L. by exists x.
Qed.

Lemma own_ctx_quiet s s' c : quiet s s' -> own_ctx s' c -> own_ctx s c.
Proof.
  intros Q (x & Hx & <-). rewrite (qu_active _ _ Q) in Hx.
  destruct (core_lookup _ _ _ _ (qu_procs _ _ Q) Hx) as (y & Hy & Ec). exists y. split; [done|].
  by injection Ec.
Qed.

#[export] Instance quiet_preorder : PreOrder quiet.
Proof.
  split; [by intros s; split|]. intros s1 s2 s3 Q R. pose proof Q as [A1 A2 A3 A4 A5 A6 A7 A8]. pose proof R as [B1 B2 B3 B4 B5 B6 B7 B8].
  split; [congruence|congruence|congruence|congruence|by auto| |by auto|by etrans].
  intros c Hc. rewrite B6, A6; [done|done|]. intros Hc'. apply Hc. by eapply own_ctx_quiet.
Qed.

Lemma read_words_length n : forall a (w : W) ws w', read_words n a w = Ret (ws, w') -> length ws = n.
Proof.
  induction n as [|n IH]; intros a w ws w'; cbn [read_words]; [by intros [= <- _]|].
  intros (x & w1 & _ & (xs & w2 & E & [= <- _])%M_bind_Ret)%M_bind_Ret. cbn [length]. by rewrite (IH _ _ _ _ E).
Qed.

Lemma on_world_inv {A} (m : M W A) s a s' : on_world m s = Ret (a, s') ->
  exists w, m (world s) = Ret (a, w) /\ s' = KState (kernel s) (kheap s) (objs s) w.
Proof. unfold on_world. intros ([b w] & E & [= <- <-])%outcome_bind_Ret. by exists w. Qed.

(** Computations that are quiet whenever they return. *)
Definition silent {A} (m : M (kst H W) A) : Prop := forall s a s', m s = Ret (a, s') -> quiet s s'.

Lemma silent_bind {A B} (m : M (kst H W) A) (k : A -> M (kst H W) B) :
  silent m -> (forall a, silent (k a)) -> silent (m ≫= k).
Proof. intros Hm Hk s b s' (a & s1 & E1 & E2)%M_bind_Ret. etrans; [by eapply Hm|by eapply Hk]. Qed.

Lemma silent_mret {A} (a : A) : silent (mret a).
Proof. by intros s b s' [= _ <-]. Qed.
Lemma silent_fault {A} : silent (fault (A := A)).
Proof. done. Qed.
Lemma silent_panic {A} : silent (panic (A := A)).
Proof. done. Qed.
Lemma silent_gets {A} (f : kst H W -> A) : silent (gets f).
Proof. by intros s b s' [= _ <-]. Qed.
Lemma silent_liftO {A} (o : outcome A) : silent (liftO o).
Proof. intros s b s'. unfold liftO. destruct o; simpl; [by intros [= _ <-]|done..]. Qed.
Lemma silent_on_heap {A} (m : M H A) : silent (on_heap m).
Proof. intros s b s'. unfold on_heap. destruct (m _) as [[a h]| | |]; simpl; [by intros [= _ <-]|done..]. Qed.
Lemma silent_on_queue {A} (m : M (H * gmap Z queue_node_t) A) : silent (on_queue m).
Proof. intros s b s'. unfold on_queue. destruct (m _) as [[a [h n]]| | |]; simpl; [by intros [= _ <-]|done..]. Qed.
Lemma silent_same_world {A} (m : M W A) : (forall w a w', m w = Ret (a, w') -> w' = w) -> silent (on_world m).
Proof.
  intros Hm s b s'. unfold on_world. destruct (m _) as [[a w]| | |] eqn:E; simpl; [|done..].
  apply Hm in E as ->. intros [= _ <-]. by split.
Qed.
Lemma silent_load {A} (f : kst H W -> option A) : silent (fun s => x ← of_option (f s); Ret (x, s)).
Proof. intros s b s'. destruct (f s); simpl; [by intros [= _ <-]|done]. Qed.
Lemma silent_upd_objs f :
  (forall o, core <$> procs (f o) = core <$> procs o) -> (forall o, ctxs (f o) = ctxs o) ->
  (forall o, msgs_ok o -> msgs_ok (f o)) -> silent (upd_objs f).
Proof.
  intros Hp Hc Hm s b s' [= _ <-]. split; cbn [kernel objs world]; [done..|by apply Hp| |by rewrite Hc|by apply Hm|done].
  by rewrite Hc.
Qed.
Lemma silent_upd_kernel f :
  (forall k, priority_queue (f k) = priority_queue k /\ active_process (f k) = active_process k /\
     syscall_table (f k) = syscall_table k) -> silent (upd_kernel f).
Proof. intros Hk s b s' [= _ <-]. destruct (Hk (kernel s)) as (?&?&?). by split. Qed.
Lemma silent_init p f : silent (upd_objs f) -> silent (init p f).
Proof. unfold init. by destruct (p =? NULL). Qed.

Lemma put_proc_quiet s p x y u s' : procs (objs s) !! p = Some y -> core x = core y ->
  put_proc p x s = Ret (u, s') -> quiet s s'.
Proof.
  intros Hy Ec. unfold put_proc, init. destruct (p =? NULL); [done|]. intros [= _ <-].
  split; cbn [kernel objs world set_procs procs ctxs]; try done.
  rewrite fmap_insert, Ec. apply insert_id. by rewrite lookup_fmap, Hy.
Qed.

(** The queue operations put the process back with another queue. *)
Lemma requeue_quiet s s1 s2 p x x' u : procs (objs s) !! p = Some x -> quiet s s1 -> core x' = core x ->
  put_proc p x' s1 = Ret (u, s2) -> quiet s s2.
Proof.
  intros Hx Q Ec E. destruct (core_lookup _ _ _ _ (eq_sym (qu_procs _ _ Q)) Hx) as (y & Hy & Ey).
  etrans; [exact Q|]. eapply put_proc_quiet; [exact Hy| |exact E]. congruence.
Qed.

Lemma load_proc_Ret p s x s' : load_proc p s = Ret (x, s') -> s' = s /\ procs (objs s) !! p = Some x.
Proof. unfold load_proc. destruct (_ !! _); [|done]. by intros [= -> ->]. Qed.

Lemma silent_next_message p : silent (next_message p).
Proof.
  intros s b s' (x & s1 & [-> Hx]%load_proc_Ret & ([a q] & s2 & E2 & ([] & s3 & E3 & [= _ <-])%M_bind_Ret)%M_bind_Ret)%M_bind_Ret.
  eapply requeue_quiet; [exact Hx|by eapply silent_on_queue| |exact E3]. done.
Qed.

Lemma silent_enqueue_message p m : silent (enqueue_message p m).
Proof.
  intros s b s' (x & s1 & [-> Hx]%load_proc_Ret & ([a q] & s2 & E2 & E3)%M_bind_Ret)%M_bind_Ret.
  eapply requeue_quiet; [exact Hx|by eapply silent_on_queue| |exact E3]. done.
Qed.

Lemma silent_if {A} (b : bool) (m1 m2 : M (kst H W) A) : silent m1 -> silent m2 -> silent (if b then m1 else m2).
Proof. by destruct b. Qed.

(** A message read from memory is whole. *)
Lemma silent_read_message {B} a (k : list Z -> M (kst H W) B) :
  (forall ws, length ws = 8%nat -> silent (k ws)) -> silent (ws ← on_world (read_words 8 a); k ws).
Proof.
  intros Hk s b s' (ws & s1 & E1 & E2)%M_bind_Ret. pose proof E1 as (w & E & ->)%on_world_inv.
  etrans; [eapply silent_same_world; [|exact E1]; intros ? ? ?; apply read_words_same|].
  by eapply Hk; [eapply read_words_length|].
Qed.

Lemma silent_put_message p ws : length ws = 8%nat -> silent (put_msg p (words_message ws)).
Proof.
  intros Hl. apply silent_init, silent_upd_objs; [done|done|].
  intros o Ho. apply map_Forall_insert_2; [|exact Ho]. destruct ws as [|w0 [|w1 ws]]; [done..|]. by injection Hl.
Qed.

Lemma silent_free_msg p : silent (free_msg p).
Proof.
  apply silent_bind; [apply silent_on_heap|intros _]. apply silent_upd_objs; [done|done|].
  intros o. apply map_Forall_delete.
Qed.

(** Run through the code: every step is quiet. *)
Ltac quiet_step :=
  first
    [ apply silent_next_message | apply silent_enqueue_message | apply silent_free_msg
    | apply silent_read_message; intros ? ? | apply silent_put_message; assumption | apply silent_bind; [|intros ?] | apply silent_if | apply silent_mret | apply silent_fault | apply silent_panic
    | apply silent_gets | apply silent_liftO | apply silent_on_heap | apply silent_init | apply silent_load
    | apply silent_upd_objs; by intros [] | apply silent_upd_kernel; by intros [] ].
Ltac solve_silent := repeat quiet_step.

Lemma silent_create_port i : silent (kernel_create_port i).
Proof. unfold kernel_create_port. solve_silent. Qed.
Lemma silent_remove_port i : silent (kernel_remove_port i).
Proof. unfold kernel_remove_port, free_port. solve_silent. Qed.
Lemma silent_get_port_owner i : silent (kernel_get_port_owner i).
Proof. unfold kernel_get_port_owner. solve_silent. Qed.
Lemma silent_queue_message r m : silent (kernel_queue_message r m).
Proof. unfold kernel_queue_message. solve_silent. Qed.

(** ** The memory calls *)

(** The pages of a range are user memory. *)
Definition user_pages (location length : Z) : Prop := location + length <= 2 ^ 32 /\
  forall page, location <= page < location + length -> page mod 4096 = 0 -> as_user_page page.

Lemma range_free_same fuel : forall location length i (w : W) b w',
  range_free fuel location length i w = Ret (b, w') -> w' = w.
Proof.
  induction fuel as [|fuel IH]; intros location length i w b w'; cbn [range_free]; [done|].
  destruct (i <? length); [|by intros [= _ <-]].
  intros (t & w1 & [-> _]%as_page_type_same & E)%M_bind_Ret.
  destruct (has_flag t PAGE_PRESENT); [by injection E|by apply IH in E].
Qed.

(** The loop of [munmap] does not end. *)
Lemma unmap_range_never fuel : forall location length (w : W) r w', 0 < length ->
  unmap_range fuel location length 0 (err ENONE) w <> Ret (r, w').
Proof.
  induction fuel as [|fuel IH]; intros location length w r w' Hl; cbn [unmap_range]; [done|].
  rewrite (proj2 (Z.ltb_lt 0 length) Hl), Z.eqb_refl. cbn [andb].
  intros (t & w1 & [-> Ht]%as_page_type_same & E)%M_bind_Ret. rewrite Ht in E.
  destruct (has_flag t PAGE_PRESENT); [|by apply IH in E].
  apply M_bind_Ret in E as (f & w2 & _ & E). by apply IH in E.
Qed.

Lemma munmap_returns fuel location length (w : W) r w' : munmap fuel location length w = Ret (r, w') ->
  w' = w /\ (0 < length -> r <> err ENONE).
Proof.
  unfold munmap. destruct (negb _ || negb _); [by intros [= <- <-]|].
  destruct (location =? 0); [by intros [= <- <-]|].
  destruct (Z.ltb_spec 0 length); [by intros ?%unmap_range_never|].
  destruct fuel; cbn [unmap_range]; [done|]. rewrite (proj2 (Z.ltb_ge _ _)) by done. intros [= <- <-]. by split; [|lia].
Qed.

(** Mapping a frame just reserved into a user page. *)
Lemma reserve_map_grows (w : W) f w1 page flags st w2 : as_wf w -> as_user_page page -> has_flag flags PAGE_RW = true ->
  as_reserve_page w = Ret (f, w1) -> f <> err ENOMEM -> as_map_page page f flags w1 = Ret (st, w2) -> grows w w2.
Proof.
  intros Hwf Hp Hfl E1 Hf E2. destruct (as_reserve_map_ok w Hwf) as (f' & w1' & E1' & (S1 & S2 & S3) & Hc).
  rewrite E1 in E1'. injection E1' as <- <-. destruct Hc as [?|(_ & _ & Hm)]; [done|].
  destruct (Hm page flags Hp Hfl) as (st' & w2' & E2' & Hc). rewrite E2 in E2'. injection E2' as <- <-.
  destruct Hc as [(_ & T1 & T2 & T3)|(_ & T1 & T2 & T3 & T4)]; (split; [done|congruence|..]); intros t a.
  - by rewrite T3, S3.
  - intros _. by rewrite T3, S3.
  - intros Hb. destruct (decide (t = as_current w1 /\ a / 4096 = page / 4096)) as [[-> Ha]|Hn];
      [by apply T4|by rewrite T3, S3].
  - intros Ht. rewrite T3, S3; [done|]. intros [-> _]. congruence.
Qed.

Lemma map_range_grows fuel : forall location length n (w : W) w',
  user_pages location length -> 0 <= location -> location mod 4096 = 0 -> 0 <= n -> n mod 4096 = 0 -> as_wf w ->
  map_range_from fuel location length n (err ENONE) w = Ret (err ENONE, w') -> grows w w'.
Proof.
  induction fuel as [|fuel IH]; intros location length n w w' Hu Hl0 Hl Hn0 Hn Hwf; cbn [map_range_from]; [done|].
  destruct (Z.ltb_spec n length) as [Hlt|]; [|by intros [= <-]]. rewrite Z.eqb_refl. cbn [andb].
  intros (f & w1 & E1 & K)%M_bind_Ret.
  destruct (Z.eqb_spec (f mod 4096) (err ENONE)) as [Hf|]; [|by injection K].
  apply M_bind_Ret in K as (st & w2 & E2 & K).
  assert (grows w w2) as G.
  { eapply reserve_map_grows; [exact Hwf| | |exact E1| |exact E2]; [|done|intros ->; by vm_compute in Hf].
    destruct Hu as [Hu1 Hu2]. rewrite u32_id by (unfold is_u32; lia).
    apply Hu2; [lia|]. by rewrite Z.add_mod, Hl, Hn by lia. }
  destruct (Z.eqb_spec st (err ENONE)) as [->|Hst]; cbn [negb] in K.
  - apply M_bind_Ret in K as ([] & w3 & [= <-] & K). etrans; [exact G|].
    apply IH in K; try done; [apply u32_range| |by apply G].
    unfold u32. Z.div_mod_to_equations. lia.
  - apply M_bind_Ret in K as ([] & w3 & _ & K). destruct fuel; cbn [map_range_from] in K; [done|].
    rewrite (proj2 (Z.eqb_neq _ _) Hst), andb_false_r in K. by injection K.
Qed.

Lemma mmap_grows fuel location length flags (w : W) r w' :
  user_pages location length -> 0 <= location -> as_wf w -> mmap fuel location length flags w = Ret (r, w') -> grows w w'.
Proof.
  intros Hu Hl Hwf. unfold mmap, page_aligned. destruct (Z.eqb_spec (location mod 4096) 0) as [Ha|]; cbn [negb orb];
    [|by intros [= _ <-]].
  destruct (negb _); [by intros [= _ <-]|]. destruct (location =? NULL); [by intros [= _ <-]|].
  intros (fr & w1 & ->%range_free_same & K)%M_bind_Ret. destruct fr; cbn [negb] in K; [|by injection K as _ <-].
  apply M_bind_Ret in K as (st & w2 & E & K). destruct (Z.eqb_spec st (err ENONE)) as [->|Hst]; cbn [negb] in K.
  - injection K as _ <-. by eapply map_range_grows in E.
  - apply M_bind_Ret in K as (r' & w3 & [_ Hr]%munmap_returns & K). destruct (Z.eqb_spec r' (err ENONE)) as [->|]; [|done].
    exfalso. apply Hr; [|done]. destruct (Z.ltb_spec 0 length); [done|]. exfalso.
    destruct fuel; cbn [map_range_from] in E; [done|]. rewrite (proj2 (Z.ltb_ge _ _)) in E by done. by injection E as <- _.
Qed.

(** ** The invariant *)

(** The processes that can run: the active one and the ready ones. *)
Definition roster s : list Z :=
  (if decide (active_process (kernel s) = NULL) then [] else [active_process (kernel s)]) ++ (value <$> ready s).

Record sys_inv s : Prop := {
  si_valid : valid (priority_queue (kernel s));
  si_table : syscall_table (kernel s) = syscalls;
  si_nodup : NoDup (roster s);
  si_roster : forall p, p ∈ roster s <-> exists x, procs (objs s) !! p = Some x /\ state x = PROCESS_ACTIVE;
  si_states : forall p x, procs (objs s) !! p = Some x -> p <> NULL /\ (state x = PROCESS_ACTIVE \/ state x = PROCESS_REQUESTING);
  si_priority : forall y x, y ∈ ready s -> procs (objs s) !! value y = Some x ->
    PriorityQueue.priority y = priority x;
  si_room : (base.size (procs (objs s)) <= capacity (priority_queue (kernel s)))%nat;
  si_ctx : forall p x, procs (objs s) !! p = Some x -> ctx x <> NULL /\ is_Some (ctxs (objs s) !! ctx x);
  si_ctx_inj : forall p p' x x', procs (objs s) !! p = Some x -> procs (objs s) !! p' = Some x' ->
    ctx x = ctx x' -> p = p';
  si_msgs : msgs_ok (objs s);
  si_world : as_wf (world s);
  si_spaces : forall p x, procs (objs s) !! p = Some x -> as_space (page_table x);
  si_waiting : forall p x, procs (objs s) !! p = Some x -> waiting x ->
    user_range (world s) (page_table x) (message_buffer x) 32
}.

(** A process runs, in its own space. *)
Definition running s : Prop := sys_inv s /\
  exists x, procs (objs s) !! active_process (kernel s) = Some x /\ as_current (world s) = page_table x.

Lemma roster_quiet s s' : quiet s s' -> roster s' = roster s.
Proof. intros Q. unfold roster, ready. by rewrite (qu_queue _ _ Q), (qu_active _ _ Q). Qed.

Lemma core_eq x y : core x = core y -> pid x = pid y /\ priority x = priority y /\ page_table x = page_table y /\
  state x = state y /\ message_buffer x = message_buffer y /\ ctx x = ctx y.
Proof. by intros [=]. Qed.

Lemma user_range_grows w w' t a n : grows w w' -> user_range w t a n -> user_range w' t a n.
Proof. intros G [F R]. split; [by apply G|]. intros i Hi. by apply G, R. Qed.

Lemma sys_inv_quiet s s' : quiet s s' -> sys_inv s -> sys_inv s'.
Proof.
  intros Q [I1 I2 I3 I4 I5 I6 I7 I8 I9 Im I10 I11 I12]. pose proof Q as [Q1 Q2 Q3 Q4 Q5 Q6 Qm Q7].
  assert (forall p x, procs (objs s') !! p = Some x -> exists y, procs (objs s) !! p = Some y /\ core y = core x) as L
    by (intros; by eapply core_lookup).
  split.
  - by rewrite Q1.
  - by rewrite Q3.
  - by rewrite (roster_quiet _ _ Q).
  - intros p. rewrite (roster_quiet _ _ Q), I4. split; intros (x & Hx & Hs).
    + destruct (core_lookup _ _ _ _ (eq_sym Q4) Hx) as (y & Hy & E%core_eq). exists y. split; [done|]. destruct E as (_&_&_&E&_). congruence.
    + destruct (L p x Hx) as (y & Hy & E%core_eq). exists y. split; [done|]. destruct E as (_&_&_&E&_). congruence.
  - intros p x Hx. destruct (L p x Hx) as (y & Hy & E%core_eq). destruct (I5 p y Hy). split; [done|]. destruct E as (_&_&_&<-&_). done.
  - unfold ready. rewrite Q1. intros y x Hy Hx. destruct (L _ x Hx) as (z & Hz & E%core_eq). rewrite (I6 y z Hy Hz). apply E.
  - rewrite Q1. rewrite <- (map_size_fmap core), Q4, map_size_fmap. done.
  - intros p x Hx. destruct (L p x Hx) as (y & Hy & E%core_eq). destruct (I8 p y Hy) as [A B].
    destruct E as (_&_&_&_&_&<-). split; [done|]. by apply Q5.
  - intros p p' x x' Hx Hx' E. destruct (L p x Hx) as (y & Hy & E1%core_eq). destruct (L p' x' Hx') as (y' & Hy' & E2%core_eq).
    eapply I9; [exact Hy|exact Hy'|]. destruct E1 as (_&_&_&_&_&->), E2 as (_&_&_&_&_&->). done.
  - by apply Qm.
  - by apply Q7.
  - intros p x Hx. destruct (L p x Hx) as (y & Hy & E%core_eq). destruct E as (_&_&<-&_). by eapply I11.
  - intros p x Hx [Hb Hw]. destruct (L p x Hx) as (y & Hy & E%core_eq). destruct E as (_&_&<-&Es&Eb&_). rewrite <- Eb in *.
    eapply user_range_grows; [exact Q7|]. apply (I12 p y Hy). split; [done|congruence].
Qed.

Lemma running_quiet s s' : quiet s s' -> running s -> running s'.
Proof.
  intros Q [I (x & Hx & Hc)]. split; [by eapply sys_inv_quiet|].
  destruct (core_lookup _ _ _ _ (eq_sym (qu_procs _ _ Q)) Hx) as (y & Hy & E%core_eq). exists y.
  rewrite (qu_active _ _ Q). split; [done|]. rewrite (gr_current _ _ (qu_world _ _ Q)), Hc. symmetry. apply E.
Qed.

(** ** The scheduler *)
Lemma nodup_size {A} (l : list Z) (m : gmap Z A) :
  NoDup l -> (forall p, p ∈ l -> is_Some (m !! p)) -> (length l <= base.size m)%nat.
Proof.
  intros Hn Hl. rewrite <- size_dom, <- (size_list_to_set (C := gset Z)) by done.
  apply subseteq_size. intros p. rewrite elem_of_list_to_set, elem_of_dom. apply Hl.
Qed.

Lemma length_ready s : valid (priority_queue (kernel s)) -> length (ready s) = size (priority_queue (kernel s)).
Proof. intros [[Hl Hc] _]. unfold ready, elements. rewrite length_take. lia. Qed.

Lemma roster_known s p : sys_inv s -> p ∈ roster s -> is_Some (procs (objs s) !! p).
Proof. intros I Hp. apply (si_roster s I) in Hp as (x & Hx & _). by exists x. Qed.

Lemma roster_active s : active_process (kernel s) <> NULL -> active_process (kernel s) ∈ roster s.
Proof. intros Hne. unfold roster. rewrite decide_False by done. apply list_elem_of_here. Qed.

Lemma contenders_roster s : sys_inv s -> value <$> contenders s = roster s.
Proof.
  intros I. unfold contenders, roster. case_decide as Hne; [done|].
  by destruct (roster_known s _ I (roster_active s Hne)) as [x ->].
Qed.

(** The queue is never full while a process runs. *)
Lemma sys_room s : sys_inv s -> has_room s.
Proof.
  intros I. destruct (decide (active_process (kernel s) = NULL)) as [|Hne]; [by left|right].
  pose proof (nodup_size _ _ (si_nodup s I) (fun p Hp => roster_known s p I Hp)) as L.
  unfold roster in L. rewrite decide_False in L by done. cbn [app length] in L. rewrite length_fmap in L.
  rewrite length_ready in L by apply I. pose proof (si_room s I). lia.
Qed.

Lemma sys_sched s : sys_inv s -> sched_inv s.
Proof.
  intros I. assert (forall p, p ∈ roster s -> is_Some (procs (objs s) !! p)) as K by (intros; by apply roster_known).
  split; [apply I| | |apply I|by apply (si_spaces s I)].
  - intros Hne. by apply K, roster_active.
  - intros y Hy. assert (value y ∈ roster s) as Hr.
    { unfold roster. apply elem_of_app. right. apply list_elem_of_fmap. by exists y. }
    destruct (K _ Hr) as [x Hx]. split; [by apply (si_states s I _ x)|by exists x].
Qed.

(** A switch: another process may run, nothing else has moved. *)
Record switched s s' (c : Z) : Prop := {
  sw_objs : objs s' = objs s;
  sw_roster : roster s' ≡ₚ roster s;
  sw_bytes : forall t a, as_byte (world s') t a = as_byte (world s) t a;
  sw_running : running s';
  sw_ctx : own_ctx s' c;
  sw_least : forall x, procs (objs s) !! active_process (kernel s') = Some x ->
    forall p y, procs (objs s) !! p = Some y -> state y = PROCESS_ACTIVE -> priority x <= priority y
}.

Lemma advance_ok s : sys_inv s ->
  (roster s = [] /\ kernel_advance_scheduler s = Panic) \/
  (exists c s', kernel_advance_scheduler s = Ret (c, s') /\ switched s s' c).
Proof.
  intros I. pose proof (contenders_roster s I) as Hc.
  assert (requeued s = contenders s) as Erq by (unfold requeued; by rewrite decide_True by (by apply sys_room)).
  destruct (advance_run s (sys_sched s I)) as [[E1 E2]|(y & x & q & w & E & P & Hmin & Hv & Hn & Hx & Hwf & Hcur & Hb & Hcap)]; rewrite Erq in *.
  { left. by rewrite <- Hc, E1. }
  right. exists (ctx x), (with_queue s q (value y) w). split; [done|].
  assert (roster (with_queue s q (value y) w) ≡ₚ roster s) as Hr.
  { rewrite <- Hc, P. unfold roster, ready, with_queue. cbn [kernel set_active_process active_process priority_queue].
    by rewrite decide_False. }
  assert (forall z u, z ∈ contenders s -> procs (objs s) !! value z = Some u -> PriorityQueue.priority z = priority u) as Hpr.
  { intros z u. unfold contenders. case_decide; [by apply I|].
    destruct (procs _ !! active_process _) as [x0|] eqn:Ea; [|by apply I].
    intros [->|Hz]%elem_of_cons; [|by apply I]. simpl. intros Hu. congruence. }
  assert (y ∈ contenders s) as Hy by (rewrite P; apply list_elem_of_here).
  split; [done|done|done| |by exists x|].
  - split; [|exists x; by split]. destruct I as [I1 I2 I3 I4 I5 I6 I7 I8 I9 Im I10 I11 I12]. split; try done.
    + by rewrite Hr.
    + intros p. rewrite Hr. apply I4.
    + intros z u Hz Hu. apply Hpr; [|done]. rewrite P. by apply elem_of_cons; right.
    + cbn [with_queue kernel set_active_process set_priority_queue priority_queue objs]. by rewrite Hcap.
    + intros p u Hu Hwt. split; [done|]. intros i Hi. cbn [with_queue world]. rewrite Hb. by apply (I12 p u Hu Hwt).
  - cbn [with_queue kernel set_active_process active_process]. intros x' Hx' p u Hu Hs.
    rewrite Hx in Hx'. injection Hx' as <-. rewrite <- (Hpr y x Hy Hx).
    assert (p ∈ value <$> contenders s) as Hp by (rewrite Hc; apply I; by exists u).
    apply list_elem_of_fmap in Hp as (z & -> & Hz). rewrite <- (Hpr z u Hz Hu). by apply Hmin.
Qed.

(** ** Delivery of a message *)
Record delivered s s' (p : Z) (d : process_t) : Prop := {
  dl_proc : procs (objs s) !! p = Some d;
  dl_waiting : waiting d;
  dl_procs : procs (objs s') = <[p := set_state PROCESS_ACTIVE (set_message_buffer NULL d)]> (procs (objs s));
  dl_ctxs : exists c, ctxs (objs s) !! ctx d = Some c /\
    ctxs (objs s') = <[ctx d := set_context_return (err ENONE) c]> (ctxs (objs s));
  dl_msgs : msgs (objs s') = msgs (objs s);
  dl_active : active_process (kernel s') = active_process (kernel s);
  dl_table : syscall_table (kernel s') = syscall_table (kernel s);
  dl_valid : valid (priority_queue (kernel s'));
  dl_capacity : capacity (priority_queue (kernel s')) = capacity (priority_queue (kernel s));
  dl_ready : (size (priority_queue (kernel s)) < capacity (priority_queue (kernel s)))%nat ->
    ready s' ≡ₚ Node p (priority d) :: ready s;
  dl_world : only_writes (world s) (world s') (page_table d) (message_buffer d) 32
}.

Lemma upd_proc_inv p f s u s' : upd_proc p f s = Ret (u, s') -> exists x, procs (objs s) !! p = Some x /\
  s' = KState (kernel s) (kheap s) (set_procs (<[p:=f x]> (procs (objs s))) (objs s)) (world s).
Proof.
  intros (x & s1 & [-> Hx]%load_proc_Ret & E)%M_bind_Ret. exists x. split; [done|].
  unfold put_proc, init in E. destruct (p =? NULL); [done|]. by injection E.
Qed.

Lemma upd_ctx_inv p f s u s' : upd_ctx p f s = Ret (u, s') -> exists x, ctxs (objs s) !! p = Some x /\
  s' = KState (kernel s) (kheap s) (set_ctxs (<[p:=f x]> (ctxs (objs s))) (objs s)) (world s).
Proof.
  intros (x & s1 & E1 & E)%M_bind_Ret. unfold load_ctx in E1.
  destruct (ctxs (objs s) !! p) as [x0|] eqn:Hx; [|done]. injection E1 as -> <-. exists x. split; [done|].
  unfold put_ctx, init in E. destruct (p =? NULL); [done|]. by injection E.
Qed.

(** The three memory operations of a delivery. *)
Lemma deliver_world (w w1 w2 w3 : W) t t0 b ws u1 u2 u3 : as_wf w -> as_space t -> as_space t0 -> as_current w = t0 ->
  user_range w t b (4 * Z.of_nat (length ws)) ->
  as_load t w = Ret (u1, w1) -> write_words b ws w1 = Ret (u2, w2) -> as_load t0 w2 = Ret (u3, w3) ->
  only_writes w w3 t b (4 * Z.of_nat (length ws)).
Proof.
  intros Hwf Ht Ht0 Hc [_ Hr] E1 E2 E3.
  destruct (as_load_ok t w Hwf Ht) as (w1' & E & F1 & C1 & B1). rewrite E in E1. injection E1 as _ <-.
  destruct (write_words_run w1' b ws) as (w2' & E' & F2 & C2 & S2 & B2).
  { rewrite C1. split; [done|]. intros i Hi. rewrite B1. by apply Hr. }
  rewrite E' in E2. injection E2 as _ <-. rewrite C1 in B2.
  destruct (as_load_ok t0 w2' F2 Ht0) as (w3' & E'' & F3 & C3 & B3). rewrite E'' in E3. injection E3 as _ <-.
  split; [done|]. split; [congruence|]. split.
  - intros t' a Hs. rewrite B3. apply S2. by rewrite B1.
  - intros t' a Hn. by rewrite B3, B2, B1.
Qed.

Lemma send_message_inv s r a e s' : running s -> kernel_send_message r a s = Ret (e, s') ->
  quiet s s' \/ (e = ENONE /\ exists p d, delivered s s' p d).
Proof.
  intros [I (x & Hx & Hcur)] (dest & s1 & [= <- <-] & K)%M_bind_Ret.
  destruct (_ =? NULL); [left; by injection K as _ <-|].
  set (p := avl_get _ _) in K. apply M_bind_Ret in K as (d & s1 & [-> Hd]%load_proc_Ret & K).
  destruct (_ && _) eqn:Hw; [|left; by injection K as _ <-].
  apply andb_prop in Hw as [Hb%negb_true_iff%Z.eqb_neq Hs%bool_decide_eq_true].
  apply M_bind_Ret in K as (a0 & s1 & [= <- <-] & K).
  apply M_bind_Ret in K as (x' & s1 & [-> Hx']%load_proc_Ret & K). rewrite Hx in Hx'. injection Hx' as <-.
  apply M_bind_Ret in K as (ws & s1 & (w0 & E0 & ->)%on_world_inv & K).
  pose proof (read_words_length _ _ _ _ _ E0) as Hlen. apply read_words_same in E0 as ->. cbv zeta in K.
  apply M_bind_Ret in K as (u1 & s1 & (w1 & E1 & ->)%on_world_inv & K).
  apply M_bind_Ret in K as (u2 & s1 & (w2 & E2 & ->)%on_world_inv & K).
  apply M_bind_Ret in K as (u3 & s1 & (w3 & E3 & ->)%on_world_inv & K). cbn [world kernel kheap objs] in *.
  apply M_bind_Ret in K as (u4 & s1 & (d1 & Hd1 & ->)%upd_proc_inv & K).
  apply M_bind_Ret in K as (u5 & s1 & (d2 & Hd2 & ->)%upd_proc_inv & K).
  apply M_bind_Ret in K as (u6 & s1 & (c & Hc & ->)%upd_ctx_inv & K).
  cbn [world kernel kheap objs set_procs procs set_ctxs ctxs] in *.
  rewrite Hd in Hd1. injection Hd1 as <-. rewrite lookup_insert_eq in Hd2. injection Hd2 as <-.
  apply M_bind_Ret in K as (u7 & s1 & E7 & [= <- <-]).
  match type of E7 with make_ready _ _ ?t = _ =>
    destruct (make_ready_run t p (priority d) (si_valid s I)) as (q & Eq & Hvq & Hcap & Pq) end.
  rewrite Eq in E7. injection E7 as _ <-. right. split; [done|]. exists p, d.
  split; cbn [set_kernel kernel kheap objs world set_priority_queue active_process syscall_table priority_queue set_procs procs set_ctxs ctxs]; try done.
  - by rewrite insert_insert_eq.
  - by exists c.
  - destruct ws as [|w0 [|w1' ws]]; [done..|]. unfold message_words in E2. cbn [sender code args words_message] in E2.
    cbn [length] in Hlen. eapply deliver_world in E3; [|apply I|..|exact E1|exact E2].
    + cbn [length] in E3. by replace (4 * Z.of_nat (S (S (length ws)))) with 32 in E3 by lia.
    + by apply (si_spaces s I p).
    + by apply (si_spaces s I _ _ Hx).
    + done.
    + cbn [length]. replace (4 * Z.of_nat (S (S (length ws)))) with 32 by lia. by apply (si_waiting s I p d Hd).
Qed.

Lemma waiting_not_runnable s p d : sys_inv s -> procs (objs s) !! p = Some d -> waiting d -> p ∉ roster s.
Proof.
  intros I Hd [_ Hw] Hp. apply (si_roster s I) in Hp as (x & Hx & Hs). congruence.
Qed.

Lemma delivered_ready s s' p d : sys_inv s -> delivered s s' p d -> ready s' ≡ₚ Node p (priority d) :: ready s.
Proof.
  intros I D. apply (dl_ready _ _ _ _ D). rewrite <- length_ready by apply I.
  assert (NoDup (p :: roster s)) as Hn.
  { apply NoDup_cons. split; [eapply waiting_not_runnable; [done|apply D..]|apply I]. }
  pose proof (nodup_size _ (procs (objs s)) Hn) as L. pose proof (si_room s I).
  unfold roster in L. cbn [length] in L. rewrite length_app, length_fmap in L.
  enough (S (length (ready s)) <= base.size (procs (objs s)))%nat by lia.
  etrans; [|apply L]; [lia|]. intros p' [->|Hp']%elem_of_cons; [exists d; apply D|by apply (roster_known s)].
Qed.

Lemma delivered_roster s s' p d : sys_inv s -> delivered s s' p d -> roster s' ≡ₚ p :: roster s.
Proof.
  intros I D. unfold roster. rewrite (dl_active _ _ _ _ D), (delivered_ready _ _ _ _ I D).
  cbn [fmap list_fmap value]. symmetry. apply Permutation_middle.
Qed.

Lemma sys_inv_delivered s s' p d : sys_inv s -> delivered s s' p d -> sys_inv s'.
Proof.
  intros I D. pose proof (delivered_roster s s' p d I D) as Hr. pose proof (delivered_ready s s' p d I D) as Hrd.
  assert (p ∉ roster s) as Hnot by (eapply waiting_not_runnable; [exact I|apply D|apply D]).
  pose proof I as [I1 I2 I3 I4 I5 I6 I7 I8 I9 Im I10 I11 I12].
  destruct D as [Hd Hw Hp (c & Hc & Hcs) Hms Ha Ht Hv Hcap _ (F & C & S & B)].
  split.
  - done.
  - congruence.
  - rewrite Hr. by apply NoDup_cons.
  - intros p'. rewrite Hr, Hp, elem_of_cons, I4. destruct (decide (p' = p)) as [->|Hne].
    + rewrite lookup_insert_eq. split; [|by left]. intros _. by eexists.
    + rewrite lookup_insert_ne by done. split; [by intros [|]|by right].
  - rewrite Hp. intros p' x [[<- <-]|[_ Hx]]%lookup_insert_Some; [|by eapply I5]. split; [by eapply I5|by left].
  - rewrite Hp. intros y x Hy Hx. assert (y ∈ Node p (priority d) :: ready s) as Hy' by (by rewrite <- Hrd).
    apply elem_of_cons in Hy' as [->|Hy'].
    + cbn [value] in Hx. rewrite lookup_insert_eq in Hx. by injection Hx as <-.
    + apply lookup_insert_Some in Hx as [[Ep _]|[_ Hx]]; [|by eapply I6].
      exfalso. apply Hnot. rewrite Ep. unfold roster. apply elem_of_app. right. apply list_elem_of_fmap. by exists y.
  - rewrite Hcap, Hp, map_size_insert_Some by done. done.
  - assert (forall p' x, procs (objs s) !! p' = Some x -> ctx x <> NULL /\ is_Some (ctxs (objs s') !! ctx x)) as K.
    { intros p' x Hx. destruct (I8 p' x Hx). split; [done|]. rewrite Hcs. apply lookup_insert_is_Some'. by right. }
    rewrite Hp. intros p' x [[<- <-]|[_ Hx]]%lookup_insert_Some; [by apply (K p d)|by eapply K].
  - rewrite Hp. intros p1 p2 x1 x2 [[<- <-]|[N1 H1']]%lookup_insert_Some [[<- <-]|[N2 H2']]%lookup_insert_Some; intros E;
      [done|by apply (I9 p p2 d x2)|by apply (I9 p1 p x1 d)|by eapply I9].
  - unfold msgs_ok. by rewrite Hms.
  - done.
  - rewrite Hp. intros p' x [[<- <-]|[_ Hx]]%lookup_insert_Some; [by apply (I11 p d)|by eapply I11].
  - rewrite Hp. intros p' x [[<- <-]|[_ Hx]]%lookup_insert_Some Hwx; [by destruct Hwx|].
    destruct (I12 p' x Hx Hwx) as [_ R]. split; [done|]. intros i Hi. by apply S, R.
Qed.

(** ** Waiting for a message *)
Lemma only_writes_grows (w w' : W) a n : only_writes w w' (as_current w) a n -> grows w w'.
Proof. intros (F & C & S & B). split; [done|done|done|]. intros t b Ht. apply B. by intros [-> _]. Qed.

Lemma store_quiet s ws a u s' : user_range (world s) (as_current (world s)) a (4 * Z.of_nat (length ws)) ->
  on_world (write_words a ws) s = Ret (u, s') -> quiet s s'.
Proof.
  intros Hr (w & E & ->)%on_world_inv. destruct (write_words_run (world s) a ws Hr) as (w' & E' & O).
  rewrite E' in E. injection E as _ <-. split; cbn [kernel objs world]; try done. by eapply only_writes_grows.
Qed.

(** The running process gives the processor up and waits with its buffer. *)
Definition block s (d : process_t) (buffer : Z) : kst H W :=
  KState (set_active_process NULL (kernel s)) (kheap s)
    (set_procs (<[active_process (kernel s) := set_state PROCESS_REQUESTING (set_message_buffer buffer d)]>
      (procs (objs s))) (objs s)) (world s).

Lemma active_in_roster s : running s -> active_process (kernel s) ∈ roster s /\
  roster s = active_process (kernel s) :: (value <$> ready s).
Proof.
  intros [I (x & Hx & _)]. unfold roster. rewrite decide_False by by eapply (si_states s I).
  split; [apply list_elem_of_here|done].
Qed.

Lemma sys_inv_block s d buffer : running s -> procs (objs s) !! active_process (kernel s) = Some d ->
  user_range (world s) (page_table d) buffer 32 -> sys_inv (block s d buffer).
Proof.
  intros R Hd Hb. pose proof (active_in_roster s R) as [Ha Er]. destruct R as [I _].
  assert (roster (block s d buffer) = value <$> ready s) as Er' by done.
  set (a := active_process (kernel s)) in *.
  pose proof I as [I1 I2 I3 I4 I5 I6 I7 I8 I9 Im I10 I11 I12]. rewrite Er in I3. apply NoDup_cons in I3 as [N3 I3].
  split; cbn [block kernel objs world set_procs procs ctxs set_active_process priority_queue syscall_table]; fold a; try done.
  - intros p. rewrite Er'. destruct (decide (p = a)) as [->|Hne].
    + rewrite lookup_insert_eq. split; [done|]. by intros (x & [= <-] & ?).
    + rewrite lookup_insert_ne by done. rewrite <- I4, Er, elem_of_cons. split; [by right|by intros [|]].
  - intros p x [[<- <-]|[_ Hx]]%lookup_insert_Some; [|by eapply I5]. split; [by eapply I5|by right].
  - intros y x Hy [[Ep <-]|[_ Hx]]%lookup_insert_Some; [|by eapply I6]. apply (I6 y d); [done|by rewrite <- Ep].
  - by rewrite map_size_insert_Some.
  - intros p x [[<- <-]|[_ Hx]]%lookup_insert_Some; [by apply (I8 a d)|by eapply I8].
  - intros p1 p2 x1 x2 [[<- <-]|[N1 H1']]%lookup_insert_Some [[<- <-]|[N2 H2']]%lookup_insert_Some; intros E;
      [done|by apply (I9 a p2 d x2)|by apply (I9 p1 a x1 d)|by eapply I9].
  - intros p x [[<- <-]|[_ Hx]]%lookup_insert_Some; [by apply (I11 a d)|by eapply I11].
  - intros p x [[<- <-]|[_ Hx]]%lookup_insert_Some Hw; [done|by eapply I12].
Qed.

Lemma receive_message_inv s buffer fl r s' : running s -> user_range (world s) (as_current (world s)) buffer 32 ->
  receive_message buffer fl s = Ret (r, s') ->
  (quiet s s' /\ exists e, r = Returned e) \/
  (exists d c, procs (objs s) !! active_process (kernel s) = Some d /\
     switched (block s d buffer) s' c /\ r = LoadContext c).
Proof.
  intros R Hb (a & s0 & [= <- <-] & (x & s1 & [-> Hx]%load_proc_Ret & K)%M_bind_Ret)%M_bind_Ret.
  destruct (0 <? _).
  - left. apply M_bind_Ret in K as (v & s1 & Q1%silent_next_message & K).
    apply M_bind_Ret in K as (m & s2 & E2 & K). unfold load_msg in E2.
    destruct (msgs (objs s1) !! v) as [m'|] eqn:Em; [|done]. injection E2 as -> <-.
    apply M_bind_Ret in K as (u & s3 & E3 & K). apply M_bind_Ret in K as ([] & s4 & Q4%silent_free_msg & [= <- <-]).
    assert (length (args m) = 6%nat) as Hl.
    { destruct R as [I _]. apply (qu_msgs _ _ Q1) in Em; [done|apply I]. }
    split; [|by eexists]. etrans; [exact Q1|]. etrans; [|exact Q4]. eapply store_quiet; [|exact E3].
    unfold message_words. cbn [length]. rewrite Hl. rewrite (gr_current _ _ (qu_world _ _ Q1)).
    eapply user_range_grows; [apply Q1|exact Hb].
  - destruct (_ =? IO_ASYNC); [left; injection K as <- <-; split; [done|by eexists]|]. right.
    apply M_bind_Ret in K as (u4 & s1 & (d1 & Hd1 & ->)%upd_proc_inv & K).
    apply M_bind_Ret in K as (u5 & s1 & (d2 & Hd2 & ->)%upd_proc_inv & K).
    apply M_bind_Ret in K as (u6 & s1 & [= _ <-] & K). apply M_bind_Ret in K as (c & s1 & E & [= <- <-]).
    cbn [kernel kheap objs world set_kernel set_procs procs] in *. rewrite Hx in Hd1. injection Hd1 as <-.
    rewrite lookup_insert_eq in Hd2. injection Hd2 as <-. rewrite insert_insert_eq in E.
    match type of E with kernel_advance_scheduler ?t = _ => change t with (block s x buffer) in E end. exists x, c.
    split; [done|]. split; [|done]. destruct R as [I (x' & Hx' & Hc)]. rewrite Hx in Hx'. injection Hx' as <-.
    destruct (advance_ok (block s x buffer)) as [[_ E']|(c' & s' & E' & Sw)].
    + apply sys_inv_block; [by split; [|exists x]|done|by rewrite <- Hc].
    + by rewrite E' in E.
    + rewrite E' in E. by injection E as <- <-.
Qed.

(** ** Steps *)

(** What a program may ask for here: stores to its own memory, a mapped buffer of
    its own to receive into, and pages of user memory, not of the kernel or of the
    page-table window, to map.  The code checks neither: receive_message takes
    any buffer address, and mmap any page that is not present.  What a program that
    asks for more can do is outside the theorems on steps and reachable states. *)
Definition allowed s (e : event) : Prop :=
  match e with
  | Preempt _ => True
  | UserStore a b => is_Some (as_byte (world s) (as_current (world s)) a) /\ 0 <= b < 256
  | SystemCall i a1 a2 _ _ _ _ =>
    (i = syscall_code SYSCALL_RECEIVE -> user_range (world s) (as_current (world s)) a1 32) /\
    (i = syscall_code SYSCALL_MMAP -> 0 <= a1 /\ user_pages a1 a2)
  end.

Definition step uninit fuel s (e : event) (r : exit Z) s' : Prop :=
  allowed s e /\ handle uninit fuel e s = Ret (r, s').

Definition sends (e : event) : Prop :=
  match e with SystemCall i _ _ _ _ _ _ => i = syscall_code SYSCALL_SEND | _ => False end.

(** The four things a step can be. *)
Inductive effect (e : event) s : exit Z -> kst H W -> Prop :=
  | own v s' : quiet s s' -> effect e s (Returned v) s'
  | deliver v s1 s' p d : sends e -> quiet s s1 -> delivered s1 s' p d -> effect e s (Returned v) s'
  | switch c s1 s' : quiet s s1 -> switched s1 s' c -> effect e s (LoadContext c) s'
  | wait c s1 s' d b : quiet s s1 -> procs (objs s1) !! active_process (kernel s1) = Some d ->
      switched (block s1 d b) s' c -> effect e s (LoadContext c) s'.

Lemma effect_quiet e s s1 r s' : quiet s s1 -> effect e s1 r s' -> effect e s r s'.
Proof.
  intros Q [v s2 Q'|v s2 s3 p d Hs Q' D|c s2 s3 Q' Sw|c s2 s3 d b Q' Hd Sw].
  - apply own. by etrans.
  - eapply deliver; [done|by etrans|done].
  - eapply switch; [by etrans|done].
  - eapply wait; [by etrans|done|done].
Qed.

Lemma returned_silent {A B} e s (f : A -> B) (g : B -> Z) (m : M (kst H W) A) r s' : silent m ->
  returned (fun a => g (f a)) m s = Ret (r, s') -> effect e s r s'.
Proof. intros Hm (a & s1 & E & [= <- <-])%M_bind_Ret. apply own. by eapply Hm. Qed.

Lemma send_effect e s r m fl x s' : running s -> sends e -> send r m fl s = Ret (x, s') -> effect e s x s'.
Proof.
  intros R He. unfold send. destruct (_ || _); [by intros [= <- <-]; apply own|].
  intros (r' & s1 & E1 & K)%M_bind_Ret.
  assert (quiet s s1) as Q1.
  { destruct (_ =? IO_PORT); [by eapply silent_get_port_owner|by injection E1 as _ <-]. }
  destruct (_ && _); [by injection K as <- <-; apply own|].
  apply M_bind_Ret in K as (st & s2 & E2 & K). eapply effect_quiet; [exact Q1|].
  apply send_message_inv in E2; [|by eapply running_quiet].
  destruct E2 as [Q2|[-> (p & d & D)]].
  - case_bool_decide; [|by injection K as <- <-; apply own].
    apply M_bind_Ret in K as (st' & s3 & Q3%silent_queue_message & [= <- <-]). apply own. by etrans.
  - rewrite bool_decide_false in K by done. injection K as <- <-. by eapply deliver.
Qed.

Lemma receive_effect e s b fl x s' : running s -> user_range (world s) (as_current (world s)) b 32 ->
  receive b fl s = Ret (x, s') -> effect e s x s'.
Proof.
  intros R Hb (r & s1 & E & [= <- <-])%M_bind_Ret.
  apply receive_message_inv in E as [[Q [v ->]]|(d & c & Hd & Sw & ->)]; [by apply own| |done..].
  by eapply wait.
Qed.

Lemma mmap_effect e s fuel a n fl x s' : running s -> 0 <= a -> user_pages a n ->
  returned (fun v => v) (on_world (mmap fuel a n fl)) s = Ret (x, s') -> effect e s x s'.
Proof.
  intros [I _] Ha Hu (r & s1 & (w & E & ->)%on_world_inv & [= <- <-])%M_bind_Ret. apply own.
  split; cbn [kernel objs world]; try done. eapply mmap_grows in E; [done..|apply I].
Qed.

Lemma munmap_effect e s fuel a n x s' :
  returned (fun v => v) (on_world (munmap fuel a n)) s = Ret (x, s') -> effect e s x s'.
Proof.
  intros (r & s1 & E & [= <- <-])%M_bind_Ret. apply own. eapply silent_same_world; [|exact E].
  intros w v w' Ew. by apply munmap_returns in Ew as [-> _].
Qed.

(** An entry of the table that [register_syscalls] builds. *)
Lemma table_entry k e : array_get syscalls k = Ret e ->
  defined e = false \/
  exists c n, Z.of_nat k = syscall_code c /\ registered c = Some n /\ e = Syscall true n 0 (syscall_code c).
Proof.
  intros E. apply of_option_Ret in E. revert E. unfold syscalls.
  do 10 (destruct k as [|k]; [intros [= <-]; first [by left|right];
    first [by eexists SYSCALL_TEST, _|by eexists SYSCALL_MMAP, _|by eexists SYSCALL_MUNMAP, _|by eexists SYSCALL_SEND, _
      |by eexists SYSCALL_RECEIVE, _|by eexists SYSCALL_OPEN_PORT, _|by eexists SYSCALL_CLOSE_PORT, _]|]).
  intros Hr. change (replicate 246 (Syscall false 0 0 0) !! k = Some e) in Hr.
  apply lookup_replicate in Hr as [-> _]. by left.
Qed.

Lemma call_effect s fuel c n a1 a2 a3 pc sp fl r s' : running s ->
  allowed s (SystemCall (syscall_code c) a1 a2 a3 pc sp fl) -> registered c = Some n ->
  kernel_call fuel (syscall_code c) (call_args n a1 a2 a3) s = Ret (r, s') ->
  effect (SystemCall (syscall_code c) a1 a2 a3 pc sp fl) s r s'.
Proof.
  intros R [Hrecv Hmap] Hn. destruct c; try discriminate Hn; injection Hn as <-.
  - intros [= <- <-]. by apply own.
  - intros E. destruct (Hmap eq_refl) as [Ha Hu]. exact (mmap_effect _ s fuel a1 a2 a3 r s' R Ha Hu E).
  - apply munmap_effect.
  - by apply send_effect.
  - intros E. eapply receive_effect; [done|by apply Hrecv|exact E].
  - apply (returned_silent _ _ err (fun v => v)), silent_create_port.
  - apply (returned_silent _ _ err (fun v => v)), silent_remove_port.
Qed.

(** Saving the state the program was interrupted in. *)
Lemma save_quiet s c f u s' x : procs (objs s) !! active_process (kernel s) = Some x -> ctx x = c ->
  upd_ctx c f s = Ret (u, s') -> quiet s s'.
Proof.
  intros Hx Hc (y & Hy & ->)%upd_ctx_inv. split; cbn [kernel objs world set_ctxs procs ctxs]; try done.
  - intros c' Hc'. apply lookup_insert_is_Some'. by right.
  - intros c' Hn. apply lookup_insert_ne. intros ->. apply Hn. by exists x.
Qed.

Lemma allowed_quiet s s' e : quiet s s' -> allowed s e -> allowed s' e.
Proof.
  intros Q. pose proof (qu_world _ _ Q) as G. destruct e as [f|i a1 a2 a3 pc sp fl|a b]; cbn [allowed]; [done| |].
  - intros [A B]. split; [|done]. intros Hi. rewrite (gr_current _ _ G). by eapply user_range_grows; [|apply A].
  - intros [A B]. split; [|done]. rewrite (gr_current _ _ G). by apply G.
Qed.

Lemma syscall_effect uninit fuel s i a1 a2 a3 pc sp fl r s' : running s ->
  allowed s (SystemCall i a1 a2 a3 pc sp fl) ->
  isr_syscall uninit fuel i a1 a2 a3 pc sp fl s = Ret (r, s') -> effect (SystemCall i a1 a2 a3 pc sp fl) s r s'.
Proof.
  intros R Hal. unfold isr_syscall, do_syscall. destruct (Z.ltb_spec i 0) as [|Hi]; cbn [orb];
    [by intros [= <- <-]; apply own|].
  destruct (MAX_SYSCALL_ID <? i); [by intros [= <- <-]; apply own|].
  intros (t & s0 & [= <- <-] & (e & s1 & E & K)%M_bind_Ret)%M_bind_Ret.
  rewrite (si_table s (proj1 R)) in E. unfold liftO in E. apply outcome_bind_Ret in E as (e' & E & [= -> <-]).
  apply table_entry in E as [E|(c & n & Hc & Hn & ->)]; [rewrite E in K; injection K as <- <-; by apply own|].
  rewrite Z2Nat.id in Hc by done. subst i. cbn [defined negb process_id arg_count syscall_ptr] in K.
  change (0 <? 0) with false in K. cbv iota in K.
  apply M_bind_Ret in K as (q & s1 & [= <- <-] & K). change (1 =? NULL) with false in K. cbv iota in K.
  apply M_bind_Ret in K as (u & s1 & [= _ <-] & K). apply M_bind_Ret in K as (a & s1 & [= <- <-] & K).
  apply M_bind_Ret in K as (x & s1 & [-> Hx]%load_proc_Ret & K).
  apply M_bind_Ret in K as (u2 & s1 & Es & K). eapply save_quiet in Es; [|exact Hx|done].
  apply M_bind_Ret in K as (v & s2 & Ec & K). eapply effect_quiet; [exact Es|].
  assert (s' = s2 /\ r = v) as [-> ->] by (by destruct v; injection K as <- <-).
  eapply call_effect; [by eapply running_quiet|by eapply allowed_quiet|exact Hn|].
  destruct c; try discriminate Hn; injection Hn as <-; exact Ec.
Qed.

Lemma step_effect uninit fuel s e r s' : running s -> step uninit fuel s e r s' -> effect e s r s'.
Proof.
  intros R [Hal E]. destruct e as [frame|i a1 a2 a3 pc sp fl|a b]; cbn [handle] in E.
  - apply M_bind_Ret in E as (st & s1 & E1 & (c & s2 & E2 & [= <- <-])%M_bind_Ret).
    assert (quiet s s1) as Q.
    { destruct R as [I (x & Hx & _)]. apply M_bind_Ret in E1 as (a & s0 & [= <- <-] & K).
      destruct (_ =? NULL); [by injection K as _ <-|]. apply M_bind_Ret in K as (x' & s0 & [-> Hx']%load_proc_Ret & K).
      rewrite Hx in Hx'. injection Hx' as <-. destruct (_ =? NULL); [by injection K as _ <-|].
      apply M_bind_Ret in K as (u & s0 & Ep & [= _ <-]). apply (save_quiet s (ctx x) (fun _ => frame) u _ x Hx eq_refl).
      destruct (si_ctx s I _ _ Hx) as [_ [c0 Hc0]]. unfold upd_ctx, load_ctx, mbind, M_mbind. rewrite Hc0. exact Ep. }
    eapply switch; [exact Q|]. destruct (advance_ok s1) as [[_ E']|(c' & s' & E' & Sw)].
    + by eapply sys_inv_quiet; [|apply R].
    + by rewrite E' in E2.
    + rewrite E' in E2. by injection E2 as <- <-.
  - by eapply syscall_effect.
  - apply M_bind_Ret in E as (u & s1 & (w & E & ->)%on_world_inv & [= <- <-]). apply own.
    destruct Hal as [Ha Hb]. destruct (as_write8_ok (world s) a b (si_world s (proj1 R)) Ha Hb) as (w' & E' & F & C & B).
    rewrite E' in E. injection E as _ <-. split; cbn [kernel objs world]; try done. split; [done|done|..].
    + intros t' a' Hs. rewrite B. by case_decide.
    + intros t' a' Ht. rewrite B, decide_False; [done|]. by intros [? _].
Qed.

(** ** What a step does to the others *)
Definition untouched s s' (p : Z) (d : process_t) : Prop :=
  (exists d', procs (objs s') !! p = Some d' /\ core d' = core d) /\
  ctxs (objs s') !! ctx d = ctxs (objs s) !! ctx d.

Definition woken s s' (p : Z) (d : process_t) : Prop := waiting d /\
  (exists d', procs (objs s') !! p = Some d' /\ core d' = core (set_state PROCESS_ACTIVE (set_message_buffer NULL d))) /\
  (exists c, ctxs (objs s) !! ctx d = Some c /\
     ctxs (objs s') !! ctx d = Some (set_context_return (err ENONE) c)).

(** At most one other process, [o], is woken; the memory that changes is the
    current space's and [o]'s message buffer. *)
Record isolated s s' (o : option Z) : Prop := {
  is_dom : forall p, is_Some (procs (objs s') !! p) <-> is_Some (procs (objs s) !! p);
  is_others : forall p d, procs (objs s) !! p = Some d -> p <> active_process (kernel s) ->
    if decide (o = Some p) then woken s s' p d else untouched s s' p d;
  is_memory : forall t a, as_byte (world s') t a = as_byte (world s) t a \/ t = as_current (world s) \/
    exists p d, o = Some p /\ procs (objs s) !! p = Some d /\ t = page_table d /\
      message_buffer d <= a < message_buffer d + 32
}.

Lemma core_is_Some (m m' : gmap Z process_t) p : core <$> m' = core <$> m -> is_Some (m' !! p) <-> is_Some (m !! p).
Proof. intros E. rewrite <- (fmap_is_Some core (m' !! p)), <- (fmap_is_Some core (m !! p)), <- !lookup_fmap. by rewrite E. Qed.

Lemma quiet_untouched s s' p d : sys_inv s -> quiet s s' -> procs (objs s) !! p = Some d ->
  p <> active_process (kernel s) -> untouched s s' p d.
Proof.
  intros I Q Hd Hne. split.
  - destruct (core_lookup _ _ _ _ (eq_sym (qu_procs _ _ Q)) Hd) as (d' & Hd' & E). eauto.
  - apply (qu_ctxs _ _ Q). intros (x & Hx & E). apply Hne. by eapply si_ctx_inj.
Qed.

Lemma quiet_memory s s' t a : quiet s s' -> as_byte (world s') t a = as_byte (world s) t a \/ t = as_current (world s).
Proof.
  intros Q. destruct (decide (t = as_current (world s))); [by right|left]. by apply (gr_others _ _ (qu_world _ _ Q)).
Qed.

Lemma isolated_quiet s s' : sys_inv s -> quiet s s' -> isolated s s' None.
Proof.
  intros I Q. split.
  - intros p. apply core_is_Some, Q.
  - intros p d Hd Hne. rewrite decide_False by done. by apply quiet_untouched.
  - intros t a. destruct (quiet_memory s s' t a Q); auto.
Qed.

(** A later state that agrees on the other processes and on memory. *)
Lemma isolated_agree s s1 s' o : isolated s s1 o ->
  (forall p, p <> active_process (kernel s) -> procs (objs s') !! p = procs (objs s1) !! p) ->
  (forall p, is_Some (procs (objs s') !! p) <-> is_Some (procs (objs s1) !! p)) ->
  ctxs (objs s') = ctxs (objs s1) -> (forall t a, as_byte (world s') t a = as_byte (world s1) t a) ->
  isolated s s' o.
Proof.
  intros [D O Mm] Hp Hd Hc Hb. split.
  - intros p. by rewrite Hd.
  - intros p d Hx Hne. specialize (O p d Hx Hne). unfold woken, untouched in *. by rewrite Hp, Hc.
  - intros t a. rewrite Hb. apply Mm.
Qed.

Lemma isolated_delivered s s1 s' p d : running s -> quiet s s1 -> delivered s1 s' p d ->
  isolated s s' (Some p) /\ p <> active_process (kernel s).
Proof.
  intros R Q D. pose proof R as [I _]. assert (sys_inv s1) as I1 by (by eapply sys_inv_quiet).
  assert (p <> active_process (kernel s)) as Hpa.
  { intros ->. apply (waiting_not_runnable s1 (active_process (kernel s)) d I1); [apply D..|].
    rewrite (roster_quiet _ _ Q). by apply active_in_roster. }
  destruct D as [Hd Hw Hp (c & Hc & Hcs) _ _ _ _ _ _ (_ & C & _ & B)]. split; [|done].
  destruct (core_lookup _ _ _ _ (qu_procs _ _ Q) Hd) as (d0 & Hd0 & E0).
  pose proof (core_eq _ _ E0) as (E1 & E2 & E3 & E4 & E5 & E6).
  split.
  - intros q. rewrite Hp, <- (core_is_Some _ _ q (qu_procs _ _ Q)).
    destruct (decide (q = p)) as [->|Hne]; [rewrite lookup_insert_eq, Hd; split; by eexists|by rewrite lookup_insert_ne].
  - intros q x Hx Hne. destruct (quiet_untouched s s1 q x I Q Hx Hne) as [(x' & Hx' & Ex) Hcx]. case_decide as Ho.
    + injection Ho as <-. rewrite Hd0 in Hx. injection Hx as <-. split; [|split].
      * destruct Hw. split; congruence.
      * exists (set_state PROCESS_ACTIVE (set_message_buffer NULL d)). rewrite Hp, lookup_insert_eq. split; [done|].
        unfold core. cbn. by rewrite E1, E2, E3, E6.
      * exists c. rewrite <- Hcx, E6. split; [done|]. by rewrite Hcs, lookup_insert_eq.
    + assert (q <> p) as Hqp by congruence. split.
      * exists x'. by rewrite Hp, lookup_insert_ne.
      * rewrite Hcs, lookup_insert_ne; [done|]. intros Ec. apply Hqp.
        apply (si_ctx_inj s1 I1 q p x' d Hx' Hd). apply core_eq in Ex as (_&_&_&_&_&->). congruence.
  - intros t a. destruct (decide (t = page_table d /\ message_buffer d <= a < message_buffer d + 32)) as [[-> Ha]|Hn].
    + right. right. exists p, d0. by rewrite E3, E5.
    + rewrite B by done. destruct (quiet_memory s s1 t a Q); auto.
Qed.

Lemma effect_isolated e s r s' : running s -> effect e s r s' ->
  running s' /\ (forall c, r = LoadContext c -> own_ctx s' c) /\
  exists o, isolated s s' o /\ (is_Some o -> sends e).
Proof.
  intros R [v s2 Q|v s1 s2 p d Hs Q D|c s1 s2 Q Sw|c s1 s2 d b Q Hd Sw]; pose proof R as [I _].
  - split; [by eapply running_quiet|]. split; [done|]. exists None. split; [by apply isolated_quiet|by intros []].
  - destruct (isolated_delivered s s1 s2 p d R Q D) as [Iso Hne].
    assert (running s1) as [I1 (x & Hx & Hc)] by (by eapply running_quiet).
    split; [|split; [done|by exists (Some p)]].
    split; [by eapply sys_inv_delivered|]. exists x. rewrite (dl_active _ _ _ _ D), (dl_procs _ _ _ _ D).
    rewrite lookup_insert_ne by (by rewrite (qu_active _ _ Q)). split; [done|].
    by rewrite (proj1 (proj2 (dl_world _ _ _ _ D))).
  - split; [apply Sw|]. split; [by intros ? [= <-]; apply Sw|]. exists None. split; [|by intros []].
    eapply isolated_agree; [by apply isolated_quiet|..]; rewrite ?(sw_objs _ _ _ Sw); [done..|apply Sw].
  - split; [apply Sw|]. split; [by intros ? [= <-]; apply Sw|]. exists None. split; [|by intros []].
    assert (active_process (kernel s1) = active_process (kernel s)) as Ea by apply Q.
    eapply isolated_agree; [by apply isolated_quiet|..]; rewrite ?(sw_objs _ _ _ Sw); [| |done|apply Sw].
    + intros p Hne. cbn [block objs set_procs procs]. rewrite lookup_insert_ne; [done|]. congruence.
    + intros p. cbn [block objs set_procs procs]. destruct (decide (p = active_process (kernel s1))) as [->|Hne].
      * rewrite lookup_insert_eq, Hd. split; by eexists.
      * by rewrite lookup_insert_ne.
Qed.
End theory.

(** ** From boot on *)
Section boot.
Context {H W : Type} `{KHeapOk H} `{AddressSpacesOk W, !AddressSpacesMap W, !AddressSpacesQueries W}.
Context (uninit kernel_start : Z) (fuel : nat).
Implicit Types s : kst H W.

(** The state [kernel_initialize] has built before it loads the modules. *)
Definition fresh s : Prop :=
  active_process (kernel s) = NULL /\ procs (objs s) = ∅ /\ ctxs (objs s) = ∅ /\ msgs (objs s) = ∅ /\
  valid (priority_queue (kernel s)) /\ ready s = [] /\ syscall_table (kernel s) = syscalls /\ as_wf (world s).

(** Modules are loaded, which changes memory, and spawned; there are fewer of
    them than places in the ready queue. *)
Inductive booted : kst H W -> Prop :=
  | boot_fresh s : fresh s -> booted s
  | boot_load s w : booted s -> as_wf w -> booted (KState (kernel s) (kheap s) (objs s) w)
  | boot_spawn s entry prio t r s' : booted s -> as_space t -> as_user_page (u32 (kernel_start - 4096)) ->
      (base.size (procs (objs s)) < capacity (priority_queue (kernel s)))%nat ->
      kernel_spawn_process kernel_start entry prio t s = Ret (r, s') -> booted s'.

Inductive reachable : kst H W -> Prop :=
  | reach_boot s c s' : booted s -> kernel_advance_scheduler s = Ret (c, s') -> reachable s'
  | reach_step s e r s' : reachable s -> step uninit fuel s e r s' -> reachable s'.

(** Objects sit in live blocks; no process runs yet. *)
Record boot_inv s : Prop := {
  bo_inv : sys_inv s;
  bo_active : active_process (kernel s) = NULL;
  bo_idle : forall p x, procs (objs s) !! p = Some x -> state x = PROCESS_ACTIVE;
  bo_procs : forall p, is_Some (procs (objs s) !! p) -> p ∈ live (kheap s);
  bo_ctxs : forall p, is_Some (ctxs (objs s) !! p) -> p ∈ live (kheap s)
}.

Lemma boot_inv_fresh s : fresh s -> boot_inv s.
Proof.
  intros (Ha & Hp & Hc & Hm & Hv & Hr & Ht & Hw).
  assert (roster s = []) as Er by (unfold roster; by rewrite Ha, Hr).
  split; [split|done|..]; rewrite ?Er, ?Hp, ?Hc; try done.
  - constructor.
  - intros p. rewrite elem_of_nil. split; [done|]. intros (x & Hx & _). done.
  - rewrite map_size_empty. lia.
  - unfold msgs_ok. rewrite Hm. apply map_Forall_empty.
  - intros p. rewrite lookup_empty. by intros [? ?].
  - intros p. rewrite lookup_empty. by intros [? ?].
Qed.

Lemma boot_inv_load s w : as_wf w -> boot_inv s -> boot_inv (KState (kernel s) (kheap s) (objs s) w).
Proof.
  intros Hw [[I1 I2 I3 I4 I5 I6 I7 I8 I9 Im I10 I11 I12] B2 B3 B4 B5]. split; [split|..]; try done.
  intros p x Hx [_ Hwt]. by rewrite (B3 p x Hx) in Hwt.
Qed.

Lemma avl_insert_live t : forall k v (h : H) t' h', avl_insert t k v h = Ret (t', h') -> live h ⊆ live h'.
Proof.
  induction t as [|a hh k0 v0 l IHl r IHr]; intros k v h t' h'; cbn [avl_insert].
  - intros (p & h1 & E & K)%M_bind_Ret. destruct (kmalloc_spec h sizeof_avltree) as (p' & h1' & E' & Hc).
    rewrite E in E'. injection E' as <- <-. destruct (decide (p = NULL)); [done|]. injection K as _ <-.
    destruct Hc as [[_ ->]|(_ & _ & ->)]; set_solver.
  - destruct (k <? k0); [|destruct (k0 <? k); [|by intros [= _ <-]]];
      intros (t1 & h1 & E & K)%M_bind_Ret; unfold liftO in K; apply outcome_bind_Ret in K as (t2 & _ & [= _ <-]);
      [by eapply IHl|by eapply IHr].
Qed.

Lemma kmalloc_inv n s p s' : on_heap (kmalloc n) s = Ret (p, s') -> exists h,
  s' = KState (kernel s) h (objs s) (world s) /\ live (kheap s) ⊆ live h /\
  (p <> NULL -> (p ∉ live (kheap s)) /\ p ∈ live h).
Proof.
  unfold on_heap. intros ([q h] & E & [= <- <-])%outcome_bind_Ret. exists h. split; [done|].
  destruct (kmalloc_spec (kheap s) n) as (q' & h' & E' & Hc). rewrite E in E'. injection E' as <- <-.
  destruct Hc as [[-> ->]|(_ & Hf & ->)]; [done|]. split; [set_solver|]. intros _. split; [done|set_solver].
Qed.

Lemma boot_inv_heap s h w : live (kheap s) ⊆ live h -> as_wf w -> boot_inv s ->
  boot_inv (KState (kernel s) h (objs s) w).
Proof.
  intros Hl Hw B. pose proof (boot_inv_load s w Hw B) as [I A J P C]. split; cbn [kernel objs kheap] in *; try done; auto.
  by destruct I.
Qed.
(** One more process, in blocks of its own. *)
Record spawned s s' (p : Z) (x : process_t) : Prop := {
  sp_block : p <> NULL /\ (p ∉ live (kheap s)) /\ p ∈ live (kheap s');
  sp_ctx : ctx x <> NULL /\ (ctx x ∉ live (kheap s)) /\ ctx x ∈ live (kheap s');
  sp_live : live (kheap s) ⊆ live (kheap s');
  sp_state : state x = PROCESS_ACTIVE /\ as_space (page_table x) /\ as_wf (world s');
  sp_procs : procs (objs s') = <[p := x]> (procs (objs s));
  sp_ctxs : exists c, ctxs (objs s') = <[ctx x := c]> (ctxs (objs s));
  sp_same : msgs (objs s') = msgs (objs s) /\ active_process (kernel s') = active_process (kernel s) /\
    syscall_table (kernel s') = syscall_table (kernel s) /\
    capacity (priority_queue (kernel s')) = capacity (priority_queue (kernel s));
  sp_valid : valid (priority_queue (kernel s'));
  sp_ready : (size (priority_queue (kernel s)) < capacity (priority_queue (kernel s)))%nat ->
    ready s' ≡ₚ Node p (priority x) :: ready s
}.

Lemma boot_inv_spawned s s' p x : boot_inv s -> (base.size (procs (objs s)) < capacity (priority_queue (kernel s)))%nat ->
  spawned s s' p x -> boot_inv s'.
Proof.
  intros [I A J P C] Hroom [(N1 & F1 & L1) (N2 & F2 & L2) Hl (Hst & Hsp & Hw) Hp (c & Hc) (Hm & Ha & Ht & Hcap) Hv Hr].
  assert (procs (objs s) !! p = None) as Hnew by (apply eq_None_not_Some; intros Hs; by apply F1, P).
  assert (forall q y, procs (objs s) !! q = Some y -> ctx y <> ctx x) as Hnc.
  { intros q y Hy E. apply F2, C. rewrite <- E. by eapply si_ctx. }
  assert (roster s = value <$> ready s) as Er by (unfold roster; by rewrite A).
  assert (ready s' ≡ₚ Node p (priority x) :: ready s) as Hrd.
  { apply Hr. rewrite <- length_ready by apply I. pose proof (nodup_size _ (procs (objs s)) (si_nodup s I)) as L.
    rewrite Er, length_fmap in L. eapply Nat.le_lt_trans; [apply L|exact Hroom].
    intros q Hq. apply (roster_known s q I). by rewrite Er. }
  assert (roster s' ≡ₚ p :: roster s) as Hro by (unfold roster; rewrite Ha, A; cbn; by rewrite Hrd).
  assert (p ∉ roster s) as Hnr.
  { intros Hin. apply (roster_known s p I) in Hin as [y Hy]. congruence. }
  pose proof I as [I1 I2 I3 I4 I5 I6 I7 I8 I9 Im I10 I11 I12].
  split; [split|congruence|..]; rewrite ?Hp, ?Hc, ?Hcap, ?Ht; try done.
  - rewrite Hro. by apply NoDup_cons.
  - intros q. rewrite Hro, elem_of_cons, I4. destruct (decide (q = p)) as [->|Hne].
    + rewrite lookup_insert_eq. split; [|by left]. intros _. by eexists.
    + rewrite lookup_insert_ne by done. split; [by intros [|]|by right].
  - intros q y [[<- <-]|[_ Hy]]%lookup_insert_Some; [rewrite Hst; by split; [|left]|by eapply I5].
  - intros y z Hy. rewrite Hrd in Hy. apply elem_of_cons in Hy as [->|Hy].
    + cbn [value]. rewrite lookup_insert_eq. by intros [= <-].
    + intros [[Ep <-]|[_ Hz]]%lookup_insert_Some; [|by eapply I6]. exfalso. apply Hnr. rewrite Er, Ep.
      apply list_elem_of_fmap. by exists y.
  - rewrite map_size_insert_None by done. lia.
  - intros q y [[_ <-]|[_ Hy]]%lookup_insert_Some.
    + split; [done|]. rewrite lookup_insert_eq. by eexists.
    + destruct (I8 q y Hy). split; [done|]. apply lookup_insert_is_Some'. by right.
  - intros q1 q2 y1 y2 [[<- <-]|[M1 H1']]%lookup_insert_Some [[<- <-]|[M2 H2']]%lookup_insert_Some E;
      [done|by destruct (Hnc _ _ H2')|by destruct (Hnc _ _ H1')|by eapply I9].
  - unfold msgs_ok. by rewrite Hm.
  - intros q y [[<- <-]|[_ Hy]]%lookup_insert_Some; [done|by eapply I11].
  - intros q y [[<- <-]|[_ Hy]]%lookup_insert_Some [_ Hwt]; [congruence|]. by rewrite (J q y Hy) in Hwt.
  - intros q y [[<- <-]|[_ Hy]]%lookup_insert_Some; [done|by eapply J].
  - intros q. rewrite lookup_insert_is_Some'. intros [<-|Hq]; [done|]. by apply Hl, P.
  - intros q. rewrite lookup_insert_is_Some'. intros [<-|Hq]; [done|]. by apply Hl, C.
Qed.

Lemma boot_inv_spawn s entry prio t r s' : boot_inv s -> as_space t -> as_user_page (u32 (kernel_start - 4096)) ->
  (base.size (procs (objs s)) < capacity (priority_queue (kernel s)))%nat ->
  kernel_spawn_process kernel_start entry prio t s = Ret (r, s') -> boot_inv s'.
Proof.
  intros B Ht Hu Hroom (p & s1 & (h1 & -> & L1 & F1)%kmalloc_inv & K)%M_bind_Ret.
  assert (as_wf (world s)) as Hw by apply B.
  destruct (Z.eqb_spec p NULL) as [_|Np]; [injection K as _ <-; by apply boot_inv_heap|]. destruct (F1 Np) as [Fp Lp].
  apply M_bind_Ret in K as (c & s2 & (h2 & -> & L2 & F2)%kmalloc_inv & K). cbn [kernel kheap objs world] in *.
  destruct (Z.eqb_spec c NULL) as [_|Nc]; [injection K as _ <-; apply boot_inv_heap; [set_solver|done..]|].
  destruct (F2 Nc) as [Fc Lc].
  apply M_bind_Ret in K as (f & s3 & (w1 & E1 & ->)%on_world_inv & K). cbn [kernel kheap objs world] in *.
  destruct (as_reserve_map_ok (world s) Hw) as (f' & w1' & E1' & (W1 & _ & _) & Hmap). rewrite E1' in E1.
  injection E1 as -> <-.
  destruct (Z.eqb_spec (f mod 4096) 0) as [Hf|]; cbn [negb] in K;
    [|injection K as _ <-; apply boot_inv_heap; [set_solver|done..]].
  apply M_bind_Ret in K as (st & s3 & (w2 & E2 & ->)%on_world_inv & K). cbn [kernel kheap objs world] in *.
  assert (as_wf w2) as W2.
  { destruct Hmap as [->|(_ & _ & Hmap)]; [by vm_compute in Hf|].
    destruct (Hmap (u32 (kernel_start - 4096)) (Z.lor (Z.lor PAGE_PRESENT PAGE_USERMODE) PAGE_RW) Hu eq_refl)
      as (st' & w2' & E2' & Hc). rewrite E2' in E2. injection E2 as _ <-.
    destruct Hc as [(_ & T & _)|(_ & T & _)]; done. }
  apply M_bind_Ret in K as (u1 & s3 & E3 & K). unfold put_ctx, init in E3.
  rewrite (proj2 (Z.eqb_neq _ _) Nc) in E3. injection E3 as _ <-. cbn [kernel kheap objs world] in *.
  apply M_bind_Ret in K as (n & s3 & [= <- <-] & K).
  apply M_bind_Ret in K as (u2 & s3 & E3 & K). unfold put_proc, init in E3.
  rewrite (proj2 (Z.eqb_neq _ _) Np) in E3. injection E3 as _ <-.
  apply M_bind_Ret in K as (tr & s3 & [= <- <-] & K). cbn [kernel kheap objs world] in *.
  apply M_bind_Ret in K as (tr & s3 & E3 & K). unfold on_heap in E3. cbn [kernel kheap objs world] in E3.
  apply outcome_bind_Ret in E3 as ([tr' h3] & E3 & [= -> <-]). apply avl_insert_live in E3.
  apply M_bind_Ret in K as (u4 & s3 & [= _ <-] & K). apply M_bind_Ret in K as (u5 & s3 & E5 & K).
  match type of E5 with make_ready _ _ ?v = _ => destruct (make_ready_run v p prio) as (q & Eq & Hv & Hcap & Hq) end;
    [apply B|]. rewrite Eq in E5. injection E5 as _ <-.
  apply M_bind_Ret in K as (u6 & s3 & [= _ <-] & K). apply M_bind_Ret in K as (x & s3 & [-> _]%load_proc_Ret & [= _ <-]).
  clear Eq Hmap E1' E2. cbn [set_kernel kernel kheap objs world set_process_table priority_queue] in Hcap, Hq.
  apply (boot_inv_spawned s _ p
    (Process (u32 (next_pid (kernel s))) prio t PROCESS_ACTIVE queue_construct queue_construct NULL c) B Hroom).
  split; cbn [set_kernel kernel kheap objs world set_ctxs set_procs procs ctxs msgs set_priority_queue set_next_pid
    set_process_table active_process syscall_table priority_queue ctx state page_table]; try done.
  - split_and!; [done|done|]. by apply E3, L2.
  - split_and!; [done| |by apply E3]. intros Hc. by apply Fc, L1.
  - set_solver.
  - by eexists.
Qed.
Lemma booted_inv s : booted s -> boot_inv s.
Proof.
  induction 1 as [s F|s w _ IH Hw|s entry prio t r s' _ IH Ht Hu Hroom E].
  - by apply boot_inv_fresh.
  - by apply boot_inv_load.
  - by eapply boot_inv_spawn.
Qed.

Lemma reachable_inv s : reachable s -> running s.
Proof.
  induction 1 as [s c s' B E|s e r s' _ IH St].
  - apply booted_inv in B as [I _ _ _ _]. destruct (advance_ok s I) as [[_ E']|(c' & s1 & E' & Sw)]; rewrite E' in E; [done|].
    injection E as _ <-. apply Sw.
  - by apply (effect_isolated e s r s' IH (step_effect _ _ _ _ _ _ IH St)).
Qed.

(** Steps taken while another process than [p] runs. *)
Inductive steps_without (p : Z) : kst H W -> kst H W -> Prop :=
  | without_refl s : steps_without p s s
  | without_step s e r s1 s2 : active_process (kernel s) <> p -> step uninit fuel s e r s1 ->
      steps_without p s1 s2 -> steps_without p s s2.

(** A runnable process with its saved registers. *)
Definition holds_registers s (p c : Z) (frame : process_context_t) : Prop :=
  (exists x, procs (objs s) !! p = Some x /\ ctx x = c /\ state x = PROCESS_ACTIVE) /\
  ctxs (objs s) !! c = Some frame.

Lemma registers_kept p c frame s s' : steps_without p s s' -> running s ->
  holds_registers s p c frame -> holds_registers s' p c frame.
Proof.
  induction 1 as [s|s e r s1 s2 Hne St _ IH]; intros R Hh; [done|].
  destruct (effect_isolated e s r s1 R (step_effect _ _ _ _ _ _ R St)) as (R1 & _ & o & Iso & _).
  apply IH; [done|]. destruct Hh as [(x & Hx & <- & Hs) Hc].
  pose proof (is_others _ _ _ Iso p x Hx ltac:(congruence)) as Ho. case_decide as D.
  - destruct Ho as [[_ Hw] _]. congruence.
  - destruct Ho as [(x' & Hx' & E%core_eq) Hc']. destruct E as (_ & _ & _ & Es & _ & Ec). split; [|congruence].
    exists x'. split; [done|]. split; congruence.
Qed.

(** A preemption: the frame is saved, and a process is entered. *)
Lemma preempt_run s x frame : running s -> procs (objs s) !! active_process (kernel s) = Some x ->
  exists c s', isr_preempt frame s = Ret (LoadContext c, s') /\ running s' /\ own_ctx s' c /\
    procs (objs s') = procs (objs s) /\ holds_registers s' (active_process (kernel s)) (ctx x) frame /\
    forall y, procs (objs s') !! active_process (kernel s') = Some y ->
      forall p z, procs (objs s') !! p = Some z -> state z = PROCESS_ACTIVE -> priority y <= priority z.
Proof.
  intros R Hx. pose proof R as [I (x0 & Hx0 & _)]. rewrite Hx in Hx0. injection Hx0 as <-.
  pose proof (active_in_roster s R) as [Ha Er].
  destruct (si_ctx s I _ _ Hx) as [Hc [c0 Hc0]].
  set (s1 := KState (kernel s) (kheap s) (set_ctxs (<[ctx x := frame]> (ctxs (objs s))) (objs s)) (world s)).
  assert (kernel_store_active_context frame s = Ret (ENONE, s1)) as E1.
  { unfold kernel_store_active_context. krun. rewrite (proj2 (Z.eqb_neq _ NULL)) by by eapply si_states.
    krun. rewrite Hx. krun. rewrite (proj2 (Z.eqb_neq _ _) Hc). unfold put_ctx. krun. by rewrite init_Ret. }
  assert (quiet s s1) as Q.
  { apply (save_quiet s (ctx x) (fun _ => frame) tt s1 x Hx eq_refl). by erewrite upd_ctx_run. }
  destruct (advance_ok s1) as [[E _]|(c & s' & E & Sw)]; [by eapply sys_inv_quiet| |].
  { rewrite (roster_quiet _ _ Q), Er in E. done. }
  exists c, s'. unfold isr_preempt, mbind, M_mbind. rewrite E1. ostep. rewrite E. ostep. split; [done|].
  pose proof Sw as [So _ _ Sr Sc Sl]. split; [done|]. split; [done|]. rewrite So. split; [done|]. split.
  - unfold holds_registers. rewrite So. cbn [s1 objs set_ctxs procs ctxs]. rewrite lookup_insert_eq.
    split; [|done]. exists x. split; [done|]. split; [done|].
    apply (si_roster s I) in Ha as (x' & Hx' & Hs). congruence.
  - exact Sl.
Qed.
End boot.

(** ** A system for concrete runs

    Two modules are loaded in spaces 0x1000 and 0x2000 and the first is
    entered; it waits for a message with a buffer on its stack, so the second
    runs and sends it one. *)
Definition ran {S A} (o : outcome (A * S)) (d : S) : S := match o with Ret (_, s) => s | _ => d end.
Definition answer {S A} (o : outcome (A * S)) : option A := match o with Ret (a, _) => Some a | _ => None end.

Lemma ran_ok {S A} (o : outcome (A * S)) a d : answer o = Some a -> o = Ret (a, ran o d).
Proof. destruct o as [[b s]| | |]; simpl; [by intros [= ->]|done..]. Qed.

Definition demo_start : Z := 0xC0000000.
Definition demo_buffer_at : Z := 0xBFFFF100.
Definition demo_fresh : kst demo_heap flat :=
  KState (Kernel_ syscalls (empty_queue 4) Leaf Leaf Leaf NULL 1) demo0 (Objects ∅ ∅ ∅ ∅ ∅ ∅) (Flat 0x1000 ∅ 0x100000).
Definition enter_space (t : Z) (s : kst demo_heap flat) : kst demo_heap flat :=
  KState (kernel s) (kheap s) (objs s) (Flat t (flat_bytes (world s)) (flat_next (world s))).
Definition demo_spawn (t : Z) (s : kst demo_heap flat) : outcome (Z * kst demo_heap flat) :=
  kernel_spawn_process demo_start 0x400000 1 t s.
Definition demo_one := ran (demo_spawn 0x1000 demo_fresh) demo_fresh.
Definition demo_two := ran (demo_spawn 0x2000 (enter_space 0x2000 demo_one)) demo_fresh.
Definition demo_running := ran (kernel_advance_scheduler demo_two) demo_two.
Definition demo_receive : event := SystemCall 7 demo_buffer_at 0 0 0x400010 0xBFFFFF00 0x202.
Definition demo_send : event := SystemCall 6 1 demo_buffer_at 0 0x400020 0xBFFFFF00 0x202.
Definition demo_waiting := ran (handle 0 5 demo_receive demo_running) demo_two.
Definition demo_sent := ran (handle 0 5 demo_send demo_waiting) demo_two.

Lemma demo_booted : booted demo_start demo_two.
Proof.
  apply (boot_spawn _ (enter_space 0x2000 demo_one) 0x400000 1 0x2000 2).
  - apply (boot_load _ demo_one); [|done]. apply (boot_spawn _ demo_fresh 0x400000 1 0x1000 1); [|done|done| |].
    + apply boot_fresh. unfold fresh. split_and!; try done. apply empty_queue_valid.
    + apply (bool_decide_unpack _). by vm_compute.
    + apply ran_ok. by vm_compute.
  - done.
  - done.
  - apply (bool_decide_unpack _). by vm_compute.
  - apply ran_ok. by vm_compute.
Qed.

Lemma demo_reachable : reachable 0 demo_start 5 demo_running.
Proof.
  apply (reach_boot _ _ _ demo_two 128); [apply demo_booted|]. apply ran_ok. by vm_compute.
Qed.

(** The buffer is on the stack page of either space. *)
Lemma demo_user_range (s : kst demo_heap flat) : forallb (fun i => bool_decide (is_Some (flat_bytes (world s) !!
    (flat_cur (world s), demo_buffer_at + Z.of_nat i)))) (seq 0 32) = true ->
  user_range (world s) (as_current (world s)) demo_buffer_at 32 (W := flat).
Proof.
  intros Hall. split; [exact I|]. intros i Hi. cbn [as_byte flat_spaces_ok as_current]. apply fmap_is_Some.
  rewrite forallb_forall in Hall. specialize (Hall (Z.to_nat i)). rewrite Z2Nat.id in Hall by lia.
  eapply bool_decide_eq_true_1. apply Hall, in_seq. lia.
Qed.

Lemma demo_step_receive : step 0 5 demo_running demo_receive (LoadContext 320) demo_waiting.
Proof.
  split; [|apply ran_ok; by vm_compute]. split; [|done]. intros _. apply demo_user_range. by vm_compute.
Qed.

Lemma demo_step_send : step 0 5 demo_waiting demo_send (Returned 0) demo_sent.
Proof. split; [|apply ran_ok; by vm_compute]. by split. Qed.

(** * Properties *)

(** C1: In every state the system can reach from a boot with any modules, by
    any interleaving of programs' stores, preemptions and [allowed] system calls, no
    process is lost or duplicated: the active process and those in the ready
    queue are distinct, and they are exactly the processes in the active state;
    every other process waits for a message.  The processor is in the address
    space of the active process. *)
Theorem no_process_lost {H W} `{KHeapOk H, AddressSpacesOk W, !AddressSpacesMap W, !AddressSpacesQueries W}
    uninit kernel_start fuel (s : kst H W) : reachable uninit kernel_start fuel s ->
  active_process (kernel s) <> NULL /\
  NoDup (active_process (kernel s) :: (value <$> ready s)) /\
  (forall p, p ∈ active_process (kernel s) :: (value <$> ready s) <->
    exists x, procs (objs s) !! p = Some x /\ state x = PROCESS_ACTIVE) /\
  (forall p x, procs (objs s) !! p = Some x -> state x = PROCESS_ACTIVE \/ state x = PROCESS_REQUESTING) /\
  exists x, procs (objs s) !! active_process (kernel s) = Some x /\ as_current (world s) = page_table x.
Proof.
  intros R%reachable_inv. pose proof (active_in_roster s R) as [_ Er]. destruct R as [I (x & Hx & Hc)].
  rewrite <- Er. split_and!; [by eapply si_states|apply I|apply I| |by exists x].
  intros p y Hy. by apply (si_states s I p y Hy).
Qed.

Lemma no_process_lost_witness : NoDup (active_process (kernel demo_running) :: (value <$> ready demo_running)).
Proof. apply (no_process_lost 0 demo_start 5 demo_running demo_reachable). Defined.



(** C25: Every step, an [allowed] event that returns, keeps the kernel's data well formed (the
    ready queue is a heap, the tables and pointers are right, waiting buffers are
    mapped) with a process running in its own space; where the step ends by loading
    a context, it is that process's. *)
Theorem step_preserves {H W} `{KHeapOk H, AddressSpacesOk W, !AddressSpacesMap W, !AddressSpacesQueries W}
    uninit fuel (s : kst H W) e r s' : running s -> step uninit fuel s e r s' ->
  running s' /\ forall c, r = LoadContext c -> own_ctx s' c.
Proof. intros R St%step_effect; [|done]. by destruct (effect_isolated e s r s' R St) as (? & ? & _). Qed.

Lemma step_preserves_witness : running demo_waiting /\ forall c, LoadContext (A := Z) 320 = LoadContext c -> own_ctx demo_waiting c.
Proof.
  apply (step_preserves 0 5 demo_running demo_receive); [apply (reachable_inv 0 demo_start 5), demo_reachable|].
  apply demo_step_receive.
Defined.

(** C24: Preemption always succeeds: in every state reached by [allowed] events the timer's
    handler saves the running program's registers, keeps it runnable and enters a
    process of least priority value among all the runnable ones; the scheduler's panic cannot
    happen there. *)
Theorem preempt_always_switches {H W} `{KHeapOk H, AddressSpacesOk W, !AddressSpacesMap W, !AddressSpacesQueries W}
    uninit kernel_start fuel (s : kst H W) frame : reachable uninit kernel_start fuel s ->
  exists x c s', procs (objs s) !! active_process (kernel s) = Some x /\
    isr_preempt frame s = Ret (LoadContext c, s') /\ own_ctx s' c /\
    holds_registers s' (active_process (kernel s)) (ctx x) frame /\
    forall y, procs (objs s') !! active_process (kernel s') = Some y ->
      forall p z, procs (objs s') !! p = Some z -> state z = PROCESS_ACTIVE -> priority y <= priority z.
Proof.
  intros R%reachable_inv. pose proof R as [_ (x & Hx & _)].
  destruct (preempt_run s x frame R Hx) as (c & s' & ? & ? & ? & ? & ? & ?). exists x, c, s'. done.
Qed.

Lemma preempt_always_switches_witness : exists c s', isr_preempt zero_context demo_running = Ret (LoadContext c, s').
Proof.
  destruct (preempt_always_switches 0 demo_start 5 demo_running zero_context demo_reachable) as (x & c & s' & _ & E & _).
  by exists c, s'.
Defined.

(** C5: A preempted program comes back with its registers: whatever [allowed] steps the
    other processes make while it does not run, it stays runnable and its saved context is
    exactly the frame it was interrupted with. *)
Theorem preempted_program_resumes {H W} `{KHeapOk H, AddressSpacesOk W, !AddressSpacesMap W, !AddressSpacesQueries W}
    uninit kernel_start fuel (s : kst H W) frame r s1 s2 : reachable uninit kernel_start fuel s ->
  isr_preempt frame s = Ret (r, s1) -> steps_without uninit fuel (active_process (kernel s)) s1 s2 ->
  exists x, procs (objs s) !! active_process (kernel s) = Some x /\
    holds_registers s2 (active_process (kernel s)) (ctx x) frame.
Proof.
  intros R%reachable_inv E St. pose proof R as [_ (x & Hx & _)]. exists x. split; [done|].
  destruct (preempt_run s x frame R Hx) as (c & s' & E' & R' & _ & _ & Hh & _). rewrite E' in E. injection E as _ <-.
  by eapply registers_kept.
Qed.

(** The first process is preempted; the second runs and is preempted too. *)
Definition demo_preempted := ran (isr_preempt zero_context demo_running) demo_two.
Definition demo_back := ran (handle 0 5 (Preempt zero_context) demo_preempted) demo_two.

Lemma preempted_program_resumes_witness : active_process (kernel demo_back) = 64 /\
  exists x, procs (objs demo_running) !! 64 = Some x /\ holds_registers demo_back 64 (ctx x) zero_context.
Proof.
  split; [by vm_compute|].
  apply (preempted_program_resumes 0 demo_start 5 demo_running zero_context (LoadContext 320) demo_preempted demo_back).
  - apply demo_reachable.
  - apply ran_ok. by vm_compute.
  - apply (without_step _ _ _ _ (Preempt zero_context) (LoadContext 128) demo_back); [by vm_compute| |apply without_refl].
    split; [done|]. apply ran_ok. by vm_compute.
Defined.
