(* ===== verification/Terminate.v ===== *)
(** The end of a process ([kernel_terminate_process] of src/kernel.c, the
    definition of Kernel.v): what is taken apart, what is given back to the
    heap, and who is woken. *)
From S2P Require Import Prelude Status Alloc AvlTree MsgQueue PriorityQueue Space Context Kernel System.

(** * Theory *)
Section terminate.
Context {H W : Type} `{KHeapOk H} `{AddressSpacesOk W}.
Implicit Types s : kst H W.

(** ** The loops over the queues *)

(** From [s] to [s'] the nodes [ns] and the messages [vs] are freed and the
    process at [p] is replaced by [d']; nothing else changes. *)
Record drained s s' (p : Z) (d' : process_t) (ns vs : list Z) : Prop := {
  dr_kernel : kernel s' = kernel s;
  dr_world : world s' = world s;
  dr_procs : procs (objs s') = <[p:=d']> (procs (objs s));
  dr_ctxs : ctxs (objs s') = ctxs (objs s);
  dr_ports : ports (objs s') = ports (objs s);
  dr_actions : actions (objs s') = actions (objs s);
  dr_nodes : forall a, nodes (objs s') !! a = if decide (a ∈ ns) then None else nodes (objs s) !! a;
  dr_msgs : forall v, msgs (objs s') !! v = if decide (v ∈ vs) then None else msgs (objs s) !! v;
  dr_live : forall b, b ∈ live (kheap s') <-> b ∈ live (kheap s) /\ (b ∉ ns) /\ (b ∉ vs)
}.

Lemma drained_trans s s1 s2 p d1 d2 ns vs ns' vs' :
  drained s s1 p d1 ns vs -> drained s1 s2 p d2 ns' vs' -> drained s s2 p d2 (ns ++ ns') (vs ++ vs').
Proof.
  intros [A1 A2 A3 A4 A5 A6 A7 A8 A9] [B1 B2 B3 B4 B5 B6 B7 B8 B9].
  split; [congruence..| |congruence|congruence|congruence| | |].
  - by rewrite B3, A3, insert_insert_eq.
  - intros a. rewrite B7, A7. repeat case_decide; rewrite ?elem_of_app in *; tauto.
  - intros a. rewrite B8, A8. repeat case_decide; rewrite ?elem_of_app in *; tauto.
  - intros b. rewrite B9, A9, !elem_of_app. tauto.
Qed.

(** Both loops take the front of a queue of process [p]. *)
Lemma next_step s p a v cells q0 (g : queue_t -> process_t) :
  nodes_ok s -> p <> NULL -> queue_rep (nodes (objs s)) q0 ((a, v) :: cells) ->
  exists q h, queue_get_next q0 (kheap s, nodes (objs s)) = Ret ((v, q), (h, delete a (nodes (objs s)))) /\
    queue_rep (delete a (nodes (objs s))) q cells /\ store_ok (h, delete a (nodes (objs s))) /\
    drained s (KState (kernel s) h (set_procs (<[p:=g q]> (procs (objs s))) (set_nodes (delete a (nodes (objs s))) (objs s))) (world s))
      p (g q) [a] [].
Proof.
  intros Hn Hp Hq. destruct (queue_get_next_ok (kheap s, nodes (objs s)) q0 _ Hn Hq)
    as (v' & q & [h n] & E & Hok & -> & Hrep & Hdel & Hlive). cbn [fst snd] in *. subst n.
  exists q, h. split; [done|]. split; [done|]. split; [done|]. split; try done; cbn [kheap objs set_procs set_nodes nodes msgs].
  - intros b. case_decide as D; [apply list_elem_of_singleton in D as ->; by rewrite lookup_delete_eq|].
    rewrite lookup_delete_ne; [done|]. intros ->. apply D. by apply list_elem_of_singleton.
  - intros b. rewrite Hlive. set_solver.
Qed.

(** The node in front of a queue and the message it holds are different blocks. *)
Lemma inbox_front s p d a v cells m ms : inbox s p d ((a, v) :: cells) (m :: ms) ->
  v <> NULL /\ v ∈ live (kheap s) /\ v <> a /\ (v ∉ cells.*2) /\ (forall c, c ∈ cells -> c.2 <> a /\ c.2 <> v).
Proof.
  intros [I1 I2 I3 I4 I5 I6]. apply Forall2_cons in I4 as [(M1 & M2 & _ & M4) I4]. apply NoDup_cons in I5 as [Hv I5].
  assert (is_Some (nodes (objs s) !! a)) as [nd Ha] by (destruct I3 as [(_ & _ & nx & Hna & _) _ _ _]; by eexists).
  cbn [snd] in *. split_and!; [done|done|congruence|done|]. intros c Hc.
  apply list_elem_of_lookup in Hc as [j Hj]. destruct (Forall2_lookup_l _ _ _ _ _ I4 Hj) as (m' & _ & _ & _ & _ & N4).
  split; [congruence|]. intros E. apply Hv, list_elem_of_fmap. exists c. split; [done|]. by eapply list_elem_of_lookup_2.
Qed.

Lemma free_msg_step s p d v : procs (objs s) !! p = Some d -> v ∈ live (kheap s) ->
  exists s', free_msg v s = Ret (tt, s') /\ drained s s' p d [] [v].
Proof.
  intros Hp Hv. destruct (kfree_spec (kheap s) v Hv) as (h & E & L). unfold free_msg. krun.
  rewrite (on_heap_Ret _ s _ _ E). krun. eexists. split; [done|].
  split; try done; cbn [kheap objs set_msgs procs nodes msgs].
  - by rewrite insert_id.
  - intros b. case_decide as D; [apply list_elem_of_singleton in D as ->; by rewrite lookup_delete_eq|].
    rewrite lookup_delete_ne; [done|]. intros ->. apply D. by apply list_elem_of_singleton.
  - intros b. rewrite L. set_solver.
Qed.

Lemma nodes_ok_drained s s' p d ns vs : nodes_ok s -> drained s s' p d ns vs ->
  (forall v, v ∈ vs -> nodes (objs s) !! v = None) -> nodes_ok s'.
Proof.
  intros Hn D Hv a [nd Ha]. cbn [snd fst] in *. rewrite (dr_nodes _ _ _ _ _ _ D) in Ha. case_decide as Hin; [done|].
  apply (dr_live _ _ _ _ _ _ D). split; [apply Hn; by eexists|]. split; [done|]. intros Hb. by rewrite (Hv a Hb) in Ha.
Qed.

(** One round of the first loop: the front message is freed with its node. *)
Lemma free_front s p d a v cells m ms : nodes_ok s -> inbox s p d ((a, v) :: cells) (m :: ms) ->
  exists s' s1 q, next_message p s = Ret (v, s1) /\ free_msg v s1 = Ret (tt, s') /\
    nodes_ok s' /\ drained s s' p (set_message_queue q d) [a] [v] /\ inbox s' p (set_message_queue q d) cells ms.
Proof.
  intros Hn Hi. destruct (inbox_front _ _ _ _ _ _ _ _ Hi) as (V1 & V2 & V3 & V4 & V5). destruct Hi as [I1 I2 I3 I4 I5 I6].
  apply Forall2_cons in I4 as [(_ & _ & _ & M4) I4]. cbn [snd] in M4.
  destruct (next_step s p a v cells (message_queue d) (fun q => set_message_queue q d)) as (q & h & E & Hrep & Hok & D); try done.
  set (s1 := KState _ h _ _) in D.
  destruct (free_msg_step s1 p (set_message_queue q d) v) as (s' & E2 & D2).
  { cbn [s1 objs set_procs procs]. by rewrite lookup_insert_eq. }
  { apply (dr_live _ _ _ _ _ _ D). set_solver. }
  pose proof (drained_trans _ _ _ _ _ _ _ _ _ _ D D2) as DD. cbn [app] in DD.
  exists s', s1, q. split; [|split; [done|split; [|split; [done|]]]].
  - unfold next_message. krun. rewrite I1. krun. rewrite (on_queue_Ret _ s _ _ _ E). krun.
    unfold put_proc. by rewrite init_Ret by done.
  - apply (nodes_ok_drained _ _ _ _ _ _ Hn DD). intros b ->%list_elem_of_singleton. done.
  - destruct DD as [_ _ D3 _ _ _ D7 D8 D9]. split; [by rewrite D3, lookup_insert_eq|done| | |by apply NoDup_cons in I5 as [_ I5]|simpl in I6; lia].
    + apply (rep_frame (delete a (nodes (objs s)))); [|done]. intros b Hb. rewrite D7.
      destruct Hrep as [Hc _ _ _]. destruct (chain_stored _ _ _ _ Hc Hb) as [[nd Hnd] _].
      apply lookup_delete_Some in Hnd as [Hne Hnd]. rewrite lookup_delete_ne by done.
      rewrite decide_False; [done|]. intros ->%list_elem_of_singleton. done.
    + apply Forall2_same_length_lookup_2; [by eapply Forall2_length|]. intros j c m' Hj Hj'.
      destruct (Forall2_lookup_lr _ _ _ _ _ _ I4 Hj Hj') as (N1 & N2 & N3 & N4).
      destruct (V5 c) as [K1 K2]; [by eapply list_elem_of_lookup_2|].
      rewrite D9, !list_elem_of_singleton. split; [done|]. split; [done|]. split.
      * rewrite D8, decide_False; [done|]. by rewrite list_elem_of_singleton.
      * rewrite D7. by case_decide.
Qed.

Lemma free_messages_run cells : forall ms s p d fuel, nodes_ok s -> inbox s p d cells ms -> (length cells < fuel)%nat ->
  exists s' q, free_messages fuel p s = Ret (tt, s') /\ nodes_ok s' /\
    drained s s' p (set_message_queue q d) cells.*1 cells.*2.
Proof.
  induction cells as [|[a v] cells IH]; intros [|m ms] s p d [|fuel] Hn Hi Hf; cbn [length] in Hf; try lia;
    try (by pose proof (in_msgs _ _ _ _ _ Hi) as K; inversion K); cbn [free_messages].
  - destruct (queue_get_next_ok (kheap s, nodes (objs s)) (message_queue d) [] Hn (in_queue _ _ _ _ _ Hi))
      as (v & q & s1 & E & _ & -> & -> & ->).
    unfold mbind, M_mbind, next_message. krun. rewrite (in_proc _ _ _ _ _ Hi). krun. rewrite (on_queue_Ret _ s _ _ _ E). krun.
    unfold put_proc. rewrite init_Ret by apply Hi. krun. eexists _, (message_queue d). split; [done|].
    split; [done|]. split; try done. intros b. cbn [fmap list_fmap]. set_solver.
  - destruct (free_front s p d a v cells m ms Hn Hi) as (s2 & s1 & q & E1 & E2 & Hn2 & D & I2).
    destruct (IH ms s2 p _ fuel Hn2 I2) as (s' & q' & E' & Hn' & D'); [lia|].
    exists s', q'. split; [|split; [done|exact (drained_trans _ _ _ _ _ _ _ _ _ _ D D')]].
    unfold mbind, M_mbind. rewrite E1. ostep. rewrite (proj2 (Z.eqb_neq v NULL)), E2 by apply (inbox_front _ _ _ _ _ _ _ _ Hi).
    by ostep.
Qed.

(** A process [y] at [w] that waits to send to the one at [p]. *)
Record sleeper s (p : Z) (wy : Z * process_t) : Prop := {
  sl_null : wy.1 <> NULL;
  sl_other : wy.1 <> p;
  sl_proc : procs (objs s) !! wy.1 = Some wy.2;
  sl_ctx : ctx wy.2 <> NULL;
  sl_saved : is_Some (ctxs (objs s) !! ctx wy.2)
}.

Definition ready_node (wy : Z * process_t) : priority_queue_node_t := Node wy.1 (priority wy.2).

(** From [s] to [s'] the nodes [ns] are freed, the processes [ss] are made ready
    with EEXITED as result, and the process at [p] is replaced by [d']. *)
Record woken_all s s' (p : Z) (d' : process_t) (ns : list Z) (ss : list (Z * process_t)) : Prop := {
  wk_kernel : exists q, kernel s' = set_priority_queue q (kernel s) /\ valid q /\
    capacity q = capacity (priority_queue (kernel s)) /\ elements q ≡ₚ (ready_node <$> ss) ++ ready s;
  wk_world : world s' = world s;
  wk_procs : forall w, procs (objs s') !! w = if decide (w = p) then Some d' else
    if decide (w ∈ ss.*1) then set_state PROCESS_ACTIVE <$> procs (objs s) !! w else procs (objs s) !! w;
  wk_ctxs : forall c, ctxs (objs s') !! c = if decide (c ∈ ctx <$> ss.*2)
    then set_context_return (err EEXITED) <$> ctxs (objs s) !! c else ctxs (objs s) !! c;
  wk_msgs : msgs (objs s') = msgs (objs s);
  wk_ports : ports (objs s') = ports (objs s);
  wk_actions : actions (objs s') = actions (objs s);
  wk_nodes : forall a, nodes (objs s') !! a = if decide (a ∈ ns) then None else nodes (objs s) !! a;
  wk_live : forall b, b ∈ live (kheap s') <-> b ∈ live (kheap s) /\ b ∉ ns
}.

Lemma woken_all_cons s s1 s2 p d1 d2 ns ns' wy ss : (wy.1 ∉ ss.*1) -> (ctx wy.2 ∉ ctx <$> ss.*2) ->
  woken_all s s1 p d1 ns [wy] -> woken_all s1 s2 p d2 ns' ss -> woken_all s s2 p d2 (ns ++ ns') (wy :: ss).
Proof.
  intros N1 N2 [(q1 & A1 & A1v & A1c & A1p) A2 A3 A4 A5 A6 A7 A8 A9] [(q2 & B1 & B1v & B1c & B1p) B2 B3 B4 B5 B6 B7 B8 B9].
  split; [|congruence|..|congruence|congruence|congruence| |].
  - exists q2. rewrite B1, A1 in *. split; [done|]. split; [done|]. cbn [set_priority_queue priority_queue] in B1c.
    split; [congruence|]. rewrite B1p. unfold ready at 1. rewrite A1. cbn [set_priority_queue priority_queue].
    rewrite A1p. cbn. by rewrite Permutation_middle.
  - intros w. rewrite B3, A3. cbn [fmap list_fmap]. case_decide; [done|].
    destruct (decide (w ∈ ss.*1)) as [Hin|Hin].
    + rewrite decide_False, decide_True; [done|by right|]. by intros ->%list_elem_of_singleton.
    + destruct (decide (w = wy.1)) as [->|Hne]; [rewrite !decide_True by left; done|].
      rewrite !decide_False; [done| |]; rewrite elem_of_cons, ?elem_of_nil; tauto.
  - intros c. rewrite B4, A4. cbn [fmap list_fmap].
    destruct (decide (c ∈ ctx <$> ss.*2)) as [Hin|Hin].
    + rewrite decide_False, decide_True; [done|by right|]. by intros ->%list_elem_of_singleton.
    + destruct (decide (c = ctx wy.2)) as [->|Hne]; [rewrite !decide_True by left; done|].
      rewrite !decide_False; [done| |]; rewrite elem_of_cons, ?elem_of_nil; tauto.
  - intros a. rewrite B8, A8. repeat case_decide; rewrite ?elem_of_app in *; tauto.
  - intros b. rewrite B9, A9, elem_of_app. tauto.
Qed.

(** One round of the second loop. *)
Definition wake (p : Z) : M (kst H W) unit :=
  _ ← upd_proc p (set_state PROCESS_ACTIVE);
  x ← load_proc p;
  _ ← upd_ctx (ctx x) (set_context_return (err EEXITED));
  make_ready p (priority x).

Lemma wake_front s p d a wy cells : nodes_ok s -> procs (objs s) !! p = Some d -> p <> NULL ->
  queue_rep (nodes (objs s)) (sending_queue d) ((a, wy.1) :: cells) -> sleeper s p wy ->
  valid (priority_queue (kernel s)) -> (size (priority_queue (kernel s)) < capacity (priority_queue (kernel s)))%nat ->
  exists s' s1 q, next_sender p s = Ret (wy.1, s1) /\ wake wy.1 s1 = Ret (tt, s') /\ nodes_ok s' /\
    woken_all s s' p (set_sending_queue q d) [a] [wy] /\ queue_rep (nodes (objs s')) q cells.
Proof.
  destruct wy as [w y]. cbn [fst snd]. intros Hn Hp Hp0 Hq [S1 S2 S3 S4 [c S5]] Hv Hroom. cbn [fst snd] in *.
  destruct (next_step s p a w cells (sending_queue d) (fun q => set_sending_queue q d)) as (q & h & E & Hrep & Hok & D); try done.
  set (s1 := KState _ h _ _) in D.
  destruct (make_ready_run (KState (kernel s1) h (set_ctxs (<[ctx y:=set_context_return (err EEXITED) c]> (ctxs (objs s)))
    (set_procs (<[w:=set_state PROCESS_ACTIVE y]> (procs (objs s1))) (objs s1))) (world s)) w (priority y) Hv)
    as (q' & E' & Hv' & Hc' & P').
  eexists _, s1, q. split; [|split; [|split; [|split]]].
  - unfold next_sender. krun. rewrite Hp. krun. rewrite (on_queue_Ret _ s _ _ _ E). krun.
    unfold put_proc. by rewrite init_Ret by done.
  - unfold wake, mbind, M_mbind. rewrite (upd_proc_run _ _ s1 y); [|cbn [s1 objs set_procs procs]; by rewrite lookup_insert_ne|done].
    krun. cbn [objs set_procs procs]. rewrite lookup_insert_eq. krun. cbn [set_state ctx priority].
    erewrite upd_ctx_run; [|cbn [objs set_procs ctxs s1 set_nodes]; exact S5|done]. krun. exact E'.
  - exact Hok.
  - split; try done; cbn [set_kernel kernel kheap objs world set_ctxs set_procs s1 set_nodes procs ctxs nodes].
    + exists q'. split; [done|]. split; [done|]. split; [done|]. rewrite P' by done. done.
    + intros w'. cbn. destruct (decide (w' = p)) as [->|Hne]; [by rewrite lookup_insert_ne, lookup_insert_eq|].
      destruct (decide (w' ∈ [w])) as [->%list_elem_of_singleton|Hn'].
      * by rewrite lookup_insert_eq, S3.
      * rewrite !lookup_insert_ne; [done|done|]. intros ->. apply Hn'. by apply list_elem_of_singleton.
    + intros c'. cbn. destruct (decide (c' ∈ [ctx y])) as [->%list_elem_of_singleton|Hn'].
      * by rewrite lookup_insert_eq, S5.
      * rewrite lookup_insert_ne; [done|]. intros <-. apply Hn'. by apply list_elem_of_singleton.
    + intros b. exact (dr_nodes _ _ _ _ _ _ D b).
    + intros b. pose proof (dr_live _ _ _ _ _ _ D b) as L. unfold s1 in L. cbn [kheap] in L. rewrite L. set_solver.
  - exact Hrep.
Qed.

Lemma sleeper_woken s s1 p d ns wy0 wy : woken_all s s1 p d ns [wy0] -> wy.1 <> wy0.1 -> ctx wy.2 <> ctx wy0.2 ->
  sleeper s p wy -> sleeper s1 p wy.
Proof.
  intros Hw N1 N2 [S1 S2 S3 S4 S5]. split; [done|done| |done|].
  - rewrite (wk_procs _ _ _ _ _ _ Hw), !decide_False; [done| |done]. by intros ?%list_elem_of_singleton.
  - rewrite (wk_ctxs _ _ _ _ _ _ Hw), decide_False; [done|]. by intros ?%list_elem_of_singleton.
Qed.

Lemma wake_senders_run cells : forall ss s p d fuel, nodes_ok s -> procs (objs s) !! p = Some d -> p <> NULL ->
  queue_rep (nodes (objs s)) (sending_queue d) cells -> cells.*2 = ss.*1 -> Forall (sleeper s p) ss ->
  NoDup ss.*1 -> NoDup (ctx <$> ss.*2) -> valid (priority_queue (kernel s)) ->
  (size (priority_queue (kernel s)) + length ss <= capacity (priority_queue (kernel s)))%nat -> (length cells < fuel)%nat ->
  exists s' q, wake_senders fuel p s = Ret (tt, s') /\ nodes_ok s' /\ woken_all s s' p (set_sending_queue q d) cells.*1 ss.
Proof.
  induction cells as [|[a v] cells IH]; intros [|wy ss] s p d [|fuel] Hn Hp Hp0 Hq Hc Hs N1 N2 Hv Hroom Hf;
    cbn [length] in *; try done; try lia; cbn [wake_senders].
  - destruct (queue_get_next_ok (kheap s, nodes (objs s)) (sending_queue d) [] Hn Hq) as (v & q & s1 & E & _ & -> & -> & ->).
    unfold mbind, M_mbind, next_sender. krun. rewrite Hp. krun. rewrite (on_queue_Ret _ s _ _ _ E). krun.
    unfold put_proc. rewrite init_Ret by done. krun. eexists _, (sending_queue d). split; [done|]. split; [done|].
    split; try done; cbn [kernel kheap objs world set_procs set_nodes procs ctxs nodes fmap list_fmap].
    + exists (priority_queue (kernel s)). split; [by destruct s as [[] ? ? ?]|]. done.
    + intros w. destruct (decide (w = p)) as [->|Hne]; [by rewrite lookup_insert_eq|by rewrite lookup_insert_ne].
    + intros b. set_solver.
  - injection Hc as -> Hc. apply Forall_cons in Hs as [Hw Hs]. cbn [fmap list_fmap] in N1, N2.
    apply NoDup_cons in N1 as [N1 N1']. apply NoDup_cons in N2 as [N2 N2'].
    destruct (wake_front s p d a wy cells Hn Hp Hp0 Hq Hw Hv) as (s2 & s1 & q & E1 & E2 & Hn2 & Wk & Hq2); [lia|].
    pose proof (wk_kernel _ _ _ _ _ _ Wk) as (q2 & K2 & V2 & C2 & P2).
    destruct (IH ss s2 p (set_sending_queue q d) fuel) as (s' & q' & E' & Hn' & Wk'); try done.
    + by rewrite (wk_procs _ _ _ _ _ _ Wk), decide_True.
    + apply Forall_forall. intros x Hx. apply (sleeper_woken s s2 p _ _ wy x Wk); [| |by eapply Forall_forall in Hs].
      * intros Ex. apply N1. rewrite <- Ex. by apply list_elem_of_fmap_2.
      * intros Ex. apply N2. rewrite <- Ex, <- list_fmap_compose. by apply (list_elem_of_fmap_2 (ctx ∘ snd)).
    + by rewrite K2.
    + rewrite <- length_ready by (by rewrite K2). unfold ready. rewrite K2. cbn [set_priority_queue priority_queue].
      rewrite C2, P2, length_app, length_ready by done. cbn. lia.
    + lia.
    + exists s', q'. split; [|split; [done|by apply (woken_all_cons _ _ _ _ _ _ _ _ _ _ N1 N2 Wk Wk')]].
      unfold mbind, M_mbind. rewrite E1. ostep. rewrite (proj2 (Z.eqb_neq _ _) (sl_null _ _ _ Hw)).
      unfold wake in E2. apply M_bind_Ret in E2 as (u1 & t1 & F1 & E2). apply M_bind_Ret in E2 as (x & t2 & F2 & E2).
      apply M_bind_Ret in E2 as (u3 & t3 & F3 & E2). rewrite F1. ostep. rewrite F2. ostep. rewrite F3. ostep. rewrite E2. by ostep.
Qed.

(** ** The whole call *)

(** The ready processes have the same priority, as those the kernel spawns do. *)
Definition one_priority s : Prop :=
  forall x y, x ∈ ready s -> y ∈ ready s -> PriorityQueue.priority x = PriorityQueue.priority y.

Lemma filter_without (p : Z) (l : list Z) : (p ∉ l) -> filter (.≠ p) l = l.
Proof.
  induction l as [|v l IH]; intros Hn; [done|]. apply not_elem_of_cons in Hn as [Hv Hn].
  by rewrite filter_cons_True, IH by congruence.
Qed.

(** Taking a process out of the ready queue.  With unequal priorities the removal
    of one in the middle can break the order of the queue. *)
Lemma remove_ready_run s p : valid (priority_queue (kernel s)) -> NoDup (value <$> ready s) ->
  (p ∉ value <$> ready s) \/ one_priority s ->
  exists q, remove_ready p s = Ret (tt, set_kernel (set_priority_queue q (kernel s)) s) /\ valid q /\
    capacity q = capacity (priority_queue (kernel s)) /\ (size q <= size (priority_queue (kernel s)))%nat /\
    value <$> elements q ≡ₚ filter (.≠ p) (value <$> ready s).
Proof.
  intros Hv Hn Hc. pose proof Hv as [Hwf _]. destruct (priorityqueue_remove_ok (priority_queue (kernel s)) p Hwf)
    as (e & q & E & Hwf' & Hcap & Hcase). unfold remove_ready. rewrite E. ostep. exists q. split; [done|].
  destruct Hcase as [(-> & -> & Hno)|(-> & Hs & x & Hx & P)].
  - split; [done|]. split; [done|]. split; [lia|]. rewrite filter_without; [done|].
    intros (y & Ey & Hy)%list_elem_of_fmap. by apply (Hno y Hy).
  - assert (value <$> ready s ≡ₚ p :: (value <$> elements q)) as Pv by (unfold ready; by rewrite P, <- Hx).
    split; [|split; [done|split; [lia|]]].
    + destruct Hc as [Hc|Hc]; [|by eapply priorityqueue_remove_uniform].
      exfalso. apply Hc. rewrite Pv. by left.
    + rewrite Pv in Hn. apply NoDup_cons in Hn as [Hn _]. rewrite Pv, filter_cons_False by (by intros K).
      by rewrite filter_without.
Qed.

(** The blocks that make up the process at [p]. *)
Definition process_blocks (p : Z) (d : process_t) (cells scells : list (Z * Z)) : list Z :=
  p :: ctx d :: cells.*1 ++ cells.*2 ++ scells.*1.

(** Process [i] is [d] at [p], with the messages in [cells] and the senders [ss]
    in [scells]; the blocks are its own. *)
Record terminable s (i p : Z) (d : process_t) (cells : list (Z * Z)) (ms : list message_t)
    (scells : list (Z * Z)) (ss : list (Z * process_t)) : Prop := {
  te_names : names_process s i p;
  te_heights : heights_pos (process_table (kernel s));
  te_inbox : inbox s p d cells ms;
  te_nodes : nodes_ok s;
  te_outbox : queue_rep (nodes (objs s)) (sending_queue d) scells;
  te_small : Z.of_nat (length scells) < 2 ^ 32;
  te_senders : scells.*2 = ss.*1 /\ NoDup ss.*1 /\ NoDup (ctx d :: (ctx <$> ss.*2));
  te_sleepers : Forall (sleeper s p) ss;
  te_blocks : NoDup (process_blocks p d cells scells ++ addrs (process_table (kernel s)));
  te_live : forall b, b ∈ process_blocks p d cells scells ++ addrs (process_table (kernel s)) -> b ∈ live (kheap s);
  te_apart : forall a, a ∈ addrs (process_table (kernel s)) -> nodes (objs s) !! a = None;
  te_valid : valid (priority_queue (kernel s));
  te_distinct : NoDup (value <$> ready s);
  te_order : (p ∉ value <$> ready s) \/ one_priority s;
  te_room : (size (priority_queue (kernel s)) + length ss <= capacity (priority_queue (kernel s)))%nat
}.

(** What is left: the process and its messages are gone with their blocks, its
    senders are ready, nothing else changed. *)
Record terminated s s' (i p : Z) (d : process_t) (cells scells : list (Z * Z)) (ss : list (Z * process_t)) : Prop := {
  tm_table : bst (process_table (kernel s')) /\
    avl_map (process_table (kernel s')) = delete (s32 i) (avl_map (process_table (kernel s)));
  tm_active : active_process (kernel s') = if decide (active_process (kernel s) = p) then NULL else active_process (kernel s);
  tm_ready : valid (priority_queue (kernel s')) /\ value <$> ready s' ≡ₚ ss.*1 ++ filter (.≠ p) (value <$> ready s);
  tm_procs : forall w, procs (objs s') !! w = if decide (w = p) then None else
    if decide (w ∈ ss.*1) then set_state PROCESS_ACTIVE <$> procs (objs s) !! w else procs (objs s) !! w;
  tm_ctxs : forall c, ctxs (objs s') !! c = if decide (c = ctx d) then None else
    if decide (c ∈ ctx <$> ss.*2) then set_context_return (err EEXITED) <$> ctxs (objs s) !! c else ctxs (objs s) !! c;
  tm_msgs : forall v, msgs (objs s') !! v = if decide (v ∈ cells.*2) then None else msgs (objs s) !! v;
  tm_same : ports (objs s') = ports (objs s) /\ actions (objs s') = actions (objs s) /\
    port_table (kernel s') = port_table (kernel s) /\ interrupt_handlers (kernel s') = interrupt_handlers (kernel s) /\
    syscall_table (kernel s') = syscall_table (kernel s) /\ next_pid (kernel s') = next_pid (kernel s) /\
    world s' = world s;
  tm_live : exists node, addrs (process_table (kernel s)) ≡ₚ node :: addrs (process_table (kernel s')) /\
    forall b, b ∈ live (kheap s') <-> b ∈ live (kheap s) /\ b <> node /\ b ∉ process_blocks p d cells scells
}.

Lemma inbox_heap s s' p d cells ms : inbox s p d cells ms -> objs s' = objs s ->
  (forall v, v ∈ cells.*2 -> v ∈ live (kheap s')) -> inbox s' p d cells ms.
Proof.
  intros [I1 I2 I3 I4 I5 I6] Eo Hl. split; rewrite ?Eo; try done.
  apply Forall2_same_length_lookup_2; [by eapply Forall2_length|]. intros j c m Hj Hj'.
  destruct (Forall2_lookup_lr _ _ _ _ _ _ I4 Hj Hj') as (N1 & N2 & N3 & N4). split_and!; try done.
  apply Hl, list_elem_of_fmap. exists c. split; [done|]. by eapply list_elem_of_lookup_2.
Qed.

(** The first half of the call: the tables and the ready queue. *)
Definition unlist (i p : Z) : M (kst H W) unit :=
  a ← active;
  _ ← (if a =? p then upd_kernel (set_active_process NULL) else mret tt);
  t ← gets (fun s => process_table (kernel s));
  t ← on_heap (avl_remove t (s32 i));
  _ ← upd_kernel (set_process_table t);
  remove_ready p.

Record unlisted s s' (i p : Z) (ss : list (Z * process_t)) (node : Z) : Prop := {
  ul_objs : objs s' = objs s;
  ul_world : world s' = world s;
  ul_kernel : kernel s' = Kernel_ (syscall_table (kernel s)) (priority_queue (kernel s')) (interrupt_handlers (kernel s))
    (port_table (kernel s)) (process_table (kernel s'))
    (if decide (active_process (kernel s) = p) then NULL else active_process (kernel s)) (next_pid (kernel s));
  ul_table : bst (process_table (kernel s')) /\
    avl_map (process_table (kernel s')) = delete (s32 i) (avl_map (process_table (kernel s)));
  ul_valid : valid (priority_queue (kernel s'));
  ul_room : (size (priority_queue (kernel s')) + length ss <= capacity (priority_queue (kernel s')))%nat;
  ul_ready : value <$> ready s' ≡ₚ filter (.≠ p) (value <$> ready s);
  ul_node : addrs (process_table (kernel s)) ≡ₚ node :: addrs (process_table (kernel s'));
  ul_live : forall b, b ∈ live (kheap s') <-> b ∈ live (kheap s) /\ b <> node
}.

Lemma unlist_run s i p d cells ms scells ss : terminable s i p d cells ms scells ss ->
  exists s' node, unlist i p s = Ret (tt, s') /\ unlisted s s' i p ss node.
Proof.
  intros T. destruct (te_names _ _ _ _ _ _ _ _ T) as [Hb Hm].
  assert (NoDup (addrs (process_table (kernel s)))) as Hnd.
  { pose proof (te_blocks _ _ _ _ _ _ _ _ T) as K. apply NoDup_app in K. tauto. }
  destruct (avl_remove_ok (process_table (kernel s)) (s32 i) (kheap s)) as (t' & h & E & Tb & _ & Tm & _ & _ & _ & Tk);
    [done|apply T|done|intros; apply (te_live _ _ _ _ _ _ _ _ T); apply elem_of_app; by right|].
  destruct Tk as (node & Pn & Ln). { apply dec_stable. intros Hn. apply avl_map_None in Hn. by rewrite Hm in Hn. }
  destruct (remove_ready_run s p (te_valid _ _ _ _ _ _ _ _ T) (te_distinct _ _ _ _ _ _ _ _ T) (te_order _ _ _ _ _ _ _ _ T))
    as (q & Eq & Vq & Cq & Sq & Pq).
  pose proof (te_room _ _ _ _ _ _ _ _ T) as Hroom. unfold remove_ready in Eq.
  destruct (priorityqueue_remove (priority_queue (kernel s)) p) as [[e q1]| | |] eqn:Er; try done.
  cbn in Eq. injection Eq as ->.
  exists (KState (set_priority_queue q (set_process_table t'
    (if decide (active_process (kernel s) = p) then set_active_process NULL (kernel s) else kernel s))) h (objs s) (world s)), node.
  split.
  - unfold unlist. krun. destruct (Z.eqb_spec (active_process (kernel s)) p) as [Ea|Ea].
    + rewrite (decide_True _ _ Ea). krun. cbn [process_table set_active_process]. erewrite on_heap_Ret by exact E. krun.
      unfold remove_ready. cbn [kernel set_kernel priority_queue set_process_table set_active_process]. rewrite Er. done.
    + rewrite (decide_False _ _ Ea). krun. erewrite on_heap_Ret by exact E. krun.
      unfold remove_ready. cbn [kernel set_kernel priority_queue set_process_table set_active_process]. rewrite Er. done.
  - split; cbn [kernel objs kheap world set_priority_queue priority_queue process_table set_process_table]; try done.
    + by case_decide.
    + lia.
    + intros b. rewrite Ln. set_solver.
Qed.

(** The second half: the queues and the blocks. *)
Definition dismantle (p : Z) : M (kst H W) error_t :=
  x ← load_proc p;
  _ ← free_messages (queue_fuel (message_queue x)) p;
  _ ← wake_senders (queue_fuel (sending_queue x)) p;
  x ← load_proc p;
  _ ← free_ctx (ctx x);
  _ ← free_proc p;
  mret ENONE.

Lemma terminate_split s i p : names_process s i p -> p <> NULL ->
  kernel_terminate_process i s = (_ ← unlist i p; dismantle p) s.
Proof.
  intros Hn Hp. unfold kernel_terminate_process, unlist, dismantle, mbind at 1, M_mbind at 1.
  rewrite (process_of_run s i p Hn). ostep. rewrite (proj2 (Z.eqb_neq _ _) Hp). krun.
  destruct (active_process (kernel s) =? p); krun.
  - destruct (on_heap _ _) as [[t s1]| | |]; krun; done.
  - destruct (on_heap _ _) as [[t s1]| | |]; krun; done.
Qed.

Record dismantled s s' (p : Z) (d : process_t) (cells scells : list (Z * Z)) (ss : list (Z * process_t)) : Prop := {
  dm_kernel : exists q, kernel s' = set_priority_queue q (kernel s) /\ valid q /\ elements q ≡ₚ (ready_node <$> ss) ++ ready s;
  dm_procs : forall w, procs (objs s') !! w = if decide (w = p) then None else
    if decide (w ∈ ss.*1) then set_state PROCESS_ACTIVE <$> procs (objs s) !! w else procs (objs s) !! w;
  dm_ctxs : forall c, ctxs (objs s') !! c = if decide (c = ctx d) then None else
    if decide (c ∈ ctx <$> ss.*2) then set_context_return (err EEXITED) <$> ctxs (objs s) !! c else ctxs (objs s) !! c;
  dm_msgs : forall v, msgs (objs s') !! v = if decide (v ∈ cells.*2) then None else msgs (objs s) !! v;
  dm_same : ports (objs s') = ports (objs s) /\ actions (objs s') = actions (objs s) /\ world s' = world s;
  dm_live : forall b, b ∈ live (kheap s') <-> b ∈ live (kheap s) /\ b ∉ process_blocks p d cells scells
}.

(** The last two blocks. *)
Lemma free_process_run s p x : procs (objs s) !! p = Some x -> ctx x ∈ live (kheap s) -> p ∈ live (kheap s) -> p <> ctx x ->
  exists h, (x ← load_proc p; _ ← free_ctx (ctx x); _ ← free_proc p; mret ENONE) s =
    Ret (ENONE, KState (kernel s) h (set_procs (delete p (procs (objs s))) (set_ctxs (delete (ctx x) (ctxs (objs s))) (objs s))) (world s)) /\
    forall b, b ∈ live h <-> b ∈ live (kheap s) /\ b <> p /\ b <> ctx x.
Proof.
  intros Hx Hc Hp Hne. destruct (kfree_spec (kheap s) (ctx x) Hc) as (h & E & L).
  destruct (kfree_spec h p) as (h' & E' & L'); [rewrite L; set_solver|].
  exists h'. split; [|intros b; rewrite L', L; set_solver].
  krun. rewrite Hx. krun. unfold free_ctx, free_proc. krun. rewrite (on_heap_Ret _ s _ _ E). krun.
  erewrite on_heap_Ret by exact E'. by krun.
Qed.

Lemma dismantle_run s p d cells ms scells ss : nodes_ok s -> inbox s p d cells ms ->
  queue_rep (nodes (objs s)) (sending_queue d) scells -> Z.of_nat (length scells) < 2 ^ 32 ->
  scells.*2 = ss.*1 -> NoDup ss.*1 -> NoDup (ctx d :: (ctx <$> ss.*2)) -> Forall (sleeper s p) ss ->
  NoDup (process_blocks p d cells scells) -> (forall b, b ∈ process_blocks p d cells scells -> b ∈ live (kheap s)) ->
  valid (priority_queue (kernel s)) -> (size (priority_queue (kernel s)) + length ss <= capacity (priority_queue (kernel s)))%nat ->
  exists s', dismantle p s = Ret (ENONE, s') /\ dismantled s s' p d cells scells ss.
Proof.
  intros Hn Hi Hq Hsm Hc N1 N2 Hs Hb Hl Hv Hroom. apply NoDup_cons in N2 as [Nd N2].
  unfold process_blocks in Hb. apply NoDup_cons in Hb as [Hpb Hb]. apply NoDup_cons in Hb as [Hdb Hb].
  apply NoDup_app in Hb as (_ & Hb1 & Hb2). apply NoDup_app in Hb2 as (_ & Hb2 & _).
  destruct (free_messages_run cells ms s p d (queue_fuel (message_queue d)) Hn Hi) as (s2 & q & E2 & Hn2 & D).
  { unfold queue_fuel. rewrite (inbox_count _ _ _ _ _ Hi). lia. }
  pose proof D as [D1 D2 D3 D4 D5 D6 D7 D8 D9].
  destruct (wake_senders_run scells ss s2 p (set_message_queue q d) (queue_fuel (sending_queue d))) as (s3 & q3 & E3 & Hn3 & Wk); try done.
  { by rewrite D3, lookup_insert_eq. }
  { apply Hi. }
  { apply (rep_frame (nodes (objs s))); [|done]. intros a Ha. rewrite D7, decide_False; [done|]. intros Ha'.
    apply (Hb1 a Ha'), elem_of_app. by right. }
  { eapply Forall_impl; [exact Hs|]. intros wy [S1 S2 S3 S4 S5]. split; rewrite ?D3, ?D4; try done. by rewrite lookup_insert_ne. }
  { by rewrite D1. }
  { by rewrite D1. }
  { unfold queue_fuel. rewrite (rep_count _ _ _ Hq), u32_id by (unfold is_u32; lia). lia. }
  pose proof Wk as [(q4 & K1 & K2 & _ & K3) W2 W3 W4 W5 W6 W7 W8 W9].
  destruct (free_process_run s3 p (set_sending_queue q3 (set_message_queue q d))) as (h & E4 & L4).
  { by rewrite W3, decide_True. }
  { apply W9. rewrite D9. cbn [ctx set_sending_queue set_message_queue]. split_and!; [apply Hl; by right; left|..]; intros K; apply Hdb; rewrite !elem_of_app; tauto. }
  { apply W9. rewrite D9. split_and!; [apply Hl; by left|..]; intros K; apply Hpb, elem_of_cons; right; rewrite !elem_of_app; tauto. }
  { intros K. apply Hpb. cbn in K. rewrite <- K. by left. }
  eexists. split.
  - apply M_bind_Ret. exists d, s. split; [unfold load_proc; by rewrite (in_proc _ _ _ _ _ Hi)|].
    apply M_bind_Ret. exists tt, s2. split; [done|]. apply M_bind_Ret. by exists tt, s3.
  - split; cbn [kernel kheap objs world set_procs set_ctxs procs ctxs msgs ports actions set_sending_queue set_message_queue ctx].
    + exists q4. rewrite K1, D1. split; [done|]. split; [done|]. rewrite K3. unfold ready. by rewrite D1.
    + intros w. destruct (decide (w = p)) as [->|Hne]; [by rewrite lookup_delete_eq|].
      rewrite lookup_delete_ne, W3, decide_False, D3, lookup_insert_ne by done. done.
    + intros c. destruct (decide (c = ctx d)) as [->|Hne]; [by rewrite lookup_delete_eq|].
      rewrite lookup_delete_ne, W4, D4 by done. done.
    + intros v. by rewrite W5, D8.
    + rewrite W6, W7, W2. done.
    + intros b. rewrite L4, W9, D9. cbn [ctx set_sending_queue set_message_queue]. unfold process_blocks.
      rewrite !elem_of_cons, !elem_of_app. tauto.
Qed.

Lemma terminate_run s i p d cells ms scells ss : terminable s i p d cells ms scells ss ->
  exists s', kernel_terminate_process i s = Ret (ENONE, s') /\ terminated s s' i p d cells scells ss.
Proof.
  intros T. destruct (unlist_run _ _ _ _ _ _ _ _ T) as (s1 & node & E1 & U).
  destruct T as [T1 T2 T3 T4 T5 T6 (T7 & T7' & T7'') T8 T9 T10 T11 T12 T13 T14 T15].
  pose proof U as [U1 U2 U3 U4 U5 U6 U7 U8 U9]. apply NoDup_app in T9 as (T9 & T9' & _).
  assert (node ∈ addrs (process_table (kernel s))) as Hnode by (rewrite U8; by left).
  assert (forall b, b ∈ process_blocks p d cells scells -> b ∈ live (kheap s1)) as Hlive.
  { intros b Hb. apply U9. split; [apply T10, elem_of_app; by left|]. intros ->. by apply (T9' node Hb). }
  destruct (dismantle_run s1 p d cells ms scells ss) as (s' & E2 & [(q & M1 & M2 & M3) M4 M5 M6 (M7 & M8 & M9) M10]); rewrite ?U1; try done.
  { intros a Ha. cbn [fst snd] in *. rewrite U1 in Ha. apply U9. split; [by apply T4|]. intros ->. rewrite (T11 node Hnode) in Ha. by destruct Ha. }
  { apply (inbox_heap s); [done|done|]. intros v Hv. apply Hlive. unfold process_blocks. rewrite !elem_of_cons, !elem_of_app. tauto. }
  { eapply Forall_impl; [exact T8|]. intros wy [S1 S2 S3 S4 S5]. split; by rewrite ?U1. }
  exists s'. split.
  { rewrite (terminate_split _ _ _ T1) by apply T3. unfold mbind, M_mbind. rewrite E1. by ostep. }
  rewrite U1 in *. split; try done.
  - by rewrite M1.
  - rewrite M1, U3. done.
  - rewrite M1. split; [done|]. unfold ready at 1. rewrite M1. cbn [set_priority_queue priority_queue].
    rewrite M3, fmap_app, U7, <- list_fmap_compose. done.
  - rewrite M1, U3, M7, M8, M9, U2. done.
  - exists node. rewrite M1. split; [done|]. intros b. rewrite M10, U9. tauto.
Qed.
End terminate.

(** * Properties *)

(** C29: [kernel_terminate_process] returns EDOESNTEXIST and changes nothing for a
    pid that is not in the table.  For a process in the table it returns ENONE:
    the process is out of the table, the ready queue and the processor, its
    messages are freed with it, and exactly its blocks go back to the heap;
    the processes waiting to send to it are ready with EEXITED as their result.
    The other processes and every address space are as before, and so are the
    ports it owns.  The conditions are those of [terminable]: the tables and queues are
    well formed, the process and its messages and senders have blocks of their own, there is
    room in the ready queue for the senders, and if the process is in that queue
    all ready processes have one priority, since removal from the middle can
    break the order otherwise. *)
Theorem kernel_terminate_process_spec {H W} `{KHeapOk H, AddressSpacesOk W} (s : kst H W) i :
  (bst (process_table (kernel s)) -> avl_map (process_table (kernel s)) !! s32 i = None ->
    kernel_terminate_process i s = Ret (EDOESNTEXIST, s)) /\
  (forall p d cells ms scells ss, terminable s i p d cells ms scells ss ->
    exists s', kernel_terminate_process i s = Ret (ENONE, s') /\ terminated s s' i p d cells scells ss).
Proof.
  split; [|apply terminate_run]. intros Hb Hm. unfold kernel_terminate_process, process_of, gets, mbind, M_mbind.
  ostep. by rewrite avl_get_ok, Hm by done.
Qed.

(** Process 1 runs, with a message in block 128; process 2 waits to send to it. *)
Definition demo_dying_process : process_t :=
  set_sending_queue (MkQueue 1 72 72) (set_message_queue (MkQueue 1 64 64) demo_p1).
Definition demo_dying : kst demo_heap flat :=
  KState (set_process_table (Nd 8 1 1 4160 Leaf Leaf) demo_kernel) (DemoHeap 3 1000 {[8; 64; 72; 128; 4160; 4224]})
    (Objects {[64 := QNode 128 NULL; 72 := QNode 4288 NULL]} {[4160 := demo_dying_process; 4288 := demo_p2]}
      {[4224 := demo_context; 4352 := demo_context]} {[128 := demo_message]} ∅ ∅)
    demo_world.

Lemma demo_terminable :
  terminable demo_dying 1 4160 demo_dying_process [(64, 128)] [demo_message] [(72, 4288)] [(4288, demo_p2)].
Proof.
  split.
  - split; [unfold bst; simpl; repeat constructor|reflexivity].
  - simpl. lia.
  - split; [reflexivity|discriminate| | |repeat constructor; by apply not_elem_of_nil|simpl; lia].
    + split; [|reflexivity|reflexivity|apply NoDup_singleton].
      split; [reflexivity|]. split; [discriminate|]. exists NULL. split; reflexivity.
    + constructor; [|constructor]. split_and!; [discriminate|simpl; set_solver|reflexivity|reflexivity].
  - intros a [y Hy]. cbn in Hy. apply lookup_insert_Some in Hy as [[<- _]|[_ Hy]]; [simpl; set_solver|].
    apply lookup_singleton_Some in Hy as [<- _]. simpl. set_solver.
  - split; [|reflexivity|reflexivity|apply NoDup_singleton].
    split; [reflexivity|]. split; [discriminate|]. exists NULL. split; reflexivity.
  - simpl. lia.
  - split; [reflexivity|]. split; apply (bool_decide_unpack (NoDup _)); vm_compute; exact I.
  - constructor; [|constructor]. split; [discriminate|discriminate|reflexivity|discriminate|by eexists].
  - apply (bool_decide_unpack (NoDup _)). vm_compute. exact I.
  - intros b Hb. simpl in Hb |- *. set_solver.
  - intros a Ha. simpl in Ha. apply list_elem_of_singleton in Ha as ->. reflexivity.
  - apply (empty_queue_valid 2).
  - constructor.
  - left. apply not_elem_of_nil.
  - simpl. lia.
Qed.

Lemma kernel_terminate_process_spec_witness :
  kernel_terminate_process 3 demo_dying = Ret (EDOESNTEXIST, demo_dying) /\
  exists s', kernel_terminate_process 1 demo_dying = Ret (ENONE, s') /\ active_process (kernel s') = NULL /\
    procs (objs s') !! 4160 = None /\ value <$> ready s' ≡ₚ [4288] /\
    ctxs (objs s') !! 4352 = Some (set_context_return (err EEXITED) demo_context).
Proof.
  destruct (kernel_terminate_process_spec demo_dying 3) as [H1 _].
  destruct (kernel_terminate_process_spec demo_dying 1) as [_ H2].
  split; [apply H1; [unfold bst; simpl; repeat constructor|reflexivity]|].
  destruct (H2 4160 _ _ _ _ _ demo_terminable) as (s' & E & [_ A R P C _ _ _]).
  exists s'. split; [exact E|]. split; [exact A|]. split; [exact (P 4160)|]. split; [exact (proj2 R)|exact (C 4352)].
Defined.
