(* ===== verification/Signals.v ===== *)
(** Signals: the handlers a process registers for interrupts
    ([kernel_execute_interrupt_handler] of src/kernel.c, defined in Kernel.v),
    over the contexts and stacks of Context.v. *)
From S2P Require Import Prelude Status Alloc AvlTree PriorityQueue Space Context Kernel System.

(** * Theory *)

(** ** The frame on the process's stack *)
Section frame.
Context {W : Type} `{AddressSpacesOk W}.

(** The words from the new stack pointer up: the trampoline and the handler's
    arguments, the process's state, its registers and the signal's number.  The
    stack pointer among the registers is the one of their own copy. *)
Definition signal_frame (c : process_context_t) (st : process_state_t) (interrupt trampoline userdata : Z) : list Z :=
  [trampoline; esp c - 4; userdata] ++ [state_code st] ++ context_words (set_reg 7 (esp c - 52) c) ++ [interrupt].

(** The pushes of [kernel_execute_interrupt_handler]. *)
Definition push_signal (c : process_context_t) (st : process_state_t) (interrupt func trampoline userdata : Z) : M W process_context_t :=
  c ← context_stack_push_struct c (fun _ => [interrupt]) 4;
  let siginfo_ptr := esp c in
  c ← context_stack_push_struct c context_words sizeof_context;
  c ← context_stack_push c (state_code st);
  context_call_func c func trampoline [userdata; siginfo_ptr].

Lemma state_code_u32 st : is_u32 (state_code st).
Proof. destruct st; [by split..|apply u32_range]. Qed.

Lemma push_signal_run m c st interrupt func trampoline userdata :
  wf_context c -> stack_room m c 68 -> is_u32 interrupt -> is_u32 func -> is_u32 trampoline -> is_u32 userdata ->
  exists m', push_signal c st interrupt func trampoline userdata m = Ret (enter_at func (esp c - 68) c, m') /\
    only_writes m m' (as_current m) (esp c - 68) 68 /\
    holds m' (as_current m) (esp c - 68) (signal_frame c st interrupt trampoline userdata).
Proof.
  intros Hc Hr Hi Hf Ht Hu. assert (forall k, 0 <= k <= 68 -> is_u32 (esp c - k)) as Hd by (intros; by eapply esp_down).
  destruct (push_struct_ok m c (fun _ => [interrupt]) 4 68 Hc Hr) as (m1 & E1 & O1 & V1); [lia|by constructor|done|].
  pose proof (stack_room_after m m1 c 68 4 Hc Hr ltac:(lia) O1) as R1. set (c1 := set_reg 7 (esp c - 4) c) in *.
  assert (wf_context c1) as Hc1 by (by apply wf_context_set_reg).
  assert (esp c1 = esp c - 4) as P1 by (apply esp_set; [done|apply Hd; lia]).
  assert (set_reg 7 (esp c1 - 48) c1 = set_reg 7 (esp c - 52) c) as Q2.
  { unfold c1 at 2. rewrite set_reg_set_reg, P1. f_equal. lia. }
  assert (wf_context (set_reg 7 (esp c - 52) c)) as Hc2 by (by apply wf_context_set_reg).
  destruct (push_struct_ok m1 c1 context_words 48 64 Hc1 R1) as (m2 & E2 & O2 & V2);
    [lia|rewrite Q2; apply Hc2|by rewrite Q2, length_context_words|].
  pose proof (stack_room_after m1 m2 c1 64 48 Hc1 R1 ltac:(lia) O2) as R2. rewrite Q2 in E2, V2, R2.
  set (c2 := set_reg 7 (esp c - 52) c) in *. assert (esp c2 = esp c - 52) as P2 by (apply esp_set; [done|apply Hd; lia]).
  destruct (push_ok m2 c2 (state_code st) 16 Hc2 (state_code_u32 st) R2) as (m3 & E3 & O3 & V3); [lia|].
  pose proof (stack_room_after m2 m3 c2 16 4 Hc2 R2 ltac:(lia) O3) as R3. set (c3 := set_reg 7 (esp c2 - 4) c2) in *.
  assert (wf_context c3) as Hc3 by (by apply wf_context_set_reg).
  assert (esp c3 = esp c - 56) as P3 by (unfold c3; rewrite P2, esp_set; [lia|done|replace (esp c - 52 - 4) with (esp c - 56) by lia; apply Hd; lia]).
  destruct (call_func_run m3 c3 func trampoline [userdata; esp c1] 12 Hc3 Hf Ht) as (m4 & E4 & _ & O4 & V4);
    [repeat (constructor; [done|]); constructor; [rewrite P1; apply Hd; lia|constructor]|done|cbn; lia|].
  cbn [length rev app] in *. change (4 * (Z.of_nat 2 + 1)) with 12 in *.
  pose proof O1 as (_ & K1 & _). pose proof O2 as (_ & K2 & _). pose proof O3 as (_ & K3 & _).
  rewrite K3, K2, K1 in O4, V4. rewrite K2, K1 in O3, V3. rewrite K1 in O2, V2. rewrite P3 in *. rewrite P2 in *. rewrite P1 in *.
  assert (enter_at func (esp c - 56 - 12) c3 = enter_at func (esp c - 68) c) as Q4.
  { unfold c3, c2. rewrite !enter_at_set_reg. f_equal. lia. }
  exists m4. split; [|split].
  - unfold push_signal. apply M_bind_Ret. exists c1, m1. split; [done|]. apply M_bind_Ret. exists c2, m2. split; [done|].
    apply M_bind_Ret. exists c3, m3. split; [done|]. rewrite P1, <- Q4. exact E4.
  - apply (only_writes_trans m m3 m4 _ _ _ (esp c - 56) 56 (esp c - 56 - 12) 12); [|done|lia..].
    apply (only_writes_trans m m2 m3 _ _ _ (esp c - 52) 52 (esp c - 52 - 4) 4); [|done|lia..].
    apply (only_writes_trans m m1 m2 _ _ _ (esp c - 4) 4 (esp c - 4 - 48) 48); [done|done|lia..].
  - assert (Z.of_nat (length (context_words c2)) = 12) as L2 by (by rewrite length_context_words).
    unfold signal_frame. fold c2. rewrite !holds_app, L2. cbn [length].
    replace (esp c - 68 + 4 * Z.of_nat 3) with (esp c - 52 - 4) by lia.
    replace (esp c - 52 - 4 + 4 * Z.of_nat 1) with (esp c - 4 - 48) by lia.
    replace (esp c - 4 - 48 + 4 * 12) with (esp c - 4) by lia.
    split; [by replace (esp c - 68) with (esp c - 56 - 12) by lia|]. split; [|split].
    + eapply holds_frame; [exact O4| |exact V3]. cbn [length]. lia.
    + eapply holds_frame; [exact O4| |eapply holds_frame; [exact O3| |exact V2]]; rewrite ?L2; lia.
    + eapply holds_frame; [exact O4| |eapply holds_frame; [exact O3| |eapply holds_frame; [exact O2| |exact V1]]]; cbn [length]; lia.
Qed.
End frame.

Section handler.
Context {H W : Type} `{KHeapOk H} `{AddressSpacesOk W}.
Implicit Types s : kst H W.

Lemma holds_bytes (w w' : W) t a ws : as_wf w' -> (forall t a, as_byte w' t a = as_byte w t a) -> holds w t a ws -> holds w' t a ws.
Proof.
  intros Hwf Hb. revert a. induction ws as [|x ws IH]; intros a; cbn [holds]; [done|].
  intros (Hu & (_ & B) & Hr). split; [done|]. split; [|by apply IH]. split; [done|]. by rewrite !Hb.
Qed.

(** The handler of interrupt [i] is [y] at [ap], of process [d] at [p] with saved
    registers [c] and 68 bytes of stack; [z] is the running process. *)
Record signalled s (i ap : Z) (y : signal_action_t) (p : Z) (d : process_t) (c : process_context_t) (z : process_t) : Prop := {
  sg_handler : bst (interrupt_handlers (kernel s)) /\ avl_map (interrupt_handlers (kernel s)) !! s32 i = Some ap /\ ap <> NULL;
  sg_action : actions (objs s) !! ap = Some y;
  sg_words : is_u32 i /\ is_u32 (func_ptr y) /\ is_u32 (trampoline_ptr y) /\ is_u32 (userdata y);
  sg_names : names_process s (apid y) p /\ p <> NULL;
  sg_proc : procs (objs s) !! p = Some d;
  sg_ctx : ctx d <> NULL /\ ctxs (objs s) !! ctx d = Some c /\ wf_context c;
  sg_spaces : as_wf (world s) /\ as_space (page_table d) /\ as_space (page_table z);
  sg_stack : 68 <= esp c /\ is_u32 (esp c) /\ user_range (world s) (page_table d) (esp c - 68) 68;
  sg_active : procs (objs s) !! active_process (kernel s) = Some z;
  sg_queue : valid (priority_queue (kernel s))
}.

(** The process enters its handler when it next runs. *)
Record handler_entered s s' (i : Z) (y : signal_action_t) (p : Z) (d : process_t) (c : process_context_t) (z : process_t) : Prop := {
  he_ctx : ctxs (objs s') = <[ctx d:=enter_at (func_ptr y) (esp c - 68) c]> (ctxs (objs s));
  he_procs : procs (objs s') = <[p:=set_state PROCESS_ACTIVE d]> (procs (objs s));
  he_kernel : exists q, kernel s' = set_priority_queue q (kernel s) /\ valid q /\
    (state d = PROCESS_ACTIVE -> q = priority_queue (kernel s)) /\
    (state d <> PROCESS_ACTIVE -> (size (priority_queue (kernel s)) < capacity (priority_queue (kernel s)))%nat ->
      elements q ≡ₚ Node p (priority d) :: ready s) /\
    (~ (size (priority_queue (kernel s)) < capacity (priority_queue (kernel s)))%nat -> q = priority_queue (kernel s));
  he_space : as_wf (world s') /\ as_current (world s') = page_table z;
  he_memory : forall t a, ~ (t = page_table d /\ esp c - 68 <= a < esp c) -> as_byte (world s') t a = as_byte (world s) t a;
  he_frame : holds (world s') (page_table d) (esp c - 68) (signal_frame c (state d) i (trampoline_ptr y) (userdata y));
  he_heap : kheap s' = kheap s /\ nodes (objs s') = nodes (objs s) /\ msgs (objs s') = msgs (objs s) /\
    ports (objs s') = ports (objs s) /\ actions (objs s') = actions (objs s)
}.

(** The stores of the second half: the context, and the process made ready. *)
Definition enter_handler (p : Z) (d : process_t) (c : process_context_t) : M (kst H W) unit :=
  _ ← put_ctx (ctx d) c;
  if bool_decide (state d = PROCESS_ACTIVE) then mret tt
  else _ ← upd_proc p (set_state PROCESS_ACTIVE); make_ready p (priority d).

Lemma enter_handler_run s p d c : procs (objs s) !! p = Some d -> p <> NULL -> ctx d <> NULL -> valid (priority_queue (kernel s)) ->
  exists q, enter_handler p d c s = Ret (tt, KState (set_priority_queue q (kernel s)) (kheap s)
      (set_procs (<[p:=set_state PROCESS_ACTIVE d]> (procs (objs s))) (set_ctxs (<[ctx d:=c]> (ctxs (objs s))) (objs s))) (world s)) /\
    valid q /\ (state d = PROCESS_ACTIVE -> q = priority_queue (kernel s)) /\
    (state d <> PROCESS_ACTIVE -> (size (priority_queue (kernel s)) < capacity (priority_queue (kernel s)))%nat ->
      elements q ≡ₚ Node p (priority d) :: ready s) /\
    (~ (size (priority_queue (kernel s)) < capacity (priority_queue (kernel s)))%nat -> q = priority_queue (kernel s)).
Proof.
  intros Hp Hp0 Hc Hv. unfold enter_handler. krun. unfold put_ctx. rewrite init_Ret by done. krun.
  destruct (bool_decide_reflect (state d = PROCESS_ACTIVE)) as [Ea|Ea].
  - exists (priority_queue (kernel s)). split; [|split; [done|split; [done|by split; intros]]]. cbn [mret M_mret]. do 2 f_equal.
    assert (set_state PROCESS_ACTIVE d = d) as -> by (destruct d; cbn in *; by subst).
    rewrite (insert_id (procs (objs s)) p d) by done. by destruct s as [[] ? [] ?].
  - rewrite (upd_proc_run p _ _ d) by done. krun. cbn [objs set_ctxs procs kheap kernel world].
    match goal with |- context [make_ready p _ ?s1] => destruct (make_ready_cases s1 p (priority d) Hv) as (q & E & Hv' & _ & P & P') end.
    exists q. rewrite E. split; [done|]. split; [done|]. split; [done|]. split; [intros _; exact P|exact P'].
Qed.

Lemma execute_handler_run s i ap y p d c z : signalled s i ap y p d c z ->
  exists s', kernel_execute_interrupt_handler i s = Ret (ENONE, s') /\ handler_entered s s' i y p d c z.
Proof.
  intros [(G1 & G2 & G3) G4 (W1 & W2 & W3 & W4) (G5 & G6) G7 (C1 & C2 & C3) (S1 & S2 & S3) (T1 & T2 & T3) G8 G9].
  destruct (as_load_ok (page_table d) (world s) S1 S2) as (w1 & E1 & F1 & K1 & B1).
  assert (stack_room w1 c 68) as Hroom.
  { split; [lia|]. split; [done|]. split; [lia|]. split; [done|]. intros j Hj. rewrite K1, B1. by apply T3. }
  destruct (push_signal_run w1 c (state d) i (func_ptr y) (trampoline_ptr y) (userdata y) C3 Hroom)
    as (w2 & E2 & O2 & V2); try done. rewrite K1 in O2, V2. pose proof O2 as (F2 & _ & _ & B2).
  destruct (as_load_ok (page_table z) w2 F2 S3) as (w3 & E3 & F3 & K3 & B3).
  destruct (enter_handler_run (KState (kernel s) (kheap s) (objs s) w2) p d (enter_at (func_ptr y) (esp c - 68) c) G7 G6 C1 G9)
    as (q & E4 & Q1 & Q2 & Q3 & Q4).
  exists (KState (set_priority_queue q (kernel s)) (kheap s)
    (set_procs (<[p:=set_state PROCESS_ACTIVE d]> (procs (objs s))) (set_ctxs (<[ctx d:=enter_at (func_ptr y) (esp c - 68) c]> (ctxs (objs s))) (objs s))) w3).
  split.
  - unfold push_signal in E2. apply M_bind_Ret in E2 as (c1 & v1 & X1 & E2). apply M_bind_Ret in E2 as (c2 & v2 & X2 & E2).
    apply M_bind_Ret in E2 as (c3 & v3 & X3 & X4).
    unfold kernel_execute_interrupt_handler. krun. rewrite avl_get_ok, G2 by done. cbn [default from_option Datatypes.id]. rewrite (proj2 (Z.eqb_neq _ _) G3).
    krun. rewrite G4. krun. destruct G5 as [G5 G5']. rewrite avl_get_ok, G5' by done. cbn [default from_option Datatypes.id]. rewrite (proj2 (Z.eqb_neq _ _) G6).
    krun. rewrite G7. krun. rewrite (on_world_Ret _ s _ _ E1). krun. rewrite C2. krun.
    erewrite on_world_Ret by exact X1. krun. erewrite on_world_Ret by exact X2. krun. erewrite on_world_Ret by exact X3. krun.
    erewrite on_world_Ret by exact X4. krun.
    unfold enter_handler in E4. apply M_bind_Ret in E4 as (u & t1 & Y1 & Y2). rewrite Y1. krun.
    assert (exists z', <[p:=set_state PROCESS_ACTIVE d]> (procs (objs s)) !! active_process (kernel s) = Some z' /\
      page_table z' = page_table z) as (z' & Z1 & Z2).
    { destruct (decide (active_process (kernel s) = p)) as [Ea|Ea].
      - rewrite Ea, lookup_insert_eq. exists (set_state PROCESS_ACTIVE d). split; [done|]. rewrite Ea, G7 in G8. by injection G8 as <-.
      - rewrite lookup_insert_ne by done. by exists z. }
    destruct (bool_decide _); [injection Y2 as ->|apply M_bind_Ret in Y2 as (u2 & t2 & Y2 & Y3); krun; rewrite Y2; krun; rewrite Y3];
      krun; cbn [objs set_procs procs kernel set_priority_queue active_process]; rewrite Z1; krun; rewrite Z2;
      by erewrite on_world_Ret by exact E3.
  - split; cbn [kernel kheap objs world set_procs set_ctxs procs ctxs]; try done.
    + exists q. done.
    + intros t a Ha. rewrite B3, B2, B1; [done|]. intros [-> Hr]. apply Ha. split; [done|lia].
    + by apply (holds_bytes w2).
Qed.
End handler.

(** ** The return from a handler *)
Section return_from_handler.
Context {H W : Type} `{KHeap H} `{AddressSpacesOk W}.
Implicit Types s : kst H W.

(** The running process is [d], with the registers [c]. *)
Definition running_as s (d : process_t) (c : process_context_t) : Prop :=
  procs (objs s) !! active_process (kernel s) = Some d /\ active_process (kernel s) <> NULL /\
  ctx d <> NULL /\ ctxs (objs s) !! ctx d = Some c /\ wf_context c.

(** [kernel_signal_return] takes the state from 8 bytes below the stack pointer and
    the registers from 4 bytes below it. *)
Lemma signal_return_run s d c w ws : running_as s d c -> 8 <= esp c -> is_u32 (esp c) ->
  holds (world s) (as_current (world s)) (esp c - 8) (w :: ws) -> length ws = 12%nat -> state_of_code w <> PROCESS_REQUESTING ->
  kernel_signal_return s = Ret (Returned ENONE, KState (kernel s) (kheap s)
    (set_ctxs (<[ctx d:=words_context ws]> (ctxs (objs s)))
      (set_procs (<[active_process (kernel s):=set_state (state_of_code w) d]> (procs (objs s))) (objs s))) (world s)).
Proof.
  intros (Hp & Hp0 & Hc0 & Hc & Hwf) He Hu (Uw & Hw & Hws) Hl Hst. unfold is_u32 in Hu.
  unfold kernel_signal_return. krun. rewrite Hp. krun. rewrite Hc. krun. unfold context_cleanup_func, sizeof_long.
  change (4 * 2) with 8. set (c1 := set_reg 7 (esp c - 8) c).
  assert (esp c1 = esp c - 8) as E1 by (apply esp_set; [done|unfold is_u32; lia]). assert (wf_context c1) as W1 by (by apply wf_context_set_reg).
  erewrite on_world_Ret by (apply (pop_ok _ c1 w); [done|by rewrite E1]). krun. set (c2 := set_reg 7 (esp c1 + 4) c1).
  assert (esp c2 = esp c - 8 + 4) as E2 by (unfold c2; rewrite E1; apply esp_set; [done|unfold is_u32; lia]).
  rewrite (upd_proc_run _ _ _ d) by done. krun.
  pose proof (pop_struct_ok (world s) c2 ws) as Hpop. rewrite E2, Hl in Hpop. change (4 * Z.of_nat 12) with sizeof_context in Hpop.
  erewrite on_world_Ret by (by apply Hpop). krun. unfold put_ctx. rewrite init_Ret by done. krun.
  by rewrite bool_decide_false.
Qed.
End return_from_handler.

(** * Properties *)

(** C34: [kernel_execute_interrupt_handler] returns EDOESNTEXIST and changes
    nothing when the interrupt has no handler; when the process of the handler is
    gone it returns EDOESNTEXIST and forgets the handler.  Otherwise the frame is on
    the process's own stack and its context is the saved one with only the program
    counter at the handler and the stack pointer below the frame: all other
    registers, the flags and the segments are as they were.  The process is active; if it was not, it goes
    into the ready queue when there is room there, and a full queue stays as it
    is.  No other memory and no other object changes, and the running process's space is
    loaded again. *)
Theorem kernel_execute_interrupt_handler_spec {H W} `{KHeapOk H, AddressSpacesOk W} (s : kst H W) i :
  bst (interrupt_handlers (kernel s)) ->
  (avl_map (interrupt_handlers (kernel s)) !! s32 i = None ->
    kernel_execute_interrupt_handler i s = Ret (EDOESNTEXIST, s)) /\
  (forall ap y, avl_map (interrupt_handlers (kernel s)) !! s32 i = Some ap -> ap <> NULL -> actions (objs s) !! ap = Some y ->
    heights_pos (interrupt_handlers (kernel s)) -> NoDup (addrs (interrupt_handlers (kernel s))) ->
    (forall a, a ∈ addrs (interrupt_handlers (kernel s)) -> a ∈ live (kheap s)) ->
    bst (process_table (kernel s)) -> avl_map (process_table (kernel s)) !! s32 (apid y) = None ->
    exists t h, kernel_execute_interrupt_handler i s =
        Ret (EDOESNTEXIST, KState (set_interrupt_handlers t (kernel s)) h (objs s) (world s)) /\
      avl_map t = delete (s32 i) (avl_map (interrupt_handlers (kernel s)))) /\
  (forall ap y p d c z, signalled s i ap y p d c z ->
    exists s', kernel_execute_interrupt_handler i s = Ret (ENONE, s') /\ handler_entered s s' i y p d c z).
Proof.
  intros Hb. split; [|split].
  - intros Hm. unfold kernel_execute_interrupt_handler. krun. by rewrite avl_get_ok, Hm.
  - intros ap y Hm Hp Ha Hh Hn Hl Hbp Hmp.
    destruct (avl_remove_ok (interrupt_handlers (kernel s)) (s32 i) (kheap s)) as (t & h & E & _ & _ & Tm & _); try done.
    exists t, h. split; [|done]. unfold kernel_execute_interrupt_handler. krun. rewrite avl_get_ok, Hm by done.
    cbn [default from_option Datatypes.id]. rewrite (proj2 (Z.eqb_neq _ _) Hp). krun. rewrite Ha. krun.
    rewrite avl_get_ok, Hmp by done. cbn [default from_option]. change (NULL =? NULL) with true. krun.
    rewrite (on_heap_Ret _ s _ _ E). by krun.
  - apply execute_handler_run.
Qed.

(** Process 1 waits for a message and handles interrupt 33; process 2 runs. *)
Definition demo_action : signal_action_t := Action 1 0x9000 0xA000 77.
Definition demo_signalled : kst demo_heap flat :=
  KState (Kernel_ [] (empty_queue 2) (Nd 16 1 33 96 Leaf Leaf) Leaf (Nd 8 1 1 4160 Leaf Leaf) 4288 3) demo0
    (Objects ∅ {[4160 := set_state PROCESS_REQUESTING demo_p1; 4288 := demo_p2]}
      {[4224 := demo_context; 4352 := demo_context]} ∅ ∅ {[96 := demo_action]}) demo_world.

Lemma demo_signalled_ok :
  signalled demo_signalled 33 96 demo_action 4160 (set_state PROCESS_REQUESTING demo_p1) demo_context demo_p2.
Proof.
  split.
  - split; [unfold bst; simpl; repeat constructor|done].
  - done.
  - by repeat split.
  - split; [|done]. split; [unfold bst; simpl; repeat constructor|done].
  - done.
  - split; [done|]. split; [done|exact demo_context_wf].
  - done.
  - split; [done|]. split; [by split|]. split; [done|]. intros j Hj. cbn [as_byte flat_spaces_ok].
    apply fmap_is_Some. unfold demo_signalled, demo_world. cbn [world flat_bytes]. apply flat_fill_keeps.
    change (page_table (set_state PROCESS_REQUESTING demo_p1)) with 0x1000.
    replace (esp demo_context - 68 + j) with (0x4F00 + (188 + j)) by (change (esp demo_context) with 0x5000; lia).
    apply flat_fill_lookup. left. lia.
  - done.
  - apply (empty_queue_valid 2).
Qed.

Lemma kernel_execute_interrupt_handler_spec_witness :
  kernel_execute_interrupt_handler 34 demo_signalled = Ret (EDOESNTEXIST, demo_signalled) /\
  exists s', kernel_execute_interrupt_handler 33 demo_signalled = Ret (ENONE, s') /\
    state <$> procs (objs s') !! 4160 = Some PROCESS_ACTIVE /\
    holds (world s') 0x1000 0x4FBC (signal_frame demo_context PROCESS_REQUESTING 33 0xA000 77).
Proof.
  destruct (kernel_execute_interrupt_handler_spec demo_signalled 34) as (H1 & _); [unfold bst; simpl; repeat constructor|].
  destruct (kernel_execute_interrupt_handler_spec demo_signalled 33) as (_ & _ & H2); [unfold bst; simpl; repeat constructor|].
  split; [by apply H1|]. destruct (H2 _ _ _ _ _ _ demo_signalled_ok) as (s' & E & [_ P _ _ _ F _]).
  exists s'. split; [exact E|]. split; [by rewrite P|exact F].
Defined.

(** C35: A handler that has returned through its trampoline does not get its program
    back.  [kernel_signal_return] runs with the stack pointer just above the
    trampoline's address and the frame intact; as the cleanup moves the stack
    pointer the wrong way, it takes the process's state from the word [w] below the frame
    and the registers from the trampoline's address on, four words too low: the
    program goes on at the address that was in its register 6, with the flags that were
    the stack pointer of the saved copy, and the trampoline in register 0. *)
Theorem kernel_signal_return_loses_program {H W} `{KHeap H, AddressSpacesOk W} (s : kst H W) d c c0 st i trampoline userdata w :
  running_as s d c -> wf_context c0 -> esp c = esp c0 - 64 -> 72 <= esp c0 -> is_u32 (esp c0) ->
  holds (world s) (as_current (world s)) (esp c0 - 72) (w :: signal_frame c0 st i trampoline userdata) ->
  state_of_code w <> PROCESS_REQUESTING ->
  exists c', kernel_signal_return s = Ret (Returned ENONE, KState (kernel s) (kheap s)
      (set_ctxs (<[ctx d:=c']> (ctxs (objs s)))
        (set_procs (<[active_process (kernel s):=set_state (state_of_code w) d]> (procs (objs s))) (objs s))) (world s)) /\
    get_context_pc c' = get_reg c0 6 /\ cs c' = get_reg c0 5 /\ ss c' = get_reg c0 4 /\ flags c' = esp c0 - 52 /\
    get_reg c' 0 = trampoline /\ get_reg c' 1 = esp c0 - 4 /\ get_reg c' 2 = userdata /\ get_reg c' 3 = state_code st /\
    esp c' = get_reg c0 3.
Proof.
  intros Hr [Hl Hw] He Hb Hu Hh Hst. unfold is_u32 in Hu.
  assert (exists r0 r1 r2 r3 r4 r5 r6 r7, gp_registers c0 = [r0; r1; r2; r3; r4; r5; r6; r7]) as (r0 & r1 & r2 & r3 & r4 & r5 & r6 & r7 & Er).
  { destruct (gp_registers c0) as [|r0 [|r1 [|r2 [|r3 [|r4 [|r5 [|r6 [|r7 [|]]]]]]]]]; try discriminate Hl. by repeat eexists. }
  set (ws := [trampoline; esp c0 - 4; userdata; state_code st; r0; r1; r2; r3; r4; r5; r6; esp c0 - 52]).
  exists (words_context ws). split.
  - apply (signal_return_run s d c w ws); [done|lia|unfold is_u32; lia| |done|done]. rewrite He.
    replace (esp c0 - 64 - 8) with (esp c0 - 72) by lia.
    assert (w :: signal_frame c0 st i trampoline userdata = (w :: ws) ++ [ss c0; cs c0; eip c0; flags c0; i]) as Ef.
    { unfold signal_frame, context_words, set_reg, ws. cbn [gp_registers ss cs eip flags]. rewrite Er. cbn [insert list_insert app].
      by rewrite u32_id by (unfold is_u32; lia). }
    rewrite Ef in Hh. by apply holds_app in Hh as [Hh _].
  - unfold get_reg, esp at 3, get_reg. rewrite Er. by repeat split.
Qed.

(** Process 1 of [demo_signalled] runs its handler, which has come to its end. *)
Definition demo_entered : kst demo_heap flat := ran (kernel_execute_interrupt_handler 33 demo_signalled) demo_signalled.
Definition demo_returning : kst demo_heap flat :=
  KState (set_active_process 4160 (kernel demo_entered)) (kheap demo_entered)
    (set_ctxs (<[4224 := set_reg 7 0x4FC0 demo_context]> (ctxs (objs demo_entered))) (objs demo_entered))
    (Flat 0x1000 (flat_bytes (world demo_entered)) (flat_next (world demo_entered))).

Lemma demo_returning_process : exists d, procs (objs demo_returning) !! 4160 = Some d /\ ctx d = 4224.
Proof. eexists. split; [vm_compute; reflexivity|reflexivity]. Qed.

Lemma demo_returning_frame : holds (world demo_returning) 0x1000 0x4FB8 (0 :: signal_frame demo_context PROCESS_REQUESTING 33 0xA000 77).
Proof. vm_compute. repeat split; discriminate. Qed.

Lemma kernel_signal_return_loses_program_witness : exists s' c',
  kernel_signal_return demo_returning = Ret (Returned ENONE, s') /\ ctxs (objs s') !! 4224 = Some c' /\
  get_context_pc c' = 7 /\ flags c' = 0x4FCC /\ get_reg c' 0 = 0xA000.
Proof.
  destruct demo_returning_process as (d & Hd & Ec).
  destruct (kernel_signal_return_loses_program demo_returning d (set_reg 7 0x4FC0 demo_context) demo_context PROCESS_REQUESTING 33 0xA000 77 0)
    as (c' & E & P1 & _ & _ & P2 & P3 & _).
  - split; [exact Hd|]. split; [discriminate|]. rewrite Ec. split; [discriminate|]. split; [apply lookup_insert_eq|].
    apply wf_context_set_reg, demo_context_wf.
  - exact demo_context_wf.
  - reflexivity.
  - discriminate.
  - by split.
  - exact demo_returning_frame.
  - discriminate.
  - eexists _, c'. split; [exact E|]. cbn [objs ctxs set_ctxs]. rewrite Ec, lookup_insert_eq. split; [reflexivity|].
    split; [exact P1|]. split; [exact P2|exact P3].
Defined.
