(* ===== verification/Paged.v ===== *)
(** The whole system over the real page tables.

    System.v proves its theorems for any address spaces; Isolation.v shows the
    memory manager to be such.  Here the two are put together: the world of the
    kernel is the machine's memory with its page tables ([mm B]), and what a
    reachable state and a step mean is said in translations and physical frames. *)
From S2P Require Import Prelude Status Alloc AvlTree MsgQueue PriorityQueue Paging Mmgr Space Context Kernel Syscalls System Isolation.

Section paged.
Context {H B : Type} `{KHeapOk H} `{BitmapHeapOk B} (spaces : gset Z) (k : Z) (Hk : 1 <= k <= 1023).
Context (uninit kernel_start : Z) (fuel : nat).
Implicit Types s : kst H (mm B).

#[local] Instance paged_ok : AddressSpacesOk (mm B) := mm_spaces_ok spaces k Hk.
#[local] Instance paged_map : AddressSpacesMap (mm B) := mm_spaces_map spaces k Hk.

(** The states of the kernel on this machine. *)
Definition paged_reachable s : Prop := reachable uninit kernel_start fuel s.
Definition paged_step s (e : event) (r : exit Z) s' : Prop := step uninit fuel s e r s'.

(** The physical address an access to [va] in space [t] reaches, for the addresses
    below the kernel.  An access above them by a program is stopped by the user
    bit of the entries there, which the translation of Paging.v leaves out. *)
Definition reaches s (t va : Z) (write : bool) (pa : Z) : Prop :=
  t ∈ spaces /\ user k va /\ translate (view (world s) t) write va = Some pa.

Lemma paged_world s : paged_reachable s -> wf_world spaces k (world s).
Proof. intros [I _]%reachable_inv. apply I. Qed.

(** A space whose bytes did not change has the same writable pages and contents. *)
Lemma byte_kept s s' t va pa : byte_at spaces k (world s') t va = byte_at spaces k (world s) t va ->
  reaches s t va true pa -> exists pa', reaches s' t va true pa' /\ phys_byte (world s') pa' = phys_byte (world s) pa.
Proof.
  intros E (Ht & Hu & Ep). rewrite (byte_at_user spaces k (world s)), Ep in E by done. cbn in E.
  apply byte_at_inv in E as (_ & _ & pa' & Ep' & ->). by exists pa'.
Qed.

End paged.

(** ** Two processes on the machine of Isolation.v *)
Definition paged_fresh : kst demo_heap (mm frame_list) :=
  KState (kernel demo_fresh) (kheap demo_fresh) (objs demo_fresh) (demo_world [16; 17; 18; 19; 20]%positive).
Definition paged_enter (t : Z) (s : kst demo_heap (mm frame_list)) : kst demo_heap (mm frame_list) :=
  KState (kernel s) (kheap s) (objs s) (MM (loaded (mem (world s)) t) (page_map (world s))).
Definition paged_spawn (t : Z) (s : kst demo_heap (mm frame_list)) := kernel_spawn_process demo_start 0x400000 1 t s.
Definition paged_one := ran (paged_spawn 0x1000 paged_fresh) paged_fresh.
Definition paged_two := ran (paged_spawn 0x4000 (paged_enter 0x4000 paged_one)) paged_fresh.
Definition paged_running := ran (kernel_advance_scheduler paged_two) paged_two.
Definition paged_waiting := ran (handle 0 5 demo_receive paged_running) paged_two.
Definition paged_sent := ran (handle 0 5 demo_send paged_waiting) paged_two.

Lemma paged_k : 1 <= 768 <= 1023.
Proof. lia. Qed.

#[local] Instance demo_paged_ok : AddressSpacesOk (mm frame_list) := paged_ok demo_spaces 768 paged_k.
#[local] Instance demo_paged_map : AddressSpacesMap (mm frame_list) := paged_map demo_spaces 768 paged_k.

Lemma paged_stack_page : user 768 (u32 (demo_start - 4096)).
Proof. by split. Qed.

Lemma paged_fresh_world : wf_world demo_spaces 768 (world paged_fresh).
Proof.
  apply demo_world_wf. intros p Hp. rewrite !elem_of_cons in Hp.
  destruct Hp as [->|[->|[->|[->|[->|Hp]]]]]; [done..|]. by apply elem_of_nil in Hp.
Qed.

Lemma paged_booted_one : booted demo_start paged_one.
Proof.
  apply (boot_spawn _ paged_fresh 0x400000 1 0x1000 1).
  - apply boot_fresh. unfold fresh. split_and!; try done; [apply empty_queue_valid|exact paged_fresh_world].
  - by apply demo_space; left.
  - exact paged_stack_page.
  - apply (bool_decide_unpack _). by vm_compute.
  - apply ran_ok. by vm_compute.
Qed.

Lemma paged_booted_two : booted demo_start paged_two.
Proof.
  apply (boot_spawn _ (paged_enter 0x4000 paged_one) 0x400000 1 0x4000 2).
  - apply (boot_load _ paged_one); [exact paged_booted_one|].
    pose proof (booted_inv _ _ paged_booted_one) as [I _ _ _ _].
    destruct (load_run demo_spaces 768 paged_k (world paged_one) 0x4000) as (w & [= <-] & Hw & _); [apply I|by apply demo_space; right|exact Hw].
  - by apply demo_space; right.
  - exact paged_stack_page.
  - apply (bool_decide_unpack _). by vm_compute.
  - apply ran_ok. by vm_compute.
Qed.

Lemma paged_demo_reachable : reachable 0 demo_start 5 paged_running.
Proof.
  apply (reach_boot _ _ _ paged_two 128); [exact paged_booted_two|]. apply ran_ok. by vm_compute.
Qed.

(** The buffer is on the stack page of the space in use. *)
Lemma paged_user_range (s : kst demo_heap (mm frame_list)) : running s ->
  forallb (fun i => bool_decide (is_Some (byte_at demo_spaces 768 (world s) (cr3 (mem (world s))) (demo_buffer_at + Z.of_nat i))))
    (seq 0 32) = true ->
  user_range (world s) (as_current (world s)) demo_buffer_at 32.
Proof.
  intros [I _] Hall. split; [apply I|]. intros i Hi. rewrite forallb_forall in Hall.
  specialize (Hall (Z.to_nat i)). rewrite Z2Nat.id in Hall by lia. eapply bool_decide_eq_true_1. apply Hall, in_seq. lia.
Qed.

Lemma paged_step_receive : step 0 5 paged_running demo_receive (LoadContext 320) paged_waiting.
Proof.
  split; [|apply ran_ok; by vm_compute]. split; [|done]. intros _. apply paged_user_range; [|by vm_compute].
  exact (reachable_inv _ _ _ _ paged_demo_reachable).
Qed.

Lemma paged_step_send : step 0 5 paged_waiting demo_send (Returned 0) paged_sent.
Proof. split; [|apply ran_ok; by vm_compute]. by split. Qed.

(** * Properties *)

(** C3: In every state the system can reach over the real page tables by programs
    that make only [allowed] calls (they map user pages and receive into mapped buffers of
    their own), the processor uses the directory of the active process; through
    the addresses below the kernel, in any space, no access
    reaches a page table, a directory or a free frame, and no frame
    is reached from two pages: the user memories of the processes are disjoint.
    What keeps programs from the addresses above, the user bit of the entries, is not part of
    the statement; and [mmap] of a page in the page-table window, which the code
    accepts, is not [allowed]. *)
Theorem paged_spaces_private {H B} `{KHeapOk H} `{BitmapHeapOk B} spaces k Hk uninit kernel_start fuel (s : kst H (mm B)) :
  paged_reachable spaces k Hk uninit kernel_start fuel s ->
  (exists x, procs (objs s) !! active_process (kernel s) = Some x /\ cr3 (mem (world s)) = page_table x) /\
  (forall t va write pa, reaches spaces k s t va write pa ->
    ~ is_meta spaces (world s) (frame_at pa) /\ (frame_at pa ∉ free_blocks (page_map (world s)))) /\
  (forall t t' va va' write write' pa pa', reaches spaces k s t va write pa -> reaches spaces k s t' va' write' pa' ->
    frame_at pa = frame_at pa' -> t = t' /\ va / 4096 = va' / 4096).
Proof.
  intros R. pose proof (paged_world spaces k Hk uninit kernel_start fuel s R) as Hw. apply reachable_inv in R as [I (x & Hx & Hc)]. split; [by exists x|]. split.
  - intros t va write pa (Ht & Hu & E%translate_readable). by apply (ww_leaf _ _ _ Hw t va).
  - intros t t' va va' write write' pa pa' (Ht & Hu & E%translate_readable) (Ht' & Hu' & E'%translate_readable).
    by apply (ww_private _ _ _ Hw).
Qed.

Lemma paged_spaces_private_witness :
  reaches demo_spaces 768 paged_waiting 0x1000 0xBFFFF100 true 0x10100 /\
  reaches demo_spaces 768 paged_waiting 0x4000 0xBFFFF100 true 0x12100 /\
  ~ is_meta demo_spaces (world paged_waiting) (frame_at 0x10100).
Proof.
  assert (reaches demo_spaces 768 paged_waiting 0x1000 0xBFFFF100 true 0x10100) as R1.
  { split; [by apply demo_space; left|]. split; [by split|]. by vm_compute. }
  split; [exact R1|]. split.
  - split; [by apply demo_space; right|]. split; [by split|]. by vm_compute.
  - destruct (paged_spaces_private demo_spaces 768 paged_k 0 demo_start 5 paged_waiting) as (_ & Hp & _).
    + eapply reach_step; [exact paged_demo_reachable|exact paged_step_receive].
    + apply (Hp _ _ _ _ R1).
Defined.

(** C14: An [allowed] step of the running program, on the real page tables, leaves the
    memory of every other space below the kernel readable and writable where it was and with
    the same contents; the one exception is the 32-byte buffer of a process that the
    step's [send] delivers a message to. *)
Theorem paged_step_isolated {H B} `{KHeapOk H} `{BitmapHeapOk B} spaces k Hk uninit kernel_start fuel (s : kst H (mm B)) e r s' :
  paged_reachable spaces k Hk uninit kernel_start fuel s ->
  paged_step spaces k Hk uninit fuel s e r s' ->
  exists o, (is_Some o -> sends e) /\
    forall t va pa, reaches spaces k s t va true pa -> t <> cr3 (mem (world s)) ->
      (exists pa', reaches spaces k s' t va true pa' /\ phys_byte (world s') pa' = phys_byte (world s) pa) \/
      exists p d, o = Some p /\ procs (objs s) !! p = Some d /\ t = page_table d /\ message_buffer d <= va < message_buffer d + 32.
Proof.
  intros R%reachable_inv St%(step_effect (AddressSpacesMap0 := paged_map spaces k Hk)); [|done].
  destruct (effect_isolated e s r s' R St) as (_ & _ & o & Iso & Ho). exists o. split; [done|].
  intros t va pa Hr Hne. destruct (is_memory _ _ _ Iso t va) as [E|[?|?]]; [left; by eapply byte_kept|done|by right].
Qed.

Lemma paged_step_isolated_witness : exists o, (is_Some o -> sends demo_send) /\
  forall t va pa, reaches demo_spaces 768 paged_waiting t va true pa -> t <> cr3 (mem (world paged_waiting)) ->
    (exists pa', reaches demo_spaces 768 paged_sent t va true pa' /\ phys_byte (world paged_sent) pa' = phys_byte (world paged_waiting) pa) \/
    exists p d, o = Some p /\ procs (objs paged_waiting) !! p = Some d /\ t = page_table d /\ message_buffer d <= va < message_buffer d + 32.
Proof.
  apply (paged_step_isolated demo_spaces 768 paged_k 0 demo_start 5 paged_waiting demo_send (Returned 0) paged_sent).
  - eapply reach_step; [exact paged_demo_reachable|exact paged_step_receive].
  - exact paged_step_send.
Defined.
