(* ===== verification/Console.v ===== *)
(** The console (src/x86/putc.c): the VGA text screen and the serial port.

    The screen is the page of 2048 cells that [initialize_screen] maps at the
    video memory; the first 2000 are visible.  The serial port is outside the
    repository: what reading its status register will give is a list in the
    state, and [putchar] waits for ever when no reading in it shows the
    transmitter empty.  Everything sent to the port is recorded. *)
From S2P Require Import Prelude.

(** [struct cell_t] *)
Record cell_t := Cell { glyph : Z; fg : Z; bg : Z }.

Definition tab_width : Z := 4.
Definition line_width : Z := 80.
Definition line_count : Z := 25.
Definition screen_cells : nat := Z.to_nat 2048.
(** The visible cells, and those of all lines but the last. *)
Definition visible : nat := Z.to_nat 2000.
Definition kept : nat := Z.to_nat 1920.
Definition a_line : nat := Z.to_nat 80.

Definition COM1 : Z := 0x3f8.
(** Characters. *)
Definition c_newline : Z := 10.
Definition c_tab : Z := 9.
Definition c_return : Z := 13.
Definition c_space : Z := 32.

Record console := Console {
  cursor : Z;
  screen : list cell_t;
  line_status : list Z;
  sent : list (Z * Z)
}.

Definition set_cursor v c := Console v (screen c) (line_status c) (sent c).
Definition set_screen v c := Console (cursor c) v (line_status c) (sent c).
Definition set_glyph v x := Cell v (fg x) (bg x).

(** ** Operations *)
Definition outb (port c : Z) : M console unit :=
  modify (fun s => Console (cursor s) (screen s) (line_status s) (sent s ++ [(port, c mod 256)])).

(** [while((inb(COM1 + 5) & 0x20) == 0);] *)
Fixpoint wait_readings (l : list Z) : outcome (list Z) :=
  match l with
  | [] => OutOfFuel
  | r :: l => if Z.land r 0x20 =? 0 then wait_readings l else Ret l
  end.
Definition wait_transmitter : M console unit := fun s =>
  l ← wait_readings (line_status s); Ret (tt, Console (cursor s) (screen s) l (sent s)).

Definition upd_cursor (f : Z -> Z) : M console unit := modify (fun s => set_cursor (u32 (f (cursor s))) s).

(** [screen[cursor].c = (char) c] *)
Definition put_glyph (i c : Z) : M console unit := fun s =>
  x ← array_get (screen s) (Z.to_nat i);
  l ← array_set (screen s) (Z.to_nat i) (set_glyph (c mod 256) x);
  Ret (tt, set_screen l s).

(** The loop over the [line_count * line_width] visible cells. *)
Fixpoint scroll_from (n i : nat) (l : list cell_t) : outcome (list cell_t) :=
  match n with
  | O => Ret l
  | S n =>
    l ← (if decide (Z.of_nat i < (line_count - 1) * line_width) then
           x ← array_get l (i + Z.to_nat line_width); array_set l i x
         else x ← array_get l i; array_set l i (set_glyph c_space x));
    scroll_from n (S i) l
  end.

(** The [switch] of [putchar]. *)
Definition putchar_draw (c : Z) : M console unit :=
  if c =? c_newline then
    _ ← upd_cursor (fun k => k + line_width);
    _ ← upd_cursor (fun k => k - k mod line_width);
    outb COM1 c_return
  else if c =? c_tab then
    _ ← upd_cursor (fun k => k + tab_width);
    upd_cursor (fun k => k - k mod tab_width)
  else if c =? c_return then
    _ ← upd_cursor (fun k => k - (line_width - 1));
    upd_cursor (fun k => k + (line_width - k mod line_width))
  else
    k ← gets cursor;
    _ ← put_glyph k c;
    upd_cursor (fun k => k + 1).

(** Scrolling, when the cursor has left the screen. *)
Definition putchar_scroll : M console unit :=
  k ← gets cursor;
  if line_count * line_width <=? k then
    l ← gets screen;
    l ← liftO (scroll_from (Z.to_nat (line_count * line_width)) 0 l);
    _ ← modify (set_screen l);
    upd_cursor (fun k => k - line_width)
  else mret tt.

Definition putchar (c : Z) : M console Z :=
  _ ← wait_transmitter;
  _ ← outb COM1 c;
  _ ← putchar_draw c;
  _ ← putchar_scroll;
  mret c.

Fixpoint puts (str : list Z) : M console Z :=
  match str with [] => mret 0 | c :: str => _ ← putchar c; puts str end.

(** The serial set-up of [initialize_screen], after the video page was mapped
    with the status [mapped]. *)
Definition initialize_screen (mapped : Z) : M console Z :=
  if negb (mapped =? 0) then mret mapped
  else
    _ ← outb (COM1 + 1) 0x00; _ ← outb (COM1 + 3) 0x80; _ ← outb (COM1 + 0) 0x03; _ ← outb (COM1 + 1) 0x00;
    _ ← outb (COM1 + 3) 0x03; _ ← outb (COM1 + 2) 0xC7; _ ← outb (COM1 + 4) 0x0B; _ ← outb (COM1 + 4) 0x0F;
    mret mapped.

(** ** Reference: where a character goes

    [advance k c] is the cursor after character [c] at [k], before scrolling;
    a carriage return goes to the start of the line, except from the last
    column. *)
Definition advance (k c : Z) : Z :=
  if c =? c_newline then (k / 80 + 1) * 80
  else if c =? c_tab then (k / 4 + 1) * 4
  else if c =? c_return then if k mod 80 =? 79 then k + 1 else k / 80 * 80
  else k + 1.

Definition draws (c : Z) : bool := negb ((c =? c_newline) || (c =? c_tab) || (c =? c_return)).

Definition drawn (k c : Z) (l : list cell_t) : list cell_t :=
  if draws c then alter (set_glyph (c mod 256)) (Z.to_nat k) l else l.

(** One line up, the last line blank (colours stay). *)
Definition scrolled (l : list cell_t) : list cell_t :=
  take kept (drop a_line l) ++ map (set_glyph c_space) (take a_line (drop kept l)) ++ drop visible l.

Definition screen_ok (s : console) : Prop := length (screen s) = screen_cells /\ 0 <= cursor s < 2000.

(** Where a carriage return is harmless. *)
Definition return_ok (k c : Z) : Prop := c = c_return -> 79 <= k.

(** ** Lemmas *)
Lemma alter_insert_eq_Some {A} (l : list A) (f : A -> A) (i : nat) x :
  l !! i = Some x -> <[i:=f x]> l = alter f i l.
Proof.
  intros Hx. apply list_eq. intros j. destruct (decide (i = j)) as [<-|Hne].
  - rewrite list_lookup_alter_eq, list_lookup_insert_eq by (by eapply lookup_lt_Some). by rewrite Hx.
  - by rewrite list_lookup_alter_ne, list_lookup_insert_ne.
Qed.

Ltac cells := unfold screen_cells, visible, kept, a_line, line_count, line_width in *; lia.

Definition blank : cell_t -> cell_t := set_glyph c_space.

Lemma scroll_from_ok n : forall i l, (i + n = visible)%nat -> length l = screen_cells ->
  exists l', scroll_from n i l = Ret l' /\ length l' = screen_cells /\
    forall j, l' !! j =
      if decide (i <= j < visible)%nat then if decide (j < kept)%nat then l !! (j + a_line)%nat else blank <$> l !! j
      else l !! j.
Proof.
  induction n as [|n IH]; intros i l Hn Hl; cbn [scroll_from].
  { exists l. split; [done|]. split; [done|]. intros j. rewrite decide_False by cells. done. }
  assert (exists x, (if decide (Z.of_nat i < (line_count - 1) * line_width) then
      x ← array_get l (i + Z.to_nat line_width); array_set l i x
    else x ← array_get l i; array_set l i (set_glyph c_space x)) = Ret (<[i:=x]> l) /\
    Some x = if decide (i < kept)%nat then l !! (i + a_line)%nat else blank <$> l !! i) as (x & E & Hx).
  { unfold line_count, line_width. change (Z.to_nat 80) with a_line.
    destruct (decide (i < kept)%nat) as [Hlt|Hge].
    - rewrite decide_True by cells. destruct (lookup_lt_is_Some_2 l (i + a_line)) as [x Hx]; [cells|].
      exists x. rewrite (array_get_Some _ _ _ Hx). ostep. rewrite array_set_lt by cells. done.
    - rewrite decide_False by cells. destruct (lookup_lt_is_Some_2 l i) as [x Hx]; [cells|].
      exists (blank x). rewrite (array_get_Some _ _ _ Hx). ostep. rewrite array_set_lt, Hx by cells. done. }
  rewrite E. ostep. destruct (IH (S i) (<[i:=x]> l)) as (l' & E' & Hl' & Hj); [cells|rewrite length_insert; exact Hl|].
  exists l'. split; [exact E'|]. split; [exact Hl'|]. clear E E' IH. intros j. rewrite Hj.
  destruct (decide (i = j)) as [<-|Hne].
  - rewrite decide_False by cells. rewrite list_lookup_insert_eq by cells. rewrite (decide_True (P := (i <= i < visible)%nat)) by cells. exact Hx.
  - rewrite (list_lookup_insert_ne l i j) by done.
    destruct (decide (i <= j < visible)%nat), (decide (S i <= j < visible)%nat); try cells; [|reflexivity].
    destruct (decide (j < kept)%nat); [|reflexivity]. rewrite list_lookup_insert_ne by cells. reflexivity.
Qed.

Lemma scrolled_lookup l j : length l = screen_cells ->
  scrolled l !! j =
    if decide (j < visible)%nat then if decide (j < kept)%nat then l !! (j + a_line)%nat else blank <$> l !! j
    else l !! j.
Proof.
  intros Hl.  unfold scrolled.
  assert (length (take kept (drop a_line l)) = kept) as L1 by (rewrite length_take, length_drop; cells).
  assert (length (map (set_glyph c_space) (take a_line (drop kept l))) = a_line) as L2
    by (rewrite length_map, length_take, length_drop; cells).
  destruct (decide (j < kept)%nat) as [Hj|Hj].
  - rewrite decide_True by cells. rewrite lookup_app_l by cells.
    rewrite lookup_take_lt by cells. rewrite lookup_drop. f_equal. cells.
  - rewrite lookup_app_r by cells. rewrite L1. case_decide as Hj2.
    + rewrite lookup_app_l by cells. rewrite list_lookup_fmap.
      rewrite lookup_take_lt by cells. rewrite lookup_drop. unfold blank. repeat f_equal. cells.
    + rewrite lookup_app_r by cells. rewrite L2, lookup_drop. f_equal. cells.
Qed.

Lemma scroll_ok l : length l = screen_cells ->
  scroll_from (Z.to_nat (line_count * line_width)) 0 l = Ret (scrolled l).
Proof.
  intros Hl. change (Z.to_nat (line_count * line_width)) with visible.
  destruct (scroll_from_ok visible 0 l eq_refl Hl) as (l' & E & Hl' & Hj). rewrite E. f_equal.
  apply list_eq. intros j. rewrite Hj, scrolled_lookup by done.
  destruct (decide (j < visible)%nat); [by rewrite decide_True by cells|by rewrite decide_False by cells].
Qed.

(** The port is ready after some readings. *)
Definition ready (l : list Z) (l' : list Z) : Prop := wait_readings l = Ret l'.

Lemma advance_range k c : 0 <= k < 2000 -> 0 <= advance k c <= 2000.
Proof.
  intros Hk. unfold advance. destruct (c =? c_newline), (c =? c_tab), (c =? c_return), (k mod 80 =? 79);
    Z.div_mod_to_equations; lia.
Qed.

(** The cursor arithmetic of a special character, with its wrap-around. *)
Lemma cursor_newline k : 0 <= k < 2000 ->
  u32 (u32 (k + line_width) - u32 (k + line_width) mod line_width) = advance k c_newline.
Proof.
  intros Hk. unfold advance, line_width. rewrite Z.eqb_refl.
  rewrite !(u32_id (k + 80)) by (unfold is_u32; lia). rewrite u32_id; unfold is_u32; Z.div_mod_to_equations; lia.
Qed.

Lemma cursor_tab k : 0 <= k < 2000 ->
  u32 (u32 (k + tab_width) - u32 (k + tab_width) mod tab_width) = advance k c_tab.
Proof.
  intros Hk. unfold advance, tab_width. change (c_tab =? c_newline) with false. rewrite Z.eqb_refl. cbv iota.
  rewrite !(u32_id (k + 4)) by (unfold is_u32; lia). rewrite u32_id; unfold is_u32; Z.div_mod_to_equations; lia.
Qed.

Lemma cursor_return k : 79 <= k < 2000 ->
  u32 (u32 (k - (line_width - 1)) + (line_width - u32 (k - (line_width - 1)) mod line_width)) = advance k c_return.
Proof.
  intros Hk. unfold advance, line_width. change (c_return =? c_newline) with false.
  change (c_return =? c_tab) with false. rewrite Z.eqb_refl. cbv iota.
  rewrite !(u32_id (k - (80 - 1))) by (unfold is_u32; lia).
  destruct (Z.eqb_spec (k mod 80) 79); rewrite u32_id; unfold is_u32; Z.div_mod_to_equations; lia.
Qed.

(** The end of [putchar]: scroll when the cursor is past the screen. *)
Definition settled (k : Z) (l : list cell_t) : Z * list cell_t :=
  if decide (2000 <= k) then (k - 80, scrolled l) else (k, l).

Lemma settle_run k l st out : 0 <= k <= 2000 -> length l = screen_cells ->
  putchar_scroll (Console k l st out) = Ret (tt, Console (settled k l).1 (settled k l).2 st out).
Proof.
  intros Hk Hl. unfold putchar_scroll, gets, liftO, mret, M_mret, mbind, M_mbind. ostep. cbn [cursor].
  unfold settled. change (line_count * line_width <=? k) with (2000 <=? k).
  destruct (Z.leb_spec 2000 k) as [Hge|Hlt].
  - rewrite decide_True by exact Hge. cbn [screen]. rewrite (scroll_ok l Hl). ostep.
    unfold upd_cursor, modify, set_screen, set_cursor. ostep. cbn [cursor screen line_status sent fst snd].
    unfold line_width. rewrite u32_id by (unfold is_u32; lia). reflexivity.
  - rewrite decide_False by lia. reflexivity.
Qed.

Definition sent_for (c : Z) : list (Z * Z) :=
  (COM1, c mod 256) :: (if c =? c_newline then [(COM1, c_return)] else []).

Lemma draw_run k l st out c : 0 <= k < 2000 -> length l = screen_cells -> return_ok k c ->
  putchar_draw c (Console k l st out) =
    Ret (tt, Console (advance k c) (drawn k c l) st (out ++ if c =? c_newline then [(COM1, c_return)] else [])).
Proof.
  intros Hk Hl Hret. unfold putchar_draw, drawn, draws.
  destruct (Z.eqb_spec c c_newline) as [->|H1]; [|destruct (Z.eqb_spec c c_tab) as [->|H2];
    [|destruct (Z.eqb_spec c c_return) as [->|H3]]]; cbn [negb orb];
    unfold gets, put_glyph, upd_cursor, outb, modify, set_cursor, mbind, M_mbind; ostep;
    cbn [cursor screen line_status sent].
  - rewrite cursor_newline by exact Hk. reflexivity.
  - rewrite cursor_tab by exact Hk. by rewrite app_nil_r.
  - rewrite cursor_return by (specialize (Hret eq_refl); lia). by rewrite app_nil_r.
  - destruct (lookup_lt_is_Some_2 l (Z.to_nat k)) as [x Hx]; [cells|].
    rewrite (array_get_Some _ _ _ Hx). ostep. rewrite array_set_lt by (by eapply lookup_lt_Some). ostep.
    unfold set_screen. cbn [cursor screen line_status sent].
    rewrite (alter_insert_eq_Some l _ _ _ Hx). unfold advance.
    rewrite (proj2 (Z.eqb_neq _ _) H1), (proj2 (Z.eqb_neq _ _) H2), (proj2 (Z.eqb_neq _ _) H3).
    rewrite u32_id by (unfold is_u32; lia). by rewrite app_nil_r.
Qed.

(** [putchar] where it is well-behaved. *)
Definition after_putchar (s : console) (c : Z) (st : list Z) : console :=
  let '(k, l) := settled (advance (cursor s) c) (drawn (cursor s) c (screen s)) in
  Console k l st (sent s ++ sent_for c).

Lemma putchar_run s c st : screen_ok s -> ready (line_status s) st -> return_ok (cursor s) c ->
  putchar c s = Ret (c, after_putchar s c st).
Proof.
  intros [Hl Hk] Hr Hret. pose proof (advance_range (cursor s) c Hk) as Ha.
  destruct s as [k l st0 out]. cbn [cursor screen line_status sent] in *.
  unfold after_putchar, putchar, wait_transmitter, outb, modify, sent_for, mbind, M_mbind. ostep.
  cbn [cursor screen line_status sent]. unfold ready in Hr. rewrite Hr. ostep.
  cbn [cursor screen line_status sent]. rewrite (draw_run k l) by done. ostep.
  rewrite settle_run; [|exact Ha|unfold drawn; destruct (draws c); [by rewrite length_alter|done]].
  ostep. rewrite <- app_assoc. by destruct (settled _ _).
Qed.

(** The screen after a character still has the cursor on it. *)
Lemma after_putchar_ok s c st : screen_ok s -> screen_ok (after_putchar s c st).
Proof.
  intros [Hl Hk]. pose proof (advance_range (cursor s) c Hk) as Ha.
  unfold after_putchar, settled, screen_ok.
  assert (length (drawn (cursor s) c (screen s)) = screen_cells) as Hd
    by (unfold drawn; destruct (draws c); [by rewrite length_alter|done]).
  case_decide; cbn [cursor screen]; (split; [|lia]); [|exact Hd].
  unfold scrolled. rewrite !length_app, length_map, !length_take, !length_drop, Hd. cells.
Qed.

(** A string without carriage returns, with a ready port before each character. *)
Lemma puts_run str : forall s, screen_ok s -> c_return ∉ str ->
  (forall c, c ∈ line_status s -> Z.land c 0x20 <> 0) -> (length str <= length (line_status s))%nat ->
  exists s', puts str s = Ret (0, s') /\ screen_ok s' /\ sent s' = sent s ++ concat (map sent_for str) /\
    line_status s' = drop (length str) (line_status s).
Proof.
  induction str as [|c str IH]; intros s Hs Hc Hready Hlen; cbn [puts].
  { exists s. split; [done|]. split; [done|]. split; [by rewrite app_nil_r|done]. }
  apply not_elem_of_cons in Hc as [Hc1 Hc2].
  destruct (line_status s) as [|r st] eqn:El; [cbn in Hlen; lia|].
  assert (ready (line_status s) st) as Hr.
  { unfold ready. rewrite El. cbn [wait_readings]. rewrite (proj2 (Z.eqb_neq _ _)); [done|].
    apply Hready, list_elem_of_here. }
  unfold mbind, M_mbind. rewrite (putchar_run s c st Hs Hr) by (intros ->; done). ostep.
  destruct (IH (after_putchar s c st)) as (s' & E & Hs' & Hsent & Hst).
  - by apply after_putchar_ok.
  - done.
  - unfold after_putchar. destruct (settled _ _). cbn [line_status]. intros x Hx. apply Hready. by apply list_elem_of_further.
  - unfold after_putchar. destruct (settled _ _). cbn [line_status length] in *. lia.
  - exists s'. split; [exact E|]. split; [exact Hs'|]. rewrite Hsent, Hst.
    unfold after_putchar. destruct (settled _ _). cbn [sent line_status length drop map concat].
    by rewrite <- app_assoc.
Qed.

(** * Properties *)

(** [putchar] with the cursor on the screen, a ready port and no carriage
    return in the first line: the character goes to the serial port (a newline
    with a carriage return after it); a printable one is drawn at the cursor,
    which moves on, to the next tab stop or to a new line; when that leaves the
    25th line, the text moves up one line and the last line is blanked, so the
    cursor is on the screen again. *)
Theorem putchar_spec s c st :
  screen_ok s -> ready (line_status s) st -> return_ok (cursor s) c ->
  exists s', putchar c s = Ret (c, s') /\ screen_ok s' /\ line_status s' = st /\
    sent s' = sent s ++ sent_for c /\
    (if decide (advance (cursor s) c < 2000)
     then cursor s' = advance (cursor s) c /\ screen s' = drawn (cursor s) c (screen s)
     else cursor s' = 1920 /\ screen s' = scrolled (drawn (cursor s) c (screen s))).
Proof.
  intros Hs Hr Hc. exists (after_putchar s c st). split; [by apply putchar_run|].
  split; [by apply after_putchar_ok|]. pose proof (advance_range (cursor s) c (proj2 Hs)) as Ha.
  unfold after_putchar, settled. destruct (decide (2000 <= advance (cursor s) c)) as [H2|H2].
  - rewrite decide_False by lia. cbn [line_status sent cursor screen]. split_and!; [done..|lia|done].
  - rewrite decide_True by lia. done.
Qed.

Definition demo_console : console := Console 1999 (replicate screen_cells (Cell 0 7 0)) [0x20; 0x60] [].

Lemma demo_console_ok : screen_ok demo_console.
Proof. split; [apply length_replicate|cbn; lia]. Qed.

Lemma putchar_spec_witness : exists s', putchar 65 demo_console = Ret (65, s') /\ cursor s' = 1920.
Proof.
  destruct (putchar_spec demo_console 65 [0x60] demo_console_ok) as (s' & E & _ & _ & _ & Hc);
    [reflexivity|discriminate|].
  exists s'. split; [exact E|]. exact (proj1 Hc).
Defined.

(** A carriage return in the first 63 columns of the first line takes the
    cursor below zero: the subtraction wraps, the comparison with the screen's
    end then scrolls, and the next printable character is written far outside
    the screen array. *)
Theorem carriage_return_first_line s c st1 st2 :
  screen_ok s -> cursor s < 63 -> ready (line_status s) st1 -> ready st1 st2 -> draws c = true ->
  exists s', putchar c_return s = Ret (c_return, s') /\ cursor s' = 2 ^ 32 - 96 /\ putchar c s' = Fault.
Proof.
  intros [Hl Hk] Hlt Hr1 Hr2 Hd. destruct s as [k l st0 out]. cbn [cursor screen line_status sent] in *.
  assert (u32 (u32 (k - (line_width - 1)) + (line_width - u32 (k - (line_width - 1)) mod line_width)) = 2 ^ 32 - 16) as Ek.
  { unfold line_width. replace (u32 (k - (80 - 1))) with (2 ^ 32 - 79 + k).
    - replace ((2 ^ 32 - 79 + k) mod 80) with (k + 17) by (Z.div_mod_to_equations; lia).
      rewrite u32_id; unfold is_u32; lia.
    - unfold u32. Z.div_mod_to_equations. lia. }
  eexists. split; [|split].
  - unfold putchar, putchar_draw, wait_transmitter, outb, upd_cursor, modify, set_cursor, mbind, M_mbind. ostep.
    cbn [cursor screen line_status sent]. unfold ready in Hr1. rewrite Hr1. ostep.
    change (c_return =? c_newline) with false. change (c_return =? c_tab) with false.
    change (c_return =? c_return) with true. cbv iota. ostep. cbn [cursor screen line_status sent].
    rewrite Ek. unfold putchar_scroll, gets, liftO, modify, mret, M_mret, mbind, M_mbind. ostep. cbn [cursor].
    change (line_count * line_width <=? 2 ^ 32 - 16) with true. cbv iota. cbn [screen]. rewrite (scroll_ok l Hl). ostep.
    unfold upd_cursor, modify, set_screen, set_cursor. ostep. reflexivity.
  - reflexivity.
  - cbn [cursor screen line_status sent]. change (u32 (2 ^ 32 - 16 - line_width)) with (2 ^ 32 - 96).
    unfold draws in Hd. apply negb_true_iff in Hd. apply orb_false_iff in Hd as [Hd H3].
    apply orb_false_iff in Hd as [H1 H2].
    unfold putchar, putchar_draw, wait_transmitter, outb, modify, mbind, M_mbind. ostep.
    cbn [cursor screen line_status sent]. unfold ready in Hr2. rewrite Hr2. ostep.
    rewrite H1, H2, H3. unfold gets, put_glyph. ostep. cbn [cursor screen].
    unfold array_get. rewrite lookup_ge_None_2; [reflexivity|].
    unfold scrolled. rewrite !length_app, length_map, !length_take, !length_drop. cells.
Qed.

Definition fresh_console : console := Console 0 (replicate screen_cells (Cell 0 7 0)) [0x20; 0x20] [].

Lemma carriage_return_first_line_witness : exists s',
  putchar c_return fresh_console = Ret (c_return, s') /\ putchar 65 s' = Fault.
Proof.
  destruct (carriage_return_first_line fresh_console 65 [0x20] []) as (s' & E & _ & F);
    [split; [apply length_replicate|cbn; lia]|cbn; lia|reflexivity|reflexivity|reflexivity|].
  exists s'. split; [exact E|exact F].
Defined.

(** [puts] prints a string without carriage returns: all of it reaches the
    serial port, in order, and the cursor stays on the screen. *)
Theorem puts_spec s str :
  screen_ok s -> c_return ∉ str ->
  (forall c, c ∈ line_status s -> Z.land c 0x20 <> 0) -> (length str <= length (line_status s))%nat ->
  exists s', puts str s = Ret (0, s') /\ screen_ok s' /\ sent s' = sent s ++ concat (map sent_for str).
Proof.
  intros Hs Hc Hr Hl. destruct (puts_run str s Hs Hc Hr Hl) as (s' & E & Hs' & Hsent & _). by exists s'.
Qed.

Lemma puts_spec_witness : exists s',
  puts [72; 10] demo_console = Ret (0, s') /\ sent s' = [(COM1, 72); (COM1, 10); (COM1, 13)].
Proof.
  destruct (puts_spec demo_console [72; 10] demo_console_ok) as (s' & E & _ & S);
    [unfold c_return; set_solver| |cbn; lia|].
  { intros c Hc. cbn [demo_console line_status] in Hc. apply elem_of_cons in Hc as [->|Hc]; [discriminate|].
    apply list_elem_of_singleton in Hc as ->. discriminate. }
  exists s'. split; [exact E|exact S].
Defined.
