(* ===== verification/Stdio.v ===== *)
(** Formatted output (src/stdio.c): [itoa] and [printf] over the console.

    A format is its characters before the terminating zero; reading past the
    zero, a missing or mistyped variable argument, and the overflow of negating
    the least [int] are undefined behaviour.  [itoa] writes from the end of a
    static buffer of 65 bytes downwards; the recursion is on the bytes left. *)
From Stdlib Require Import Ascii.
From S2P Require Import Prelude Console.

(** The characters of a string constant; a line ends with [eol]. *)
Definition text (s : string) : list Z := map (fun c => Z.of_N (N_of_ascii c)) (String.list_ascii_of_string s).
Definition eol : list Z := [c_newline].

(** The characters [printf] knows. *)
Definition c_percent : Z := 37.
Definition c_0 : Z := 48.
Definition c_9 : Z := 57.
Definition c_minus : Z := 45.
Definition FORMAT_PADDING : Z := 48.
Definition FORMAT_SIGNED_DECIMAL : Z := 105.
Definition FORMAT_UNSIGNED_DECIMAL : Z := 117.
Definition FORMAT_UNSIGNED_OCTAL : Z := 111.
Definition FORMAT_UNSIGNED_HEX : Z := 120.
Definition FORMAT_STRING : Z := 115.
Definition FORMAT_PERCENT : Z := 37.

(** ["0123456789abcdef"] *)
Definition digits : list Z := [48; 49; 50; 51; 52; 53; 54; 55; 56; 57; 97; 98; 99; 100; 101; 102].

(** The [do] loop: [room] bytes are free below [s], [acc] is the text at [s]. *)
Fixpoint itoa_from (room : nat) (n base width count : Z) (acc : list Z) : outcome (list Z) :=
  match room with
  | O => Fault
  | S room =>
    d ← array_get digits (Z.to_nat (n mod base));
    if (u32 (count + 1) <? width) || negb (n / base =? 0)
    then itoa_from room (n / base) base width (u32 (count + 1)) (d :: acc)
    else Ret (d :: acc)
  end.

(** [None] is the NULL for a base out of range. *)
Definition itoa (n base width : Z) : outcome (option (list Z)) :=
  if (base <? 2) || (16 <? base) then Ret None
  else s ← itoa_from 64 n base width 0 []; Ret (Some s).

(** Variable arguments: words and strings. *)
Inductive arg_t := AInt (n : Z) | AStr (s : list Z).

Definition va_int (args : list arg_t) : M console (Z * list arg_t) :=
  match args with AInt n :: args => mret (n, args) | _ => fault end.
Definition va_str (args : list arg_t) : M console (list Z * list arg_t) :=
  match args with AStr s :: args => mret (s, args) | _ => fault end.

(** [puts(itoa(n, base, width))] *)
Definition puts_itoa (n base width : Z) : M console Z :=
  s ← liftO (itoa n base width);
  match s with Some s => puts s | None => fault end.

(** The digits of the field width; the rest of the format. *)
Fixpoint scan_width (fmt : list Z) (width : Z) : Z * list Z :=
  match fmt with
  | c :: rest =>
    if (c_0 <=? c) && (c <=? c_9) then scan_width rest (u32 (u32 (width * 10 + c) - c_0)) else (width, fmt)
  | [] => (width, fmt)
  end.

(** The conversions; %o falls through to the code of %x. *)
Definition convert (c width : Z) (args : list arg_t) : M console (list arg_t) :=
  if c =? FORMAT_SIGNED_DECIMAL then
    '(w, args) ← va_int args;
    let n := s32 w in
    n ← (if n <? 0 then
           _ ← putchar c_minus;
           if n =? - 2 ^ 31 then fault else mret (n * -1)
         else mret n);
    _ ← puts_itoa (u32 n) 10 width; mret args
  else if c =? FORMAT_UNSIGNED_DECIMAL then
    '(n, args) ← va_int args; _ ← puts_itoa (u32 n) 10 width; mret args
  else if c =? FORMAT_UNSIGNED_OCTAL then
    '(n, args) ← va_int args;
    _ ← puts_itoa (u32 n) 8 width;
    '(n, args) ← va_int args; _ ← puts_itoa (u32 n) 16 width; mret args
  else if c =? FORMAT_UNSIGNED_HEX then
    '(n, args) ← va_int args; _ ← puts_itoa (u32 n) 16 width; mret args
  else if c =? FORMAT_STRING then
    '(s, args) ← va_str args; _ ← puts s; mret args
  else if c =? FORMAT_PERCENT then
    _ ← putchar c_percent; mret args
  else mret args.

(** The loop of [printf]; every round consumes a character of the format. *)
Fixpoint printf_from (fuel : nat) (fmt : list Z) (args : list arg_t) : M console unit :=
  match fuel with
  | O => fun _ => OutOfFuel
  | S fuel =>
    match fmt with
    | [] => mret tt
    | c :: rest =>
      if c =? c_percent then
        let rest := match rest with c' :: r => if c' =? FORMAT_PADDING then r else rest | [] => rest end in
        let '(width, rest) := scan_width rest 0 in
        match rest with
        | [] => _ ← convert 0 width args; fault
        | k :: rest => args ← convert k width args; printf_from fuel rest args
        end
      else _ ← putchar c; printf_from fuel rest args
    end
  end.

Definition printf (fmt : list Z) (args : list arg_t) : M console Z :=
  _ ← printf_from (S (length fmt)) fmt args; mret 0.

(** ** Reference: positional notation *)

(** The value of a digit character. *)
Definition digit_value (c : Z) : Z := if c <? 58 then c - 48 else c - 87.
Definition value_of (base : Z) (s : list Z) : Z := fold_left (fun v c => v * base + digit_value c) s 0.
Definition is_digit (base c : Z) : Prop := c ∈ digits /\ 0 <= digit_value c < base.

(** [s] is [n] in base [base], zero-padded to [width] digits and otherwise
    without leading zeros. *)
Definition numeral (base width n : Z) (s : list Z) : Prop :=
  Forall (is_digit base) s /\ value_of base s = n /\
  1 <= Z.of_nat (length s) /\ width <= Z.of_nat (length s) /\
  (Z.of_nat (length s) = Z.max 1 width \/ base ^ (Z.of_nat (length s) - 1) <= n).

(** ** Lemmas on [itoa] *)
Lemma digits_lookup m : 0 <= m < 16 ->
  exists d, digits !! Z.to_nat m = Some d /\ digit_value d = m /\ d ∈ digits.
Proof.
  intros Hm. destruct (lookup_lt_is_Some_2 digits (Z.to_nat m)) as [d Hd]; [cbn; lia|].
  exists d. split; [exact Hd|]. split; [|by eapply list_elem_of_lookup_2].
  assert (m = Z.of_nat (Z.to_nat m)) as Em by lia. revert Hd. rewrite Em, Nat2Z.id.
  generalize (Z.to_nat m). intros i. clear.
  do 16 (destruct i as [|i]; [intros [= <-]; reflexivity|]). discriminate.
Qed.

Lemma value_of_snoc base s d : value_of base (s ++ [d]) = value_of base s * base + digit_value d.
Proof. unfold value_of. by rewrite fold_left_app. Qed.

Lemma itoa_from_ok base width room : 2 <= base <= 16 -> 0 <= width < 2 ^ 32 -> forall n count acc,
  0 <= n < base ^ Z.of_nat room -> 0 <= count -> width <= count + Z.of_nat room -> count + Z.of_nat room < 2 ^ 32 ->
  (0 < room)%nat ->
  exists s, itoa_from room n base width count acc = Ret (s ++ acc) /\
    Forall (is_digit base) s /\ value_of base s = n /\
    1 <= Z.of_nat (length s) /\ width <= count + Z.of_nat (length s) /\
    (count + Z.of_nat (length s) = Z.max (count + 1) width \/ base ^ (Z.of_nat (length s) - 1) <= n).
Proof.
  intros Hb Hw. induction room as [|room IH]; intros n count acc Hn Hc Hroom Hmax Hpos; [lia|].
  pose proof (Z.mod_pos_bound n base ltac:(lia)) as Hmod.
  destruct (digits_lookup (n mod base) ltac:(lia)) as (d & Hd & Hv & Hin).
  assert (is_digit base d) as Hdig by (split; [exact Hin|lia]).
  pose proof (Z.div_mod n base ltac:(lia)) as Hdm.
  cbn [itoa_from]. rewrite (array_get_Some _ _ _ Hd). ostep. rewrite (u32_id (count + 1)) by (unfold is_u32; lia).
  destruct (((count + 1 <? width) || negb (n / base =? 0))) eqn:Eb.
  - assert (0 < room)%nat as Hr.
    { apply orb_true_iff in Eb as [Eb|Eb]; [lia|]. apply negb_true_iff, Z.eqb_neq in Eb.
      destruct room; [|lia]. exfalso. apply Eb. apply Z.div_small. change (Z.of_nat 1) with 1 in Hn. lia. }
    destruct (IH (n / base) (count + 1) (d :: acc)) as (s & E & Hs & Hval & Hl & Hwid & Hmin); [|lia..|].
    { split; [apply Z.div_pos; lia|]. apply Z.div_lt_upper_bound; [lia|].
      rewrite Nat2Z.inj_succ, Z.pow_succ_r in Hn by lia. lia. }
    exists (s ++ [d]). rewrite length_app, value_of_snoc. cbn [length]. split; [by rewrite E, <- app_assoc|].
    split; [apply Forall_app; split; [exact Hs|by apply Forall_singleton]|]. split; [rewrite Hval, Hv; lia|].
    split; [lia|]. split; [lia|].
    destruct Hmin as [Hmin|Hmin].
    + apply orb_true_iff in Eb as [Eb|Eb]; [left; lia|].
      destruct (Z.le_gt_cases width (count + 2)) as [Hle|Hgt]; [|left; lia].
      apply negb_true_iff, Z.eqb_neq in Eb. right.
      replace (Z.of_nat (length s + 1) - 1) with 1 by lia.
      pose proof (Z.div_pos n base ltac:(lia) ltac:(lia)). nia.
    + right. replace (Z.of_nat (length s + 1) - 1) with (Z.succ (Z.of_nat (length s) - 1)) by lia.
      rewrite Z.pow_succ_r by lia. nia.
  - exists [d]. apply orb_false_iff in Eb as [E1 E2]. apply negb_false_iff, Z.eqb_eq in E2.
    split; [done|]. split; [by apply Forall_singleton|]. cbn [length]. unfold value_of. cbn [fold_left].
    split_and!; [lia..|]. left. lia.
Qed.

Lemma itoa_ok n base width : 2 <= base <= 16 -> is_u32 n -> 0 <= width <= 64 ->
  exists s, itoa n base width = Ret (Some s) /\ numeral base width n s.
Proof.
  intros Hb Hn Hw. unfold itoa. rewrite (proj2 (Z.ltb_ge base 2)), (proj2 (Z.ltb_ge 16 base)) by lia. cbn [orb].
  destruct (itoa_from_ok base width 64 Hb ltac:(lia) n 0 []) as (s & E & Hs & Hv & Hl & Hwid & Hmin); [|lia..|].
  { unfold is_u32 in Hn. split; [lia|]. apply (Z.lt_le_trans _ (2 ^ 64)); [lia|]. apply Z.pow_le_mono_l. lia. }
  exists s. rewrite E, app_nil_r. split; [done|]. split; [exact Hs|]. split; [exact Hv|].
  split; [exact Hl|]. split; [lia|]. rewrite !Z.add_0_l in Hmin. exact Hmin.
Qed.

Lemma itoa_from_overrun base width room : 2 <= base <= 16 -> forall n count acc,
  0 <= count -> count + Z.of_nat room < width -> width < 2 ^ 32 -> itoa_from room n base width count acc = Fault.
Proof.
  intros Hb. induction room as [|room IH]; intros n count acc Hc Hw Hmax; cbn [itoa_from]; [done|].
  pose proof (Z.mod_pos_bound n base ltac:(lia)) as Hmod.
  destruct (digits_lookup (n mod base) ltac:(lia)) as (d & Hd & _). rewrite (array_get_Some _ _ _ Hd). ostep.
  rewrite (u32_id (count + 1)) by (unfold is_u32; lia). rewrite (proj2 (Z.ltb_lt _ _)) by lia. cbn [orb].
  apply IH; lia.
Qed.

(** ** The language of formats *)
Inductive conversion := KDec | KUns | KHex | KStr | KPct.
Inductive directive := Lit (c : Z) | Conv (zero : bool) (ws : list Z) (k : conversion).

Definition conv_char (k : conversion) : Z :=
  match k with
  | KDec => FORMAT_SIGNED_DECIMAL | KUns => FORMAT_UNSIGNED_DECIMAL | KHex => FORMAT_UNSIGNED_HEX
  | KStr => FORMAT_STRING | KPct => FORMAT_PERCENT
  end.

Definition show_directive (d : directive) : list Z :=
  match d with
  | Lit c => [c]
  | Conv zero ws k => c_percent :: (if zero then [FORMAT_PADDING] else []) ++ ws ++ [conv_char k]
  end.
Definition show (ds : list directive) : list Z := concat (map show_directive ds).

(** A literal is not a percent sign, a width is decimal digits worth at most
    64, the room in [itoa]'s buffer. *)
Definition directive_ok (d : directive) : Prop :=
  match d with
  | Lit c => c <> c_percent
  | Conv _ ws _ => Forall (fun c => c_0 <= c <= c_9) ws /\ value_of 10 ws <= 64
  end.

#[export] Instance directive_ok_dec d : Decision (directive_ok d).
Proof. destruct d as [c|z ws k]; cbn [directive_ok]; apply _. Defined.

(** The directives of the kernel's messages. *)
Definition lits (s : string) : list directive := map Lit (text s).
Definition hex8 : directive := Conv true [56] KHex.
Definition newline : directive := Lit c_newline.

(** What a format prints with given arguments, and the arguments left. *)
Inductive renders : list directive -> list arg_t -> list Z -> Prop :=
  | renders_nil args : renders [] args []
  | renders_lit c ds args out : renders ds args out -> renders (Lit c :: ds) args (c :: out)
  | renders_dec z ws w ds args s out :
      s32 w <> - 2 ^ 31 -> numeral 10 (value_of 10 ws) (Z.abs (s32 w)) s -> renders ds args out ->
      renders (Conv z ws KDec :: ds) (AInt w :: args) ((if s32 w <? 0 then [c_minus] else []) ++ s ++ out)
  | renders_uns z ws w ds args s out :
      numeral 10 (value_of 10 ws) (u32 w) s -> renders ds args out ->
      renders (Conv z ws KUns :: ds) (AInt w :: args) (s ++ out)
  | renders_hex z ws w ds args s out :
      numeral 16 (value_of 10 ws) (u32 w) s -> renders ds args out ->
      renders (Conv z ws KHex :: ds) (AInt w :: args) (s ++ out)
  | renders_str z ws t ds args out :
      renders ds args out -> renders (Conv z ws KStr :: ds) (AStr t :: args) (t ++ out)
  | renders_pct z ws ds args out :
      renders ds args out -> renders (Conv z ws KPct :: ds) args (c_percent :: out).

(** The arguments have the types the format asks for. *)
Fixpoint typed (ds : list directive) (args : list arg_t) : Prop :=
  match ds with
  | [] => True
  | Lit _ :: ds | Conv _ _ KPct :: ds => typed ds args
  | Conv _ _ KStr :: ds => match args with AStr _ :: args => typed ds args | _ => False end
  | Conv _ _ KDec :: ds => match args with AInt w :: args => s32 w <> - 2 ^ 31 /\ typed ds args | _ => False end
  | Conv _ _ _ :: ds => match args with AInt _ :: args => typed ds args | _ => False end
  end.

(** The number of arguments a format takes. *)
Definition takes (d : directive) : nat := match d with Lit _ | Conv _ _ KPct => 0 | _ => 1 end.
Definition arity (ds : list directive) : nat := sum_list_with takes ds.

Lemma renders_app ds1 args1 o1 ds2 args2 o2 : renders ds1 args1 o1 -> arity ds1 = length args1 ->
  renders ds2 args2 o2 -> renders (ds1 ++ ds2) (args1 ++ args2) (o1 ++ o2).
Proof.
  intros H1 Ha H2. induction H1 as [args|c ds args out _ IH|z ws w ds args t out Hm Hn _ IH|z ws w ds args t out Hn _ IH|
    z ws w ds args t out Hn _ IH|z ws t ds args out _ IH|z ws ds args out _ IH]; cbn in *.
  - destruct args; [done|discriminate].
  - constructor. by apply IH.
  - rewrite <- !app_assoc. constructor; [done|done|]. apply IH. unfold arity. lia.
  - rewrite <- app_assoc. constructor; [done|]. apply IH. unfold arity. lia.
  - rewrite <- app_assoc. constructor; [done|]. apply IH. unfold arity. lia.
  - rewrite <- app_assoc. constructor. apply IH. unfold arity. lia.
  - constructor. by apply IH.
Qed.

Lemma renders_lits l : forall ds args out, renders (map Lit l ++ ds) args out -> exists o, out = l ++ o /\ renders ds args o.
Proof.
  induction l as [|c l IH]; intros ds args out H; [by exists out|]. inversion H; subst.
  destruct (IH ds args out0) as (o & -> & Ho); [done|]. by exists o.
Qed.

(** ** Lemmas on [printf] *)
Lemma puts_app a b s : puts (a ++ b) s = (_ ← puts a; puts b) s.
Proof.
  revert s. induction a as [|c a IH]; intros s; [done|]. cbn [app puts]. unfold mbind, M_mbind.
  destruct (putchar c s) as [[v s1]| | |]; ostep; [|done..]. rewrite IH. done.
Qed.

Lemma puts_seq a b s : (s1 ← puts a s; let '(_, s1) := s1 in puts b s1) = puts (a ++ b) s.
Proof. rewrite puts_app. unfold mbind, M_mbind. destruct (puts a s) as [[v s1]| | |]; done. Qed.

Lemma value_of_digits base s v : 1 <= base -> Forall (fun c => c_0 <= c <= c_9) s -> 0 <= v ->
  v <= fold_left (fun v c => v * base + digit_value c) s v.
Proof.
  intros Hb Hs. revert v. induction Hs as [|c s Hc _ IH]; intros v Hv; cbn [fold_left]; [lia|].
  assert (0 <= digit_value c) by (unfold digit_value, c_0, c_9 in *; case_match; lia).
  etransitivity; [|apply IH]; nia.
Qed.

Lemma scan_width_ok ws : forall k rest v, Forall (fun c => c_0 <= c <= c_9) ws -> 0 <= v ->
  ~ (c_0 <= k <= c_9) -> fold_left (fun v c => v * 10 + digit_value c) ws v <= 64 ->
  scan_width (ws ++ k :: rest) v = (fold_left (fun v c => v * 10 + digit_value c) ws v, k :: rest).
Proof.
  induction ws as [|c ws IH]; intros k rest v Hws Hv Hk Hmax; cbn [app scan_width fold_left] in *.
  { destruct (Z.leb_spec c_0 k), (Z.leb_spec k c_9); cbn [andb]; try done. exfalso. by apply Hk. }
  apply Forall_cons in Hws as [Hc Hws]. rewrite (proj2 (Z.leb_le _ _)), (proj2 (Z.leb_le _ _)) by lia. cbn [andb].
  assert (digit_value c = c - 48) as Ed by (unfold digit_value, c_0, c_9 in *; case_match; lia).
  pose proof (value_of_digits 10 ws (v * 10 + digit_value c) ltac:(lia) Hws) as Hmono.
  unfold c_0, c_9 in *. specialize (Hmono ltac:(lia)).
  assert (u32 (u32 (v * 10 + c) - 48) = v * 10 + digit_value c) as ->.
  { rewrite (u32_id (v * 10 + c)), u32_id; unfold is_u32; lia. }
  apply IH; [done|lia|done|exact Hmax].
Qed.

Lemma conv_char_range k : ~ (c_0 <= conv_char k <= c_9).
Proof.
  destruct k; cbn [conv_char]; unfold c_0, c_9, FORMAT_SIGNED_DECIMAL, FORMAT_UNSIGNED_DECIMAL,
    FORMAT_UNSIGNED_HEX, FORMAT_STRING, FORMAT_PERCENT; lia.
Qed.

(** The padding flag and the width together. *)
Lemma width_run zero ws k rest :
  Forall (fun c => c_0 <= c <= c_9) ws -> value_of 10 ws <= 64 -> ~ (c_0 <= k <= c_9) ->
  scan_width (match (if zero : bool then [FORMAT_PADDING] else []) ++ ws ++ k :: rest with
              | c' :: r => if c' =? FORMAT_PADDING then r
                           else (if zero then [FORMAT_PADDING] else []) ++ ws ++ k :: rest
              | [] => (if zero then [FORMAT_PADDING] else []) ++ ws ++ k :: rest end) 0 =
  (value_of 10 ws, k :: rest).
Proof.
  intros Hws Hv Hk. destruct zero; cbn [app].
  - rewrite Z.eqb_refl. by apply scan_width_ok.
  - destruct ws as [|c ws]; cbn [app].
    + rewrite (proj2 (Z.eqb_neq _ _)); [by apply (scan_width_ok [])|]. intros ->. apply Hk. unfold FORMAT_PADDING, c_0, c_9. lia.
    + destruct (Z.eqb_spec c FORMAT_PADDING) as [->|Hne].
      * apply Forall_cons in Hws as [_ Hws]. by apply scan_width_ok.
      * by apply (scan_width_ok (c :: ws)).
Qed.

Lemma puts_itoa_ok n base width : 2 <= base <= 16 -> is_u32 n -> 0 <= width <= 64 ->
  exists t, numeral base width n t /\ forall s, puts_itoa n base width s = puts t s.
Proof.
  intros Hb Hn Hw. destruct (itoa_ok n base width Hb Hn Hw) as (t & E & Ht). exists t. split; [exact Ht|].
  intros s. unfold puts_itoa, liftO, mbind, M_mbind. by rewrite E.
Qed.

(** A computation that prints [out] and returns [a]. *)
Definition emits {A} (m : M console A) (out : list Z) (a : A) : Prop :=
  forall s, m s = (_ ← puts out; mret a) s.

Lemma emits_ret {A} (a : A) : emits (mret a) [] a.
Proof. done. Qed.

Lemma emits_bind {A B} (m : M console A) (f : A -> M console B) o1 o2 a b :
  emits m o1 a -> emits (f a) o2 b -> emits (m ≫= f) (o1 ++ o2) b.
Proof.
  intros H1 H2 s. unfold mbind at 1, M_mbind at 1. rewrite H1. unfold mbind, M_mbind.
  rewrite puts_app. unfold mbind, M_mbind.
  destruct (puts o1 s) as [[v s1]| | |]; ostep; [|done..]. unfold mret, M_mret. ostep. apply H2.
Qed.

Lemma emits_last {A B} (m : M console A) (f : A -> M console B) o a b :
  emits m o a -> emits (f a) [] b -> emits (m ≫= f) o b.
Proof. intros H1 H2. rewrite <- (app_nil_r o). by apply (emits_bind _ _ _ _ a). Qed.

Lemma emits_first {A B} (m : M console A) (f : A -> M console B) o a b :
  emits m [] a -> emits (f a) o b -> emits (m ≫= f) o b.
Proof. apply (emits_bind m f []). Qed.

Lemma puts_result str : forall s v s', puts str s = Ret (v, s') -> v = 0.
Proof.
  induction str as [|c str IH]; intros s v s'; cbn [puts]; [by intros [= <- _]|].
  unfold mbind, M_mbind. destruct (putchar c s) as [[? s1]| | |]; ostep; [|done..]. apply IH.
Qed.

Lemma emits_puts str : emits (puts str) str 0.
Proof.
  intros s. unfold mbind, M_mbind. destruct (puts str s) as [[v s1]| | |] eqn:E; ostep; [|done..].
  by rewrite (puts_result _ _ _ _ E).
Qed.

Lemma emits_putchar c : emits (putchar c) [c] c.
Proof.
  intros s. cbn [puts]. unfold mbind, M_mbind. destruct (putchar c s) as [[v s1]| | |] eqn:E; ostep; [|done..].
  unfold mret, M_mret. ostep. f_equal. f_equal. revert E. unfold putchar.
  rewrite M_bind_Ret. intros (? & ? & _ & E). apply M_bind_Ret in E as (? & ? & _ & E).
  apply M_bind_Ret in E as (? & ? & _ & E). apply M_bind_Ret in E as (? & ? & _ & E). by injection E.
Qed.

Lemma emits_itoa base width n : 2 <= base <= 16 -> is_u32 n -> 0 <= width <= 64 ->
  exists t, numeral base width n t /\ emits (puts_itoa n base width) t 0.
Proof.
  intros Hb Hn Hw. destruct (puts_itoa_ok n base width Hb Hn Hw) as (t & Ht & E). exists t. split; [exact Ht|].
  intros s. rewrite E. apply emits_puts.
Qed.

(** A conversion that takes one word. *)
Lemma emits_unsigned base width w args : 2 <= base <= 16 -> 0 <= width <= 64 ->
  exists t, numeral base width (u32 w) t /\
    emits ('(n, args) ← va_int (AInt w :: args); _ ← puts_itoa (u32 n) base width; mret args) t args.
Proof.
  intros Hb Hw. destruct (emits_itoa base width (u32 w) Hb (u32_range w) Hw) as (t & Ht & E).
  exists t. split; [exact Ht|]. 
  apply (emits_first _ _ _ (w, args)); [apply emits_ret|]. cbn iota beta.
  apply (emits_last _ _ _ 0); [exact E|apply emits_ret].
Qed.

Lemma emits_signed width w args : s32 w <> - 2 ^ 31 -> 0 <= width <= 64 ->
  exists t, numeral 10 width (Z.abs (s32 w)) t /\
    emits (convert FORMAT_SIGNED_DECIMAL width (AInt w :: args))
      ((if s32 w <? 0 then [c_minus] else []) ++ t) args.
Proof.
  intros Hmin Hw. pose proof (s32_range w) as Hr. unfold is_s32 in Hr.
  destruct (emits_itoa 10 width (Z.abs (s32 w))) as (t & Ht & E); [lia|unfold is_u32; lia|done|].
  exists t. split; [exact Ht|]. unfold convert. rewrite Z.eqb_refl.
  apply (emits_first _ _ _ (w, args)); [apply emits_ret|]. cbn iota beta zeta.
  apply (emits_bind _ _ _ _ (Z.abs (s32 w))).
  - destruct (Z.ltb_spec (s32 w) 0).
    + apply (emits_last _ _ _ c_minus); [apply emits_putchar|].
      rewrite (proj2 (Z.eqb_neq _ _) Hmin). replace (Z.abs (s32 w)) with (s32 w * -1) by lia. apply emits_ret.
    + rewrite Z.abs_eq by lia. apply emits_ret.
  - rewrite u32_id by (unfold is_u32; lia).
    apply (emits_last _ _ _ 0); [exact E|apply emits_ret].
Qed.

(** Every conversion prints what [renders] says. *)
Lemma emits_convert z ws k ds args : value_of 10 ws <= 64 -> 0 <= value_of 10 ws ->
  typed (Conv z ws k :: ds) args ->
  exists t args', emits (convert (conv_char k) (value_of 10 ws) args) t args' /\ typed ds args' /\
    forall out, renders ds args' out -> renders (Conv z ws k :: ds) args (t ++ out).
Proof.
  intros Hw H0 Ht. destruct k; cbn [typed conv_char] in *.
  - destruct args as [|[w|] args]; [done| |done]. destruct Ht as [Hmin Ht].
    destruct (emits_signed (value_of 10 ws) w args Hmin ltac:(lia)) as (t & Hn & E).
    eexists _, args. split; [exact E|]. split; [exact Ht|]. intros out Ho. rewrite <- app_assoc. by constructor.
  - destruct args as [|[w|] args]; [done| |done].
    destruct (emits_unsigned 10 (value_of 10 ws) w args ltac:(lia) ltac:(lia)) as (t & Hn & E).
    exists t, args. split; [exact E|]. split; [exact Ht|]. intros out Ho. by constructor.
  - destruct args as [|[w|] args]; [done| |done].
    destruct (emits_unsigned 16 (value_of 10 ws) w args ltac:(lia) ltac:(lia)) as (t & Hn & E).
    exists t, args. split; [exact E|]. split; [exact Ht|]. intros out Ho. by constructor.
  - destruct args as [|[w|u] args]; [done|done|]. exists u, args. split; [|split; [exact Ht|by constructor]].
    apply (emits_first _ _ _ (u, args)); [apply emits_ret|]. cbn iota beta.
    apply (emits_last _ _ _ 0); [apply emits_puts|apply emits_ret].
  - exists [c_percent], args. split; [|split; [exact Ht|by constructor]].
    apply (emits_last _ _ _ c_percent); [apply emits_putchar|apply emits_ret].
Qed.

Lemma printf_from_ok ds : forall args fuel, Forall directive_ok ds -> typed ds args ->
  (length (show ds) < fuel)%nat ->
  exists out, renders ds args out /\ emits (printf_from fuel (show ds) args) out tt.
Proof.
  induction ds as [|d ds IH]; intros args fuel Hds Ht Hf; (destruct fuel as [|fuel]; [lia|]).
  { exists []. split; [constructor|apply emits_ret]. }
  apply Forall_cons in Hds as [Hd Hds]. change (show (d :: ds)) with (show_directive d ++ show ds) in *.
  rewrite length_app in Hf. destruct d as [c|z ws k]; cbn [show_directive app] in *.
  - cbn [length typed directive_ok] in *. destruct (IH args fuel Hds Ht ltac:(lia)) as (out & Ho & E).
    exists (c :: out). split; [by constructor|]. cbn [printf_from]. rewrite (proj2 (Z.eqb_neq _ _) Hd).
    change (c :: out) with ([c] ++ out). by apply (emits_bind _ _ _ _ c); [apply emits_putchar|].
  - destruct Hd as [Hws Hv]. cbn [length] in Hf. rewrite !length_app in Hf. cbn [length] in Hf.
    destruct (emits_convert z ws k ds args Hv) as (t & args' & Ec & Ht' & Hr); [|exact Ht|].
    { apply (value_of_digits 10 ws 0); [lia|done|lia]. }
    destruct (IH args' fuel Hds Ht' ltac:(lia)) as (out & Ho & E).
    exists (t ++ out). split; [by apply Hr|]. cbn [printf_from]. rewrite Z.eqb_refl.
    rewrite <- !app_assoc. cbn [app]. rewrite (width_run z ws (conv_char k)) by (done || apply conv_char_range).
    by apply (emits_bind _ _ _ _ args').
Qed.

Lemma printf_emits ds args : Forall directive_ok ds -> typed ds args ->
  exists out, renders ds args out /\ emits (printf (show ds) args) out 0.
Proof.
  intros Hd Ht. destruct (printf_from_ok ds args (S (length (show ds))) Hd Ht ltac:(lia)) as (out & Ho & E).
  exists out. split; [exact Ho|]. exact (emits_last _ _ out tt 0 E (emits_ret 0)).
Qed.

(** * Properties *)

(** [itoa] in a base from 2 to 16 with a width of at most 64 gives the
    positional notation of the number: its digits are digits of the base, their
    value is the number, there are at least [width] of them, and no more than
    that unless the number needs them; reading the text back gives the number. *)
Theorem itoa_spec n base width : 2 <= base <= 16 -> is_u32 n -> 0 <= width <= 64 ->
  exists s, itoa n base width = Ret (Some s) /\
    Forall (is_digit base) s /\ value_of base s = n /\
    width <= Z.of_nat (length s) /\
    (Z.of_nat (length s) = Z.max 1 width \/ base ^ (Z.of_nat (length s) - 1) <= n).
Proof.
  intros Hb Hn Hw. destruct (itoa_ok n base width Hb Hn Hw) as (s & E & H1 & H2 & _ & H3 & H4). by exists s.
Qed.

Lemma itoa_spec_witness : exists s, itoa 0xB8000 16 8 = Ret (Some s) /\ value_of 16 s = 0xB8000.
Proof.
  destruct (itoa_spec 0xB8000 16 8) as (s & E & _ & V & _); [lia|unfold is_u32; lia|lia|].
  exists s. split; [exact E|exact V].
Defined.

(** A width above 64 makes [itoa] write below its static buffer, whatever
    the number; a base outside 2 to 16 is refused with NULL. *)
Theorem itoa_width_overrun n base width : 2 <= base <= 16 -> 64 < width < 2 ^ 32 ->
  itoa n base width = Fault /\ forall b, b < 2 \/ 16 < b -> itoa n b width = Ret None.
Proof.
  intros Hb Hw. split.
  - unfold itoa. rewrite (proj2 (Z.ltb_ge base 2)), (proj2 (Z.ltb_ge 16 base)) by lia. cbn [orb].
    rewrite itoa_from_overrun by (done || lia). done.
  - intros b Hout. unfold itoa. destruct (Z.ltb_spec b 2), (Z.ltb_spec 16 b); (done || lia).
Qed.

Lemma itoa_width_overrun_witness : itoa 7 10 65 = Fault.
Proof. apply (itoa_width_overrun 7 10 65); lia. Defined.

(** C36: [printf] with a format of literals and the conversions %i, %u, %x, %s
    and %% and arguments of the right types prints exactly the rendered text:
    from any console state it does what [puts] of that text does.  (Widths up
    to 64; %i of the least integer is excluded, its negation overflows.) *)
Theorem printf_spec ds args : Forall directive_ok ds -> typed ds args ->
  exists out, renders ds args out /\ forall s, printf (show ds) args s = puts out s.
Proof.
  intros Hd Ht. destruct (printf_emits ds args Hd Ht) as (out & Ho & E).
  exists out. split; [exact Ho|]. intros s. rewrite E. symmetry. apply emits_puts.
Qed.

(** The format of the message of a page fault: ["code %08x"]. *)
Definition demo_format : list directive :=
  [Lit 99; Lit 32; Conv true [56] KHex].

Lemma printf_spec_witness : exists out,
  renders demo_format [AInt 0xB8000] out /\ printf (show demo_format) [AInt 0xB8000] demo_console = puts out demo_console.
Proof.
  destruct (printf_spec demo_format [AInt 0xB8000]) as (out & Ho & E); [|exact I|].
  { apply Forall_cons. split; [discriminate|]. apply Forall_cons. split; [discriminate|].
    apply Forall_singleton. split; [|by vm_compute]. apply Forall_singleton. by vm_compute. }
  exists out. split; [exact Ho|apply E].
Defined.

(** %o lacks a [break]: it prints the octal number and then goes on with
    the next argument in hexadecimal, which no other conversion will print. *)
Theorem printf_octal_falls_through n m : exists o x,
  numeral 8 0 (u32 n) o /\ numeral 16 0 (u32 m) x /\
  forall s, printf [c_percent; FORMAT_UNSIGNED_OCTAL] [AInt n; AInt m] s = puts (o ++ x) s.
Proof.
  destruct (emits_itoa 8 0 (u32 n)) as (o & Ho & Eo); [lia|apply u32_range|lia|].
  destruct (emits_itoa 16 0 (u32 m)) as (x & Hx & Ex); [lia|apply u32_range|lia|].
  exists o, x. split; [exact Ho|]. split; [exact Hx|].
  assert (emits (printf [c_percent; FORMAT_UNSIGNED_OCTAL] [AInt n; AInt m]) (o ++ x) 0) as E.
  { apply (emits_last _ _ _ tt); [|apply emits_ret].
    apply (emits_last _ _ _ []); [|apply emits_ret].
    apply (emits_first _ _ _ (n, [AInt m])); [apply emits_ret|]. cbn iota beta.
    apply (emits_bind _ _ _ _ 0); [exact Eo|].
    apply (emits_first _ _ _ (m, [])); [apply emits_ret|]. cbn iota beta.
    apply (emits_last _ _ _ 0); [exact Ex|apply emits_ret]. }
  intros s. rewrite E. symmetry. apply emits_puts.
Qed.

(** A format that ends in a percent sign is read past its terminating zero. *)
Theorem printf_trailing_percent args s : printf [c_percent] args s = Fault.
Proof. done. Qed.
