(* ===== verification/Descriptors.v ===== *)
(** The descriptor tables of the processor (src/x86/idt.c, include/x86/idt.h):
    segment descriptors, interrupt gates, and the two tables as the kernel
    sets them up.

    A descriptor is a 64-bit word of bit fields, filled field by field as the
    packed structures are.  [cpu_tables] is the state: the static arrays, the
    two task state segments and the registers [lgdt], [lidt] and [ltr] load.
    The addresses the linker chooses are parameters. *)
From S2P Require Import Prelude.

(** ** Bit fields of the packed structures *)
Inductive segment_type_t :=
  SEGMENT_KERNEL_CODE | SEGMENT_KERNEL_DATA | SEGMENT_USER_CODE | SEGMENT_USER_DATA | SEGMENT_TSS.
#[export] Instance segment_type_eq_dec : EqDecision segment_type_t.
Proof. solve_decision. Defined.

Definition INTERRUPT_TASK32 : Z := 5.
Definition INTERRUPT_TRAP32 : Z := 15.
Definition INTERRUPT_INT32 : Z := 14.

Definition EXCEPTION_DIV_BY_0 : nat := 0.
Definition EXCEPTION_DOUBLE_FAULT : nat := 8.
Definition EXCEPTION_SEGMENT_NOT_PRESENT : nat := 11.
Definition EXCEPTION_GPF : nat := 13.
Definition EXCEPTION_PAGE_FAULT : nat := 14.
Definition ISR_APIC_TIMER : nat := 64.
Definition ISR_PREEMPT : nat := 65.
Definition ISR_SYSCALL : nat := 128.

Definition idt_size : nat := 256.
Definition gdt_size : nat := 7.
Definition sizeof_gdt_entry : Z := 8.
Definition sizeof_interrupt_descriptor : Z := 8.

(** [struct gdt_entry_t] *)
Definition set_limit_low := bf_set 0 16.
Definition set_base_low := bf_set 16 24.
Definition set_accessed := bf_set 40 1.
Definition set_read_write := bf_set 41 1.
Definition set_conforming_expand_down := bf_set 42 1.
Definition set_code := bf_set 43 1.
Definition set_code_data_segment := bf_set 44 1.
Definition set_seg_dpl := bf_set 45 2.
Definition set_seg_present := bf_set 47 1.
Definition set_limit_high := bf_set 48 4.
Definition set_available := bf_set 52 1.
Definition set_long_mode := bf_set 53 1.
Definition set_big := bf_set 54 1.
Definition set_granularity := bf_set 55 1.
Definition set_base_high := bf_set 56 8.

(** [struct interrupt_descriptor_t] *)
Definition set_offset_1 := bf_set 0 16.
Definition set_selector := bf_set 16 16.
Definition set_zero := bf_set 32 8.
Definition set_gate_type := bf_set 40 4.
Definition set_storage := bf_set 44 1.
Definition set_gate_dpl := bf_set 45 2.
Definition set_gate_present := bf_set 47 1.
Definition set_offset_2 := bf_set 48 16.

(** [struct tss_entry_t] *)
Record tss_entry_t := Tss {
  prev_tss : Z; esp0 : Z; ss0 : Z; esp1 : Z; ss1 : Z; esp2 : Z; ss2 : Z; cr3 : Z; eip : Z;
  eflags : Z; eax : Z; ecx : Z; edx : Z; ebx : Z; esp : Z; ebp : Z; esi : Z; edi : Z;
  es : Z; cs : Z; ss : Z; ds : Z; fs : Z; gs : Z; ldt : Z; trap : Z; iomap_base : Z
}.
Definition sizeof_tss : Z := 104.

(** ** Operations *)
Definition create_interrupt_descriptor (isr type privilage selector : Z) (d : Z) : Z :=
  let d := if negb (type =? INTERRUPT_TASK32) then
             set_offset_2 (Z.shiftr (u32 isr) 16) (set_offset_1 (Z.land (u32 isr) 0xFFFF) d)
           else d in
  let d := set_selector selector d in
  let d := set_zero 0 d in
  let d := set_gate_type type d in
  let d := set_storage 0 d in
  let d := set_gate_dpl privilage d in
  set_gate_present 1 d.

(** The fields the [switch] sets, in its order. *)
Definition set_type_fields (accessed read_write conforming code code_data dpl available long big granularity d : Z) : Z :=
  let d := set_accessed accessed d in
  let d := set_read_write read_write d in
  let d := set_conforming_expand_down conforming d in
  let d := set_code code d in
  let d := set_code_data_segment code_data d in
  let d := set_seg_dpl dpl d in
  let d := set_available available d in
  let d := set_long_mode long d in
  let d := set_big big d in
  set_granularity granularity d.

Definition create_segment_descriptor (base limit : Z) (type : segment_type_t) (d : Z) : Z :=
  let d := set_limit_low limit d in
  let d := set_limit_high (Z.shiftr (Z.land limit (Z.shiftl 0xf 16)) 16) d in
  let d := set_base_low base d in
  let d := set_base_high (Z.shiftr (Z.land base (u32 (Z.shiftl 0xff 24))) 24) d in
  let d := set_seg_present 1 d in
  match type with
  | SEGMENT_KERNEL_CODE => set_type_fields 0 1 0 1 1 0 0 0 1 1 d
  | SEGMENT_KERNEL_DATA => set_type_fields 0 1 0 0 1 0 0 0 1 1 d
  | SEGMENT_USER_CODE => set_type_fields 0 1 0 1 1 3 0 0 1 1 d
  | SEGMENT_USER_DATA => set_type_fields 0 1 0 0 1 3 0 0 1 1 d
  | SEGMENT_TSS => set_type_fields 1 0 0 1 0 3 0 0 0 0 d
  end.

Record cpu_tables := Tables {
  gdt : list Z;
  idt : list Z;
  tss : tss_entry_t;
  double_fault_tss : tss_entry_t;
  gdtr : Z * Z;
  idtr : Z * Z;
  tr : Z
}.

Definition zero_tss : tss_entry_t := Tss 0 0 0 0 0 0 0 0 0 0 0 0 0 0 0 0 0 0 0 0 0 0 0 0 0 0 0.

(** Updating an array element in place. *)
Definition array_update (l : list Z) (i : nat) (f : Z -> Z) : outcome (list Z) :=
  x ← array_get l i; array_set l i (f x).

Section tables.
Context (gdt_at idt_at tss_at double_fault_tss_at stack_top : Z).
Context (default_page_dir kernel_start kernel_pstart : Z).
Context (isr_generic isr_division_by_zero isr_segment_not_present isr_gp_fault isr_page_fault
         isr_double_fault isr_preempt isr_timer isr_syscall : Z).

Definition load_gdt (t : cpu_tables) : cpu_tables :=
  Tables (gdt t) (idt t) (tss t) (double_fault_tss t) (sizeof_gdt_entry * 7 - 1, gdt_at) (idtr t) (tr t).
Definition load_idt (t : cpu_tables) : cpu_tables :=
  Tables (gdt t) (idt t) (tss t) (double_fault_tss t) (gdtr t) (sizeof_interrupt_descriptor * 256 - 1, idt_at) (tr t).
Definition load_tr (gdt_offset : Z) (t : cpu_tables) : cpu_tables :=
  Tables (gdt t) (idt t) (tss t) (double_fault_tss t) (gdtr t) (idtr t) (Z.lor gdt_offset 3).

Definition initialize_gdt (t : cpu_tables) : outcome cpu_tables :=
  let g := replicate gdt_size 0 in
  g ← array_update g 1 (create_segment_descriptor 0 0xFFFFF SEGMENT_KERNEL_CODE);
  g ← array_update g 2 (create_segment_descriptor 0 0xFFFFF SEGMENT_KERNEL_DATA);
  g ← array_update g 3 (create_segment_descriptor 0 0xFFFFF SEGMENT_USER_CODE);
  g ← array_update g 4 (create_segment_descriptor 0 0xFFFFF SEGMENT_USER_DATA);
  g ← array_update g 5 (create_segment_descriptor tss_at (sizeof_tss - 1) SEGMENT_TSS);
  g ← array_update g 6 (create_segment_descriptor double_fault_tss_at (sizeof_tss - 1) SEGMENT_TSS);
  let tss := Tss 0 stack_top 0x10 0 0 0 0 0 0 0 0 0 0 0 0 0 0 0 0 0 0 0 0 0 0 0 0 in
  let double_fault_tss :=
    Tss 0 stack_top 0x10 0 0 0 0 (u32 (u32 (default_page_dir - kernel_start) + kernel_pstart))
      isr_double_fault 0 0 0 0 0 stack_top 0 0 0 0 0x08 0x10 0x10 0x10 0x10 0 0 0 in
  let t := Tables g (idt t) tss double_fault_tss (gdtr t) (idtr t) (tr t) in
  Ret (load_tr (5 * sizeof_gdt_entry) (load_gdt t)).

(** The loop that points every vector at [isr_generic]. *)
Fixpoint fill_idt (n i : nat) (l : list Z) : outcome (list Z) :=
  match n with
  | O => Ret l
  | S n => l ← array_update l i (create_interrupt_descriptor isr_generic INTERRUPT_INT32 0 8); fill_idt n (S i) l
  end.

Definition initialize_idt (t : cpu_tables) : outcome cpu_tables :=
  let l := replicate idt_size 0 in
  l ← fill_idt idt_size 0 l;
  l ← array_update l EXCEPTION_DIV_BY_0 (create_interrupt_descriptor isr_division_by_zero INTERRUPT_INT32 0 8);
  l ← array_update l EXCEPTION_SEGMENT_NOT_PRESENT (create_interrupt_descriptor isr_segment_not_present INTERRUPT_TRAP32 0 8);
  l ← array_update l EXCEPTION_GPF (create_interrupt_descriptor isr_gp_fault INTERRUPT_TRAP32 0 8);
  l ← array_update l EXCEPTION_PAGE_FAULT (create_interrupt_descriptor isr_page_fault INTERRUPT_TRAP32 0 8);
  l ← array_update l EXCEPTION_DOUBLE_FAULT (create_interrupt_descriptor 0 INTERRUPT_TASK32 0 (8 * 6));
  l ← array_update l ISR_PREEMPT (create_interrupt_descriptor isr_preempt INTERRUPT_INT32 3 8);
  l ← array_update l ISR_APIC_TIMER (create_interrupt_descriptor isr_timer INTERRUPT_INT32 0 8);
  l ← array_update l ISR_SYSCALL (create_interrupt_descriptor isr_syscall INTERRUPT_INT32 3 8);
  Ret (load_idt (Tables (gdt t) l (tss t) (double_fault_tss t) (gdtr t) (idtr t) (tr t))).
End tables.

(** ** What the processor reads in a descriptor *)
Definition seg_base (d : Z) : Z := bf_get 16 24 d + 2 ^ 24 * bf_get 56 8 d.
Definition seg_limit (d : Z) : Z := bf_get 0 16 d + 2 ^ 16 * bf_get 48 4 d.
Definition seg_dpl (d : Z) : Z := bf_get 45 2 d.
(** Type and S bits, bits 40 to 44. *)
Definition seg_type (d : Z) : Z := bf_get 40 5 d.
Definition seg_present (d : Z) : bool := bf_get 47 1 d =? 1.
(** The limit in bytes, with the granularity bit. *)
Definition seg_last_byte (d : Z) : Z :=
  if bf_get 55 1 d =? 1 then seg_limit d * 4096 + 4095 else seg_limit d.

Definition gate_offset (d : Z) : Z := bf_get 0 16 d + 2 ^ 16 * bf_get 48 16 d.
Definition gate_selector (d : Z) : Z := bf_get 16 16 d.
Definition gate_type (d : Z) : Z := bf_get 40 4 d.
Definition gate_dpl (d : Z) : Z := bf_get 45 2 d.
Definition gate_present (d : Z) : bool := bf_get 47 1 d =? 1.

(** ** Lemmas *)

(** A field read back after other fields were written. *)
Ltac fields :=
  unfold set_limit_low, set_base_low, set_accessed, set_read_write, set_conforming_expand_down, set_code,
    set_code_data_segment, set_seg_dpl, set_seg_present, set_limit_high, set_available, set_long_mode, set_big,
    set_granularity, set_base_high, set_offset_1, set_selector, set_zero, set_gate_type, set_storage,
    set_gate_dpl, set_gate_present, set_offset_2;
  repeat first [rewrite bf_get_set_eq by lia | rewrite bf_get_set_ne by lia].

Lemma split_word lo hi n x : 0 <= lo -> 0 <= hi -> n = lo + hi -> 0 <= x < 2 ^ n ->
  Z.land x (Z.ones lo) + 2 ^ lo * Z.land (Z.shiftr x lo) (Z.ones hi) = x.
Proof.
  intros Hlo Hhi -> Hx. rewrite !Z.land_ones, Z.shiftr_div_pow2 by lia.
  rewrite (Z.mod_small (x / 2 ^ lo)).
  - pose proof (Z.div_mod x (2 ^ lo)). lia.
  - rewrite Z.pow_add_r in Hx by lia. split; [apply Z.div_pos; lia|].
    apply Z.div_lt_upper_bound; lia.
Qed.

(** Masking in place and shifting is extracting a field. *)
Lemma mask_shift x n w : 0 <= n -> 0 <= w ->
  Z.land (Z.shiftr (Z.land x (Z.shiftl (Z.ones w) n)) n) (Z.ones w) = Z.land (Z.shiftr x n) (Z.ones w).
Proof. intros. bits_eq. Qed.

(** Two adjacent fields as one. *)
Lemma bf_get_join lo n m w : 0 <= lo -> 0 <= n -> 0 <= m ->
  bf_get lo (n + m) w = bf_get lo n w + 2 ^ n * bf_get (lo + n) m w.
Proof.
  intros. unfold bf_get. rewrite !Z.land_ones by lia. rewrite <- Z.shiftr_shiftr by lia.
  rewrite (Z.shiftr_div_pow2 (Z.shiftr w lo) n) by lia.
  rewrite Z.pow_add_r, Z.rem_mul_r by lia. done.
Qed.

(** The type code the processor sees for a kind of segment. *)
Definition type_code (t : segment_type_t) : Z :=
  match t with
  | SEGMENT_KERNEL_CODE | SEGMENT_USER_CODE => 0x1A
  | SEGMENT_KERNEL_DATA | SEGMENT_USER_DATA => 0x12
  | SEGMENT_TSS => 0x09
  end.
Definition type_dpl (t : segment_type_t) : Z :=
  match t with SEGMENT_KERNEL_CODE | SEGMENT_KERNEL_DATA => 0 | _ => 3 end.

Lemma segment_descriptor_ok base limit type d : is_u32 base -> 0 <= limit < 2 ^ 20 ->
  let e := create_segment_descriptor base limit type d in
  seg_base e = base /\ seg_limit e = limit /\ seg_type e = type_code type /\
  seg_dpl e = type_dpl type /\ seg_present e = true /\
  seg_last_byte e = (match type with SEGMENT_TSS => limit | _ => limit * 4096 + 4095 end).
Proof.
  intros Hb Hl e.
  assert (seg_limit e = limit) as Hlim.
  { unfold seg_limit, e, create_segment_descriptor, set_type_fields.
    change 0xf with (Z.ones 4). destruct type; fields; rewrite mask_shift by lia;
      by rewrite (split_word 16 4 20) by lia. }
  split; [|split; [exact Hlim|]].
  - unfold seg_base, e, create_segment_descriptor, set_type_fields.
    change (u32 (Z.shiftl 0xff 24)) with (Z.shiftl (Z.ones 8) 24).
    destruct type; fields; rewrite mask_shift by lia; by rewrite (split_word 24 8 32) by (unfold is_u32 in Hb; lia).
  - unfold seg_last_byte. rewrite Hlim. unfold seg_type, seg_dpl, seg_present.
    change 5 with (1 + (1 + (1 + (1 + 1)))). rewrite !bf_get_join by lia.
    unfold e, create_segment_descriptor, set_type_fields. destruct type; fields; done.
Qed.

Lemma interrupt_descriptor_ok isr type dpl selector d :
  is_u32 isr -> 0 <= type < 16 -> 0 <= dpl < 4 -> 0 <= selector < 2 ^ 16 ->
  let e := create_interrupt_descriptor isr type dpl selector d in
  (type <> INTERRUPT_TASK32 -> gate_offset e = isr) /\ gate_selector e = selector /\
  gate_type e = type /\ gate_dpl e = dpl /\ gate_present e = true.
Proof.
  intros Hi Ht Hd Hs e. split.
  - intros Hne. unfold gate_offset, e, create_interrupt_descriptor.
    rewrite (proj2 (Z.eqb_neq _ _) Hne). cbn [negb]. fields.
    rewrite (u32_id isr) by done. change 0xFFFF with (Z.ones 16). rewrite <- Z.land_assoc, Z.land_diag.
    rewrite (split_word 16 16 32); unfold is_u32 in Hi; lia.
  - unfold gate_selector, gate_type, gate_dpl, gate_present, e, create_interrupt_descriptor.
    destruct (negb _); fields; rewrite !Z.land_ones, !Z.mod_small by lia; done.
Qed.

Lemma array_update_alter l i f : (i < length l)%nat -> array_update l i f = Ret (alter f i l).
Proof.
  intros Hi. unfold array_update. destruct (lookup_lt_is_Some_2 l i Hi) as [x Hx].
  rewrite (array_get_Some _ _ _ Hx). ostep. rewrite array_set_lt by done. f_equal.
  apply list_eq. intros j. destruct (decide (i = j)) as [->|Hne].
  - by rewrite list_lookup_insert_eq, list_lookup_alter_eq, Hx by done.
  - by rewrite list_lookup_insert_ne, list_lookup_alter_ne.
Qed.

Lemma alter_lookup (f : Z -> Z) (i : nat) (l : list Z) j x : alter f i l !! j = Some x ->
  (j = i /\ exists y, l !! j = Some y /\ x = f y) \/ (j <> i /\ l !! j = Some x).
Proof.
  destruct (decide (i = j)) as [->|Hne].
  - rewrite list_lookup_alter_eq. intros Hx. apply fmap_Some in Hx. naive_solver.
  - rewrite list_lookup_alter_ne by done. naive_solver.
Qed.

Lemma fill_idt_ok isr n : forall i l, (i + n <= length l)%nat ->
  exists l', fill_idt isr n i l = Ret l' /\ length l' = length l /\
    forall j x, l' !! j = Some x -> (i <= j < i + n)%nat ->
      exists y, x = create_interrupt_descriptor isr INTERRUPT_INT32 0 8 y.
Proof.
  induction n as [|n IH]; intros i l Hl; cbn [fill_idt].
  - exists l. split; [done|]. split; [done|]. lia.
  - rewrite array_update_alter by lia. ostep.
    destruct (IH (S i) (alter (create_interrupt_descriptor isr INTERRUPT_INT32 0 8) i l))
      as (l' & E & Hlen & Hj); [rewrite length_alter; lia|].
    exists l'. split; [exact E|]. split; [by rewrite Hlen, length_alter|].
    intros j x Hx Hr. destruct (decide (j = i)) as [->|Hne]; [|apply (Hj j x Hx); lia].
    assert (forall m k g g', fill_idt isr m k g = Ret g' -> (k + m <= length g)%nat -> (i < k)%nat -> g' !! i = g !! i) as Hkeep.
    { induction m as [|m IHm]; intros k g g'; cbn [fill_idt]; [congruence|].
      intros Eg Hk Hik. rewrite array_update_alter in Eg by lia. revert Eg. ostep. intros Eg.
      rewrite (IHm _ _ _ Eg) by (rewrite ?length_alter; lia). apply list_lookup_alter_ne. lia. }
    rewrite (Hkeep _ _ _ _ E) in Hx by (rewrite ?length_alter; lia).
    destruct (alter_lookup _ _ _ _ _ Hx) as [(_ & y & _ & ->)|[? _]]; [by exists y|done].
Qed.

(** The gates the kernel wants, by vector: handler, type, privilege, selector. *)
Section gates.
Context (isr_generic isr_division_by_zero isr_segment_not_present isr_gp_fault isr_page_fault
         isr_preempt isr_timer isr_syscall : Z).

Definition gate_spec (v : nat) : Z * Z * Z * Z :=
  match v with
  | 0%nat => (isr_division_by_zero, INTERRUPT_INT32, 0, 8)
  | 8%nat => (0, INTERRUPT_TASK32, 0, 48)
  | 11%nat => (isr_segment_not_present, INTERRUPT_TRAP32, 0, 8)
  | 13%nat => (isr_gp_fault, INTERRUPT_TRAP32, 0, 8)
  | 14%nat => (isr_page_fault, INTERRUPT_TRAP32, 0, 8)
  | 64%nat => (isr_timer, INTERRUPT_INT32, 0, 8)
  | 65%nat => (isr_preempt, INTERRUPT_INT32, 3, 8)
  | 128%nat => (isr_syscall, INTERRUPT_INT32, 3, 8)
  | _ => (isr_generic, INTERRUPT_INT32, 0, 8)
  end.

(** The gate at [v] is the one of the specification. *)
Definition gate_ok (v : nat) (d : Z) : Prop :=
  let '(isr, type, dpl, selector) := gate_spec v in
  gate_present d = true /\ gate_type d = type /\ gate_dpl d = dpl /\ gate_selector d = selector /\
  (type <> INTERRUPT_TASK32 -> gate_offset d = isr).

Lemma gate_created v isr type dpl selector y :
  gate_spec v = (isr, type, dpl, selector) -> is_u32 isr -> 0 <= type < 16 -> 0 <= dpl < 4 ->
  0 <= selector < 2 ^ 16 -> gate_ok v (create_interrupt_descriptor isr type dpl selector y).
Proof.
  intros E Hi Ht Hd Hs. unfold gate_ok. rewrite E.
  destruct (interrupt_descriptor_ok isr type dpl selector y) as (?&?&?&?&?); done.
Qed.

Definition special : list nat := [0; 8; 11; 13; 14; 64; 65; 128]%nat.

Lemma gate_spec_generic v : v ∉ special -> gate_spec v = (isr_generic, INTERRUPT_INT32, 0, 8).
Proof.
  intros Hv. unfold gate_spec. do 129 (destruct v as [|v]; [first [done | exfalso; apply Hv; unfold special; set_solver]|]). done.
Qed.
End gates.

(** * Properties *)

(** The interrupt table the kernel loads. *)
Section tables_theory.
Context (idt_at : Z).
Context (isr_generic isr_division_by_zero isr_segment_not_present isr_gp_fault isr_page_fault
         isr_preempt isr_timer isr_syscall : Z).

Lemma initialize_idt_ok t :
  Forall is_u32 [isr_generic; isr_division_by_zero; isr_segment_not_present; isr_gp_fault; isr_page_fault;
                 isr_preempt; isr_timer; isr_syscall] ->
  exists t', initialize_idt idt_at isr_generic isr_division_by_zero isr_segment_not_present isr_gp_fault
      isr_page_fault isr_preempt isr_timer isr_syscall t = Ret t' /\
    idtr t' = (2047, idt_at) /\ length (idt t') = idt_size /\
    (gdt t' = gdt t /\ gdtr t' = gdtr t /\ tss t' = tss t /\ tr t' = tr t /\ double_fault_tss t' = double_fault_tss t) /\
    forall v d, idt t' !! v = Some d ->
      gate_ok isr_generic isr_division_by_zero isr_segment_not_present isr_gp_fault isr_page_fault
        isr_preempt isr_timer isr_syscall v d.
Proof.
  rewrite !Forall_cons. intros (?&?&?&?&?&?&?&?&_). unfold initialize_idt.
  destruct (fill_idt_ok isr_generic idt_size 0 (replicate idt_size 0)) as (l & E & Hl & Hg);
    [by rewrite length_replicate|]. rewrite E. rewrite length_replicate in Hl. ostep.
  repeat (rewrite array_update_alter by
    (rewrite ?length_alter, Hl; unfold idt_size, EXCEPTION_DIV_BY_0, EXCEPTION_SEGMENT_NOT_PRESENT, EXCEPTION_GPF,
       EXCEPTION_PAGE_FAULT, EXCEPTION_DOUBLE_FAULT, ISR_PREEMPT, ISR_APIC_TIMER, ISR_SYSCALL; lia); ostep).
  eexists. split; [done|]. cbn [load_idt idtr idt gdt gdtr tss tr double_fault_tss]. split; [done|]. split; [by rewrite !length_alter|].
  split; [by repeat split|]. intros v d Hd.
  clear E. do 8 (apply alter_lookup in Hd as [(-> & y & _ & ->)|(? & Hd)];
    [apply gate_created; [reflexivity|first [done|unfold is_u32; lia]
      |unfold INTERRUPT_INT32, INTERRUPT_TRAP32, INTERRUPT_TASK32; lia|lia|lia]|]).
  destruct (Hg v d Hd) as [y ->].
  { apply lookup_lt_Some in Hd. rewrite Hl in Hd. lia. }
  apply gate_created; [|done|unfold INTERRUPT_INT32; lia..].
  apply gate_spec_generic. unfold special. rewrite !elem_of_cons, elem_of_nil. by intros [?|[?|[?|[?|[?|[?|[?|[?|[]]]]]]]]].
Qed.
End tables_theory.

Lemma initialize_gdt_run gdt_at tss_at dft_at stack_top dir kstart kpstart isr t :
  initialize_gdt gdt_at tss_at dft_at stack_top dir kstart kpstart isr t =
  Ret (load_tr 40 (load_gdt gdt_at (Tables
    [0; create_segment_descriptor 0 0xFFFFF SEGMENT_KERNEL_CODE 0;
        create_segment_descriptor 0 0xFFFFF SEGMENT_KERNEL_DATA 0;
        create_segment_descriptor 0 0xFFFFF SEGMENT_USER_CODE 0;
        create_segment_descriptor 0 0xFFFFF SEGMENT_USER_DATA 0;
        create_segment_descriptor tss_at (sizeof_tss - 1) SEGMENT_TSS 0;
        create_segment_descriptor dft_at (sizeof_tss - 1) SEGMENT_TSS 0]
    (idt t) (Tss 0 stack_top 0x10 0 0 0 0 0 0 0 0 0 0 0 0 0 0 0 0 0 0 0 0 0 0 0 0)
    (Tss 0 stack_top 0x10 0 0 0 0 (u32 (u32 (dir - kstart) + kpstart)) isr 0 0 0 0 0 stack_top
      0 0 0 0 0x08 0x10 0x10 0x10 0x10 0 0 0)
    (gdtr t) (idtr t) (tr t)))).
Proof.
  unfold initialize_gdt.
  generalize (create_segment_descriptor 0 0xFFFFF SEGMENT_KERNEL_CODE)
    (create_segment_descriptor 0 0xFFFFF SEGMENT_KERNEL_DATA)
    (create_segment_descriptor 0 0xFFFFF SEGMENT_USER_CODE)
    (create_segment_descriptor 0 0xFFFFF SEGMENT_USER_DATA)
    (create_segment_descriptor tss_at (sizeof_tss - 1) SEGMENT_TSS)
    (create_segment_descriptor dft_at (sizeof_tss - 1) SEGMENT_TSS).
  done.
Qed.

(** The segment table [initialize_gdt] loads: flat 4 GiB code and data
    segments for the kernel (selectors 8 and 16, privilege 0) and for user
    mode (24 and 32, privilege 3), and at 40 and 48 the two task state
    segments with their exact base and limit; the task register selects the
    first, whose stack for interrupts is [stack_top] in segment 16. *)
Theorem initialize_gdt_spec gdt_at tss_at dft_at stack_top dir kstart kpstart isr t :
  is_u32 tss_at -> is_u32 dft_at ->
  exists t' e1 e2 e3 e4 e5 e6,
    initialize_gdt gdt_at tss_at dft_at stack_top dir kstart kpstart isr t = Ret t' /\
    gdt t' = [0; e1; e2; e3; e4; e5; e6] /\ gdtr t' = (55, gdt_at) /\ idt t' = idt t /\
    Forall (fun e => seg_base e = 0 /\ seg_last_byte e = 2 ^ 32 - 1) [e1; e2; e3; e4] /\
    Forall (fun e => seg_present e = true) [e1; e2; e3; e4; e5; e6] /\
    map seg_type [e1; e2; e3; e4; e5; e6] = [0x1A; 0x12; 0x1A; 0x12; 0x09; 0x09] /\
    map seg_dpl [e1; e2; e3; e4] = [0; 0; 3; 3] /\
    (seg_base e5 = tss_at /\ seg_last_byte e5 = 103) /\ (seg_base e6 = dft_at /\ seg_last_byte e6 = 103) /\
    tr t' = 40 + 3 /\ esp0 (tss t') = stack_top /\ ss0 (tss t') = 16 /\
    eip (double_fault_tss t') = isr /\ esp (double_fault_tss t') = stack_top.
Proof.
  intros H5 H6. assert (0 <= 0xFFFFF < 2 ^ 20) as L1 by lia. assert (is_u32 0) as L0 by (unfold is_u32; lia).
  assert (0 <= sizeof_tss - 1 < 2 ^ 20) as L2 by (unfold sizeof_tss; lia).
  rewrite initialize_gdt_run.
  eexists _, _, _, _, _, _, _. split; [reflexivity|]. cbn [gdt gdtr idt tss double_fault_tss load_tr load_gdt tr].
  split; [reflexivity|]. split; [reflexivity|]. split; [reflexivity|].
  destruct (segment_descriptor_ok 0 0xFFFFF SEGMENT_KERNEL_CODE 0 L0 L1) as (A1&_&A2&A3&A4&A5).
  destruct (segment_descriptor_ok 0 0xFFFFF SEGMENT_KERNEL_DATA 0 L0 L1) as (B1&_&B2&B3&B4&B5).
  destruct (segment_descriptor_ok 0 0xFFFFF SEGMENT_USER_CODE 0 L0 L1) as (C1&_&C2&C3&C4&C5).
  destruct (segment_descriptor_ok 0 0xFFFFF SEGMENT_USER_DATA 0 L0 L1) as (D1&_&D2&D3&D4&D5).
  destruct (segment_descriptor_ok tss_at (sizeof_tss - 1) SEGMENT_TSS 0 H5 L2) as (E1&_&E2&E3&E4&E5).
  destruct (segment_descriptor_ok dft_at (sizeof_tss - 1) SEGMENT_TSS 0 H6 L2) as (F1&_&F2&F3&F4&F5).
  split; [|split; [|split; [|split]]].
  - rewrite !Forall_cons, Forall_nil. split_and!; try exact I; assumption.
  - rewrite !Forall_cons, Forall_nil. split_and!; try exact I; assumption.
  - cbn [map]. by rewrite A2, B2, C2, D2, E2, F2.
  - cbn [map]. by rewrite A3, B3, C3, D3.
  - split; [split; assumption|]. split; [split; assumption|]. repeat split.
Qed.

Lemma initialize_gdt_spec_witness : exists t',
  initialize_gdt 0x1000 0x2000 0x3000 0x4000 0xC0001000 0xC0000000 0x100000 0x5000
    (Tables [] [] zero_tss zero_tss (0, 0) (0, 0) 0) = Ret t' /\ tr t' = 43.
Proof.
  destruct (initialize_gdt_spec 0x1000 0x2000 0x3000 0x4000 0xC0001000 0xC0000000 0x100000 0x5000
    (Tables [] [] zero_tss zero_tss (0, 0) (0, 0) 0))
    as (t' & ? & ? & ? & ? & ? & ? & E & _ & _ & _ & _ & _ & _ & _ & _ & _ & Et & _); [by split|by split|].
  exists t'. split; [exact E|exact Et].
Defined.

(** C31: The interrupt table [initialize_idt] loads has 256 present gates, each
    entering its vector's handler through the kernel's code segment (the
    double fault through the task of selector 48), and user mode can raise
    exactly the vectors 65 and 128 by an [int] instruction. *)
Theorem initialize_idt_spec idt_at isr_generic isr_division_by_zero isr_segment_not_present isr_gp_fault
    isr_page_fault isr_preempt isr_timer isr_syscall t :
  Forall is_u32 [isr_generic; isr_division_by_zero; isr_segment_not_present; isr_gp_fault; isr_page_fault;
                 isr_preempt; isr_timer; isr_syscall] ->
  exists t', initialize_idt idt_at isr_generic isr_division_by_zero isr_segment_not_present isr_gp_fault
      isr_page_fault isr_preempt isr_timer isr_syscall t = Ret t' /\
    idtr t' = (2047, idt_at) /\ length (idt t') = 256%nat /\ gdt t' = gdt t /\
    forall v d, idt t' !! v = Some d ->
      gate_ok isr_generic isr_division_by_zero isr_segment_not_present isr_gp_fault isr_page_fault
        isr_preempt isr_timer isr_syscall v d /\
      (gate_dpl d = 3 <-> v = 65%nat \/ v = 128%nat).
Proof.
  intros H. destruct (initialize_idt_ok idt_at _ _ _ _ _ _ _ _ t H) as (t' & E & Hr & Hl & Hg & Hd).
  exists t'. split; [exact E|]. split; [exact Hr|]. split; [exact Hl|]. split; [exact (proj1 Hg)|].
  clear E. intros v d Hv. pose proof (Hd v d Hv) as G. split; [exact G|]. clear Hv Hd.
  destruct (decide (v ∈ special)) as [Hs|Hs].
  - unfold special in Hs. rewrite !elem_of_cons, elem_of_nil in Hs.
    destruct Hs as [->|[->|[->|[->|[->|[->|[->|[->|[]]]]]]]]]; destruct G as (_ & _ & -> & _); split; intros; lia.
  - unfold gate_ok in G. rewrite gate_spec_generic in G by done. destruct G as (_ & _ & -> & _).
    split; [intros; lia|]. intros [->| ->]; exfalso; apply Hs; unfold special; set_solver.
Qed.

Lemma initialize_idt_spec_witness : exists t',
  initialize_idt 0x9000 1 2 3 4 5 6 7 8 (Tables [] [] zero_tss zero_tss (0, 0) (0, 0) 0) = Ret t' /\
  length (idt t') = 256%nat.
Proof.
  assert (Forall is_u32 [1; 2; 3; 4; 5; 6; 7; 8]) as Hu
    by (rewrite !Forall_cons; unfold is_u32; repeat split; try lia; exact (Forall_nil_2 _)).
  destruct (initialize_idt_spec 0x9000 1 2 3 4 5 6 7 8 (Tables [] [] zero_tss zero_tss (0, 0) (0, 0) 0) Hu)
    as (t' & E & _ & L & _).
  exists t'. split; [exact E|exact L].
Defined.
