(* ===== verification/Apic.v ===== *)
(** The local interrupt controller (src/x86/apic.c, include/x86/apic.h,
    src/x86/msr.c): the layout of its register page, enabling it, ending an
    interrupt and sending one to another processor.

    The registers are memory-mapped and volatile, so the order of the stores
    matters: the state records every store, with the offset in the page, and
    every byte sent to the old 8259 controllers.  The value of the model
    specific register and the register contents are the hardware's; the page is
    mapped through the interface of Space.v. *)
From S2P Require Import Prelude Status Paging Space Console Stdio.

(** ** The register page

    The members of [struct apic_registers_t] in order, with the number of
    16-byte registers each takes. *)
Inductive apic_member :=
  | reserved_1 | lapic_id | lapic_version | reserved_2 | task_priority | arbitration_priority
  | processor_priority | eoi | remote_read | logical_destination | destination_format | spurious_iv
  | in_service | trigger_mode | interrupt_request | error_status | reserved_3 | lvt_cmci
  | interrput_command | lvt_timer | lvt_thermal_sensor | lvt_performance_counters | lvt_lint0
  | lvt_lint1 | lvt_error | initial_count | current_count | reserved_4 | divide_config | reserved_5
  | reserved_76.
#[export] Instance apic_member_eq_dec : EqDecision apic_member.
Proof. solve_decision. Defined.

Definition sizeof_register : Z := 16.
Definition apic_registers_t : list (apic_member * Z) :=
  [(reserved_1, 2); (lapic_id, 1); (lapic_version, 1); (reserved_2, 4); (task_priority, 1);
   (arbitration_priority, 1); (processor_priority, 1); (eoi, 1); (remote_read, 1); (logical_destination, 1);
   (destination_format, 1); (spurious_iv, 1); (in_service, 8); (trigger_mode, 8); (interrupt_request, 8);
   (error_status, 1); (reserved_3, 6); (lvt_cmci, 1); (interrput_command, 2); (lvt_timer, 1);
   (lvt_thermal_sensor, 1); (lvt_performance_counters, 1); (lvt_lint0, 1); (lvt_lint1, 1); (lvt_error, 1);
   (initial_count, 1); (current_count, 1); (reserved_4, 4); (divide_config, 1); (reserved_5, 1);
   (reserved_76, 16 * 12)].

Fixpoint offset_in (l : list (apic_member * Z)) (m : apic_member) : Z :=
  match l with
  | [] => 0
  | (m', n) :: l => if decide (m = m') then 0 else sizeof_register * n + offset_in l m
  end.
Definition offset_of : apic_member -> Z := offset_in apic_registers_t.
Definition sizeof_apic_registers : Z :=
  fold_right (fun e n => sizeof_register * e.2 + n) 0 apic_registers_t.

(** [enum apic_delivery_mode_t] and its companions. *)
Definition APIC_DELIVERY_MODE_FIXED : Z := 0.
Definition APIC_DELIVERY_MODE_INIT : Z := 5.
Definition APIC_DELIVERY_MODE_SIPI : Z := 6.
Inductive apic_divide_mode_t :=
  APIC_DIVIDE_1 | APIC_DIVIDE_2 | APIC_DIVIDE_4 | APIC_DIVIDE_8 | APIC_DIVIDE_16 | APIC_DIVIDE_32
  | APIC_DIVIDE_64 | APIC_DIVIDE_128.
Definition divide_code (d : apic_divide_mode_t) : Z :=
  match d with
  | APIC_DIVIDE_1 => 11 | APIC_DIVIDE_2 => 0 | APIC_DIVIDE_4 => 1 | APIC_DIVIDE_8 => 2
  | APIC_DIVIDE_16 => 3 | APIC_DIVIDE_32 => 8 | APIC_DIVIDE_64 => 9 | APIC_DIVIDE_128 => 11
  end.

(** ** State *)
Record apic := Apic { registers : gmap Z Z; stores : list (Z * Z); pic_ports : list (Z * Z) }.

Definition store_register (off v : Z) : M apic unit :=
  modify (fun s => Apic (<[off := u32 v]> (registers s)) (stores s ++ [(off, u32 v)]) (pic_ports s)).
Definition load_register (off : Z) : M apic Z := gets (fun s => default 0 (registers s !! off)).
Definition outb_al (port al : Z) : M apic unit :=
  modify (fun s => Apic (registers s) (stores s) (pic_ports s ++ [(port, al)])).

(** ** Operations *)

(** The assembly of [apic_enable]: the 8259s are remapped and masked. *)
Definition remap_pic : M apic unit :=
  _ ← outb_al 0x20 0x11; _ ← outb_al 0xA0 0x11;
  _ ← outb_al 0x21 0x20; _ ← outb_al 0xA1 0x28;
  _ ← outb_al 0x21 4; _ ← outb_al 0xA1 2;
  _ ← outb_al 0x21 0x01; _ ← outb_al 0xA1 0x01;
  _ ← outb_al 0xA1 0xFF; outb_al 0x21 0xFF.

(** [struct msr_apic_base_t]: the page frame number is the top 52 bits. *)
Definition msr_apic_base (msr : Z) : Z := bf_get 12 52 msr.

Definition apic_eoi : M apic unit := store_register (offset_of eoi) 0.

(** [struct apic_icr_t] as its two registers. *)
Definition icr_low (vector delivery_mode destination_mode level trigger_mode shorthand : Z) : Z :=
  let w := 0 in
  let w := bf_set 0 8 vector w in
  let w := bf_set 8 3 delivery_mode w in
  let w := bf_set 11 1 destination_mode w in
  let w := bf_set 14 1 level w in
  let w := bf_set 15 1 trigger_mode w in
  bf_set 18 2 shorthand w.
Definition icr_high (destination : Z) : Z := bf_set 24 8 destination 0.

(** [icr_addr[4]] before [icr_addr[0]]: the second register is 16 bytes on. *)
Definition apic_send_ipi (vector delivery_mode destination_mode level trigger_mode shorthand destination : Z)
    : M apic unit :=
  _ ← store_register (offset_of interrput_command + 4 * 4) (icr_high destination);
  store_register (offset_of interrput_command)
    (icr_low vector delivery_mode destination_mode level trigger_mode shorthand).

Section enable.
Context {W : Type} `{AddressSpaces W}.

Definition on_console {A} (m : M console A) : M (console * apic * W) A :=
  fun '(c, s, w) => '(a, c) ← m c; Ret (a, (c, s, w)).
Definition on_apic {A} (m : M apic A) : M (console * apic * W) A := fun '(c, s, w) => '(a, s) ← m s; Ret (a, (c, s, w)).
Definition on_space {A} (m : M W A) : M (console * apic * W) A := fun '(c, s, w) => '(a, w) ← m w; Ret (a, (c, s, w)).

(** [msr] is what [rdmsr] returns, [apic_registers] the address of the page;
    the status of [map_page] is ignored. *)
Definition apic_enable (msr apic_registers : Z) : M (console * apic * W) unit :=
  _ ← on_apic remap_pic;
  _ ← on_console (printf (text "APIC register size: %04x" ++ eol) [AInt sizeof_register]);
  _ ← on_space (as_map_page apic_registers (u32 (Z.shiftl (msr_apic_base msr) 12)) PAGE_RW);
  _ ← on_console (printf (text "MSR_APIC_BASE: %016x" ++ eol) [AInt (u32 msr)]);
  v ← on_apic (load_register (offset_of spurious_iv));
  _ ← on_apic (store_register (offset_of spurious_iv) (Z.lor v 0x1FF));
  _ ← on_apic (store_register (offset_of destination_format) 0xFFFFFFFF);
  _ ← on_console (printf (text "Finished enabling APIC." ++ eol) []);
  mret tt.

Definition initialize_interrupts (msr apic_registers : Z) : M (console * apic * W) Z :=
  _ ← apic_enable msr apic_registers; mret 0.
End enable.

(** ** The hardware's side

    Where the processor's manual puts the registers. *)
Definition manual_offset (m : apic_member) : option Z :=
  match m with
  | lapic_id => Some 0x20 | lapic_version => Some 0x30 | task_priority => Some 0x80
  | arbitration_priority => Some 0x90 | processor_priority => Some 0xA0 | eoi => Some 0xB0
  | remote_read => Some 0xC0 | logical_destination => Some 0xD0 | destination_format => Some 0xE0
  | spurious_iv => Some 0xF0 | in_service => Some 0x100 | trigger_mode => Some 0x180
  | interrupt_request => Some 0x200 | error_status => Some 0x280 | lvt_cmci => Some 0x2F0
  | interrput_command => Some 0x300 | lvt_timer => Some 0x320 | lvt_thermal_sensor => Some 0x330
  | lvt_performance_counters => Some 0x340 | lvt_lint0 => Some 0x350 | lvt_lint1 => Some 0x360
  | lvt_error => Some 0x370 | initial_count => Some 0x380 | current_count => Some 0x390
  | divide_config => Some 0x3E0
  | _ => None
  end.

(** The divisor the timer uses: bits 0, 1 and 3 of the configuration. *)
Definition timer_divisor (v : Z) : Z :=
  let k := bf_get 0 2 v + 4 * bf_get 3 1 v in if k =? 7 then 1 else 2 ^ (k + 1).
Definition divide_meant (d : apic_divide_mode_t) : Z :=
  match d with
  | APIC_DIVIDE_1 => 1 | APIC_DIVIDE_2 => 2 | APIC_DIVIDE_4 => 4 | APIC_DIVIDE_8 => 8
  | APIC_DIVIDE_16 => 16 | APIC_DIVIDE_32 => 32 | APIC_DIVIDE_64 => 64 | APIC_DIVIDE_128 => 128
  end.

(** An 8259: a command byte with bit 4 starts the initialisation, whose next
    three data bytes are the vector offset, the wiring and the mode; later data
    bytes are the mask. *)
Record pic := Pic { stage : nat; vector_offset : Z; wiring : Z; mode : Z; mask : Z }.
Definition pic_step (command : bool) (v : Z) (p : pic) : pic :=
  if command then
    if Z.testbit v 4 then Pic 1 (vector_offset p) (wiring p) (mode p) 0 else p
  else
    match stage p with
    | 1%nat => Pic 2 v (wiring p) (mode p) (mask p)
    | 2%nat => Pic 3 (vector_offset p) v (mode p) (mask p)
    | 3%nat => Pic 0 (vector_offset p) (wiring p) v (mask p)
    | _ => Pic (stage p) (vector_offset p) (wiring p) (mode p) v
    end.
(** The controller whose command port is [base] receives the bytes sent. *)
Definition pic_run (base : Z) (l : list (Z * Z)) (p : pic) : pic :=
  fold_left (fun p '(port, v) =>
    if port =? base then pic_step true v p else if port =? base + 1 then pic_step false v p else p) l p.

(** * Properties *)

(** The structure [apic_registers_t] fills one page and puts every
    register where the processor has it. *)
Theorem apic_layout : sizeof_apic_registers = 4096 /\
  forall m o, manual_offset m = Some o -> offset_of m = o.
Proof. split; [reflexivity|]. intros m o. destruct m; intros [= <-]; reflexivity. Qed.

Lemma apic_layout_witness : offset_of interrput_command = 0x300.
Proof. apply (proj2 apic_layout interrput_command). reflexivity. Defined.

(** A word of [n] bits keeps its width when a field within it is written. *)
Lemma bf_set_range n lo len v w : 0 <= lo -> 0 <= len -> lo + len <= n -> 0 <= w < 2 ^ n ->
  0 <= bf_set lo len v w < 2 ^ n.
Proof.
  intros Hlo Hlen Hn Hw. assert (bf_set lo len v w = Z.land (bf_set lo len v w) (Z.ones n)) as ->.
  { assert (w = Z.land w (Z.ones n)) as -> by (rewrite Z.land_ones, Z.mod_small; lia).
    unfold bf_set. bits_eq. }
  rewrite Z.land_ones by lia. apply Z.mod_pos_bound. lia.
Qed.

Lemma bf_get_set_small lo len v w : 0 <= lo -> 0 <= v < 2 ^ len -> 0 <= len -> bf_get lo len (bf_set lo len v w) = v.
Proof. intros. rewrite bf_get_set_eq by lia. rewrite Z.land_ones, Z.mod_small by lia. done. Qed.

(** [apic_send_ipi] makes exactly two stores, the destination at 0x310 and
    then the command at 0x300, whose store sends the interrupt; the fields of
    the two words are the arguments and their other bits are zero. *)
Theorem apic_send_ipi_spec vector delivery_mode destination_mode level trigger shorthand destination s :
  0 <= vector < 2 ^ 8 -> 0 <= delivery_mode < 2 ^ 3 -> 0 <= destination_mode < 2 ^ 1 -> 0 <= level < 2 ^ 1 ->
  0 <= trigger < 2 ^ 1 -> 0 <= shorthand < 2 ^ 2 -> 0 <= destination < 2 ^ 8 ->
  exists s' hi lo, apic_send_ipi vector delivery_mode destination_mode level trigger shorthand destination s = Ret (tt, s') /\
    stores s' = stores s ++ [(0x310, hi); (0x300, lo)] /\
    bf_get 24 8 hi = destination /\ bf_get 0 24 hi = 0 /\
    bf_get 0 8 lo = vector /\ bf_get 8 3 lo = delivery_mode /\ bf_get 11 1 lo = destination_mode /\
    bf_get 14 1 lo = level /\ bf_get 15 1 lo = trigger /\ bf_get 18 2 lo = shorthand /\
    bf_get 12 2 lo = 0 /\ bf_get 16 2 lo = 0 /\ bf_get 20 12 lo = 0.
Proof.
  intros Hv Hd Hm Hl Ht Hs Hdst.
  set (lo := icr_low vector delivery_mode destination_mode level trigger shorthand).
  assert (u32 lo = lo) as Elo.
  { apply u32_id. unfold is_u32, lo, icr_low. repeat (apply bf_set_range; [lia..|]). lia. }
  assert (u32 (icr_high destination) = icr_high destination) as Ehi.
  { apply u32_id. unfold is_u32, icr_high. apply bf_set_range; lia. }
  eexists _, (icr_high destination), lo. split; [reflexivity|].
  split; [cbn [stores]; fold lo; rewrite Elo, Ehi; by rewrite <- app_assoc|].
  unfold icr_high, lo, icr_low.
  split_and!; repeat first [rewrite bf_get_set_small by lia | rewrite bf_get_set_ne by lia]; reflexivity.
Qed.

Definition apic_off : apic := Apic ∅ [] [].

(** A start-up interrupt for processor 3. *)
Lemma apic_send_ipi_spec_witness : exists s' hi lo,
  apic_send_ipi 8 APIC_DELIVERY_MODE_SIPI 0 1 0 0 3 apic_off = Ret (tt, s') /\
  stores s' = [(0x310, hi); (0x300, lo)] /\ bf_get 8 3 lo = APIC_DELIVERY_MODE_SIPI.
Proof.
  destruct (apic_send_ipi_spec 8 APIC_DELIVERY_MODE_SIPI 0 1 0 0 3 apic_off)
    as (s' & hi & lo & E & S & _ & _ & _ & D & _); [unfold APIC_DELIVERY_MODE_SIPI; lia..|].
  exists s', hi, lo. split; [exact E|]. split; [exact S|exact D].
Defined.

(** What [remap_pic] sends. *)
Definition pic_bytes : list (Z * Z) :=
  [(0x20, 0x11); (0xA0, 0x11); (0x21, 0x20); (0xA1, 0x28); (0x21, 4); (0xA1, 2); (0x21, 1); (0xA1, 1);
   (0xA1, 0xFF); (0x21, 0xFF)].

(** What [apic_enable] prints, and the registers it leaves. *)
Definition apic_messages : list directive :=
  (lits "APIC register size: " ++ [Conv true [52] KHex; newline]) ++
  (lits "MSR_APIC_BASE: " ++ [Conv true [49; 54] KHex; newline]) ++ lits "Finished enabling APIC." ++ [newline].

Definition enabled (s : apic) : apic :=
  let v := u32 (Z.lor (default 0 (registers s !! 0xF0)) 0x1FF) in
  Apic (<[0xE0 := 0xFFFFFFFF]> (<[0xF0 := v]> (registers s))) (stores s ++ [(0xF0, v); (0xE0, 0xFFFFFFFF)])
    (pic_ports s ++ pic_bytes).

Lemma on_console_emits {W A} (m : M console A) out a c s (w : W) : emits m out a ->
  on_console m (c, s, w) = (x ← puts out c; Ret (a, (x.2, s, w))).
Proof.
  intros E. unfold on_console. rewrite E. unfold mbind at 2, M_mbind. by destruct (puts out c) as [[r x]| | |].
Qed.

Lemma on_apic_Ret {W A} (m : M apic A) a s' c s (w : W) : m s = Ret (a, s') -> on_apic m (c, s, w) = Ret (a, (c, s', w)).
Proof. unfold on_apic. by intros ->. Qed.

Lemma puts_split a b d c {A} (f : console -> outcome A) :
  (x ← puts (a ++ b ++ d) c; f x.2) = (x ← puts a c; y ← puts b x.2; z ← puts d y.2; f z.2).
Proof.
  rewrite puts_app. unfold mbind, M_mbind, outcome_mbind.
  destruct (puts a c) as [[r x]| | |]; cbn [mbind outcome_mbind outcome_bind snd]; [|done..].
  rewrite puts_app. unfold mbind, M_mbind, outcome_mbind. by destruct (puts b x) as [[r' y]| | |].
Qed.

Lemma initialize_interrupts_run {W} `{AddressSpaces W} msr page c s w st w' :
  as_map_page page (u32 (Z.shiftl (msr_apic_base msr) 12)) PAGE_RW w = Ret (st, w') ->
  exists out, renders apic_messages [AInt sizeof_register; AInt (u32 msr)] out /\
    initialize_interrupts msr page (c, s, w) = (x ← puts out c; Ret (0, (x.2, enabled s, w'))).
Proof.
  intros E.
  destruct (printf_emits (lits "APIC register size: " ++ [Conv true [52] KHex; newline]) [AInt sizeof_register]) as (o1 & R1 & E1);
    [apply (bool_decide_unpack _); by vm_compute|by vm_compute|].
  destruct (printf_emits (lits "MSR_APIC_BASE: " ++ [Conv true [49; 54] KHex; newline]) [AInt (u32 msr)]) as (o2 & R2 & E2);
    [apply (bool_decide_unpack _); by vm_compute|by vm_compute|].
  destruct (printf_emits (lits "Finished enabling APIC." ++ [newline]) []) as (o3 & R3 & E3);
    [apply (bool_decide_unpack _); by vm_compute|by vm_compute|].
  exists (o1 ++ o2 ++ o3). split.
  { unfold apic_messages. apply (renders_app _ [AInt sizeof_register]); [done|done|].
    apply (renders_app _ [AInt (u32 msr)] _ _ []); [done|done|done]. }
  rewrite (puts_split o1 o2 o3 c (fun x => Ret (0, (x, enabled s, w')))). unfold initialize_interrupts, apic_enable, mbind, M_mbind.
  assert (remap_pic s = Ret (tt, Apic (registers s) (stores s) (pic_ports s ++ pic_bytes))) as Er.
  { destruct s as [r st0 ports]. unfold remap_pic, outb_al, modify, mbind, M_mbind. ostep. cbn [registers stores pic_ports].
    by rewrite <- !app_assoc. }
  rewrite (on_apic_Ret _ tt _ c s w Er). ostep.
  change (text "APIC register size: %04x" ++ eol) with (show (lits "APIC register size: " ++ [Conv true [52] KHex; newline])).
  rewrite (on_console_emits _ _ _ _ _ _ E1). destruct (puts o1 c) as [[r1 c1]| | |]; ostep; [|done..].
  unfold on_space at 1. rewrite E. ostep. cbn [snd].
  change (text "MSR_APIC_BASE: %016x" ++ eol) with (show (lits "MSR_APIC_BASE: " ++ [Conv true [49; 54] KHex; newline])).
  rewrite (on_console_emits _ _ _ _ _ _ E2). destruct (puts o2 c1) as [[r2 c2]| | |]; ostep; [|done..].
  unfold on_apic, load_register, store_register, gets, modify. ostep. cbn [registers stores pic_ports snd].
  change (text "Finished enabling APIC." ++ eol) with (show (lits "Finished enabling APIC." ++ [newline])).
  rewrite (on_console_emits _ _ _ _ _ _ E3). destruct (puts o3 c2) as [[r3 c3]| | |]; ostep; [|done..].
  unfold mret, M_mret, enabled. ostep. by rewrite <- app_assoc.
Qed.

(** [apic_enable] leaves both 8259s initialised, with interrupt vectors
    from 32 and 40, and every line masked, maps the register page at the
    address in the model specific register, writable, and prints the size of a
    register, the low word of the model specific register and a last line. *)
Theorem apic_enable_spec {W} `{AddressSpaces W} msr page c s w p0 p1 st w' :
  pic_ports s = [] -> as_map_page page (u32 (Z.shiftl (msr_apic_base msr) 12)) PAGE_RW w = Ret (st, w') ->
  exists out s', renders apic_messages [AInt 16; AInt (u32 msr)] out /\
    initialize_interrupts msr page (c, s, w) = (x ← puts out c; Ret (0, (x.2, s', w'))) /\
    stores s' = stores s ++ [(0xF0, u32 (Z.lor (default 0 (registers s !! 0xF0)) 0x1FF)); (0xE0, 0xFFFFFFFF)] /\
    (let p := pic_run 0x20 (pic_ports s') p0 in stage p = 0%nat /\ vector_offset p = 0x20 /\ mask p = 0xFF) /\
    (let p := pic_run 0xA0 (pic_ports s') p1 in stage p = 0%nat /\ vector_offset p = 0x28 /\ mask p = 0xFF).
Proof.
  intros Hp E. destruct (initialize_interrupts_run msr page c s w st w' E) as (out & Ho & Er).
  exists out, (enabled s). split; [exact Ho|]. split; [exact Er|]. split; [done|]. unfold enabled. cbn [pic_ports]. rewrite Hp.
  destruct p0, p1. split; vm_compute; done.
Qed.

Lemma apic_enable_spec_witness : exists out s',
  renders apic_messages [AInt 16; AInt 0xFEE00900] out /\
  initialize_interrupts 0xFEE00900 0xC0005000 (demo_console, apic_off, Flat 0 ∅ 0) =
    (x ← puts out demo_console; Ret (0, (x.2, s', Flat 0 (flat_fill (Z.to_nat 4096) 0 0xC0005000 ∅) 0))).
Proof.
  destruct (apic_enable_spec (W := flat) 0xFEE00900 0xC0005000 demo_console apic_off (Flat 0 ∅ 0) (Pic 0 0 0 0 0) (Pic 0 0 0 0 0)
    0 (Flat 0 (flat_fill (Z.to_nat 4096) 0 0xC0005000 ∅) 0)) as (out & s' & Ho & E & _); [reflexivity|reflexivity|].
  exists out, s'. split; [exact Ho|exact E].
Defined.

(** Each divide mode has the code of its divisor except the last:
    [APIC_DIVIDE_128] is the code of division by 1. *)
Theorem divide_mode_codes d :
  timer_divisor (divide_code d) = if decide (divide_meant d = 128) then 1 else divide_meant d.
Proof. destruct d; reflexivity. Qed.
