(* ===== verification/Exceptions.v ===== *)
(** The exception and timer handlers (src/x86/isr.c), turning interrupts on and
    off (src/x86/interrupts.c), the end of [panic] (src/kernel.c), and what the
    processor does around a handler.

    A handler prints, may change the data segments and the interrupt flag, and
    either returns or stops the processor.  It is compiled with the attribute
    [interrupt]: on return it takes the error code off the stack if its
    prototype has one, and executes [iret].  The processor's part is its
    manual's: the gate's effect on the interrupt flag, the error codes, the switch to
    a task through a task gate, and what [iret] checks and empties, read from the
    descriptors of the segment table. *)
From S2P Require Import Prelude Console Stdio Descriptors Apic.

(** [struct interrupt_frame_t]: what the processor pushes, [eip] last. *)
Record interrupt_frame_t := Frame { eip : Z; cs : Z; eflags : Z; esp : Z; ss : Z }.
Definition frame_words (f : interrupt_frame_t) : list Z := [eip f; cs f; eflags f; esp f; ss f].

(** What the handlers use of the machine: the console, the interrupt controller,
    the interrupt flag, the registers ds, es, fs and gs, and cr2. *)
Record device := Device { con : console; lapic : apic; irq : bool; data_segments : list Z; cr2 : Z }.
Definition set_con v d := Device v (lapic d) (irq d) (data_segments d) (cr2 d).
Definition set_lapic v d := Device (con d) v (irq d) (data_segments d) (cr2 d).
Definition set_irq v d := Device (con d) (lapic d) v (data_segments d) (cr2 d).
Definition set_data_segments v d := Device (con d) (lapic d) (irq d) v (cr2 d).

Definition on_con {A} (m : M console A) : M device A := fun d => '(a, c) ← m (con d); Ret (a, set_con c d).
Definition on_lapic {A} (m : M apic A) : M device A := fun d => '(a, l) ← m (lapic d); Ret (a, set_lapic l d).

(** How a handler ends. *)
Inductive ending := Returns | Stops.

(** ** Operations *)
Definition irq_enable : M device unit := modify (set_irq true).
Definition irq_disable : M device unit := modify (set_irq false).

(** [hlt] at the end of a handler: with interrupts on, the next one wakes the
    processor and after it the handler returns.  What that interrupt does is its
    own step. *)
Definition hlt : M device ending := fun d => Ret (if irq d then Returns else Stops, d).

Definition kernel_data_segments : M device unit := modify (set_data_segments [0x10; 0x10; 0x10; 0x10]).

Definition isr_generic : M device ending :=
  _ ← on_con (printf (text "Generic interrupt." ++ eol) []); mret Returns.

Definition isr_division_by_zero : M device ending :=
  _ ← on_con (printf (text "Exception: Division by zero" ++ eol) []); mret Returns.

Definition isr_segment_not_present (error : Z) : M device ending :=
  _ ← irq_disable;
  _ ← on_con (printf (text "Exception: NP fault, code %08x" ++ eol) [AInt error]);
  hlt.

Definition isr_gp_fault (error : Z) : M device ending :=
  _ ← irq_disable;
  _ ← kernel_data_segments;
  _ ← on_con (printf (text "Exception: GP fault, code %08x" ++ eol) [AInt error]);
  hlt.

Definition isr_page_fault (error : Z) : M device ending :=
  addr ← gets cr2;
  _ ← kernel_data_segments;
  _ ← on_con (printf (text "Exception: Page fault, code %08x, linear address %08x" ++ eol) [AInt error; AInt addr]);
  hlt.

Definition isr_double_fault (error : Z) : M device ending :=
  _ ← irq_disable;
  _ ← on_con (printf (text "Exception: Double fault (!!), code %08x" ++ eol) [AInt error]);
  hlt.

Definition isr_timer : M device ending :=
  _ ← on_con (printf (text "Timer tick." ++ eol) []);
  _ ← on_lapic apic_eoi;
  mret Returns.

(** [panic]: [cli], and [hlt] for ever. *)
Definition panic_message (message : list Z) : M device ending :=
  _ ← on_con (printf (text "panic: %s") [AStr message]);
  _ ← irq_disable;
  mret Stops.

(** ** The processor around a handler *)

(** The vectors that push an error code. *)
Definition pushes_error (v : nat) : bool := bool_decide (v ∈ [8; 10; 11; 12; 13; 14; 17; 21]%nat).

(** A handler and whether its prototype has the error code. *)
Definition handler : Type := bool * (Z -> M device ending).

(** A selector: its index, table and privilege level; and the descriptor it names.
    There is no local table. *)
Definition selector_index (s : Z) : Z := bf_get 3 13 s.
Definition selector_local (s : Z) : bool := bf_get 2 1 s =? 1.
Definition rpl (s : Z) : Z := bf_get 0 2 s.
Definition descriptor_at (g : list Z) (s : Z) : option Z :=
  if selector_local s || (selector_index s =? 0) then None else g !! Z.to_nat (selector_index s).

(** Bits 3 and 4 of a type: code or data segment; bit 2: conforming; bit 1: writable. *)
Definition is_code (d : Z) : bool := bf_get 3 2 (seg_type d) =? 3.
Definition is_data (d : Z) : bool := bf_get 3 2 (seg_type d) =? 2.
Definition conforming (d : Z) : bool := bf_get 2 1 (seg_type d) =? 1.
Definition writable (d : Z) : bool := bf_get 1 1 (seg_type d) =? 1.

(** What the processor checks when [iret] loads a code segment, and the stack
    segment of an outer level. *)
Definition loads_code (g : list Z) (s : Z) : bool :=
  match descriptor_at g s with
  | Some d => is_code d && seg_present d && (if conforming d then seg_dpl d <=? rpl s else seg_dpl d =? rpl s)
  | None => false
  end.
Definition loads_stack (g : list Z) (level s : Z) : bool :=
  match descriptor_at g s with
  | Some d => is_data d && writable d && seg_present d && (seg_dpl d =? level) && (rpl s =? level)
  | None => false
  end.

(** On a return to an outer level the processor empties the segment registers
    that level may not use. *)
Definition keep_segment (g : list Z) (level s : Z) : Z :=
  match descriptor_at g s with
  | Some d => if (is_data d || (is_code d && negb (conforming d))) && (seg_dpl d <? level) then 0 else s
  | None => s
  end.

(** How an exception ends: the program goes on at an address with a code segment
    and flags, and with the stack of its own level if that is not the kernel's;
    or the processor stops; or [iret] itself raises a protection fault. *)
Inductive outcome_of := Resumed (ip code flags : Z) (stack : option (Z * Z)) | Stopped | Refused.

(** [iret] in the kernel, at level 0. *)
Definition iret (g : list Z) (stack : list Z) : M device outcome_of :=
  match stack with
  | ip :: code :: flags :: stack =>
    if negb (loads_code g code) then mret Refused
    else if rpl code =? 0 then _ ← modify (set_irq (bf_get 9 1 flags =? 1)); mret (Resumed ip code flags None)
    else
      match stack with
      | esp :: ss :: _ =>
        if negb (loads_stack g (rpl code) ss) then mret Refused
        else
          _ ← modify (set_irq (bf_get 9 1 flags =? 1));
          _ ← modify (fun d => set_data_segments (List.map (keep_segment g (rpl code)) (data_segments d)) d);
          mret (Resumed ip code flags (Some (esp, ss)))
      | _ => fault
      end
  | _ => fault
  end.

(** What the processor checks when a task switch loads the other segment registers. *)
Definition loads_data (g : list Z) (level s : Z) : bool :=
  if negb (selector_local s) && (selector_index s =? 0) then true
  else match descriptor_at g s with
  | Some d => seg_present d && (if is_code d then writable d && (conforming d || (Z.max level (rpl s) <=? seg_dpl d))
                                else is_data d && (Z.max level (rpl s) <=? seg_dpl d))
  | None => false
  end.

(** The switch to a task, at the level of its code segment: the segment registers
    and the flags are those of its task segment.  A check that fails while the
    processor delivers an exception is another exception; the model has no more
    to say then. *)
Definition load_task (g : list Z) (x : tss_entry_t) : M device unit :=
  let level := rpl (Descriptors.cs x) in
  let segments := [ds x; es x; fs x; gs x] in
  if loads_code g (Descriptors.cs x) && loads_stack g level (Descriptors.ss x) && forallb (loads_data g level) segments then
    _ ← modify (set_irq (bf_get 9 1 (Descriptors.eflags x) =? 1));
    modify (set_data_segments segments)
  else fault.

Section dispatch.
(** The addresses of the task segments and of the handlers. *)
Context (tss_at double_fault_tss_at : Z).
Context (generic_at division_at not_present_at gp_at page_fault_at double_fault_at preempt_at timer_at syscall_at : Z).

(** The task a selector names: a 32-bit task segment of full size that is not the
    running one. *)
Definition task_at (t : cpu_tables) (s : Z) : option tss_entry_t :=
  match descriptor_at (gdt t) s with
  | Some d =>
    if negb (seg_present d && (seg_type d =? 9) && (sizeof_tss - 1 <=? seg_last_byte d)) || (selector_index s =? selector_index (tr t))
    then None
    else if seg_base d =? tss_at then Some (tss t)
    else if seg_base d =? double_fault_tss_at then Some (double_fault_tss t) else None
  | None => None
  end.

Definition handler_at (a : Z) : option handler :=
  if a =? generic_at then Some (false, fun _ => isr_generic)
  else if a =? division_at then Some (false, fun _ => isr_division_by_zero)
  else if a =? not_present_at then Some (true, isr_segment_not_present)
  else if a =? gp_at then Some (true, isr_gp_fault)
  else if a =? page_fault_at then Some (true, isr_page_fault)
  else if a =? double_fault_at then Some (true, isr_double_fault)
  else if a =? timer_at then Some (false, fun _ => isr_timer)
  else None.

(** The handler at [a], and what follows when it returns. *)
Definition run_handler (a error : Z) (return_ : bool -> M device outcome_of) : M device outcome_of :=
  match handler_at a with
  | None => fault
  | Some (has_error, h) =>
    e ← h error;
    match e with Stops => mret Stopped | Returns => return_ has_error end
  end.

(** Vector [v] with the error code [error] while the processor was at [f].  Through
    a task gate the handler runs in the task of the gate's selector; its return
    would be another task switch, which no handler makes. *)
Definition raise (t : cpu_tables) (v : nat) (error : Z) (f : interrupt_frame_t) : M device outcome_of :=
  d ← liftO (array_get (idt t) v);
  if gate_type d =? INTERRUPT_TASK32 then
    x ← liftO (of_option (task_at t (gate_selector d)));
    _ ← load_task (gdt t) x;
    run_handler (Descriptors.eip x) error (fun _ => fault)
  else
    _ ← modify (fun s => if gate_type d =? INTERRUPT_INT32 then set_irq false s else s);
    let stack := if pushes_error v then error :: frame_words f else frame_words f in
    run_handler (gate_offset d) error (fun has_error => iret (gdt t) (if has_error then tail stack else stack)).
End dispatch.

(** ** Reference: what a vector prints and how it ends *)

Definition message (v : nat) : list directive :=
  if decide (v = 0%nat) then lits "Exception: Division by zero" ++ [newline]
  else if decide (v = 8%nat) then lits "Exception: Double fault (!!), code " ++ [hex8; newline]
  else if decide (v = 11%nat) then lits "Exception: NP fault, code " ++ [hex8; newline]
  else if decide (v = 13%nat) then lits "Exception: GP fault, code " ++ [hex8; newline]
  else if decide (v = 14%nat) then lits "Exception: Page fault, code " ++ hex8 :: lits ", linear address " ++ [hex8; newline]
  else if decide (v = 64%nat) then lits "Timer tick." ++ [newline]
  else lits "Generic interrupt." ++ [newline].

Definition message_args (v : nat) (error addr : Z) : list arg_t :=
  if decide (v = 14%nat) then [AInt error; AInt addr]
  else if decide (v = 8 \/ v = 11 \/ v = 13)%nat then [AInt error] else [].

(** The vectors the handlers of isr.c serve: all but the preemption and the system
    call, whose code is assembly (Entry.v). *)
Definition served (v : nat) : Prop := (v < 256)%nat /\ v <> 65%nat /\ v <> 128%nat.

(** The handlers that stop the processor whatever it was doing. *)
Definition fatal (v : nat) : bool := bool_decide (v = 8 \/ v = 11 \/ v = 13)%nat.

(** The interrupt flag in the handler of [v]: a trap gate leaves it alone. *)
Definition flag_inside (v : nat) (irq : bool) : bool :=
  if fatal v then false else if decide (v = 14%nat) then irq else false.

(** The selectors of the kernel's table that [iret] accepts: the two code segments,
    8 and 0x1B, and the user's data segment, 0x23; a kernel segment, 8 or 16 at
    any level, is emptied on the way to user mode. *)
Definition low16 (w : Z) : Z := bf_get 0 16 w.
Definition goes_to (f : interrupt_frame_t) : outcome_of :=
  if low16 (cs f) =? 0x08 then Resumed (eip f) (cs f) (eflags f) None
  else if (low16 (cs f) =? 0x1B) && (low16 (ss f) =? 0x23) then Resumed (eip f) (cs f) (eflags f) (Some (esp f, ss f))
  else Refused.
Definition kept (s : Z) : Z := if (8 <=? low16 s) && (low16 s <? 24) && negb (selector_local s) then 0 else s.

(** The end of it: where the program goes on, if it does.  [isr_generic] takes the
    frame to begin at the error code. *)
Definition ends (v : nat) (irq : bool) (error : Z) (f : interrupt_frame_t) : outcome_of :=
  if fatal v then Stopped
  else if decide (v = 14%nat) then (if irq then goes_to f else Stopped)
  else if pushes_error v then goes_to (Frame error (eip f) (cs f) (eflags f) (esp f))
  else goes_to f.

(** The machine afterwards, when the message took the console to [c].  The double
    fault's task segment leaves es empty. *)
Definition after (v : nat) (c : console) (d : device) (o : outcome_of) : device :=
  let segments := if decide (v = 13 \/ v = 14)%nat then [0x10; 0x10; 0x10; 0x10]
    else if decide (v = 8%nat) then [0x10; 0; 0x10; 0x10] else data_segments d in
  Device c
    (if decide (v = 64%nat) then
       Apic (<[offset_of eoi := 0]> (registers (lapic d))) (stores (lapic d) ++ [(offset_of eoi, 0)]) (pic_ports (lapic d))
     else lapic d)
    (match o with Resumed _ _ flags _ => bf_get 9 1 flags =? 1 | _ => flag_inside v (irq d) end)
    (match o with Resumed _ _ _ (Some _) => List.map kept segments | _ => segments end)
    (cr2 d).

(** * Theory *)

Lemma on_con_emits {A} (m : M console A) out a d : emits m out a ->
  on_con m d = (c ← puts out (con d); Ret (a, set_con c.2 d)).
Proof.
  intros E. unfold on_con. rewrite E. unfold mbind at 2, M_mbind. destruct (puts out (con d)) as [[r c]| | |]; done.
Qed.

(** The text of a handler is the format of its message. *)
Lemma message_ok v : Forall directive_ok (message v).
Proof. unfold message. repeat case_decide; apply (bool_decide_unpack _); by vm_compute. Qed.

Lemma message_typed v error addr : typed (message v) (message_args v error addr).
Proof. unfold message, message_args. repeat case_decide; subst; try lia; by vm_compute. Qed.

Lemma printed ds args fmt d : fmt = show ds -> Forall directive_ok ds -> typed ds args ->
  exists out, renders ds args out /\ on_con (printf fmt args) d = (c ← puts out (con d); Ret (0, set_con c.2 d)).
Proof.
  intros -> Hd Ht. destruct (printf_emits ds args Hd Ht) as (out & Ho & E). exists out. split; [done|].
  by apply on_con_emits.
Qed.

(** The handler of each vector. *)
Definition handler_for (v : nat) : handler :=
  if decide (v = 0%nat) then (false, fun _ => isr_division_by_zero)
  else if decide (v = 8%nat) then (true, isr_double_fault)
  else if decide (v = 11%nat) then (true, isr_segment_not_present)
  else if decide (v = 13%nat) then (true, isr_gp_fault)
  else if decide (v = 14%nat) then (true, isr_page_fault)
  else if decide (v = 64%nat) then (false, fun _ => isr_timer)
  else (false, fun _ => isr_generic).

(** What a handler leaves. *)
Definition handled (v : nat) (c : console) (d : device) : ending * device :=
  let irq' := if fatal v then false else irq d in
  (if fatal v then Stops else if decide (v = 14%nat) then (if irq d then Returns else Stops) else Returns,
   Device c
    (if decide (v = 64%nat) then
       Apic (<[offset_of eoi := 0]> (registers (lapic d))) (stores (lapic d) ++ [(offset_of eoi, 0)]) (pic_ports (lapic d))
     else lapic d)
    irq' (if decide (v = 13 \/ v = 14)%nat then [0x10; 0x10; 0x10; 0x10] else data_segments d) (cr2 d)).

Ltac dev := unfold irq_disable, kernel_data_segments, hlt, gets, modify, on_lapic, apic_eoi, store_register, mbind, M_mbind, mret, M_mret.

Lemma message_printed v error addr : exists out, renders (message v) (message_args v error addr) out /\
  forall d, on_con (printf (show (message v)) (message_args v error addr)) d = (c ← puts out (con d); Ret (0, set_con c.2 d)).
Proof.
  destruct (printf_emits (message v) (message_args v error addr) (message_ok v) (message_typed v error addr)) as (out & Ho & E).
  exists out. split; [done|]. intros d. by apply on_con_emits.
Qed.

(** The text in the goal is the message of [E]. *)
Ltac say E :=
  match type of E with forall d, on_con (printf ?f ?a) d = _ =>
    match goal with |- context [on_con (printf ?f' ?a') ?d] =>
      change (on_con (printf f' a') d) with (on_con (printf f a) d); rewrite E
    end
  end.

Lemma handler_run v error d : exists out, renders (message v) (message_args v error (cr2 d)) out /\
  (handler_for v).2 error d = (c ← puts out (con d); Ret (handled v c.2 d)).
Proof.
  destruct (message_printed v error (cr2 d)) as (out & Ho & E). exists out. split; [exact Ho|]. clear Ho.
  unfold handler_for, handled, fatal.
  destruct (decide (v = 0%nat)) as [->|H0]; [|destruct (decide (v = 8%nat)) as [->|H8]; [|destruct (decide (v = 11%nat)) as [->|H11];
    [|destruct (decide (v = 13%nat)) as [->|H13]; [|destruct (decide (v = 14%nat)) as [->|H14];
    [|destruct (decide (v = 64%nat)) as [->|H64]]]]]]; cbn [snd].
  7: { unfold message, message_args in E. rewrite !decide_False in E by lia. rewrite bool_decide_eq_false_2, !decide_False by lia.
       unfold isr_generic. dev. say E. by destruct (puts out (con d)) as [[r c]| | |]. }
  - unfold isr_division_by_zero. dev. say E. by destruct (puts out (con d)) as [[r c]| | |].
  - unfold isr_double_fault. dev. ostep. say E. cbn [set_irq con]. by destruct (puts out (con d)) as [[r c]| | |].
  - unfold isr_segment_not_present. dev. ostep. say E. cbn [set_irq con]. by destruct (puts out (con d)) as [[r c]| | |].
  - unfold isr_gp_fault. dev. ostep. say E. cbn [set_irq set_data_segments con]. by destruct (puts out (con d)) as [[r c]| | |].
  - unfold isr_page_fault. dev. ostep. say E. cbn [set_irq set_data_segments con]. by destruct (puts out (con d)) as [[r c]| | |].
  - unfold isr_timer. dev. ostep. say E. by destruct (puts out (con d)) as [[r c]| | |].
Qed.

(** ** Selectors *)

Definition attributes (e : Z) : Z * Z * bool := (seg_type e, seg_dpl e, seg_present e).

(** The table [initialize_gdt] builds, as the checks see it. *)
Definition kernel_segments (g : list Z) : Prop := exists z l, g = z :: l /\
  List.map attributes l = [(0x1A, 0, true); (0x12, 0, true); (0x1A, 3, true); (0x12, 3, true); (9, 3, true); (9, 3, true)].

Lemma bf_get_div lo len w : 0 <= lo -> 0 <= len -> bf_get lo len w = (w / 2 ^ lo) mod 2 ^ len.
Proof. intros. unfold bf_get. by rewrite Z.land_ones, Z.shiftr_div_pow2. Qed.

Lemma selector_parts s : low16 s = rpl s + 4 * bf_get 2 1 s + 8 * selector_index s /\
  0 <= rpl s < 4 /\ (bf_get 2 1 s = 0 \/ bf_get 2 1 s = 1) /\ 0 <= selector_index s.
Proof.
  unfold low16, rpl, selector_index. rewrite !bf_get_div by lia.
  change (2 ^ 0) with 1. change (2 ^ 16) with 65536. change (2 ^ 2) with 4. change (2 ^ 1) with 2. change (2 ^ 3) with 8. change (2 ^ 13) with 8192.
  Z.div_mod_to_equations. lia.
Qed.

(** The selector [s] of the kernel's table: the descriptor, by index. *)
Lemma descriptor_attributes g s : kernel_segments g -> attributes <$> descriptor_at g s =
  if (bf_get 2 1 s =? 1) || (selector_index s =? 0) then None else
  [(0x1A, 0, true); (0x12, 0, true); (0x1A, 3, true); (0x12, 3, true); (9, 3, true); (9, 3, true)] !! Z.to_nat (selector_index s - 1).
Proof.
  intros (z & l & -> & <-). unfold descriptor_at, selector_local. destruct (_ || _) eqn:E; [done|].
  apply orb_false_iff in E as [_ E]. apply Z.eqb_neq in E. pose proof (selector_parts s) as (_ & _ & _ & Hi).
  replace (Z.to_nat (selector_index s)) with (S (Z.to_nat (selector_index s - 1))) by lia. cbn [lookup list_lookup].
  symmetry. apply list_lookup_fmap.
Qed.

(** Every case of a selector: no descriptor, or one of six. *)
Ltac selector_cases g s Hk :=
  let A := fresh "A" in pose proof (descriptor_attributes g s Hk) as A;
  let P := fresh "P" in let R := fresh "R" in let T := fresh "T" in let I := fresh "I" in
  destruct (selector_parts s) as (P & R & T & I);
  let t := fresh "t" in let i := fresh "i" in
  set (t := bf_get 2 1 s) in *; set (i := selector_index s) in *;
  destruct (Z.eqb_spec t 1); [|destruct (Z.eqb_spec i 0)]; cbn [orb] in A;
  [..|destruct (decide (i = 1)); [|destruct (decide (i = 2)); [|destruct (decide (i = 3)); [|destruct (decide (i = 4));
    [|destruct (decide (i = 5)); [|destruct (decide (i = 6));
    [|rewrite (lookup_ge_None_2 _ (Z.to_nat (i - 1))) in A by (simpl; lia)]]]]]]];
  try (match goal with E : i = _ |- _ => rewrite E in A; cbn in A end);
  destruct (descriptor_at g s) as [x|]; try discriminate A;
  try (injection A as ? ? ?); unfold is_code, is_data, conforming, writable;
  repeat match goal with E : seg_type _ = _ |- _ => rewrite E; clear E | E : seg_dpl _ = _ |- _ => rewrite E; clear E
    | E : seg_present _ = _ |- _ => rewrite E; clear E end.

Ltac compute_fields :=
  repeat match goal with |- context [bf_get ?a ?b (Zpos ?c)] =>
    let v := eval vm_compute in (bf_get a b (Zpos c)) in change (bf_get a b (Zpos c)) with v
  end;
  repeat match goal with |- context [Zpos ?a =? Zpos ?b] =>
    let v := eval vm_compute in (Zpos a =? Zpos b) in change (Zpos a =? Zpos b) with v
  | |- context [Z0 =? Zpos ?b] => change (Z0 =? Zpos b) with false
  | |- context [Zpos ?a =? Z0] => change (Zpos a =? Z0) with false
  | |- context [?a <? Zpos ?b] => let v := eval vm_compute in (a <? Zpos b) in lazymatch v with true => idtac | false => idtac end; change (a <? Zpos b) with v
  end; cbn [andb orb negb].

Lemma loads_code_kernel g s : kernel_segments g -> loads_code g s = (low16 s =? 0x08) || (low16 s =? 0x1B).
Proof. intros Hk. unfold loads_code. selector_cases g s Hk; rewrite P; compute_fields; lia. Qed.

Lemma loads_stack_kernel g s : kernel_segments g -> loads_stack g 3 s = (low16 s =? 0x23).
Proof. intros Hk. unfold loads_stack. selector_cases g s Hk; rewrite P; compute_fields; lia. Qed.

Lemma keep_segment_kernel g s : kernel_segments g -> keep_segment g 3 s = kept s.
Proof.
  intros Hk. unfold keep_segment, kept, selector_local. selector_cases g s Hk; rewrite P; fold t; compute_fields;
    destruct (Z.leb_spec 8 (rpl s + 4 * t + 8 * i)), (Z.ltb_spec (rpl s + 4 * t + 8 * i) 24), (Z.eqb_spec t 1); cbn [negb andb]; lia.
Qed.

Lemma iret_run g f rest d : kernel_segments g -> iret g (frame_words f ++ rest) d =
  Ret (goes_to f, Device (con d) (lapic d)
    (match goes_to f with Resumed _ _ flags _ => bf_get 9 1 flags =? 1 | _ => irq d end)
    (match goes_to f with Resumed _ _ _ (Some _) => List.map kept (data_segments d) | _ => data_segments d end) (cr2 d)).
Proof.
  intros Hk. unfold iret, frame_words, goes_to. cbn [app]. rewrite (loads_code_kernel g (cs f) Hk).
  destruct (selector_parts (cs f)) as (P & R & T & I).
  destruct (Z.eqb_spec (low16 (cs f)) 0x08) as [E8|E8]; cbn [orb negb].
  { replace (rpl (cs f)) with 0 by lia. by destruct d. }
  destruct (Z.eqb_spec (low16 (cs f)) 0x1B) as [E1|E1]; cbn [andb negb]; [|by destruct d].
  replace (rpl (cs f)) with 3 by lia. cbn [Z.eqb]. rewrite loads_stack_kernel by exact Hk.
  destruct (low16 (ss f) =? 0x23); cbn [negb]; [|by destruct d].
  unfold modify, mret, M_mret, mbind, M_mbind. ostep. destruct d as [cn la iq sg c2].
  unfold set_irq, set_data_segments. cbn [con lapic irq data_segments cr2].
  rewrite (map_ext _ kept); [done|]. intros x. by apply keep_segment_kernel.
Qed.

(** [initialize_gdt] builds such a table, with a free task for the double fault. *)
Lemma gdt_segments gdt_at tss_at dft_at stack_top dir kstart kpstart isr t : is_u32 tss_at -> is_u32 dft_at -> tss_at <> dft_at ->
  exists t', initialize_gdt gdt_at tss_at dft_at stack_top dir kstart kpstart isr t = Ret t' /\ kernel_segments (gdt t') /\
    task_at tss_at dft_at t' 48 = Some (double_fault_tss t') /\
    double_fault_tss t' = Tss 0 stack_top 0x10 0 0 0 0 (u32 (u32 (dir - kstart) + kpstart)) isr 0 0 0 0 0 stack_top
      0 0 0 0 0x08 0x10 0x10 0x10 0x10 0 0 0.
Proof.
  intros H5 H6 Hne. rewrite initialize_gdt_run. eexists. split; [reflexivity|]. cbn [gdt load_tr load_gdt].
  assert (forall base limit type, is_u32 base -> 0 <= limit < 2 ^ 20 ->
    attributes (create_segment_descriptor base limit type 0) = (type_code type, type_dpl type, true)) as A.
  { intros base limit type Hb Hl. destruct (segment_descriptor_ok base limit type 0 Hb Hl) as (_ & _ & A1 & A2 & A3 & _).
    unfold attributes. by rewrite A1, A2, A3. }
  split; [|split; [|reflexivity]].
  - eexists 0, _. split; [reflexivity|]. cbn [List.map]. by rewrite !A.
  - unfold task_at. cbn [gdt load_tr load_gdt tr tss double_fault_tss].
    change (selector_index 48 =? selector_index (Z.lor 40 3)) with false.
    match goal with |- context [descriptor_at ?g 48] => change (descriptor_at g 48) with (g !! 6%nat) end. cbn [lookup list_lookup].
    destruct (segment_descriptor_ok dft_at (sizeof_tss - 1) SEGMENT_TSS 0 H6) as (-> & _ & -> & _ & -> & ->); [by split|].
    rewrite (proj2 (Z.eqb_neq dft_at tss_at)), !Z.eqb_refl by congruence. reflexivity.
Qed.

(** Through the double fault's task: the kernel's segments, with interrupts off. *)
Lemma load_task_run g x d : kernel_segments g -> Descriptors.cs x = 0x08 -> Descriptors.ss x = 0x10 ->
  [ds x; es x; fs x; gs x] = [0x10; 0; 0x10; 0x10] -> Descriptors.eflags x = 0 ->
  load_task g x d = Ret (tt, set_data_segments [0x10; 0; 0x10; 0x10] (set_irq false d)).
Proof.
  intros Hk Ec Es Ed Ef. unfold load_task. rewrite Ec, Es, Ed, Ef.
  assert (loads_code g 8 = true) as -> by (by rewrite loads_code_kernel).
  assert (loads_stack g (rpl 8) 0x10 = true /\ forallb (loads_data g (rpl 8)) [0x10; 0; 0x10; 0x10] = true) as [-> ->]; [|done].
  pose proof (descriptor_attributes g 0x10 Hk) as A. cbn in A. unfold forallb, loads_data, loads_stack.
  change (descriptor_at g 0x10) with (descriptor_at g 16) in A.
  destruct (descriptor_at g 0x10) as [e|]; [|discriminate A]. injection A as A1 A2 A3.
  unfold is_code, is_data, writable. rewrite A1, A2, A3. by split.
Qed.

Section theory.
Context (tss_at dft_at : Z).
Context (generic_at division_at not_present_at gp_at page_fault_at double_fault_at preempt_at timer_at syscall_at : Z).
Context (Hd : NoDup [generic_at; division_at; not_present_at; gp_at; page_fault_at; double_fault_at; preempt_at; timer_at; syscall_at]).
#[local] Abbreviation at_address := (handler_at generic_at division_at not_present_at gp_at page_fault_at double_fault_at timer_at).
#[local] Abbreviation raised := (raise tss_at dft_at generic_at division_at not_present_at gp_at page_fault_at double_fault_at timer_at).
#[local] Abbreviation ok := (gate_ok generic_at division_at not_present_at gp_at page_fault_at preempt_at timer_at syscall_at).

Lemma addresses : Forall (fun '(a, h) => at_address a = Some h) [(division_at, handler_for 0); (not_present_at, handler_for 11);
  (gp_at, handler_for 13); (page_fault_at, handler_for 14); (timer_at, handler_for 64); (generic_at, handler_for 1);
  (double_fault_at, handler_for 8)].
Proof.
  repeat (apply NoDup_cons in Hd as [? Hd]). clear Hd. rewrite !not_elem_of_cons in *. destruct_and?. unfold handler_at.
  rewrite !Forall_cons. split_and!; try apply Forall_nil_2;
    rewrite ?Z.eqb_refl, ?(proj2 (Z.eqb_neq _ _)) by congruence; reflexivity.
Qed.

(** What the processor finds at a vector. *)
Lemma gate_handler v d : ok v d -> served v -> v <> 8%nat ->
  at_address (gate_offset d) = Some (handler_for v) /\ (gate_type d =? INTERRUPT_TASK32) = false /\
  (gate_type d =? INTERRUPT_INT32) = negb (bool_decide (v = 11 \/ v = 13 \/ v = 14)%nat).
Proof.
  intros Hg (Hv & H65 & H128) H8. pose proof addresses as A. rewrite !Forall_cons in A. destruct A as (A0 & A11 & A13 & A14 & A64 & A1 & _).
  destruct (decide (v ∈ special)) as [Hs|Hs].
  - unfold special in Hs. rewrite !elem_of_cons, elem_of_nil in Hs.
    destruct Hs as [->|[->|[->|[->|[->|[->|[->|[->|[]]]]]]]]]; try (exfalso; congruence);
      destruct Hg as (_ & -> & _ & _ & ->); try discriminate; (split_and!; [assumption|reflexivity..]).
  - unfold gate_ok in Hg. rewrite gate_spec_generic in Hg by done. destruct Hg as (_ & -> & _ & _ & ->); [|done].
    unfold special in Hs. rewrite !not_elem_of_cons in Hs. destruct Hs as (? & _ & ? & ? & ? & ? & _).
    rewrite bool_decide_eq_false_2 by lia. unfold handler_for in *. rewrite !decide_False by lia. done.
Qed.

(** A handler of vector [v] run on the machine the processor hands it. *)
Lemma handler_runs a v error return_ d : at_address a = Some (handler_for v) ->
  exists out, renders (message v) (message_args v error (cr2 d)) out /\
    run_handler generic_at division_at not_present_at gp_at page_fault_at double_fault_at timer_at a error return_ d =
    (c ← puts out (con d);
     match (handled v c.2 d).1 with
     | Stops => Ret (Stopped, (handled v c.2 d).2)
     | Returns => return_ (handler_for v).1 (handled v c.2 d).2
     end).
Proof.
  intros Eh. destruct (handler_run v error d) as (out & Ho & E). exists out. split; [exact Ho|].
  unfold run_handler. rewrite Eh. destruct (handler_for v) as [b h]. cbn [fst snd] in *. unfold mbind at 1, M_mbind. rewrite E.
  destruct (puts out (con d)) as [[r c]| | |]; ostep; [|done..]. by destruct (handled v _ d) as [[] ?].
Qed.

Lemma raise_interrupt (t : cpu_tables) (v : nat) (error : Z) (f : interrupt_frame_t) (d : device) : kernel_segments (gdt t) ->
  (forall v g, idt t !! v = Some g -> ok v g) -> is_Some (idt t !! v) -> served v -> v <> 8%nat ->
  exists out, renders (message v) (message_args v error (cr2 d)) out /\
    raised t v error f d = (c ← puts out (con d); Ret (ends v (irq d) error f, after v c.2 d (ends v (irq d) error f))).
Proof.
  intros Hk Hi [e Hg] Hv H8. destruct (gate_handler v e (Hi v e Hg) Hv H8) as (Eh & Ek & Et).
  set (d' := if gate_type e =? INTERRUPT_INT32 then set_irq false d else d).
  set (stack := if pushes_error v then error :: frame_words f else frame_words f).
  destruct (handler_runs _ v error (fun has_error => iret (gdt t) (if has_error then tail stack else stack)) d' Eh) as (out & Ho & E).
  assert (cr2 d' = cr2 d /\ con d' = con d) as [E2 E3] by (unfold d'; by destruct (gate_type e =? INTERRUPT_INT32)). rewrite E2 in Ho. rewrite E3 in E. exists out.
  split; [exact Ho|]. unfold raise, liftO, modify. unfold mbind at 1, M_mbind at 1. rewrite (array_get_Some _ _ _ Hg). ostep.
  rewrite Ek. unfold mbind at 1, M_mbind at 1. ostep. fold d' stack. rewrite E.
  destruct (puts out (con d)) as [[r c]| | |]; ostep; [|done..]. unfold handled. cbn [fst snd].
  unfold ends, after, d', stack, flag_inside, fatal, handler_for, pushes_error in *. rewrite Et. clear - H8 Hk.
  rewrite !(decide_False (P := v = 8%nat)) by done.
  destruct (decide (v = 0%nat)) as [->|H0]; [exact (iret_run (gdt t) f [] _ Hk)|].
  destruct (decide (v = 11%nat)) as [->|H11]; [reflexivity|].
  destruct (decide (v = 13%nat)) as [->|H13]; [reflexivity|].
  destruct (decide (v = 14%nat)) as [->|H14].
  { destruct d as [cn la [] sg c2]; [exact (iret_run (gdt t) f [] _ Hk)|reflexivity]. }
  rewrite !(bool_decide_eq_false_2 (v = 11 \/ _)%nat), !(bool_decide_eq_false_2 (v = 8 \/ _)%nat) by lia. cbn [negb].
  destruct (decide (v = 64%nat)) as [->|H64]; [exact (iret_run (gdt t) f [] _ Hk)|].
  rewrite !decide_False by lia.
  destruct (bool_decide _); [exact (iret_run (gdt t) (Frame error (eip f) (cs f) (eflags f) (esp f)) [ss f] _ Hk)|exact (iret_run (gdt t) f [] _ Hk)].
Qed.

Lemma raise_double_fault (t : cpu_tables) x (error : Z) (f : interrupt_frame_t) (d : device) : kernel_segments (gdt t) ->
  (forall v g, idt t !! v = Some g -> ok v g) -> is_Some (idt t !! 8%nat) ->
  task_at tss_at dft_at t 48 = Some x -> Descriptors.eip x = double_fault_at -> Descriptors.cs x = 0x08 -> Descriptors.ss x = 0x10 ->
  [ds x; es x; fs x; gs x] = [0x10; 0; 0x10; 0x10] -> Descriptors.eflags x = 0 ->
  exists out, renders (message 8) (message_args 8 error (cr2 d)) out /\
    raised t 8 error f d = (c ← puts out (con d); Ret (Stopped, after 8 c.2 d Stopped)).
Proof.
  intros Hk Hi [e Hg] Hx Ei Ec Es Ed Ef. pose proof addresses as A. rewrite !Forall_cons in A. destruct A as (_ & _ & _ & _ & _ & _ & Eh & _).
  destruct (Hi 8%nat e Hg) as (_ & Et & _ & Eg & _).
  destruct (handler_runs _ 8 error (fun _ => fault) (set_data_segments [0x10; 0; 0x10; 0x10] (set_irq false d)) Eh) as (out & Ho & E).
  exists out. split; [exact Ho|]. unfold raise, liftO. unfold mbind at 1, M_mbind at 1. rewrite (array_get_Some _ _ _ Hg). ostep.
  rewrite Et, Eg. cbn [Z.eqb Pos.eqb INTERRUPT_TASK32]. unfold mbind at 1, M_mbind at 1. rewrite Hx. cbn [of_option]. ostep.
  unfold mbind at 1, M_mbind at 1. rewrite (load_task_run _ x d Hk Ec Es Ed Ef). ostep. by rewrite Ei, E.
Qed.
End theory.

(** [panic] prints its message and stops the processor with interrupts off. *)
Lemma panic_run m d : panic_message m d = (c ← puts (text "panic: " ++ m) (con d); Ret (Stops, set_irq false (set_con c.2 d))).
Proof.
  destruct (printf_emits (lits "panic: " ++ [Conv false [] KStr]) [AStr m]) as (out & Ho & E);
    [apply (bool_decide_unpack _); by vm_compute|by vm_compute|].
  assert (out = text "panic: " ++ m) as ->.
  { apply renders_lits in Ho as (o & -> & Ho). inversion Ho as [| | | | |z ws s ds args out' Ho'|]; subst.
    inversion Ho'; subst. by rewrite app_nil_r. }
  unfold panic_message. dev. change (text "panic: %s") with (show (lits "panic: " ++ [Conv false [] KStr])).
  rewrite (on_con_emits _ _ _ d E). by destruct (puts _ (con d)) as [[r c]| | |].
Qed.

(** * Properties *)

(** C32: The exceptions and the timer, with the tables [initialize_gdt] and
    [initialize_idt] build, for every vector but the two whose handlers are assembly,
    65 and 128 (C6 and C33): the processor's gate leads to the handler of the
    vector, which prints the vector's message.  A missing segment or a protection fault
    stops the processor with interrupts off, and so does a double fault, in the task
    its gate switches to.  A page fault stops it only if they
    were off, since its gate is a trap gate; otherwise it goes back to the
    instruction that faulted, a user program with its segment registers
    emptied.  The timer acknowledges its interrupt and goes back, as a division by
    zero and the other vectors do, except that [isr_generic] leaves an error
    code on the stack: [iret] takes the error code for the address and the address for
    the code segment, and refuses it unless it looks like a selector of the table. *)
Theorem exceptions_spec gdt_at tss_at dft_at stack_top dir kstart kpstart
    idt_at generic_at division_at not_present_at gp_at page_fault_at double_fault_at preempt_at timer_at syscall_at t v error f d :
  is_u32 tss_at -> is_u32 dft_at -> tss_at <> dft_at ->
  NoDup [generic_at; division_at; not_present_at; gp_at; page_fault_at; double_fault_at; preempt_at; timer_at; syscall_at] ->
  Forall is_u32 [generic_at; division_at; not_present_at; gp_at; page_fault_at; preempt_at; timer_at; syscall_at] -> served v ->
  exists t' out,
    (t ← initialize_gdt gdt_at tss_at dft_at stack_top dir kstart kpstart double_fault_at t;
     initialize_idt idt_at generic_at division_at not_present_at gp_at page_fault_at preempt_at timer_at syscall_at t) = Ret t' /\
    renders (message v) (message_args v error (cr2 d)) out /\
    raise tss_at dft_at generic_at division_at not_present_at gp_at page_fault_at double_fault_at timer_at t' v error f d =
    (c ← puts out (con d); Ret (ends v (irq d) error f, after v c.2 d (ends v (irq d) error f))).
Proof.
  intros H5 H6 Hne Hn Hu Hv.
  destruct (gdt_segments gdt_at tss_at dft_at stack_top dir kstart kpstart double_fault_at t H5 H6 Hne) as (t1 & E1 & Hk & Hx & Ex).
  destruct (initialize_idt_ok idt_at generic_at division_at not_present_at gp_at page_fault_at preempt_at timer_at
    syscall_at t1 Hu) as (t' & E & _ & Hl & (Eg & _ & Et & Er & Ed) & Hg).
  assert (is_Some (idt t' !! v)) as Hs by (apply lookup_lt_is_Some_2; rewrite Hl; apply Hv). rewrite <- Eg in Hk.
  assert (exists out, renders (message v) (message_args v error (cr2 d)) out /\
    raise tss_at dft_at generic_at division_at not_present_at gp_at page_fault_at double_fault_at timer_at t' v error f d =
    (c ← puts out (con d); Ret (ends v (irq d) error f, after v c.2 d (ends v (irq d) error f)))) as (out & Ho & Eo).
  { destruct (decide (v = 8%nat)) as [->|H8]; [|by eapply raise_interrupt].
    assert (task_at tss_at dft_at t' 48 = Some (double_fault_tss t')) as Hx'.
    { rewrite Ed, <- Hx. unfold task_at. rewrite Eg, Er, Ed, Et. done. }
    rewrite <- Ed in Ex. by eapply raise_double_fault; eauto; rewrite Ex. }
  exists t', out. split; [rewrite E1; exact E|]. by split.
Qed.

(** A machine whose serial port is always ready. *)
Definition demo_device (irq : bool) : device :=
  Device (Console 0 (replicate screen_cells (Cell 0 7 0)) (replicate 100 0x20) []) apic_off irq [0x23; 0x23; 0x23; 0x23] 0xBFFFDFFC.
Definition demo_tables : cpu_tables := Tables [] [] zero_tss zero_tss (0, 0) (0, 0) 0.
Definition demo_frame : interrupt_frame_t := Frame 0x401000 0x1B 0x202 0xBFFFE000 0x23.
Definition demo_setup : outcome cpu_tables :=
  t ← initialize_gdt 0x2000 0x3000 0x4000 0x5000 0xC0006000 0xC0000000 0x100000 9 demo_tables;
  initialize_idt 0x1000 1 2 3 4 5 6 7 8 t.

(** An invalid task segment, vector 10, with error code 0x28: the program at 0x401000
    cannot be resumed. *)
Lemma exceptions_spec_witness : exists t' d',
  demo_setup = Ret t' /\
  raise 0x3000 0x4000 1 2 3 4 5 9 7 t' 10 0x28 demo_frame (demo_device true) = Ret (Refused, d') /\
  sent (con d') = concat (map sent_for (text "Generic interrupt." ++ eol)).
Proof.
  destruct (exceptions_spec 0x2000 0x3000 0x4000 0x5000 0xC0006000 0xC0000000 0x100000
    0x1000 1 2 3 4 5 9 6 7 8 demo_tables 10 0x28 demo_frame (demo_device true)) as (t' & out & E & Ho & Er).
  - by split.
  - by split.
  - done.
  - apply (bool_decide_unpack _). by vm_compute.
  - apply (bool_decide_unpack _). by vm_compute.
  - unfold served. lia.
  - exists t'. assert (out = text "Generic interrupt." ++ eol) as ->.
    { change (message 10) with (map Lit (text "Generic interrupt." ++ eol) ++ []) in Ho.
      apply renders_lits in Ho as (o & -> & Ho). inversion Ho. by rewrite app_nil_r. }
    eexists. split; [exact E|]. split; [rewrite Er; vm_compute; reflexivity|]. by vm_compute.
Defined.

(** A page fault of a program, which runs with interrupts on: the message comes out
    and the program goes on at the instruction that faulted, without its data
    segments; its next access to memory is a protection fault, which stops the
    machine. *)
Example page_fault_empties_segments :
  match demo_setup with
  | Ret t' => match raise 0x3000 0x4000 1 2 3 4 5 9 7 t' 14 6 demo_frame (demo_device true) with
    | Ret (o, d') => o = Resumed 0x401000 0x1B 0x202 (Some (0xBFFFE000, 0x23)) /\ data_segments d' = [0; 0; 0; 0] /\
        sent (con d') = concat (map sent_for (text "Exception: Page fault, code 00000006, linear address bfffdffc" ++ eol)) /\
        match raise 0x3000 0x4000 1 2 3 4 5 9 7 t' 13 0 demo_frame d' with Ret (o', _) => o' = Stopped | _ => False end
    | _ => False
    end
  | _ => False
  end.
Proof. vm_compute. by repeat split. Qed.

(** A double fault of the same program: the processor switches to the task of the
    kernel's segments, prints and stops. *)
Example double_fault_stops :
  match demo_setup with
  | Ret t' => match raise 0x3000 0x4000 1 2 3 4 5 9 7 t' 8 0 demo_frame (demo_device true) with
    | Ret (o, d') => o = Stopped /\ irq d' = false /\ data_segments d' = [0x10; 0; 0x10; 0x10] /\
        sent (con d') = concat (map sent_for (text "Exception: Double fault (!!), code 00000000" ++ eol))
    | _ => False
    end
  | _ => False
  end.
Proof. vm_compute. by repeat split. Qed.
