(* ===== verification/Multiboot.v ===== *)
(** The boot loader's table (src/x86/multiboot2.c): a list of tags, each a type,
    a size and contents, read into [struct boot_info_t].

    Memory is a map of bytes, and reading an unmapped one is a fault.  The
    strings are copied with [strcpy] into arrays of 64 bytes (bootloader and
    parameters, set up in x86/quark_x86.c) and 56 bytes (a module's [str]);
    running over the end of an array is undefined behaviour.  The memory map and
    [memmap_insert_region] belong to libmalloc, which is not in the
    repository: the type, the call and the region types are parameters. *)
From S2P Require Import Prelude Status.

(** ** Memory *)
Definition memory := gmap Z Z.

Definition rd8 (m : memory) (a : Z) : outcome Z := of_option (m !! a).
Definition rd32 (m : memory) (a : Z) : outcome Z :=
  b0 ← rd8 m a; b1 ← rd8 m (a + 1); b2 ← rd8 m (a + 2); b3 ← rd8 m (a + 3);
  Ret (b0 + 2 ^ 8 * b1 + 2 ^ 16 * b2 + 2 ^ 24 * b3).
Definition rd64 (m : memory) (a : Z) : outcome Z :=
  l ← rd32 m a; h ← rd32 m (a + 4); Ret (l + 2 ^ 32 * h).

(** [strcpy] into an array with [room] bytes left: the string it then holds. *)
Fixpoint copy_string (room : nat) (m : memory) (a : Z) : outcome (list Z) :=
  match room with
  | O => Fault
  | S room => b ← rd8 m a; if b =? 0 then Ret [] else s ← copy_string room m (a + 1); Ret (b :: s)
  end.

(** [enum multiboot2_tag_types] and [enum multiboot2_memory_types], the ones the
    code tests. *)
Definition MB_END_TAG : Z := 0.
Definition MB_BOOT_COMMAND : Z := 1.
Definition MB_BOOTLOADER : Z := 2.
Definition MB_MODULE : Z := 3.
Definition MB_MEMORY_INFO : Z := 4.
Definition MB_MEMORY_MAP : Z := 6.
Definition MB_AVAILABLE : Z := 1.
Definition MB_DEFECTIVE : Z := 5.

(** The fields of the packed tag structures, by their place in them. *)
Definition string_str (table : Z) : Z := table + 8.
Definition module_start (m : memory) (table : Z) : outcome Z := rd32 m (table + 8).
Definition module_end (m : memory) (table : Z) : outcome Z := rd32 m (table + 12).
Definition module_str (table : Z) : Z := table + 16.
Definition map_entry_base (m : memory) (entry : Z) : outcome Z := rd64 m entry.
Definition map_entry_length (m : memory) (entry : Z) : outcome Z := rd64 m (entry + 8).
Definition map_entry_type (m : memory) (entry : Z) : outcome Z := rd32 m (entry + 16).
Definition memory_map_size (m : memory) (table : Z) : outcome Z := rd32 m (table + 4).
Definition memory_map_entry_size (m : memory) (table : Z) : outcome Z := rd32 m (table + 8).
Definition memory_map_entries (table : Z) : Z := table + 16.
Definition low_memory (m : memory) (table : Z) : outcome Z := rd32 m (table + 8).
Definition high_memory (m : memory) (table : Z) : outcome Z := rd32 m (table + 12).

Definition module_limit : nat := 8.
Definition name_size : nat := 64.
Definition module_str_size : nat := 56.

Record module_t := Module_ { mod_start : Z; mod_end : Z; mod_str : list Z }.

Section table.
Context {Mp : Type} (memmap_insert_region : Mp -> Z -> Z -> Z -> Mp).
Context (M_AVAILABLE M_DEFECTIVE M_UNAVAILABLE : Z).

Record boot_info_t := BootInfo {
  bootloader : list Z;
  parameters : list Z;
  memory_size : Z;
  map : Mp;
  modules : list module_t
}.
Definition module_count (b : boot_info_t) : nat := length (modules b).

Definition set_bootloader v b := BootInfo v (parameters b) (memory_size b) (map b) (modules b).
Definition set_parameters v b := BootInfo (bootloader b) v (memory_size b) (map b) (modules b).
Definition set_memory_size v b := BootInfo (bootloader b) (parameters b) v (map b) (modules b).
Definition set_map v b := BootInfo (bootloader b) (parameters b) (memory_size b) v (modules b).
Definition set_modules v b := BootInfo (bootloader b) (parameters b) (memory_size b) (map b) v.

(** ** Operations *)
Definition region_type (type : Z) : Z :=
  if type =? MB_AVAILABLE then M_AVAILABLE
  else if type =? MB_DEFECTIVE then M_DEFECTIVE else M_UNAVAILABLE.

(** The loop over the entries of a memory map; [tag_size] is unsigned. *)
Fixpoint read_map_entries (fuel : nat) (m : memory) (entry tag_size entry_size : Z) (map : Mp) : outcome Mp :=
  match fuel with
  | O => OutOfFuel
  | S fuel =>
    if tag_size =? 0 then Ret map
    else
      type ← map_entry_type m entry;
      base ← map_entry_base m entry;
      len ← map_entry_length m entry;
      read_map_entries fuel m (entry + entry_size) (u32 (tag_size - entry_size)) entry_size
        (memmap_insert_region map base len (region_type type))
  end.

(** The next tag, or NULL after the last. *)
Definition read_multiboot_table_entry (fuel : nat) (m : memory) (b : boot_info_t) (table : Z)
    : outcome (Z * boot_info_t) :=
  type ← rd32 m table;
  if type =? MB_END_TAG then Ret (NULL, b)
  else
    b ← (if type =? MB_MEMORY_INFO then
           high ← high_memory m table;
           low ← low_memory m table;
           Ret (set_memory_size (u32 (u32 (high * 1024) + u32 (low * 1024))) b)
         else if type =? MB_MEMORY_MAP then
           size ← memory_map_size m table;
           entry_size ← memory_map_entry_size m table;
           map ← read_map_entries fuel m (memory_map_entries table) (u32 (size - 16)) entry_size (map b);
           Ret (set_map map b)
         else if type =? MB_MODULE then
           if decide (module_count b < module_limit)%nat then
             start ← module_start m table;
             end_ ← module_end m table;
             str ← copy_string module_str_size m (module_str table);
             let size := Z.ldiff (u32 (u32 (end_ - start) + 4095)) 4095 in
             Ret (set_modules (modules b ++ [Module_ start end_ str])
                   (set_map (memmap_insert_region (map b) start size M_UNAVAILABLE) b))
           else Ret b
         else if type =? MB_BOOT_COMMAND then
           s ← copy_string name_size m (string_str table); Ret (set_parameters s b)
         else if type =? MB_BOOTLOADER then
           s ← copy_string name_size m (string_str table); Ret (set_bootloader s b)
         else Ret b);
    w ← rd32 m (table + 4);
    let size := u32 (u32 (w + 7) - u32 (w + 7) mod 8) in
    Ret (table + size, b).

Fixpoint read_tags (fuel efuel : nat) (m : memory) (b : boot_info_t) (table : Z) : outcome boot_info_t :=
  match fuel with
  | O => OutOfFuel
  | S fuel =>
    if table =? NULL then Ret b
    else '(table, b) ← read_multiboot_table_entry efuel m b table; read_tags fuel efuel m b table
  end.

Definition read_multiboot_table (fuel efuel : nat) (m : memory) (b : boot_info_t) (table : Z)
    : outcome (Z * boot_info_t) :=
  n ← rd32 m table;
  b ← read_tags fuel efuel m b (table + 8);
  Ret (table + n, b).

(** ** Reference: tables as lists of tags *)
Inductive tag :=
  | MemoryInfo (low high : Z)
  | MemoryMap (entry_size : Z) (entries : list (Z * Z * Z))
  | BootModule (start end_ : Z) (str : list Z)
  | BootCommand (str : list Z)
  | BootLoader (str : list Z)
  | Unknown (type : Z).

Definition tag_type (t : tag) : Z :=
  match t with
  | MemoryInfo _ _ => MB_MEMORY_INFO | MemoryMap _ _ => MB_MEMORY_MAP | BootModule _ _ _ => MB_MODULE
  | BootCommand _ => MB_BOOT_COMMAND | BootLoader _ => MB_BOOTLOADER | Unknown type => type
  end.

(** The bytes of memory a tag's contents are in. *)
Definition word_at (m : memory) (a w : Z) : Prop := rd32 m a = Ret w.
Definition long_at (m : memory) (a w : Z) : Prop := rd64 m a = Ret w.
Fixpoint string_at (m : memory) (a : Z) (s : list Z) : Prop :=
  match s with
  | [] => rd8 m a = Ret 0
  | c :: s => rd8 m a = Ret c /\ c <> 0 /\ string_at m (a + 1) s
  end.
Fixpoint entries_at (m : memory) (a entry_size : Z) (l : list (Z * Z * Z)) : Prop :=
  match l with
  | [] => True
  | (base, len, type) :: l =>
    long_at m a base /\ long_at m (a + 8) len /\ word_at m (a + 16) type /\
    entries_at m (a + entry_size) entry_size l
  end.

(** The tag with its size field [size] is in memory at [a]. *)
Definition tag_at (m : memory) (a size : Z) (t : tag) : Prop :=
  word_at m a (tag_type t) /\ word_at m (a + 4) size /\ 8 <= size < 2 ^ 32 - 7 /\
  match t with
  | MemoryInfo low high => word_at m (a + 8) low /\ word_at m (a + 12) high
  | MemoryMap entry_size entries =>
    word_at m (a + 8) entry_size /\ 0 < entry_size < 2 ^ 32 /\
    size = 16 + entry_size * Z.of_nat (length entries) /\ entries_at m (a + 16) entry_size entries
  | BootModule start end_ str =>
    word_at m (a + 8) start /\ word_at m (a + 12) end_ /\ string_at m (a + 16) str /\
    (length str < module_str_size)%nat
  | BootCommand str | BootLoader str => string_at m (a + 8) str /\ (length str < name_size)%nat
  | Unknown type => type <> MB_END_TAG /\ type <> MB_BOOT_COMMAND /\ type <> MB_BOOTLOADER /\
    type <> MB_MODULE /\ type <> MB_MEMORY_INFO /\ type <> MB_MEMORY_MAP
  end.

(** Sizes are rounded up to the next multiple of 8. *)
Definition padded (size : Z) : Z := (size + 7) / 8 * 8.

Fixpoint tags_at (m : memory) (a : Z) (l : list (Z * tag)) : Prop :=
  match l with
  | [] => word_at m a MB_END_TAG
  | (size, t) :: l => tag_at m a size t /\ tags_at m (a + padded size) l
  end.

(** What a tag tells the kernel. *)
Definition apply_tag (b : boot_info_t) (t : tag) : boot_info_t :=
  match t with
  | MemoryInfo low high => set_memory_size (u32 (1024 * (low + high))) b
  | MemoryMap _ entries =>
    set_map (fold_left (fun mp '(base, len, type) => memmap_insert_region mp base len (region_type type)) entries (map b)) b
  | BootModule start end_ str =>
    if decide (module_count b < module_limit)%nat then
      set_modules (modules b ++ [Module_ start end_ str])
        (set_map (memmap_insert_region (map b) start (Z.ldiff (u32 (u32 (end_ - start) + 4095)) 4095) M_UNAVAILABLE) b)
    else b
  | BootCommand str => set_parameters str b
  | BootLoader str => set_bootloader str b
  | Unknown _ => b
  end.

Definition map_entries (t : tag) : nat := match t with MemoryMap _ l => length l | _ => O end.

(** ** Lemmas *)
Lemma copy_string_ok m str : forall room a, string_at m a str -> (length str < room)%nat ->
  copy_string room m a = Ret str.
Proof.
  induction str as [|c str IH]; intros [|room] a Hs Hr; cbn [length] in Hr; try lia; cbn [copy_string string_at] in *.
  - by rewrite Hs.
  - destruct Hs as (-> & Hc & Hs). ostep. rewrite (proj2 (Z.eqb_neq _ _) Hc).
    rewrite (IH room) by (done || lia). done.
Qed.

Ltac unfold_fields := unfold high_memory, low_memory, memory_map_size, memory_map_entry_size, memory_map_entries, module_start, module_end,
  module_str, string_str.

Lemma read_map_entries_ok m entry_size l : 0 < entry_size -> forall fuel a mp,
  entries_at m a entry_size l -> entry_size * Z.of_nat (length l) < 2 ^ 32 -> (length l < fuel)%nat ->
  read_map_entries fuel m a (entry_size * Z.of_nat (length l)) entry_size mp =
    Ret (fold_left (fun mp '(base, len, type) => memmap_insert_region mp base len (region_type type)) l mp).
Proof.
  intros Hpos. induction l as [|[[base len] type] l IH]; intros [|fuel] a mp Ha Hmax Hf; cbn [length] in Hf; try lia;
    cbn [read_map_entries length entries_at fold_left] in *; unfold map_entry_type, map_entry_base, map_entry_length.
  - by rewrite Z.mul_0_r.
  - destruct Ha as (Hb & Hl & Ht & Ha). rewrite (proj2 (Z.eqb_neq _ _)) by nia.
    unfold word_at, long_at in *. rewrite Ht. ostep. rewrite Hb. ostep. rewrite Hl. ostep.
    replace (u32 (entry_size * Z.of_nat (S (length l)) - entry_size)) with (entry_size * Z.of_nat (length l)).
    + apply IH; [done|nia|lia].
    + rewrite u32_id; unfold is_u32; nia.
Qed.

Lemma next_tag size : 8 <= size < 2 ^ 32 - 7 -> u32 (u32 (size + 7) - u32 (size + 7) mod 8) = padded size.
Proof.
  intros Hs. unfold padded. rewrite !(u32_id (size + 7)) by (unfold is_u32; lia).
  rewrite u32_id; unfold is_u32; Z.div_mod_to_equations; lia.
Qed.

(** Decide which case of the [switch] a known type takes. *)
Ltac known_type :=
  cbn [Z.eqb Pos.eqb MB_END_TAG MB_BOOT_COMMAND MB_BOOTLOADER MB_MODULE MB_MEMORY_INFO MB_MEMORY_MAP]; cbv iota.

Lemma read_entry_ok fuel m b a size t : tag_at m a size t -> (map_entries t < fuel)%nat ->
  read_multiboot_table_entry fuel m b a = Ret (a + padded size, apply_tag b t).
Proof.
  intros (Ht & Hs & Hr & Hc) Hf. unfold read_multiboot_table_entry. unfold_fields. unfold word_at in *. rewrite Ht. ostep.
  destruct t as [low high|es l|start end_ str|str|str|type]; cbn [tag_type apply_tag map_entries] in *.
  - destruct Hc as [H1 H2]. known_type. rewrite H2. ostep. rewrite H1. ostep. rewrite Hs. ostep.
    rewrite next_tag by done.
    replace (u32 (u32 (high * 1024) + u32 (low * 1024))) with (u32 (1024 * (low + high))); [done|].
    unfold u32. rewrite <- Z.add_mod by lia. f_equal. lia.
  - destruct Hc as (H1 & H2 & -> & H3). rewrite Hs. known_type. ostep.
    rewrite H1. ostep. replace (u32 (16 + es * Z.of_nat (length l) - 16)) with (es * Z.of_nat (length l))
      by (rewrite u32_id; unfold is_u32; lia).
    rewrite (read_map_entries_ok m es l) by (done || lia). ostep. by rewrite next_tag.
  - destruct Hc as (H1 & H2 & H3 & H4). known_type.
    case_decide; [|ostep; rewrite Hs; ostep; by rewrite next_tag].
    rewrite H1. ostep. rewrite H2. ostep. rewrite (copy_string_ok m str) by done. ostep. rewrite Hs. ostep. by rewrite next_tag.
  - destruct Hc as (H1 & H2). known_type.
    rewrite (copy_string_ok m str) by done. ostep. rewrite Hs. ostep. by rewrite next_tag.
  - destruct Hc as (H1 & H2). known_type.
    rewrite (copy_string_ok m str) by done. ostep. rewrite Hs. ostep. by rewrite next_tag.
  - destruct Hc as (H1 & H2 & H3 & H4 & H5 & H6). rewrite !(proj2 (Z.eqb_neq _ _)) by done.
    ostep. rewrite Hs. ostep. by rewrite next_tag.
Qed.

Lemma read_tags_ok m efuel l : forall fuel a b, tags_at m a l -> 0 < a -> (S (length l) < fuel)%nat ->
  Forall (fun e => map_entries e.2 < efuel)%nat l ->
  read_tags fuel efuel m b a = Ret (fold_left (fun b e => apply_tag b e.2) l b).
Proof.
  induction l as [|[size t] l IH]; intros [|fuel] a b Ha Hpos Hf He; cbn [length] in Hf; try lia;
    cbn [read_tags tags_at fold_left] in *; rewrite (proj2 (Z.eqb_neq a NULL)) by (unfold NULL; lia).
  - destruct fuel as [|fuel]; [lia|]. unfold read_multiboot_table_entry. unfold word_at in Ha. rewrite Ha. ostep. done.
  - destruct Ha as [Ht Ha]. apply Forall_cons in He as [He1 He]. cbn [snd] in He1.
    rewrite (read_entry_ok efuel m b a size t) by done. ostep. apply IH; [done| |lia|done].
    destruct Ht as (_ & _ & Hs & _). unfold padded. Z.div_mod_to_equations. lia.
Qed.
End table.
Arguments BootInfo {Mp}.

(** * Properties *)

(** Reading a well-formed boot table ends (with one round per tag and per
    memory region) and reports exactly what the tags say, in order: the memory
    size in bytes, the regions given to the memory map, at most eight modules,
    each also reserved in the map, and the two strings; the result is the end of
    the table. *)
Theorem read_multiboot_table_spec {Mp} (insert : Mp -> Z -> Z -> Z -> Mp) avail defective unavail
    m efuel fuel table total l (b : boot_info_t (Mp := Mp)) :
  word_at m table total -> tags_at m (table + 8) l -> 0 <= table -> (S (length l) < fuel)%nat ->
  Forall (fun e => map_entries e.2 < efuel)%nat l ->
  read_multiboot_table insert avail defective unavail fuel efuel m b table =
    Ret (table + total, fold_left (fun b e => apply_tag insert avail defective unavail b e.2) l b).
Proof.
  intros Ht Hl Hpos Hf He. unfold read_multiboot_table. unfold word_at in Ht. rewrite Ht. ostep.
  rewrite (read_tags_ok insert avail defective unavail m efuel l) by (done || lia). done.
Qed.

(** Little-endian words as bytes; a memory with the given bytes from [a] on. *)
Definition word_bytes (w : Z) : list Z := [w mod 256; w / 2 ^ 8 mod 256; w / 2 ^ 16 mod 256; w / 2 ^ 24 mod 256].
Fixpoint bytes_from (a : Z) (l : list Z) : memory :=
  match l with [] => ∅ | b :: l => <[a := b]> (bytes_from (a + 1) l) end.

(** 640 KiB and 1 MiB of memory, and one module. *)
Definition demo_table : memory := bytes_from 0x1000
  (concat (List.map word_bytes [56; 0; 4; 16; 640; 1024; 3; 18; 0x200000; 0x201234]) ++
   [107; 0; 0; 0; 0; 0; 0; 0] ++ concat (List.map word_bytes [0; 8])).
Definition demo_info : boot_info_t (Mp := list (Z * Z * Z)) := BootInfo [] [] 0 [] [].
Definition demo_insert (mp : list (Z * Z * Z)) (base len type : Z) : list (Z * Z * Z) := mp ++ [(base, len, type)].

Lemma read_multiboot_table_spec_witness :
  read_multiboot_table demo_insert 1 2 3 4 1 demo_table demo_info 0x1000 =
  Ret (0x1038, BootInfo [] [] 1703936 [(0x200000, 0x2000, 3)] [Module_ 0x200000 0x201234 [107]]).
Proof.
  apply (read_multiboot_table_spec demo_insert 1 2 3 demo_table 1 4 0x1000 56
    [(16, MemoryInfo 640 1024); (18, BootModule 0x200000 0x201234 [107])] demo_info);
    [reflexivity| |lia|cbn; lia|repeat constructor].
  split; [split; [reflexivity|split; [reflexivity|split; [lia|split; reflexivity]]]|].
  split; [|reflexivity].
  split; [reflexivity|split; [reflexivity|split; [lia|split; [reflexivity|split; [reflexivity|split]]]]].
  - split; [reflexivity|split; [discriminate|reflexivity]].
  - unfold module_str_size. cbn. lia.
Defined.

(** A tag of an unknown type with size 0 is read for ever: the reader does
    not advance, and no number of rounds ends the walk. *)
Theorem read_tags_size_zero {Mp} (insert : Mp -> Z -> Z -> Z -> Mp) avail defective unavail m efuel a type
    (b : boot_info_t (Mp := Mp)) :
  word_at m a type -> word_at m (a + 4) 0 -> 0 < a ->
  type ∉ [MB_END_TAG; MB_BOOT_COMMAND; MB_BOOTLOADER; MB_MODULE; MB_MEMORY_INFO; MB_MEMORY_MAP] ->
  forall fuel, read_tags insert avail defective unavail fuel efuel m b a = OutOfFuel.
Proof.
  intros Ht Hs Ha Htype. rewrite !elem_of_cons, elem_of_nil in Htype.
  assert (read_multiboot_table_entry insert avail defective unavail efuel m b a = Ret (a, b)) as E.
  { unfold read_multiboot_table_entry. unfold word_at in *. rewrite Ht. ostep.
    rewrite !(proj2 (Z.eqb_neq _ _)) by tauto. ostep. rewrite Hs. ostep.
    change (u32 (u32 (0 + 7) - u32 (0 + 7) mod 8)) with 0. by rewrite Z.add_0_r. }
  induction fuel as [|fuel IH]; [done|]. cbn [read_tags].
  rewrite (proj2 (Z.eqb_neq a NULL)) by (unfold NULL; lia). rewrite E. ostep. exact IH.
Qed.

Lemma read_tags_size_zero_witness :
  read_tags demo_insert 1 2 3 50 1 (bytes_from 0x1000 (word_bytes 9 ++ word_bytes 0)) demo_info 0x1000 = OutOfFuel.
Proof.
  apply (read_tags_size_zero demo_insert 1 2 3 (bytes_from 0x1000 (word_bytes 9 ++ word_bytes 0)) 1 0x1000 9 demo_info);
    [reflexivity|reflexivity|lia|].
  rewrite !elem_of_cons, elem_of_nil. unfold MB_END_TAG, MB_BOOT_COMMAND, MB_BOOTLOADER, MB_MODULE, MB_MEMORY_INFO, MB_MEMORY_MAP.
  lia.
Defined.
