(* ===== verification/Elf.v ===== *)
(** The program loader (src/elf.c, include/elf.h) over the address spaces of
    Space.v: the image is in the current space, its loadable segments get pages
    of their own and are copied there.

    The fields are read from memory each time the code reads them.  [fuel]
    bounds the loop over the pages of a segment. *)
From S2P Require Import Prelude Status Paging Space Frames.

Definition elf_magic_number : Z := 0x464c457f.
Definition ELF_LOAD : Z := 1.

(** Offsets of the fields in the 32-bit headers. *)
Definition elf_entry : Z := 24.
Definition elf_phoffset : Z := 28.
Definition elf_phsize : Z := 42.
Definition elf_phcount : Z := 44.
Definition ph_type : Z := 0.
Definition ph_offset : Z := 4.
Definition ph_vaddr : Z := 8.
Definition ph_memsize : Z := 20.

Section load.
Context {W : Type} `{AddressSpaces W}.

Definition read_half (a : Z) : M W Z :=
  b0 ← as_read8 a; b1 ← as_read8 (a + 1); mret (b0 + 2 ^ 8 * b1).

(** [memcpy] on the current space, in ascending order as in string.c. *)
Fixpoint copy_bytes (n : nat) (d s : Z) : M W unit :=
  match n with
  | O => mret tt
  | S n => b ← as_read8 s; _ ← as_write8 d b; copy_bytes n (d + 1) (s + 1)
  end.

(** The loop over the pages of the segment of [program_header], at offset [n]. *)
Fixpoint load_segment (fuel : nat) (program_header d s n : Z) : M W Z :=
  match fuel with
  | O => fun _ => OutOfFuel
  | S fuel =>
    memsize ← read_word (program_header + ph_memsize);
    if n <? memsize then
      page ← as_reserve_page;
      if page =? err ENOMEM then mret (err ENOMEM)
      else
        status ← as_map_page (u32 (d + n)) page (Z.lor (Z.lor PAGE_RW PAGE_USERMODE) PAGE_EXECUTABLE);
        if (status =? err ENOMEM) || (status =? err EOUTOFBOUNDS) then mret status
        else
          _ ← (if status =? err ENONE then
                 memsize ← read_word (program_header + ph_memsize);
                 copy_bytes (Z.to_nat (if u32 (n + page_size) <? memsize then page_size else u32 (memsize - n)))
                   (u32 (d + n)) (u32 (s + n))
               else mret tt);
          load_segment fuel program_header d s (u32 (n + page_size))
    else mret (err ENONE)
  end.

(** The loop over the program headers, [count] of them left. *)
Fixpoint load_headers (count fuel : nat) (elf program_header : Z) : M W Z :=
  match count with
  | O => mret (err ENONE)
  | S count =>
    type ← read_word (program_header + ph_type);
    r ← (if type =? ELF_LOAD then
           d ← read_word (program_header + ph_vaddr);
           off ← read_word (program_header + ph_offset);
           load_segment fuel program_header d (u32 (elf + off)) 0
         else mret (err ENONE));
    if negb (r =? err ENONE) then mret r
    else
      phsize ← read_half (elf + elf_phsize);
      load_headers count fuel elf (u32 (program_header + phsize))
  end.

Definition load_program (fuel : nat) (elf : Z) : M W Z :=
  phoffset ← read_word (elf + elf_phoffset);
  count ← read_half (elf + elf_phcount);
  load_headers (Z.to_nat count) fuel elf (u32 (elf + phoffset)).
End load.

(** * Theory *)
Section theory.
Context {W : Type} `{AddressSpacesMap W}.
Implicit Types m : W.

(** [m'] is [m] but for the bytes of [P] in the current space. *)
Definition keeps_bytes (P : Z -> Prop) m m' : Prop :=
  as_wf m' /\ as_current m' = as_current m /\
  forall t a, ~ (t = as_current m /\ P a) -> as_byte m' t a = as_byte m t a.

Lemma keeps_same (P : Z -> Prop) m m' : same_memory m m' -> keeps_bytes P m m'.
Proof. intros (F & C & B). split_and!; auto. Qed.

Lemma keeps_refl (P : Z -> Prop) m : as_wf m -> keeps_bytes P m m.
Proof. intros F. by split_and!. Qed.

Lemma keeps_bytes_trans (P Q R : Z -> Prop) m1 m2 m3 : keeps_bytes P m1 m2 -> keeps_bytes Q m2 m3 ->
  (forall a, P a -> R a) -> (forall a, Q a -> R a) -> keeps_bytes R m1 m3.
Proof.
  intros (F1 & C1 & B1) (F2 & C2 & B2) HP HQ. split; [done|]. split; [congruence|].
  intros t a Hn. rewrite B2, B1; [done|..]; intros [? ?]; apply Hn; split; try congruence; auto.
Qed.

(** The byte at [a] in the current space, and a run of them. *)
Definition bytes_at m (a : Z) (n : Z) (f : Z -> Z) : Prop :=
  forall i, 0 <= i < n -> as_byte m (as_current m) (a + i) = Some (f i).

Lemma keeps_bytes_at (P : Z -> Prop) m m' a n f : keeps_bytes P m m' -> (forall i, 0 <= i < n -> ~ P (a + i)) ->
  bytes_at m a n f -> bytes_at m' a n f.
Proof. intros (_ & C & B) HP Hb i Hi. rewrite C, B; [by apply Hb|]. intros [_ Hp]. by apply (HP i). Qed.

Lemma copy_bytes_ok n : forall m d s f, as_wf m ->
  bytes_at m s (Z.of_nat n) f -> (forall i, 0 <= i < Z.of_nat n -> is_Some (as_byte m (as_current m) (d + i))) ->
  d + Z.of_nat n <= s \/ s + Z.of_nat n <= d ->
  exists m', copy_bytes n d s m = Ret (tt, m') /\ keeps_bytes (fun a => d <= a < d + Z.of_nat n) m m' /\
    bytes_at m' d (Z.of_nat n) f.
Proof.
  induction n as [|n IH]; intros m d s f Hwf Hs Hd Hdis; cbn [copy_bytes].
  { exists m. split; [done|]. split; [by apply keeps_refl|]. intros i Hi. lia. }
  pose proof (Hs 0 ltac:(lia)) as S0. rewrite Z.add_0_r in S0.
  pose proof (Hd 0 ltac:(lia)) as D0. rewrite Z.add_0_r in D0.
  unfold mbind, M_mbind. rewrite (as_read8_ok m s _ Hwf S0). ostep.
  destruct (as_write8_ok m d (f 0) Hwf D0) as (m1 & E1 & F1 & C1 & B1); [by apply (as_byte_range _ _ _ _ S0)|].
  rewrite E1. ostep.
  destruct (IH m1 (d + 1) (s + 1) (fun i => f (i + 1)) F1) as (m2 & E2 & K2 & B2).
  - intros i Hi. rewrite C1, B1, decide_False by lia. rewrite <- Z.add_assoc, (Z.add_comm 1 i). apply Hs. lia.
  - intros i Hi. rewrite C1, B1, decide_False by lia. rewrite <- Z.add_assoc. apply Hd. lia.
  - lia.
  - exists m2. split; [exact E2|]. split.
    + apply (keeps_bytes_trans (fun a => a = d) (fun a => d + 1 <= a < d + 1 + Z.of_nat n) _ m m1);
        [|exact K2|intros; lia|intros; lia].
      split; [done|]. split; [done|]. intros t a Hn. by rewrite B1, decide_False.
    + intros i Hi. destruct (decide (i = 0)) as [->|Hne].
      * destruct K2 as (_ & C2 & K2). rewrite C2, Z.add_0_r, K2 by lia. by rewrite C1, B1, decide_True.
      * replace (d + i) with (d + 1 + (i - 1)) by lia. rewrite (B2 (i - 1)) by lia. f_equal. f_equal. lia.
Qed.

Lemma read_word_bytes m a f : as_wf m -> bytes_at m a 4 f ->
  read_word a m = Ret (f 0 + 2 ^ 8 * f 1 + 2 ^ 16 * f 2 + 2 ^ 24 * f 3, m).
Proof.
  intros Hwf Hb. unfold read_word, mbind, M_mbind. rewrite <- (Z.add_0_r a) at 1.
  rewrite (as_read8_ok m _ _ Hwf (Hb 0 ltac:(lia))). ostep. rewrite (as_read8_ok m _ _ Hwf (Hb 1 ltac:(lia))). ostep.
  rewrite (as_read8_ok m _ _ Hwf (Hb 2 ltac:(lia))). ostep. rewrite (as_read8_ok m _ _ Hwf (Hb 3 ltac:(lia))). ostep. done.
Qed.

Lemma read_half_bytes m a f : as_wf m -> bytes_at m a 2 f -> read_half a m = Ret (f 0 + 2 ^ 8 * f 1, m).
Proof.
  intros Hwf Hb. unfold read_half, mbind, M_mbind. rewrite <- (Z.add_0_r a) at 1.
  rewrite (as_read8_ok m _ _ Hwf (Hb 0 ltac:(lia))). ostep. rewrite (as_read8_ok m _ _ Hwf (Hb 1 ltac:(lia))). ostep. done.
Qed.

(** The image: [len] bytes [f] at [elf], and the numbers in it. *)
Section image.
Context (elf len : Z) (f : Z -> Z).
Context (Helf : 0 <= elf) (Hlen : elf + len < 2 ^ 32).

Definition image m : Prop := as_wf m /\ bytes_at m elf len f.
Definition in_image (a : Z) : Prop := elf <= a < elf + len.
Definition word_of (i : Z) : Z := f i + 2 ^ 8 * f (i + 1) + 2 ^ 16 * f (i + 2) + 2 ^ 24 * f (i + 3).
Definition half_of (i : Z) : Z := f i + 2 ^ 8 * f (i + 1).

Lemma keeps_image (P : Z -> Prop) m m' : keeps_bytes P m m' -> (forall a, P a -> ~ in_image a) -> image m -> image m'.
Proof.
  intros K HP [Hwf Hb]. split; [apply K|]. eapply keeps_bytes_at; [exact K| |exact Hb].
  intros i Hi Hp. apply (HP _ Hp). unfold in_image. lia.
Qed.

Lemma image_bytes m i n : image m -> 0 <= i -> i + n <= len -> bytes_at m (elf + i) n (fun j => f (i + j)).
Proof. intros [_ Hb] Hi Hn j Hj. rewrite <- Z.add_assoc. apply Hb. lia. Qed.

Lemma image_word m i : image m -> 0 <= i -> i + 4 <= len -> read_word (elf + i) m = Ret (word_of i, m).
Proof.
  intros Hm Hi Hn. rewrite (read_word_bytes m (elf + i) (fun j => f (i + j))); [|apply Hm|by apply image_bytes].
  unfold word_of. by rewrite Z.add_0_r.
Qed.

Lemma image_half m i : image m -> 0 <= i -> i + 2 <= len -> read_half (elf + i) m = Ret (half_of i, m).
Proof.
  intros Hm Hi Hn. rewrite (read_half_bytes m (elf + i) (fun j => f (i + j))); [|apply Hm|by apply image_bytes].
  unfold half_of. by rewrite Z.add_0_r.
Qed.

(** The pages a segment of [size] bytes at [d] takes. *)
Definition pages_of (d size a : Z) : Prop := d <= a < d + (size + 4095) / 4096 * 4096.

(** A segment that can be loaded: aligned, in user pages, from within the
    image, and not over it. *)
Record segment_ok (d off size : Z) : Prop := {
  sg_aligned : d mod 4096 = 0 /\ 0 <= d;
  sg_size : 0 <= size /\ d + size + 4096 <= 2 ^ 32;
  sg_source : 0 <= off /\ off + size <= len;
  sg_user : forall page, pages_of d size page -> page mod 4096 = 0 -> as_user_page page;
  sg_apart : forall a, pages_of d size a -> ~ in_image a
}.

Lemma load_flags_rw : has_flag (Z.lor (Z.lor PAGE_RW PAGE_USERMODE) PAGE_EXECUTABLE) PAGE_RW = true.
Proof. done. Qed.

(** The bytes of one page of a segment. *)
Definition chunk (size n : Z) : Z := Z.min 4096 (size - n).

Lemma page_of_range p a : p mod 4096 = 0 -> a / 4096 = p / 4096 <-> p <= a < p + 4096.
Proof. intros Hp. Z.div_mod_to_equations. lia. Qed.

Lemma page_within n size : n mod 4096 = 0 -> 0 <= n < size -> n + 4096 <= (size + 4095) / 4096 * 4096.
Proof. intros. Z.div_mod_to_equations. lia. Qed.

Lemma fill_run ph d off size n m : segment_ok d off size -> 0 <= ph -> ph + 24 <= len ->
  word_of (ph + ph_memsize) = size -> image m -> 0 <= n < size -> n mod 4096 = 0 ->
  (forall a, d + n <= a < d + n + 4096 -> is_Some (as_byte m (as_current m) a)) ->
  exists m', (memsize ← read_word (elf + ph + ph_memsize);
     copy_bytes (Z.to_nat (if u32 (n + page_size) <? memsize then page_size else u32 (memsize - n)))
       (d + n) (u32 (elf + off + n))) m = Ret (tt, m') /\
    keeps_bytes (fun a => d + n <= a < d + n + 4096) m m' /\
    bytes_at m' (d + n) (chunk size n) (fun i => f (off + n + i)).
Proof.
  intros [[Sa Sd] [Ss Smax] [So Sl] Su Sx] Hph Hphl Hsize Him Hn Hal Hmap.
  assert (pages_of d size (d + n)) as Hpg by (unfold pages_of; Z.div_mod_to_equations; lia).
  unfold mbind, M_mbind. rewrite <- (Z.add_assoc elf ph ph_memsize).
  rewrite (image_word m (ph + ph_memsize)) by (done || (unfold ph_memsize; lia)). ostep. rewrite Hsize.
  rewrite (u32_id (n + page_size)) by (unfold is_u32, page_size; lia).
  rewrite (u32_id (elf + off + n)) by (unfold is_u32; lia). rewrite (u32_id (size - n)) by (unfold is_u32; lia).
  replace (if n + page_size <? size then page_size else size - n) with (chunk size n)
    by (unfold chunk, page_size; destruct (Z.ltb_spec (n + 4096) size); lia).
  assert (0 <= chunk size n <= 4096 /\ n + chunk size n <= size) as Hch by (unfold chunk; lia).
  destruct (copy_bytes_ok (Z.to_nat (chunk size n)) m (d + n) (elf + off + n) (fun i => f (off + n + i)) (proj1 Him))
    as (m3 & E3 & K3 & B3).
  { intros i Hi. replace (elf + off + n + i) with (elf + (off + n + i)) by lia. apply Him. lia. }
  { intros i Hi. apply Hmap. lia. }
  { destruct (Z.le_gt_cases (d + n + chunk size n) (elf + off + n)); [lia|].
    destruct (Z.le_gt_cases (elf + off + n + chunk size n) (d + n)); [lia|exfalso].
    destruct (Z.le_gt_cases (d + n) (elf + off + n)).
    - apply (Sx (elf + off + n)); unfold pages_of, in_image; Z.div_mod_to_equations; lia.
    - apply (Sx (d + n)); [done|]. unfold in_image. lia. }
  exists m3. split; [exact E3|]. rewrite Z2Nat.id in K3, B3 by lia. split; [|exact B3].
  apply (keeps_bytes_trans _ (fun _ => False) _ _ _ _ K3); [apply keeps_refl, K3|intros; lia|tauto].
Qed.

(** Reserving and mapping the page at offset [n]: mapped, or out of frames. *)
Lemma map_run d off size n m : segment_ok d off size -> image m -> 0 <= n < size -> n mod 4096 = 0 ->
  exists p m1, as_reserve_page m = Ret (p, m1) /\
    ((p = err ENOMEM /\ same_memory m m1) \/
     (p <> err ENOMEM /\ exists st m2,
       as_map_page (u32 (d + n)) p (Z.lor (Z.lor PAGE_RW PAGE_USERMODE) PAGE_EXECUTABLE) m1 = Ret (st, m2) /\
       ((st = err ENOMEM /\ same_memory m m2) \/
        (st = err ENONE /\ image m2 /\ keeps_bytes (fun a => d + n <= a < d + n + 4096) m m2 /\
         forall a, d + n <= a < d + n + 4096 -> is_Some (as_byte m2 (as_current m2) a))))).
Proof.
  intros [[Sa Sd] [Ss Smax] [So Sl] Su Sx] Him Hn Hal.
  assert (pages_of d size (d + n)) as Hpg by (unfold pages_of; Z.div_mod_to_equations; lia).
  assert ((d + n) mod 4096 = 0) as Hdn by (Z.div_mod_to_equations; lia).
  destruct (as_reserve_map_ok m (proj1 Him)) as (p & m1 & E1 & Q1 & Hp). exists p, m1. split; [done|].
  pose proof Q1 as (F1 & C1 & B1).
  destruct Hp as [->|(Hpne & Hpal & Hmap)]; [by left|right]. split; [done|].
  destruct (Hmap (d + n) _ (Su _ Hpg Hdn) load_flags_rw) as (st & m2 & E2 & Hst).
  rewrite (u32_id (d + n)) by (unfold is_u32; lia). exists st, m2. split; [done|].
  destruct Hst as [[-> (F2 & C2 & B2)]|(-> & F2 & C2 & B2 & M2)].
  - left. split; [done|]. split; [done|]. split; [congruence|]. intros t a. by rewrite B2.
  - right. split; [done|].
    assert (keeps_bytes (fun a => d + n <= a < d + n + 4096) m m2) as K2.
    { split; [done|]. split; [congruence|]. intros t a Hn'. rewrite B2, B1; [done|].
      rewrite page_of_range, C1 by done. tauto. }
    split; [|split; [exact K2|]].
    + eapply keeps_image; [exact K2| |exact Him]. intros a Ha. cbv beta in Ha. apply Sx. unfold pages_of.
      pose proof (page_within n size). lia.
    + intros a Ha. rewrite C2. apply M2, page_of_range; done.
Qed.

(** With a budget of two frames a page, one of them for a table, there is always
    a frame. *)
Context (frames : nat -> W -> Prop) {Hfr : FrameBudget frames}.

Lemma copy_bytes_frames n : forall k d s m u m', frames k m -> copy_bytes n d s m = Ret (u, m') -> frames k m'.
Proof.
  induction n as [|n IH]; intros k d s m u m' F; cbn [copy_bytes]; [by intros [= _ <-]|].
  intros (b & m1 & E1 & (v & m2 & E2 & K)%M_bind_Ret)%M_bind_Ret. eapply IH, K. eapply fb_write, E2. by eapply fb_read, E1.
Qed.

Lemma fill_frames k a (g : Z -> nat) d s m u m' : frames k m ->
  (memsize ← read_word a; copy_bytes (g memsize) d s) m = Ret (u, m') -> frames k m'.
Proof.
  intros F (x & m1 & E1 & E2)%M_bind_Ret. eapply copy_bytes_frames, E2. by eapply fb_read_word, E1.
Qed.

(** The loop: the segment's bytes are there, or there was no frame. *)
Lemma segment_loop ph d off size : segment_ok d off size -> 0 <= ph -> ph + 24 <= len ->
  word_of (ph + ph_memsize) = size -> forall k fuel n m, image m -> n mod 4096 = 0 -> 0 <= n ->
  size - n <= 4096 * Z.of_nat k -> (k < fuel)%nat ->
  exists r m', load_segment fuel (elf + ph) d (elf + off) n m = Ret (r, m') /\
    keeps_bytes (fun a => d + n <= a /\ pages_of d size a) m m' /\
    (r = err ENOMEM \/ (r = err ENONE /\ forall i, n <= i < size -> as_byte m' (as_current m) (d + i) = Some (f (off + i)))) /\
    (forall rest, frames (2 * k + rest) m -> r = err ENONE /\ frames rest m').
Proof.
  intros Hok Hph Hphl Hsize. pose proof Hok as [[Sa Sd] [Ss Smax] [So Sl] Su Sx].
  induction k as [|k IH]; intros fuel n m Him Hn Hn0 Hk Hf;
    (destruct fuel as [|fuel]; [lia|]); cbn [load_segment]; unfold mbind at 1, M_mbind at 1;
    rewrite <- (Z.add_assoc elf ph ph_memsize), (image_word m (ph + ph_memsize)) by (done || (unfold ph_memsize; lia));
    ostep; rewrite Hsize; (destruct (Z.ltb_spec n size) as [Hlt|Hge];
      [|exists (err ENONE), m; split; [done|]; split; [apply keeps_refl, Him|]; split;
        [right; split; [done|]; intros; lia|intros rest F; split; [done|]; eapply fb_le, F; lia]]).
  { lia. }
  destruct (map_run d off size n m Hok Him ltac:(lia) Hn) as (p & m1 & E1 & Hp).
  unfold mbind at 1, M_mbind at 1. rewrite E1. ostep.
  destruct Hp as [[-> Q1]|(Hpne & st & m2 & E2 & Hst)].
  { rewrite Z.eqb_refl. exists (err ENOMEM), m1. split; [done|]. split; [by apply keeps_same|]. split; [by left|].
    intros rest F. apply (fb_le (S rest)) in F; [|lia]. by destruct (fb_reserve _ _ _ _ F E1) as [[] _]. }
  rewrite (proj2 (Z.eqb_neq _ _) Hpne). unfold mbind at 1, M_mbind at 1. rewrite E2. ostep.
  destruct Hst as [[-> Q2]|(-> & Him2 & K2 & M2)].
  { cbn [orb Z.eqb Pos.eqb err]. exists (err ENOMEM), m2. split; [done|]. split; [by apply keeps_same|]. split; [by left|].
    intros rest F. apply (fb_le (S (S rest))) in F; [|lia]. destruct (fb_reserve _ _ _ _ F E1) as [_ F1].
    by destruct (fb_map _ _ _ _ _ _ _ F1 E2) as [[] _]. }
  change ((err ENONE =? err ENOMEM) || (err ENONE =? err EOUTOFBOUNDS)) with false.
  change (err ENONE =? err ENONE) with true. cbv iota.
  destruct (fill_run ph d off size n m2 Hok Hph Hphl Hsize Him2 ltac:(lia) Hn M2) as (m3 & E3 & K3 & B3).
  rewrite (u32_id (d + n)) by (unfold is_u32; lia). rewrite <- (Z.add_assoc elf ph ph_memsize) in E3.
  unfold mbind at 1, M_mbind at 1. rewrite E3. ostep.
  rewrite (u32_id (n + page_size)) by (unfold is_u32, page_size; lia). unfold page_size.
  assert (keeps_bytes (fun a => d + n <= a < d + n + 4096) m m3) as K03 by (by apply (keeps_bytes_trans _ _ _ m m2 m3 K2 K3)).
  assert (image m3) as Him3.
  { eapply keeps_image; [exact K03| |exact Him]. intros a Ha. cbv beta in Ha. apply Sx. unfold pages_of.
    pose proof (page_within n size). lia. }
  destruct (IH fuel (n + 4096) m3 Him3) as (r & m4 & E4 & K4 & R4 & F4); [Z.div_mod_to_equations; lia|lia..|].
  exists r, m4. split; [exact E4|]. split.
  - apply (keeps_bytes_trans _ _ _ m m3 m4 K03 K4); intros a; unfold pages_of;
      pose proof (page_within n size); lia.
  - split; [|intros rest F; apply F4; apply (fb_le (S (S (2 * k + rest)))) in F; [|lia];
      destruct (fb_reserve _ _ _ _ F E1) as [_ F1]; destruct (fb_map _ _ _ _ _ _ _ F1 E2) as [_ F2];
      by eapply fill_frames, E3].
    destruct R4 as [->|[-> R4]]; [by left|right]. split; [done|]. intros i Hi.
    pose proof K03 as (_ & C3 & _). destruct (Z.lt_ge_cases i (n + 4096)) as [Hc|Hc].
    + destruct K4 as (_ & C4 & B4). rewrite B4 by lia. rewrite <- C3.
      replace (d + i) with (d + n + (i - n)) by lia. rewrite B3 by (unfold chunk; lia). f_equal. f_equal. lia.
    + rewrite <- C3. apply R4. lia.
Qed.

(** The program headers: type, offset in the image, address, size. *)
Record header := Header { h_type : Z; h_offset : Z; h_vaddr : Z; h_memsize : Z }.

Definition header_at (ph : Z) (h : header) : Prop :=
  word_of (ph + ph_type) = h_type h /\ word_of (ph + ph_offset) = h_offset h /\
  word_of (ph + ph_vaddr) = h_vaddr h /\ word_of (ph + ph_memsize) = h_memsize h.

Fixpoint headers_at (ph phsize : Z) (hs : list header) : Prop :=
  match hs with
  | [] => True
  | h :: hs => header_at ph h /\ headers_at (ph + phsize) phsize hs
  end.

Definition takes (h : header) (a : Z) : Prop := h_type h = ELF_LOAD /\ pages_of (h_vaddr h) (h_memsize h) a.
Definition loadable (h : header) : Prop :=
  h_type h = ELF_LOAD -> segment_ok (h_vaddr h) (h_offset h) (h_memsize h).
Definition loaded m (h : header) : Prop := h_type h = ELF_LOAD ->
  forall i, 0 <= i < h_memsize h -> as_byte m (as_current m) (h_vaddr h + i) = Some (f (h_offset h + i)).

(** The pages a header takes, and the frames for a list of them. *)
Definition page_count (h : header) : nat := if decide (h_type h = ELF_LOAD) then Z.to_nat ((h_memsize h + 4095) / 4096) else 0.
Definition frames_for (hs : list header) : nat := 2 * sum_list_with page_count hs.

(** No two segments share a page. *)
Fixpoint apart (hs : list header) : Prop :=
  match hs with
  | [] => True
  | h :: hs => (forall a, takes h a -> Forall (fun h' => ~ takes h' a) hs) /\ apart hs
  end.

Lemma load_header_run fuel ph h m : image m -> header_at ph h -> loadable h -> 0 <= ph -> ph + 24 <= len ->
  (Z.to_nat (h_memsize h) < fuel)%nat ->
  exists r m', (type ← read_word (elf + ph + ph_type);
    if type =? ELF_LOAD then
      d ← read_word (elf + ph + ph_vaddr);
      off ← read_word (elf + ph + ph_offset);
      load_segment fuel (elf + ph) d (u32 (elf + off)) 0
    else mret (err ENONE)) m = Ret (r, m') /\
    keeps_bytes (takes h) m m' /\ (r = err ENOMEM \/ (r = err ENONE /\ loaded m' h)) /\
    (forall rest, frames (2 * page_count h + rest) m -> r = err ENONE /\ frames rest m').
Proof.
  intros Him (Ht & Ho & Hv & Hs) Hl Hph Hphl Hf. unfold mbind, M_mbind.
  rewrite <- !(Z.add_assoc elf ph). rewrite (image_word m (ph + ph_type)) by (done || (unfold ph_type; lia)). ostep.
  rewrite Ht. destruct (Z.eqb_spec (h_type h) ELF_LOAD) as [E|Hne].
  2: { exists (err ENONE), m. split; [done|]. split; [apply keeps_refl, Him|]. split; [right; split; [done|]; by intros ?|].
       intros rest F. split; [done|]. eapply fb_le, F. lia. }
  rewrite (image_word m (ph + ph_vaddr)) by (done || (unfold ph_vaddr; lia)). ostep.
  rewrite (image_word m (ph + ph_offset)) by (done || (unfold ph_offset; lia)). ostep. rewrite Hv, Ho.
  pose proof (Hl E) as Hok. pose proof Hok as [[Sa Sd] [Ss Smax] [So Sl] _ _].
  rewrite (u32_id (elf + h_offset h)) by (unfold is_u32; lia).
  destruct (segment_loop ph (h_vaddr h) (h_offset h) (h_memsize h) Hok Hph Hphl Hs
    (Z.to_nat ((h_memsize h + 4095) / 4096)) fuel 0 m Him) as (r & m' & Er & K & R & F);
    [done|lia|Z.div_mod_to_equations; lia|Z.div_mod_to_equations; lia|].
  exists r, m'. split; [exact Er|]. split; [|split; [|unfold page_count; by rewrite decide_True]].
  - apply (keeps_bytes_trans _ (fun _ => False) _ _ _ _ K); [apply keeps_refl, K| |tauto].
    intros a [_ Ha]. by split.
  - destruct R as [->|[-> R]]; [by left|right]. split; [done|]. intros _ i Hi.
    destruct K as (_ & C & _). rewrite C. by apply R.
Qed.

Lemma load_headers_ok fuel phsize hs : half_of elf_phsize = phsize -> 24 <= phsize -> elf_phsize + 2 <= len ->
  forall ph m, image m -> headers_at ph phsize hs -> Forall loadable hs -> apart hs -> 0 <= ph ->
  ph + phsize * Z.of_nat (length hs) <= len -> Forall (fun h => Z.to_nat (h_memsize h) < fuel)%nat hs ->
  exists r m', load_headers (length hs) fuel elf (elf + ph) m = Ret (r, m') /\
    keeps_bytes (fun a => Exists (fun h => takes h a) hs) m m' /\
    (r = err ENOMEM \/ (r = err ENONE /\ Forall (loaded m') hs)) /\
    (forall rest, frames (frames_for hs + rest) m -> r = err ENONE /\ frames rest m').
Proof.
  intros Hsz Hmin Hsl. induction hs as [|h hs IH]; intros ph m Him Hat Hl Hap Hph Hend Hf; cbn [length].
  { exists (err ENONE), m. split; [done|]. split; [apply keeps_refl, Him|]. split; [by right|]. by intros rest F. }
  destruct Hat as [Hh Hat]. apply Forall_cons in Hl as [Hl1 Hl]. apply Forall_cons in Hf as [Hf1 Hf].
  destruct Hap as [Ha1 Hap]. cbn [length] in Hend.
  destruct (load_header_run fuel ph h m Him Hh Hl1 Hph ltac:(nia) Hf1) as (r & m1 & E1 & K1 & R1 & F1).
  assert (forall rest, frames (frames_for (h :: hs) + rest) m -> r = err ENONE /\ frames (frames_for hs + rest) m1) as F1'.
  { intros rest F. apply F1. eapply fb_le, F. unfold frames_for. cbn [sum_list_with]. lia. }
  assert (load_headers (S (length hs)) fuel elf (elf + ph) m =
    (if negb (r =? err ENONE) then mret r
     else phsize ← read_half (elf + elf_phsize); load_headers (length hs) fuel elf (u32 (elf + ph + phsize))) m1) as ->.
  { cbn [load_headers]. revert E1. unfold mbind, M_mbind. destruct (read_word _ m) as [[t m0]| | |]; ostep; [|done..].
    intros ->. done. }
  assert (image m1) as Him1.
  { eapply keeps_image; [exact K1| |exact Him]. intros a [E Ha]. by apply (Hl1 E). }
  destruct R1 as [->|[-> R1]].
  { exists (err ENOMEM), m1. split; [done|]. split; [|split; [by left|]; intros rest F; by destruct (F1' _ F)].
    apply (keeps_bytes_trans _ (fun _ => False) _ _ _ _ K1); [apply keeps_refl, K1|by constructor|tauto]. }
  change (negb (err ENONE =? err ENONE)) with false. cbv iota. unfold mbind, M_mbind.
  rewrite (image_half m1 elf_phsize) by (done || (unfold elf_phsize in *; lia)). ostep. rewrite Hsz.
  rewrite u32_id, <- Z.add_assoc by (unfold is_u32; nia).
  destruct (IH (ph + phsize) m1 Him1 Hat Hl Hap) as (r & m2 & E2 & K2 & R2 & F2); [lia|nia|done|].
  exists r, m2. split; [exact E2|]. split; [|split; [|intros rest F; by apply F2, F1']].
  { apply (keeps_bytes_trans _ _ _ _ _ _ K1 K2); intros a; [by constructor|by constructor 2]. }
  destruct R2 as [->|[-> R2]]; [by left|right]. split; [done|]. apply Forall_cons. split; [|exact R2].
  intros E i Hi. pose proof K2 as (_ & C2 & B2). rewrite C2, B2; [by apply R1|].
  intros [_ Hex]. assert (takes h (h_vaddr h + i)) as Ht.
  { split; [done|]. unfold pages_of. Z.div_mod_to_equations. lia. }
  apply Exists_exists in Hex as (h' & Hin & Ht'). specialize (Ha1 _ Ht). rewrite Forall_forall in Ha1. by apply (Ha1 h').
Qed.
End image.
End theory.

(** The program headers [hs] of an image: they lie in it, and what they load is
    aligned, in user pages, apart from the image and from each other. *)
Record headers_ok {W} `{AddressSpacesMap W} (elf len : Z) (f : Z -> Z) (fuel : nat) (hs : list header) : Prop := {
  ho_offset : 0 <= word_of f elf_phoffset;
  ho_size : 24 <= half_of f elf_phsize;
  ho_end : word_of f elf_phoffset + half_of f elf_phsize * Z.of_nat (length hs) <= len;
  ho_count : half_of f elf_phcount = Z.of_nat (length hs);
  ho_headers : headers_at f (word_of f elf_phoffset) (half_of f elf_phsize) hs;
  ho_loadable : Forall (loadable elf len) hs;
  ho_apart : apart hs;
  ho_fuel : Forall (fun h => Z.to_nat (h_memsize h) < fuel)%nat hs
}.

Lemma load_program_ok {W} `{AddressSpacesMap W} (frames : nat -> W -> Prop) {Hfr : FrameBudget frames} (m : W) elf len f hs fuel :
  0 <= elf -> elf + len < 2 ^ 32 -> image elf len f m -> 46 <= len -> headers_ok elf len f fuel hs ->
  exists r m', load_program fuel elf m = Ret (r, m') /\
    keeps_bytes (fun a => Exists (fun h => takes h a) hs) m m' /\
    (r = err ENOMEM \/ (r = err ENONE /\ Forall (loaded f m') hs)) /\
    (forall rest, frames (frames_for hs + rest)%nat m -> r = err ENONE /\ frames rest m').
Proof.
  intros Helf Hlen Him Hl [Hoff Hsz Hend Hcnt Hat Hld Hap Hf].
  unfold load_program, mbind, M_mbind.
  rewrite (image_word elf len f m elf_phoffset) by (done || (unfold elf_phoffset; lia)). ostep.
  rewrite (image_half elf len f m elf_phcount) by (done || (unfold elf_phcount; lia)). ostep.
  rewrite Hcnt, Nat2Z.id. rewrite u32_id by (unfold is_u32; nia).
  by apply (load_headers_ok elf len f Helf Hlen frames fuel (half_of f elf_phsize) hs eq_refl Hsz ltac:(unfold elf_phsize; lia)).
Qed.

(** * Properties *)

(** C22: [load_program] on an image whose headers lie in it and whose loadable
    segments are page aligned, in user pages, apart from the image and from
    each other: it ends, with [fuel] above every segment size; either there
    was no frame (ENOMEM), or every segment is in memory, [memsize] bytes
    of it copied from the image.  No byte outside the segments' pages changes,
    in this or any other space. *)
Theorem load_program_spec {W} `{AddressSpacesMap W} (m : W) elf len f hs fuel :
  0 <= elf -> elf + len < 2 ^ 32 -> image elf len f m -> 46 <= len -> headers_ok elf len f fuel hs ->
  exists r m', load_program fuel elf m = Ret (r, m') /\
    as_current m' = as_current m /\
    (forall t a, (t = as_current m -> Forall (fun h => ~ takes h a) hs) -> as_byte m' t a = as_byte m t a) /\
    (r = err ENOMEM \/ (r = err ENONE /\ Forall (loaded f m') hs)).
Proof.
  intros Helf Hlen Him Hl Hh.
  destruct (load_program_ok (fun _ _ => False) (Hfr := no_budget) m elf len f hs fuel Helf Hlen Him Hl Hh) as (r & m' & E & (F & C & B) & R & _).
  exists r, m'. split; [exact E|]. split; [exact C|]. split; [|exact R].
  intros t a Hn. apply B. intros [Ht Hex]. specialize (Hn Ht).
  apply Exists_exists in Hex as (h & Hin & Hh'). rewrite Forall_forall in Hn. by apply (Hn h).
Qed.

(** An image at 0x80000000 in space 0: one header, one segment of three bytes. *)
Fixpoint flat_put (t a : Z) (l : list Z) (m : gmap (Z * Z) Z) : gmap (Z * Z) Z :=
  match l with [] => m | b :: l => flat_put t (a + 1) l (<[(t, a) := b]> m) end.

Lemma flat_put_lookup t l : forall a m i, 0 <= i < Z.of_nat (length l) ->
  flat_put t a l m !! (t, a + i) = l !! Z.to_nat i.
Proof.
  assert (forall l a m b, b < a -> flat_put t a l m !! (t, b) = m !! (t, b)) as Hlow.
  { clear. intros l. induction l as [|x l IH]; intros a m b Hb; cbn [flat_put]; [done|].
    rewrite IH by lia. apply lookup_insert_ne. intros [= ?]. lia. }
  induction l as [|x l IH]; intros a m i Hi; cbn [flat_put length] in *; [lia|].
  destruct (decide (i = 0)) as [->|Hne].
  - rewrite Z.add_0_r, Hlow by lia. by rewrite lookup_insert_eq.
  - replace (a + i) with (a + 1 + (i - 1)) by lia. rewrite IH by lia.
    replace (Z.to_nat i) with (S (Z.to_nat (i - 1))) by lia. done.
Qed.

Definition word32 (w : Z) : list Z := [w mod 256; w / 2 ^ 8 mod 256; w / 2 ^ 16 mod 256; w / 2 ^ 24 mod 256].
Definition word16 (w : Z) : list Z := [w mod 256; w / 2 ^ 8 mod 256].

(** [vaddr] is the segment's address; its three bytes are the last ones. *)
Definition demo_elf (vaddr : Z) : list Z :=
  concat (map word32 [elf_magic_number; 0; 0; 0; 0; 0; 0x400000; 52; 0; 0]) ++
  concat (map word16 [52; 32; 1; 0; 0; 0]) ++
  concat (map word32 [ELF_LOAD; 84; vaddr; 0; 3; 3; 0; 0]) ++ [7; 8; 9].

Definition demo_image (vaddr : Z) : flat := Flat 0 (flat_put 0 0x80000000 (demo_elf vaddr) ∅) 0x100000.
Definition demo_byte (vaddr i : Z) : Z := default 0 (demo_elf vaddr !! Z.to_nat i).

Lemma demo_image_ok : image 0x80000000 87 (demo_byte 0x400000) (demo_image 0x400000).
Proof.
  split; [exact I|]. intros i Hi. unfold demo_image. cbn [as_byte flat_spaces_ok as_current flat_bytes flat_cur].
  rewrite flat_put_lookup by (cbn; lia). unfold demo_byte.
  destruct (lookup_lt_is_Some_2 (demo_elf 0x400000) (Z.to_nat i)) as [b Hb]; [cbn; lia|]. rewrite Hb.
  cbn [fmap option_fmap option_map default]. f_equal. apply Z.mod_small.
  assert (Forall (fun b => 0 <= b < 256) (demo_elf 0x400000)) as Hall
    by (apply (bool_decide_unpack _); vm_compute; exact I).
  rewrite Forall_lookup in Hall. by apply (Hall (Z.to_nat i)).
Qed.

Lemma load_program_spec_witness : exists r m', load_program 8 0x80000000 (demo_image 0x400000) = Ret (r, m') /\
  (r = err ENOMEM \/ (r = err ENONE /\
    Forall (loaded (demo_byte 0x400000) m') [Header ELF_LOAD 84 0x400000 3])).
Proof.
  destruct (load_program_spec (demo_image 0x400000) 0x80000000 87 (demo_byte 0x400000)
    [Header ELF_LOAD 84 0x400000 3] 8) as (r & m' & E & _ & _ & R); [lia|lia|exact demo_image_ok|lia| |exists r, m'; exact (conj E R)].
  split; [by vm_compute|by vm_compute|by vm_compute|by vm_compute| | |split; [intros a _; constructor|exact I]
    |apply Forall_singleton; cbn; lia].
  { split; [by vm_compute|exact I]. }
  apply Forall_singleton. intros _. cbn [h_vaddr h_offset h_memsize].
  split; [split; [reflexivity|lia]|lia|lia|intros; exact I|]. intros a Ha. unfold pages_of, in_image in *.
  change ((3 + 4095) / 4096 * 4096) with 4096 in Ha. lia.
Defined.

(** A segment that does not start on a page boundary and reaches into the next
    page: the loader maps only the first page, and the copy page-faults. *)
Example load_unaligned_segment :
  load_program 8 0x80000000 (demo_image 0x400FFE) = Fault.
Proof. vm_compute. reflexivity. Qed.
