(* ===== verification/Loader.v ===== *)
(** Loading a boot module as a process ([kernel_load_module] of src/kernel.c):
    a new address space, the module's frames mapped at [load_base], the ELF
    loader over them, and a process in that space.

    The frames are physical addresses; what the loader reads there are the bytes
    the boot loader left.  [fuel] bounds the loops over pages. *)
From S2P Require Import Prelude Status Alloc AvlTree MsgQueue PriorityQueue Paging Mmgr Space Frames Context Kernel Multiboot Elf Isolation FirstSpace.

(** The two calls on whole spaces that only the loader makes. *)
Class AddressSpacesCreate (W : Type) := {
  as_create : Z -> M W Z;
  as_current_space : M W Z
}.

#[export] Instance mm_create {B} `{BitmapHeap B} : AddressSpacesCreate (mm B) := {
  as_create := create_address_space;
  as_current_space := current_address_space
}.

Definition load_base : Z := 0x80000000.

Section loader.
Context {H W : Type} `{KHeap H} `{AddressSpaces W} `{AddressSpacesCreate W} (kernel_start : Z) (fuel : nat).

(** The statuses after which the code gives up; others are ignored. *)
Definition gives_up (status : Z) : bool := (status =? err ENOMEM) || (status =? err EOUTOFBOUNDS).

(** The loop that maps the module's frames, from [p] on. *)
Fixpoint map_module (fuel : nat) (p stop load_offset : Z) : M W unit :=
  match fuel with
  | O => fun _ => OutOfFuel
  | S fuel =>
    if p <? stop then
      status ← as_map_page (u32 (load_base + load_offset)) p PAGE_RW;
      if gives_up status then panic
      else map_module fuel (u32 (p + page_size)) stop (u32 (load_offset + page_size))
    else mret tt
  end.

(** The loop that unmaps them; the address [unmap_page] returns is read as a
    status. *)
Fixpoint unmap_module (fuel : nat) (p stop load_offset : Z) : M W unit :=
  match fuel with
  | O => fun _ => OutOfFuel
  | S fuel =>
    if p <? stop then
      status ← as_unmap_page (u32 (load_base + load_offset));
      if gives_up status then panic
      else unmap_module fuel (u32 (p + page_size)) stop (u32 (load_offset + page_size))
    else mret tt
  end.

(** The module in the current space: what is done with memory before the
    process is made.  It returns the entry point. *)
Definition load_image (start stop : Z) : M W Z :=
  _ ← map_module fuel (Z.ldiff start (page_size - 1)) stop 0;
  status ← load_program fuel load_base;
  if gives_up status then panic
  else
    module_entry ← read_word (load_base + elf_entry);
    _ ← unmap_module fuel (Z.ldiff start (page_size - 1)) stop 0;
    mret module_entry.

Definition kernel_load_module (module : module_t) : M (kst H W) Z :=
  module_address_space ← on_world (as_create kernel_start);
  if module_address_space =? err ENOMEM then panic
  else
    _ ← on_world (as_load module_address_space);
    module_entry ← on_world (load_image (mod_start module) (mod_end module));
    t ← on_world as_current_space;
    pid ← kernel_spawn_process kernel_start module_entry 1 t;
    mret (if 0 <? pid then err ENONE else -1).
End loader.

(** * Theory *)

(** ** [kernel_spawn_process] *)
Section spawning.
Context {H W : Type} `{KHeapOk H} `{AddressSpacesMap W} (kernel_start : Z).
Implicit Types s : kst H W.

Definition stack_top_page : Z := u32 (kernel_start - 4096).

(** The registers a process starts with. *)
Definition initial_registers (entry : Z) : process_context_t :=
  set_context_stack kernel_start (set_context_flags DEFAULT_FLAGS (set_context_pc entry zero_context)).

(** Process [x] at [p] is new, with registers for [entry], and ready to run. *)
Record new_process s s' (p : Z) (x : process_t) (entry : Z) : Prop := {
  np_procs : procs (objs s') = <[p:=x]> (procs (objs s));
  np_ctxs : ctxs (objs s') = <[ctx x:=initial_registers entry]> (ctxs (objs s));
  np_others : msgs (objs s') = msgs (objs s) /\ ports (objs s') = ports (objs s) /\ nodes (objs s') = nodes (objs s) /\
    actions (objs s') = actions (objs s) /\ syscall_table (kernel s') = syscall_table (kernel s) /\
    port_table (kernel s') = port_table (kernel s) /\ interrupt_handlers (kernel s') = interrupt_handlers (kernel s);
  np_active : active_process (kernel s') = active_process (kernel s);
  np_next : next_pid (kernel s') = s32 (next_pid (kernel s) + 1);
  np_table : avl_map (process_table (kernel s')) =
    if decide (s32 (pid x) ∈ keys (process_table (kernel s))) then avl_map (process_table (kernel s))
    else <[s32 (pid x):=p]> (avl_map (process_table (kernel s)));
  np_queue : valid (priority_queue (kernel s')) /\
    capacity (priority_queue (kernel s')) = capacity (priority_queue (kernel s)) /\
    ((size (priority_queue (kernel s)) < capacity (priority_queue (kernel s)))%nat ->
     elements (priority_queue (kernel s')) ≡ₚ Node p (priority x) :: elements (priority_queue (kernel s))) /\
    (~ (size (priority_queue (kernel s)) < capacity (priority_queue (kernel s)))%nat ->
     priority_queue (kernel s') = priority_queue (kernel s))
}.

(** Nothing but the stack page has changed in memory; the stack page is there. *)
Definition stack_only (w w' : W) : Prop :=
  as_wf w' /\ as_current w' = as_current w /\
  forall t a, ~ (t = as_current w /\ a / 4096 = stack_top_page / 4096) -> as_byte w' t a = as_byte w t a.
Definition stack_ready (w : W) (t : Z) : Prop := forall a, a / 4096 = stack_top_page / 4096 -> is_Some (as_byte w t a).

Definition stack_flags : Z := Z.lor (Z.lor PAGE_PRESENT PAGE_USERMODE) PAGE_RW.

Lemma same_stack w w' : same_memory w w' -> stack_only w w'.
Proof. intros (F & C & B). split; [done|]. split; [done|]. by intros. Qed.

(** What [kernel_spawn_process] does when the kernel's heap serves it: without a frame
    for the stack, nothing; otherwise the process is made, and the frame is mapped below
    the kernel unless a table cannot be had. *)
Definition spawns s (entry prio t p c : Z) (h2 : H) : Prop := exists f w1,
  as_reserve_page (world s) = Ret (f, w1) /\ same_memory (world s) w1 /\
  ((f = err ENOMEM /\ kernel_spawn_process kernel_start entry prio t s = Ret (0, KState (kernel s) h2 (objs s) w1)) \/
   (f <> err ENOMEM /\ exists st s', as_map_page stack_top_page f stack_flags w1 = Ret (st, world s') /\
     kernel_spawn_process kernel_start entry prio t s = Ret (u32 (next_pid (kernel s)), s') /\
     new_process s s' p (Process (u32 (next_pid (kernel s))) prio t PROCESS_ACTIVE queue_construct queue_construct NULL c) entry /\
     stack_only (world s) (world s') /\
     ((st = err ENOMEM /\ same_memory (world s) (world s')) \/
      (st = err ENONE /\ stack_ready (world s') (as_current (world s)))))).

Lemma spawn_run s entry prio t p c a h1 h2 h3 :
  as_wf (world s) -> as_user_page stack_top_page -> valid (priority_queue (kernel s)) ->
  avl (process_table (kernel s)) -> bst (process_table (kernel s)) ->
  Alloc.kmalloc sizeof_process (kheap s) = Ret (p, h1) -> p <> NULL ->
  Alloc.kmalloc sizeof_context h1 = Ret (c, h2) -> c <> NULL ->
  Alloc.kmalloc sizeof_avltree h2 = Ret (a, h3) -> a <> NULL ->
  spawns s entry prio t p c h2.
Proof.
  intros Hw Hst Hq Ha Hb E1 N1 E2 N2 E3 N3.
  destruct (as_reserve_map_ok (world s) Hw) as (f & w1 & Er & Hsame & Hmap). exists f, w1. split; [done|]. split; [done|].
  unfold kernel_spawn_process. krun.
  rewrite (on_heap_Ret _ s p h1) by done. krun. rewrite (proj2 (Z.eqb_neq _ _) N1).
  erewrite on_heap_Ret by (cbn [kheap]; exact E2). krun. rewrite (proj2 (Z.eqb_neq _ _) N2).
  erewrite on_world_Ret by (cbn [world]; exact Er). krun.
  destruct Hmap as [->|(Hne & Hf & Hmap)]; [left; by split|right]. split; [done|].
  rewrite Hf. change (negb (0 =? 0)) with false. cbv iota.
  destruct (Hmap _ stack_flags Hst eq_refl) as (st & w2 & Em & Hcase).
  erewrite on_world_Ret by (cbn [world]; exact Em). krun.
  unfold put_ctx. rewrite init_Ret by done. krun. unfold put_proc. rewrite init_Ret by done. krun.
  destruct (avl_insert_ok (process_table (kernel s)) (s32 (u32 (next_pid (kernel s)))) p h2 h3 a Ha Hb E3 N3)
    as (t' & Et & _ & _ & _ & Mt & _).
  erewrite on_heap_Ret by (cbn [kheap]; exact Et). krun.
  match goal with |- context [make_ready p prio ?v] => destruct (make_ready_cases v p prio) as (q & Eq & Vq & Cq & Pq & Fq); [done|] end.
  rewrite Eq. krun. cbn [objs procs set_procs set_ctxs]. rewrite lookup_insert_eq. krun.
  eexists st, (KState _ _ _ w2). cbn [world set_kernel]. split; [exact Em|]. split; [reflexivity|]. split.
  { split; cbn [kernel objs set_kernel set_procs set_ctxs]; done. }
  destruct Hsame as (F1 & C1 & B1). destruct Hcase as [(-> & F2 & C2 & B2)|(-> & F2 & C2 & O2 & M2)].
  - assert (same_memory (world s) w2) as Q by (split; [done|]; split; [congruence|]; intros; by rewrite B2, B1).
    split; [by apply same_stack|]. by left.
  - rewrite C1 in C2, O2, M2. split; [|by right]. split; [done|]. split; [done|]. intros t0 b Hn. rewrite O2, B1; done.
Qed.

(** With two frames, one of them for a table, the process is made and has its stack. *)
Lemma spawns_frames (frames : nat -> W -> Prop) {Hfr : FrameBudget frames} s entry prio t p c h2 :
  frames 2%nat (world s) -> spawns s entry prio t p c h2 ->
  exists s', kernel_spawn_process kernel_start entry prio t s = Ret (u32 (next_pid (kernel s)), s') /\
    new_process s s' p (Process (u32 (next_pid (kernel s))) prio t PROCESS_ACTIVE queue_construct queue_construct NULL c) entry /\
    stack_only (world s) (world s') /\ stack_ready (world s') (as_current (world s)).
Proof.
  intros F (f & w1 & Er & _ & Hcase). destruct (fb_reserve _ _ _ _ F Er) as [Hne F1].
  destruct Hcase as [[-> _]|(_ & st & s' & Em & E & N & O & Hst)]; [done|]. destruct (fb_map _ _ _ _ _ _ _ F1 Em) as [Hne' _].
  destruct Hst as [[-> _]|[_ R]]; [done|]. by exists s'.
Qed.

(** What holds whatever the frames. *)
Lemma spawns_cases s entry prio t p c h2 : spawns s entry prio t p c h2 ->
  exists r s', kernel_spawn_process kernel_start entry prio t s = Ret (r, s') /\ stack_only (world s) (world s') /\
    ((r = 0 /\ kernel s' = kernel s /\ objs s' = objs s) \/
     (r = u32 (next_pid (kernel s)) /\
      new_process s s' p (Process (u32 (next_pid (kernel s))) prio t PROCESS_ACTIVE queue_construct queue_construct NULL c) entry)).
Proof.
  intros (f & w1 & Er & Q & [[-> E]|(_ & st & s' & Em & E & N & O & Hst)]).
  - eexists _, _. split; [exact E|]. split; [by apply same_stack|]. by left.
  - eexists _, _. split; [exact E|]. split; [exact O|]. by right.
Qed.
End spawning.

(** ** The module's frames in the new space *)
Section image_load.
Context {B : Type} `{BitmapHeapOk B} (spaces : gset Z) (k : Z) (Hk : 1 <= k <= 1023).
Implicit Types s : mm B.

#[local] Instance loader_ok : AddressSpacesOk (mm B) := mm_spaces_ok spaces k Hk.
#[local] Instance loader_map : AddressSpacesMap (mm B) := mm_spaces_map spaces k Hk.

(** [n] pages cover the addresses from [p] to [stop]. *)
Definition covers (n : nat) (p stop : Z) : Prop :=
  0 <= p /\ p mod 4096 = 0 /\ p + 4096 * Z.of_nat n - 4096 < stop <= p + 4096 * Z.of_nat n /\ p + 4096 * Z.of_nat n < 2 ^ 32.

(** The place of [n] pages, [off] bytes into the load area, below the kernel. *)
Definition room_for (n : nat) (off : Z) : Prop :=
  0 <= off /\ off mod 4096 = 0 /\ load_base + off + 4096 * Z.of_nat n <= 4194304 * k.
Definition area (n : nat) (off a : Z) : Prop := load_base + off <= a < load_base + off + 4096 * Z.of_nat n.

(** The frames from [p] on are nobody's: the boot loader put a module there. *)
Definition module_frames s (n : nat) (p : Z) : Prop :=
  forall j, 0 <= j < Z.of_nat n -> ownerless spaces k s (p + 4096 * j).

Lemma room_page n off : room_for (S n) off -> user k (load_base + off) /\ (load_base + off) mod 4096 = 0 /\
  u32 (load_base + off) = load_base + off /\ u32 (off + page_size) = off + 4096 /\ room_for n (off + 4096).
Proof.
  unfold room_for, user, load_base, page_size, is_u32. intros (H1 & H2 & H3). rewrite Nat2Z.inj_succ in H3.
  rewrite dir_index_div. rewrite !u32_id by (unfold is_u32; lia). Z.div_mod_to_equations. lia.
Qed.

Lemma covers_page n p stop : covers (S n) p stop -> is_u32 p /\ p mod 4096 = 0 /\ (p <? stop) = true /\
  u32 (p + page_size) = p + 4096 /\ covers n (p + 4096) stop.
Proof.
  unfold covers, page_size, is_u32. intros (H1 & H2 & H3 & H4). rewrite Nat2Z.inj_succ in *.
  rewrite u32_id by (unfold is_u32; lia). rewrite Z.ltb_lt. Z.div_mod_to_equations. lia.
Qed.

Lemma area_page n off a : room_for (S n) off ->
  area (S n) off a <-> a / 4096 = (load_base + off) / 4096 \/ area n (off + 4096) a.
Proof. unfold area, room_for, load_base. intros (_ & H1 & _). rewrite Nat2Z.inj_succ. Z.div_mod_to_equations. lia. Qed.

Lemma map_module_run n : forall s p stop off fuel, wf_world spaces k s -> covers n p stop -> room_for n off ->
  module_frames s n p -> (n < fuel)%nat ->
  (map_module fuel p stop off s = Panic /\ ~ mm_frames n s) \/
  exists s', map_module fuel p stop off s = Ret (tt, s') /\ keeps_bytes (area n off) s s' /\
    (forall i, 0 <= i < 4096 * Z.of_nat n -> byte_at spaces k s' (cr3 (mem s)) (load_base + off + i) = Some (phys_byte s (p + i))) /\
    (forall rest, mm_frames (n + rest) s -> mm_frames rest s').
Proof.
  induction n as [|n IH]; intros s p stop off [|fuel] Hs Hc Hr Hm Hf; try lia; cbn [map_module].
  { right. exists s. destruct Hc as (_ & _ & Hc & _). rewrite (proj2 (Z.ltb_ge p stop)) by lia.
    split; [done|]. split; [by apply keeps_refl|]. split; [intros i Hi; lia|done]. }
  destruct (covers_page n p stop Hc) as (Pu & Pm & -> & -> & Hc'). destruct (room_page n off Hr) as (Ru & Rm & -> & -> & Hr').
  assert (ownerless spaces k s p) as Ho by (replace p with (p + 4096 * 0) by lia; apply Hm; lia).
  cbn [as_map_page mm_spaces]. unfold mbind, M_mbind.
  destruct (map_world spaces k Hk s (load_base + off) p PAGE_RW Hs Ru Pu Pm Ho)
    as (st & s1 & E & Hs1 & Hc1 & [[-> _]|(-> & Hout & _ & R)]); rewrite E; ostep;
    [left; split; [done|]; intros F; by destruct (map_frames _ _ _ _ _ _ _ F E) as [[] _]|].
  change (gives_up (err ENONE)) with false. cbv iota.
  assert (module_frames s1 n (p + 4096)) as Hm1.
  { intros j Hj. apply (remap_ownerless spaces k Hk s s1 (load_base + off) _ Hs (user_any k Hk _ Ru) R).
    - replace (p + 4096 + 4096 * j) with (p + 4096 * (j + 1)) by lia. apply Hm. lia.
    - intros _ pa [= <-]. rewrite mapped_frame by done. lia. }
  assert (forall i, 0 <= i < 4096 * Z.of_nat (S n) -> phys_byte s1 (p + i) = phys_byte s (p + i)) as Hb.
  { intros i Hi. assert (frame_at (p + i) = p + 4096 * (i / 4096)) as Ef by (unfold frame_at; Z.div_mod_to_equations; lia).
    destruct (Hm (i / 4096)) as (O1 & O2 & _); [Z.div_mod_to_equations; lia|]. unfold phys_byte.
    rewrite (remap_words spaces k s s1 (load_base + off) _ Hs (user_any k Hk _ Ru) R); [done|..]; by rewrite frame_at_word, Ef. }
  assert (forall i, 0 <= i < 4096 -> byte_at spaces k s1 (cr3 (mem s)) (load_base + off + i) = Some (phys_byte s (p + i))) as Hfirst.
  { intros i Hi. assert ((load_base + off + i) / 4096 = (load_base + off) / 4096) as Ep by (Z.div_mod_to_equations; lia).
    rewrite byte_at_user by (apply (ww_current _ _ _ Hs) || by apply (same_page_user k Hk (load_base + off))).
    rewrite (remap_page s s1 (load_base + off) _ R) by done. unfold mapped_to.
    change (negb true || has_flag PAGE_RW PAGE_RW) with true. cbn [fmap option_fmap option_map].
    rewrite <- Hb by lia. do 2 f_equal. rewrite !page_offset_mod.
    Z.div_mod_to_equations. lia. }
  destruct (IH s1 (p + 4096) stop (off + 4096) fuel Hs1 Hc' Hr' Hm1) as [[-> NF]|(s2 & E2 & K2 & B2 & F2')]; [lia| |].
  { left. split; [done|]. intros F. by destruct (map_frames _ _ _ _ _ _ _ F E). }
  right. exists s2. split; [done|]. pose proof K2 as (F2 & C2 & O2). split; [|split].
  - split; [done|]. split; [cbn in *; congruence|]. intros t a Hn.
    etrans; [apply O2|apply Hout]; intros [-> Ha]; apply Hn; (split; [cbn in *; congruence|]); apply area_page; auto.
  - intros i Hi. destruct (decide (i < 4096)) as [Hlt|Hge].
    + cbn in O2. rewrite O2; [by apply Hfirst; lia|]. intros [_ Ha]. unfold area in Ha. lia.
    + replace (load_base + off + i) with (load_base + (off + 4096) + (i - 4096)) by lia. rewrite <- Hc1.
      rewrite B2 by lia. replace (p + 4096 + (i - 4096)) with (p + i) by lia. by rewrite Hb.
  - intros rest F. apply F2'. by destruct (map_frames _ _ _ _ _ _ _ F E).
Qed.

Lemma unmap_module_frames fuel : forall p stop off r s u s', mm_frames r s -> unmap_module fuel p stop off s = Ret (u, s') -> mm_frames r s'.
Proof.
  induction fuel as [|fuel IH]; intros p stop off r s u s' F; cbn [unmap_module]; [done|].
  destruct (p <? stop); [|by intros [= _ <-]]. intros (st & s1 & E & K)%M_bind_Ret. destruct (gives_up st); [done|].
  eapply IH, K. by eapply fb_unmap, E.
Qed.

(** Unmapping [n] mapped pages. *)
Lemma unmap_module_run n : forall s p stop off fuel, wf_world spaces k s -> covers n p stop -> room_for n off ->
  (forall i, 0 <= i < 4096 * Z.of_nat n -> is_Some (byte_at spaces k s (cr3 (mem s)) (load_base + off + i))) -> (n < fuel)%nat ->
  exists s', unmap_module fuel p stop off s = Ret (tt, s') /\ keeps_bytes (area n off) s s' /\
    forall a, area n off a -> byte_at spaces k s' (cr3 (mem s)) a = None.
Proof.
  induction n as [|n IH]; intros s p stop off [|fuel] Hs Hc Hr Hm Hf; try lia; cbn [unmap_module].
  { exists s. destruct Hc as (_ & _ & Hc & _). rewrite (proj2 (Z.ltb_ge p stop)) by lia.
    split; [done|]. split; [by apply keeps_refl|]. unfold area. intros a Ha. lia. }
  destruct (covers_page n p stop Hc) as (Pu & Pm & -> & -> & Hc'). destruct (room_page n off Hr) as (Ru & Rm & -> & -> & Hr').
  cbn [as_unmap_page mm_spaces]. unfold mbind, M_mbind.
  destruct (unmap_world spaces k Hk s (load_base + off) Hs Ru Rm) as (r & s1 & E & Hs1 & Hc1 & Hout & Hcase). rewrite E. ostep.
  destruct Hcase as [(_ & _ & Et)|(_ & _ & Rr & _ & Hnone)].
  { exfalso. destruct (Hm 0) as [b (_ & _ & pa & Ep & _)%byte_at_inv]; [lia|]. rewrite Z.add_0_r, view_current in Ep.
    apply translate_readable in Ep. congruence. }
  assert (gives_up r = false) as ->.
  { unfold gives_up. apply orb_false_iff. split; apply Z.eqb_neq; intros ->; by vm_compute in Rr. }
  destruct (IH s1 (p + 4096) stop (off + 4096) fuel Hs1 Hc' Hr') as (s2 & E2 & K2 & B2); [|lia|].
  { intros i Hi. rewrite Hc1, Hout.
    - replace (load_base + (off + 4096) + i) with (load_base + off + (4096 + i)) by lia. apply Hm. lia.
    - intros [_ Ha]. Z.div_mod_to_equations. lia. }
  exists s2. split; [done|]. pose proof K2 as (F2 & C2 & O2). split.
  - split; [done|]. split; [cbn in *; congruence|]. intros t a Hn.
    etrans; [apply O2|apply Hout]; intros [-> Ha]; apply Hn; (split; [cbn in *; congruence|]); apply area_page; auto.
  - intros a [Ha|Ha]%area_page; [|rewrite <- Hc1; by apply B2|done]. cbn in O2. rewrite O2; [by apply Hnone|].
    intros [_ Ha']. unfold area in Ha'. Z.div_mod_to_equations. lia.
Qed.

(** The contents of the module's frames: the image the loader sees. *)
Definition module_byte s (start i : Z) : Z := phys_byte s (start + i).

Lemma load_image_run s n start stop fuel hs f : wf_world spaces k s -> covers n start stop -> room_for n 0 -> (1 <= n)%nat ->
  module_frames s n start -> (forall i, 0 <= i < 4096 * Z.of_nat n -> module_byte s start i = f i) ->
  headers_ok (W:=mm B) load_base (4096 * Z.of_nat n) f fuel hs -> (n < fuel)%nat ->
  (load_image fuel start stop s = Panic /\ ~ mm_frames (n + frames_for hs) s) \/
  exists s', load_image fuel start stop s = Ret (word_of f elf_entry, s') /\
    keeps_bytes (fun a => area n 0 a \/ Exists (fun h => takes h a) hs) s s' /\
    (forall a, area n 0 a -> byte_at spaces k s' (cr3 (mem s)) a = None) /\
    Forall (loaded f s') hs /\ (forall rest, mm_frames (n + frames_for hs + rest) s -> mm_frames rest s').
Proof.
  intros Hs Hc Hr Hn Hm Hbytes Hh Hf. unfold load_image, mbind, M_mbind.
  assert (Z.ldiff start (page_size - 1) = start) as ->.
  { destruct Hc as (Hc1 & Hc2 & _). change (page_size - 1) with (Z.ones 12). rewrite Z.ldiff_ones_r by lia.
    rewrite Z.shiftl_mul_pow2, Z.shiftr_div_pow2 by lia. Z.div_mod_to_equations. lia. }
  destruct (map_module_run n s start stop 0 fuel Hs Hc Hr Hm Hf) as [[-> NF]|(s1 & E1 & K1 & B1 & F1')].
  { left. split; [done|]. intros F. apply NF. eapply can_serve_le, F. lia. }
  rewrite E1. ostep.
  set (len := 4096 * Z.of_nat n) in *.
  assert (image load_base len f s1) as Him.
  { split; [apply K1|]. intros i Hi. pose proof K1 as (_ & C1 & _). rewrite C1.
    specialize (B1 i Hi). rewrite Z.add_0_r in B1. rewrite <- Hbytes by done. exact B1. }
  assert (load_base + len < 2 ^ 32) as Hlen by (destruct Hr as (_ & _ & Hr); unfold len, load_base in *; lia).
  destruct (load_program_ok mm_frames s1 load_base len f hs fuel) as (r & s2 & E2 & K2 & R2 & F2');
    [unfold load_base; lia|done|exact Him|unfold len; lia|exact Hh|]. rewrite E2. ostep.
  destruct R2 as [->|[-> L2]].
  { left. split; [done|]. intros F. apply F1' in F. rewrite <- (Nat.add_0_r (frames_for hs)) in F. by destruct (F2' _ F). }
  change (gives_up (err ENONE)) with false. cbv iota beta.
  assert (forall a, Exists (fun h => takes h a) hs -> ~ in_image load_base len a) as Hap.
  { intros a Hex. apply Exists_exists in Hex as (h & Hin & Ht & Ha). pose proof (ho_loadable _ _ _ _ _ Hh) as Hl.
    rewrite Forall_forall in Hl. by apply (sg_apart _ _ _ _ _ (Hl h Hin Ht)). }
  assert (image load_base len f s2) as Him2 by (eapply keeps_image; [exact K2|done|exact Him]).
  rewrite (image_word load_base len f s2 elf_entry Him2) by (unfold elf_entry, len; lia). ostep.
  pose proof K1 as (_ & C1 & _). pose proof K2 as (F2 & C2 & _). cbn in C1, C2.
  destruct (unmap_module_run n s2 start stop 0 fuel F2 Hc Hr) as (s3 & E3 & K3 & B3); [|done|].
  { intros i Hi. rewrite Z.add_0_r. exists (f i). exact (proj2 Him2 i Hi). }
  rewrite E3. ostep. right. exists s3. split; [done|].
  assert (forall a, area n 0 a <-> in_image load_base len a) as Har by (intros a; unfold area, in_image, len; rewrite Z.add_0_r; done).
  split; [|split; [|split]].
  - set (P := fun a => area n 0 a \/ Exists (fun h => takes h a) hs).
    apply (keeps_bytes_trans P (area n 0) P s s2 s3); [|exact K3|done|by left].
    by apply (keeps_bytes_trans (area n 0) _ P s s1 s2 K1 K2); [left|right].
  - rewrite <- C1, <- C2. exact B3.
  - rewrite Forall_forall in L2 |- *. intros h Hin Ht i Hi. pose proof K3 as (_ & C3 & O3).
    rewrite C3, O3; [by apply L2|]. intros [_ Ha%Har]. revert Ha. apply Hap, Exists_exists. exists h. split; [done|]. split; [done|].
    unfold pages_of. Z.div_mod_to_equations. lia.
  - intros rest F. eapply unmap_module_frames, E3. rewrite <- Nat.add_assoc in F. apply F1', F2' in F. by destruct F.
Qed.
End image_load.

(** The conditions on an image do not depend on the spaces there are. *)
Lemma headers_ok_spaces {B} `{BitmapHeapOk B} spaces spaces' k Hk elf len f fuel hs :
  headers_ok (H1 := mm_spaces_map (B:=B) spaces k Hk) elf len f fuel hs ->
  headers_ok (H1 := mm_spaces_map (B:=B) spaces' k Hk) elf len f fuel hs.
Proof.
  intros [H1 H2 H3 H4 H5 H6 H7 H8]. split; try done. eapply Forall_impl; [exact H6|].
  intros h Hl Ht. destruct (Hl Ht) as [S1 S2 S3 S4 S5]. by split.
Qed.

(** ** The whole call *)
Lemma current_space_run {B} `{BitmapHeap B} (s : mm B) : wf_space (mem s) -> current_address_space s = Ret (cr3 (mem s), s).
Proof.
  intros Hw. unfold current_address_space, on_mem, paging_current_address_space, mbind, M_mbind.
  rewrite read_pde by (lia || by apply wf_space_dir). ostep.
  cbv [mret M_mret]. ostep. rewrite (proj2 (wf_self _ Hw)). by destruct s.
Qed.

Section module.
Context {H B : Type} `{KHeapOk H} `{BitmapHeapOk B} (spaces : gset Z) (kernel_start : Z) (fuel : nat).
#[local] Abbreviation k := (Z.shiftr kernel_start 22).
Implicit Types s : kst H (mm B).

(** Memory for a process and its node in the process table. *)
Definition heap_serves s (p c a : Z) : Prop := exists h1 h2 h3,
  Alloc.kmalloc sizeof_process (kheap s) = Ret (p, h1) /\ p <> NULL /\
  Alloc.kmalloc sizeof_context h1 = Ret (c, h2) /\ c <> NULL /\
  Alloc.kmalloc sizeof_avltree h2 = Ret (a, h3) /\ a <> NULL.

(** The kernel as it boots: the process table and the ready queue are in order. *)
Definition tables_ok s : Prop :=
  valid (priority_queue (kernel s)) /\ avl (process_table (kernel s)) /\ bst (process_table (kernel s)) /\
  0 < next_pid (kernel s) < 2 ^ 31.

(** A module that can be loaded: [n] frames from [start] to [stop], the bytes [f] in
    them an ELF image with program headers [hs], none of which takes the page of the stack. *)
Record module_ok (Hk : 1 <= k <= 1023) (f : Z -> Z) (n : nat) (start stop : Z) (hs : list header) : Prop := {
  mo_pages : covers n start stop /\ room_for k n 0 /\ (1 <= n < fuel)%nat;
  mo_headers : headers_ok (H1 := mm_spaces_map (B:=B) spaces k Hk) load_base (4096 * Z.of_nat n) f fuel hs;
  mo_stack : Forall (fun h => forall a, takes h a -> a / 4096 <> stack_top_page kernel_start / 4096) hs
}.

(** The spaces just after the one for a module is made and entered: [t] is one of them,
    and empty, and the module's frames are nobody's and hold [f]. *)
Record opened s (w : mm B) (t : Z) (n : nat) (start : Z) (f : Z -> Z) : Prop := {
  op_new : t ∉ spaces;
  op_world : wf_world ({[t]} ∪ spaces) k w;
  op_current : cr3 (mem w) = t;
  op_others : forall t' a, t' ∈ spaces -> byte_at ({[t]} ∪ spaces) k w t' a = byte_at spaces k (world s) t' a;
  op_empty : forall a, byte_at ({[t]} ∪ spaces) k w t a = None;
  op_frames : module_frames ({[t]} ∪ spaces) k w n start;
  op_image : forall i, 0 <= i < 4096 * Z.of_nat n -> module_byte w start i = f i
}.

(** The first two steps of [kernel_load_module]. *)
Definition opens s (n : nat) (start : Z) (f : Z -> Z) : Prop := exists t w, create_address_space kernel_start (world s) = Ret (t, w) /\
  (t = err ENOMEM \/ (t <> err ENOMEM /\ opened s (switched w t) t n start f)).

Lemma frame_of_byte n start i : start mod 4096 = 0 -> 0 <= i < 4096 * Z.of_nat n ->
  0 <= i / 4096 < Z.of_nat n /\ frame_at (4 * ((start + i) / 4)) = start + 4096 * (i / 4096).
Proof. intros Ha Hi. rewrite frame_at_word. unfold frame_at. Z.div_mod_to_equations. lia. Qed.

Lemma opens_world s n start f : 1 <= k <= 1023 -> wf_world spaces k (world s) -> has_table (mem (world s)) 0 -> start mod 4096 = 0 ->
  module_frames spaces k (world s) n start -> (forall i, 0 <= i < 4096 * Z.of_nat n -> module_byte (world s) start i = f i) ->
  opens s n start f.
Proof.
  intros Hk Hs H0t Ha Hm Hf.
  destruct (create_world spaces kernel_start (world s) Hk Hs H0t) as (t & w1 & E1 & Hc1 & [(-> & _)|(Hne & Ht & Hw1 & Hby & Hno & Hfr)]);
    eexists _, w1; (split; [exact E1|]); [by left|right]. split; [done|].
  destruct (load_run ({[t]} ∪ spaces) k Hk w1 t Hw1) as (w2 & E2 & Hw2 & Hc2 & Hb2); [set_solver|]. injection E2 as <-.
  split; [done|exact Hw2|done|..].
  - intros t' a Ht'. etrans; [apply Hb2|by apply Hby].
  - intros a. etrans; [apply Hb2|apply Hno].
  - intros j Hj. exact (proj1 (Hfr _ (Hm j Hj))).
  - intros i Hi. rewrite <- Hf by done. destruct (frame_of_byte n start i Ha Hi) as [Hj Ef]. unfold module_byte, phys_byte.
    destruct (Hfr _ (Hm _ Hj)) as [_ Hw]. cbn [switched mem loaded phys]. by rewrite Hw.
Qed.

Lemma stack_page_user : 1 <= k <= 1023 -> is_u32 kernel_start -> kernel_start mod 4194304 = 0 -> user k (stack_top_page kernel_start).
Proof.
  unfold stack_top_page, user, is_u32. rewrite !dir_index_div. rewrite Z.shiftr_div_pow2 by lia. change (2 ^ 22) with 4194304.
  intros Hk Hu Hm. rewrite u32_id by (unfold is_u32; Z.div_mod_to_equations; lia). Z.div_mod_to_equations. lia.
Qed.

(** The space [t] is in use and holds the segments of the image [f], and perhaps a stack. *)
Record holds_module (w : mm B) (f : Z -> Z) (hs : list header) (t : Z) : Prop := {
  hm_world : wf_world ({[t]} ∪ spaces) k w;
  hm_current : cr3 (mem w) = t;
  hm_segments : Forall (fun h => h_type h = ELF_LOAD -> forall i, 0 <= i < h_memsize h ->
    byte_at ({[t]} ∪ spaces) k w t (h_vaddr h + i) = Some (f (h_offset h + i))) hs;
  hm_only : forall a, is_Some (byte_at ({[t]} ∪ spaces) k w t a) ->
    a / 4096 = stack_top_page kernel_start / 4096 \/ Exists (fun h => takes h a) hs
}.

(** What loading a module does to memory: the other spaces keep their bytes. *)
Record module_memory s s' (f : Z -> Z) (hs : list header) (t : Z) : Prop := {
  mm_space : t ∉ spaces;
  mm_others : forall t' a, t' ∈ spaces -> byte_at ({[t]} ∪ spaces) k (world s') t' a = byte_at spaces k (world s) t' a;
  mm_holds : holds_module (world s') f hs t
}.

(** The state before [kernel_spawn_process]: memory is done, the rest is as it was. *)
Lemma load_module_memory (Hk : 1 <= k <= 1023) s n start stop str f hs : opens s n start f -> module_ok Hk f n start stop hs ->
  (kernel_load_module kernel_start fuel (Module_ start stop str) s = Panic /\ ~ mm_frames (1 + n + frames_for hs) (world s)) \/
  exists w t, (forall rest, mm_frames (1 + n + frames_for hs + rest) (world s) -> mm_frames rest w) /\ module_memory s (KState (kernel s) (kheap s) (objs s) w) f hs t /\
    (forall a, a / 4096 = stack_top_page kernel_start / 4096 -> byte_at ({[t]} ∪ spaces) k w t a = None) /\
    kernel_load_module kernel_start fuel (Module_ start stop str) s =
      (pid ← kernel_spawn_process kernel_start (word_of f elf_entry) 1 t;
       mret (if 0 <? pid then err ENONE else -1)) (KState (kernel s) (kheap s) (objs s) w).
Proof.
  intros (t & w1 & E1 & Hop) [(Hc & Hr & Hn) Hh Hst]. destruct Hop as [->|(Hne & [Ht Hw2 Hc2 Hby Hno Hm2 Himg])].
  { left. split; [unfold kernel_load_module, mbind, M_mbind; cbn [as_create mm_create]; by rewrite (on_world_Ret _ s _ _ E1)|].
    intros F. by destruct (create_frames (n + frames_for hs) _ _ _ _ F E1) as [[] _]. }
  set (spaces' := {[t]} ∪ spaces) in *. set (w2 := switched w1 t) in *.
  assert (kernel_load_module kernel_start fuel (Module_ start stop str) s =
    (e ← on_world (load_image fuel start stop); t ← on_world current_address_space;
     pid ← kernel_spawn_process kernel_start e 1 t; mret (if 0 <? pid then err ENONE else -1))
    (KState (kernel s) (kheap s) (objs s) w2)) as ->.
  { unfold kernel_load_module, mbind at 1, M_mbind at 1. cbn [mod_start mod_end as_create mm_create as_current_space].
    rewrite (on_world_Ret _ s _ _ E1). ostep. rewrite (proj2 (Z.eqb_neq _ _) Hne). done. }
  destruct (load_image_run spaces' k Hk w2 n start stop fuel hs f Hw2 Hc Hr ltac:(lia) Hm2 Himg) as [[Ep NF]|(w3 & E3 & (F3 & C3 & O3) & N3 & L3 & G3)];
    [by apply (headers_ok_spaces spaces)|lia|..].
  { left. split; [unfold mbind, M_mbind, on_world; cbn [world]; by rewrite Ep|]. intros F. apply NF.
    by destruct (create_frames (n + frames_for hs) _ _ _ _ F E1). }
  right. exists w3, t. split.
  { intros rest F. apply G3. by destruct (create_frames (n + frames_for hs + rest) _ _ _ _ F E1). } cbn in F3, C3. assert (cr3 (mem w3) = t) as Ct by congruence. rewrite Hc2 in N3.
  assert (forall t' a, ~ (t' = t /\ (area n 0 a \/ Exists (fun h => takes h a) hs)) -> byte_at spaces' k w3 t' a = byte_at spaces' k w2 t' a) as O'
    by (intros t' a Hna; apply O3; exact Hna).
  assert (forall a, ~ Exists (fun h => takes h a) hs -> byte_at spaces' k w3 t a = None) as Hnone.
  { intros a Ha. destruct (decide (load_base + 0 <= a < load_base + 0 + 4096 * Z.of_nat n)) as [Hin|Hout]; [by apply N3|].
    rewrite O'; [apply Hno|]. intros [_ [?|?]]; done. }
  split; [split; cbn [world]; [exact Ht| |split]|split].
  - intros t' a Hin. rewrite O'; [by apply Hby|]. intros [-> _]. done.
  - exact F3.
  - exact Ct.
  - eapply Forall_impl; [exact L3|]. intros h Hl Hty i Hi. specialize (Hl Hty i Hi). cbn in Hl. by rewrite Ct in Hl.
  - intros a [b Hb]. right. destruct (decide (Exists (fun h => takes h a) hs)) as [|Hn']; [done|]. by rewrite Hnone in Hb.
  - intros a Ha. apply Hnone. intros (h & Hin & Hh')%Exists_exists. rewrite Forall_forall in Hst. by apply (Hst h Hin a Hh').
  - unfold mbind at 1, M_mbind at 1. erewrite on_world_Ret by (cbn [world]; exact E3). ostep.
    unfold mbind at 1, M_mbind at 1. pose proof (ww_space _ _ _ F3 _ (ww_current _ _ _ F3)) as Wc. rewrite view_current in Wc.
    erewrite on_world_Ret by (cbn [world]; by apply current_space_run). ostep. by rewrite Ct.
Qed.

Lemma module_memory_stack s (w : mm B) s' f hs t (Hk : 1 <= k <= 1023) :
  module_memory s (KState (kernel s) (kheap s) (objs s) w) f hs t ->
  Forall (fun h => forall a, takes h a -> a / 4096 <> stack_top_page kernel_start / 4096) hs ->
  stack_only (H3 := mm_spaces_ok ({[t]} ∪ spaces) k Hk) kernel_start w (world s') -> module_memory s s' f hs t.
Proof.
  intros [M1 M4 [M2 M3 M5 M6]] Hst (F & C & O). cbn in F, C, O, M3, M4, M5, M6. rewrite M3 in *.
  split; [exact M1| |split; [exact F|exact C|..]].
  - intros t' a Hin. rewrite O; [by apply M4|]. intros [-> _]. done.
  - rewrite Forall_forall in M5, Hst |- *. intros h Hin Hty i Hi. rewrite O; [by apply M5|]. intros [_ Ha]. revert Ha.
    apply (Hst h Hin). split; [done|]. unfold pages_of. Z.div_mod_to_equations. lia.
  - intros a Ha. destruct (decide (a / 4096 = stack_top_page kernel_start / 4096)) as [|Hne]; [by left|].
    apply M6. rewrite O in Ha; [done|]. by intros [_ ?].
Qed.

(** The frames that are enough for a module of [n] pages with headers [hs]: the new
    directory, the tables for the module's own pages, the segments and their tables, the
    stack and its table. *)
Definition module_frames_needed (n : nat) (hs : list header) : nat := 1 + n + frames_for hs + 2.

Lemma load_module_run (Hk : 1 <= k <= 1023) s n start stop str f hs p c a :
  is_u32 kernel_start -> kernel_start mod 4194304 = 0 -> opens s n start f ->
  tables_ok s -> heap_serves s p c a -> module_ok Hk f n start stop hs ->
  (mm_frames (module_frames_needed n hs) (world s) ->
   exists s' t, kernel_load_module kernel_start fuel (Module_ start stop str) s = Ret (err ENONE, s') /\ module_memory s s' f hs t /\
     new_process kernel_start s s' p
       (Process (next_pid (kernel s)) 1 t PROCESS_ACTIVE queue_construct queue_construct NULL c) (word_of f elf_entry) /\
     forall b, b / 4096 = stack_top_page kernel_start / 4096 -> is_Some (byte_at ({[t]} ∪ spaces) k (world s') t b)) /\
  (kernel_load_module kernel_start fuel (Module_ start stop str) s = Panic \/
   exists r s' t, kernel_load_module kernel_start fuel (Module_ start stop str) s = Ret (r, s') /\ module_memory s s' f hs t /\
     ((r = -1 /\ kernel s' = kernel s /\ objs s' = objs s) \/
      (r = err ENONE /\ new_process kernel_start s s' p
         (Process (next_pid (kernel s)) 1 t PROCESS_ACTIVE queue_construct queue_construct NULL c)
         (word_of f elf_entry)))).
Proof.
  intros Hu Hal Hop (Hq & Ha & Hb & Hn) (h1 & h2 & h3 & E1 & N1 & E2 & N2 & E3 & N3) Hmod.
  destruct (load_module_memory Hk s n start stop str f hs Hop Hmod) as [[Ep NF]|(w & t & F & Hmm & _ & E)].
  { split; [|by left]. intros F. destruct NF. eapply can_serve_le, F. unfold module_frames_needed. lia. }
  pose proof (spawn_run (H4 := mm_spaces_map ({[t]} ∪ spaces) k Hk) kernel_start (KState (kernel s) (kheap s) (objs s) w)
    (word_of f elf_entry) 1 t p c a h1 h2 h3) as Sp. cbn [kernel kheap world] in Sp.
  specialize (Sp (hm_world _ _ _ _ (mm_holds _ _ _ _ _ Hmm)) (stack_page_user Hk Hu Hal) Hq Ha Hb E1 N1 E2 N2 E3 N3).
  assert (forall s', stack_only (H3 := mm_spaces_ok ({[t]} ∪ spaces) k Hk) kernel_start w (world s') -> module_memory s s' f hs t) as Hm'
    by (intros s'; apply module_memory_stack; [exact Hmm|apply Hmod]).
  rewrite E. unfold mbind, M_mbind. split.
  - intros F0. apply F in F0. destruct (spawns_frames (H3 := mm_spaces_ok ({[t]} ∪ spaces) k Hk) kernel_start mm_frames
      (KState (kernel s) (kheap s) (objs s) w) _ _ _ _ _ _ F0 Sp)
      as (s' & Es & N & O & R). cbn [kernel world] in Es, N, O, R. rewrite Es. ostep.
    rewrite (u32_id (next_pid (kernel s))) in N |- * by (unfold is_u32; lia). rewrite (proj2 (Z.ltb_lt 0 _)) by lia.
    exists s', t. split; [done|]. split; [by apply Hm'|]. split; [by destruct N|].
    pose proof (hm_current _ _ _ _ (mm_holds _ _ _ _ _ Hmm)) as Ct. cbn in Ct, R. rewrite Ct in R. exact R.
  - right. destruct (spawns_cases (H3 := mm_spaces_ok ({[t]} ∪ spaces) k Hk) kernel_start _ _ _ _ _ _ _ Sp) as (r & s' & Es & O & Hcase).
    rewrite Es. ostep. eexists _, s', t. split; [done|]. split; [by apply Hm'|].
    destruct Hcase as [(-> & K1 & K2)|(-> & N)]; [by left|right]. cbn [kernel] in N |- *.
    rewrite (u32_id (next_pid (kernel s))) in N |- * by (unfold is_u32; lia).
    rewrite (proj2 (Z.ltb_lt 0 _)) by lia. split; [done|]. by destruct N.
Qed.
End module.

(** The first module: there is no space yet but the one of the boot. *)
Lemma opens_first {H B} `{BitmapHeapOk B} kernel_start (s : kst H (mm B)) n start f : 1 <= Z.shiftr kernel_start 22 <= 1023 ->
  wf_mm (world s) -> has_table (mem (world s)) 0 -> start mod 4096 = 0 ->
  (forall j, 0 <= j < Z.of_nat n -> unclaimed (world s) (start + 4096 * j)) ->
  (forall i, 0 <= i < 4096 * Z.of_nat n -> module_byte (world s) start i = f i) -> opens ∅ kernel_start s n start f.
Proof.
  intros Hk Hs H0t Ha Hm Hf. destruct (create_first kernel_start (world s) Hk Hs H0t) as (t & w & E & [->|(Hne & Hw & Hno & Hfr)]);
    eexists _, w; (split; [exact E|]); [by left|right]. split; [done|].
  assert ({[t]} ∪ ∅ = ({[t]} : gset Z)) as Es by set_solver. split; rewrite ?Es; try done.
  - intros j Hj. exact (proj1 (Hfr _ (Hm j Hj))).
  - intros i Hi. rewrite <- Hf by done. destruct (frame_of_byte n start i Ha Hi) as [Hj Ef]. unfold module_byte, phys_byte. by rewrite (proj2 (Hfr _ (Hm _ Hj))).
Qed.

(** ** A module on the machine of Isolation.v

    The image of Elf.v lies in the frame at 0x100000: a header, a program
    header for three bytes at 0x400000, and the bytes. *)
Fixpoint store_words (a : Z) (ws : list Z) (m : gmap Z Z) : gmap Z Z :=
  match ws with [] => m | w :: ws => store_words (a + 4) ws (<[a:=w]> m) end.

Definition demo_module_words : list Z :=
  [elf_magic_number; 0; 0; 0; 0; 0; 0x400000; 52; 0; 0; 0x200034; 1; 0; ELF_LOAD; 84; 0x400000; 0; 3; 3; 0; 0; 0x090807].
Definition demo_module : module_t := Module_ 0x100000 0x100057 [].
Definition demo_header : header := Header ELF_LOAD 84 0x400000 3.

Definition demo_memory : mm frame_list :=
  MM (Mmu (store_words 0x100000 demo_module_words demo_phys) 0x1000) [16; 17; 18; 19; 20; 21]%positive.
Definition demo_boot : kst demo_heap (mm frame_list) :=
  KState (Kernel_ [] (empty_queue 4) Leaf Leaf Leaf NULL 1) demo0 (Objects ∅ ∅ ∅ ∅ ∅ ∅) demo_memory.

Lemma store_words_below ws : forall a b m, b < a -> store_words a ws m !! b = m !! b.
Proof.
  induction ws as [|w ws IH]; intros a b m Hb; cbn [store_words]; [done|].
  rewrite IH by lia. apply lookup_insert_ne. lia.
Qed.

Lemma demo_frames l : list_to_set (frame_addr <$> l) = free_blocks (B:=frame_list) l.
Proof. done. Qed.

Definition demo_free : frame_list := [16; 17; 18; 19; 20; 21]%positive.

Lemma demo_free_frames p : p ∈ demo_free -> 0x10000 <= frame_addr p.
Proof. intros Hp. repeat (apply elem_of_cons in Hp as [->|Hp]; [done|]). by apply elem_of_nil in Hp. Qed.

Lemma demo_memory_same a : is_meta demo_spaces (demo_world demo_free) (frame_at a) ->
  pget (phys (mem demo_memory)) a = pget (phys (mem (demo_world demo_free))) a.
Proof.
  intros Hm%demo_meta. unfold pget. cbn [mem demo_memory demo_world phys]. rewrite store_words_below; [done|].
  unfold frame_at in Hm. Z.div_mod_to_equations. lia.
Qed.

Lemma demo_k : 1 <= 768 <= 1023.
Proof. lia. Qed.

Lemma demo_memory_wf : wf_world demo_spaces 768 demo_memory.
Proof.
  apply (same_wf_world demo_spaces 768 demo_k (demo_world demo_free)); [apply demo_world_wf, demo_free_frames|exact demo_memory_same
    |by apply demo_space; left|done].
Qed.

Lemma demo_frame_ownerless : ownerless demo_spaces 768 demo_memory 0x100000.
Proof.
  pose proof (demo_world_wf demo_free demo_free_frames) as W. split; [|split].
  - intros Hm%(same_meta demo_spaces 768 (demo_world demo_free) demo_memory W demo_memory_same)%demo_meta. lia.
  - apply (bool_decide_unpack _). by vm_compute.
  - intros t va pa Ht Hu E. pose proof (user_dir 768 demo_k va Hu).
    rewrite (same_translate demo_spaces 768 (demo_world demo_free) demo_memory W demo_memory_same) in E by (apply Hu || done || lia).
    by rewrite demo_no_user in E.
Qed.

Lemma demo_module_frames : module_frames demo_spaces 768 demo_memory 1 0x100000.
Proof. intros j Hj. replace j with 0 by lia. exact demo_frame_ownerless. Qed.

(** The image of [demo_module_words], wherever it lies. *)
Lemma demo_module_image_ok spaces kernel_start fuel Hk f start stop : covers 1 start stop -> room_for (Z.shiftr kernel_start 22) 1 0 -> (9 <= fuel)%nat ->
  1025 <= stack_top_page kernel_start / 4096 ->
  word_of f elf_phoffset = 52 /\ half_of f elf_phsize = 32 /\ half_of f elf_phcount = 1 /\ headers_at f 52 32 [demo_header] ->
  module_ok spaces kernel_start fuel Hk f 1 start stop [demo_header].
Proof.
  intros Hc Hr Hf Hst (E1 & E2 & E3 & E4). split.
  - split; [done|]. split; [done|lia].
  - split; rewrite ?E1, ?E2, ?E3; [done|done|done|done|done| | |].
    + apply Forall_singleton. intros _. split; [by split|by split|by split| |].
      * intros page [Hp1 Hp2] Hm. cbn [h_vaddr h_memsize demo_header] in *. change ((3 + 4095) / 4096 * 4096) with 4096 in Hp2.
        change (user (Z.shiftr kernel_start 22) page). unfold room_for, load_base in Hr. unfold user, is_u32. rewrite dir_index_div.
        Z.div_mod_to_equations. lia.
      * intros a [Ha1 Ha2] [Ha3 Ha4]. cbn [h_vaddr h_memsize demo_header] in *. change ((3 + 4095) / 4096 * 4096) with 4096 in Ha2.
        unfold load_base in Ha3. lia.
    + split; [intros a _; constructor|exact I].
    + apply Forall_singleton. change (Z.to_nat (h_memsize demo_header)) with 3%nat. lia.
  - apply Forall_singleton. intros a [_ [Ha1 Ha2]]. cbn [h_vaddr h_memsize demo_header] in *.
    change ((3 + 4095) / 4096 * 4096) with 4096 in Ha2. Z.div_mod_to_equations. lia.
Qed.

Lemma demo_module_ok spaces Hk : module_ok spaces 0xC0000000 9 Hk (module_byte demo_memory 0x100000) 1 0x100000 0x100057 [demo_header].
Proof. apply demo_module_image_ok; [by split|by split|lia|done|]. split_and!; by vm_compute. Qed.

Definition status_of {S A} (o : outcome (A * S)) : option A := match o with Ret (r, _) => Some r | _ => None end.

Lemma demo_loads : status_of (kernel_load_module 0xC0000000 9 demo_module demo_boot) = Some 0.
Proof. by vm_compute. Qed.

(** * Properties *)

(** C20: Loading a module whose frames hold a proper ELF image.  When the
    allocator can serve one frame for the new directory, one for each page of the
    module, two for each page of a segment and two for the stack, it returns ENONE:
    there is a new address space among the others with every loadable segment as the
    image has it, the stack page mapped writable, and nothing else; the other spaces
    are untouched; and there is a new process in that space, registered, with the
    image's entry point and the stack pointer in its registers, ready if the queue
    has room.  With fewer frames it may panic, or return with the space as above
    but without a stack, with status -1 and no change to the kernel's objects or
    even with ENONE and the process. *)
Theorem kernel_load_module_spec {H B} `{KHeapOk H} `{BitmapHeapOk B} spaces kernel_start fuel
    (Hk : 1 <= Z.shiftr kernel_start 22 <= 1023) (s : kst H (mm B)) n start stop str hs p c a :
  is_u32 kernel_start -> kernel_start mod 4194304 = 0 ->
  wf_world spaces (Z.shiftr kernel_start 22) (world s) -> has_table (mem (world s)) 0 ->
  tables_ok s -> heap_serves s p c a -> module_ok spaces kernel_start fuel Hk (module_byte (world s) start) n start stop hs ->
  module_frames spaces (Z.shiftr kernel_start 22) (world s) n start ->
  (can_serve (module_frames_needed n hs) (page_map (world s)) ->
   exists s' t, kernel_load_module kernel_start fuel (Module_ start stop str) s = Ret (err ENONE, s') /\
     module_memory spaces kernel_start s s' (module_byte (world s) start) hs t /\
     new_process kernel_start s s' p
       (Process (next_pid (kernel s)) 1 t PROCESS_ACTIVE queue_construct queue_construct NULL c)
       (word_of (module_byte (world s) start) elf_entry) /\
     forall b, b / 4096 = stack_top_page kernel_start / 4096 ->
       is_Some (byte_at ({[t]} ∪ spaces) (Z.shiftr kernel_start 22) (world s') t b)) /\
  (kernel_load_module kernel_start fuel (Module_ start stop str) s = Panic \/
   exists r s' t, kernel_load_module kernel_start fuel (Module_ start stop str) s = Ret (r, s') /\
     module_memory spaces kernel_start s s' (module_byte (world s) start) hs t /\
     ((r = -1 /\ kernel s' = kernel s /\ objs s' = objs s) \/
      (r = err ENONE /\ new_process kernel_start s s' p
         (Process (next_pid (kernel s)) 1 t PROCESS_ACTIVE queue_construct queue_construct NULL c)
         (word_of (module_byte (world s) start) elf_entry)))).
Proof.
  intros Hu Hal Hs H0t Htab Hh Hmod Hm. eapply load_module_run; try eassumption.
  apply opens_world; try assumption; [|done]. by destruct (mo_pages _ _ _ _ _ _ _ _ _ Hmod) as [(_ & Ha & _) _].
Qed.

(** The machine has exactly the six frames the module needs. *)
Lemma kernel_load_module_spec_witness : exists s' t,
  kernel_load_module 0xC0000000 9 demo_module demo_boot = Ret (0, s') /\
  module_memory demo_spaces 0xC0000000 demo_boot s' (module_byte demo_memory 0x100000) [demo_header] t /\
  new_process 0xC0000000 demo_boot s' 64 (Process 1 1 t PROCESS_ACTIVE queue_construct queue_construct NULL 128) 0x400000 /\
  is_Some (byte_at ({[t]} ∪ demo_spaces) 768 (world s') t 0xBFFFFFFC).
Proof.
  destruct (kernel_load_module_spec demo_spaces 0xC0000000 9 demo_k demo_boot 1 0x100000 0x100057 [] [demo_header] 64 128 192)
    as [K _].
  - by split.
  - done.
  - exact demo_memory_wf.
  - by vm_compute.
  - split; [apply empty_queue_valid|]. split; [exact I|]. split; [constructor|]. by split.
  - eexists _, _, _. split; [by vm_compute|]. split; [done|]. split; [by vm_compute|]. split; [done|]. split; [by vm_compute|done].
  - apply demo_module_ok.
  - exact demo_module_frames.
  - destruct K as (s' & t & E & M & N & R); [by vm_compute|]. exists s', t. split; [exact E|]. split; [exact M|].
    assert (Hentry : word_of (module_byte (world demo_boot) 0x100000) elf_entry = 0x400000) by (by vm_compute).
    rewrite Hentry in N. split; [exact N|]. by apply R.
Defined.

(** C21: [kernel_spawn_process], with kernel memory for the process, its context and
    its node in a balanced process table, takes a frame for the stack.  Without
    one it returns 0: memory and the kernel's objects are as they were, and the two
    blocks are lost.  With one it returns the next pid, and the process is registered,
    about to run at the entry point with the stack pointer below the kernel, and
    ready if the queue has room; the frame is mapped as the writable page below
    the kernel in the current space, and nothing else in memory changes.  If that
    mapping fails for want of a table, which is not tested, the pid is returned all
    the same, for a process without a stack. *)
Theorem kernel_spawn_process_spec {H W} `{KHeapOk H} `{AddressSpacesMap W} kernel_start (s : kst H W) entry prio t p c a h1 h2 h3 :
  as_wf (world s) -> as_user_page (stack_top_page kernel_start) -> valid (priority_queue (kernel s)) ->
  avl (process_table (kernel s)) -> bst (process_table (kernel s)) ->
  Alloc.kmalloc sizeof_process (kheap s) = Ret (p, h1) -> p <> NULL ->
  Alloc.kmalloc sizeof_context h1 = Ret (c, h2) -> c <> NULL ->
  Alloc.kmalloc sizeof_avltree h2 = Ret (a, h3) -> a <> NULL ->
  exists f w1, as_reserve_page (world s) = Ret (f, w1) /\ same_memory (world s) w1 /\
  ((f = err ENOMEM /\ kernel_spawn_process kernel_start entry prio t s = Ret (0, KState (kernel s) h2 (objs s) w1)) \/
   (f <> err ENOMEM /\ exists st s', as_map_page (stack_top_page kernel_start) f stack_flags w1 = Ret (st, world s') /\
     kernel_spawn_process kernel_start entry prio t s = Ret (u32 (next_pid (kernel s)), s') /\
     new_process kernel_start s s' p
       (Process (u32 (next_pid (kernel s))) prio t PROCESS_ACTIVE queue_construct queue_construct NULL c) entry /\
     stack_only kernel_start (world s) (world s') /\
     ((st = err ENOMEM /\ same_memory (world s) (world s')) \/
      (st = err ENONE /\ stack_ready kernel_start (world s') (as_current (world s)))))).
Proof. intros. by eapply spawn_run. Qed.

Definition flat_boot : kst demo_heap flat :=
  KState (Kernel_ [] (empty_queue 4) Leaf Leaf Leaf NULL 1) demo0 (Objects ∅ ∅ ∅ ∅ ∅ ∅) (Flat 0x1000 ∅ 0x100000).

Lemma kernel_spawn_process_spec_witness : exists s',
  kernel_spawn_process 0xC0000000 0x400000 1 0x1000 flat_boot = Ret (1, s') /\
  new_process 0xC0000000 flat_boot s' 64 (Process 1 1 0x1000 PROCESS_ACTIVE queue_construct queue_construct NULL 128) 0x400000 /\
  stack_ready 0xC0000000 (world s') 0x1000.
Proof.
  destruct (kernel_spawn_process_spec 0xC0000000 flat_boot 0x400000 1 0x1000 64 128 192 (DemoHeap 2 1000 {[64]})
    (DemoHeap 3 1000 {[128; 64]}) (DemoHeap 4 1000 {[192; 128; 64]})) as (f & w1 & Er & _ & Hcase);
    [exact I|exact I|apply empty_queue_valid|exact I|constructor|by vm_compute|done|by vm_compute|done|by vm_compute|done|].
  injection Er as <- <-. destruct Hcase as [[Hf _]|(_ & st & s' & Em & E & N & _ & Hst)]; [by vm_compute in Hf|].
  assert (Some 0 = Some st) as [= <-] by exact (f_equal status_of Em). exists s'. split; [exact E|]. split; [exact N|]. destruct Hst as [[Hst _]|[_ R]]; [discriminate Hst|exact R].
Defined.
