(* ===== verification/Startup.v ===== *)
(** The end of [kernel_initialize] (src/kernel.c): the kernel's tables, the boot
    modules, and the first process.

    The start of it, up to the kernel heap, is in Boot.v.  The machine is the
    devices of Exceptions.v and the kernel's state.  [cells] is what the block of
    the ready queue holds when it is allocated. *)
From S2P Require Import Console Stdio Apic Exceptions.
From S2P Require Import Prelude Status Alloc AvlTree MsgQueue PriorityQueue Paging Mmgr Space Frames Context Kernel Syscalls System Paged Multiboot Elf Isolation FirstSpace Loader.

Section startup.
Context {H W : Type} `{KHeap H} `{AddressSpaces W} `{AddressSpacesCreate W} (kernel_start : Z) (fuel : nat).
Context (cells : list priority_queue_node_t).

Definition ready_capacity : nat := 512.
Definition sizeof_queue_node : Z := 8.

(** The fields of [kernel], the ready queue and the system call table. *)
Definition construct_tables : M (kst H W) unit :=
  _ ← upd_kernel (fun k => set_port_table Leaf (set_process_table Leaf (set_next_pid 1 (set_active_process NULL k))));
  block ← on_heap (kmalloc (sizeof_queue_node * Z.of_nat ready_capacity));
  match construct_priority_queue (if block =? NULL then None else Some cells) ready_capacity with
  | (Some q, ENONE) => _ ← upd_kernel (set_priority_queue q); register_syscalls
  | _ => panic
  end.

Fixpoint load_modules (modules : list module_t) : M (kst H W) unit :=
  match modules with
  | [] => mret tt
  | m :: modules =>
    r ← kernel_load_module kernel_start fuel m;
    if negb (r =? err ENONE) then panic else load_modules modules
  end.

(** ** With the devices *)
Definition machine : Type := device * kst H W.
Definition on_device {A} (m : M device A) : M machine A := fun '(d, s) => '(a, d) ← m d; Ret (a, (d, s)).
Definition on_kernel {A} (m : M (kst H W) A) : M machine A := fun '(d, s) => '(a, s) ← m s; Ret (a, (d, s)).
Definition on_interrupts {A} (m : M (console * apic * W) A) : M machine A := fun '(d, s) =>
  '(a, x) ← m (con d, lapic d, world s);
  Ret (a, (set_lapic x.1.2 (set_con x.1.1 d), KState (kernel s) (kheap s) (objs s) x.2)).

(** [msr] is what [rdmsr] returns, [apic_registers] the address of the register page. *)
Definition kernel_run (msr apic_registers : Z) (modules : list module_t) : M machine (exit Z) :=
  _ ← on_kernel construct_tables;
  _ ← on_kernel (load_modules modules);
  r ← on_interrupts (initialize_interrupts msr apic_registers);
  if negb (r =? err ENONE) then panic else
  _ ← on_device irq_enable;
  c ← on_kernel kernel_advance_scheduler;
  mret (LoadContext c).
End startup.

(** * Theory *)

Lemma on_kernel_run {H W A} (m : M (kst H W) A) (d : device) s r : m s = r ->
  on_kernel m (d, s) = ('(a, s) ← r; Ret (a, (d, s))).
Proof. by intros <-. Qed.

(** ** The first process, over any address spaces *)
Section first_process.
Context {H W : Type} `{KHeapOk H} `{AddressSpacesOk W, !AddressSpacesMap W, !AddressSpacesQueries W} (kernel_start : Z).
Implicit Types s : kst H W.

(** The process that the boot enters: pid 1, in space [t], with its context in block
    [c] and its registers set for [entry]. *)
Definition first_process s (t c entry : Z) : Prop := exists x,
  procs (objs s) !! active_process (kernel s) = Some x /\ pid x = 1 /\ page_table x = t /\ ctx x = c /\
  ctxs (objs s) !! c = Some (initial_registers kernel_start entry).

(** The call of [kernel_spawn_process] by the loader, and the switch that follows
    when nothing but the kernel's own mappings has changed in between. *)
Lemma first_process_run (frames : nat -> W -> Prop) {Hfr : FrameBudget frames} s entry t p c a h1 h2 h3 : fresh s -> as_space t -> as_current (world s) = t ->
  as_user_page (stack_top_page kernel_start) -> (1 <= capacity (priority_queue (kernel s)))%nat ->
  process_table (kernel s) = Leaf -> next_pid (kernel s) = 1 ->
  Alloc.kmalloc sizeof_process (kheap s) = Ret (p, h1) -> p <> NULL ->
  Alloc.kmalloc sizeof_context h1 = Ret (c, h2) -> c <> NULL ->
  Alloc.kmalloc sizeof_avltree h2 = Ret (a, h3) -> a <> NULL ->
  exists r s2, kernel_spawn_process kernel_start entry 1 t s = Ret (r, s2) /\ as_wf (world s2) /\
    ((r = 0 /\ ~ frames 2%nat (world s)) \/ (r = 1 /\ forall w, same_memory (world s2) w -> exists s',
       kernel_advance_scheduler (KState (kernel s2) (kheap s2) (objs s2) w) = Ret (c, s') /\
       (forall uninit rounds, reachable uninit kernel_start rounds s') /\
       stack_only kernel_start (world s) (world s') /\ (frames 2%nat (world s) -> stack_ready kernel_start (world s') t) /\
       first_process s' t c entry)).
Proof.
  intros Hf Ht Hcur Hst Hcap Htab Hpid E1 N1 E2 N2 E3 N3. pose proof Hf as (Fa & Fp & Fc & Fm & Fv & Fr & Ft & Fw).
  assert (spawns kernel_start s entry 1 t p c h2) as Sp.
  { eapply spawn_run; try done; rewrite Htab; [exact I|constructor]. }
  destruct (spawns_cases kernel_start s entry 1 t p c h2 Sp) as (r & s2 & Es & Hm & Hcase).
  pose proof (fun F => spawns_frames kernel_start frames s entry 1 t p c h2 F Sp) as Hst'. rewrite Es, Hpid in Hst'.
  exists r, s2. split; [done|]. split; [apply Hm|]. rewrite Hpid in Hcase. change (u32 1) with 1 in *.
  destruct Hcase as [(-> & _)|(-> & N)]; [left; split; [done|]; intros F; by destruct (Hst' F) as (? & [=] & _)|right]. split; [done|].
  intros w (Fw' & Cw & Bw).
  assert (booted kernel_start (KState (kernel s2) (kheap s2) (objs s2) w)) as Bt.
  { apply boot_load; [|done]. eapply (boot_spawn kernel_start s entry 1 t); [by apply boot_fresh|exact Ht|exact Hst| |exact Es].
    rewrite Fp, map_size_empty. lia. }
  pose proof (booted_inv _ _ Bt) as [I2 A2 _ _ _].
  destruct N as [Np Nc _ _ _ _ _].
  destruct (advance_ok _ I2) as [[Er _]|(c' & s3 & E & Sw)].
  { exfalso. assert (p ∈ roster (KState (kernel s2) (kheap s2) (objs s2) w)) as Hin; [|rewrite Er in Hin; by apply elem_of_nil in Hin].
    apply (si_roster _ I2). eexists. cbn [objs]. rewrite Np. by rewrite lookup_insert_eq. }
  pose proof (sw_running _ _ _ Sw) as R. destruct (active_in_roster _ R) as [Hact _].
  pose proof (sw_objs _ _ _ Sw) as So. cbn [objs] in So.
  assert (active_process (kernel s3) = p) as Hp.
  { apply (si_roster _ (proj1 R)) in Hact as (y & Hy & _). rewrite So, Np, Fp in Hy.
    apply lookup_insert_Some in Hy as [[? _]|[_ Hy]]; [done|]. by rewrite lookup_empty in Hy. }
  destruct (sw_ctx _ _ _ Sw) as (x & Hx & <-). rewrite Hp in Hx. pose proof Hx as Hx'.
  rewrite So, Np, lookup_insert_eq in Hx'. injection Hx' as <-.
  exists s3. split; [exact E|]. split; [intros; by eapply reach_boot|].
  assert (forall t' b, as_byte (world s3) t' b = as_byte (world s2) t' b) as B3.
  { intros t' b. by rewrite (sw_bytes _ _ _ Sw), Bw. }
  split.
  - destruct Hm as (F & C & O). destruct R as [I3 (y & Hy & Hcy)]. rewrite Hp, Hx in Hy. injection Hy as <-.
    cbn [page_table] in Hcy. split; [apply I3|]. split; [congruence|]. intros t' b Hn. rewrite B3. by apply O.
  - split; [intros F; destruct (Hst' F) as (s2' & [= <-] & _ & _ & M); intros b Hb; rewrite B3, <- Hcur; by apply M|].
    eexists. rewrite Hp. split; [exact Hx|]. split; [done|]. split; [done|]. split; [done|]. by rewrite So, Nc, lookup_insert_eq.
Qed.
End first_process.

(** ** The boot of one module, over the page tables *)
Section theory.
Context {H B : Type} `{KHeapOk H} `{BitmapHeapOk B} (kernel_start : Z) (fuel : nat).
Context (cells : list priority_queue_node_t) (Hcells : length cells = ready_capacity).
#[local] Abbreviation k := (Z.shiftr kernel_start 22).
Implicit Types s : kst H (mm B).

(** No kernel objects yet. *)
Definition no_objects s : Prop := procs (objs s) = ∅ /\ ctxs (objs s) = ∅ /\ msgs (objs s) = ∅.

(** The state after [construct_tables], from the heap [h] the queue left. *)
Definition with_tables s (h : H) : kst H (mm B) :=
  KState (Kernel_ syscalls (Queue cells 0 ready_capacity) (interrupt_handlers (kernel s)) Leaf Leaf NULL 1) h (objs s) (world s).

Lemma construct_tables_run s b h : Alloc.kmalloc (sizeof_queue_node * Z.of_nat ready_capacity) (kheap s) = Ret (b, h) ->
  construct_tables cells s = if b =? NULL then Panic else Ret (tt, with_tables s h).
Proof.
  intros E. unfold construct_tables. krun. erewrite on_heap_Ret by (cbn [kheap set_kernel]; exact E). krun.
  destruct (Z.eqb_spec b NULL) as [->|Hne]; [done|]. cbn [construct_priority_queue]. krun.
  rewrite register_syscalls_run. done.
Qed.

Lemma with_tables_valid : valid (Queue cells 0 ready_capacity).
Proof. split; [split; simpl; [exact Hcells|lia]|]. intros p c _ Hc. simpl in Hc. lia. Qed.

(** What the boot of one module needs: the page tables in order, and the module's
    frames, which hold [f], neither tables nor free. *)
Record bootable (Hk : 1 <= k <= 1023) s (f : Z -> Z) (n : nat) (start stop : Z) (hs : list header) (b p c a : Z) (h : H) : Prop := {
  bt_kernel : is_u32 kernel_start /\ kernel_start mod 4194304 = 0;
  bt_objects : no_objects s;
  bt_world : wf_mm (world s) /\ has_table (mem (world s)) 0;
  bt_frames : forall j, 0 <= j < Z.of_nat n -> unclaimed (world s) (start + 4096 * j);
  bt_image : forall i, 0 <= i < 4096 * Z.of_nat n -> module_byte (world s) start i = f i;
  bt_queue : Alloc.kmalloc (sizeof_queue_node * Z.of_nat ready_capacity) (kheap s) = Ret (b, h) /\ b <> NULL;
  bt_heap : heap_serves (with_tables s h) p c a;
  bt_module : module_ok ∅ kernel_start fuel Hk f n start stop hs
}.

(** The register page is the kernel's. *)
Definition apic_page (a : Z) : Prop := is_u32 a /\ k <= dir_index a < 1023.

Lemma apic_frame_ok v : is_u32 (u32 (Z.shiftl v 12)) /\ u32 (Z.shiftl v 12) mod 4096 = 0.
Proof.
  split; [apply u32_range|]. unfold u32. rewrite Z.shiftl_mul_pow2 by lia. change (2 ^ 12) with 4096.
  Z.div_mod_to_equations. lia.
Qed.

(** [initialize_interrupts] on the machine: what it prints, the registers, and a
    mapping that moves no program's memory. *)
Lemma interrupts_run (Hk : 1 <= k <= 1023) (spaces' : gset Z) msr page (d : device) s :
  wf_world spaces' k (world s) -> apic_page page -> exists out w,
    renders apic_messages [AInt sizeof_register; AInt (u32 msr)] out /\
    same_memory (H0 := mm_spaces_ok spaces' k Hk) (world s) w /\
    on_interrupts (initialize_interrupts msr page) (d, s) =
      (x ← puts out (con d); Ret (err ENONE, (set_lapic (enabled (lapic d)) (set_con x.2 d), KState (kernel s) (kheap s) (objs s) w))).
Proof.
  intros Hw [Hp Hd]. destruct (apic_frame_ok (msr_apic_base msr)) as [Hf Hm].
  destruct (kernel_map_run spaces' k (world s) page (u32 (Z.shiftl (msr_apic_base msr) 12)) PAGE_RW Hk Hw Hp Hd Hf Hm)
    as (st & w & E & Hw' & Hc & Hb & _).
  destruct (initialize_interrupts_run (W := mm B) (H := mm_spaces) msr page (con d) (lapic d) (world s) st w E) as (out & Ho & Er).
  exists out, w. split; [exact Ho|]. split; [by split|]. unfold on_interrupts. rewrite Er.
  by destruct (puts out (con d)) as [[r c]| | |].
Qed.

Lemma load_one m s : load_modules kernel_start fuel [m] s =
  ('(r, s) ← kernel_load_module kernel_start fuel m s; if negb (r =? err ENONE) then Panic else Ret (tt, s)).
Proof.
  cbn [load_modules]. unfold mbind, M_mbind. destruct (kernel_load_module _ _ _ _) as [[r s1]| | |]; ostep; [|done..].
  by destruct (negb _).
Qed.

(** The machine when the first process is entered, with [c] on the console. *)
Definition entered (d : device) (c : console) : device := Device c (enabled (lapic d)) true (data_segments d) (cr2 d).

Lemma boot_run (Hk : 1 <= k <= 1023) s d f n start stop str hs b p c a h msr page :
  bootable Hk s f n start stop hs b p c a h -> apic_page page ->
  (kernel_run kernel_start fuel cells msr page [Module_ start stop str] (d, s) = Panic /\
   ~ can_serve (module_frames_needed n hs) (page_map (world s))) \/
  exists out s' t, renders apic_messages [AInt sizeof_register; AInt (u32 msr)] out /\
    kernel_run kernel_start fuel cells msr page [Module_ start stop str] (d, s) =
      (x ← puts out (con d); Ret (LoadContext c, (entered d x.2, s'))) /\
    module_memory ∅ kernel_start s s' f hs t /\
    (can_serve (module_frames_needed n hs) (page_map (world s)) -> forall v, v / 4096 = stack_top_page kernel_start / 4096 ->
      is_Some (byte_at ({[t]} ∪ ∅) k (world s') t v)) /\
    (forall uninit rounds, paged_reachable ({[t]} ∪ ∅) k Hk uninit kernel_start rounds s') /\
    first_process kernel_start s' t c (word_of f elf_entry).
Proof.
  intros [[Hu Hal] (Ho1 & Ho2 & Ho3) [Hs H0t] Hfr Him [Eb Nb] Hh Hmod] Hpage.
  unfold kernel_run, mbind, M_mbind.
  rewrite (on_kernel_run _ d s _ (construct_tables_run s b h Eb)), (proj2 (Z.eqb_neq _ _) Nb). ostep.
  destruct Hh as (h1 & h2 & h3 & E1 & N1 & E2 & N2 & E3 & N3). pose proof (mo_stack _ _ _ _ _ _ _ _ _ Hmod) as Hst.
  rewrite (on_kernel_run _ d _ _ (load_one _ _)).
  destruct (load_module_memory ∅ kernel_start fuel Hk (with_tables s h) n start stop str f hs) as [[Ep NF]|(w & t & F & Hmm & _ & Eq)].
  { apply (opens_first kernel_start (with_tables s h)); try assumption. by destruct (mo_pages _ _ _ _ _ _ _ _ _ Hmod) as [(_ & Ha & _) _]. }
  { by destruct Hmod. }
  { left. split; [by rewrite Ep|]. intros F. apply NF. eapply can_serve_le, F. unfold module_frames_needed. lia. }
  set (s1 := KState _ _ _ w) in *. set (e := word_of f elf_entry) in *.
  destruct (first_process_run (AddressSpacesMap0 := mm_spaces_map ({[t]} ∪ ∅) k Hk) kernel_start mm_frames s1 e t p c a h1 h2 h3)
    as (r & s2 & Es & Hw2 & Hr); try done.
  { split; [done|]. split; [done|]. split; [done|]. split; [done|]. split; [apply with_tables_valid|].
    split; [done|]. split; [done|]. apply Hmm. }
  { cbn. set_solver. }
  { apply Hmm. }
  { by apply stack_page_user. }
  { cbn. unfold ready_capacity. lia. }
  rewrite Eq. unfold mbind, M_mbind. rewrite Es. ostep.
  destruct Hr as [[-> NF]|(-> & Hr)]; [left; split; [done|]; intros F2; by apply NF, F|right]. change (0 <? 1) with true. cbv iota. unfold mret at 1, M_mret at 1. ostep.
  change (negb (err ENONE =? err ENONE)) with false. cbv iota. unfold mret at 1, M_mret at 1. ostep.
  destruct (interrupts_run Hk ({[t]} ∪ ∅) msr page d s2 Hw2 Hpage) as (out & w' & Ho & Hsame & Ei).
  destruct (Hr w' Hsame) as (s' & Ea & R & Hm & Hstk & Hx).
  exists out, s', t. split; [exact Ho|]. split.
  { change (negb (err ENONE =? err ENONE)) with false. cbv iota. ostep. rewrite Ei. destruct (puts out (con d)) as [[rr cc]| | |]; ostep; [|done..].
    change (negb (err ENONE =? err ENONE)) with false. cbv iota. unfold on_device, irq_enable, modify. ostep.
    by rewrite (on_kernel_run _ _ _ _ Ea). }
  pose proof (module_memory_stack ∅ kernel_start (with_tables s h) w s' f hs t Hk Hmm Hst Hm) as [M1 M2 M3].
  split; [by split|]. split; [intros F2; by apply Hstk, F|]. split; [exact R|exact Hx].
Qed.
End theory.

(** ** A boot on the machine of Loader.v *)
Definition demo_cells : list priority_queue_node_t := replicate ready_capacity (Node 0 0).
Definition demo_queue_heap : demo_heap := DemoHeap 2 1000 {[64]}.

Definition demo_apic_page : Z := 0xC0005000.
Definition demo_devices : device := Device (Console 0 (replicate screen_cells (Cell 0 7 0)) (replicate 100 0x20) []) apic_off false [16; 16; 16; 16] 0.
Definition demo_run (modules : list module_t) (s : kst demo_heap (mm frame_list)) :=
  kernel_run 0xC0000000 9 demo_cells 0xFEE00900 demo_apic_page modules (demo_devices, s).

Lemma demo_boots : status_of (demo_run [demo_module] demo_boot) = Some (LoadContext 192).
Proof. by vm_compute. Qed.

Lemma demo_enough : can_serve (module_frames_needed 1 [demo_header]) (page_map demo_memory).
Proof. by vm_compute. Qed.

(** * Properties *)

(** C17: The boot of one module, from the kernel's tables on and from the directory the
    kernel boots with.  It panics only if the allocator cannot serve the frames the
    module needs.  Otherwise it prints the interrupt controller's three lines, enables
    the controller and interrupts, and ends up in the module's process, the only one,
    with pid 1, in a state the system's theorems are about: the processor in the new
    address space, which holds the segments of the image in the module's frames and
    nothing else but the stack, which is there if the frames were enough, and the
    context to load holds the image's entry point and the top of the stack. *)
Theorem kernel_run_enters_module {H B} `{KHeapOk H} `{BitmapHeapOk B} kernel_start fuel cells
    (Hk : 1 <= Z.shiftr kernel_start 22 <= 1023) (d : device) (s : kst H (mm B)) f n start stop str hs b p c a h msr page :
  length cells = ready_capacity -> bootable kernel_start fuel cells Hk s f n start stop hs b p c a h ->
  apic_page kernel_start page ->
  (kernel_run kernel_start fuel cells msr page [Module_ start stop str] (d, s) = Panic /\
   ~ can_serve (module_frames_needed n hs) (page_map (world s))) \/
  exists out s' t, renders apic_messages [AInt sizeof_register; AInt (u32 msr)] out /\
    kernel_run kernel_start fuel cells msr page [Module_ start stop str] (d, s) =
      (x ← puts out (con d); Ret (LoadContext c, (entered d x.2, s'))) /\
    module_memory ∅ kernel_start s s' f hs t /\
    (can_serve (module_frames_needed n hs) (page_map (world s)) -> forall v, v / 4096 = stack_top_page kernel_start / 4096 ->
      is_Some (byte_at ({[t]} ∪ ∅) (Z.shiftr kernel_start 22) (world s') t v)) /\
    (forall uninit rounds, paged_reachable ({[t]} ∪ ∅) (Z.shiftr kernel_start 22) Hk uninit kernel_start rounds s') /\
    first_process kernel_start s' t c (word_of f elf_entry).
Proof. intros Hc Hb Hp. by eapply boot_run. Qed.

Lemma kernel_run_enters_module_witness : exists out s' t,
  demo_run [demo_module] demo_boot = (x ← puts out (con demo_devices); Ret (LoadContext 192, (entered demo_devices x.2, s'))) /\
  module_memory ∅ 0xC0000000 demo_boot s' (module_byte demo_memory 0x100000) [demo_header] t /\
  is_Some (byte_at ({[t]} ∪ ∅) 768 (world s') t 0xBFFFFFFC) /\
  paged_reachable ({[t]} ∪ ∅) 768 demo_k 0 0xC0000000 5 s' /\
  first_process 0xC0000000 s' t 192 0x400000.
Proof.
  destruct (kernel_run_enters_module 0xC0000000 9 demo_cells demo_k demo_devices demo_boot (module_byte demo_memory 0x100000) 1 0x100000 0x100057 [] [demo_header]
    64 128 192 256 demo_queue_heap 0xFEE00900 demo_apic_page) as [[E _]|(out & s' & t & _ & E & M & Hstk & R & Hr)].
  - by vm_compute.
  - split; [by split|by split_and!| | |done| | |apply demo_module_ok].
    + split; [apply (world_mm demo_spaces 768), demo_memory_wf|by vm_compute].
    + intros j Hj. apply (ownerless_unclaimed demo_spaces 768); [exact demo_memory_wf|by apply demo_module_frames].
    + split; [by vm_compute|done].
    + eexists _, _, _. split; [by vm_compute|]. split; [done|]. split; [by vm_compute|]. split; [done|]. split; [by vm_compute|done].
  - split; [by split|by split; vm_compute].
  - exfalso. pose proof demo_boots as D. unfold demo_run, demo_module in D. rewrite E in D. discriminate D.
  - exists out, s', t. split; [exact E|]. split; [exact M|].
    split; [exact (Hstk demo_enough 0xBFFFFFFC eq_refl)|]. split; [apply R|].
    assert (Hentry : word_of (module_byte demo_memory 0x100000) elf_entry = 0x400000) by (by vm_compute).
    rewrite Hentry in Hr. exact Hr.
Defined.

(** The same machine with more free frames. *)
Definition demo_boot_large : kst demo_heap (mm frame_list) :=
  KState (kernel demo_boot) (kheap demo_boot) (objs demo_boot) (MM (mem (world demo_boot)) (Pos.of_nat <$> seq 16 16)).

(** Two modules: the second one's address space is made while the first one's is
    in use.  The first module is loaded at 4 MiB, as programs usually are, so its
    directory has no entry 0 and [paging_init_top_table] faults in the kernel. *)
Example second_module_faults : demo_run [demo_module; demo_module] demo_boot_large = Fault.
Proof. by vm_compute. Qed.

(** Without modules there is no process to enter: the kernel panics after it has
    enabled interrupts. *)
Example no_modules_panics : demo_run [] demo_boot = Panic.
Proof. by vm_compute. Qed.
