(* ===== verification/Bootstrap.v ===== *)
(** From the boot loader to the first process: [x86_startup] (src/x86/quark_x86.c)
    and [kernel_initialize] (src/kernel.c), composed of the parts modelled in
    Descriptors, Multiboot, Boot, Console, Stdio and Startup.

    Interrupts are off from x86/entry.S on, so a [hlt] before [irq_enable] stops
    the machine for good: it is [Panic], as [panic] is.  What libmalloc decides is
    a parameter, as in Boot.v; the bytes of the boot loader's table are a
    parameter of their own.  The linker's symbols and the addresses of the static
    tables are parameters too. *)
From S2P Require Import Start Console Stdio Apic Exceptions Descriptors.
From S2P Require Import Prelude Status Alloc AvlTree MsgQueue PriorityQueue Paging Mmgr Space Context Kernel Syscalls System Multiboot Elf Isolation FirstSpace EarlyBoot Loader Startup Boot.

(** The frame of the screen. *)
Definition video_memory : Z := 0x000B8000.

Section greeting.
Context {Mp : Type} (regions : Mp -> list region).
(** [PACKAGE_STRING], which the build generates, and the ends of the image. *)
Context (package : list Z) (kernel_pstart kernel_pend : Z).

(** The loop over the memory map, up to the first empty region. *)
Fixpoint print_regions (l : list region) : M console unit :=
  match l with
  | [] => mret tt
  | r :: l =>
    if 0 <? region_size r then
      _ ← printf (text "%i" ++ [c_tab; c_tab; c_tab] ++ text "%08x" ++ [c_tab; c_tab] ++ text "%u" ++ eol)
        [AInt (region_type r); AInt (region_location r); AInt (region_size r)];
      print_regions l
    else mret tt
  end.

Definition kernel_greeting (info : boot_info_t (Mp := Mp)) : M console unit :=
  _ ← printf (text "***%s***" ++ eol) [AStr package];
  _ ← printf (text "Total memory: %08x" ++ eol) [AInt (memory_size info)];
  _ ← printf (text "kernel: %08x ... %08x" ++ eol) [AInt kernel_pstart; AInt kernel_pend];
  _ ← printf (text "Type" ++ [c_tab; c_tab] ++ text "Location" ++ [c_tab; c_tab] ++ text "Size" ++ eol) [];
  print_regions (regions (Multiboot.map info)).

(** ** Reference: the greeting *)
Definition region_line : list directive :=
  Conv false [] KDec :: List.map Lit [c_tab; c_tab; c_tab] ++ hex8 :: List.map Lit [c_tab; c_tab] ++ [Conv false [] KUns; newline].

(** The regions before the first empty one. *)
Fixpoint shown (l : list region) : list region :=
  match l with [] => [] | r :: l => if 0 <? region_size r then r :: shown l else [] end.

Definition region_args (r : region) : list arg_t := [AInt (region_type r); AInt (region_location r); AInt (region_size r)].

Definition greeting (l : list region) : list directive :=
  (lits "***" ++ Conv false [] KStr :: lits "***" ++ [newline]) ++
  (lits "Total memory: " ++ [hex8; newline]) ++
  (lits "kernel: " ++ hex8 :: lits " ... " ++ [hex8; newline]) ++
  (lits "Type" ++ List.map Lit [c_tab; c_tab] ++ lits "Location" ++ List.map Lit [c_tab; c_tab] ++ lits "Size" ++ [newline]) ++
  concat (List.map (fun _ => region_line) (shown l)).

Definition greeting_args (info : boot_info_t (Mp := Mp)) : list arg_t :=
  AStr package :: AInt (memory_size info) :: AInt kernel_pstart :: AInt kernel_pend ::
  concat (List.map region_args (shown (regions (Multiboot.map info)))).

(** The type of a region is small: its decimal does not overflow. *)
Definition printable (r : region) : Prop := s32 (region_type r) <> - 2 ^ 31.

(** A format and its text, as one step of a longer message. *)
Lemma say ds args : Forall directive_ok ds -> typed ds args -> exists o, renders ds args o /\ emits (printf (show ds) args) o 0.
Proof. apply printf_emits. Qed.

Lemma print_regions_ok l : Forall printable l -> exists o,
  renders (concat (List.map (fun _ => region_line) (shown l))) (concat (List.map region_args (shown l))) o /\ emits (print_regions l) o tt.
Proof.
  induction 1 as [|r l Hr _ (o & Ho & E)]; cbn [print_regions shown]; [exists []; split; [constructor|apply emits_ret]|].
  destruct (0 <? region_size r); [|exists []; split; [constructor|apply emits_ret]].
  destruct (say region_line (region_args r)) as (o1 & Ho1 & E1); [apply (bool_decide_unpack _); by vm_compute|by repeat split|].
  exists (o1 ++ o). split.
  - cbn [List.map concat]. by apply renders_app.
  - apply (emits_bind _ _ _ _ 0); [exact E1|exact E].
Qed.

Lemma kernel_greeting_ok info : Forall printable (regions (Multiboot.map info)) -> exists o,
  renders (greeting (regions (Multiboot.map info))) (greeting_args info) o /\ emits (kernel_greeting info) o tt.
Proof.
  intros Hr. destruct (print_regions_ok _ Hr) as (o5 & R5 & E5).
  destruct (say (lits "***" ++ Conv false [] KStr :: lits "***" ++ [newline]) [AStr package]) as (o1 & R1 & E1);
    [apply (bool_decide_unpack _); by vm_compute|by repeat split|].
  destruct (say (lits "Total memory: " ++ [hex8; newline]) [AInt (memory_size info)]) as (o2 & R2 & E2);
    [apply (bool_decide_unpack _); by vm_compute|by repeat split|].
  destruct (say (lits "kernel: " ++ hex8 :: lits " ... " ++ [hex8; newline]) [AInt kernel_pstart; AInt kernel_pend]) as (o3 & R3 & E3);
    [apply (bool_decide_unpack _); by vm_compute|by repeat split|].
  destruct (say (lits "Type" ++ List.map Lit [c_tab; c_tab] ++ lits "Location" ++ List.map Lit [c_tab; c_tab] ++ lits "Size" ++ [newline]) [])
    as (o4 & R4 & E4); [apply (bool_decide_unpack _); by vm_compute|by repeat split|].
  exists (o1 ++ o2 ++ o3 ++ o4 ++ o5). split.
  - unfold greeting, greeting_args.
    apply (renders_app _ [AStr package]); [done|done|]. apply (renders_app _ [AInt (memory_size info)]); [done|done|].
    apply (renders_app _ [AInt kernel_pstart; AInt kernel_pend]); [done|done|]. by apply (renders_app _ []).
  - apply (emits_bind _ _ _ _ 0); [exact E1|]. apply (emits_bind _ _ _ _ 0); [exact E2|].
    apply (emits_bind _ _ _ _ 0); [exact E3|]. apply (emits_bind _ _ _ _ 0); [exact E4|exact E5].
Qed.
End greeting.

Section bootstrap.
Context {Mp B D : Type} `{BitmapHeap B} `{KHeap D}.
(** Libmalloc *)
Context (regions : Mp -> list region) (empty_map : Z -> Mp) (memmap_insert_region : Mp -> Z -> Z -> Z -> Mp).
Context (bitmap_size : Mp -> Z -> Z -> Z) (M_AVAILABLE M_DEFECTIVE M_UNAVAILABLE : Z).
Context (initialize_page_heap : descriptor -> Mp -> Z * B) (bitmap_bytes : B -> Z).
Context (initialize_system_heap : descriptor -> Mp -> (Z -> Z -> M (mm B) Z) -> M (mm B) (Z * D)).
(** The linker's symbols and the addresses of static data. *)
Context (package : list Z) (kernel_start kernel_tend kernel_end kernel_pstart kernel_pend : Z).
Context (gdt_at idt_at tss_at double_fault_tss_at stack_top default_page_dir screen_at apic_registers : Z).
Context (generic_at division_at not_present_at gp_at page_fault_at double_fault_at preempt_at timer_at syscall_at : Z).
(** The block of the ready queue, [rdmsr], and the fuel of the loops. *)
Context (cells : list priority_queue_node_t) (msr : Z) (fuel : nat).

(** [kernel], a static variable. *)
Definition boot_kernel (h : D) (w : mm B) : kst D (mm B) :=
  KState (Kernel_ [] (Queue [] 0 0) Leaf Leaf Leaf NULL 0) h (Objects ∅ ∅ ∅ ∅ ∅ ∅) w.

(** [kernel_initialize] up to the memory map. *)
Definition kernel_greet (info : boot_info_t (Mp := Mp)) (d : device) (s : mm B) : outcome (device * mm B) :=
  '(status, s) ← map_page screen_at video_memory PAGE_RW s;
  '(r, c) ← initialize_screen status (con d);
  if negb (r =? 0) then Panic
  else
    '(_, c) ← kernel_greeting regions package kernel_pstart kernel_pend info c;
    Ret (set_con c d, s).

(** The rest of it. *)
Definition kernel_boot (info : boot_info_t (Mp := Mp)) (d : device) (s : mm B) : outcome (exit Z * (device * kst D (mm B))) :=
  '(h, w) ← initialize_memory regions empty_map memmap_insert_region bitmap_size M_AVAILABLE M_UNAVAILABLE initialize_page_heap
    initialize_system_heap kernel_start kernel_tend kernel_end kernel_pstart kernel_pend bitmap_bytes fuel fuel (Multiboot.map info) (mem s);
  kernel_run kernel_start fuel cells msr apic_registers (modules info) (d, boot_kernel h w).

Definition kernel_initialize (info : boot_info_t (Mp := Mp)) (d : device) (s : mm B) : outcome (exit Z * (device * kst D (mm B))) :=
  '(d, s) ← kernel_greet info d s;
  kernel_boot info d s.

(** The initial [boot_info]: 24 regions, no module. *)
Definition boot_info_0 : boot_info_t (Mp := Mp) := BootInfo [] [] 0 (empty_map 24) [].

(** [m] has the bytes of the boot loader's table. *)
Definition x86_startup (m : Multiboot.memory) (multiboot_info : Z) (t : cpu_tables) (d : device) (s : mm B)
    : outcome (cpu_tables * (exit Z * (device * kst D (mm B)))) :=
  t ← initialize_gdt gdt_at tss_at double_fault_tss_at stack_top default_page_dir kernel_start kernel_pstart double_fault_at t;
  t ← initialize_idt idt_at generic_at division_at not_present_at gp_at page_fault_at preempt_at timer_at syscall_at t;
  '(multiboot_end, info) ← read_multiboot_table memmap_insert_region M_AVAILABLE M_DEFECTIVE M_UNAVAILABLE fuel fuel m boot_info_0 multiboot_info;
  '(_, s) ← unmap_boot_table fuel kernel_end multiboot_end s;
  r ← kernel_initialize info d s;
  Ret (t, r).

(** * Theory *)

(** The serial port's set-up. *)
Definition serial_setup : list (Z * Z) :=
  [(COM1 + 1, 0x00); (COM1 + 3, 0x80); (COM1 + 0, 0x03); (COM1 + 1, 0x00); (COM1 + 3, 0x03); (COM1 + 2, 0xC7); (COM1 + 4, 0x0B); (COM1 + 4, 0x0F)].
Definition serial_ready (c : console) : console := Console (cursor c) (screen c) (line_status c) (sent c ++ serial_setup).

Lemma initialize_screen_run c : initialize_screen 0 c = Ret (0, serial_ready c).
Proof.
  unfold initialize_screen. change (negb (0 =? 0)) with false. cbv iota. unfold outb, modify, mbind, M_mbind, mret, M_mret. ostep.
  cbn [cursor screen line_status sent]. unfold serial_ready, serial_setup. by rewrite <- !app_assoc.
Qed.

Section greet.
Context `{!BitmapHeapOk B}.
Implicit Types s : mm B.

(** [kernel_greet] with the screen's page in a table that exists. *)
Lemma kernel_greet_run info (d : device) s : wf_mm s -> is_u32 screen_at -> dir_index screen_at < 1023 -> has_table (mem s) screen_at ->
  Forall printable (regions (Multiboot.map info)) ->
  exists out s', renders (greeting (regions (Multiboot.map info))) (greeting_args regions package kernel_pstart kernel_pend info) out /\
    kernel_greet info d s = (x ← puts out (serial_ready (con d)); Ret (set_con x.2 d, s')) /\
    grown s s' /\
    (forall write, translate (mem s') write screen_at = Some (video_memory + page_offset screen_at)) /\
    (forall va write, is_u32 va -> dir_index va < 1023 -> va / 4096 <> screen_at / 4096 ->
      translate (mem s') write va = translate (mem s) write va).
Proof.
  intros Hwf Hu Hd Ht Hp.
  destruct (kernel_greeting_ok regions package kernel_pstart kernel_pend info Hp) as (out & Ho & Eo).
  destruct (map_page_run s screen_at video_memory PAGE_RW Hwf Hu Hd) as (r & s' & E & Hwf' & Ha & Hcase); [by split|done|].
  destruct Hcase as [(_ & _ & Hn)|(-> & _ & T1 & T2)]; [unfold has_table in Ht; congruence|].
  destruct (map_page_grown s screen_at video_memory PAGE_RW Hwf Hu Hd) as (r' & s'' & E' & Hg); [by split|done|].
  rewrite E in E'. injection E' as _ <-.
  exists out, s'. split; [exact Ho|]. split.
  - unfold kernel_greet. rewrite E. ostep. change (err ENONE) with 0. rewrite initialize_screen_run. ostep.
    change (negb (0 =? 0)) with false. cbv iota. rewrite Eo. unfold mbind at 2, M_mbind.
    by destruct (puts out (serial_ready (con d))) as [[q c]| | |].
  - split; [exact Hg|]. split; [|exact T2]. intros write. rewrite T1. by rewrite orb_true_r.
Qed.

(** What [x86_startup] needs of the boot loader and of the first page tables. *)
Record started (m : Multiboot.memory) (at_ total : Z) (l : list (Z * tag)) (n : nat) s : Prop := {
  sd_table : word_at m at_ total /\ tags_at m (at_ + 8) l /\ 0 <= at_;
  sd_fuel : (S (length l) < fuel)%nat /\ (n < fuel)%nat /\ Forall (fun e => map_entries e.2 < fuel)%nat l;
  sd_memory : wf_mm s;
  sd_end : 0 <= kernel_end /\ kernel_end mod 4096 = 0 /\ kernel_end + 4096 * Z.of_nat n <= page_tables /\
    kernel_end + 4096 * Z.of_nat n - 4096 < at_ + total <= kernel_end + 4096 * Z.of_nat n;
  sd_screen : is_u32 screen_at /\ dir_index screen_at < 1023 /\ is_Some (translate (mem s) false screen_at) /\
    ~ row n kernel_end (screen_at / 4096)
}.

(** The information the tags amount to. *)
Definition information (l : list (Z * tag)) : boot_info_t (Mp := Mp) :=
  fold_left (fun b e => apply_tag memmap_insert_region M_AVAILABLE M_DEFECTIVE M_UNAVAILABLE b e.2) l boot_info_0.

(** The tables the processor has. *)
Definition tables_loaded (t : cpu_tables) : Prop :=
  gdtr t = (55, gdt_at) /\ idtr t = (2047, idt_at) /\ tr t = 43 /\ esp0 (tss t) = stack_top /\
  length (gdt t) = gdt_size /\ length (idt t) = idt_size /\
  forall v g, idt t !! v = Some g ->
    gate_ok generic_at division_at not_present_at gp_at page_fault_at preempt_at timer_at syscall_at v g.

Lemma x86_startup_run m at_ total l n t (d : device) s : started m at_ total l n s ->
  Forall is_u32 [generic_at; division_at; not_present_at; gp_at; page_fault_at; preempt_at; timer_at; syscall_at] ->
  Forall printable (regions (Multiboot.map (information l))) ->
  exists t' out s',
    renders (greeting (regions (Multiboot.map (information l)))) (greeting_args regions package kernel_pstart kernel_pend (information l)) out /\
    x86_startup m at_ t d s =
      (x ← puts out (serial_ready (con d)); r ← kernel_boot (information l) (set_con x.2 d) s'; Ret (t', r)) /\
    tables_loaded t' /\ grown s s' /\
    (forall write, translate (mem s') write screen_at = Some (video_memory + page_offset screen_at)) /\
    (forall va, is_u32 va -> dir_index va < 1023 -> row n kernel_end (va / 4096) -> translate (mem s') false va = None) /\
    (forall va write, is_u32 va -> dir_index va < 1023 -> ~ row n kernel_end (va / 4096) -> va / 4096 <> screen_at / 4096 ->
      translate (mem s') write va = translate (mem s) write va).
Proof.
  intros [(Ht1 & Ht2 & Ht3) (Hf1 & Hf2 & Hf3) Hwf (He1 & He2 & He3 & He4) (Hs1 & Hs2 & Hs3 & Hs4)] Ha Hp.
  unfold x86_startup. rewrite initialize_gdt_run. ostep.
  match goal with |- context [initialize_idt _ _ _ _ _ _ _ _ _ ?x] => set (t0 := x) end.
  assert (gdtr t0 = (55, gdt_at) /\ tr t0 = 43 /\ esp0 (tss t0) = stack_top /\ length (gdt t0) = gdt_size) as (G1 & G2 & G3 & G4)
    by (repeat split; reflexivity).
  clearbody t0.
  destruct (initialize_idt_ok idt_at generic_at division_at not_present_at gp_at page_fault_at preempt_at timer_at syscall_at t0 Ha)
    as (t' & Ei & I1 & I2 & (I3 & I4 & I5 & I6 & _) & I7).
  rewrite Ei. clear Ei. ostep. unfold read_multiboot_table. unfold word_at in Ht1. rewrite Ht1. ostep.
  assert (0 < at_ + 8) as Hpos by lia.
  rewrite (read_tags_ok memmap_insert_region M_AVAILABLE M_DEFECTIVE M_UNAVAILABLE m fuel l fuel _ boot_info_0 Ht2 Hpos Hf1 Hf3). ostep.
  fold (information l).
  destruct (unmap_boot_table_spec n s kernel_end (at_ + total) fuel Hwf He1 He2 He3 He4 Hf2) as (s1 & E1 & W1 & M1 & T1 & O1).
  assert (grown s s1) as G1' by (by apply (unmap_boot_table_grown fuel s kernel_end (at_ + total)); [..|lia|]).
  rewrite E1. ostep.
  assert (has_table (mem s1) screen_at) as Hst.
  { destruct Hs3 as [pa Hpa]. rewrite <- (O1 screen_at false Hs1 Hs4), translate_eq in Hpa.
    unfold allows in Hpa. unfold has_table. destruct (Z.eqb_spec (present (pde (mem s1) (dir_index screen_at))) 1); [assumption|discriminate Hpa]. }
  destruct (kernel_greet_run (information l) d s1 W1 Hs1 Hs2 Hst Hp) as (out & s' & Ho & Eg & W & Sc & Ot).
  exists t', out, s'. split; [exact Ho|]. split.
  - unfold kernel_initialize. rewrite Eg. by destruct (puts out (serial_ready (con d))) as [[q c]| | |].
  - split.
    { split; [by rewrite I4|]. split; [exact I1|]. split; [by rewrite I6|]. split; [by rewrite I5|]. split; [by rewrite I3|].
      split; [exact I2|exact I7]. }
    split; [by apply (grown_trans _ s1)|]. split; [done|]. split.
    + intros va Hva Hd Hr. rewrite Ot; [by apply T1|done|done|]. intros E. apply Hs4. by rewrite <- E.
    + intros va write Hva Hd Hr Hne. rewrite Ot by done. by apply O1.
Qed.
End greet.
End bootstrap.

(** What [_start] leaves is what [x86_startup] needs: the tables it built map the image,
    the screen's page in it, and the boot table right after it. *)
Lemma started_by_start {B} `{BitmapHeapOk B} stack_top default_page_dir default_page_table identity_map text_at info total
    kernel_end screen_at fuel mb l n (m : gmap Z Z) (b : B)
    (Hl : linked_image stack_top default_page_dir default_page_table identity_map text_at) (Ht : table_above identity_map info total) :
  empty_tables m (default_page_dir - BASE_DIFF) (default_page_table - BASE_DIFF) (identity_map - BASE_DIFF) ->
  word_at mb (info + BASE_DIFF) total /\ tags_at mb (info + BASE_DIFF + 8) l ->
  (S (length l) < fuel)%nat /\ (n < fuel)%nat /\ Forall (fun e => map_entries e.2 < fuel)%nat l ->
  free_blocks b = ∅ -> kernel_end mod 4096 = 0 -> kernel_end + 4096 * Z.of_nat n <= page_tables ->
  kernel_end + 4096 * Z.of_nat n - 4096 < info + BASE_DIFF + total <= kernel_end + 4096 * Z.of_nat n ->
  VIRTUAL_BASE <= screen_at < kernel_end -> kernel_end - BASE_DIFF <= info ->
  started kernel_end screen_at fuel mb (info + BASE_DIFF) total l n
    (MM (space_handed stack_top default_page_dir default_page_table identity_map text_at info total m) b).
Proof.
  intros He (Hw & Htags) Hf Hb He1 He2 He3 Hs1 Hs2.
  destruct (handed_tables _ _ _ _ _ _ _ Hl Ht m He) as [He' Bt]. pose proof Ht as (T1 & T2 & T3). destruct numbers as (N1 & N2 & N3).
  pose proof Hl as [(_ & L1 & L2) Hstk _].
  assert (screen_at = screen_at - BASE_DIFF + BASE_DIFF) as Es by lia.
  destruct (seen_at _ _ _ _ _ _ _ Hl Ht _ _ (screen_at - BASE_DIFF) false He' Bt) as [_ Sc]; [lia|]. rewrite <- Es in Sc.
  split.
  - split; [exact Hw|]. split; [exact Htags|lia].
  - exact Hf.
  - split; [|intros i _ _; cbn [page_map]; rewrite Hb; apply not_elem_of_empty]. cbn [mem].
    eapply (boot_wf VIRTUAL_BASE PHYSICAL_BASE (info + total) _ _ _ _ He'); [lia|by split|exact Bt].
  - split; [Z.div_mod_to_equations; lia|by split].
  - split; [unfold is_u32; lia|]. split; [rewrite dir_index_div; Z.div_mod_to_equations; lia|]. split; [by eexists|].
    unfold row. Z.div_mod_to_equations. lia.
Qed.

(** ** A whole boot

    A machine with the kernel at 1 MiB, 16 pages long, the boot table right after
    it, one module at 2 MiB and free memory from 3 MiB on, where the boot loader
    enters [_start]. *)
Definition boot_words : gmap Z Z := <[0x110000 := 96]> (store_words 0x200000 demo_module_words ∅).
Definition boot_code (i : nat) : Z := 0xFF400100 + 4 * Z.of_nat i.
Definition boot_entry : outcome start_end :=
  run_start 0xFF40D000 0xFF40D000 0xFF40E000 0xFF40F000 0xFF402000 boot_code 36 0
    (StartCpu [0x36d76289; 0x110000; 0; 0; 0; 0; 0; 0] (Mmu boot_words 0) false false (0, 0)).
Definition boot_space : mm frame_list :=
  MM (match boot_entry with Ret (Startup _ c) => space c | _ => Mmu ∅ 0 end) [].

Definition boot_bytes : Multiboot.memory := bytes_from 0xFF410000
  (concat (List.map word_bytes [96; 0; 4; 16; 640; 0x4000; 6; 40; 24; 0; 0x300000; 0; 0x100000; 0; 1; 0; 3; 18; 0x200000; 0x200057]) ++
   [107; 0; 0; 0; 0; 0; 0; 0] ++ concat (List.map word_bytes [0; 8])).

Definition boot_insert (m : list region) (location size type : Z) : list region := m ++ [Region type location size].
Definition boot_device : device :=
  Device (Console 0 (replicate screen_cells (Cell 0 7 0)) (replicate 400 0x20) []) apic_off false [16; 16; 16; 16] 0.

Definition demo_startup :=
  x86_startup (fun m => m) (fun _ => []) boot_insert (fun _ _ _ => 4096) 1 5 2
    (fun _ _ => (0, Pos.of_nat <$> seq 0x301 15)) (fun _ => 4096) (fun _ _ _ => mret (0, demo0)) (text "quark 0.1")
    0xFF400000 0xFF404000 0xFF410000 0x100000 0x110000
    0xFF407000 0xFF407100 0xFF407200 0xFF407300 0xFF40C000 0xFF40D000 0xFF406000 0xFF405000
    1 2 3 4 5 6 7 8 9 demo_cells 0xFEE00900 40 boot_bytes 0xFF410000 demo_tables boot_device boot_space.
(** From the first instruction on. *)
Definition demo_power_on :=
  match boot_entry with Ret (Startup info _) => if info =? 0xFF410000 then demo_startup else Fault | _ => Fault end.

Definition boot_text : list Z :=
  text "***quark 0.1***" ++ eol ++ text "Total memory: 010a0000" ++ eol ++ text "kernel: 00100000 ... 00110000" ++ eol ++
  text "Type" ++ [c_tab; c_tab] ++ text "Location" ++ [c_tab; c_tab] ++ text "Size" ++ eol ++
  text "1" ++ [c_tab; c_tab; c_tab] ++ text "00300000" ++ [c_tab; c_tab] ++ text "1048576" ++ eol ++
  text "2" ++ [c_tab; c_tab; c_tab] ++ text "00200000" ++ [c_tab; c_tab] ++ text "4096" ++ eol ++
  text "APIC register size: 0010" ++ eol ++ text "MSR_APIC_BASE: 00000000fee00900" ++ eol ++
  text "Finished enabling APIC." ++ eol.

(** From the first instruction of [_start] on: it prints the memory map and enters
    the module's process, at its entry point and with interrupts on. *)
Example whole_boot :
  match demo_power_on with
  | Ret (t, (LoadContext c, (d, s))) =>
    sent (con d) = serial_setup ++ concat (List.map sent_for boot_text) /\ irq d = true /\ tr t = 43 /\
    ctxs (objs s) !! c = Some (initial_registers 0xFF400000 0x400000) /\
    (exists x, procs (objs s) !! active_process (kernel s) = Some x /\ page_table x = cr3 (mem (world s)) /\ pid x = 1)
  | _ => False
  end.
Proof. vm_compute. split; [reflexivity|]. split; [reflexivity|]. split; [reflexivity|]. split; [reflexivity|]. eexists. by repeat split. Qed.

Lemma boot_tables_empty : empty_tables boot_words 0x10D000 0x10E000 0x10F000.
Proof.
  split; [by repeat constructor|done|]. intros f i Hf Hi. unfold pget. replace (boot_words !! (f + 4 * i)) with (None : option Z); [done|].
  rewrite !elem_of_cons, elem_of_nil in Hf.
  symmetry. unfold boot_words. rewrite lookup_insert_ne, store_words_below; [done|destruct Hf as [->|[->|[->|[]]]]; lia..].
Qed.

Lemma boot_space_wf : wf_mm boot_space.
Proof.
  pose proof boot_tables_empty as He.
  assert (linked_image 0xFF40D000 0xFF40D000 0xFF40E000 0xFF40F000 boot_code) as Hl.
  { split; [done|done|]. intros i Hi. unfold boot_code, VIRTUAL_BASE. lia. }
  assert (table_above 0xFF40F000 0x110000 96) as Ht by done.
  destruct (start_run_ok _ _ _ _ 0xFF402000 boot_code _ _ Hl Ht 0 boot_words 0 (0, 0) [0; 0; 0; 0; 0; 0]) as (c & E & _ & _ & _ & S);
    [done|exact He|by vm_compute|].
  destruct (handed_tables _ _ _ _ _ _ _ Hl Ht boot_words He) as [He' B].
  change (36 + 0)%nat with 36%nat in E. unfold boot_space, boot_entry. rewrite E, S. split; [|intros i _ _; apply not_elem_of_empty].
  clear E S. cbn [mem]. assert (0 <= PHYSICAL_BASE <= 0x110000 + 96 /\ 1 <= dir_index VIRTUAL_BASE < 1023) as [R1 R2] by (clear; by vm_compute).
  exact (boot_wf VIRTUAL_BASE PHYSICAL_BASE (0x110000 + 96) _ _ _ _ He' R1 R2 _ B).
Qed.

(** The boot of [demo_startup]. *)
Definition boot_tags : list (Z * tag) :=
  [(16, MemoryInfo 640 0x4000); (40, MemoryMap 24 [(0x300000, 0x100000, 1)]); (18, BootModule 0x200000 0x200057 [107])].
