(* ===== verification/BootMemory.v ===== *)
(** The whole boot: [_start], [x86_startup] and [kernel_initialize]
    (src/x86/entry.S, x86/quark_x86.c, kernel.c) together.  First the address space
    the kernel boots into, from the tables [start_paging] builds to the call that
    makes the kernel heap; then, with what libmalloc promises, all the way to the
    first process. *)
From S2P Require Import Start Console Stdio Apic Exceptions Descriptors.
From S2P Require Import Prelude Status Alloc PriorityQueue Paging Mmgr Heap Space Kernel System Paged Multiboot Elf Isolation FirstSpace EarlyBoot Loader Startup Boot Bootstrap.

(** ** Reading a translation *)

Lemma translate_has_table s write va pa : translate s write va = Some pa ->
  has_table s va /\ allows write (pde s (dir_index va)) = true /\ allows write (pte s (va / 4096)) = true.
Proof.
  rewrite translate_eq. unfold has_table, allows. intros E.
  destruct (Z.eqb_spec (present (pde s (dir_index va))) 1); cbn [andb] in *; [|discriminate E].
  destruct (negb write || (rw (pde s (dir_index va)) =? 1)); [|discriminate E].
  split; [assumption|]. split; [reflexivity|]. by destruct ((present (pte s (va / 4096)) =? 1) && _).
Qed.

Lemma translate_page s write va va' f : va' / 4096 = va / 4096 -> translate s write va = Some (f + page_offset va) ->
  translate s write va' = Some (f + page_offset va').
Proof.
  intros E. rewrite !translate_eq, <- !page_dir_index, E.
  destruct (allows write (pde s _)); [|discriminate]. destruct (allows write (pte s _)); [|discriminate].
  intros [= Ef]. f_equal. lia.
Qed.

Lemma translate_absent s va : has_table s va -> translate s false va = None -> present (pte s (va / 4096)) = 0.
Proof.
  rewrite translate_eq. unfold has_table, allows. intros -> E. cbn [negb orb andb Z.eqb Pos.eqb] in E.
  pose proof (bf_get_range 0 1 (pte s (va / 4096)) ltac:(lia)) as R. unfold present in *. change (2 ^ 1) with 2 in R.
  destruct (Z.eqb_spec (bf_get 0 1 (pte s (va / 4096))) 1); [discriminate E|lia].
Qed.

Lemma translate_no_write s va : translate s false va = None -> translate s true va = None.
Proof.
  rewrite !translate_eq. unfold allows. cbn [negb orb]. rewrite !andb_true_r.
  destruct (present (pde s (dir_index va)) =? 1); [|done]. destruct (present (pte s (va / 4096)) =? 1); [done|]. by destruct (rw _ =? 1).
Qed.

(** ** The layout *)
Section layout.
Context (kernel_end screen_at : Z) (nt n nb : nat) (frame : Z).

(** The screen's page is the video memory.  The rest of the image is at its frames,
    the first [nt] pages for reading only; then come the [nb] pages of the
    bitmap, from [frame] on.  The image, its text too, and the boot table, [n] pages
    after it, are still there at their physical addresses, and writable: nothing in
    the boot removes the identity map. *)
Definition kernel_layout (write : bool) (va : Z) : option Z :=
  if decide (va / 4096 = screen_at / 4096) then Some (video_memory + page_offset va)
  else if decide (row nt VIRTUAL_BASE (va / 4096)) then (if write then None else Some (va - BASE_DIFF))
  else if decide (VIRTUAL_BASE <= va < kernel_end) then Some (va - BASE_DIFF)
  else if decide (row nb kernel_end (va / 4096)) then Some (frame + (va - kernel_end))
  else if decide (PHYSICAL_BASE <= va < kernel_end - BASE_DIFF + 4096 * Z.of_nat n) then Some va
  else None.

(** The numbers the linker and the boot loader choose: the text before the screen's
    page in the image, the boot table after the image, and the bitmap within
    the reach of the image's page table. *)
Record placed (kernel_tend info total : Z) : Prop := {
  pl_end : kernel_end mod 4096 = 0;
  pl_text : VIRTUAL_BASE + 4096 * Z.of_nat nt - 4096 < kernel_tend <= VIRTUAL_BASE + 4096 * Z.of_nat nt;
  pl_screen : VIRTUAL_BASE + 4096 * Z.of_nat nt <= screen_at < kernel_end;
  pl_info : kernel_end - BASE_DIFF <= info;
  pl_table : kernel_end + 4096 * Z.of_nat n - 4096 < info + BASE_DIFF + total <= kernel_end + 4096 * Z.of_nat n;
  pl_bitmap : kernel_end + 4096 * Z.of_nat nb <= VIRTUAL_BASE + 4194304
}.
End layout.

(** ** Between the two halves *)
Section between.
Context (kernel_end screen_at kernel_tend info total : Z) (nt n nb : nat).
Context (Hp : placed kernel_end screen_at nt n nb kernel_tend info total) (Hi : 0 <= total /\ info + total <= 4194304).
(** The tables of [start_paging], and those [x86_startup] and the screen leave. *)
Context (s s1 : mmu) (Hwf : wf_space s1).
Context (H0 : forall va write, is_u32 va -> dir_index va < 1023 ->
  translate s write va = boot_translation VIRTUAL_BASE PHYSICAL_BASE (info + total) va).
Context (H1 : forall va, is_u32 va -> dir_index va < 1023 -> row n kernel_end (va / 4096) -> translate s1 false va = None).
Context (H2 : forall va write, is_u32 va -> dir_index va < 1023 -> ~ row n kernel_end (va / 4096) ->
  va / 4096 <> screen_at / 4096 -> translate s1 write va = translate s write va).
Context (H3 : forall write, translate s1 write screen_at = Some (video_memory + page_offset screen_at)).

Lemma low_address va : VIRTUAL_BASE <= va < VIRTUAL_BASE + 4194304 -> is_u32 va /\ dir_index va < 1023 /\ dir_index va = 1021.
Proof. destruct numbers as (N1 & N2 & N3). intros. rewrite dir_index_div. unfold is_u32. Z.div_mod_to_equations. lia. Qed.

Lemma boot_end : PHYSICAL_BASE + 4096 * boot_pages PHYSICAL_BASE (info + total) = kernel_end - BASE_DIFF + 4096 * Z.of_nat n.
Proof.
  destruct numbers as (N1 & N2 & N3). destruct Hp as [P1 _ _ P2 P3 _].
  pose proof (boot_pages_bound PHYSICAL_BASE (info + total)) as B. unfold boot_pages, page_size in *. Z.div_mod_to_equations. lia.
Qed.

Lemma image_table va : VIRTUAL_BASE <= va < VIRTUAL_BASE + 4194304 -> has_table s1 va /\ forall write, allows write (pde s1 (dir_index va)) = true.
Proof.
  intros Hva. destruct numbers as (N1 & N2 & N3). destruct Hp as [_ _ P3 P4 _ P6].
  destruct (low_address va Hva) as (_ & _ & D), (low_address screen_at) as (_ & _ & D'); [lia|].
  unfold has_table. rewrite D, <- D'. destruct (translate_has_table _ _ _ _ (H3 false)) as (T & _ & _).
  split; [exact T|]. intros write. by apply (translate_has_table _ _ _ _ (H3 write)).
Qed.

(** The image as [x86_startup] leaves it. *)
Lemma image_at va write : VIRTUAL_BASE <= va < kernel_end -> va / 4096 <> screen_at / 4096 -> translate s1 write va = Some (va - BASE_DIFF).
Proof.
  intros Hva Hne. destruct numbers as (N1 & N2 & N3). pose proof boot_end as Be. destruct Hp as [P1 P2 P3 P4 P5 P6].
  destruct (low_address va) as (U & D & _); [lia|]. rewrite H2, H0 by (done || unfold row; Z.div_mod_to_equations; lia).
  unfold boot_translation, image_base. change (4194304 * dir_index VIRTUAL_BASE) with VIRTUAL_BASE.
  rewrite decide_False, decide_True by lia. f_equal. lia.
Qed.

Lemma ready_after fuel : (nt < fuel)%nat -> memory_ready VIRTUAL_BASE kernel_tend kernel_end nt nb fuel s1.
Proof.
  intros Hf. destruct numbers as (N1 & N2 & N3). pose proof boot_end as Be. pose proof Hp as [P1 P2 P3 P4 P5 P6]. split.
  - exact Hwf.
  - split.
    + split; [lia|]. split; [done|]. unfold page_tables. split; [lia|]. intros j Hj. apply image_table. lia.
    + intros q Hq. unfold row in Hq. change (VIRTUAL_BASE / 4096) with 1045504 in Hq.
      assert (translate s1 false (4096 * q) = Some (4096 * q - BASE_DIFF)) as T by (apply image_at; Z.div_mod_to_equations; lia).
      apply translate_has_table in T as (_ & _ & T). rewrite Z.mul_comm, Z.div_mul in T by lia.
      unfold allows in T. apply andb_true_iff in T as [T _]. by apply Z.eqb_eq in T.
  - exact P2.
  - split; [|split].
    + split; [lia|]. split; [done|]. unfold page_tables. split; [lia|]. intros j Hj. apply image_table. lia.
    + intros q Hq. unfold row in Hq. set (va := 4096 * q). assert (q = va / 4096) as Eq by (unfold va; by rewrite Z.mul_comm, Z.div_mul by lia).
      assert (kernel_end <= va < kernel_end + 4096 * Z.of_nat nb) as Hva by (unfold va; Z.div_mod_to_equations; lia).
      destruct (low_address va) as (U & D & _); [lia|]. rewrite Eq. apply translate_absent; [apply image_table; lia|].
      destruct (decide (row n kernel_end (va / 4096))) as [Hr|Hr]; [by apply H1|].
      rewrite H2, H0 by (done || Z.div_mod_to_equations; lia). unfold boot_translation, image_base.
      change (4194304 * dir_index VIRTUAL_BASE) with VIRTUAL_BASE. unfold row in Hr.
      rewrite !decide_False; [done|Z.div_mod_to_equations; lia..].
    + lia.
  - exact Hf.
Qed.
(** The whole address space once the text is protected and the bitmap mapped. *)
Lemma layout_after r s2 : memory_laid_out VIRTUAL_BASE kernel_end nt nb r s1 s2 ->
  forall va write, is_u32 va -> dir_index va < 1023 -> translate s2 write va = kernel_layout kernel_end screen_at nt n nb (region_frame r) write va.
Proof.
  intros [_ _ L1 L2 L3] va write U D. destruct numbers as (N1 & N2 & N3). pose proof boot_end as Be. pose proof Hp as [P1 P2 P3 P4 P5 P6].
  unfold kernel_layout. destruct (decide (va / 4096 = screen_at / 4096)) as [Es|Es].
  { rewrite L3; [|done|unfold row; Z.div_mod_to_equations; lia..]. by apply (translate_page _ _ screen_at). }
  destruct (decide (row nt VIRTUAL_BASE (va / 4096))) as [Ht|Ht].
  { destruct (L1 va U Ht) as (T1 & _ & T2). destruct write; [exact T2|]. rewrite T1. apply image_at; [|done].
    unfold row in Ht. Z.div_mod_to_equations. lia. }
  destruct (decide (VIRTUAL_BASE <= va < kernel_end)) as [Hv|Hv].
  { rewrite L3; [by apply image_at|done|done|]. unfold row. Z.div_mod_to_equations. lia. }
  destruct (decide (row nb kernel_end (va / 4096))) as [Hb|Hb].
  { rewrite L2 by done. destruct (image_table va) as [_ ->]; [|done]. unfold row in Hb. Z.div_mod_to_equations. lia. }
  rewrite L3 by done. destruct (decide (row n kernel_end (va / 4096))) as [Hr|Hr].
  { rewrite decide_False by (unfold row in Hr; Z.div_mod_to_equations; lia).
    assert (translate s1 false va = None) as E by (by apply H1). destruct write; [by apply translate_no_write|exact E]. }
  rewrite H2, H0 by done. unfold boot_translation, image_base. change (4194304 * dir_index VIRTUAL_BASE) with VIRTUAL_BASE.
  unfold row in Hr. destruct (decide (PHYSICAL_BASE <= va < kernel_end - BASE_DIFF + 4096 * Z.of_nat n)) as [Hl|Hl].
  - by rewrite decide_True by lia.
  - rewrite !decide_False; [done|Z.div_mod_to_equations; lia..].
Qed.
End between.

(** ** The machine the boot loader hands over *)
Section power_on.
Context {Mp B D : Type} `{BitmapHeapOk B} `{KHeap D}.
(** Libmalloc, the package's name, the linker's symbols, and static addresses, as in Bootstrap.v. *)
Context (regions : Mp -> list region) (empty_map : Z -> Mp) (insert : Mp -> Z -> Z -> Z -> Mp) (bitmap_size : Mp -> Z -> Z -> Z).
Context (avail defective unavail : Z) (initialize_page_heap : descriptor -> Mp -> Z * B) (bitmap_bytes : B -> Z).
Context (initialize_system_heap : descriptor -> Mp -> (Z -> Z -> M (mm B) Z) -> M (mm B) (Z * D)) (package : list Z).
Context (kernel_tend kernel_end kernel_pend : Z) (gdt_at idt_at tss_at double_fault_tss_at : Z).
Context (stack_top default_page_dir default_page_table identity_map start_paging_at : Z) (text_at : nat -> Z) (screen_at apic_registers : Z).
Context (generic_at division_at not_present_at gp_at page_fault_at double_fault_at preempt_at timer_at syscall_at : Z).
(** The ready queue's block, [rdmsr], the fuel; the boot table at [info], [total] bytes
    long, with the tags [l]; the words of physical memory and the registers. *)
Context (cells : list priority_queue_node_t) (msr : Z) (fuel : nat) (info total : Z) (mb : Multiboot.memory) (l : list (Z * tag)).
Context (nt n nb j : nat) (r : region) (m0 : gmap Z Z) (c0 : Z) (cmp : Z * Z) (rs : list Z) (b : B) (t : cpu_tables) (d : device).

(** What the tags amount to, the allocator of frames, and the map of the kernel's heap. *)
Definition boot_information : boot_info_t := information empty_map insert avail defective unavail l.
Definition boot_frames : Z * B :=
  page_heap insert unavail initialize_page_heap kernel_end PHYSICAL_BASE kernel_pend nb r (Multiboot.map boot_information).
Definition boot_system : Mp := system_map empty_map insert avail unavail VIRTUAL_BASE kernel_end bitmap_bytes boot_frames.2.

(** What the linker, the boot loader and the memory map have to be like. *)
Record handed_over : Prop := {
  hv_image : linked_image stack_top default_page_dir default_page_table identity_map text_at /\ identity_map + 4096 <= kernel_end;
  hv_placed : placed kernel_end screen_at nt n nb kernel_tend info total /\ 0 <= total /\ info + total <= 4194304;
  hv_tables : empty_tables m0 (default_page_dir - BASE_DIFF) (default_page_table - BASE_DIFF) (identity_map - BASE_DIFF);
  hv_registers : length rs = 6%nat;
  hv_frames : free_blocks b = ∅;
  hv_info : pget m0 info = total /\ word_at mb (info + BASE_DIFF) total /\ tags_at mb (info + BASE_DIFF + 8) l;
  hv_fuel : (S (length l) < fuel)%nat /\ (n < fuel)%nat /\ Forall (fun e => map_entries e.2 < fuel)%nat l /\ (nt < fuel)%nat;
  hv_map : map_ready regions insert bitmap_size avail unavail PHYSICAL_BASE kernel_pend nb j r fuel fuel (Multiboot.map boot_information);
  hv_handlers : Forall is_u32 [generic_at; division_at; not_present_at; gp_at; page_fault_at; preempt_at; timer_at; syscall_at];
  hv_printable : Forall printable (regions (Multiboot.map boot_information))
}.

(** The processor as the boot loader leaves it, and the two parts of the boot. *)
Definition boot_cpu : start_cpu := StartCpu (0x36d76289 :: info :: rs) (Mmu m0 c0) false false cmp.
Definition boot_start : outcome start_end :=
  run_start stack_top default_page_dir default_page_table identity_map start_paging_at text_at 36 0 boot_cpu.
Definition boot_kernel_part (s : mmu) : outcome (cpu_tables * (exit Z * (device * kst D (mm B)))) :=
  x86_startup regions empty_map insert bitmap_size avail defective unavail initialize_page_heap bitmap_bytes
    initialize_system_heap package VIRTUAL_BASE kernel_tend kernel_end PHYSICAL_BASE kernel_pend gdt_at idt_at tss_at
    double_fault_tss_at stack_top default_page_dir screen_at apic_registers generic_at division_at not_present_at gp_at page_fault_at
    double_fault_at preempt_at timer_at syscall_at cells msr fuel mb (info + BASE_DIFF) t d (MM s b).

(** From the heap of frames on, in the address space [s2]. *)
Definition boot_rest (c : console) (s2 : mmu) : outcome (exit Z * (device * kst D (mm B))) :=
  if boot_frames.1 =? 0 then
    '(status, h, w) ← initialize_system_heap (Descriptor NULL 16 4 64 VIRTUAL_BASE) boot_system mmap_callback (MM s2 boot_frames.2);
    if negb (status =? 0) then Panic
    else kernel_run VIRTUAL_BASE fuel cells msr apic_registers (modules boot_information) (set_con c d, boot_kernel h w)
  else Panic.

Lemma boot_memory_run : handed_over -> exists c t' out s2,
  boot_start = Ret (Startup (info + BASE_DIFF) c) /\
  space c = space_handed stack_top default_page_dir default_page_table identity_map text_at info total m0 /\
  renders (greeting (regions (Multiboot.map boot_information)))
    (greeting_args regions package PHYSICAL_BASE kernel_pend boot_information) out /\
  boot_kernel_part (space c) = (x ← puts out (serial_ready (con d)); q ← boot_rest x.2 s2; Ret (t', q)) /\
  tables_loaded gdt_at idt_at stack_top generic_at division_at not_present_at gp_at page_fault_at preempt_at timer_at syscall_at t' /\
  grown (MM (space c) b) (MM s2 b) /\
  (forall va write, is_u32 va -> dir_index va < 1023 ->
    translate s2 write va = kernel_layout kernel_end screen_at nt n nb (region_frame r) write va).
Proof.
  intros [[Hl Hk] [Hp Hi] He Hr Hb (Hm & Ht) (F1 & F2 & F3 & Hnt) Hmap Hu Hpr]. pose proof Hp as [P1 P2 P3 P4 P5 P6].
  destruct numbers as (N1 & N2 & N3). assert (table_above identity_map info total) as Hab by (split; lia).
  destruct (start_run_ok _ _ _ _ start_paging_at _ _ _ Hl Hab 0 m0 c0 cmp rs Hr He Hm) as (c & Ec & _ & _ & _ & Sc).
  change (36 + 0)%nat with 36%nat in Ec.
  destruct (handed_tables _ _ _ _ _ _ _ Hl Hab m0 He) as [He' Bt].
  assert (forall va write, is_u32 va -> dir_index va < 1023 ->
    translate (space c) write va = boot_translation VIRTUAL_BASE PHYSICAL_BASE (info + total) va) as H0t.
  { intros va write U Dv. rewrite Sc. by apply (boot_translate VIRTUAL_BASE PHYSICAL_BASE (info + total) _ _ _ _ He'); [lia|done|lia|by split|..]. }
  destruct (x86_startup_run regions empty_map insert bitmap_size avail defective unavail initialize_page_heap bitmap_bytes
      initialize_system_heap package VIRTUAL_BASE kernel_tend kernel_end PHYSICAL_BASE kernel_pend gdt_at idt_at tss_at
      double_fault_tss_at stack_top default_page_dir screen_at apic_registers generic_at division_at not_present_at gp_at page_fault_at
      double_fault_at preempt_at timer_at syscall_at cells msr fuel mb (info + BASE_DIFF) total l n t d (MM (space c) b))
    as (t' & out & s1 & Ho & E & Htab & G1 & S1 & U1 & O1); [|exact Hu|exact Hpr|].
  { rewrite Sc. pose proof (conj F1 (conj F2 F3)) as Hf. apply (started_by_start _ _ _ _ _ _ _ _ _ _ _ _ _ _ _ Hl Hab); try assumption; [|lia].
    unfold page_tables. lia. }
  pose proof (ready_after kernel_end screen_at kernel_tend info total nt n nb Hp Hi (space c) (mem s1) (wm_space _ (gr_wf _ _ G1)) H0t U1 O1 S1 fuel Hnt) as Hrd.
  destruct (initialize_memory_run regions empty_map insert bitmap_size avail unavail initialize_page_heap initialize_system_heap
    VIRTUAL_BASE kernel_tend kernel_end PHYSICAL_BASE kernel_pend bitmap_bytes nt nb j r fuel fuel (Multiboot.map boot_information) (mem s1) Hrd Hmap)
    as (s2 & Em & Hlay).
  exists c, t', out, s2. split; [exact Ec|]. split; [exact Sc|]. split; [exact Ho|]. split; [|split; [exact Htab|split]].
  - unfold boot_kernel_part. rewrite E. destruct (puts out (serial_ready (con d))) as [x| | |]; ostep; [|done..].
    unfold kernel_boot, boot_rest. fold boot_information. rewrite Em. fold boot_frames boot_system. destruct (boot_frames.1 =? 0); [|done].
    destruct (initialize_system_heap _ _ _ _) as [[[status h] w]| | |]; ostep; [|done..]. by destruct (negb _).
  - pose proof (entries_grown (MM (mem s1) b) s2) as G2. cbn [mem page_map] in G2.
    assert (grown (MM (space c) b) (MM (mem s1) b)) as G1' by (exact (grown_no_frames _ _ b Hb G1 Hb)).
    apply (grown_trans _ (MM (mem s1) b)); [exact G1'|]. apply G2; [apply G1'|apply Hlay|apply Hlay].
  - exact (layout_after kernel_end screen_at kernel_tend info total nt n nb Hp Hi (space c) (mem s1) H0t U1 O1 S1 r s2 Hlay).
Qed.

(** ** From there to the first process *)

(** The tables of the boot are in the image, and addresses below 4 MiB have one. *)
Lemma boot_table_frames f : handed_over ->
  table_frame (space_handed stack_top default_page_dir default_page_table identity_map text_at info total m0) f ->
  PHYSICAL_BASE <= f < kernel_end - BASE_DIFF.
Proof.
  intros [[Hl Hk] [Hp Hi] He _ _ _ _ _ _ _] (i & Hir & Hpi & ->). pose proof Hp as [_ _ _ P4 _ _]. destruct numbers as (N1 & N2 & N3).
  assert (table_above identity_map info total) as Hab by (split; lia).
  destruct (handed_tables _ _ _ _ _ _ _ Hl Hab m0 He) as [He' Bt]. pose proof Hl as [(_ & T1 & T2) Hst _].
  destruct (boot_pde_frame VIRTUAL_BASE PHYSICAL_BASE (info + total) _ _ _ _ He' ltac:(lia) ltac:(by split) _ Bt i Hir Hpi) as [_ [[_ ->]|[[_ ->]|[_ ->]]]]; lia.
Qed.

Lemma boot_low_table : handed_over ->
  has_table (space_handed stack_top default_page_dir default_page_table identity_map text_at info total m0) 0.
Proof.
  intros [[Hl Hk] [Hp Hi] He _ _ _ _ _ _ _]. pose proof Hp as [_ _ _ P4 _ _]. destruct numbers as (N1 & N2 & N3).
  assert (table_above identity_map info total) as Hab by (split; lia).
  destruct (handed_tables _ _ _ _ _ _ _ Hl Hab m0 He) as [He' Bt]. unfold has_table. change (dir_index 0) with 0.
  rewrite (bs_pde _ _ _ _ _ _ _ _ Bt) by lia. change (dir_index VIRTUAL_BASE) with 1021.
  rewrite !decide_False, decide_True by lia. pose proof (et_frames _ _ _ _ He') as F. rewrite !Forall_cons in F.
  destruct F as (_ & _ & (U & A) & _). destruct (EarlyBoot.boot_entry _ 3 U A) as (_ & P & _); [by left|exact P].
Qed.

(** The kernel's heap has room for the ready queue and for a process with context block [c]. *)
Definition heap_boots (h : D) (c : Z) : Prop := exists b h' p a,
  Alloc.kmalloc (sizeof_queue_node * Z.of_nat ready_capacity) h = Ret (b, h') /\ b <> NULL /\
  forall s : kst D (mm B), kheap s = h' -> heap_serves s p c a.

(** What libmalloc does: the frames it has are not the image's nor the [nm] of the
    module, and making the kernel's heap asks for memory through the callback only. *)
Record libmalloc_ready (start : Z) (nm : nat) : Prop := {
  lm_frames : forall f, f ∈ free_blocks boot_frames.2 ->
    ~ PHYSICAL_BASE <= f < kernel_end - BASE_DIFF /\ ~ start <= f < start + 4096 * Z.of_nat nm;
  lm_heap : forall s, wf_mm s -> exists status h w,
    initialize_system_heap (Descriptor NULL 16 4 64 VIRTUAL_BASE) boot_system mmap_callback s = Ret (status, h, w) /\
    rtc callback_call s w /\ (status = 0 -> exists c, heap_boots h c)
}.

(** The module's frames are not the image's. *)
Definition beside_image (start : Z) (nm : nat) : Prop :=
  kernel_end - BASE_DIFF <= start \/ start + 4096 * Z.of_nat nm <= PHYSICAL_BASE.

Lemma boot_frames_ready s2 start nm : handed_over -> libmalloc_ready start nm -> beside_image start nm -> start mod 4096 = 0 ->
  let s := space_handed stack_top default_page_dir default_page_table identity_map text_at info total m0 in
  grown (MM s b) (MM s2 b) ->
  wf_mm (MM s2 boot_frames.2) /\ has_table s2 0 /\
  forall f, (exists i, 0 <= i < Z.of_nat nm /\ f = start + 4096 * i) -> unclaimed (MM s2 boot_frames.2) f /\
    forall a, frame_at a = f -> pget (phys s2) a = pget m0 a.
Proof.
  intros Ho [Lf _] Hb Ha s G. pose proof (boot_low_table Ho) as H0t. fold s in H0t.
  assert (forall f, table_frame s2 f -> PHYSICAL_BASE <= f < kernel_end - BASE_DIFF) as Hf.
  { intros f [Hf|Hf]%(gr_tables _ _ G); [by apply boot_table_frames|]. cbn [page_map] in Hf. rewrite (hv_frames Ho) in Hf. by apply not_elem_of_empty in Hf. }
  split; [|split].
  - split; [apply G|]. intros i Hi Hp Hin. cbn [mem page_map] in *. destruct (Lf _ Hin) as [Hn _]. apply Hn, Hf. by exists i.
  - unfold has_table in *. pose proof (gr_entries _ _ G) as He. cbn [mem] in He. by rewrite He.
  - intros f (i & Hi & ->). assert (~ PHYSICAL_BASE <= start + 4096 * i < kernel_end - BASE_DIFF) as Hout.
    { destruct numbers as (N1 & N2 & N3). pose proof (pl_end _ _ _ _ _ _ _ _ (proj1 (hv_placed Ho))) as He.
      unfold beside_image in Hb. Z.div_mod_to_equations. lia. }
    split.
    + split; [by intros ?%Hf|]. intros [_ Hn]%Lf. apply Hn. lia.
    + intros a Ea. pose proof (gr_words _ _ G a) as Hw. cbn [mem] in Hw. rewrite Hw by (rewrite Ea; by intros ?%Hf).
      destruct Ho as [[Hl Hk] [Hp Ht] He _ _ _ _ _ _ _]. pose proof Hp as [P1 P2 P3 P4 P5 P6]. destruct numbers as (N1 & N2 & N3).
      pose proof Hl as [(_ & T1 & T2) Hst _]. assert (table_above identity_map info total) as Hab by (split; lia).
      unfold frame_at in Ea. apply (handed_words _ _ _ _ _ _ _ Hl Hab); [done|Z.div_mod_to_equations; lia..].
Qed.

Lemma boot_kernel_at : 1 <= Z.shiftr VIRTUAL_BASE 22 <= 1023.
Proof. by vm_compute. Qed.

(** The state [kernel_run] starts in can boot the module. *)
Lemma boot_bootable s2 h w c start stop nm hs : handed_over -> libmalloc_ready start nm -> beside_image start nm ->
  grown (MM (space_handed stack_top default_page_dir default_page_table identity_map text_at info total m0) b) (MM s2 b) ->
  module_ok ∅ VIRTUAL_BASE fuel boot_kernel_at (module_byte (MM (Mmu m0 c0) b) start) nm start stop hs ->
  rtc callback_call (MM s2 boot_frames.2) w -> heap_boots h c ->
  exists bq h' p a, bootable VIRTUAL_BASE fuel cells boot_kernel_at (boot_kernel h w) (module_byte (MM (Mmu m0 c0) b) start)
    nm start stop hs bq p c a h'.
Proof.
  intros Ho Lm Hb G Hmod Hcalls (bq & h' & p & a & Eq & Nq & Hs).
  destruct (mo_pages _ _ _ _ _ _ _ _ _ Hmod) as [(_ & Ha & _) _].
  destruct (boot_frames_ready s2 start nm Ho Lm Hb Ha G) as (Hwf & H0t & Hfr).
  pose proof (callbacks_grown _ _ Hcalls Hwf) as Gw. exists bq, h', p, a. split.
  - by split.
  - by split_and!.
  - split; [apply Gw|]. unfold has_table in *. cbn [world boot_kernel]. pose proof (gr_entries _ _ Gw) as He. cbn [mem] in He. by rewrite He.
  - intros i Hi. apply (grown_unclaimed _ _ _ Gw). apply Hfr. by exists i.
  - intros i Hi. destruct (frame_of_byte nm start i Ha Hi) as [Hj Ef]. unfold module_byte, phys_byte. cbn [world boot_kernel mem phys].
    destruct (Hfr _ (ex_intro _ _ (conj Hj eq_refl))) as [Hu Hw]. by rewrite (proj2 (grown_unclaimed _ _ _ Gw Hu) _ Ef), Hw.
  - by split.
  - by apply Hs.
  - exact Hmod.
Qed.

(** * Properties *)

(** C18: The boot from the first instruction to the kernel heap.  Given the boot
    loader's number, a boot table right after the image and a memory map with room
    for the allocator's bitmap, [_start] calls [x86_startup] with the table, the
    descriptor tables are loaded and the greeting printed; and when the kernel
    heap is made, the address space is exactly [kernel_layout].  At the linked
    addresses the text is read-only, the rest of the image writable, the screen on the
    video memory, the bitmap in frames of the first useful region, and the boot table
    gone.  The identity map of [_start] is still there: the image, its text included,
    and the boot table are mapped writable at their physical addresses.  Nothing
    else is mapped.  What follows is the rest of the boot, unless a call to
    libmalloc fails, which panics. *)
Theorem boot_memory_spec : handed_over -> exists c t' out s2,
  boot_start = Ret (Startup (info + BASE_DIFF) c) /\
  renders (greeting (regions (Multiboot.map boot_information)))
    (greeting_args regions package PHYSICAL_BASE kernel_pend boot_information) out /\
  boot_kernel_part (space c) = (x ← puts out (serial_ready (con d)); q ← boot_rest x.2 s2; Ret (t', q)) /\
  tables_loaded gdt_at idt_at stack_top generic_at division_at not_present_at gp_at page_fault_at preempt_at timer_at syscall_at t' /\
  wf_space s2 /\
  (forall va write, is_u32 va -> dir_index va < 1023 ->
    translate s2 write va = kernel_layout kernel_end screen_at nt n nb (region_frame r) write va).
Proof.
  intros Ho. destruct (boot_memory_run Ho) as (c & t' & out & s2 & Ec & _ & Hr & E & Ht & G & L). exists c, t', out, s2.
  split; [exact Ec|]. split; [exact Hr|]. split; [exact E|]. split; [exact Ht|]. split; [apply G|exact L].
Qed.

(** C16: From the first instruction to the first program.  A machine the boot loader
    hands over with one module, a proper ELF image in frames of its own, and a
    libmalloc that keeps to its promises: [_start] calls [x86_startup], which
    prints the greeting; the rest either panics for want of memory or prints the
    interrupt controller's lines and enters the module's process, pid 1, with
    interrupts on.  The processor is then in a new address space that holds
    the segments with the bytes the boot loader had put there, and perhaps a stack,
    and nothing else; the context to load has the image's entry point; and the state is
    one the theorems on the running system are about. *)
Theorem power_on_enters_first_process `{!KHeapOk D} start stop str nm hs :
  let image := module_byte (MM (Mmu m0 c0) b) start in
  handed_over -> length cells = ready_capacity -> apic_page VIRTUAL_BASE apic_registers ->
  modules boot_information = [Module_ start stop str] -> module_ok ∅ VIRTUAL_BASE fuel boot_kernel_at image nm start stop hs ->
  beside_image start nm -> libmalloc_ready start nm ->
  exists c t' out rest, boot_start = Ret (Startup (info + BASE_DIFF) c) /\
    renders (greeting (regions (Multiboot.map boot_information)))
      (greeting_args regions package PHYSICAL_BASE kernel_pend boot_information) out /\
    boot_kernel_part (space c) = (x ← puts out (serial_ready (con d)); rest x.2) /\
    forall k, rest k = Panic \/
      exists out' s' t ctx, renders apic_messages [AInt sizeof_register; AInt (u32 msr)] out' /\
        rest k = (x ← puts out' k; Ret (t', (LoadContext ctx, (entered d x.2, s')))) /\
        tables_loaded gdt_at idt_at stack_top generic_at division_at not_present_at gp_at page_fault_at preempt_at timer_at syscall_at t' /\
        holds_module ∅ VIRTUAL_BASE (world s') image hs t /\
        (forall uninit rounds, paged_reachable ({[t]} ∪ ∅) (Z.shiftr VIRTUAL_BASE 22) boot_kernel_at uninit VIRTUAL_BASE rounds s') /\
        first_process VIRTUAL_BASE s' t ctx (word_of image elf_entry).
Proof.
  intros image Ho Hcells Hap Hmods Hmod Hb Lm. destruct (boot_memory_run Ho) as (c & t' & out & s2 & Ec & Sc & Hr & E & Ht & G & _).
  exists c, t', out, (fun k => q ← boot_rest k s2; Ret (t', q)). split; [exact Ec|]. split; [exact Hr|]. split; [exact E|].
  intros k. unfold boot_rest. rewrite Sc in G.
  destruct (boot_frames.1 =? 0); [|by left]. destruct (mo_pages _ _ _ _ _ _ _ _ _ Hmod) as [(_ & Ha & _) _].
  destruct (boot_frames_ready s2 start nm Ho Lm Hb Ha G) as [Hwf _].
  destruct (lm_heap _ _ Lm _ Hwf) as (status & h & w & Eh & Hcalls & Hh). rewrite Eh. ostep.
  destruct (Z.eqb_spec status 0) as [->|]; [|by left]. cbn [negb]. destruct (Hh eq_refl) as [ctx Hctx].
  destruct (boot_bootable s2 h w ctx start stop nm hs Ho Lm Hb G Hmod Hcalls Hctx) as (bq & h' & p & a & Hboot). rewrite Hmods.
  destruct (boot_run VIRTUAL_BASE fuel cells Hcells boot_kernel_at (boot_kernel h w) (set_con k d) image nm start stop str hs bq p ctx a h'
    msr apic_registers Hboot Hap) as [[-> _]|(out' & s' & t1 & Ho' & E' & [_ _ M] & _ & R & F)]; [by left|right].
  exists out', s', t1, ctx. split; [exact Ho'|]. split; [|split; [exact Ht|split; [exact M|split; [exact R|exact F]]]].
  rewrite E'. cbn [con set_con]. destruct (puts out' k) as [y| | |]; reflexivity.
Qed.
End power_on.

(** ** The machine of [demo_power_on], with four pages of text *)
Lemma demo_handed_over : handed_over (fun m : list region => m) (fun _ => []) boot_insert (fun _ _ _ => 4096) 1 5 2
  0xFF404000 0xFF410000 0x110000 0xFF40D000 0xFF40D000 0xFF40E000 0xFF40F000 boot_code 0xFF406000 1 2 3 4 5 7 8 9
  40 0x110000 96 boot_bytes boot_tags 4 1 1 0 (Region 1 0x300000 0x100000) boot_words [0; 0; 0; 0; 0; 0] ([] : frame_list).
Proof.
  split.
  - split; [|done]. split; [done|done|]. intros i Hi. unfold boot_code, VIRTUAL_BASE. lia.
  - split; [by split|done].
  - exact boot_tables_empty.
  - done.
  - done.
  - split; [by vm_compute|]. split; [by vm_compute|]. vm_compute. repeat split; first [discriminate | lia].
  - split; [by vm_compute; lia|]. split; [lia|]. split; [|lia]. repeat constructor; vm_compute; lia.
  - split.
    + lia.
    + by vm_compute.
    + split; [by vm_compute|]. by split; [|split].
    + intros i Hi. lia.
  - by repeat constructor.
  - by repeat constructor.
Qed.

#[local] Abbreviation demo_boot_start :=
  (boot_start 0xFF40D000 0xFF40D000 0xFF40E000 0xFF40F000 0xFF402000 boot_code 0x110000 boot_words 0 (0, 0) [0; 0; 0; 0; 0; 0]).
#[local] Abbreviation demo_page_heap := (fun _ _ => (0, Pos.of_nat <$> seq 0x301 15 : frame_list)).

Lemma boot_memory_spec_witness : exists c s2 t' out,
  demo_boot_start = Ret (Startup 0xFF410000 c) /\
  boot_kernel_part (fun m : list region => m) (fun _ => []) boot_insert (fun _ _ _ => 4096) 1 5 2
    demo_page_heap (fun _ => 4096) (fun _ _ _ => mret (0, demo0)) (text "quark 0.1") 0xFF404000 0xFF410000 0x110000
    0xFF407000 0xFF407100 0xFF407200 0xFF407300 0xFF40D000 0xFF40D000 0xFF406000 0xFF405000
    1 2 3 4 5 6 7 8 9 demo_cells 0xFEE00900 40 0x110000 boot_bytes ([] : frame_list) demo_tables boot_device (space c) =
    (x ← puts out (serial_ready (con boot_device));
     q ← kernel_run 0xFF400000 40 demo_cells 0xFEE00900 0xFF405000 [Module_ 0x200000 0x200057 [107]]
       (set_con x.2 boot_device, boot_kernel demo0 (MM s2 (Pos.of_nat <$> seq 0x301 15 : frame_list)));
     Ret (t', q)) /\
  translate s2 true 0xFF401234 = None /\ translate s2 false 0xFF401234 = Some 0x101234 /\ translate s2 true 0xFF404321 = Some 0x104321 /\
  translate s2 true 0xFF406010 = Some 0xB8010 /\ translate s2 true 0xFF410008 = Some 0x300008 /\ translate s2 true 0x110004 = Some 0x110004 /\
  translate s2 false 0xFF411000 = None.
Proof.
  destruct (boot_memory_spec (fun m : list region => m) (fun _ => []) boot_insert (fun _ _ _ => 4096) 1 5 2
    demo_page_heap (fun _ => 4096) (fun _ _ _ => mret (0, demo0)) (text "quark 0.1")
    0xFF404000 0xFF410000 0x110000 0xFF407000 0xFF407100 0xFF407200 0xFF407300 0xFF40D000 0xFF40D000 0xFF40E000 0xFF40F000 0xFF402000 boot_code
    0xFF406000 0xFF405000 1 2 3 4 5 6 7 8 9 demo_cells 0xFEE00900 40 0x110000 96 boot_bytes boot_tags 4 1 1 0 (Region 1 0x300000 0x100000)
    boot_words 0 (0, 0) [0; 0; 0; 0; 0; 0] ([] : frame_list) demo_tables boot_device demo_handed_over) as (c & t' & out & s2 & Ec & _ & E & _ & _ & L).
  exists c, s2, t', out. split; [exact Ec|]. split; [exact E|]. rewrite !L by by split.
  split_and!; by vm_compute.
Defined.

(** A kernel heap that asks for a page when it is made. *)
Definition demo_system_heap (_ : descriptor) (_ : list region) (callback : Z -> Z -> M (mm frame_list) Z) : M (mm frame_list) (Z * demo_heap) :=
  status ← callback 0xFF600000 4096; mret (status, demo0).

#[local] Abbreviation demo_boot_part := (boot_kernel_part (fun m : list region => m) (fun _ => []) boot_insert (fun _ _ _ => 4096) 1 5 2
  demo_page_heap (fun _ => 4096) demo_system_heap (text "quark 0.1") 0xFF404000 0xFF410000 0x110000 0xFF407000 0xFF407100 0xFF407200 0xFF407300
  0xFF40D000 0xFF40D000 0xFF406000 0xFF405000 1 2 3 4 5 6 7 8 9 demo_cells 0xFEE00900 40 0x110000 boot_bytes ([] : frame_list)
  demo_tables boot_device).

Lemma demo_boot_returns : match demo_boot_start with Ret (Startup _ c) => status_of (demo_boot_part (space c)) | _ => None end <> None.
Proof. by vm_compute. Qed.

Lemma demo_libmalloc_ready : libmalloc_ready (fun _ => []) boot_insert 1 5 2 demo_page_heap (fun _ => 4096) demo_system_heap
  0xFF410000 0x110000 boot_tags 1 (Region 1 0x300000 0x100000) 0x200000 1.
Proof.
  split.
  - assert (Forall (fun f => ~ PHYSICAL_BASE <= f < 0xFF410000 - BASE_DIFF /\ ~ 0x200000 <= f < 0x200000 + 4096 * Z.of_nat 1)
      (frame_addr <$> (Pos.of_nat <$> seq 0x301 15))) as F by (apply (bool_decide_unpack _); by vm_compute).
    intros f Hf. rewrite Forall_forall in F. apply F. by apply elem_of_list_to_set in Hf.
  - intros s Hs. assert (below_window 0xFF600000 4096) as Hb by (by split_and!).
    destruct (mmap_callback_grown 0xFF600000 4096 s Hs Hb) as (r & s' & E & _).
    exists r, demo0, s'. split; [unfold demo_system_heap, mbind, M_mbind; rewrite E; reflexivity|].
    split; [apply rtc_once; by exists 0xFF600000, 4096, r|]. intros _. exists 192, 64, demo_queue_heap, 128, 256.
    split; [by vm_compute|]. split; [done|]. intros k Ek. unfold heap_serves. rewrite Ek.
    eexists _, _, _. split; [by vm_compute|]. split; [done|]. split; [by vm_compute|]. split; [done|]. split; [by vm_compute|done].
Qed.

Lemma power_on_enters_first_process_witness : exists c x k t' s' t ctx,
  let image := module_byte (MM (Mmu boot_words 0) ([] : frame_list)) 0x200000 in
  demo_boot_start = Ret (Startup 0xFF410000 c) /\
  demo_boot_part (space c) = Ret (t', (LoadContext ctx, (entered boot_device k, s'))) /\ tr t' = 43 /\
  procs (objs s') !! active_process (kernel s') = Some x /\ pid x = 1 /\ page_table x = t /\
  byte_at {[t]} 1021 (world s') t 0x400001 = Some 8 /\ byte_at {[t]} 1021 (world s') t 0x300000 = None /\
  ctxs (objs s') !! ctx = Some (initial_registers 0xFF400000 0x400000).
Proof.
  destruct (power_on_enters_first_process (fun m : list region => m) (fun _ => []) boot_insert (fun _ _ _ => 4096) 1 5 2
    demo_page_heap (fun _ => 4096) demo_system_heap (text "quark 0.1")
    0xFF404000 0xFF410000 0x110000 0xFF407000 0xFF407100 0xFF407200 0xFF407300 0xFF40D000 0xFF40D000 0xFF40E000 0xFF40F000 0xFF402000 boot_code
    0xFF406000 0xFF405000 1 2 3 4 5 6 7 8 9 demo_cells 0xFEE00900 40 0x110000 96 boot_bytes boot_tags 4 1 1 0 (Region 1 0x300000 0x100000)
    boot_words 0 (0, 0) [0; 0; 0; 0; 0; 0] ([] : frame_list) demo_tables boot_device 0x200000 0x200057 [107] 1 [demo_header])
    as (c & t' & out & rest & Ec & _ & E & Hrest).
  - exact demo_handed_over.
  - by vm_compute.
  - split; [by split|by split; vm_compute].
  - by vm_compute.
  - apply demo_module_image_ok; [by split|by split; vm_compute|lia|by vm_compute|]. split_and!; by vm_compute.
  - left. by vm_compute.
  - exact demo_libmalloc_ready.
  - pose proof demo_boot_returns as D. rewrite Ec, E in D. destruct (puts out _) as [x| | |]; [|exfalso; exact (D eq_refl)..]. revert D. ostep.
    destruct (Hrest x.2) as [->|(out' & s' & t & ctx & _ & Er & Ht & [M1 _ M3 M4] & _ & (p & Hp & P1 & P2 & _ & Hx))];
      intros D; [exfalso; exact (D eq_refl)|]. rewrite Er in D.
    destruct (puts out' x.2) as [y| | |]; [|exfalso; exact (D eq_refl)..].
    rewrite union_empty_r_L in M3, M4. change (Z.shiftr VIRTUAL_BASE 22) with 1021 in M3, M4.
    exists c, p, y.2, t', s', t, ctx. split; [exact Ec|]. split; [rewrite E; ostep; rewrite Er; reflexivity|].
    split; [apply Ht|]. split; [exact Hp|]. split; [exact P1|]. split; [exact P2|]. split; [|split; [|exact Hx]].
    + rewrite Forall_singleton in M3. exact (M3 eq_refl 1 ltac:(by split)).
    + destruct (byte_at _ _ _ _ 0x300000) eqn:Eb; [|done]. exfalso. destruct (M4 0x300000) as [K|K]; [by rewrite Eb|by vm_compute in K|].
      rewrite Exists_exists in K. destruct K as (h & Hh & _ & [K _]). apply list_elem_of_singleton in Hh as ->.
      clear - K. unfold pages_of in K. cbn [h_vaddr demo_header] in K. lia.
Defined.
